(* ===== verification/_CoqProject ===== *)
-Q . S2P
Prelude.v
Common.v
Arith.v
Alu.v
Bench.v
RegFile.v
Memory.v
Router.v
Timer.v
Csr.v
TrapCause.v
Format.v
Json.v
Ipc.v
Bits.v
DisasTables.v
DisasOpcode.v
DisasOperand.v
Disas.v
DisasText.v
DisasCompressed.v
DisasLine.v
Loader.v
Model.v
Safety.v
Exec.v
Isa.v
Traps.v
Exits.v
Priv.v
Sim.v
System.v
Cli.v
Runtime.v
Handlers.v
