(* ===== verification/Prelude.v ===== *)
(** * A verification development for riscv32-sim

    riscv32-sim is an instruction-set simulator for RV32IM with Zicsr, machine-mode
    traps and a timer.  This library models its C++ under [src/riscv32-sim] as
    functions and transition systems and proves what each part promises to the next.

    ** The program and the files that model it

    A run goes: the command line is parsed ([main.cpp]); the loader reads an ELF file
    and copies its segments into a sparse memory; an address router stands between the
    hart and that memory and owns the two timer registers; the hart repeats [step]
    (fetch, decode, execute, staging its register changes) and [commit] (advance the
    program counter, take a timer interrupt, drop the staged changes); between the two
    the staged changes are logged and exported, and the instruction is disassembled to the
    trace file.  A second thread increments the timer.

    - [Prelude]: outcomes of C++ code ([res]: a value, an exception, or undefined
      behaviour), the state monad over it with Hoare triples, machine words as [Z] with
      their conversions, bit lemmas, arrays indexed by machine integers.
    - [Common]: the interface to the two git submodules whose sources are not here,
      [common/common.hpp] and the decoder, and the two [Platform]s: [strict], where
      signed overflow and over-long shifts are faults, and [wrapping].
    - [Arith], [Alu]: [include/iss/arith.hpp] and [do_alu], [should_branch] of
      [src/iss/model.cpp], against an RV32IM reference; [Bench]: the two benchmarked
      variants of the ALU ([benchmark/]).
    - [RegFile]: [reg_file]; [Csr]: [zicsr/csr.hpp], [csr_file.hpp], [misa.hpp];
      [TrapCause]: [trap_cause.hpp].
    - [Memory]: [sparse_memory_accessor_base] and [sparse_memory_accessor], with the
      interface [ByteStore]/[ByteStoreLaws] over which the wider accesses are proved;
      [Router]: [address_router], a second implementation of that interface.
    - [Format], [Json]: [util/format_helpers.hpp], [util/json_export_helpers.hpp];
      [Ipc]: the echo server of an optional build, [ipc.hpp], [ipc.cpp], over [Asio].
    - The disassembler, [external/riscv-disas]: [Bits], slices of words and packed fields;
      [DisasTables], its enumerations and constant tables; [DisasOpcode],
      [decode_inst_opcode]; [DisasOperand], the extractors, [decode_inst_operands] and an
      assembler for reference; [Disas], decompression, pseudo-instructions and the text in a
      bounded buffer, [disasm_inst] and [inst_fetch]; [DisasText], which operands the text
      shows and what the pseudo-instructions keep; [DisasCompressed], the manual's listings
      of the 16-bit instructions; [DisasLine], what a line determines.
    - [Loader]: [loader.hpp], [loader.cpp] over the ELFIO interface [ElfIO].
    - [Model]: [iss::model], one state transformer per member function, named as in the
      source ([handle_csr] is [model::csr], whose three phases are separate definitions;
      [csr] already names the enumeration; [handle_load], [load] and so on are as there).
    - [Safety]: the invariant [wf_model], the rules [keeps], and that every member
      function preserves the invariant and the trace of staged changes.
    - [Exec]: equations for the member functions as state updates.
    - [Isa]: the abstract RV32IM machine, its interpreter with exit codes, and the
      refinement; [Traps]: exceptions, interrupts, [mret], CSR operations, the exit
      protocol; [Exits]: the refinement extended to the instruction that ends a program;
      [Priv]: the abstract hart with the timer registers, CSRs, modes, traps, access faults
      and the timer interrupt, the refinement of every instruction, and where the two are
      equivalent; [System]: that refinement for the whole run and for the two threads, whose
      every interleaving is a sequence of atomic cycles and timer increments.
    - [Timer]: [mti_source.hpp], [mti_source.cpp]: the timer thread and [set_exiting] as
      programs with one step per access to the flag, the mutex, the condition variable and
      the counter, and their interleavings.
    - [Sim]: [run] of [main.cpp] from the options to the exit line, the trace line that
      [operator<<] writes with [disasm_inst], the transition system of the main loop
      with the threads of [Timer], and [run_outcome], how [run] can end under any
      interleaving ([run] itself is the schedule in which the timer thread makes no step).
    - [Cli]: [main] of [main.cpp], the options it describes to CLI11 and what an accepted
      command line makes of [options].
    - [Runtime]: the C programs under [runtime/basic] that the simulator runs as its tests,
      [timer.c] above all, with the 32-bit [unsigned long] of their ABI; [Handlers]: the trap
      handler and the exit sequences of the architecture tests and the handler of
      [csr_exception.c], as listings of instructions of two or four bytes, run on the
      abstract hart.

    ** How the state corresponds to the code

    A [model] record holds the members of [iss::model] in its order, the referenced
    [options] and [address_router] by value: the hart is the only writer of the router
    but for the timer thread, which [Sim] makes explicit as a separate transition.
    [cur_state] is the hart state of common.hpp.  A register index, a CSR number, an
    address and a word are [Z]; each place where the C++ converts to a narrower type has
    its [u8], [u16], [u32].  [std::array::at] and [std::bitset] throw when out of range;
    operator[] and raw pointers out of range, and a failing [assert] (which a release
    build does not check), are [Undefined].  A text buffer of the disassembler is the C
    string in it and the size of its array.  Nothing under [src/] on the simulation path
    catches an exception, so a failing outcome carries no state.

    ** What is assumed

    [CommonLaws], [DecoderOk]: the submodules behave as the simulator uses them
    (program_counter keeps [pc] and [pc_next] apart and [update] moves one into the other;
    masks and [offset] are what their names say; a decoded operation has register numbers
    below 32, a member of the alternative its target selects, and a 12-bit CSR number).
    [ref_common] and [ref_decoder] realise them, for witnesses only; theorems quantify over
    all instances.  [AsioLaws]: boost::asio runs handlers as it documents.  [ElfIO],
    [JsonLib], [EnumCodes], [PcMembers] and [CliParser] are likewise parameters; [CliLaws]
    states the checks CLI11 makes before it assigns (types, required options, an existing
    file, a group's flag and number of options), and [Cli] has a parser of its own for
    witnesses. The disassembler has no parameter; its left shifts of signed values are two's
    complement, as gcc and clang define them.

    ** What the theorems show

    - From the command line to the exit code: [main_options], what the options are;
      [main_reports_exit_code], where the abstract hart on the image of the file is done,
      [main] without [--dump] and [--step] returns and reports its code, traps, CSRs and
      interrupts included, under every interleaving if no instruction touches a timer
      register ([run_reports_exit_code] is the part from the options on); [run_exit_code] is
      the case of programs of the base set.  The loader copies whole pages, so these theorems
      ask that memory be readable behind the bytes of a segment, to the end of its last page
      ([loadable]); a file alone does not ensure that.
    - Refinement: [simulator_refines_cpu], cycles of the simulator against the abstract hart
      for every instruction; [simulator_is_cpu], on a platform with exact arithmetic the two
      succeed and fail together; [threads_refine_cpu], every state of the two threads is one
      of the abstract hart with an asynchronous counter, and [threads_follow_cpu], which one,
      where no instruction touches a timer register; [simulator_refines_isa], the base set
      against the plain RV32IM machine, [program_exits] with its exit code; [do_alu_refines_rv32im], the ALU against the
      reference; [do_alu_static_equiv], the benchmark variants against the ALU.
    - Safety: [step_safe] and [threads_safe], in every reachable state under every
      interleaving the invariant holds and nothing fails but arithmetic the platform
      leaves undefined; [do_alu_undefined_exactly] says which operands those are.
    - Traces: [step_trace] and [log_replays], the logged changes replay the run under every
      interleaving.
    - Traps: [exception_entry], [interrupt_taken], [timer_interrupt], [mret_returns],
      [csr_operation], [csr_refused], [ecall_exit], [store_to_tohost],
      [exception_return_loses_mode].
    - The run: [run_loop_stops_at_done], [run_from_file], [run_artifacts] (everything a run
      prints and writes), [load_segments_image], [progbit_ranges_exact],
      [loader_open_checks].
    - The timer thread: [set_exiting_returns] (every interleaving ends, joined, with at
      most one more increment), [one_increment_per_interval], [notification_can_be_lost].
    - The test programs: [timer_undefined_under_ilp32], [mtime_reads_clock] and
      [timer_handler_misses_registers], what the timer program does under the ABI of its
      build; [arch_test_traps], the handler of the architecture tests from the trap to the
      exit code, [rvmodel_exits] and [csr_exception_changes_mode];
      [basic_tests_expected], the results the build expects.
    - Output: [change_lines], [op_table], [changes_roundtrip]; the echo server:
      [server_echoes].
    - The disassembler: [decode_inst_opcode_exact], recognition against the architecture
      manual; [assemble_decodes], the round trip through the formats;
      [compressed_reads_as_expansion], the 16-bit instructions against the manual's
      listings; [disasm_decode_typed], the record; [disasm_inst_renders], the bounded buffer
      against the unbounded text; [append_overruns], [pad_to_terminates] and
      [disasm_inst_needs_33_bytes], what smaller buffers do; [line_determines_operands] and
      [mnemonic_separated], the text; [inst_fetch_little_endian]; [disas_trace_of_run], the
      composition with the run.
    - Containers: register files, memory at every width, the router and the forwarding
      members of its base class ([base_widths_disagree]), the loader's copy.
    - Deviations, stated as theorems: [csrrc_clears_everything],
      [interrupt_return_skips], [exception_return_loses_mode], [access_fault_still_executes],
      [timer_array_is_not_read], [router_wide_access_bypasses_timer],
      [timer_counts_modulo_256], [trap_cause_codes], [op_type_from_json_always_throws],
      the over-read in [write_copies_whole_pages], and those of the disassembler in
      [append_overruns], [decode_inst_opcode_exact], [compressed_reads_as_expansion],
      [line_determines_operands] and [mnemonic_separated], the lost wake-up in
      [notification_can_be_lost], and the undefined shifts of the timer program and the
      registers it misses in [timer_undefined_under_ilp32] and
      [timer_handler_misses_registers].

    ** Fuel

    [write_loop] gets one iteration more than the bytes to copy, each iteration copies at
    least one ([write_loop_spec]); [digits] gets the digits of a word, eight in base 16
    and ten in base 10, and sixteen of a 64-bit word.  [pad_to] gets one round for each
    column and the last test ([pad_fuel]): when the column lies in the buffer that is
    enough, and otherwise nothing is ([pad_to_terminates]).
    [run_loop] takes its fuel as an argument, for a simulated program need not end:
    [run_loop_stops_at_done] says that any fuel above the number of cycles to [done] is
    enough and that more changes nothing, and [main_reports_exit_code] that more fuel than
    the abstract hart has cycles is enough for the whole run.  [read_mtime] takes the number
    of iterations: [mtime_reads_clock] says how many are enough.  The timer thread has no
    fuel: its steps after the exit flag are bounded by [set_exiting_returns].

    ** What is not modelled

    The contents of the submodules (the decoder, common.hpp), ELFIO, CLI11, boost::asio,
    spdlog, fmt and nlohmann::json beyond the interfaces named (what CLI11 prints for help or an
    error is not an event of the model, only its exit code is returned); real time, which
    appears only as the end of a wait; the compiler of the test programs, their start-up
    assembly and vector table ([_entry], [base]), [csr_exception.c] but for its trap, and
    the macros of [model_test.h] that are assembler directives; the benchmark harness, which times [do_alu] on random inputs, and
    the unit tests, which call the modelled functions on constants.  [sighandler] and
    [register_signals] are modelled, but nothing in the program calls the latter.  Memory
    exhaustion and I/O errors are outside the model. *)

From Stdlib Require Export ZArith Lia.
From stdpp Require Export base tactics numbers option list gmap strings.

#[global] Open Scope Z_scope.

(** ** Outcomes of C++ code

    An operation of the simulator returns normally, throws, or runs into
    something the C++ standard leaves undefined.  Nothing under [src/] catches an
    exception on the simulation path ([run] and [main] have no handler), so a
    throw ends the run and carries no state. *)

Inductive exn : Set :=
  | out_of_range                          (* std::array::at, std::bitset::test *)
  | bad_variant_access                    (* std::get<T>(variant) *)
  | unexpected_switch_case_value          (* iss::model's own exception *)
  | runtime_error (what : string)
  | loader_error (what : string).

Inductive ub : Set :=
  | ub_signed_overflow
  | ub_shift_count
  | ub_out_of_bounds                      (* operator[], raw pointers, memcpy *)
  | ub_assert.                            (* a failing assert; unchecked under NDEBUG *)

Inductive fault : Set :=
  | Thrown (e : exn)
  | Undefined (u : ub)
  | OutOfFuel.                            (* a loop model that ran out of iterations *)

Inductive res (A : Type) : Type :=
  | Ok (a : A)
  | Fail (f : fault).
Arguments Ok {A} a.
Arguments Fail {A} f.

#[export] Instance exn_eq_dec : EqDecision exn.
Proof. solve_decision. Defined.
#[export] Instance ub_eq_dec : EqDecision ub.
Proof. solve_decision. Defined.
#[export] Instance fault_eq_dec : EqDecision fault.
Proof. solve_decision. Defined.

#[export] Instance res_ret : MRet res := λ A a, Ok a.
#[export] Instance res_bind : MBind res := λ A B f r,
  match r with Ok a => f a | Fail e => Fail e end.

Definition or_fail {A} (f : fault) (o : option A) : res A :=
  match o with Some a => Ok a | None => Fail f end.

Lemma res_bind_ok {A B} (a : A) (k : A → res B) : (Ok a ≫= k) = k a.
Proof. reflexivity. Qed.
Lemma res_bind_fail {A B} f (k : A → res B) : (Fail f ≫= k) = Fail f.
Proof. reflexivity. Qed.
Lemma res_bind_inv {A B} (r : res A) (k : A → res B) b :
  (r ≫= k) = Ok b → ∃ a, r = Ok a ∧ k a = Ok b.
Proof. destruct r as [a|f]; [by exists a | done]. Qed.

(** [sat E r Q]: [r] returns a value satisfying [Q], or fails in a way [E] tolerates. *)
Definition sat {A} (E : fault → Prop) (r : res A) (Q : A → Prop) : Prop :=
  match r with Ok a => Q a | Fail f => E f end.

Definition no_fault : fault → Prop := λ _, False.

Section sat.
Context {A B : Type} (E : fault → Prop).
Implicit Types (r : res A) (Q : A → Prop) (k : A → res B).

Lemma sat_bind r k (R : B → Prop) :
  sat E r (λ a, sat E (k a) R) → sat E (r ≫= k) R.
Proof. by destruct r. Qed.

Lemma sat_weaken r Q Q' : sat E r Q → (∀ a, Q a → Q' a) → sat E r Q'.
Proof. destruct r; simpl; auto. Qed.

Lemma sat_fault (E' : fault → Prop) r Q :
  sat E r Q → (∀ f, E f → E' f) → sat E' r Q.
Proof. destruct r; simpl; auto. Qed.

Lemma sat_or_fail f (o : option A) Q :
  (∃ a, o = Some a ∧ Q a) → sat E (or_fail f o) Q.
Proof. by intros (a & -> & HQ). Qed.
End sat.

Lemma sat_no_fault {A} (r : res A) Q :
  sat no_fault r Q → ∃ a, r = Ok a ∧ Q a.
Proof. destruct r as [a|f]; simpl; [eauto | done]. Qed.

(** ** State-passing over [res] *)

Definition stateM (S A : Type) : Type := S → res (A * S).

#[export] Instance stateM_ret {S} : MRet (stateM S) := λ A a s, Ok (a, s).
#[export] Instance stateM_bind {S} : MBind (stateM S) := λ A B f m s,
  match m s with Ok (a, s') => f a s' | Fail e => Fail e end.

Section state.
Context {S : Type}.

Definition gets {A} (f : S → A) : stateM S A := λ s, Ok (f s, s).
Definition modify (f : S → S) : stateM S unit := λ s, Ok (tt, f s).
Definition lift {A} (r : res A) : stateM S A := λ s,
  match r with Ok a => Ok (a, s) | Fail e => Fail e end.
Definition fail {A} (f : fault) : stateM S A := λ _, Fail f.
Definition skip : stateM S unit := λ s, Ok (tt, s).

Lemma bind_gets {A B} (f : S → A) (k : A → stateM S B) s :
  (gets f ≫= k) s = k (f s) s.
Proof. reflexivity. Qed.
Lemma bind_modify {B} (f : S → S) (k : unit → stateM S B) s :
  (modify f ≫= k) s = k tt (f s).
Proof. reflexivity. Qed.
Lemma bind_ret {A B} (a : A) (k : A → stateM S B) s :
  ((mret a : stateM S A) ≫= k) s = k a s.
Proof. reflexivity. Qed.
Lemma bind_lift_ok {A B} (a : A) (k : A → stateM S B) s :
  (lift (Ok a) ≫= k) s = k a s.
Proof. reflexivity. Qed.
Lemma bind_ok {A B} (m : stateM S A) (k : A → stateM S B) s a s' :
  m s = Ok (a, s') → (m ≫= k) s = k a s'.
Proof. unfold mbind, stateM_bind. by intros ->. Qed.
Lemma bind_skip (m : stateM S unit) s : (m ≫= λ _, skip) s = m s.
Proof. unfold mbind, stateM_bind. by destruct (m s) as [[[] s']|]. Qed.
Lemma bind_assoc {A B C} (m : stateM S A) (k : A → stateM S B) (h : B → stateM S C) s :
  ((m ≫= k) ≫= h) s = (m ≫= (λ a, k a ≫= h)) s.
Proof. unfold mbind, stateM_bind. by destruct (m s) as [[a s']|]. Qed.

(** Hoare triples: from a state in [P], [m] ends in [Q], or fails within [E]. *)
Definition triple {A} (E : fault → Prop) (P : S → Prop) (m : stateM S A)
    (Q : A → S → Prop) : Prop :=
  ∀ s, P s → sat E (m s) (λ '(a, s'), Q a s').

Lemma triple_bind {A B} E P (m : stateM S A) (k : A → stateM S B) Q R :
  triple E P m Q → (∀ a, triple E (Q a) (k a) R) → triple E P (m ≫= k) R.
Proof.
  intros Hm Hk s HP. specialize (Hm s HP). unfold mbind, stateM_bind.
  destruct (m s) as [[a s']|f]; simpl in *; [by apply Hk | done].
Qed.
Lemma triple_weaken {A} E (P P' : S → Prop) (m : stateM S A) (Q Q' : A → S → Prop) :
  triple E P m Q → (∀ s, P' s → P s) → (∀ a s, Q a s → Q' a s) → triple E P' m Q'.
Proof.
  intros Hm HP HQ s Hs. eapply sat_weaken; [apply Hm; auto |]. intros [a s']; auto.
Qed.
Lemma triple_ret {A} E (a : A) (Q : A → S → Prop) : triple E (Q a) (mret a) Q.
Proof. by intros s HQ. Qed.
Lemma triple_skip E (Q : unit → S → Prop) : triple E (Q tt) skip Q.
Proof. by intros s HQ. Qed.
Lemma triple_gets {A} E (f : S → A) (Q : A → S → Prop) :
  triple E (λ s, Q (f s) s) (gets f) Q.
Proof. by intros s HQ. Qed.
Lemma triple_modify E (f : S → S) (Q : unit → S → Prop) :
  triple E (λ s, Q tt (f s)) (modify f) Q.
Proof. by intros s HQ. Qed.
Lemma triple_lift {A} E (r : res A) (Q : A → S → Prop) :
  triple E (λ s, sat E r (λ a, Q a s)) (lift r) Q.
Proof. intros s HQ. by destruct r. Qed.
Lemma triple_if {A} E P (b : bool) (m1 m2 : stateM S A) Q :
  (b = true → triple E P m1 Q) → (b = false → triple E P m2 Q) →
  triple E P (if b then m1 else m2) Q.
Proof. destruct b; auto. Qed.
End state.

Arguments stateM : clear implicits.

(** ** Fixed-width integers *)

Definition u8 (z : Z) : Z := z mod 2 ^ 8.
Definition u16 (z : Z) : Z := z mod 2 ^ 16.
Definition u32 (z : Z) : Z := z mod 2 ^ 32.
Definition u64 (z : Z) : Z := z mod 2 ^ 64.

(** Conversion to [int32_t]: two's complement (C++20 [conv.integral]). *)
Definition s32 (z : Z) : Z :=
  let w := u32 z in if w <? 2 ^ 31 then w else w - 2 ^ 32.
Definition s64 (z : Z) : Z := let w := u64 z in if w <? 2 ^ 63 then w else w - 2 ^ 64.

Abbreviation is_u8 z := (0 ≤ z < 2 ^ 8).
Abbreviation is_u16 z := (0 ≤ z < 2 ^ 16).
Abbreviation is_u32 z := (0 ≤ z < 2 ^ 32).
Abbreviation is_u64 z := (0 ≤ z < 2 ^ 64).
Abbreviation is_s32 z := (- 2 ^ 31 ≤ z < 2 ^ 31).

Create HintDb word discriminated.

(** [word] closes linear goals over the width conversions. *)
Ltac word :=
  unfold s32, u8, u16, u32, u64 in *; simpl Z.pow in *;
  repeat match goal with
  | |- context [if ?b then _ else _] => destruct b eqn:?
  | H : context [if ?b then _ else _] |- _ => destruct b eqn:?
  end;
  Z.to_euclidean_division_equations; lia.

Lemma u8_range z : is_u8 (u8 z). Proof. apply Z.mod_pos_bound; lia. Qed.
Lemma u16_range z : is_u16 (u16 z). Proof. apply Z.mod_pos_bound; lia. Qed.
Lemma u32_range z : is_u32 (u32 z). Proof. apply Z.mod_pos_bound; lia. Qed.
Lemma u64_range z : is_u64 (u64 z). Proof. apply Z.mod_pos_bound; lia. Qed.
Lemma u8_small z : is_u8 z → u8 z = z. Proof. apply Z.mod_small. Qed.
Lemma u16_small z : is_u16 z → u16 z = z. Proof. apply Z.mod_small. Qed.
Lemma u32_small z : is_u32 z → u32 z = z. Proof. apply Z.mod_small. Qed.
Lemma u64_small z : is_u64 z → u64 z = z. Proof. apply Z.mod_small. Qed.
Lemma u32_u32 z : u32 (u32 z) = u32 z. Proof. apply Z.mod_mod; lia. Qed.

Lemma s32_range z : is_s32 (s32 z). Proof. word. Qed.
Lemma s32_small z : is_s32 z → s32 z = z. Proof. intros; word. Qed.
Lemma u32_s32 z : u32 (s32 z) = u32 z. Proof. word. Qed.
Lemma s32_u32 z : s32 (u32 z) = s32 z. Proof. unfold s32. by rewrite u32_u32. Qed.
Lemma s32_inj a b : is_u32 a → is_u32 b → s32 a = s32 b → a = b.
Proof. intros; word. Qed.
Lemma u32_add_l a b : u32 (u32 a + b) = u32 (a + b).
Proof. apply Z.add_mod_idemp_l; lia. Qed.
Lemma u32_add_r a b : u32 (a + u32 b) = u32 (a + b).
Proof. apply Z.add_mod_idemp_r; lia. Qed.

#[export] Hint Resolve u8_range u16_range u32_range u64_range s32_range : word.
Create Rewrite HintDb word_rw.
#[export] Hint Rewrite u32_u32 u32_s32 s32_u32 u32_add_l u32_add_r : word_rw.

(** ** Bits *)

Lemma bits_bound n a : 0 ≤ n → 0 ≤ a < 2 ^ n ↔ Z.land a (Z.ones n) = a.
Proof.
  intros Hn. rewrite Z.land_ones by done.
  assert (0 < 2 ^ n) by (by apply Z.pow_pos_nonneg; lia).
  split; [apply Z.mod_small |]. intros <-. by apply Z.mod_pos_bound.
Qed.

Lemma land_bound n a b : 0 ≤ n → 0 ≤ a < 2 ^ n → 0 ≤ Z.land a b < 2 ^ n.
Proof.
  intros Hn Ha. apply bits_bound in Ha; [|done]. apply bits_bound; [done|].
  by rewrite <-Z.land_assoc, (Z.land_comm b), Z.land_assoc, Ha.
Qed.
Lemma land_bound_r n a b : 0 ≤ n → 0 ≤ b < 2 ^ n → 0 ≤ Z.land a b < 2 ^ n.
Proof. intros. rewrite Z.land_comm. by apply land_bound. Qed.
Lemma lor_bound n a b :
  0 ≤ n → 0 ≤ a < 2 ^ n → 0 ≤ b < 2 ^ n → 0 ≤ Z.lor a b < 2 ^ n.
Proof.
  intros Hn Ha Hb. apply bits_bound in Ha, Hb; [|done..]. apply bits_bound; [done|].
  by rewrite Z.land_lor_distr_l, Ha, Hb.
Qed.
Lemma lxor_bound n a b :
  0 ≤ n → 0 ≤ a < 2 ^ n → 0 ≤ b < 2 ^ n → 0 ≤ Z.lxor a b < 2 ^ n.
Proof.
  intros Hn Ha Hb. apply bits_bound in Ha, Hb; [|done..]. apply bits_bound; [done|].
  rewrite <-Ha, <-Hb at 2. apply Z.bits_inj'. intros i Hi.
  rewrite !Z.land_spec, !Z.lxor_spec, !Z.land_spec.
  destruct (Z.testbit (Z.ones n) i); by rewrite ?andb_true_r, ?andb_false_r.
Qed.
Lemma setbit_bound n a i :
  0 ≤ i < n → 0 ≤ a < 2 ^ n → 0 ≤ Z.setbit a i < 2 ^ n.
Proof.
  intros Hi Ha. rewrite Z.setbit_spec'. apply lor_bound; [lia|done|].
  split; [apply Z.pow_nonneg; lia | apply Z.pow_lt_mono_r; lia].
Qed.
Lemma clearbit_bound n a i :
  0 ≤ n → 0 ≤ a < 2 ^ n → 0 ≤ Z.clearbit a i < 2 ^ n.
Proof.
  intros Hn Ha. apply bits_bound in Ha; [|done]. apply bits_bound; [done|].
  rewrite <-Ha at 2. rewrite !Z.clearbit_spec'. apply Z.bits_inj'. intros j Hj.
  rewrite !Z.land_spec, !Z.ldiff_spec, Z.land_spec.
  rewrite <-!andb_assoc. f_equal. apply andb_comm.
Qed.

(** Masks that clear the low [n] bits of a word. *)
Lemma land_high_mask a n : is_u32 a → 0 ≤ n ≤ 32 →
  Z.land a (Z.ldiff (Z.ones 32) (Z.ones n)) = 2 ^ n * (a / 2 ^ n).
Proof.
  intros Ha Hn. rewrite Z.ldiff_land, Z.land_assoc, (proj1 (bits_bound 32 a ltac:(lia))) by lia.
  rewrite <-Z.ldiff_land, Z.ldiff_ones_r by lia.
  by rewrite Z.shiftl_mul_pow2, Z.shiftr_div_pow2, Z.mul_comm by lia.
Qed.

(** A value whose low [n] bits are clear, or-ed with an [n]-bit value, is their sum. *)
Lemma lor_disjoint_add n a b : 0 ≤ n → 0 ≤ b < 2 ^ n → Z.lor (Z.shiftl a n) b = a * 2 ^ n + b.
Proof.
  intros Hn Hb. rewrite <-Z.shiftl_mul_pow2 by done.
  rewrite Z.add_nocarry_lxor, Z.lxor_lor; [done| |];
    apply Z.bits_inj'; intros i Hi; rewrite Z.land_spec, Z.bits_0;
    (destruct (decide (i < n)) as [Hlt|Hge];
      [ by rewrite Z.shiftl_spec_low
      | apply bits_bound in Hb; [|done]; rewrite <-Hb, Z.land_spec, Z.ones_spec_high by lia;
        by rewrite !andb_false_r ]).
Qed.

(** Little-endian composition of two disjoint fields. *)
Lemma lor_le n a b : 0 ≤ n → 0 ≤ a < 2 ^ n → Z.lor a (Z.shiftl b n) = a + b * 2 ^ n.
Proof. intros. rewrite Z.lor_comm, lor_disjoint_add by done. lia. Qed.

(** The promotion to [int] of a half-word in the upper half does not show. *)
Lemma compose16 lo hi : is_u16 lo → is_u16 hi →
  u32 (Z.lor lo (s32 (Z.shiftl hi 16))) = lo + 2 ^ 16 * hi.
Proof.
  intros Hlo Hhi. unfold s32. rewrite Z.shiftl_mul_pow2, (u32_small (hi * 2 ^ 16)) by lia.
  destruct (_ <? _) eqn:Hs.
  - rewrite <-Z.shiftl_mul_pow2, lor_le by lia. rewrite u32_small; lia.
  - replace (hi * 2 ^ 16 - 2 ^ 32) with (Z.shiftl (hi - 2 ^ 16) 16) by (rewrite Z.shiftl_mul_pow2; lia).
    rewrite lor_le by lia. unfold u32. symmetry. apply Z.mod_unique with (q := -1); lia.
Qed.
Lemma compose32 lo hi : is_u32 lo → is_u32 hi →
  u64 (Z.lor lo (u64 (Z.shiftl hi 32))) = lo + 2 ^ 32 * hi.
Proof.
  intros Hlo Hhi. rewrite (u64_small (Z.shiftl _ _)) by (rewrite Z.shiftl_mul_pow2 by lia; lia).
  rewrite lor_le by lia. rewrite u64_small; lia.
Qed.

(** ** Arrays indexed by machine integers *)

Definition nth_z {A} (l : list A) (i : Z) : option A :=
  if 0 <=? i then l !! Z.to_nat i else None.
Definition set_z {A} (l : list A) (i : Z) (x : A) : option (list A) :=
  if (0 <=? i) && (i <? Z.of_nat (length l)) then Some (<[Z.to_nat i := x]> l) else None.

Section arrays.
Context {A : Type}.
Implicit Types (l : list A) (x : A) (i j : Z).

Lemma nth_z_lt l i : 0 ≤ i < Z.of_nat (length l) → ∃ x, nth_z l i = Some x.
Proof.
  intros Hi. unfold nth_z. rewrite (proj2 (Z.leb_le _ _)) by lia.
  apply lookup_lt_is_Some_2. lia.
Qed.
Lemma nth_z_Some l i x : nth_z l i = Some x → 0 ≤ i < Z.of_nat (length l).
Proof.
  unfold nth_z. destruct (Z.leb_spec 0 i); [|done].
  intros Hx%lookup_lt_Some. lia.
Qed.
Lemma set_z_Some l i x :
  0 ≤ i < Z.of_nat (length l) → set_z l i x = Some (<[Z.to_nat i := x]> l).
Proof.
  intros Hi. unfold set_z.
  by rewrite (proj2 (Z.leb_le _ _)), (proj2 (Z.ltb_lt _ _)) by lia.
Qed.
Lemma set_z_inv l i x l' :
  set_z l i x = Some l' → 0 ≤ i < Z.of_nat (length l) ∧ l' = <[Z.to_nat i := x]> l.
Proof.
  unfold set_z. destruct (Z.leb_spec 0 i), (Z.ltb_spec i (Z.of_nat (length l)));
    simpl; intros; simplify_eq; done.
Qed.
Lemma nth_z_insert_eq l i x :
  0 ≤ i < Z.of_nat (length l) → nth_z (<[Z.to_nat i := x]> l) i = Some x.
Proof.
  intros Hi. unfold nth_z. rewrite (proj2 (Z.leb_le _ _)) by lia.
  apply list_lookup_insert_eq. lia.
Qed.
Lemma nth_z_insert_ne l i j x :
  0 ≤ i → i ≠ j → nth_z (<[Z.to_nat i := x]> l) j = nth_z l j.
Proof.
  intros Hi Hij. unfold nth_z. destruct (Z.leb_spec 0 j); [|done].
  apply list_lookup_insert_ne. lia.
Qed.
Lemma nth_z_Forall (P : A → Prop) l i x : Forall P l → nth_z l i = Some x → P x.
Proof.
  intros HP. unfold nth_z. destruct (0 <=? i); [|done].
  intros Hx. by eapply Forall_lookup_1.
Qed.
Lemma Forall_insert_z (P : A → Prop) l i x :
  Forall P l → P x → Forall P (<[Z.to_nat i := x]> l).
Proof. intros. by apply Forall_insert. Qed.
Lemma nth_z_replicate n x i : 0 ≤ i < Z.of_nat n → nth_z (replicate n x) i = Some x.
Proof.
  intros Hi. unfold nth_z. rewrite (proj2 (Z.leb_le _ _)) by lia.
  apply lookup_replicate_2. lia.
Qed.
End arrays.

(** What a test accepts in every element holds of every element. *)
Lemma Forall_check {A} (P : A → Prop) (f : A → bool) (l : list A) :
  (∀ x, f x = true → P x) → forallb f l = true → Forall P l.
Proof.
  intros Hf. induction l as [|x l IH]; [by constructor|]. simpl. intros [Hx Hl]%andb_prop.
  constructor; auto.
Qed.

(** ** Switches

    A C [switch] each of whose cases ends in a [break]: the first case with the value. *)

Fixpoint switch {A} (x : Z) (cases : list (Z * A)) (default : A) : A :=
  match cases with
  | [] => default
  | (k, a) :: cases => if x =? k then a else switch x cases default
  end.

(** What holds of the default, and of each case when the switch has its value, holds of
    the result. *)
Lemma switch_ind {A} (P : A → Prop) x (cases : list (Z * A)) d :
  Forall (λ c, x = c.1 → P c.2) cases → P d → P (switch x cases d).
Proof.
  intros Hc Hd. induction Hc as [|[k a] cases Hk _ IH]; simpl; [done|].
  destruct (Z.eqb_spec x k); [by apply Hk | done].
Qed.
