(* ===== verification/Common.v ===== *)
(** * The code the simulator takes from outside [src/]

    [common/common.hpp] (library riscv32-sim-common) and the decoder
    (riscv32-decoder) are git submodules whose directories are empty here.  They
    are parameters: the enumerations and records are those whose enumerators and
    fields [src/] names (util/format_helpers.hpp, util/json_export_helpers.hpp,
    iss/model.cpp); the functions and constants are the fields of [CommonLib] and
    [Decoder]; what the simulator relies on is [CommonLaws] and [DecoderOk].
    [ref_common] shows the laws can hold; it is used by witnesses only. *)

From S2P Require Export Prelude.

(** ** Enumerations

    A C++ scoped enumeration also has the values no enumerator names; they reach
    the [default:] branches, so each type has an [unnamed] constructor. *)

Inductive alu : Set :=
  | _and | _or | _xor | _add | _sub | _sll | _srl | _sra | _slt | _sltu
  | _mul | _mulh | _mulhsu | _mulhu | _div | _divu | _rem | _remu
  | _auipc | _jal | _jalr
  | alu_unnamed (v : Z).

Module masks.
Inductive branch : Set :=
  | beq | bne | blt | bge | bltu | bgeu | branch_unnamed (v : Z).
Inductive load : Set := lb | lh | lw | lbu | lhu | load_unnamed (v : Z).
Inductive store : Set := sb | sh | sw | store_unnamed (v : Z).
Inductive sys : Set :=
  | csrrw | csrrs | csrrc | csrrwi | csrrsi | csrrci | other | sys_unnamed (v : Z).
End masks.

Module target.
Inductive target : Set :=
  | load | store | alu | branch | csr | mret | ecall | illegal | ebreak
  | target_unnamed (v : Z).
End target.

(** [op_type] is a [std::variant]. *)
Inductive op_type : Set :=
  | op_monostate
  | op_alu (a : alu)
  | op_load (l : masks.load)
  | op_store (s : masks.store)
  | op_branch (b : masks.branch)
  | op_sys (s : masks.sys).

#[export] Instance alu_eq_dec : EqDecision alu.
Proof. solve_decision. Defined.
#[export] Instance branch_eq_dec : EqDecision masks.branch.
Proof. solve_decision. Defined.
#[export] Instance load_eq_dec : EqDecision masks.load.
Proof. solve_decision. Defined.
#[export] Instance store_eq_dec : EqDecision masks.store.
Proof. solve_decision. Defined.
#[export] Instance sys_eq_dec : EqDecision masks.sys.
Proof. solve_decision. Defined.
#[export] Instance target_eq_dec : EqDecision target.target.
Proof. solve_decision. Defined.
#[export] Instance op_type_eq_dec : EqDecision op_type.
Proof. solve_decision. Defined.

(** The kinds and members the code names. *)
Definition named (o : op_type) : bool :=
  match o with
  | op_alu (alu_unnamed _) | op_load (masks.load_unnamed _) | op_store (masks.store_unnamed _)
  | op_branch (masks.branch_unnamed _) | op_sys (masks.sys_unnamed _) => false
  | _ => true
  end.
Definition named_target (t : target.target) : bool :=
  match t with target.target_unnamed _ => false | _ => true end.

(** [std::get<T>(variant)] throws when the variant holds another alternative. *)
Definition get_alu (o : op_type) : res alu :=
  match o with op_alu a => Ok a | _ => Fail (Thrown bad_variant_access) end.
Definition get_load (o : op_type) : res masks.load :=
  match o with op_load a => Ok a | _ => Fail (Thrown bad_variant_access) end.
Definition get_store (o : op_type) : res masks.store :=
  match o with op_store a => Ok a | _ => Fail (Thrown bad_variant_access) end.
Definition get_branch (o : op_type) : res masks.branch :=
  match o with op_branch a => Ok a | _ => Fail (Thrown bad_variant_access) end.
Definition get_sys (o : op_type) : res masks.sys :=
  match o with op_sys a => Ok a | _ => Fail (Thrown bad_variant_access) end.

(** ** Records *)

Record op : Set := mk_op {
  imm : Z; opt : op_type; tgt : target.target;
  rd : Z; rs1 : Z; rs2 : Z;
  has_imm : bool; use_pc : bool; is_compressed : bool
}.

Record gpr_change : Set := mk_gpr_change { g_index : Z; g_prev : Z; g_next : Z }.
Record csr_change : Set := mk_csr_change { c_index : Z; c_prev : Z; c_next : Z }.

#[export] Instance op_eq_dec : EqDecision op.
Proof. solve_decision. Defined.
#[export] Instance gpr_change_eq_dec : EqDecision gpr_change.
Proof. solve_decision. Defined.
#[export] Instance csr_change_eq_dec : EqDecision csr_change.
Proof. solve_decision. Defined.

(** ** Functions and constants of common.hpp *)

Class CommonLib := {
  program_counter : Type;
  pc_of : Z → program_counter;                     (* construction from an address *)
  pc_get : program_counter → Z;                    (* operator uint32_t *)
  pc_set : Z → program_counter → program_counter;  (* set *)
  pc_update : program_counter → program_counter;   (* update *)
  offset : Z → Z → Z → Z;                          (* offset(x, lo, hi) *)
  to_int : Z → Z;                                  (* of an enumerator's value *)
  sign_bit : Z;                                    (* masks::sign_bit *)
  msb_zero : Z;                                    (* masks::msb_zero *)
  lsb_zero : Z;                                    (* masks::lsb_zero *)
  base_addr : Z;                                   (* masks::tvec::base_addr *)
  dec_init : op;                                   (* hart_state's first [dec] *)
  instr_init : Z                                   (* hart_state's first [instr] *)
}.

Class CommonLaws `{CommonLib} := {
  pc_get_of a : pc_get (pc_of a) = a;
  pc_get_set a p : pc_get (pc_set a p) = pc_get p;
  pc_get_update_set a p : pc_get (pc_update (pc_set a p)) = a;
  pc_get_update_update p : pc_get (pc_update (pc_update p)) = pc_get (pc_update p);
  pc_set_set a b p : pc_set a (pc_set b p) = pc_set a p;
  offset_spec x lo hi :
    is_u32 x → 0 ≤ lo ≤ hi → hi < 32 → offset x lo hi = (x / 2 ^ lo) mod 2 ^ (hi - lo + 1);
  to_int_id v : to_int v = v;
  sign_bit_val : sign_bit = 0x80000000;
  msb_zero_val : msb_zero = 0x7FFFFFFF;
  lsb_zero_val : lsb_zero = 0xFFFFFFFE;
  base_addr_val : base_addr = 0xFFFFFFFC
}.

(** [hart_state], with the fields the JSON export lists. *)
Record hart_state `{CommonLib} := mk_hart_state {
  pc : program_counter;
  instr : Z;
  dec : op;
  gpr_staged : list gpr_change;
  csr_staged : list csr_change
}.

Definition hart_state_of `{CommonLib} (entry : Z) : hart_state :=
  mk_hart_state _ (pc_of entry) instr_init dec_init [] [].

(** ** The decoder *)

Class Decoder := {
  decode : Z → op;     (* a 32-bit encoding *)
  decode16 : Z → op    (* a compressed encoding, in the low half of the word *)
}.

(** A decoded operation the model can execute: register numbers name registers,
    the immediate is a word, and [opt] holds a named member of the alternative
    [tgt] selects; a CSR operation's [imm] is a 12-bit CSR number. *)
Definition alu_named (a : alu) : bool :=
  match a with alu_unnamed _ => false | _ => true end.

Definition opt_matches (o : op) : bool :=
  match tgt o, opt o with
  | target.alu, op_alu a => alu_named a
  | target.load, op_load l => match l with masks.load_unnamed _ => false | _ => true end
  | target.store, op_store s => match s with masks.store_unnamed _ => false | _ => true end
  | target.branch, op_branch b => match b with masks.branch_unnamed _ => false | _ => true end
  | target.csr, op_sys _ => imm o <? 4096
  | target.alu, _ | target.load, _ | target.store, _ | target.branch, _ | target.csr, _ => false
  | _, _ => true
  end.

Record wf_op (o : op) : Prop := {
  wf_imm : is_u32 (imm o);
  wf_rd : 0 ≤ rd o < 32;
  wf_rs1 : 0 ≤ rs1 o < 32;
  wf_rs2 : 0 ≤ rs2 o < 32;
  wf_opt : opt_matches o = true
}.

Class DecoderOk `{Decoder} := {
  decode_wf w : is_u32 w → wf_op (decode w);
  decode16_wf w : is_u32 w → wf_op (decode16 w);
  decode_size w : is_compressed (decode w) = false;
  decode16_size w : is_compressed (decode16 w) = true
}.

(** ** What a compiled program does where the standard leaves it undefined

    Signed overflow and a shift count that is not below the operand's width are
    undefined behaviour.  A [Platform] says what a build does there; [strict]
    makes both a fault, [wrapping] is two's complement arithmetic
    ([-fwrapv]) with the count taken modulo 32, as x86 and RISC-V hosts do. *)
Class Platform := {
  on_signed_overflow : Z → res Z;   (* given the exact value *)
  on_shift_count : Z → res Z        (* given the count; answers the count used *)
}.

Definition strict : Platform := {|
  on_signed_overflow := λ _, Fail (Undefined ub_signed_overflow);
  on_shift_count := λ _, Fail (Undefined ub_shift_count) |}.
Definition wrapping : Platform := {|
  on_signed_overflow := λ z, Ok (s32 z);
  on_shift_count := λ n, Ok (n mod 32) |}.

(** The faults a platform can show, and that its values are of the right type. *)
Class PlatformOk (P : Platform) (E : fault → Prop) := {
  overflow_sat z : sat E (on_signed_overflow z) (λ r, is_s32 r);
  shift_sat n : sat E (on_shift_count n) (λ r, 0 ≤ r < 32)
}.

Definition arith_ub (f : fault) : Prop :=
  f = Undefined ub_signed_overflow ∨ f = Undefined ub_shift_count.

#[export] Instance strict_ok : PlatformOk strict arith_ub.
Proof. split; intros; [by left | by right]. Qed.
#[export] Instance wrapping_ok : PlatformOk wrapping no_fault.
Proof. split; intros; simpl; [apply s32_range | apply Z.mod_pos_bound; lia]. Qed.

(** [int] arithmetic: exact when representable. *)
Definition int_result `{Platform} (z : Z) : res Z :=
  if (- 2 ^ 31 <=? z) && (z <? 2 ^ 31) then Ok z else on_signed_overflow z.
Definition shift_amount `{Platform} (n : Z) : res Z :=
  if (0 <=? n) && (n <? 32) then Ok n else on_shift_count n.

Lemma int_result_exact `{Platform} z : is_s32 z → int_result z = Ok z.
Proof.
  intros. unfold int_result.
  by rewrite (proj2 (Z.leb_le _ _)), (proj2 (Z.ltb_lt _ _)) by lia.
Qed.
Lemma int_result_wrapping z : int_result (H := wrapping) z = Ok (s32 z).
Proof.
  unfold int_result. destruct (_ && _) eqn:Hb; [|done].
  apply andb_true_iff in Hb as [?%Z.leb_le ?%Z.ltb_lt]. by rewrite s32_small by lia.
Qed.
Lemma int_result_sat {P : Platform} `{!PlatformOk P E} z : sat E (int_result z) (λ r, is_s32 r).
Proof.
  unfold int_result. destruct (_ && _) eqn:Hb; [|apply overflow_sat].
  apply andb_true_iff in Hb as [?%Z.leb_le ?%Z.ltb_lt]. simpl. lia.
Qed.
Lemma shift_amount_exact `{Platform} n : 0 ≤ n < 32 → shift_amount n = Ok n.
Proof.
  intros. unfold shift_amount.
  by rewrite (proj2 (Z.leb_le _ _)), (proj2 (Z.ltb_lt _ _)) by lia.
Qed.
Lemma shift_amount_wrapping n : shift_amount (H := wrapping) n = Ok (n mod 32).
Proof.
  unfold shift_amount. destruct (_ && _) eqn:Hb; [|done].
  apply andb_true_iff in Hb as [?%Z.leb_le ?%Z.ltb_lt]. by rewrite Z.mod_small by lia.
Qed.
Lemma shift_amount_sat {P : Platform} `{!PlatformOk P E} n : sat E (shift_amount n) (λ r, 0 ≤ r < 32).
Proof.
  unfold shift_amount. destruct (_ && _) eqn:Hb; [|apply shift_sat].
  apply andb_true_iff in Hb as [?%Z.leb_le ?%Z.ltb_lt]. simpl. lia.
Qed.

(** ** An instance of the laws, for witnesses *)

Definition ref_offset (x lo hi : Z) : Z := Z.land (Z.shiftr x lo) (Z.ones (hi - lo + 1)).

Definition nop : op :=
  mk_op 0 (op_alu _add) target.alu 0 0 0 true false false.

Definition ref_common : CommonLib := {|
  program_counter := Z * Z;
  pc_of := λ a, (a, a);
  pc_get := fst;
  pc_set := λ a p, (fst p, a);
  pc_update := λ p, (snd p, snd p);
  offset := ref_offset;
  to_int := λ v, v;
  sign_bit := 0x80000000;
  msb_zero := 0x7FFFFFFF;
  lsb_zero := 0xFFFFFFFE;
  base_addr := 0xFFFFFFFC;
  dec_init := nop;
  instr_init := 0 |}.

#[export] Instance ref_common_laws : @CommonLaws ref_common.
Proof.
  split; try done. intros x lo hi Hx Hlo Hhi. simpl. unfold ref_offset.
  by rewrite Z.shiftr_div_pow2, Z.land_ones by lia.
Qed.

(** A decoder for a few encodings: [addi], [sw], the CSR operations, [ecall] and
    [mret]; everything else is illegal. *)
Definition field (w lo n : Z) : Z := (w / 2 ^ lo) mod 2 ^ n.
Definition sext12 (v : Z) : Z := if v <? 2048 then v else v + 2 ^ 32 - 4096.

Definition ref_sys (funct3 : Z) : masks.sys :=
  if funct3 =? 1 then masks.csrrw else if funct3 =? 2 then masks.csrrs
  else if funct3 =? 3 then masks.csrrc else if funct3 =? 5 then masks.csrrwi
  else if funct3 =? 6 then masks.csrrsi else masks.csrrci.

Definition ref_decode (compressed : bool) (w : Z) : op :=
  let rd := field w 7 5 in let r1 := field w 15 5 in let r2 := field w 20 5 in
  let funct3 := field w 12 3 in
  let opcode := field w 0 7 in
  if (opcode =? 0x13) && (funct3 =? 0) && negb compressed then
    mk_op (sext12 (field w 20 12)) (op_alu _add) target.alu rd r1 r2 true false compressed
  else if (opcode =? 0x23) && (funct3 =? 2) && negb compressed then
    mk_op (sext12 (field w 25 7 * 32 + rd)) (op_store masks.sw) target.store 0 r1 r2 true false compressed
  else if w =? 0x73 then mk_op 0 op_monostate target.ecall 0 0 0 false false compressed
  else if w =? 0x30200073 then mk_op 0 op_monostate target.mret 0 0 0 false false compressed
  else if (opcode =? 0x73) && negb (funct3 =? 0) && negb (funct3 =? 4) && negb compressed then
    mk_op (field w 20 12) (op_sys (ref_sys funct3)) target.csr rd r1 r2 true false compressed
  else mk_op 0 op_monostate target.illegal 0 0 0 false false compressed.

Definition ref_decoder : Decoder := {| decode := ref_decode false; decode16 := ref_decode true |}.

Lemma field_range w lo n : 0 ≤ n → 0 ≤ field w lo n < 2 ^ n.
Proof. intros. apply Z.mod_pos_bound, Z.pow_pos_nonneg; lia. Qed.
Lemma sext12_u32 v : 0 ≤ v < 4096 → is_u32 (sext12 v).
Proof. intros. unfold sext12. destruct (Z.ltb_spec v 2048); lia. Qed.

Lemma ref_decode_wf b w : wf_op (ref_decode b w).
Proof.
  pose proof (field_range w 7 5 ltac:(lia)). pose proof (field_range w 15 5 ltac:(lia)).
  pose proof (field_range w 20 5 ltac:(lia)). pose proof (field_range w 20 12 ltac:(lia)).
  pose proof (field_range w 25 7 ltac:(lia)).
  unfold ref_decode. repeat (case_match; try (split; simpl; (done || lia))).
  - split; simpl; try (done || lia). apply sext12_u32. lia.
  - split; simpl; try (done || lia). apply sext12_u32. lia.
  - split; simpl; try (done || lia). unfold opt_matches; simpl. apply Z.ltb_lt. lia.
Qed.

#[export] Instance ref_decoder_ok : @DecoderOk ref_decoder.
Proof.
  split; intros; try apply ref_decode_wf; simpl; unfold ref_decode; by repeat case_match.
Qed.

(** ** Consequences of the laws the components share *)

Section laws.
Context `{CommonLaws}.

Lemma offset_range x lo hi :
  is_u32 x → 0 ≤ lo ≤ hi → hi < 32 → 0 ≤ offset x lo hi < 2 ^ (hi - lo + 1).
Proof.
  intros. rewrite offset_spec by done. apply Z.mod_pos_bound, Z.pow_pos_nonneg; lia.
Qed.
Lemma offset_low12 x : is_u32 x → offset x 0 11 = x mod 4096.
Proof. intros. rewrite offset_spec by lia. simpl. by rewrite Z.div_1_r. Qed.
Lemma offset_low12_range x : is_u32 x → 0 ≤ offset x 0 11 < 4096.
Proof. intros. rewrite offset_low12 by done. apply Z.mod_pos_bound. lia. Qed.
End laws.
