(* ===== verification/Arith.v ===== *)
(** * High-word multiplication ([include/iss/arith.hpp])

    The three routines compute the upper 32 bits of a 64-bit product with 32-bit
    operations only.  [mulhu] is the schoolbook product of 16-bit halves; [mulh]
    and [mulhsu] multiply magnitudes and negate. *)

From S2P Require Import Common.

(** ** Definitions *)

Definition mulhu (a b : Z) : Z :=
  let a_0 := u32 (u16 a) in
  let a_1 := Z.shiftr a 16 in
  let b_0 := u32 (u16 b) in
  let b_1 := Z.shiftr b 16 in
  let t := u32 (u32 (a_1 * b_0) + Z.shiftr (u32 (a_0 * b_0)) 16) in
  let y_1 := u16 t in
  let y_2 := u16 (Z.shiftr t 16) in
  let t := u32 (u32 (a_0 * b_1) + u32 y_1) in
  let t := u32 (u32 (u32 (a_1 * b_1) + u32 y_2) + Z.shiftr t 16) in
  let y_2 := u16 t in
  let y_3 := u16 (Z.shiftr t 16) in
  Z.lor (u32 (Z.shiftl (u32 y_3) 16)) (u32 y_2).

Section arith.
Context `{Platform}.

(** [a < 0 ? -a : a], evaluated in [int]. *)
Definition magnitude (a : Z) : res Z := if a <? 0 then int_result (- a) else Ok a.

Definition mulh (a b : Z) : res Z :=
  let negate := negb (Bool.eqb (a <? 0) (b <? 0)) in
  ma ← magnitude a;
  mb ← magnitude b;
  let res := mulhu (u32 ma) (u32 mb) in
  if negate then
    ab ← int_result (a * b);
    mret (s32 (u32 (u32 (Z.lnot res) + (if ab =? 0 then 1 else 0))))
  else mret (s32 res).

Definition mulhsu (a b : Z) : res Z :=
  let negate := a <? 0 in
  ma ← magnitude a;
  let res := mulhu (u32 ma) b in
  if negate then
    mret (s32 (u32 (u32 (Z.lnot res) + (if u32 (u32 a * b) =? 0 then 1 else 0))))
  else mret (s32 res).
End arith.

(** ** Lemmas *)

Lemma halves z : is_u32 z → z = Z.shiftr z 16 * 65536 + u16 z ∧
  0 ≤ Z.shiftr z 16 < 65536 ∧ 0 ≤ u16 z < 65536.
Proof. intros. rewrite Z.shiftr_div_pow2 by lia. word. Qed.

(** Every partial product and sum of [mulhu] fits its 32-bit variable. *)
Lemma partial_bound x y c : 0 ≤ x < 65536 → 0 ≤ y < 65536 → 0 ≤ c ≤ 2 * 65535 →
  0 ≤ x * y + c < 2 ^ 32.
Proof.
  intros Hx Hy Hc. assert (x * y ≤ 65535 * 65535) by (apply Z.mul_le_mono_nonneg; lia).
  assert (0 ≤ x * y) by (apply Z.mul_nonneg_nonneg; lia). lia.
Qed.

(** The carry chain of the schoolbook product, as arithmetic. *)
Lemma schoolbook_high a1 a0 b1 b0 t1 t2 :
  0 ≤ a1 < 65536 → 0 ≤ a0 < 65536 → 0 ≤ b1 < 65536 → 0 ≤ b0 < 65536 →
  t1 = a1 * b0 + (a0 * b0) / 65536 →
  t2 = a0 * b1 + t1 mod 65536 →
  a1 * b1 + t1 / 65536 + t2 / 65536 = ((a1 * 65536 + a0) * (b1 * 65536 + b0)) / 2 ^ 32.
Proof.
  intros Ha1 Ha0 Hb1 Hb0 Ht1 Ht2.
  apply Z.div_unique with (r := (t2 mod 65536) * 65536 + (a0 * b0) mod 65536).
  - left. pose proof (Z.mod_pos_bound t2 65536). pose proof (Z.mod_pos_bound (a0 * b0) 65536).
    change (2 ^ 32) with (65536 * 65536). lia.
  - pose proof (Z.div_mod t1 65536). pose proof (Z.div_mod t2 65536).
    pose proof (Z.div_mod (a0 * b0) 65536). change (2 ^ 32) with (65536 * 65536). nia.
Qed.

Lemma join_halves t : is_u32 t →
  Z.lor (u32 (Z.shiftl (u32 (u16 (Z.shiftr t 16))) 16)) (u32 (u16 t)) = t.
Proof.
  intros Ht. destruct (halves t Ht) as (Heq & Hhi & Hlo).
  rewrite (u16_small (Z.shiftr t 16)), !(u32_small (Z.shiftr t 16)), (u32_small (u16 t)) by lia.
  assert (is_u32 (Z.shiftr t 16 * 2 ^ 16)) by lia.
  rewrite u32_small by (by rewrite Z.shiftl_mul_pow2).
  by rewrite lor_disjoint_add by lia.
Qed.

Lemma mulhu_spec a b : is_u32 a → is_u32 b → mulhu a b = (a * b) / 2 ^ 32.
Proof.
  intros Ha Hb. destruct (halves a Ha) as (Hae & Ha1 & Ha0).
  destruct (halves b Hb) as (Hbe & Hb1 & Hb0). unfold mulhu.
  rewrite (u32_small (u16 a)), (u32_small (u16 b)) by lia.
  set (a1 := Z.shiftr a 16) in *. set (a0 := u16 a) in *.
  set (b1 := Z.shiftr b 16) in *. set (b0 := u16 b) in *.
  assert (Hlow : 0 ≤ (a0 * b0) / 65536 < 65536).
  { split; [apply Z.div_pos; nia | apply Z.div_lt_upper_bound; nia]. }
  rewrite (u32_small (a1 * b0)), (u32_small (a0 * b0)), (u32_small (a0 * b1)),
    (u32_small (a1 * b1)) by (rewrite <-(Z.add_0_r (_ * _)); apply partial_bound; lia).
  rewrite (Z.shiftr_div_pow2 (a0 * b0)) by lia. change (2 ^ 16) with 65536.
  set (t1 := a1 * b0 + a0 * b0 / 65536).
  assert (Ht1 : is_u32 t1) by (apply partial_bound; lia).
  rewrite !(u32_small t1) by done. destruct (halves t1 Ht1) as (_ & Ht1h & Ht1l).
  rewrite (u16_small (Z.shiftr t1 16)), !(u32_small (u16 t1)), (u32_small (Z.shiftr t1 16)) by lia.
  set (t2 := a0 * b1 + u16 t1).
  assert (Ht2 : is_u32 t2) by (apply partial_bound; lia).
  rewrite !(u32_small t2) by done. destruct (halves t2 Ht2) as (_ & Ht2h & _).
  rewrite (u32_small (a1 * b1 + _)) by (apply partial_bound; lia).
  rewrite join_halves by apply u32_range.
  rewrite u32_small by (rewrite <-Z.add_assoc; apply partial_bound; lia).
  rewrite !Z.shiftr_div_pow2 by lia. change (2 ^ 16) with 65536.
  rewrite Hae, Hbe. by eapply schoolbook_high.
Qed.

Lemma mulhu_range a b : is_u32 a → is_u32 b → is_u32 (mulhu a b).
Proof.
  intros. rewrite mulhu_spec by done.
  split; [apply Z.div_pos; nia | apply Z.div_lt_upper_bound; nia].
Qed.

(** Negating a 64-bit product: the high word of [-p] from the high word of [p]
    and whether the low word is zero. *)
Lemma negate_high p :
  u32 (u32 (Z.lnot (p / 2 ^ 32)) + (if u32 p =? 0 then 1 else 0)) = u32 ((- p) / 2 ^ 32).
Proof.
  unfold Z.lnot. rewrite u32_add_l. destruct (Z.eqb_spec (u32 p) 0) as [Hz|Hz];
    unfold u32 in *; f_equal.
  - rewrite Z.div_opp_l_z by (done || lia). lia.
  - rewrite Z.div_opp_l_nz by (done || lia). lia.
Qed.

Lemma u32_opp_eq0 p : (u32 (- p) =? 0) = (u32 p =? 0).
Proof.
  destruct (Z.eqb_spec (u32 p) 0), (Z.eqb_spec (u32 (- p)) 0); try done; exfalso; word.
Qed.

Lemma u32_s32_eq0 z : (s32 z =? 0) = (u32 z =? 0).
Proof. destruct (Z.eqb_spec (s32 z) 0), (Z.eqb_spec (u32 z) 0); try done; exfalso; word. Qed.

Lemma s32_negate_high p : - 2 ^ 63 < p < 2 ^ 63 →
  s32 (u32 (u32 (Z.lnot (p / 2 ^ 32)) + (if u32 p =? 0 then 1 else 0))) = (- p) / 2 ^ 32.
Proof.
  intros Hp. rewrite negate_high, s32_u32. apply s32_small.
  split; [apply Z.div_le_lower_bound | apply Z.div_lt_upper_bound]; lia.
Qed.

Lemma s32_high p : - 2 ^ 63 ≤ p < 2 ^ 63 → s32 (p / 2 ^ 32) = p / 2 ^ 32.
Proof.
  intros Hp. apply s32_small.
  split; [apply Z.div_le_lower_bound | apply Z.div_lt_upper_bound]; lia.
Qed.

(** The sign test of [mulh] selects the branch where the product of the
    magnitudes is the product, or its opposite. *)
Lemma sign_product a b :
  if negb (Bool.eqb (a <? 0) (b <? 0)) then a * b = - (Z.abs a * Z.abs b)
  else a * b = Z.abs a * Z.abs b.
Proof. destruct (Z.ltb_spec a 0), (Z.ltb_spec b 0); simpl; nia. Qed.

Lemma abs_product_bound a b x y : Z.abs a ≤ x → Z.abs b ≤ y → Z.abs a * Z.abs b ≤ x * y.
Proof. intros. apply Z.mul_le_mono_nonneg; lia. Qed.

Section arith_spec.
Context `{Platform}.

(** The magnitude as the unsigned word both branches pass on. *)
Lemma magnitude_exact a : is_s32 a → a ≠ - 2 ^ 31 → magnitude a = Ok (Z.abs a).
Proof.
  intros. unfold magnitude. destruct (Z.ltb_spec a 0); [|f_equal; lia].
  rewrite int_result_exact by lia. f_equal; lia.
Qed.

(** [mulh], given the magnitudes and the low-word test it computes. *)
Lemma mulh_core a b ma mb ab :
  is_s32 a → is_s32 b →
  magnitude a = Ok ma → u32 ma = Z.abs a →
  magnitude b = Ok mb → u32 mb = Z.abs b →
  (negb (Bool.eqb (a <? 0) (b <? 0)) = true → int_result (a * b) = Ok ab ∧ u32 ab = u32 (a * b) ∧ is_s32 ab) →
  mulh a b = Ok ((a * b) / 2 ^ 32).
Proof.
  intros Ha Hb Hma Huma Hmb Humb Hab. unfold mulh. rewrite Hma, res_bind_ok, Hmb, res_bind_ok.
  rewrite Huma, Humb, mulhu_spec by lia.
  pose proof (abs_product_bound a b (2 ^ 31) (2 ^ 31)).
  assert (0 ≤ Z.abs a * Z.abs b) by (apply Z.mul_nonneg_nonneg; lia).
  pose proof (sign_product a b) as Hs. destruct (negb _).
  - destruct Hab as (-> & Hlow & Hr); [done|]. rewrite res_bind_ok, Hs. unfold mret, res_ret. f_equal.
    replace (ab =? 0) with (u32 (Z.abs a * Z.abs b) =? 0).
    + apply s32_negate_high. lia.
    + rewrite <-u32_opp_eq0, <-Hs, <-Hlow, <-u32_s32_eq0. by rewrite s32_small.
  - rewrite <-Hs. unfold mret, res_ret. rewrite s32_high; [done | lia].
Qed.
End arith_spec.

Lemma magnitude_wrapping a : is_s32 a →
  ∃ ma, magnitude (H := wrapping) a = Ok ma ∧ u32 ma = Z.abs a.
Proof.
  intros Ha. unfold magnitude. rewrite int_result_wrapping.
  destruct (Z.ltb_spec a 0); eexists; (split; [reflexivity|]); [|word].
  rewrite u32_s32. word.
Qed.

(** [mulh]: the upper word of the signed product, on every build, whenever the
    [int] expressions it evaluates are representable. *)
Lemma mulh_spec `{Platform} a b :
  is_s32 a → is_s32 b → a ≠ - 2 ^ 31 → b ≠ - 2 ^ 31 →
  ((a <? 0) ≠ (b <? 0) → is_s32 (a * b)) →
  mulh a b = Ok ((a * b) / 2 ^ 32).
Proof.
  intros Ha Hb Ha' Hb' Hov.
  apply mulh_core with (ma := Z.abs a) (mb := Z.abs b) (ab := a * b);
    try (by apply magnitude_exact); try (apply u32_small; lia); try done.
  intros Hs. assert (is_s32 (a * b)) by (apply Hov; intros Heq; by rewrite Heq, eqb_reflx in Hs).
  by rewrite int_result_exact.
Qed.

Lemma mulh_wrapping a b :
  is_s32 a → is_s32 b → mulh (H := wrapping) a b = Ok ((a * b) / 2 ^ 32).
Proof.
  intros Ha Hb. destruct (magnitude_wrapping a Ha) as (ma & ? & ?).
  destruct (magnitude_wrapping b Hb) as (mb & ? & ?).
  eapply mulh_core; try done. intros _. rewrite int_result_wrapping.
  split; [done|]. split; [apply u32_s32 | apply s32_range].
Qed.

Lemma mulhsu_core `{Platform} a b ma :
  is_s32 a → is_u32 b → magnitude a = Ok ma → u32 ma = Z.abs a →
  mulhsu a b = Ok ((a * b) / 2 ^ 32).
Proof.
  intros Ha Hb Hma Huma. unfold mulhsu. rewrite Hma, res_bind_ok, Huma, mulhu_spec by lia.
  pose proof (abs_product_bound a b (2 ^ 31) (2 ^ 32)).
  rewrite (Z.abs_eq b) in * by lia.
  assert (0 ≤ Z.abs a * b) by (apply Z.mul_nonneg_nonneg; lia).
  assert (Z.abs a * b < 2 ^ 63) by (destruct (decide (b = 0)); nia).
  destruct (Z.ltb_spec a 0); unfold mret, res_ret; f_equal.
  - replace (u32 (u32 a * b)) with (u32 (- (Z.abs a * b))).
    + rewrite u32_opp_eq0, s32_negate_high by lia. f_equal. lia.
    + rewrite Z.abs_neq by lia. replace (- (- a * b)) with (a * b) by lia.
      unfold u32. by rewrite Z.mul_mod_idemp_l.
  - rewrite Z.abs_eq in * by lia. apply s32_high. lia.
Qed.

Lemma mulhsu_spec `{Platform} a b :
  is_s32 a → is_u32 b → a ≠ - 2 ^ 31 → mulhsu a b = Ok ((a * b) / 2 ^ 32).
Proof.
  intros. eapply mulhsu_core; [done|done|by apply magnitude_exact | apply u32_small; lia].
Qed.

Lemma mulhsu_wrapping a b :
  is_s32 a → is_u32 b → mulhsu (H := wrapping) a b = Ok ((a * b) / 2 ^ 32).
Proof.
  intros Ha Hb. destruct (magnitude_wrapping a Ha) as (ma & ? & ?). by eapply mulhsu_core.
Qed.

(** Neither routine fails beyond what the platform does, and both answer an [int32_t]. *)
Section arith_safe.
Context {P : Platform} {E : fault → Prop} `{!PlatformOk P E}.

Lemma magnitude_sat a : sat E (magnitude a) (λ _, True).
Proof. unfold magnitude. destruct (_ <? _); [|done]. by eapply sat_weaken; [apply int_result_sat|]. Qed.

Lemma mulh_sat a b : sat E (mulh a b) (λ r, is_s32 r).
Proof.
  pose proof s32_range. unfold mulh.
  apply sat_bind. eapply sat_weaken; [apply magnitude_sat|]; intros ma _; simpl.
  apply sat_bind. eapply sat_weaken; [apply magnitude_sat|]; intros mb _; simpl.
  destruct (negb _); [|by apply s32_range]. apply sat_bind.
  eapply sat_weaken; [apply int_result_sat|]; intros; by apply s32_range.
Qed.

Lemma mulhsu_sat a b : sat E (mulhsu a b) (λ r, is_s32 r).
Proof.
  unfold mulhsu. apply sat_bind. eapply sat_weaken; [apply magnitude_sat|]; intros ma _.
  destruct (_ <? _); apply s32_range.
Qed.
End arith_safe.

(** On a strict build the routines return exactly when no expression overflows. *)
Lemma int_result_strict z :
  (∃ r, int_result (H := strict) z = Ok r) ↔ is_s32 z.
Proof.
  split; [|intros; exists z; by apply int_result_exact]. intros [r Hr]. unfold int_result in Hr.
  destruct (_ && _) eqn:Hb; [|done]. apply andb_true_iff in Hb as [?%Z.leb_le ?%Z.ltb_lt]. lia.
Qed.

Lemma magnitude_strict a : is_s32 a → (∃ r, magnitude (H := strict) a = Ok r) ↔ a ≠ - 2 ^ 31.
Proof.
  intros Ha. unfold magnitude. destruct (Z.ltb_spec a 0).
  - rewrite int_result_strict. lia.
  - split; [lia|]. by eexists.
Qed.

Lemma mulh_strict a b : is_s32 a → is_s32 b →
  (∃ r, mulh (H := strict) a b = Ok r) ↔
  a ≠ - 2 ^ 31 ∧ b ≠ - 2 ^ 31 ∧ ((a <? 0) ≠ (b <? 0) → is_s32 (a * b)).
Proof.
  intros Ha Hb. split.
  - intros [r Hr]. unfold mulh in Hr.
    apply res_bind_inv in Hr as (ma & Hma & Hr). apply res_bind_inv in Hr as (mb & Hmb & Hr).
    split; [apply magnitude_strict; eauto|]. split; [apply magnitude_strict; eauto|].
    intros Hne%eqb_false_iff. rewrite Hne in Hr. simpl negb in Hr.
    apply res_bind_inv in Hr as (ab & Hab & _). apply int_result_strict; eauto.
  - intros (? & ? & ?). eexists. by apply mulh_spec.
Qed.

Lemma mulhsu_strict a b : is_s32 a → is_u32 b →
  (∃ r, mulhsu (H := strict) a b = Ok r) ↔ a ≠ - 2 ^ 31.
Proof.
  intros Ha Hb. split.
  - intros [r Hr]. unfold mulhsu in Hr. apply res_bind_inv in Hr as (ma & Hma & _).
    apply magnitude_strict; eauto.
  - intros. eexists. by apply mulhsu_spec.
Qed.
