(* ===== verification/Alu.v ===== *)
(** * The arithmetic unit and the branch unit ([src/iss/model.cpp], anonymous namespace)

    [do_alu] and [should_branch] as the simulator computes them, with the
    [int32_t] conversions and the guards of the division cases written out, and
    the RISC-V reference [rv_alu], [rv_branch] they implement. *)

From S2P Require Import Common Arith.

(** ** The code *)

(** The lambda [is_overflow]. *)
Definition is_overflow (dividend divisor : Z) : bool :=
  (dividend =? -2147483648) && (divisor =? -1).

Definition do_alu `{Platform} `{CommonLib} (opt : alu) (opd_1 opd_2 : Z) : res Z :=
  match opt with
  | _or => mret (Z.lor opd_1 opd_2)
  | _and => mret (Z.land opd_1 opd_2)
  | _xor => mret (Z.lxor opd_1 opd_2)
  | _add | _auipc | _jal => mret (u32 (opd_1 + opd_2))
  | _sub => mret (u32 (opd_1 - opd_2))
  | _sll => n ← shift_amount opd_2; mret (u32 (Z.shiftl opd_1 n))
  | _srl => n ← shift_amount opd_2; mret (Z.shiftr opd_1 n)
  | _sra => n ← shift_amount opd_2; mret (u32 (Z.shiftr (s32 opd_1) n))
  | _slt => mret (if s32 opd_1 <? s32 opd_2 then 1 else 0)
  | _sltu => mret (if opd_1 <? opd_2 then 1 else 0)
  | _jalr => mret (Z.land (u32 (opd_1 + opd_2)) lsb_zero)
  | _mulh => r ← mulh (s32 opd_1) (s32 opd_2); mret (u32 r)
  | _mulhsu => r ← mulhsu (s32 opd_1) opd_2; mret (u32 r)
  | _mulhu => mret (mulhu opd_1 opd_2)
  | _mul => r ← int_result (s32 opd_1 * s32 opd_2); mret (u32 r)
  | _divu => if opd_2 =? 0 then mret (2 ^ 32 - 1) else mret (Z.quot opd_1 opd_2)
  | _remu => if opd_2 =? 0 then mret opd_1 else mret (Z.rem opd_1 opd_2)
  | _div =>
      let dividend := s32 opd_1 in
      let divisor := s32 opd_2 in
      if divisor =? 0 then mret (u32 (-1))
      else if is_overflow dividend divisor then mret (u32 dividend)
      else mret (u32 (Z.quot dividend divisor))
  | _rem =>
      let dividend := s32 opd_1 in
      let divisor := s32 opd_2 in
      if divisor =? 0 then mret (u32 dividend)
      else if is_overflow dividend divisor then mret 0
      else mret (u32 (Z.rem dividend divisor))
  | alu_unnamed _ => Fail (Thrown unexpected_switch_case_value)
  end.

Definition should_branch (opd_1 opd_2 : Z) (b_type : masks.branch) : res bool :=
  match b_type with
  | masks.beq => mret (opd_1 =? opd_2)
  | masks.bne => mret (negb (opd_1 =? opd_2))
  | masks.blt => mret (s32 opd_1 <? s32 opd_2)
  | masks.bltu => mret (opd_1 <? opd_2)
  | masks.bge => mret (s32 opd_2 <=? s32 opd_1)
  | masks.bgeu => mret (opd_2 <=? opd_1)
  | masks.branch_unnamed _ => Fail (Thrown unexpected_switch_case_value)
  end.

(** ** The RISC-V reference

    RV32IM as arithmetic on signed and unsigned readings of the operands: a
    shift uses the low five bits of its second operand, a product is cut from the
    exact 64-bit product, and division by zero and signed overflow have the
    results of the tables quoted in [do_alu]. *)

Definition rv_alu (opt : alu) (x y : Z) : Z :=
  match opt with
  | _or => Z.lor x y
  | _and => Z.land x y
  | _xor => Z.lxor x y
  | _add | _auipc | _jal => u32 (x + y)
  | _sub => u32 (x - y)
  | _sll => u32 (x * 2 ^ (y mod 32))
  | _srl => x / 2 ^ (y mod 32)
  | _sra => u32 (s32 x / 2 ^ (y mod 32))
  | _slt => Z.b2z (s32 x <? s32 y)
  | _sltu => Z.b2z (x <? y)
  | _jalr => 2 * (u32 (x + y) / 2)
  | _mul => u32 (x * y)
  | _mulh => u32 (s32 x * s32 y / 2 ^ 32)
  | _mulhsu => u32 (s32 x * y / 2 ^ 32)
  | _mulhu => x * y / 2 ^ 32
  | _divu => if y =? 0 then 2 ^ 32 - 1 else x / y
  | _remu => if y =? 0 then x else x mod y
  | _div => if s32 y =? 0 then 2 ^ 32 - 1 else u32 (Z.quot (s32 x) (s32 y))
  | _rem => if s32 y =? 0 then x else u32 (Z.rem (s32 x) (s32 y))
  | alu_unnamed _ => 0
  end.

Definition rv_branch (b : masks.branch) (x y : Z) : Prop :=
  match b with
  | masks.beq => x = y
  | masks.bne => x ≠ y
  | masks.blt => s32 x < s32 y
  | masks.bge => s32 y ≤ s32 x
  | masks.bltu => x < y
  | masks.bgeu => y ≤ x
  | masks.branch_unnamed _ => False
  end.

(** The operands for which no expression of [do_alu] is undefined in C++. *)
Definition alu_defined (opt : alu) (x y : Z) : Prop :=
  match opt with
  | _sll | _srl | _sra => y < 32
  | _mul => is_s32 (s32 x * s32 y)
  | _mulh =>
      s32 x ≠ - 2 ^ 31 ∧ s32 y ≠ - 2 ^ 31 ∧
      ((s32 x <? 0) ≠ (s32 y <? 0) → is_s32 (s32 x * s32 y))
  | _mulhsu => s32 x ≠ - 2 ^ 31
  | _ => True
  end.

(** ** Lemmas *)

Lemma s32_eqb_0 z : is_u32 z → (s32 z =? 0) = (z =? 0).
Proof. intros. rewrite u32_s32_eq0. by rewrite u32_small. Qed.

Lemma u32_mul_s32 x y : u32 (s32 x * s32 y) = u32 (x * y).
Proof.
  unfold u32. rewrite <-Z.mul_mod_idemp_l, <-Z.mul_mod_idemp_r by lia.
  fold (u32 (s32 x)) (u32 (s32 y)). rewrite !u32_s32.
  unfold u32. by rewrite Z.mul_mod_idemp_l, Z.mul_mod_idemp_r by lia.
Qed.

Lemma jalr_mask z : is_u32 z → Z.land z 0xFFFFFFFE = 2 * (z / 2).
Proof.
  intros Hz. change 0xFFFFFFFE with (Z.ldiff (Z.ones 32) (Z.ones 1)).
  by apply land_high_mask.
Qed.

Lemma shiftr_u32 x n : is_u32 x → 0 ≤ n → is_u32 (Z.shiftr x n).
Proof.
  intros Hx Hn. rewrite Z.shiftr_div_pow2 by done.
  assert (0 < 2 ^ n) by (apply Z.pow_pos_nonneg; lia).
  split; [apply Z.div_pos; lia |]. apply Z.div_lt_upper_bound; nia.
Qed.

(** The two guarded cases of signed division, against exact division. *)
Lemma div_overflow x y : is_overflow (s32 x) (s32 y) = true →
  u32 (Z.quot (s32 x) (s32 y)) = u32 (s32 x) ∧ Z.rem (s32 x) (s32 y) = 0.
Proof. unfold is_overflow. intros [->%Z.eqb_eq ->%Z.eqb_eq]%andb_true_iff. done. Qed.

Section spec.
Context `{CommonLaws}.

(** The cases that neither shift nor multiply do not depend on the platform. *)
Lemma do_alu_plain {P : Platform} opt x y :
  is_u32 x → is_u32 y → alu_named opt = true →
  match opt with _sll | _srl | _sra | _mul | _mulh | _mulhsu => False | _ => True end →
  do_alu opt x y = Ok (rv_alu opt x y).
Proof.
  intros Hx Hy Hn Hopt. unfold do_alu, rv_alu, mret, res_ret.
  destruct opt; try done.
  - f_equal. by apply mulhu_spec.
  - destruct (_ =? 0); [done|]. destruct (is_overflow _ _) eqn:Ho; [|done].
    by rewrite (proj1 (div_overflow _ _ Ho)).
  - destruct (Z.eqb_spec y 0); [done|]. by rewrite Z.quot_div_nonneg by lia.
  - destruct (_ =? 0). { by rewrite u32_s32, u32_small. }
    destruct (is_overflow _ _) eqn:Ho; [|done]. by rewrite (proj2 (div_overflow _ _ Ho)).
  - destruct (Z.eqb_spec y 0); [done|]. by rewrite Z.rem_mod_nonneg by lia.
  - rewrite lsb_zero_val, jalr_mask; [done | apply u32_range].
Qed.

Lemma do_alu_shift {P : Platform} opt x y n :
  is_u32 x → is_u32 y → match opt with _sll | _srl | _sra => True | _ => False end →
  shift_amount y = Ok n → n = y mod 32 → do_alu opt x y = Ok (rv_alu opt x y).
Proof.
  intros Hx Hy Hopt Hn ->. assert (0 ≤ y mod 32 < 32) by (apply Z.mod_pos_bound; lia).
  destruct opt; try done; unfold do_alu, rv_alu; rewrite Hn, res_bind_ok;
    unfold mret, res_ret; by rewrite ?Z.shiftl_mul_pow2, ?Z.shiftr_div_pow2 by lia.
Qed.

Lemma do_alu_defined {P : Platform} opt x y :
  is_u32 x → is_u32 y → alu_named opt = true → alu_defined opt x y →
  do_alu opt x y = Ok (rv_alu opt x y).
Proof.
  intros Hx Hy Hn Hd. pose proof (s32_range x). pose proof (s32_range y).
  destruct opt; try (by apply do_alu_plain); simpl in Hd;
    try (eapply do_alu_shift; [done..|apply shift_amount_exact; lia | by rewrite Z.mod_small by lia]);
    unfold do_alu, rv_alu.
  - by rewrite int_result_exact, res_bind_ok, u32_mul_s32.
  - destruct Hd as (? & ? & ?). by rewrite mulh_spec.
  - by rewrite mulhsu_spec.
Qed.

Lemma do_alu_wraps opt x y :
  is_u32 x → is_u32 y → alu_named opt = true →
  do_alu (H := wrapping) opt x y = Ok (rv_alu opt x y).
Proof.
  intros Hx Hy Hn. pose proof (s32_range x). pose proof (s32_range y).
  destruct opt; try (by apply do_alu_plain);
    try (by eapply do_alu_shift; [.. | apply shift_amount_wrapping | ]);
    unfold do_alu, rv_alu.
  - by rewrite int_result_wrapping, res_bind_ok, u32_s32, u32_mul_s32.
  - by rewrite mulh_wrapping.
  - by rewrite mulhsu_wrapping.
Qed.

Lemma rv_alu_range opt x y : is_u32 x → is_u32 y → is_u32 (rv_alu opt x y).
Proof.
  intros Hx Hy. pose proof u32_range.
  destruct opt; simpl; try done; auto.
  - by apply (land_bound 32).
  - by apply (lor_bound 32).
  - by apply (lxor_bound 32).
  - rewrite <-Z.shiftr_div_pow2 by (apply Z.mod_pos_bound; lia).
    apply shiftr_u32; [done | apply Z.mod_pos_bound; lia].
  - destruct (_ <? _); simpl; lia.
  - destruct (_ <? _); simpl; lia.
  - rewrite <-mulhu_spec by done. by apply mulhu_range.
  - destruct (_ =? 0); [lia | auto].
  - destruct (Z.eqb_spec y 0); [lia|]. split; [apply Z.div_pos; lia|].
    apply Z.div_lt_upper_bound; nia.
  - destruct (_ =? 0); auto.
  - destruct (Z.eqb_spec y 0); [lia|]. pose proof (Z.mod_pos_bound x y). lia.
  - specialize (H1 (x + y)). word.
Qed.

Lemma do_alu_sat {P : Platform} {E} `{!PlatformOk P E} opt x y :
  is_u32 x → is_u32 y → alu_named opt = true → sat E (do_alu opt x y) (λ r, is_u32 r).
Proof.
  intros Hx Hy Hn. pose proof u32_range.
  assert (Hplain : match opt with _sll | _srl | _sra | _mul | _mulh | _mulhsu => False | _ => True end →
    sat E (do_alu opt x y) (λ r, is_u32 r)).
  { intros Hopt. rewrite do_alu_plain by done. by apply rv_alu_range. }
  destruct opt; try (by apply Hplain); unfold do_alu; apply sat_bind.
  1-3: eapply sat_weaken; [apply shift_amount_sat|]; intros n Hn'; simpl in *; auto.
  - apply shiftr_u32; lia.
  - eapply sat_weaken; [apply int_result_sat|]; simpl; auto.
  - eapply sat_weaken; [apply mulh_sat|]; simpl; auto.
  - eapply sat_weaken; [apply mulhsu_sat|]; simpl; auto.
Qed.
End spec.

Lemma shift_amount_strict n : 0 ≤ n → (∃ r, shift_amount (H := strict) n = Ok r) ↔ n < 32.
Proof.
  intros Hn. unfold shift_amount. rewrite (proj2 (Z.leb_le _ _)) by done. simpl.
  destruct (Z.ltb_spec n 32); split; intros Hr; try done; eauto; [by destruct Hr | lia].
Qed.

Lemma ok_bind {A B} (r : res A) (k : A → res B) :
  (∀ a, ∃ b, k a = Ok b) → (∃ b, (r ≫= k) = Ok b) ↔ ∃ a, r = Ok a.
Proof.
  intros Hk. split.
  - intros [b Hb]. apply res_bind_inv in Hb as (a & Ha & _). eauto.
  - intros [a ->]. apply Hk.
Qed.

Lemma do_alu_strict `{CommonLaws} opt x y : is_u32 x → is_u32 y → alu_named opt = true →
  (∃ r, do_alu (H := strict) opt x y = Ok r) → alu_defined opt x y.
Proof.
  intros Hx Hy Hn. pose proof (s32_range x). pose proof (s32_range y).
  destruct opt; try done; unfold do_alu, alu_defined; rewrite ok_bind by eauto.
  1-3: apply shift_amount_strict; lia.
  - apply int_result_strict.
  - by apply mulh_strict.
  - by apply mulhsu_strict.
Qed.

Lemma branch_ok b x y : (∀ v, b ≠ masks.branch_unnamed v) →
  ∃ r, should_branch x y b = Ok r ∧ (r = true ↔ rv_branch b x y).
Proof.
  intros Hb. destruct b; try (by destruct (Hb v)); eexists; (split; [reflexivity|]); simpl.
  - apply Z.eqb_eq.
  - rewrite negb_true_iff. apply Z.eqb_neq.
  - apply Z.ltb_lt.
  - apply Z.leb_le.
  - apply Z.ltb_lt.
  - apply Z.leb_le.
Qed.

(** ** Properties *)

(** C23: [do_alu] implements RV32IM.  For every operation the switch names and every
    pair of words it returns the value the RISC-V reference prescribes: on every build
    where none of its C++ expressions is undefined at these operands, and on a build
    with wrapping arithmetic and masked shift counts without exception. *)
Theorem do_alu_refines_rv32im {C : CommonLib} {L : @CommonLaws C} opt x y :
  is_u32 x → is_u32 y → alu_named opt = true →
  (∀ P : Platform, alu_defined opt x y → do_alu (H := P) opt x y = Ok (rv_alu opt x y)) ∧
  do_alu (H := wrapping) opt x y = Ok (rv_alu opt x y).
Proof. intros. split; [intros; by apply do_alu_defined | by apply do_alu_wraps]. Qed.

(** C24: The operands for which [do_alu] runs into undefined behaviour are exactly
    those [alu_defined] excludes: a shift count of 32 or more (the register shifts
    pass the whole register), a [mul] whose signed product does not fit, a [mulh]
    or [mulhsu] of the least integer, and a [mulh] of operands of different sign
    whose product does not fit. *)
Theorem do_alu_undefined_exactly {C : CommonLib} {L : @CommonLaws C} opt x y :
  is_u32 x → is_u32 y → alu_named opt = true →
  (∃ r, do_alu (H := strict) opt x y = Ok r) ↔ alu_defined opt x y.
Proof.
  intros Hx Hy Hn. split; [by apply do_alu_strict|]. intros. eexists. by apply do_alu_defined.
Qed.

(** [should_branch] decides each named branch condition: the signed
    comparisons compare the two's complement readings, the unsigned ones the
    words. *)
Theorem should_branch_decides b x y :
  (∀ v, b ≠ masks.branch_unnamed v) →
  ∃ r, should_branch x y b = Ok r ∧ (r = true ↔ rv_branch b x y).
Proof. apply branch_ok. Qed.

(** ** Witnesses *)

Section witnesses.
#[local] Existing Instance ref_common.

Lemma do_alu_refines_rv32im_witness :
  do_alu (H := strict) _mulh (u32 (-70000)) 3 = Ok (rv_alu _mulh (u32 (-70000)) 3) ∧
  do_alu (H := wrapping) _sll 1 33 = Ok 2.
Proof.
  split.
  - apply (proj1 (do_alu_refines_rv32im (C := ref_common) _mulh (u32 (-70000)) 3
      (u32_range _) ltac:(lia) eq_refl) strict). by vm_compute.
  - exact (proj2 (do_alu_refines_rv32im (C := ref_common) _sll 1 33 ltac:(lia) ltac:(lia) eq_refl)).
Defined.

Lemma do_alu_undefined_exactly_witness :
  (∃ r, do_alu (H := strict) _sll 1 32 = Ok r) ↔ alu_defined _sll 1 32.
Proof. apply (do_alu_undefined_exactly (C := ref_common)); [lia | lia | done]. Defined.

Lemma should_branch_decides_witness :
  ∃ r, should_branch 0xFFFFFFFF 1 masks.blt = Ok r ∧
       (r = true ↔ rv_branch masks.blt 0xFFFFFFFF 1).
Proof. apply should_branch_decides. done. Defined.
End witnesses.
