(* ===== verification/Bench.v ===== *)
(** * The benchmarked arithmetic units ([benchmark/])

    [benchmark/alu.cpp] is a copy of the simulator's [do_alu] switch that throws a
    [std::runtime_error]; [benchmark/alu_static_variadic.hpp] replaces the switch by
    template specialisations selected with fold expressions over a list of
    operations.  The benchmark compares their speed, which is meaningful because
    they compute the same function: that is proved here. *)

From S2P Require Import Common Arith Alu.

(** ** [alu.cpp] *)

Definition bench_do_alu `{Platform} `{CommonLib} (opt : alu) (opd_1 opd_2 : Z) : res Z :=
  match opt with
  | _or => mret (Z.lor opd_1 opd_2)
  | _and => mret (Z.land opd_1 opd_2)
  | _xor => mret (Z.lxor opd_1 opd_2)
  | _add | _auipc | _jal => mret (u32 (opd_1 + opd_2))
  | _sub => mret (u32 (opd_1 - opd_2))
  | _sll => n ← shift_amount opd_2; mret (u32 (Z.shiftl opd_1 n))
  | _srl => n ← shift_amount opd_2; mret (Z.shiftr opd_1 n)
  | _sra => n ← shift_amount opd_2; mret (u32 (Z.shiftr (s32 opd_1) n))
  | _slt => mret (if s32 opd_1 <? s32 opd_2 then 1 else 0)
  | _sltu => mret (if opd_1 <? opd_2 then 1 else 0)
  | _jalr => mret (Z.land (u32 (opd_1 + opd_2)) lsb_zero)
  | _mulh => r ← mulh (s32 opd_1) (s32 opd_2); mret (u32 r)
  | _mulhsu => r ← mulhsu (s32 opd_1) opd_2; mret (u32 r)
  | _mulhu => mret (mulhu opd_1 opd_2)
  | _mul => r ← int_result (s32 opd_1 * s32 opd_2); mret (u32 r)
  | _divu => if opd_2 =? 0 then mret (2 ^ 32 - 1) else mret (Z.quot opd_1 opd_2)
  | _remu => if opd_2 =? 0 then mret opd_1 else mret (Z.rem opd_1 opd_2)
  | _div =>
      let dividend := s32 opd_1 in
      let divisor := s32 opd_2 in
      if divisor =? 0 then mret (u32 (-1))
      else if is_overflow dividend divisor then mret (u32 dividend)
      else mret (u32 (Z.quot dividend divisor))
  | _rem =>
      let dividend := s32 opd_1 in
      let divisor := s32 opd_2 in
      if divisor =? 0 then mret (u32 dividend)
      else if is_overflow dividend divisor then mret 0
      else mret (u32 (Z.rem dividend divisor))
  | alu_unnamed _ => Fail (Thrown (runtime_error "asd"))
  end.

(** ** [alu_static_variadic.hpp] *)

Section static.
Context `{Platform} `{CommonLib}.

(** [alu_function<Opt>::exec]: one specialisation per operation; an operation
    without one does not compile, so none is instantiated for an unnamed value. *)
Definition exec (Opt : alu) (a b : Z) : option (res Z) :=
  match Opt with
  | _or => Some (mret (Z.lor a b))
  | _xor => Some (mret (Z.lxor a b))
  | _add => Some (mret (u32 (a + b)))
  | _auipc => Some (mret (u32 (a + b)))
  | _jal => Some (mret (u32 (a + b)))
  | _sub => Some (mret (u32 (a - b)))
  | _sll => Some (n ← shift_amount b; mret (u32 (Z.shiftl a n)))
  | _srl => Some (n ← shift_amount b; mret (Z.shiftr a n))
  | _sra => Some (n ← shift_amount b; mret (u32 (Z.shiftr (s32 a) n)))
  | _slt => Some (mret (if s32 a <? s32 b then 1 else 0))
  | _sltu => Some (mret (if a <? b then 1 else 0))
  | _jalr => Some (mret (Z.land (u32 (a + b)) lsb_zero))
  | _mulh => Some (r ← mulh (s32 a) (s32 b); mret (u32 r))
  | _mulhsu => Some (r ← mulhsu (s32 a) b; mret (u32 r))
  | _mulhu => Some (mret (mulhu a b))
  | _mul => Some (r ← int_result (s32 a * s32 b); mret (u32 r))
  | _and => Some (mret (Z.land a b))
  | _divu => Some (if b =? 0 then mret (2 ^ 32 - 1) else mret (Z.quot a b))
  | _remu => Some (if b =? 0 then mret a else mret (Z.rem a b))
  | _rem => Some (
      let dividend := s32 a in
      let divisor := s32 b in
      if divisor =? 0 then mret (u32 dividend)
      else if (dividend =? -2147483648) && (divisor =? -1) then mret 0
      else mret (u32 (Z.rem dividend divisor)))
  | _div => Some (
      let dividend := s32 a in
      let divisor := s32 b in
      if divisor =? 0 then mret (u32 (-1))
      else if (dividend =? -2147483648) && (divisor =? -1) then mret (u32 dividend)
      else mret (u32 (Z.quot dividend divisor)))
  | alu_unnamed _ => None
  end.

Definition is_alu_op (Opt op : alu) : bool := bool_decide (op = Opt).

(** [((opt == Ops ? do_alu_op<Ops>(opd_1, opd_2) : 0) | ...)]: a unary right fold. *)
Fixpoint fold_or (Ops : list alu) (opt : alu) (opd_1 opd_2 : Z) : res Z :=
  let term Opt :=
    if bool_decide (opt = Opt) then default (mret 0) (exec Opt opd_1 opd_2) else mret 0 in
  match Ops with
  | [] => mret 0
  | [Opt] => term Opt
  | Opt :: rest => x ← term Opt; y ← fold_or rest opt opd_1 opd_2; mret (Z.lor x y)
  end.

(** The empty pack is the explicit specialisation that only throws. *)
Definition do_alu_switch (Ops : list alu) (opt : alu) (opd_1 opd_2 : Z) : res Z :=
  match Ops with
  | [] => Fail (Thrown (runtime_error "asd"))
  | _ =>
      if existsb (λ Opt, is_alu_op Opt opt) Ops
      then fold_or Ops opt opd_1 opd_2
      else Fail (Thrown (runtime_error "asd"))
  end.

Definition static_ops : list alu :=
  [_or; _and; _xor; _add; _auipc; _jal; _sub; _sll; _srl; _sra; _slt; _sltu; _jalr; _mulh;
   _mulhsu; _mulhu; _mul; _divu; _remu; _div; _rem].

Definition do_alu_static (opt : alu) (opd_1 opd_2 : Z) : res Z :=
  do_alu_switch static_ops opt opd_1 opd_2.

(** ** The fold picks one specialisation *)

Lemma fold_or_absent Ops opt a b : opt ∉ Ops → fold_or Ops opt a b = Ok 0.
Proof.
  induction Ops as [|o Ops IH]; [done|].
  intros [Hne Hin]%not_elem_of_cons. simpl. rewrite bool_decide_false by done.
  destruct Ops; [done|]. by rewrite (IH Hin).
Qed.

(** Exactly one summand of the disjunction differs from zero, so its bits come
    through unchanged. *)
Lemma fold_or_present Ops opt a b r :
  NoDup Ops → opt ∈ Ops → exec opt a b = Some r → fold_or Ops opt a b = r.
Proof.
  intros Hnd Hin Hr. induction Ops as [|o Ops IH]; [by apply not_elem_of_nil in Hin|].
  apply NoDup_cons in Hnd as [Ho Hnd]. simpl.
  destruct (decide (opt = o)) as [<-|Hne].
  - rewrite bool_decide_true, Hr by done. simpl. destruct Ops as [|o' Ops]; [done|].
    rewrite fold_or_absent by done. destruct r as [v|]; [|done]. simpl. by rewrite Z.lor_0_r.
  - apply elem_of_cons in Hin as [?|Hin]; [done|]. rewrite bool_decide_false by done.
    destruct Ops as [|o' Ops]; [by apply not_elem_of_nil in Hin|].
    rewrite (IH Hnd Hin). by destruct r.
Qed.

Lemma do_alu_switch_spec Ops opt a b :
  NoDup Ops → (∀ o, o ∈ Ops → is_Some (exec o a b)) →
  do_alu_switch Ops opt a b =
    if decide (opt ∈ Ops) then default (mret 0) (exec opt a b)
    else Fail (Thrown (runtime_error "asd")).
Proof.
  intros Hnd Hex. unfold do_alu_switch. destruct Ops as [|o Ops].
  { destruct (decide _) as [Hin|]; [by apply not_elem_of_nil in Hin | done]. }
  set (l := o :: Ops) in *. destruct (existsb _ l) eqn:Hb.
  - apply existsb_exists in Hb as (o' & Hin%list_elem_of_In & ->%bool_decide_eq_true).
    destruct (decide _); [|done]. destruct (Hex o' Hin) as [r Hr].
    rewrite Hr. by apply fold_or_present.
  - destruct (decide _) as [Hin|]; [|done]. exfalso.
    assert (existsb (λ Opt, is_alu_op Opt opt) l = true); [|congruence].
    apply existsb_exists. exists opt. split; [by apply list_elem_of_In|].
    by apply bool_decide_eq_true.
Qed.

Lemma static_ops_nodup : NoDup static_ops.
Proof. apply (bool_decide_unpack _). by vm_compute. Qed.

Lemma static_ops_named opt : opt ∈ static_ops ↔ alu_named opt = true.
Proof.
  split.
  - intros Hin. destruct opt; try done. unfold static_ops in Hin.
    repeat (apply elem_of_cons in Hin as [?|Hin]; [done|]). by apply not_elem_of_nil in Hin.
  - intros Hn. destruct opt; try done; unfold static_ops; set_unfold; tauto.
Qed.

Lemma exec_named opt a b : alu_named opt = true → exec opt a b = Some (bench_do_alu opt a b).
Proof. by destruct opt. Qed.

Lemma do_alu_static_switch opt x y : do_alu_static opt x y = bench_do_alu opt x y.
Proof.
  unfold do_alu_static. rewrite do_alu_switch_spec; [|apply static_ops_nodup|].
  - destruct (decide _) as [Hin|Hin]; rewrite static_ops_named in Hin.
    + by rewrite exec_named.
    + by destruct opt.
  - intros o Ho%static_ops_named. rewrite exec_named by done. by eexists.
Qed.
End static.

(** ** Properties *)

(** C38: The three implementations of the ALU agree.  On every operation value, every
    pair of operands and every build, the fold-expression dispatch returns, throws or
    is undefined exactly as the benchmarked switch does; and that switch agrees with
    the simulator's own [do_alu] except for the exception thrown for an operation
    neither names. *)
Theorem do_alu_static_equiv {P : Platform} {C : CommonLib} opt x y :
  do_alu_static opt x y = bench_do_alu opt x y ∧
  bench_do_alu opt x y =
    if alu_named opt then do_alu opt x y else Fail (Thrown (runtime_error "asd")).
Proof. split; [apply do_alu_static_switch | by destruct opt]. Qed.
