(* ===== verification/RegFile.v ===== *)
(** * The integer register file ([include/reg_file.hpp], [src/reg_file.cpp])

    [std::array<uint32_t, 32>] behind accessors that ignore writes to register 0
    and record each write as a [gpr_change]. *)

From S2P Require Import Common.

Definition reg_count : Z := 32.

Record reg_file : Set := mk_reg_file { x : list Z }.

Definition reg_file_init : reg_file := mk_reg_file (replicate 32 0).

(** [assert(index < reg_count); return x[index];] *)
Definition read (index : Z) (f : reg_file) : res Z :=
  if index <? reg_count then or_fail (Undefined ub_out_of_bounds) (nth_z (x f) index)
  else Fail (Undefined ub_assert).

Definition write (index data : Z) (f : reg_file) : res reg_file :=
  if index =? 0 then mret f
  else if index <? reg_count then
    x' ← or_fail (Undefined ub_out_of_bounds) (set_z (x f) index data);
    mret (mk_reg_file x')
  else Fail (Undefined ub_assert).

(** The overload with an out parameter; [x[index]] is read before the assertion. *)
Definition write_out (index data : Z) (f : reg_file) : res (gpr_change * reg_file) :=
  prev ← or_fail (Undefined ub_out_of_bounds) (nth_z (x f) index);
  f' ← write index data f;
  mret (mk_gpr_change index prev data, f').

Definition write_vec (index data : Z) (vec : list gpr_change) (f : reg_file)
    : res (list gpr_change * reg_file) :=
  '(tmp, f') ← write_out index data f;
  mret (vec ++ [tmp], f').

(** ** Well-formedness: 32 words, register 0 is zero *)

Record wf (f : reg_file) : Prop := {
  wf_len : length (x f) = 32%nat;
  wf_words : Forall (λ w, is_u32 w) (x f);
  wf_zero : nth_z (x f) 0 = Some 0
}.

(** The register values as a total function. *)
Definition reg (f : reg_file) (i : Z) : Z := default 0 (nth_z (x f) i).

Lemma wf_init : wf reg_file_init.
Proof.
  split; simpl; [done | | by apply (nth_z_replicate 32)]. by repeat constructor.
Qed.

Section lemmas.
Implicit Types (f : reg_file).

Lemma read_reg f i : wf f → 0 ≤ i < 32 → read i f = Ok (reg f i).
Proof.
  intros Hf Hi. unfold read, reg, reg_count. rewrite (proj2 (Z.ltb_lt _ _)) by lia.
  destruct (nth_z_lt (x f) i) as [v Hv]; [rewrite (wf_len _ Hf); lia|]. by rewrite Hv.
Qed.

Lemma reg_init i : reg reg_file_init i = 0.
Proof.
  unfold reg, nth_z. destruct (0 <=? i); [|done].
  destruct (x reg_file_init !! Z.to_nat i) as [v|] eqn:Hv; [|done].
  apply lookup_replicate in Hv as [-> _]. done.
Qed.
Lemma reg_u32 f i : wf f → is_u32 (reg f i).
Proof.
  intros Hf. unfold reg. destruct (nth_z (x f) i) as [v|] eqn:Hv; simpl; [|lia].
  by eapply (nth_z_Forall (λ w, is_u32 w)); [apply wf_words|].
Qed.

Lemma reg_zero f : wf f → reg f 0 = 0.
Proof. intros Hf. unfold reg. by rewrite (wf_zero _ Hf). Qed.

Definition upd f (i d : Z) : reg_file :=
  if i =? 0 then f else mk_reg_file (<[Z.to_nat i := d]> (x f)).

Lemma write_upd f i d : wf f → 0 ≤ i < 32 → write i d f = Ok (upd f i d).
Proof.
  intros Hf Hi. unfold write, upd, reg_count. destruct (i =? 0); [done|].
  rewrite (proj2 (Z.ltb_lt _ _)) by lia. by rewrite set_z_Some by (rewrite (wf_len _ Hf); lia).
Qed.

Lemma wf_upd f i d : wf f → 0 ≤ i → is_u32 d → wf (upd f i d).
Proof.
  intros Hf Hi Hd. unfold upd. destruct (Z.eqb_spec i 0); [done|]. split; simpl.
  - rewrite length_insert. apply Hf.
  - apply Forall_insert_z; [apply Hf | done].
  - rewrite nth_z_insert_ne by lia. apply Hf.
Qed.

Lemma reg_upd f i j d : wf f → 0 ≤ i < 32 →
  reg (upd f i d) j = if (i =? j) && negb (i =? 0) then d else reg f j.
Proof.
  intros Hf Hi. unfold upd. destruct (Z.eqb_spec i 0), (Z.eqb_spec i j); simpl; try done.
  - subst j. unfold reg; simpl. by rewrite nth_z_insert_eq by (rewrite (wf_len _ Hf); lia).
  - unfold reg; simpl. by rewrite nth_z_insert_ne by lia.
Qed.

Lemma write_vec_spec f i d vec : wf f → 0 ≤ i < 32 →
  write_vec i d vec f = Ok (vec ++ [mk_gpr_change i (reg f i) d], upd f i d).
Proof.
  intros Hf Hi. unfold write_vec, write_out, reg.
  destruct (nth_z_lt (x f) i) as [v Hv]; [rewrite (wf_len _ Hf); lia|]. rewrite Hv. simpl.
  by rewrite write_upd.
Qed.

(** Replaying recorded changes, as a trace consumer does. *)
Definition apply_change f (c : gpr_change) : reg_file := upd f (g_index c) (g_next c).
Definition replay f (cs : list gpr_change) : reg_file := foldl apply_change f cs.

(** Each change records the value it replaces. *)
Fixpoint prevs_ok f (cs : list gpr_change) : Prop :=
  match cs with
  | [] => True
  | c :: cs => g_prev c = reg f (g_index c) ∧ prevs_ok (apply_change f c) cs
  end.

Lemma replay_snoc f cs c : replay f (cs ++ [c]) = apply_change (replay f cs) c.
Proof. unfold replay. by rewrite foldl_app. Qed.
Lemma prevs_ok_snoc f cs c :
  prevs_ok f (cs ++ [c]) ↔ prevs_ok f cs ∧ g_prev c = reg (replay f cs) (g_index c).
Proof.
  revert f. induction cs as [|c' cs IH]; intros f; simpl; [tauto|].
  rewrite IH. unfold replay. simpl. tauto.
Qed.
End lemmas.

(** ** Properties *)

(** Writing the register file through the recording overload.  From a
    well-formed file and for every register number below 32, the write succeeds,
    appends exactly one change holding the old and the new value, keeps the file
    well-formed, and afterwards every register reads as before except the written
    one; register 0 always reads zero, although the recorded change carries the
    value the instruction produced. *)
Theorem reg_write_spec f i d vec :
  wf f → 0 ≤ i < 32 → is_u32 d →
  ∃ f', write_vec i d vec f = Ok (vec ++ [mk_gpr_change i (reg f i) d], f') ∧ wf f' ∧
    read 0 f' = Ok 0 ∧
    ∀ j, 0 ≤ j < 32 →
      read j f' = if (i =? j) && negb (i =? 0) then Ok d else read j f.
Proof.
  intros Hf Hi Hd. exists (upd f i d). assert (wf (upd f i d)) as Hf' by (by apply wf_upd; [|lia|]).
  split; [by apply write_vec_spec|]. split; [done|].
  split; [by rewrite read_reg, reg_zero by (done || lia)|].
  intros j Hj. rewrite !read_reg, reg_upd by done. by destruct (_ && _).
Qed.

(** ** Witnesses *)

Section witnesses.

Lemma reg_write_spec_witness :
  ∃ f', write_vec 5 7 [] reg_file_init = Ok ([mk_gpr_change 5 0 7], f') ∧ wf f' ∧
    read 0 f' = Ok 0 ∧
    ∀ j, 0 ≤ j < 32 →
      read j f' = if (5 =? j) && negb (5 =? 0) then Ok 7 else read j reg_file_init.
Proof. apply (reg_write_spec reg_file_init 5 7 []); [apply wf_init | lia | lia]. Defined.
End witnesses.
