(* ===== verification/Memory.v ===== *)
(** * Sparse memory ([include/memory/sparse_memory.hpp])

    A sparse memory is an [unordered_map] from page addresses to 4096-byte pages
    allocated on the first write.  [sparse_memory_accessor] composes 16, 32 and
    64-bit accesses from bytes; [write] copies a loaded segment into pages.  The
    router on top of it is in [Router]. *)

From S2P Require Export Common.

(** ** Byte stores

    The accessor template composes wider accesses from the [read8] and [write8]
    in scope.  [ByteStore] is that pair, [ByteStoreLaws] what the compositions
    rely on: an invariant, and a view of the store as a map from 32-bit addresses
    to bytes.  The compositions are proved once against the laws. *)

Class ByteStore (M : Type) := {
  read8 : Z → M → res Z;
  write8 : Z → Z → M → res M
}.

Class ByteStoreLaws (M : Type) `{ByteStore M} := {
  inv : M → Prop;
  view : M → Z → Z;
  view_u8 m a : inv m → is_u32 a → is_u8 (view m a);
  read8_view m a : inv m → is_u32 a → read8 a m = Ok (view m a);
  write8_view m a b : inv m → is_u32 a → is_u8 b →
    ∃ m', write8 a b m = Ok m' ∧ inv m' ∧
      ∀ a', is_u32 a' → view m' a' = if a' =? a then b else view m a'
}.

Section accessor.
Context {M : Type} `{ByteStore M} `{CommonLib}.

Definition read16 (off : Z) (m : M) : res Z :=
  a ← read8 off m;
  b ← read8 (u32 (off + 1)) m;
  mret (u16 (Z.lor a (Z.shiftl b 8))).

(** The half-words are promoted to [int]: the shift can set the sign bit. *)
Definition read32 (off : Z) (m : M) : res Z :=
  a ← read16 off m;
  b ← read16 (u32 (off + 2)) m;
  mret (u32 (Z.lor a (s32 (Z.shiftl b 16)))).

Definition read64 (off : Z) (m : M) : res Z :=
  a ← read32 off m;
  b ← read32 (u32 (off + 4)) m;
  mret (u64 (Z.lor a (u64 (Z.shiftl b 32)))).

Definition write16 (off h : Z) (m : M) : res M :=
  m ← write8 off (u8 (offset h 0 7)) m;
  write8 (u32 (off + 1)) (u8 (offset h 8 15)) m.

Definition write32 (off w : Z) (m : M) : res M :=
  m ← write16 off (u16 (offset w 0 15)) m;
  write16 (u32 (off + 2)) (u16 (offset w 16 31)) m.

Definition write64 (off dw : Z) (m : M) : res M :=
  m ← write32 off (u32 (Z.shiftr (u64 (Z.shiftl dw 32)) 32)) m;
  write32 (u32 (off + 4)) (u32 (Z.shiftr dw 32)) m.
End accessor.

(** ** Sparse memory *)

Definition page_size : Z := 4096.
Definition mask : Z := 0xFFFFF000.

Abbreviation sparse_memory := (gmap Z (list Z)).

Definition contains (m : sparse_memory) (key : Z) : bool := bool_decide (is_Some (m !! key)).

Definition ensure_page_exists (addr : Z) (m : sparse_memory) : Z * sparse_memory :=
  let key := Z.land addr mask in
  (key, if contains m key then m else <[key := replicate (Z.to_nat page_size) 0]> m).

Section sparse.
Context `{CommonLib}.

Definition sparse_read8 (off : Z) (m : sparse_memory) : res Z :=
  if negb (contains m (Z.land off mask)) then mret 0
  else
    p ← or_fail (Thrown out_of_range) (m !! Z.land off mask);
    or_fail (Undefined ub_out_of_bounds) (nth_z p (offset off 0 11)).

Definition sparse_write8 (off b : Z) (m : sparse_memory) : res sparse_memory :=
  let '(key, m) := ensure_page_exists off m in
  p ← or_fail (Undefined ub_out_of_bounds) (m !! key);
  p ← or_fail (Undefined ub_out_of_bounds) (set_z p (offset off 0 11) b);
  mret (<[key := p]> m).

#[export] Instance sparse_store : ByteStore sparse_memory :=
  {| read8 := sparse_read8; write8 := sparse_write8 |}.

(** [memcpy] of [size_in_bytes] from the object [ptr] points into; the pointer
    is the list of bytes that object has from there on. *)
Definition write_block (p : list Z) (off : Z) (ptr : list Z) (size_in_bytes : Z)
    : res (list Z * list Z) :=
  let n := Z.to_nat size_in_bytes in
  if (n <=? length ptr)%nat && (0 <=? off) && (off + size_in_bytes <=? Z.of_nat (length p))
  then mret (take (Z.to_nat off) p ++ take n ptr ++ drop (Z.to_nat off + n) p, drop n ptr)
  else Fail (Undefined ub_out_of_bounds).

Fixpoint write_loop (fuel : nat) (virt_addr : Z) (ptr : list Z) (size_in_bytes : Z)
    (m : sparse_memory) : res sparse_memory :=
  match fuel with
  | O => Fail OutOfFuel
  | S fuel =>
      if 0 <? size_in_bytes then
        let '(key, m) := ensure_page_exists virt_addr m in
        let off := offset virt_addr 0 11 in
        let page_end := u32 (page_size - off) in
        p ← or_fail (Undefined ub_out_of_bounds) (m !! key);
        '(p, ptr) ← write_block p off ptr page_end;
        write_loop fuel (u32 (virt_addr + page_end)) ptr (size_in_bytes - page_end)
          (<[key := p]> m)
      else mret m
  end.

(** Every iteration consumes at least one byte of [size_in_bytes]. *)
Definition write (virt_addr : Z) (ptr : list Z) (size_in_bytes : Z) (m : sparse_memory)
    : res sparse_memory :=
  write_loop (S (Z.to_nat size_in_bytes)) virt_addr ptr size_in_bytes m.
End sparse.

(** ** Compositions over any byte store *)

#[local] Opaque page_size.

(** The byte [k] of a word stored little-endian. *)
Definition byte_of (w k : Z) : Z := (w / 2 ^ (8 * k)) mod 2 ^ 8.

(** [n] bytes of [w] written over the view [f] at [a], addresses wrapping at 2^32. *)
Definition overlay (f : Z → Z) (a n w : Z) : Z → Z := λ a',
  let k := u32 (a' - a) in if k <? n then byte_of w k else f a'.

(** The little-endian value of the [n] bytes at [a]. *)
Fixpoint le_value (f : Z → Z) (a : Z) (n : nat) : Z :=
  match n with O => 0 | S n => f a + 2 ^ 8 * le_value f (u32 (a + 1)) n end.

Section compositions.
Context {M : Type} `{ByteStoreLaws M} `{CommonLaws}.
Implicit Types (m : M).

Lemma read16_value a m : inv m → is_u32 a → read16 a m = Ok (le_value (view m) a 2).
Proof.
  intros Hm Ha. unfold read16.
  rewrite !read8_view, !res_bind_ok by (done || apply u32_range).
  pose proof (view_u8 m a Hm Ha). pose proof (view_u8 m (u32 (a + 1)) Hm (u32_range _)).
  rewrite lor_le by lia. unfold mret, res_ret. simpl le_value. rewrite u16_small; [f_equal|]; lia.
Qed.

Lemma le_value_2_u16 a m : inv m → is_u32 a → is_u16 (le_value (view m) a 2).
Proof.
  intros Hm Ha. pose proof (view_u8 m a Hm Ha).
  pose proof (view_u8 m (u32 (a + 1)) Hm (u32_range _)). simpl. lia.
Qed.

Lemma le_value_app (f : Z → Z) a n n' : is_u32 a →
  le_value f a (n + n') = le_value f a n + 2 ^ (8 * Z.of_nat n) * le_value f (u32 (a + Z.of_nat n)) n'.
Proof.
  revert a. induction n as [|n IH]; intros a Ha.
  - simpl Nat.add. cbn [le_value]. rewrite Z.add_0_r, u32_small by done.
    change (8 * Z.of_nat 0) with 0. lia.
  - cbn [Nat.add le_value]. rewrite IH by apply u32_range. rewrite u32_add_l.
    replace (a + 1 + Z.of_nat n) with (a + Z.of_nat (S n)) by lia.
    replace (8 * Z.of_nat (S n)) with (8 + 8 * Z.of_nat n) by lia.
    rewrite Z.pow_add_r by lia. lia.
Qed.

Lemma read32_value a m : inv m → is_u32 a → read32 a m = Ok (le_value (view m) a 4).
Proof.
  intros Hm Ha. unfold read32. rewrite !read16_value, !res_bind_ok by (done || apply u32_range).
  rewrite (le_value_app _ a 2 2) by done. change (8 * Z.of_nat 2) with 16.
  change (a + Z.of_nat 2) with (a + 2).
  pose proof (le_value_2_u16 a m Hm Ha) as Hlo.
  pose proof (le_value_2_u16 (u32 (a + 2)) m Hm (u32_range _)) as Hhi.
  unfold mret, res_ret. by rewrite compose16.
Qed.

Lemma le_value_range a m n : inv m → is_u32 a → 0 ≤ le_value (view m) a n < 2 ^ (8 * Z.of_nat n).
Proof.
  intros Hm. revert a. induction n as [|n IH]; intros a Ha; cbn [le_value]; [lia|].
  specialize (IH (u32 (a + 1)) (u32_range _)). pose proof (view_u8 m a Hm Ha).
  replace (8 * Z.of_nat (S n)) with (8 + 8 * Z.of_nat n) by lia.
  rewrite Z.pow_add_r by lia. nia.
Qed.

Lemma read64_value a m : inv m → is_u32 a → read64 a m = Ok (le_value (view m) a 8).
Proof.
  intros Hm Ha. unfold read64. rewrite !read32_value, !res_bind_ok by (done || apply u32_range).
  rewrite (le_value_app _ a 4 4) by done. change (8 * Z.of_nat 4) with 32.
  change (a + Z.of_nat 4) with (a + 4).
  pose proof (le_value_range a m 4 Hm Ha) as Hlo.
  pose proof (le_value_range (u32 (a + 4)) m 4 Hm (u32_range _)) as Hhi.
  change (8 * Z.of_nat 4) with 32 in *. unfold mret, res_ret. by rewrite compose32.
Qed.

(** *** Writes *)

Lemma byte_of_mod w n k : 0 ≤ k < n → byte_of (w mod 2 ^ (8 * n)) k = byte_of w k.
Proof.
  intros Hk. unfold byte_of. apply Z.bits_inj'. intros i Hi. destruct (decide (i < 8)).
  - rewrite !(Z.mod_pow2_bits_low _ 8), !Z.div_pow2_bits, Z.mod_pow2_bits_low by lia. done.
  - by rewrite !Z.mod_pow2_bits_high by lia.
Qed.

Lemma byte_of_div w n k : 0 ≤ n → 0 ≤ k → byte_of (w / 2 ^ (8 * n)) k = byte_of w (n + k).
Proof.
  intros. unfold byte_of. rewrite Z.mul_add_distr_l, Z.pow_add_r by lia.
  by rewrite Z.div_div by (try apply Z.pow_nonzero; try apply Z.pow_pos_nonneg; lia).
Qed.

Lemma overlay_mod f a n w a' : overlay f a n (w mod 2 ^ (8 * n)) a' = overlay f a n w a'.
Proof.
  unfold overlay. destruct (Z.ltb_spec (u32 (a' - a)) n); [|done].
  apply byte_of_mod. pose proof (u32_range (a' - a)). lia.
Qed.

Lemma overlay_app f a n n' w a' : is_u32 a → is_u32 a' → 0 ≤ n → 0 ≤ n' → n + n' ≤ 2 ^ 32 →
  overlay (overlay f a n w) (u32 (a + n)) n' (w / 2 ^ (8 * n)) a' = overlay f a (n + n') w a'.
Proof.
  intros Ha Ha' Hn Hn' Hb. unfold overlay. set (k := u32 (a' - a)).
  assert (Hk' : u32 (a' - u32 (a + n)) = if k <? n then k - n + 2 ^ 32 else k - n).
  { unfold k. destruct (Z.ltb_spec (u32 (a' - a)) n); word. }
  pose proof (u32_range (a' - a)). fold k in H3. rewrite Hk'.
  destruct (Z.ltb_spec k n).
  - by rewrite (proj2 (Z.ltb_ge _ _)), (proj2 (Z.ltb_lt k _)) by lia.
  - destruct (Z.ltb_spec (k - n) n'), (Z.ltb_spec k (n + n')); try lia.
    rewrite byte_of_div by lia. f_equal. lia.
Qed.

Lemma overlay_ext f g a n w a' : f a' = g a' → overlay f a n w a' = overlay g a n w a'.
Proof. unfold overlay. by intros ->. Qed.

(** [r] stores the [n] low bytes of [w] at [a] in [m], and nothing else. *)
Definition stores (r : res M) m a n w : Prop :=
  ∃ m', r = Ok m' ∧ inv m' ∧ ∀ a', is_u32 a' → view m' a' = overlay (view m) a n w a'.

Lemma write8_stores m a b : inv m → is_u32 a → is_u8 b → stores (write8 a b m) m a 1 b.
Proof.
  intros Hm Ha Hb. destruct (write8_view m a b Hm Ha Hb) as (m' & Hw & Hm' & Hv).
  exists m'. split; [done|]. split; [done|]. intros a' Ha'. rewrite Hv by done. unfold overlay.
  destruct (Z.eqb_spec a' a) as [->|Hne].
  - rewrite Z.sub_diag. change (u32 0) with 0. simpl. unfold byte_of. simpl Z.pow.
    rewrite Z.div_1_r, Z.mod_small; [done | lia].
  - destruct (Z.ltb_spec (u32 (a' - a)) 1); [|done]. exfalso. word.
Qed.

(** Two adjacent stores are one store of their concatenation. *)
Lemma stores_bind m a n n' w (r : res M) (k : M → res M) :
  is_u32 a → 0 ≤ n → 0 ≤ n' → n + n' ≤ 2 ^ 32 →
  stores r m a n w →
  (∀ m', inv m' → stores (k m') m' (u32 (a + n)) n' (w / 2 ^ (8 * n))) →
  stores (r ≫= k) m a (n + n') w.
Proof.
  intros Ha Hn Hn' Hb (m' & -> & Hm' & Hv) Hk.
  destruct (Hk m' Hm') as (m'' & Hr & Hm'' & Hv'). exists m''.
  split; [done|]. split; [done|]. intros a' Ha'. rewrite Hv' by done.
  rewrite <-overlay_app by done. by apply overlay_ext, Hv.
Qed.

Lemma stores_mod r m a n w : stores r m a n (w mod 2 ^ (8 * n)) → stores r m a n w.
Proof.
  intros (m' & Hr & Hm' & Hv). exists m'. split; [done|]. split; [done|].
  intros a' Ha'. rewrite Hv by done. apply overlay_mod.
Qed.

Lemma write16_stores m a h : inv m → is_u32 a → is_u16 h → stores (write16 a h m) m a 2 h.
Proof.
  intros Hm Ha Hh. unfold write16. rewrite !offset_spec by lia.
  apply (stores_bind m a 1 1); [lia..| |].
  - apply stores_mod. rewrite Z.div_1_r, u8_small by (apply Z.mod_pos_bound; lia).
    apply write8_stores; [done..|]. apply Z.mod_pos_bound. lia.
  - intros m' Hm'. apply stores_mod. change (8 * 1) with 8. change (15 - 8 + 1) with 8.
    rewrite u8_small by (apply Z.mod_pos_bound; lia).
    apply write8_stores; [done|apply u32_range|]. apply Z.mod_pos_bound. lia.
Qed.

Lemma write32_stores m a w : inv m → is_u32 a → is_u32 w → stores (write32 a w m) m a 4 w.
Proof.
  intros Hm Ha Hw. unfold write32. rewrite !offset_spec by lia.
  apply (stores_bind m a 2 2); [lia..| |].
  - apply stores_mod. rewrite Z.div_1_r, u16_small by (apply Z.mod_pos_bound; lia).
    apply write16_stores; [done..|]. apply Z.mod_pos_bound. lia.
  - intros m' Hm'. apply stores_mod. change (8 * 2) with 16. change (31 - 16 + 1) with 16.
    rewrite u16_small by (apply Z.mod_pos_bound; lia).
    apply write16_stores; [done|apply u32_range|]. apply Z.mod_pos_bound. lia.
Qed.

Lemma write64_stores m a w : inv m → is_u32 a → is_u64 w → stores (write64 a w m) m a 8 w.
Proof.
  intros Hm Ha Hw. unfold write64.
  replace (u32 (Z.shiftr (u64 (Z.shiftl w 32)) 32)) with (w mod 2 ^ 32).
  - apply (stores_bind m a 4 4); [lia..| |].
    + apply stores_mod. apply write32_stores; [done..|]. apply Z.mod_pos_bound. lia.
    + intros m' Hm'. rewrite Z.shiftr_div_pow2 by lia. change (8 * 4) with 32.
      rewrite (u32_small (w / 2 ^ 32)) by (split; [apply Z.div_pos | apply Z.div_lt_upper_bound]; lia).
      apply write32_stores; [done|apply u32_range|].
      split; [apply Z.div_pos | apply Z.div_lt_upper_bound]; lia.
  - rewrite Z.shiftr_div_pow2, Z.shiftl_mul_pow2 by lia. word.
Qed.

(** *** Reading back *)

Lemma le_value_bytes f a n w : is_u32 a → 0 ≤ w →
  (∀ i, 0 ≤ i < Z.of_nat n → f (u32 (a + i)) = byte_of w i) →
  le_value f a n = w mod 2 ^ (8 * Z.of_nat n).
Proof.
  revert a w. induction n as [|n IH]; intros a w Ha Hw Hf; cbn [le_value].
  - change (8 * Z.of_nat 0) with 0. by rewrite Z.pow_0_r, Z.mod_1_r.
  - rewrite (IH (u32 (a + 1)) (w / 2 ^ 8)); [|apply u32_range|apply Z.div_pos; lia|].
    + pose proof (Hf 0 ltac:(lia)) as H0'. rewrite Z.add_0_r, u32_small in H0' by done.
      rewrite H0'. unfold byte_of. change (8 * 0) with 0. rewrite Z.pow_0_r, Z.div_1_r.
      replace (8 * Z.of_nat (S n)) with (8 + 8 * Z.of_nat n) by lia.
      rewrite Z.pow_add_r, Z.rem_mul_r by (try apply Z.pow_pos_nonneg; lia). done.
    + intros i Hi. rewrite u32_add_l. replace (a + 1 + i) with (a + (1 + i)) by lia.
      rewrite Hf by lia. symmetry. apply (byte_of_div w 1 i); lia.
Qed.

Lemma le_value_ext f g a n :
  (∀ i, 0 ≤ i < Z.of_nat n → f (u32 (a + i)) = g (u32 (a + i))) → is_u32 a →
  le_value f a n = le_value g a n.
Proof.
  revert a. induction n as [|n IH]; intros a Hfg Ha; cbn [le_value]; [done|]. f_equal.
  - pose proof (Hfg 0 ltac:(lia)) as H0'. by rewrite Z.add_0_r, u32_small in H0'.
  - f_equal. apply IH; [|apply u32_range]. intros i Hi. rewrite u32_add_l.
    replace (a + 1 + i) with (a + (1 + i)) by lia. apply Hfg. lia.
Qed.

Lemma le_value_stores r m a n w : is_u32 a → 0 ≤ w → Z.of_nat n ≤ 2 ^ 32 →
  stores r m a (Z.of_nat n) w →
  ∃ m', r = Ok m' ∧ inv m' ∧ le_value (view m') a n = w mod 2 ^ (8 * Z.of_nat n).
Proof.
  intros Ha Hw Hn (m' & Hr & Hm' & Hv). exists m'. split; [done|]. split; [done|].
  apply le_value_bytes; [done..|]. intros i Hi. rewrite Hv by apply u32_range. unfold overlay.
  replace (u32 (u32 (a + i) - a)) with i by word.
  by rewrite (proj2 (Z.ltb_lt _ _)) by lia.
Qed.

(** The [k]-byte window at [b] misses the [n]-byte window at [a]. *)
Definition apart (a n b k : Z) : Prop := ∀ i, 0 ≤ i < k → n ≤ u32 (u32 (b + i) - a).

Lemma le_value_frame r m a n w b k : is_u32 b → apart a n b (Z.of_nat k) →
  stores r m a n w →
  ∃ m', r = Ok m' ∧ inv m' ∧ le_value (view m') b k = le_value (view m) b k.
Proof.
  intros Hb Hap (m' & Hr & Hm' & Hv). exists m'. split; [done|]. split; [done|].
  apply le_value_ext; [|done]. intros i Hi. rewrite Hv by apply u32_range.
  unfold overlay. by rewrite (proj2 (Z.ltb_ge _ _)) by (apply Hap; lia).
Qed.

(** *** Stores with the same contents *)

(** Two stores no read can tell apart: a page that was never allocated and a page
    of zeros, for instance. *)
Definition same m1 m2 : Prop :=
  inv m1 ∧ inv m2 ∧ ∀ a, is_u32 a → view m1 a = view m2 a.

#[export] Instance same_per : @RelationClasses.PER M same.
Proof.
  split.
  - intros m1 m2 (? & ? & Hv). split; [done|]. split; [done|]. intros. symmetry. auto.
  - intros m1 m2 m3 (? & ? & Hv) (? & ? & Hv'). split; [done|]. split; [done|].
    intros. rewrite Hv; auto.
Qed.

Lemma le_value_same m1 m2 a n : is_u32 a → same m1 m2 →
  le_value (view m1) a n = le_value (view m2) a n.
Proof. intros Ha (_ & _ & Hv). apply le_value_ext; [|done]. intros. apply Hv, u32_range. Qed.

Lemma read32_same m1 m2 a : is_u32 a → same m1 m2 → read32 a m1 = read32 a m2.
Proof.
  intros Ha Hs. pose proof Hs as (? & ? & _). rewrite !read32_value by done.
  by rewrite (le_value_same m1 m2).
Qed.

Lemma stores_same r1 r2 m1 m2 a n w : same m1 m2 →
  stores r1 m1 a n w → stores r2 m2 a n w →
  ∃ m1' m2', r1 = Ok m1' ∧ r2 = Ok m2' ∧ same m1' m2'.
Proof.
  intros (_ & _ & Hv) (m1' & ? & ? & Hv1) (m2' & ? & ? & Hv2). exists m1', m2'.
  do 4 (split; [done|]). intros a' Ha'. rewrite Hv1, Hv2 by done. by apply overlay_ext, Hv.
Qed.

Lemma overlay_comm f a n w b k v a' : is_u32 b → is_u32 a' → apart a n b k →
  overlay (overlay f a n w) b k v a' = overlay (overlay f b k v) a n w a'.
Proof.
  intros Hb Ha' Hap. unfold overlay.
  destruct (Z.ltb_spec (u32 (a' - b)) k), (Z.ltb_spec (u32 (a' - a)) n); try done.
  exfalso. pose proof (u32_range (a' - b)).
  specialize (Hap (u32 (a' - b)) ltac:(lia)).
  replace (u32 (b + u32 (a' - b))) with a' in Hap by word. lia.
Qed.
End compositions.

(** ** The sparse memory implements a byte store *)

Section sparse_laws.
Context `{CommonLaws}.
Implicit Types (m : sparse_memory).

Record page_ok (k : Z) (p : list Z) : Prop := {
  page_key : is_u32 k ∧ k mod 4096 = 0;
  page_len : Z.of_nat (length p) = page_size;
  page_bytes : Forall (λ b, is_u8 b) p
}.
Definition wf_mem m : Prop := map_Forall page_ok m.

Definition page_of (a : Z) : Z := Z.land a mask.
Definition byte (m : sparse_memory) (a : Z) : Z :=
  match m !! page_of a with Some p => default 0 (nth_z p (a mod 4096)) | None => 0 end.

Lemma page_of_val a : is_u32 a → page_of a = 4096 * (a / 4096).
Proof.
  intros. unfold page_of, mask. change 0xFFFFF000 with (Z.ldiff (Z.ones 32) (Z.ones 12)).
  by apply land_high_mask.
Qed.
Lemma page_of_ok a : is_u32 a → is_u32 (page_of a) ∧ page_of a mod 4096 = 0.
Proof. intros. rewrite page_of_val by done. word. Qed.
Lemma same_byte a b : is_u32 a → is_u32 b → page_of a = page_of b → a mod 4096 = b mod 4096 → a = b.
Proof. intros ??. rewrite !page_of_val by done. intros. word. Qed.

Lemma page_size_val : page_size = 4096. Proof. done. Qed.

Lemma zero_page_ok k : is_u32 k → k mod 4096 = 0 → page_ok k (replicate (Z.to_nat page_size) 0).
Proof.
  intros. split; [done| |].
  - rewrite length_replicate, page_size_val. lia.
  - apply Forall_replicate. lia.
Qed.

Lemma page_index k p a : page_ok k p → is_u32 a →
  ∃ b, nth_z p (offset a 0 11) = Some b ∧ nth_z p (a mod 4096) = Some b ∧ is_u8 b.
Proof.
  intros Hp Ha. rewrite offset_low12 by done.
  destruct (nth_z_lt p (a mod 4096)) as [b Hb].
  { rewrite (page_len _ _ Hp), page_size_val. apply Z.mod_pos_bound. lia. }
  exists b. do 2 (split; [done|]). by eapply (nth_z_Forall (λ b, is_u8 b)); [apply Hp|].
Qed.

Lemma byte_u8 m a : wf_mem m → is_u32 a → is_u8 (byte m a).
Proof.
  intros Hm Ha. unfold byte. destruct (m !! page_of a) as [p|] eqn:Hp; [|lia].
  destruct (page_index _ p a (Hm _ _ Hp) Ha) as (b & _ & -> & ?). done.
Qed.

Lemma sparse_read8_byte m a : wf_mem m → is_u32 a → sparse_read8 a m = Ok (byte m a).
Proof.
  intros Hm Ha. unfold sparse_read8, contains, byte. fold (page_of a).
  destruct (m !! page_of a) as [p|] eqn:Hp; simpl; [|done].
  destruct (page_index _ p a (Hm _ _ Hp) Ha) as (b & -> & -> & ?). done.
Qed.

(** Allocating a page does not change the contents. *)
Lemma ensure_page_spec m a : wf_mem m → is_u32 a →
  let '(key, m') := ensure_page_exists a m in
  key = page_of a ∧ wf_mem m' ∧ (∃ p, m' !! key = Some p ∧ page_ok key p) ∧
  ∀ a', byte m' a' = byte m a'.
Proof.
  intros Hm Ha. unfold ensure_page_exists, contains. fold (page_of a).
  destruct (m !! page_of a) as [p|] eqn:Hp; simpl.
  - do 2 (split; [done|]). split; [|done]. exists p. split; [done | by apply Hm].
  - destruct (page_of_ok a Ha). pose proof (zero_page_ok (page_of a)).
    split; [done|]. split; [apply map_Forall_insert_2; auto|].
    split; [exists (replicate (Z.to_nat page_size) 0); split; [apply lookup_insert_eq | auto]|].
    intros a'. unfold byte. destruct (decide (page_of a' = page_of a)) as [Heq|Hne].
    + rewrite Heq, lookup_insert_eq, Hp. unfold nth_z. destruct (_ <=? _); [|done].
      destruct (replicate _ _ !! _) eqn:Hl; [|done]. by apply lookup_replicate in Hl as [-> _].
    + by rewrite lookup_insert_ne by done.
Qed.

Lemma insert_page_ok m k p : wf_mem m → page_ok k p → wf_mem (<[k := p]> m).
Proof. intros. by apply map_Forall_insert_2. Qed.

Lemma sparse_write8_byte m a b : wf_mem m → is_u32 a → is_u8 b →
  ∃ m', sparse_write8 a b m = Ok m' ∧ wf_mem m' ∧
    ∀ a', is_u32 a' → byte m' a' = if a' =? a then b else byte m a'.
Proof.
  intros Hm Ha Hb. unfold sparse_write8. pose proof (ensure_page_spec m a Hm Ha) as Hens.
  destruct (ensure_page_exists a m) as [key m1]. destruct Hens as (-> & Hm1 & (p & Hp & Hpok) & Hby).
  rewrite Hp, offset_low12 by done. simpl. pose proof (Z.mod_pos_bound a 4096 ltac:(lia)).
  pose proof (page_len _ _ Hpok) as Hlen. rewrite page_size_val in Hlen.
  rewrite set_z_Some by lia. simpl. eexists. split; [done|].
  assert (Hp' : page_ok (page_of a) (<[Z.to_nat (a mod 4096) := b]> p)).
  { split; [apply Hpok | by rewrite length_insert, page_size_val |]. apply Forall_insert_z; [apply Hpok | done]. }
  split; [by apply insert_page_ok|]. intros a' Ha'. rewrite <-Hby. unfold byte.
  destruct (decide (page_of a' = page_of a)) as [Heq|Hne].
  - rewrite Heq, lookup_insert_eq, Hp. destruct (Z.eqb_spec a' a) as [->|Hne].
    + by rewrite nth_z_insert_eq by lia.
    + rewrite nth_z_insert_ne; [done | lia |]. intros Hmod. by apply Hne, same_byte.
  - rewrite lookup_insert_ne by done. by destruct (Z.eqb_spec a' a) as [->|].
Qed.

#[export] Instance sparse_store_laws : ByteStoreLaws sparse_memory := {|
  inv := wf_mem; view := byte;
  view_u8 := byte_u8; read8_view := sparse_read8_byte; write8_view := sparse_write8_byte |}.
End sparse_laws.

(** ** Copying a segment into pages ([write]) *)

Section copy.
Context `{CommonLaws}.
Implicit Types (m : sparse_memory) (p ptr : list Z).

(** The bytes [write] copies: whole pages from [virt_addr] on, until at least
    [size] bytes are covered. *)
Definition copied (virt_addr size : Z) : Z :=
  if size <=? 0 then 0
  else (virt_addr mod 4096 + size + 4095) / 4096 * 4096 - virt_addr mod 4096.

Lemma copied_ge virt size : 0 ≤ size → size ≤ copied virt size.
Proof. intros. unfold copied. destruct (Z.leb_spec size 0); [lia|]. word. Qed.

Lemma copied_nonneg virt size : 0 ≤ copied virt size.
Proof. unfold copied. destruct (Z.leb_spec size 0); [lia|]. word. Qed.

Lemma copied_step virt size : is_u32 virt → 0 < size →
  let pe := 4096 - virt mod 4096 in
  copied virt size = pe + copied (u32 (virt + pe)) (size - pe).
Proof.
  intros Hv Hs pe. assert (Hm : u32 (virt + pe) mod 4096 = 0) by (unfold pe; word).
  unfold copied. rewrite Hm. destruct (Z.leb_spec size 0); [lia|].
  destruct (Z.leb_spec (size - pe) 0); unfold pe in *; word.
Qed.

Lemma nth_z_app_l {A} (l l' : list A) i : i < Z.of_nat (length l) → nth_z (l ++ l') i = nth_z l i.
Proof.
  intros Hi. unfold nth_z. destruct (Z.leb_spec 0 i); [|done]. apply lookup_app_l. lia.
Qed.
Lemma nth_z_app_r {A} (l l' : list A) i : Z.of_nat (length l) ≤ i →
  nth_z (l ++ l') i = nth_z l' (i - Z.of_nat (length l)).
Proof.
  intros Hi. unfold nth_z. rewrite !(proj2 (Z.leb_le _ _)) by lia.
  rewrite lookup_app_r by lia. f_equal. lia.
Qed.
Lemma nth_z_take {A} (l : list A) n i : i < Z.of_nat n → nth_z (take n l) i = nth_z l i.
Proof.
  intros. unfold nth_z. destruct (Z.leb_spec 0 i); [|done]. apply lookup_take_lt. lia.
Qed.
Lemma nth_z_drop {A} (l : list A) n i : 0 ≤ i → nth_z (drop n l) i = nth_z l (i + Z.of_nat n).
Proof.
  intros. unfold nth_z. rewrite !(proj2 (Z.leb_le _ _)) by lia. rewrite lookup_drop. f_equal. lia.
Qed.

(** One page: from [off] to the end of the page, the bytes come from [ptr]. *)
Lemma write_block_spec k p off ptr : page_ok k p → Forall (λ b, is_u8 b) ptr → 0 ≤ off < 4096 →
  let n := 4096 - off in
  write_block p off ptr n =
    (if n <=? Z.of_nat (length ptr) then
      Ok (take (Z.to_nat off) p ++ take (Z.to_nat n) ptr, drop (Z.to_nat n) ptr)
    else Fail (Undefined ub_out_of_bounds)) ∧
  (n ≤ Z.of_nat (length ptr) →
    page_ok k (take (Z.to_nat off) p ++ take (Z.to_nat n) ptr) ∧
    ∀ i, 0 ≤ i < 4096 →
      nth_z (take (Z.to_nat off) p ++ take (Z.to_nat n) ptr) i =
        if off <=? i then nth_z ptr (i - off) else nth_z p i).
Proof.
  intros Hp Hptr Hoff n. pose proof (page_len _ _ Hp) as Hlen. rewrite page_size_val in Hlen.
  unfold write_block. rewrite (proj2 (Z.leb_le 0 off)), (proj2 (Z.leb_le (off + n) _)) by lia.
  rewrite (drop_ge p) by lia. rewrite app_nil_r, !andb_true_r. split.
  { destruct (Nat.leb_spec (Z.to_nat n) (length ptr)), (Z.leb_spec n (Z.of_nat (length ptr)));
      (done || lia). }
  intros Hn. assert (Hl1 : length (take (Z.to_nat off) p) = Z.to_nat off)
    by (rewrite length_take; lia).
  split; [split; [apply Hp | |]|].
  - rewrite length_app, Hl1, length_take, page_size_val. lia.
  - apply Forall_app. split; apply Forall_take; [apply Hp | done].
  - intros i Hi. destruct (Z.leb_spec off i).
    + rewrite nth_z_app_r, Hl1, nth_z_take by lia. f_equal. lia.
    + rewrite nth_z_app_l, nth_z_take by lia. done.
Qed.

Lemma in_page a virt : is_u32 a → is_u32 virt →
  (virt ≤ a < virt + (4096 - virt mod 4096)) ↔ page_of a = page_of virt ∧ virt mod 4096 ≤ a mod 4096.
Proof. intros Ha Hv. rewrite !page_of_val by done. split; intros; word. Qed.

(** One iteration of the loop, from the page lookup to the updated map. *)
Definition copy_page virt ptr m : res (list Z * sparse_memory) :=
  let '(key, m) := ensure_page_exists virt m in
  p ← or_fail (Undefined ub_out_of_bounds) (m !! key);
  '(p, ptr) ← write_block p (offset virt 0 11) ptr (u32 (page_size - offset virt 0 11));
  mret (ptr, <[key := p]> m).

Lemma write_loop_S fuel virt ptr size m : 0 < size →
  write_loop (S fuel) virt ptr size m =
    '(ptr, m) ← copy_page virt ptr m;
    let pe := u32 (page_size - offset virt 0 11) in
    write_loop fuel (u32 (virt + pe)) ptr (size - pe) m.
Proof.
  intros Hs. unfold copy_page. cbn [write_loop]. rewrite (proj2 (Z.ltb_lt _ _)) by done.
  destruct (ensure_page_exists virt m) as [key m0].
  destruct (or_fail _ (m0 !! key)) as [p|]; [|done]. rewrite !res_bind_ok.
  by destruct (write_block _ _ _ _) as [[p' ptr']|].
Qed.

Lemma copy_page_spec virt ptr m :
  wf_mem m → is_u32 virt → Forall (λ b, is_u8 b) ptr →
  let pe := 4096 - virt mod 4096 in
  if pe <=? Z.of_nat (length ptr) then
    ∃ m', copy_page virt ptr m = Ok (drop (Z.to_nat pe) ptr, m') ∧ wf_mem m' ∧
      ∀ a, is_u32 a → byte m' a =
        if (virt <=? a) && (a <? virt + pe) then default 0 (nth_z ptr (a - virt)) else byte m a
  else copy_page virt ptr m = Fail (Undefined ub_out_of_bounds).
Proof.
  intros Hm Hv Hptr pe. pose proof (Z.mod_pos_bound virt 4096 ltac:(lia)) as Hmod.
  unfold copy_page. pose proof (ensure_page_spec m virt Hm Hv) as Hens.
  destruct (ensure_page_exists virt m) as [key m0]. destruct Hens as (-> & Hm0 & (p & Hp & Hpok) & Hby).
  rewrite offset_low12, page_size_val, Hp by done. fold pe.
  rewrite (u32_small pe) by lia. cbn [or_fail]. rewrite res_bind_ok.
  destruct (write_block_spec (page_of virt) p (virt mod 4096) ptr Hpok Hptr Hmod) as [Hwb Hok].
  fold pe in Hwb, Hok. rewrite Hwb. clear Hwb.
  destruct (Z.leb_spec pe (Z.of_nat (length ptr))) as [Hpe|Hpe]; [|done].
  rewrite res_bind_ok. destruct (Hok Hpe) as [Hpok' Hnth]. clear Hok.
  eexists. split; [done|]. split; [by apply insert_page_ok|]. intros a Ha.
  pose proof (Z.mod_pos_bound a 4096 ltac:(lia)) as Hma.
  pose proof (in_page a virt Ha Hv) as Hin. fold pe in Hin. rewrite <-Hby. unfold byte.
  destruct (decide (page_of a = page_of virt)) as [Heq|Hne].
  - rewrite Heq, lookup_insert_eq, Hp, Hnth by done.
    assert (a mod 4096 - virt mod 4096 = a - virt) as Hd by (rewrite !page_of_val in Heq by done; word).
    destruct (Z.leb_spec (virt mod 4096) (a mod 4096)), (Z.leb_spec virt a), (Z.ltb_spec a (virt + pe));
      simpl; try lia. by rewrite Hd.
  - rewrite lookup_insert_ne by done.
    destruct (Z.leb_spec virt a), (Z.ltb_spec a (virt + pe)); simpl; try done.
    exfalso. apply Hne. apply Hin. lia.
Qed.

(** The next address either stays below 2^32 or wraps to zero with nothing left. *)
Lemma next_address virt size : is_u32 virt → 0 < size → virt + copied virt size ≤ 2 ^ 32 →
  let pe := 4096 - virt mod 4096 in
  let v' := u32 (virt + pe) in
  v' + copied v' (size - pe) ≤ 2 ^ 32 ∧ (v' = virt + pe ∨ v' = 0 ∧ copied v' (size - pe) = 0).
Proof.
  intros Hv Hs Hfit pe v'. pose proof (copied_step virt size Hv Hs) as Hstep.
  cbv zeta in Hstep. fold pe v' in Hstep. pose proof (copied_nonneg v' (size - pe)).
  unfold v' in *. destruct (decide (virt + pe < 2 ^ 32)) as [Hlt|Hge].
  - pose proof (Z.mod_pos_bound virt 4096 ltac:(lia)).
    rewrite (u32_small (virt + pe)) in * by (unfold pe in *; lia). lia.
  - assert (virt + pe = 2 ^ 32) as Heq by (unfold pe in *; word). rewrite Heq in *.
    change (u32 (2 ^ 32)) with 0 in *. lia.
Qed.

Lemma write_loop_spec fuel virt ptr size m :
  (Z.to_nat size < fuel)%nat → wf_mem m → is_u32 virt → Forall (λ b, is_u8 b) ptr →
  virt + copied virt size ≤ 2 ^ 32 →
  if copied virt size <=? Z.of_nat (length ptr) then
    ∃ m', write_loop fuel virt ptr size m = Ok m' ∧ wf_mem m' ∧
      ∀ a, is_u32 a → byte m' a =
        if (virt <=? a) && (a <? virt + copied virt size)
        then default 0 (nth_z ptr (a - virt)) else byte m a
  else write_loop fuel virt ptr size m = Fail (Undefined ub_out_of_bounds).
Proof.
  revert virt ptr size m.
  induction fuel as [|fuel IH]; intros virt ptr size m Hfuel Hm Hv Hptr Hfit; [lia|].
  destruct (Z.ltb_spec 0 size) as [Hs|Hs]; cycle 1.
  { cbn [write_loop]. rewrite (proj2 (Z.ltb_ge _ _)) by done.
    assert (Hc : copied virt size = 0) by (unfold copied; by rewrite (proj2 (Z.leb_le _ _))).
    rewrite Hc, (proj2 (Z.leb_le _ _)) by lia. exists m. do 2 (split; [done|]).
    intros a Ha. destruct (Z.leb_spec virt a), (Z.ltb_spec a (virt + 0)); (done || lia). }
  pose proof (copied_step virt size Hv Hs) as Hstep. pose proof (next_address virt size Hv Hs Hfit) as Hnext.
  pose proof (copy_page_spec virt ptr m Hm Hv Hptr) as Hpage.
  pose proof (copied_nonneg (u32 (virt + (4096 - virt mod 4096))) (size - (4096 - virt mod 4096))) as Hnn.
  rewrite write_loop_S, offset_low12, page_size_val by done. cbv zeta in *.
  pose proof (Z.mod_pos_bound virt 4096 ltac:(lia)) as Hmod.
  rewrite (u32_small (4096 - virt mod 4096)) by lia.
  set (pe := 4096 - virt mod 4096) in *. set (v' := u32 (virt + pe)) in *. rewrite Hstep.
  destruct (Z.leb_spec pe (Z.of_nat (length ptr))) as [Hpe|Hpe]; cycle 1.
  { rewrite Hpage. by rewrite (proj2 (Z.leb_gt _ _)) by lia. }
  destruct Hpage as (m1 & -> & Hm1 & Hby1). rewrite res_bind_ok.
  destruct Hnext as [Hfit' Hv'].
  specialize (IH v' (drop (Z.to_nat pe) ptr) (size - pe) m1 ltac:(lia) Hm1 (u32_range _)
    (Forall_drop _ _ _ Hptr) Hfit'). rewrite length_drop in IH.
  destruct (Z.leb_spec (copied v' (size - pe)) (Z.of_nat (length ptr - Z.to_nat pe))) as [Hl|Hl];
    [rewrite (proj2 (Z.leb_le (pe + _) _)) by lia | by rewrite (proj2 (Z.leb_gt (pe + _) _)) by lia].
  destruct IH as (m' & Hw & Hm' & Hby'). exists m'. split; [done|]. split; [done|].
  intros a Ha. rewrite Hby', Hby1 by done. clear Hby' Hby1 Hw.
  generalize dependent (copied v' (size - pe)). intros c.
  destruct (Z.leb_spec v' a), (Z.ltb_spec a (v' + c)), (Z.leb_spec virt a), (Z.ltb_spec a (virt + pe)),
    (Z.ltb_spec a (virt + (pe + c))); simpl; intros; try done; try lia.
  rewrite nth_z_drop by lia. f_equal. f_equal. lia.
Qed.
End copy.

(** ** Properties *)

Lemma wf_mem_empty : wf_mem ∅.
Proof. by apply map_Forall_empty. Qed.

(** C25: Little-endian round trip at every width.  Over any byte store, a 16, 32 or
    64-bit write at any 32-bit address (the accesses may cross pages and wrap
    around the address space) succeeds, and reading it back at the same width
    returns the value written. *)
Theorem write_read_roundtrip {M : Type} {B : ByteStore M} {BL : ByteStoreLaws M}
    {C : CommonLib} {L : @CommonLaws C} (m : M) a w :
  inv m → is_u32 a →
  (is_u16 w → ∃ m', write16 a w m = Ok m' ∧ inv m' ∧ read16 a m' = Ok w) ∧
  (is_u32 w → ∃ m', write32 a w m = Ok m' ∧ inv m' ∧ read32 a m' = Ok w) ∧
  (is_u64 w → ∃ m', write64 a w m = Ok m' ∧ inv m' ∧ read64 a m' = Ok w).
Proof.
  intros Hm Ha. split; [|split]; intros Hw.
  - destruct (le_value_stores (write16 a w m) m a 2 w Ha) as (m' & ? & ? & Hv);
      [lia | lia | by apply write16_stores |]. exists m'. do 2 (split; [done|]).
    rewrite read16_value, Hv by done. by rewrite Z.mod_small.
  - destruct (le_value_stores (write32 a w m) m a 4 w Ha) as (m' & ? & ? & Hv);
      [lia | lia | by apply write32_stores |]. exists m'. do 2 (split; [done|]).
    rewrite read32_value, Hv by done. by rewrite Z.mod_small.
  - destruct (le_value_stores (write64 a w m) m a 8 w Ha) as (m' & ? & ? & Hv);
      [lia | lia | by apply write64_stores |]. exists m'. do 2 (split; [done|]).
    rewrite read64_value, Hv by done. by rewrite Z.mod_small.
Qed.

(** A 32-bit write stores the four bytes of its value in little-endian order
    and nothing else: every read of a window it does not touch is unchanged, and
    two writes to windows that do not touch commute, up to stores no read can tell
    apart. *)
Theorem write32_frame_and_commute {M : Type} {B : ByteStore M} {BL : ByteStoreLaws M}
    {C : CommonLib} {L : @CommonLaws C} (m : M) a w b v :
  inv m → is_u32 a → is_u32 w → is_u32 b → is_u32 v → apart a 4 b 4 →
  ∃ ma mb mab mba,
    write32 a w m = Ok ma ∧ read32 b ma = read32 b m ∧
    (∀ k, 0 ≤ k < 4 → read8 (u32 (a + k)) ma = Ok (byte_of w k)) ∧
    write32 b v ma = Ok mab ∧ write32 b v m = Ok mb ∧ write32 a w mb = Ok mba ∧ same mab mba.
Proof.
  intros Hm Ha Hw Hb Hv Hap.
  destruct (write32_stores m a w Hm Ha Hw) as (ma & Hwa & Hma & Hva).
  destruct (write32_stores m b v Hm Hb Hv) as (mb & Hwb & Hmb & Hvb).
  destruct (write32_stores ma b v Hma Hb Hv) as (mab & Hwab & Hmab & Hvab).
  destruct (write32_stores mb a w Hmb Ha Hw) as (mba & Hwba & Hmba & Hvba).
  exists ma, mb, mab, mba. split; [done|]. split; [|split].
  - rewrite !read32_value by done. f_equal. apply le_value_ext; [|done].
    intros i Hi. rewrite Hva by apply u32_range. unfold overlay.
    by rewrite (proj2 (Z.ltb_ge _ _)) by (apply Hap; lia).
  - intros k Hk. rewrite read8_view, Hva by (done || apply u32_range). unfold overlay.
    replace (u32 (u32 (a + k) - a)) with k by word. by rewrite (proj2 (Z.ltb_lt _ _)) by lia.
  - do 3 (split; [done|]). do 2 (split; [done|]). intros a' Ha'.
    rewrite Hvab, Hvba, (overlay_ext _ _ _ _ _ _ (Hva a' Ha')), (overlay_ext _ _ _ _ _ _ (Hvb a' Ha')) by done.
    by apply overlay_comm.
Qed.

(** [write] ends, and copies whole pages.  It allocates the pages the range
    touches and copies from the source up to the end of the last one, [copied]
    bytes, at least [size_in_bytes]: if the source object is that long every byte
    of the range holds the source's byte and every other byte is unchanged,
    otherwise the [memcpy] of the last page reads past its end. *)
Theorem write_copies_whole_pages {C : CommonLib} {L : @CommonLaws C} m virt_addr ptr size :
  wf_mem m → is_u32 virt_addr → Forall (λ b, is_u8 b) ptr →
  virt_addr + copied virt_addr size ≤ 2 ^ 32 →
  if copied virt_addr size <=? Z.of_nat (length ptr) then
    ∃ m', write virt_addr ptr size m = Ok m' ∧ wf_mem m' ∧
      ∀ a, is_u32 a → sparse_read8 a m' =
        if (virt_addr <=? a) && (a <? virt_addr + copied virt_addr size)
        then or_fail (Undefined ub_out_of_bounds) (nth_z ptr (a - virt_addr)) else sparse_read8 a m
  else write virt_addr ptr size m = Fail (Undefined ub_out_of_bounds).
Proof.
  intros Hm Hv Hptr Hfit.
  pose proof (write_loop_spec (S (Z.to_nat size)) virt_addr ptr size m ltac:(lia) Hm Hv Hptr Hfit) as Hw.
  fold (write virt_addr ptr size m) in Hw.
  destruct (Z.leb_spec (copied virt_addr size) (Z.of_nat (length ptr))); [|done].
  destruct Hw as (m' & Hw & Hm' & Hby). exists m'. do 2 (split; [done|]). intros a Ha.
  rewrite !sparse_read8_byte, Hby by done.
  destruct (Z.leb_spec virt_addr a), (Z.ltb_spec a (virt_addr + copied virt_addr size)); simpl; try done.
  destruct (nth_z_lt ptr (a - virt_addr)) as [b ->]; [lia | done].
Qed.

(** The consequence for a source object of exactly [size_in_bytes] bytes, such
    as the array of the unit test [SparseMemoryTest.Load]: unless the range ends on
    a page boundary, [write] reads out of bounds. *)
Lemma write_exact_source_overreads {C : CommonLib} {L : @CommonLaws C} m virt_addr ptr :
  wf_mem m → is_u32 virt_addr → Forall (λ b, is_u8 b) ptr → ptr ≠ [] →
  virt_addr + copied virt_addr (Z.of_nat (length ptr)) ≤ 2 ^ 32 →
  (virt_addr + Z.of_nat (length ptr)) mod 4096 ≠ 0 →
  write virt_addr ptr (Z.of_nat (length ptr)) m = Fail (Undefined ub_out_of_bounds).
Proof.
  intros Hm Hv Hptr Hne Hfit Hend. set (size := Z.of_nat (length ptr)) in *.
  assert (0 < size) by (destruct ptr; [done | unfold size; simpl; lia]).
  pose proof (write_loop_spec (S (Z.to_nat size)) virt_addr ptr size m ltac:(lia) Hm Hv Hptr Hfit) as Hw.
  fold size in Hw. rewrite (proj2 (Z.leb_gt _ _)) in Hw; [done|].
  unfold copied. rewrite (proj2 (Z.leb_gt _ _)) by done. clearbody size. clear Hw Hfit. word.
Qed.

(** ** Witnesses *)

Section witnesses.
#[local] Existing Instance ref_common.

Lemma write_read_roundtrip_witness :
  ∃ m', write32 0xFFFFFFFE 0xDEADBEEF (∅ : sparse_memory) = Ok m' ∧ wf_mem m' ∧
    read32 0xFFFFFFFE m' = Ok 0xDEADBEEF.
Proof.
  destruct (write_read_roundtrip (BL := sparse_store_laws) ∅ 0xFFFFFFFE 0xDEADBEEF
    wf_mem_empty ltac:(lia)) as (_ & H32 & _).
  exact (H32 ltac:(lia)).
Defined.

Lemma write32_frame_and_commute_witness :
  ∃ ma mb mab mba : sparse_memory,
    write32 0xFFE 1 (∅ : sparse_memory) = Ok ma ∧
    read32 0x1002 ma = read32 0x1002 ∅ ∧
    (∀ k, 0 ≤ k < 4 → read8 (u32 (0xFFE + k)) ma = Ok (byte_of 1 k)) ∧
    write32 0x1002 2 ma = Ok mab ∧
    write32 0x1002 2 (∅ : sparse_memory) = Ok mb ∧
    write32 0xFFE 1 mb = Ok mba ∧
    same mab mba.
Proof.
  apply (write32_frame_and_commute (BL := sparse_store_laws) ∅ 0xFFE 1 0x1002 2);
    [apply wf_mem_empty | lia | lia | lia | lia |].
  intros i Hi. word.
Defined.

Lemma write_copies_whole_pages_witness :
  ∃ m', write 0xFFE ([0xFF; 0x34; 0xCC] ++ replicate 4095 7) 3 ∅ = Ok m' ∧
    sparse_read8 0x1000 m' = Ok 0xCC ∧
    sparse_read8 0x1FFF m' = Ok 7.
Proof.
  pose proof (write_copies_whole_pages (C := ref_common) ∅ 0xFFE ([0xFF; 0x34; 0xCC] ++ replicate 4095 7) 3
    wf_mem_empty ltac:(lia)) as Hw.
  rewrite length_app, length_replicate in Hw.
  assert (Hb : Forall (λ b, is_u8 b) ([0xFF; 0x34; 0xCC] ++ replicate 4095 7)).
  { apply Forall_app. split; [by repeat constructor | apply Forall_replicate; lia]. }
  destruct (Hw Hb ltac:(by vm_compute)) as (m' & Heq & _ & Hr). exists m'. split; [exact Heq|].
  rewrite !Hr by lia. split; by vm_compute.
Defined.

End witnesses.
