(* ===== verification/Router.v ===== *)
(** * The address router ([include/memory/sparse_memory.hpp], [src/memory/sparse_memory.cpp])

    [address_router] is the crossbar between the hart and memory: a sparse memory
    plus the two 8-byte timer registers [mtime] and [mtimecmp], each an array of
    atomic bytes at an address taken from the command line. *)

From S2P Require Export Memory.

Record address_router : Type := mk_address_router {
  pages : sparse_memory;
  mtime_addr : Z;
  mtimecmp_addr : Z;
  mtimecmp : list Z;
  mtime : list Z
}.

Definition address_router_of (m : sparse_memory) (mtime_addr mtimecmp_addr : Z) : address_router :=
  mk_address_router m mtime_addr mtimecmp_addr (replicate 8 0) (replicate 8 0).

Definition with_pages (m : sparse_memory) (r : address_router) : address_router :=
  mk_address_router m (mtime_addr r) (mtimecmp_addr r) (mtimecmp r) (mtime r).
Definition with_mtime (t : list Z) (r : address_router) : address_router :=
  mk_address_router (pages r) (mtime_addr r) (mtimecmp_addr r) (mtimecmp r) t.
Definition with_mtimecmp (t : list Z) (r : address_router) : address_router :=
  mk_address_router (pages r) (mtime_addr r) (mtimecmp_addr r) t (mtime r).

(** [off >= base && off < base + 8], with the sum in [uint32_t]. *)
Definition in_window (base off : Z) : bool := (base <=? off) && (off <? u32 (base + 8)).

Section router.
Context `{CommonLib}.

Definition router_read8 (off : Z) (r : address_router) : res Z :=
  if in_window (mtime_addr r) off then
    or_fail (Thrown out_of_range) (nth_z (mtime r) (u32 (off - mtime_addr r)))
  else if in_window (mtimecmp_addr r) off then
    or_fail (Thrown out_of_range) (nth_z (mtimecmp r) (u32 (off - mtimecmp_addr r)))
  else sparse_read8 off (pages r).

Definition router_write8 (off b : Z) (r : address_router) : res address_router :=
  if in_window (mtime_addr r) off then
    t ← or_fail (Thrown out_of_range) (set_z (mtime r) (u32 (off - mtime_addr r)) b);
    mret (with_mtime t r)
  else if in_window (mtimecmp_addr r) off then
    t ← or_fail (Thrown out_of_range) (set_z (mtimecmp r) (u32 (off - mtimecmp_addr r)) b);
    mret (with_mtimecmp t r)
  else
    m ← sparse_write8 off b (pages r);
    mret (with_pages m r).

#[export] Instance router_store : ByteStore address_router :=
  {| read8 := router_read8; write8 := router_write8 |}.

(** The wider accesses are members of [sparse_memory_accessor<address_router>]
    and are not virtual: the [read8] and [write8] they call are that class's
    own, so they act on the pages. *)
Definition router_read16 (off : Z) (r : address_router) : res Z := read16 off (pages r).
Definition router_read32 (off : Z) (r : address_router) : res Z := read32 off (pages r).
Definition router_read64 (off : Z) (r : address_router) : res Z := read64 off (pages r).
Definition on_pages (f : sparse_memory → res sparse_memory) (r : address_router)
    : res address_router := m ← f (pages r); mret (with_pages m r).
Definition router_write16 (off h : Z) : address_router → res address_router :=
  on_pages (write16 off h).
Definition router_write32 (off w : Z) : address_router → res address_router :=
  on_pages (write32 off w).
Definition router_write64 (off dw : Z) : address_router → res address_router :=
  on_pages (write64 off dw).
Definition router_write (virt_addr : Z) (ptr : list Z) (size_in_bytes : Z)
    : address_router → res address_router := on_pages (write virt_addr ptr size_in_bytes).
End router.

(** The base class [sparse_memory_accessor_base<Derived>] forwards each access to the
    member of that name which is found in [Derived]. *)
Class Accessor (T : Type) := {
  derived_read8 : Z → T → res Z;
  derived_read16 : Z → T → res Z;
  derived_read32 : Z → T → res Z;
  derived_read64 : Z → T → res Z;
  derived_write8 : Z → Z → T → res T;
  derived_write16 : Z → Z → T → res T;
  derived_write32 : Z → Z → T → res T;
  derived_write64 : Z → Z → T → res T
}.

Section base.
Context {T : Type} `{Accessor T}.
Definition base_read8 (off : Z) (this : T) : res Z := derived_read8 off this.
Definition base_read16 (off : Z) (this : T) : res Z := derived_read16 off this.
Definition base_read32 (off : Z) (this : T) : res Z := derived_read32 off this.
Definition base_read64 (off : Z) (this : T) : res Z := derived_read64 off this.
Definition base_write8 (off b : Z) (this : T) : res T := derived_write8 off b this.
Definition base_write16 (off h : Z) (this : T) : res T := derived_write16 off h this.
Definition base_write32 (off w : Z) (this : T) : res T := derived_write32 off w this.
Definition base_write64 (off dw : Z) (this : T) : res T := derived_write64 off dw this.
End base.

(** [address_router] has byte accesses of its own and inherits the others. *)
#[export] Instance router_accessor `{CommonLib} : Accessor address_router := {|
  derived_read8 := router_read8; derived_read16 := router_read16;
  derived_read32 := router_read32; derived_read64 := router_read64;
  derived_write8 := router_write8; derived_write16 := router_write16;
  derived_write32 := router_write32; derived_write64 := router_write64
|}.

(** ** Lemmas *)

Section router_laws.
Context `{CommonLaws}.
Implicit Types (r : address_router).

Record timer_ok (t : list Z) : Prop := {
  timer_len : length t = 8%nat;
  timer_bytes : Forall (λ b, is_u8 b) t
}.
Record wf_router r : Prop := {
  r_pages : wf_mem (pages r);
  r_mtime : timer_ok (mtime r);
  r_mtimecmp : timer_ok (mtimecmp r);
  r_mtime_addr : is_u32 (mtime_addr r);
  r_mtimecmp_addr : is_u32 (mtimecmp_addr r)
}.

(** What a byte access through the router sees. *)
Definition router_byte r a : Z :=
  if in_window (mtime_addr r) a then default 0 (nth_z (mtime r) (a - mtime_addr r))
  else if in_window (mtimecmp_addr r) a then default 0 (nth_z (mtimecmp r) (a - mtimecmp_addr r))
  else byte (pages r) a.

Lemma in_window_range base a : is_u32 base → is_u32 a → in_window base a = true →
  u32 (a - base) = a - base ∧ 0 ≤ a - base < 8.
Proof.
  intros Hb Ha [?%Z.leb_le ?%Z.ltb_lt]%andb_true_iff. rewrite u32_small by word. word.
Qed.

Lemma timer_nth t i : timer_ok t → 0 ≤ i < 8 → ∃ b, nth_z t i = Some b ∧ is_u8 b.
Proof.
  intros Ht Hi. destruct (nth_z_lt t i) as [b Hb]; [rewrite (timer_len _ Ht); lia|].
  exists b. split; [done|]. by eapply (nth_z_Forall (λ b, is_u8 b)); [apply Ht|].
Qed.
Lemma timer_set t i b : timer_ok t → 0 ≤ i < 8 → is_u8 b →
  set_z t i b = Some (<[Z.to_nat i := b]> t) ∧ timer_ok (<[Z.to_nat i := b]> t).
Proof.
  intros Ht Hi Hb. rewrite set_z_Some by (rewrite (timer_len _ Ht); lia). split; [done|].
  split; [rewrite length_insert; apply Ht | apply Forall_insert_z; [apply Ht | done]].
Qed.
Lemma nth_z_timer_insert t i j b : timer_ok t → 0 ≤ i < 8 →
  nth_z (<[Z.to_nat i := b]> t) j = if j =? i then Some b else nth_z t j.
Proof.
  intros Ht Hi. destruct (Z.eqb_spec j i) as [->|].
  - apply nth_z_insert_eq. rewrite (timer_len _ Ht). lia.
  - apply nth_z_insert_ne; lia.
Qed.

Lemma router_byte_u8 r a : wf_router r → is_u32 a → is_u8 (router_byte r a).
Proof.
  intros Hr Ha. unfold router_byte.
  destruct (in_window (mtime_addr r) a) eqn:Hw.
  { apply in_window_range in Hw as [_ Hi]; [|apply Hr|done].
    by destruct (timer_nth _ _ (r_mtime _ Hr) Hi) as (b & -> & ?). }
  destruct (in_window (mtimecmp_addr r) a) eqn:Hw'; [|apply byte_u8; [apply Hr | done]].
  apply in_window_range in Hw' as [_ Hi]; [|apply Hr|done].
  by destruct (timer_nth _ _ (r_mtimecmp _ Hr) Hi) as (b & -> & ?).
Qed.

Lemma router_read8_byte r a : wf_router r → is_u32 a → router_read8 a r = Ok (router_byte r a).
Proof.
  intros Hr Ha. unfold router_read8, router_byte.
  destruct (in_window (mtime_addr r) a) eqn:Hw.
  { apply in_window_range in Hw as [-> Hi]; [|apply Hr|done].
    by destruct (timer_nth _ _ (r_mtime _ Hr) Hi) as (b & -> & ?). }
  destruct (in_window (mtimecmp_addr r) a) eqn:Hw'; [|apply sparse_read8_byte; [apply Hr | done]].
  apply in_window_range in Hw' as [-> Hi]; [|apply Hr|done].
  by destruct (timer_nth _ _ (r_mtimecmp _ Hr) Hi) as (b & -> & ?).
Qed.

Lemma sub_eqb a a' c : (a' - c =? a - c) = (a' =? a).
Proof. destruct (Z.eqb_spec (a' - c) (a - c)), (Z.eqb_spec a' a); (done || lia). Qed.

Lemma router_write8_byte r a b : wf_router r → is_u32 a → is_u8 b →
  ∃ r', router_write8 a b r = Ok r' ∧ wf_router r' ∧
    ∀ a', is_u32 a' → router_byte r' a' = if a' =? a then b else router_byte r a'.
Proof.
  intros Hr Ha Hb. pose proof Hr as [? Ht Htc ??]. unfold router_write8.
  destruct (in_window (mtime_addr r) a) eqn:Hw;
    [|destruct (in_window (mtimecmp_addr r) a) eqn:Hw'].
  - pose proof (in_window_range _ _ (r_mtime_addr _ Hr) Ha Hw) as [-> Hi].
    destruct (timer_set _ _ b Ht Hi Hb) as [-> Hok]. eexists. split; [done|]. split; [by split|].
    intros a' Ha'. unfold router_byte; simpl. rewrite nth_z_timer_insert, sub_eqb by done.
    destruct (Z.eqb_spec a' a) as [->|]; [by rewrite Hw | done].
  - pose proof (in_window_range _ _ (r_mtimecmp_addr _ Hr) Ha Hw') as [-> Hi].
    destruct (timer_set _ _ b Htc Hi Hb) as [-> Hok]. eexists. split; [done|]. split; [by split|].
    intros a' Ha'. unfold router_byte; simpl. rewrite nth_z_timer_insert, sub_eqb by done.
    destruct (Z.eqb_spec a' a) as [->|]; [by rewrite Hw, Hw' | done].
  - destruct (sparse_write8_byte (pages r) a b (r_pages _ Hr) Ha Hb) as (m' & -> & Hm' & Hv).
    eexists. split; [done|]. split; [by split|].
    intros a' Ha'. unfold router_byte; simpl. rewrite Hv by done.
    destruct (Z.eqb_spec a' a) as [->|]; [by rewrite Hw, Hw' | done].
Qed.

(** No access moves the two registers. *)
Lemma router_write8_addrs r a b r' : router_write8 a b r = Ok r' →
  mtime_addr r' = mtime_addr r ∧ mtimecmp_addr r' = mtimecmp_addr r.
Proof.
  unfold router_write8. intros Hw.
  destruct (in_window (mtime_addr r) a); [|destruct (in_window (mtimecmp_addr r) a)];
    apply res_bind_inv in Hw as (t & _ & [= <-]); done.
Qed.

(** The router, too, is a byte store. *)
#[export] Instance router_store_laws : ByteStoreLaws address_router := {|
  inv := wf_router; view := router_byte;
  view_u8 := router_byte_u8; read8_view := router_read8_byte; write8_view := router_write8_byte |}.

Lemma wf_address_router_of m a c : wf_mem m → is_u32 a → is_u32 c → wf_router (address_router_of m a c).
Proof. intros. split; try done; split; simpl; try done; by repeat constructor. Qed.

Lemma wf_with_pages r m : wf_router r → wf_mem m → wf_router (with_pages m r).
Proof. by intros [] ?. Qed.

(** Router accesses wider than a byte, over the pages. *)
Lemma router_read16_ok r a : wf_router r → is_u32 a →
  router_read16 a r = Ok (le_value (byte (pages r)) a 2).
Proof. intros Hr Ha. exact (read16_value a (pages r) (r_pages _ Hr) Ha). Qed.
Lemma router_read32_ok r a : wf_router r → is_u32 a →
  router_read32 a r = Ok (le_value (byte (pages r)) a 4).
Proof. intros Hr Ha. exact (read32_value a (pages r) (r_pages _ Hr) Ha). Qed.
Lemma router_read64_ok r a : wf_router r → is_u32 a →
  router_read64 a r = Ok (le_value (byte (pages r)) a 8).
Proof. intros Hr Ha. exact (read64_value a (pages r) (r_pages _ Hr) Ha). Qed.

Lemma on_pages_stores f r a n w : wf_router r → stores (f (pages r)) (pages r) a n w →
  ∃ m', on_pages f r = Ok (with_pages m' r) ∧ wf_router (with_pages m' r) ∧
    ∀ a', is_u32 a' → byte m' a' = overlay (byte (pages r)) a n w a'.
Proof.
  intros Hr (m' & Hf & Hm' & Hv). exists m'. unfold on_pages. rewrite Hf.
  split; [done|]. split; [by apply wf_with_pages | done].
Qed.
Lemma router_write16_ok r a w : wf_router r → is_u32 a → is_u16 w →
  ∃ m', router_write16 a w r = Ok (with_pages m' r) ∧ wf_router (with_pages m' r) ∧
    ∀ a', is_u32 a' → byte m' a' = overlay (byte (pages r)) a 2 w a'.
Proof.
  intros Hr Ha Hw. apply on_pages_stores; [done|].
  exact (write16_stores (pages r) a w (r_pages _ Hr) Ha Hw).
Qed.
Lemma router_write32_ok r a w : wf_router r → is_u32 a → is_u32 w →
  ∃ m', router_write32 a w r = Ok (with_pages m' r) ∧ wf_router (with_pages m' r) ∧
    ∀ a', is_u32 a' → byte m' a' = overlay (byte (pages r)) a 4 w a'.
Proof.
  intros Hr Ha Hw. apply on_pages_stores; [done|].
  exact (write32_stores (pages r) a w (r_pages _ Hr) Ha Hw).
Qed.
Lemma le_value_u32 r a : wf_router r → is_u32 a → is_u32 (le_value (byte (pages r)) a 4).
Proof. intros Hr Ha. exact (le_value_range a (pages r) 4 (r_pages _ Hr) Ha). Qed.
End router_laws.

(** ** Properties *)

(** The router's multi-byte accesses never reach the timer registers.  Whatever
    the two register arrays hold, a 16, 32 or 64-bit read returns the contents of
    the pages, and a 32-bit write changes the pages only, also at the addresses
    [--mtime] and [--mtimecmp] name; a byte read at those addresses does return the
    register.  So [mem.read64(opts.mtime)] in [interrupt_pending] does not read the
    counter the timer thread advances. *)
Theorem router_wide_access_bypasses_timer {C : CommonLib} {L : @CommonLaws C} r a w t tc :
  wf_router r → is_u32 a → is_u32 w → timer_ok t → timer_ok tc →
  let r' := with_mtime t (with_mtimecmp tc r) in
  router_read16 a r' = router_read16 a r ∧
  router_read32 a r' = router_read32 a r ∧
  router_read64 a r' = router_read64 a r ∧
  (∃ r1, router_write32 a w r = Ok r1 ∧ mtime r1 = mtime r ∧ mtimecmp r1 = mtimecmp r) ∧
  (in_window (mtime_addr r) a = true → router_read8 a r' = or_fail (Thrown out_of_range) (nth_z t (a - mtime_addr r))).
Proof.
  intros Hr Ha Hw Ht Htc r'. do 3 (split; [done|]). split.
  - destruct (router_write32_ok r a w Hr Ha Hw) as (m' & ? & _). eauto.
  - intros Hin. unfold r', router_read8. simpl. rewrite Hin.
    by destruct (in_window_range _ _ (r_mtime_addr _ Hr) Ha Hin) as [-> _].
Qed.

Definition sample_router : address_router := address_router_of ∅ 0x8000 0x8100.

Lemma sample_router_ok : wf_router sample_router.
Proof. apply wf_address_router_of; [apply wf_mem_empty | lia | lia]. Qed.

(** Byte accesses through the router do reach them: [router_write8] followed
    by [router_read8] returns the byte written, every other address keeps its byte
    even when the two register windows overlap each other or the pages, and the
    router stays well-formed; so the router is a byte store at that width. *)
Theorem router_byte_access {C : CommonLib} {L : @CommonLaws C} r a b :
  wf_router r → is_u32 a → is_u8 b →
  ∃ r', router_write8 a b r = Ok r' ∧ wf_router r' ∧ router_read8 a r' = Ok b ∧
    ∀ a', is_u32 a' → a' ≠ a → router_read8 a' r' = router_read8 a' r.
Proof.
  intros Hr Ha Hb. destruct (router_write8_byte r a b Hr Ha Hb) as (r' & Hw & Hr' & Hv).
  exists r'. do 2 (split; [done|]). split.
  - by rewrite router_read8_byte, Hv, Z.eqb_refl.
  - intros a' Ha' Hne. rewrite !router_read8_byte, Hv by done.
    by rewrite (proj2 (Z.eqb_neq _ _)).
Qed.

(** Through a reference to the base class the widths disagree at the timer registers, in
    both directions: a byte written there is read back by a byte access, and no wider read
    at any address changes; a wider write leaves the registers as they were. *)
Theorem base_widths_disagree {C : CommonLib} {L : @CommonLaws C} r a b w :
  wf_router r → is_u32 a → is_u8 b → is_u32 w →
  in_window (mtime_addr r) a || in_window (mtimecmp_addr r) a = true →
  (∃ r', base_write8 a b r = Ok r' ∧ base_read8 a r' = Ok b ∧
    ∀ a', base_read16 a' r' = base_read16 a' r ∧ base_read32 a' r' = base_read32 a' r ∧
      base_read64 a' r' = base_read64 a' r) ∧
  (∃ r', base_write32 a w r = Ok r' ∧ base_read8 a r' = base_read8 a r).
Proof.
  intros Hr Ha Hb Hw Hin. split.
  - destruct (router_write8_byte r a b Hr Ha Hb) as (r' & Hs & Hr' & Hv). exists r'.
    split; [exact Hs|]. split. { cbn. by rewrite router_read8_byte, Hv, Z.eqb_refl. }
    assert (pages r' = pages r) as Hp.
    { revert Hs. unfold router_write8. destruct (in_window (mtime_addr r) a).
      - intros (t & _ & [= <-])%res_bind_inv. done.
      - simpl in Hin. rewrite Hin. intros (t & _ & [= <-])%res_bind_inv. done. }
    intros a'. cbn. unfold router_read16, router_read32, router_read64. by rewrite Hp.
  - destruct (router_write32_ok r a w Hr Ha Hw) as (m & Hs & Hr' & _). exists (with_pages m r).
    split; [exact Hs|]. cbn. rewrite !router_read8_byte by done. unfold router_byte. simpl.
    destruct (in_window (mtime_addr r) a); [done|]. simpl in Hin. by rewrite Hin.
Qed.

(** ** Witnesses *)

Section witnesses.
#[local] Existing Instance ref_common.

Lemma router_wide_access_bypasses_timer_witness :
  let r' := with_mtime [9; 0; 0; 0; 0; 0; 0; 0] (with_mtimecmp (replicate 8 1) sample_router) in
  router_read64 0x8000 r' = Ok 0 ∧
  router_read8 0x8000 r' = Ok 9.
Proof.
  assert (timer_ok [9; 0; 0; 0; 0; 0; 0; 0]) by (split; [done|]; by repeat constructor).
  assert (timer_ok (replicate 8 1)) by (split; [done|]; by repeat constructor).
  destruct (router_wide_access_bypasses_timer (C := ref_common) sample_router 0x8000 0
    [9; 0; 0; 0; 0; 0; 0; 0] (replicate 8 1)) as (_ & _ & H64 & _ & H8);
    [apply sample_router_ok | lia | lia | done | done |].
  split; [exact H64 | exact (H8 eq_refl)].
Defined.

Lemma router_byte_access_witness :
  ∃ r', router_write8 0x8103 7 sample_router = Ok r' ∧ wf_router r' ∧
    router_read8 0x8103 r' = Ok 7 ∧
    ∀ a', is_u32 a' → a' ≠ 0x8103 →
      router_read8 a' r' = router_read8 a' sample_router.
Proof. apply router_byte_access; [apply sample_router_ok | lia | lia]. Defined.

Lemma base_widths_disagree_witness :
  ∃ r', base_write8 0x8001 7 sample_router = Ok r' ∧ base_read8 0x8001 r' = Ok 7 ∧
    base_read16 0x8001 r' = Ok 0.
Proof.
  destruct (base_widths_disagree (C := ref_common) sample_router 0x8001 7 0 sample_router_ok) as [(r' & Hw & Hr & Ha) _];
    [lia | lia | lia | reflexivity |].
  exists r'. split; [exact Hw|]. split; [exact Hr|]. exact (proj1 (Ha 0x8001)).
Defined.
End witnesses.
