(* ===== verification/Timer.v ===== *)
(** * The timer thread ([include/mti_source.hpp], [src/mti_source.cpp])

    A second thread increments the lowest byte of mtime once per interval, sleeping on a
    condition variable between increments; [set_exiting], which the destructor calls,
    stores a flag, notifies the condition variable and joins the thread.  Both are programs
    over shared state, so they are modelled as such: a program counter for each, one step
    for each access to something shared, and the interleavings as a transition system. *)

From stdpp Require Import relations.
From S2P Require Export Router.

(** ** The byte that is incremented *)

(** [mtime.at(0).fetch_add(1)] on an atomic byte. *)
Definition fetch_add (t : list Z) : res (list Z) :=
  b ← or_fail (Thrown out_of_range) (nth_z t 0);
  or_fail (Thrown out_of_range) (set_z t 0 (u8 (b + 1))).

(** ** The two programs *)

(** How a wait on the condition variable ends; [no_timeout] is a notification or a
    spurious wake-up. *)
Inductive cv_status : Set := no_timeout | timeout.

(** Where the thread is in [runner].  [wait_for] with a predicate evaluates it with the
    mutex held; while it is false it waits, and when the time is up it returns the
    predicate's value once more.  The mutex is released when the wait begins. *)
Inductive runner_pc : Set :=
  | at_exiting                      (* the loop condition: load [is_exiting] *)
  | at_pending                      (* the loop condition: read [pending_interrupt] *)
  | at_increment                    (* [fetch_add] *)
  | at_lock                         (* lock [mtx] *)
  | at_predicate                    (* evaluate the predicate *)
  | at_wait                         (* it was false: release [mtx] and block *)
  | waiting                         (* blocked *)
  | at_relock (status : cv_status)  (* woken: lock [mtx] again *)
  | at_last_predicate               (* timed out: evaluate the predicate *)
  | at_unlock                       (* end of the iteration: the lock is destroyed *)
  | finished.                       (* [runner] has returned *)

(** The caller of [set_exiting]. *)
Inductive caller_pc : Set :=
  | at_store        (* [is_exiting.store(exiting)] *)
  | at_notify       (* [cond.notify_one()] *)
  | at_join         (* [if (t.joinable()) t.join()] *)
  | returned.

#[export] Instance cv_status_eq_dec : EqDecision cv_status.
Proof. solve_decision. Defined.
#[export] Instance runner_pc_eq_dec : EqDecision runner_pc.
Proof. solve_decision. Defined.
#[export] Instance caller_pc_eq_dec : EqDecision caller_pc.
Proof. solve_decision. Defined.

(** The two members, the thread they own, and the file's mutex. *)
Record mti_source : Set := mk_mti_source {
  is_exiting : bool; joinable : bool; runner_at : runner_pc; mtx : bool
}.

(** The constructor: [is_exiting] is declared before the thread, so it is set when the
    thread starts. *)
Definition mti_source_init : mti_source := mk_mti_source false true at_exiting false.

Definition goto (p : runner_pc) (t : mti_source) : mti_source :=
  mk_mti_source (is_exiting t) (joinable t) p (mtx t).
Definition lock_goto (p : runner_pc) (t : mti_source) : option mti_source :=
  if mtx t then None else Some (mk_mti_source (is_exiting t) (joinable t) p true).
Definition unlock_goto (p : runner_pc) (t : mti_source) : mti_source :=
  mk_mti_source (is_exiting t) (joinable t) p false.

(** What a step of the thread does besides moving on. *)
Inductive action : Set := silent | increment | time_is_up.
#[export] Instance action_eq_dec : EqDecision action.
Proof. solve_decision. Defined.

(** One step of [runner], given the value of [pending_interrupt] and, for a thread that
    is blocked, how the wait ends. *)
Definition runner_step (pending_interrupt : Z) (status : cv_status) (t : mti_source)
    : option (action * mti_source) :=
  match runner_at t with
  | at_exiting => Some (silent, goto (if is_exiting t then finished else at_pending) t)
  | at_pending => Some (silent, goto (if negb (pending_interrupt =? 0) then finished else at_increment) t)
  | at_increment => Some (increment, goto at_lock t)
  | at_lock => t ← lock_goto at_predicate t; Some (silent, t)
  | at_predicate => Some (silent, goto (if is_exiting t then at_unlock else at_wait) t)
  | at_wait => Some (silent, unlock_goto waiting t)
  | waiting => Some (match status with timeout => time_is_up | no_timeout => silent end, goto (at_relock status) t)
  | at_relock status =>
      t ← lock_goto (match status with timeout => at_last_predicate | no_timeout => at_predicate end) t;
      Some (silent, t)
  | at_last_predicate => Some (silent, goto at_unlock t)
  | at_unlock => Some (silent, unlock_goto at_exiting t)
  | finished => None
  end.

(** [notify_one] wakes the thread if it is blocked at that moment. *)
Definition notify_one (t : mti_source) : mti_source :=
  if decide (runner_at t = waiting) then goto (at_relock no_timeout) t else t.

(** One step of [set_exiting]; [join] waits for the end of the thread. *)
Definition set_exiting_step (exiting : bool) (c : caller_pc) (t : mti_source)
    : option (caller_pc * mti_source) :=
  match c with
  | at_store => Some (at_notify, mk_mti_source exiting (joinable t) (runner_at t) (mtx t))
  | at_notify => Some (at_join, notify_one t)
  | at_join =>
      if joinable t then
        if decide (runner_at t = finished)
        then Some (returned, mk_mti_source (is_exiting t) false (runner_at t) (mtx t)) else None
      else Some (returned, t)
  | returned => None
  end.

(** [~mti_source]. *)
Definition destroy_step : caller_pc → mti_source → option (caller_pc * mti_source) := set_exiting_step true.

(** ** Interleavings *)

(** The thread and one call of [set_exiting], which may begin at any time.  Whatever
    [pending_interrupt] holds when it is read is an argument of the step. *)
Inductive threads_step (exiting : bool) : action → caller_pc * mti_source → caller_pc * mti_source → Prop :=
  | step_runner c t p status a t' :
      runner_step p status t = Some (a, t') → threads_step exiting a (c, t) (c, t')
  | step_caller c t c' t' :
      set_exiting_step exiting c t = Some (c', t') → threads_step exiting silent (c, t) (c', t').

Inductive execution (exiting : bool) : list action → relation (caller_pc * mti_source) :=
  | exec_nil w : execution exiting [] w w
  | exec_cons a l w w' w'' :
      threads_step exiting a w w' → execution exiting l w' w'' → execution exiting (a :: l) w w''.

Definition created : caller_pc * mti_source := (at_store, mti_source_init).

(** ** Lemmas *)

Lemma fetch_add_ok t : timer_ok t →
  fetch_add t = Ok (<[0%nat := u8 (default 0 (nth_z t 0) + 1)]> t) ∧
  timer_ok (<[0%nat := u8 (default 0 (nth_z t 0) + 1)]> t).
Proof.
  intros Ht. destruct (timer_nth t 0 Ht ltac:(lia)) as (b & Hb & _). unfold fetch_add.
  rewrite Hb. simpl or_fail. rewrite res_bind_ok. simpl default.
  destruct (timer_set t 0 (u8 (b + 1)) Ht ltac:(lia) (u8_range _)) as [-> Hok]. done.
Qed.

(** The mutex is held exactly by the thread, at these points. *)
Definition holds_mtx (p : runner_pc) : bool :=
  match p with at_predicate | at_wait | at_last_predicate | at_unlock => true | _ => false end.

Record source_ok (t : mti_source) : Prop := {
  source_mtx : mtx t = holds_mtx (runner_at t);
  source_joined : joinable t = false → runner_at t = finished
}.
(** [set_exiting true] has stored the flag when it is past the first step, and joined
    when it has returned. *)
Record threads_ok (w : caller_pc * mti_source) : Prop := {
  threads_source : source_ok w.2;
  threads_stored : is_exiting w.2 = bool_decide (w.1 ≠ at_store);
  threads_returned : w.1 = returned ↔ joinable w.2 = false
}.

Ltac step_cases :=
  repeat (done || match goal with
    | H : Some _ = Some _ |- _ => injection H as <- <-
    | H : None = Some _ |- _ => discriminate H
    | H : context [match ?x with _ => _ end] |- _ => destruct x eqn:?
    | H : context [if ?x then _ else _] |- _ => destruct x eqn:?
    end).

Lemma runner_step_ok p status t a t' : source_ok t → runner_step p status t = Some (a, t') →
  source_ok t' ∧ is_exiting t' = is_exiting t ∧ joinable t' = joinable t ∧ runner_at t ≠ finished.
Proof.
  intros [Hm Hj] Hs. destruct t as [x j r m]. unfold runner_step, lock_goto, goto, unlock_goto in Hs.
  simpl in *. subst m. destruct j; [|by rewrite Hj in Hs].
  destruct r; simpl in Hs; step_cases; (split; [split; simpl; by repeat case_match | done]).
Qed.

Lemma notify_one_ok t : source_ok t →
  source_ok (notify_one t) ∧ is_exiting (notify_one t) = is_exiting t ∧ joinable (notify_one t) = joinable t.
Proof.
  intros [Hm Hj]. unfold notify_one. destruct (decide _) as [Hw|]; [|by split].
  split; [|done]. split; simpl; [by rewrite Hm, Hw | intros Hf; by rewrite (Hj Hf) in Hw].
Qed.

Lemma caller_step_ok c t c' t' : threads_ok (c, t) → set_exiting_step true c t = Some (c', t') →
  threads_ok (c', t').
Proof.
  intros [Ht Hx Hr] Hs. destruct (notify_one_ok t Ht) as (Hn & Hnx & Hnj). simpl in *.
  destruct c; simpl in Hs.
  - injection Hs as <- <-. destruct Ht. split; [by split | done | simpl; rewrite <-Hr; naive_solver].
  - injection Hs as <- <-. split; simpl; [done | by rewrite Hnx, Hx | rewrite Hnj, <-Hr; naive_solver].
  - destruct (joinable t); [|by specialize (proj2 Hr eq_refl)].
    destruct (decide _) as [Hf|]; [|done]. injection Hs as <- <-. destruct Ht.
    split; [by split | done | done].
  - done.
Qed.

Lemma threads_step_ok a w w' : threads_ok w → threads_step true a w w' → threads_ok w'.
Proof.
  intros Hw Hs. destruct Hs as [c t p status a t' Hs | c t c' t' Hs]; [|by eapply caller_step_ok].
  destruct Hw as [Ht Hx Hr]. destruct (runner_step_ok p status t a t' Ht Hs) as (Ht' & Hx' & Hj' & _).
  split; simpl in *; [done | congruence | by rewrite Hj'].
Qed.

Lemma created_ok : threads_ok created.
Proof. repeat split; done. Qed.

Lemma execution_ok l w w' : threads_ok w → execution true l w w' → threads_ok w'.
Proof. intros Hw He. induction He; [done|]. eauto using threads_step_ok. Qed.

Lemma execution_app exiting l1 l2 w w' w'' :
  execution exiting l1 w w' → execution exiting l2 w' w'' → execution exiting (l1 ++ l2) w w''.
Proof. induction 1; [done|]. intros ?. econstructor; eauto. Qed.

(** *** Once the flag is stored *)

(** The steps left for the thread and for the caller. *)
Definition runner_left (p : runner_pc) : nat :=
  match p with
  | finished => 0 | at_exiting => 1 | at_unlock => 2 | at_predicate | at_last_predicate => 3
  | at_lock | at_relock _ => 4 | waiting | at_increment => 5 | at_wait | at_pending => 6
  end.
Definition caller_left (c : caller_pc) : nat :=
  match c with at_store => 3 | at_notify => 2 | at_join => 1 | returned => 0 end.
Definition steps_left (w : caller_pc * mti_source) : nat := runner_left (runner_at w.2) + caller_left w.1.

(** The increments the thread can still make. *)
Definition increments_left (t : mti_source) : nat :=
  match runner_at t with at_pending | at_increment => 1 | _ => 0 end.

Fixpoint action_count (a : action) (l : list action) : nat :=
  match l with [] => 0 | b :: l => (if decide (a = b) then 1 else 0) + action_count a l end.
Lemma action_count_app a l1 l2 : action_count a (l1 ++ l2) = (action_count a l1 + action_count a l2)%nat.
Proof. induction l1 as [|b l1 IH]; [done|]. simpl. rewrite IH. lia. Qed.

(** Every step of either program brings both closer to their ends. *)
Lemma step_decreases a w w' : threads_ok w → w.1 ≠ at_store → threads_step true a w w' →
  (steps_left w' < steps_left w ∧
   increments_left w'.2 + action_count increment [a] ≤ increments_left w.2)%nat ∧ w'.1 ≠ at_store.
Proof.
  intros [_ Hx _] Hc Hs. rewrite bool_decide_true in Hx by done. unfold steps_left, increments_left.
  destruct Hs as [c [x j r m] p status a t' Hs | c [x j r m] c' t' Hs]; simpl in *; subst x.
  - unfold runner_step, lock_goto in Hs. destruct m, r; simpl in Hs; step_cases; simpl; (split; [|done]);
      repeat case_match; simpl; (lia || congruence).
  - destruct c; [done|..]; simpl in Hs; unfold notify_one in Hs; simpl in Hs.
    + injection Hs as <- <-. destruct (decide _) as [->|]; simpl; (split; [lia | done]).
    + step_cases; simpl; (split; [lia | done]).
    + done.
Qed.

(** And until both have ended one of them can take a step, whatever is pending. *)
Lemma one_can_step p c t : threads_ok (c, t) → c ≠ returned →
  (∃ a t', runner_step p timeout t = Some (a, t')) ∨ (∃ c' t', set_exiting_step true c t = Some (c', t')).
Proof.
  intros [[Hm _] _ _] Hret. destruct t as [x j r m]. simpl in *. subst m.
  destruct (decide (r = finished)) as [->|Hrun].
  - right. destruct c; [eauto | simpl; eauto | simpl; destruct j; eauto | done].
  - left. unfold runner_step, lock_goto. destruct r as [| | | | | | |[]| | |]; simpl; (done || eauto).
Qed.
Lemma step_exists w : threads_ok w → w.1 ≠ returned → ∃ a w', threads_step true a w w'.
Proof.
  destruct w as [c t]. intros Hw Hret. destruct (one_can_step 0 c t Hw Hret) as [(a & t' & Hs)|(c' & t' & Hs)].
  - eexists a, (c, t'). by eapply step_runner.
  - eexists _, _. by eapply step_caller.
Qed.

Lemma execution_bounded l w w' : threads_ok w → w.1 ≠ at_store → execution true l w w' →
  (length l + steps_left w' ≤ steps_left w ∧
   increments_left w'.2 + action_count increment l ≤ increments_left w.2)%nat.
Proof.
  intros Hw Hc He. revert Hw Hc. induction He as [w|a l w w1 w' Hs _ IH]; intros Hw Hc; [simpl; lia|].
  destruct (step_decreases a w w1 Hw Hc Hs) as [Hd Hc1].
  specialize (IH (threads_step_ok a w w1 Hw Hs) Hc1). simpl in *. lia.
Qed.

Lemma steps_left_bound w : (steps_left w ≤ 9)%nat.
Proof. destruct w as [[] [x j r m]]; destruct r; unfold steps_left; simpl; lia. Qed.
Lemma increments_left_bound t : (increments_left t ≤ 1)%nat.
Proof. destruct t as [x j r m]; destruct r; unfold increments_left; simpl; lia. Qed.

Lemma execution_ends w : threads_ok w → w.1 ≠ at_store → ∃ l t, execution true l w (returned, t).
Proof.
  remember (steps_left w) as n eqn:Hn. revert w Hn.
  induction (lt_wf n) as [n _ IH]. intros w -> Hw Hc.
  destruct (decide (w.1 = returned)) as [Hr|Hr].
  { exists [], w.2. destruct w. simpl in Hr. subst. constructor. }
  destruct (step_exists w Hw Hr) as (a & w1 & Hs).
  destruct (step_decreases a w w1 Hw Hc Hs) as [[Hd _] Hc1].
  destruct (IH _ Hd w1 eq_refl (threads_step_ok a w w1 Hw Hs) Hc1) as (l & t & He).
  exists (a :: l), t. by econstructor.
Qed.

(** *** Increments and intervals *)

(** Between an increment and the end of the interval that follows it. *)
Definition asleep (p : runner_pc) : bool :=
  match p with at_lock | at_predicate | at_wait | waiting | at_relock no_timeout => true | _ => false end.

(** The increments not yet paid for by an interval, at each point. *)
Definition owes (t : mti_source) (n : nat) : Prop :=
  match runner_at t with
  | at_unlock | at_exiting => n = 0%nat ∨ (is_exiting t = true ∧ n = 1%nat)
  | finished => (n ≤ 1)%nat
  | p => n = if asleep p then 1%nat else 0%nat
  end.

Lemma owes_bound t n : owes t n → (n ≤ 1)%nat.
Proof. unfold owes. intros. destruct (runner_at t) as [| | | | | | |[]| | |]; simpl in *; lia. Qed.

Lemma runner_step_owes p status t a t' n : source_ok t → owes t n → runner_step p status t = Some (a, t') →
  ∃ n', owes t' n' ∧ (n' + action_count time_is_up [a] = n + action_count increment [a])%nat.
Proof.
  intros [Hm _] Ho Hs. exists (n + action_count increment [a] - action_count time_is_up [a])%nat.
  destruct t as [x j r m]. unfold runner_step, lock_goto, owes in *. simpl in *. subst m.
  destruct x, r as [| | | | | | |[]| | |]; simpl in *; step_cases; simpl in *;
    repeat (case_decide; try done); repeat case_match; simpl in *; try done; lia.
Qed.

Lemma caller_step_owes c t c' t' n : owes t n → set_exiting_step true c t = Some (c', t') → owes t' n.
Proof.
  intros Ho Hs. destruct t as [x j r m], c; simpl in Hs; unfold notify_one in Hs; simpl in Hs;
    [| destruct (decide _) as [->|] | destruct j; [destruct (decide _)|] |]; step_cases; unfold owes in *; simpl in *;
    destruct r as [| | | | | | |[]| | |]; simpl in *; (lia || tauto).
Qed.

Lemma execution_owes l w w' n : threads_ok w → owes w.2 n → execution true l w w' →
  ∃ n', owes w'.2 n' ∧ (n' + action_count time_is_up l = n + action_count increment l)%nat.
Proof.
  intros Hw Ho He. revert n Hw Ho. induction He as [w|a l w w1 w' Hs _ IH]; intros n Hw Ho.
  { exists n. simpl. split; [done | lia]. }
  assert (∃ n1, owes w1.2 n1 ∧ (n1 + action_count time_is_up [a] = n + action_count increment [a])%nat)
    as (n1 & Ho1 & H1).
  { destruct Hs as [c t p status a t' Hs | c t c' t' Hs].
    - eapply runner_step_owes; [apply Hw | exact Ho | exact Hs].
    - exists n. split; [by eapply caller_step_owes | done]. }
  destruct (IH n1 (threads_step_ok a w w1 Hw Hs) Ho1) as (n' & Ho' & Hn').
  exists n'. split; [done|]. simpl in *. lia.
Qed.

(** *** The notification *)

(** Past its last wait: with the flag stored the thread ends without blocking again. *)
Definition past_waiting (p : runner_pc) : bool :=
  match p with
  | at_lock | at_predicate | at_relock _ | at_last_predicate | at_unlock | at_exiting | at_pending
  | at_increment | finished => true
  | at_wait | waiting => false
  end.

Lemma past_waiting_step a w w' : threads_ok w → w.1 ≠ at_store → past_waiting (runner_at w.2) = true →
  threads_step true a w w' → past_waiting (runner_at w'.2) = true.
Proof.
  intros [_ Hx _] Hc Hp Hs. rewrite bool_decide_true in Hx by done.
  destruct Hs as [c [x j r m] p status a t' Hs | c [x j r m] c' t' Hs]; simpl in *; subst x.
  - unfold runner_step, lock_goto in Hs. destruct m, r as [| | | | | | |[]| | |]; simpl in *; step_cases; simpl;
      by repeat case_match.
  - destruct c; simpl in Hs; unfold notify_one in Hs; simpl in Hs; step_cases; simpl; by repeat case_match.
Qed.

Lemma past_waiting_execution l w w' : threads_ok w → w.1 ≠ at_store → past_waiting (runner_at w.2) = true →
  execution true l w w' → past_waiting (runner_at w'.2) = true.
Proof.
  intros Hw Hc Hp He. induction He as [w|a l w w1 w' Hs _ IH]; [done|].
  apply IH; [by eapply threads_step_ok | by eapply step_decreases | by eapply past_waiting_step].
Qed.

(** ** Properties *)

(** C16: [set_exiting] returns.  The thread and a call of [set_exiting] that begins at any
    moment: once the flag is stored, in whatever order their steps interleave, whatever
    [pending_interrupt] holds and however each wait ends, every execution has at most nine
    more steps, no state is a dead end before the call has returned, and when it has, the
    thread has ended and been joined and the mutex is free.  The thread increments mtime at
    most once more, and not at all after the return: the register may be destroyed. *)
Theorem set_exiting_returns (l : list action) (w : caller_pc * mti_source) :
  execution true l created w → w.1 ≠ at_store →
  (∀ l' w', execution true l' w w' →
     (length l' ≤ 9)%nat ∧ (action_count increment l' ≤ 1)%nat ∧
     (w'.1 ≠ returned → ∃ a w'', threads_step true a w' w'') ∧
     (w'.1 = returned → runner_at w'.2 = finished ∧ joinable w'.2 = false ∧ mtx w'.2 = false ∧
        ∀ a w'', ¬ threads_step true a w' w'')) ∧
  ∃ l' t, execution true l' w (returned, t).
Proof.
  intros He Hc. pose proof (execution_ok l created w created_ok He) as Hw.
  split; [|by apply execution_ends]. intros l' w' He'.
  destruct (execution_bounded l' w w' Hw Hc He') as [Hlen Hinc].
  pose proof (execution_ok l' w w' Hw He') as Hw'.
  assert (w'.1 ≠ at_store) as Hc'.
  { clear -He' Hc Hw. induction He' as [w|a l w w1 w' Hs _ IH]; [done|].
    apply IH; [by eapply step_decreases | by eapply threads_step_ok]. }
  pose proof (steps_left_bound w). pose proof (increments_left_bound w.2).
  split; [lia|]. split; [lia|]. split; [by apply step_exists|].
  destruct w' as [c' t']. destruct Hw' as [[Hm Hj] _ Hr]. simpl in *. intros ->.
  pose proof (proj1 Hr eq_refl) as Hjf. specialize (Hj Hjf). rewrite Hj in Hm.
  do 3 (split; [done|]). intros a w'' Hs. inversion Hs as [c t p status a' t1 Hs1|c t c1 t1 Hs1]; subst.
  - unfold runner_step in Hs1. by rewrite Hj in Hs1.
  - done.
Qed.

(** C29: One increment per interval.  In every execution of the thread, up to and past a
    call of [set_exiting], the increments of mtime are as many as the intervals that have
    elapsed, or one more; until the flag is stored, one more exactly from an increment to
    the end of the interval that follows.  Notifications and spurious wake-ups do not
    count: a thread woken early goes back to waiting. *)
Theorem one_increment_per_interval (l : list action) (w : caller_pc * mti_source) :
  execution true l created w →
  (action_count time_is_up l ≤ action_count increment l ≤ action_count time_is_up l + 1)%nat ∧
  (is_exiting w.2 = false → runner_at w.2 ≠ finished →
     action_count increment l = (action_count time_is_up l + if asleep (runner_at w.2) then 1 else 0)%nat).
Proof.
  intros He. destruct (execution_owes l created w 0%nat created_ok (or_introl eq_refl) He) as (n & Ho & Hn).
  pose proof (owes_bound _ _ Ho). split; [lia|]. intros Hx Hf. unfold owes in Ho. rewrite Hx in Ho.
  destruct (runner_at w.2) as [| | | | | | |[]| | |]; simpl in *; try done; lia.
Qed.

(** C36: A notification can be lost.  [set_exiting] stores the flag and notifies without
    holding the mutex.  If it notifies while the thread is between the evaluation of the
    predicate and the wait, the thread goes to sleep with the flag already set, and [join]
    returns only after a wait that nothing but the time limit (or a spurious wake-up) ends;
    at any other moment the thread ends without waiting again.  That moment is reached. *)
Theorem notification_can_be_lost :
  (∃ l t, execution true l created (at_notify, t) ∧ runner_at t = at_wait) ∧
  ∀ l t, execution true l created (at_notify, t) →
    let t' := notify_one t in
    set_exiting_step true at_notify t = Some (at_join, t') ∧
    (runner_at t = at_wait →
       ∀ l' t'', execution true l' (at_join, t') (returned, t'') →
       ∃ l1 l2 tw, l' = l1 ++ l2 ∧ execution true l1 (at_join, t') (at_join, tw) ∧
         runner_at tw = waiting ∧ execution true l2 (at_join, tw) (returned, t'')) ∧
    (runner_at t ≠ at_wait →
       ∀ l' w', execution true l' (at_join, t') w' → runner_at w'.2 ≠ waiting).
Proof.
  split.
  - exists [silent; silent; increment; silent; silent; silent], (mk_mti_source true true at_wait true).
    split; [|done].
    do 5 (eapply exec_cons; [by eapply (step_runner _ _ _ 0 timeout)|]).
    eapply exec_cons; [by eapply step_caller|]. constructor.
  - intros l t He t'. pose proof (execution_ok l _ _ created_ok He) as Hw.
    assert (set_exiting_step true at_notify t = Some (at_join, t')) as Hn by done.
    pose proof (caller_step_ok _ _ _ _ Hw Hn) as Hw'. split; [done|]. split.
    + intros Hat l' t'' He'. unfold t', notify_one in *. rewrite decide_False in * by by rewrite Hat.
      inversion He' as [|a l2 w0 w1 w2 Hs Hrest]; subst.
      inversion Hs as [c t0 p status a' t1 Hs1|c t0 c1 t1 Hs1]; subst.
      * unfold runner_step in Hs1. rewrite Hat in Hs1. injection Hs1 as <- <-.
        exists [silent], l2, (unlock_goto waiting t). split; [done|]. split; [|done].
        eapply exec_cons; [exact Hs | constructor].
      * simpl in Hs1. rewrite Hat in Hs1. destruct (threads_returned _ Hw') as [_ Hj]. simpl in Hj.
        destruct (joinable t); [done | by specialize (Hj eq_refl)].
    + intros Hat l' w' He' Hwait.
      assert (past_waiting (runner_at t') = true) as Hp.
      { unfold t', notify_one. destruct (decide _) as [|Hnw]; [done|]. by destruct (runner_at t). }
      pose proof (past_waiting_execution l' _ _ Hw' ltac:(done) Hp He') as H. by rewrite Hwait in H.
Qed.

(** ** Witnesses *)

(** One interval, then the call. *)
Definition one_interval : list action :=
  [silent; silent; increment; silent; silent; silent; time_is_up; silent; silent; silent; silent].
Lemma one_interval_executes : execution true one_interval created
  (at_notify, mk_mti_source true true at_exiting false).
Proof.
  do 10 (eapply exec_cons; [by eapply (step_runner _ _ _ 0 timeout)|]).
  eapply exec_cons; [by eapply step_caller|]. constructor.
Qed.

Lemma set_exiting_returns_witness :
  ∃ l' t, execution true l' (at_notify, mk_mti_source true true at_exiting false) (returned, t).
Proof. exact (proj2 (set_exiting_returns _ _ one_interval_executes ltac:(done))). Defined.

Lemma one_increment_per_interval_witness :
  (action_count time_is_up one_interval ≤ action_count increment one_interval
     ≤ action_count time_is_up one_interval + 1)%nat ∧ action_count increment one_interval = 1%nat.
Proof.
  split; [exact (proj1 (one_increment_per_interval _ _ one_interval_executes)) | reflexivity].
Defined.

(** There the thread is not about to wait: it sees the flag, ends and is joined. *)
Definition joined : mti_source := mk_mti_source true false finished false.
Lemma joins : execution true [silent; silent] (at_join, mk_mti_source true true at_exiting false) (returned, joined).
Proof.
  eapply exec_cons; [by eapply (step_runner _ _ _ 0 timeout)|].
  eapply exec_cons; [by eapply step_caller|]. constructor.
Qed.
Lemma notification_can_be_lost_witness :
  notify_one (mk_mti_source true true at_exiting false) = mk_mti_source true true at_exiting false ∧
  runner_at joined ≠ waiting.
Proof.
  split; [reflexivity|].
  exact (proj2 (proj2 (proj2 notification_can_be_lost _ _ one_interval_executes)) ltac:(done) _ _ joins).
Defined.
