(* ===== verification/Csr.v ===== *)
(** * Control and status registers ([include/zicsr/csr.hpp], [csr_file.hpp], [misa.hpp])

    The CSR numbers, the privilege mode with its access checks, the file of 4096
    registers behind [std::array::at], and the [misa] literal. *)

From S2P Require Import Common.

(** ** [csr.hpp] *)

Inductive csr : Set :=
  | ustatus | fflags | frm | fcsr | uie | utvec | uscratch | uepc | ucause | utval | uip
  | cycle | time | instret | hpmcounter3 | hpmcounter31 | cycleh | timeh | instreth
  | hpmcounter3h | hpmcounter31h | sstatus | sedeleg | sideleg | sie | stvec | scounteren
  | sscratch | sepc | scause | stval | sip | satp | mvendorid | marchid | mimpid | mhartid
  | mstatus | misa | medeleg | mideleg | mie | mtvec | mcounteren | mscratch | mepc | mcause
  | mtval | mip | pmpcfg0 | pmpcfg3 | pmpaddr0 | pmpaddr15 | mcycle | minstret | mhpmcounter3
  | mhmpmcounter31 | mcycleh | minstreth | mhpmcounter3h | mhpmcounter31h | mhpmevent3
  | mhpmevent31 | tselect | tdata1 | tdata2 | tdata3 | dcsr | dpc | dscratch.

Definition csr_val (c : csr) : Z :=
  match c with
  | ustatus => 0x000 | fflags => 0x001 | frm => 0x002 | fcsr => 0x003
  | uie => 0x004 | utvec => 0x005 | uscratch => 0x040 | uepc => 0x041
  | ucause => 0x042 | utval => 0x043 | uip => 0x044 | cycle => 0xC00
  | time => 0xC01 | instret => 0xC02 | hpmcounter3 => 0xC03 | hpmcounter31 => 0xC1F
  | cycleh => 0xC80 | timeh => 0xC81 | instreth => 0xC82 | hpmcounter3h => 0xC83
  | hpmcounter31h => 0xC9F | sstatus => 0x100 | sedeleg => 0x102 | sideleg => 0x103
  | sie => 0x104 | stvec => 0x105 | scounteren => 0x106 | sscratch => 0x140
  | sepc => 0x141 | scause => 0x142 | stval => 0x143 | sip => 0x144
  | satp => 0x180 | mvendorid => 0xF11 | marchid => 0xF12 | mimpid => 0xF13
  | mhartid => 0xF14 | mstatus => 0x300 | misa => 0x301 | medeleg => 0x302
  | mideleg => 0x303 | mie => 0x304 | mtvec => 0x305 | mcounteren => 0x306
  | mscratch => 0x340 | mepc => 0x341 | mcause => 0x342 | mtval => 0x343
  | mip => 0x344 | pmpcfg0 => 0x3A0 | pmpcfg3 => 0x3A3 | pmpaddr0 => 0x3B0
  | pmpaddr15 => 0x3BF | mcycle => 0xB00 | minstret => 0xB02 | mhpmcounter3 => 0xB03
  | mhmpmcounter31 => 0xB1F | mcycleh => 0xB80 | minstreth => 0xB82 | mhpmcounter3h => 0xB83
  | mhpmcounter31h => 0xB9F | mhpmevent3 => 0x323 | mhpmevent31 => 0x33F | tselect => 0x7A0
  | tdata1 => 0x7A1 | tdata2 => 0x7A2 | tdata3 => 0x7A3 | dcsr => 0x7B0
  | dpc => 0x7B1 | dscratch => 0x7B2
  end.

Definition all_csrs : list csr :=
  [ustatus; fflags; frm; fcsr; uie; utvec; uscratch; uepc; ucause; utval; uip; cycle; time;
   instret; hpmcounter3; hpmcounter31; cycleh; timeh; instreth; hpmcounter3h; hpmcounter31h;
   sstatus; sedeleg; sideleg; sie; stvec; scounteren; sscratch; sepc; scause; stval; sip; satp;
   mvendorid; marchid; mimpid; mhartid; mstatus; misa; medeleg; mideleg; mie; mtvec;
   mcounteren; mscratch; mepc; mcause; mtval; mip; pmpcfg0; pmpcfg3; pmpaddr0; pmpaddr15;
   mcycle; minstret; mhpmcounter3; mhmpmcounter31; mcycleh; minstreth; mhpmcounter3h;
   mhpmcounter31h; mhpmevent3; mhpmevent31; tselect; tdata1; tdata2; tdata3; dcsr; dpc;
   dscratch].

(** ** [csr_file.hpp] *)

(** Bit positions of mstatus. *)
Module status.
Definition sie : Z := 1.
Definition mie : Z := 3.
Definition spie : Z := 5.
Definition spp : Z := 8.
Definition mpie : Z := 7.
Definition mpp : Z := 11.
Definition mprv : Z := 17.
End status.

Inductive privilege : Set := user | supervisor | hypervisor | machine.

Definition privilege_val (p : privilege) : Z :=
  match p with user => 0 | supervisor => 1 | hypervisor => 2 | machine => 3 end.

(** [static_cast<privilege>] of a two-bit number. *)
Definition privilege_of (v : Z) : privilege :=
  match v with 0 => user | 1 => supervisor | 2 => hypervisor | _ => machine end.

Record privileged_mode : Set := mk_privileged_mode { m : privilege; base : Z }.

Definition set_mode (mode : privilege) : privileged_mode :=
  mk_privileged_mode mode (u16 (Z.shiftl (u16 (privilege_val mode)) 8)).

Record csr_file : Set := mk_csr_file { csrs : list Z }.

Definition csr_count : Z := 4096.

Definition csr_file_init : csr_file := mk_csr_file (replicate (Z.to_nat csr_count) 0).

Section operations.
Context `{CommonLib}.

Definition priv (addr : Z) : Z := u8 (offset addr 8 9).
Definition readonly (addr : Z) : bool := offset addr 10 11 =? 3.
Definition can_write (addr : Z) (p : privileged_mode) : bool :=
  negb (readonly addr) && (priv addr <=? to_int (privilege_val (m p))).
Definition can_read (addr : Z) (p : privileged_mode) : bool :=
  priv addr <=? to_int (privilege_val (m p)).
Definition priv_csr (c : csr) (p : privileged_mode) : Z := Z.lor (base p) (to_int (csr_val c)).
End operations.

(** [csrs.at(addr)] throws past the last register. *)
Definition csr_read (addr : Z) (f : csr_file) : res Z :=
  or_fail (Thrown out_of_range) (nth_z (csrs f) addr).
Definition csr_write (addr v : Z) (f : csr_file) : res csr_file :=
  l ← or_fail (Thrown out_of_range) (set_z (csrs f) addr v);
  mret (mk_csr_file l).

(** The overload with an out parameter, and the one that appends it to a list. *)
Definition csr_write_out (addr v : Z) (f : csr_file) : res (csr_change * csr_file) :=
  prev ← csr_read addr f;
  f ← csr_write addr v f;
  mret (mk_csr_change addr prev v, f).
Definition csr_write_vec (addr v : Z) (vec : list csr_change) (f : csr_file)
    : res (list csr_change * csr_file) :=
  '(tmp, f) ← csr_write_out addr v f;
  mret (vec ++ [tmp], f).

(** ** [misa.hpp] *)

(** The character sequence of a string literal, as [char] values. *)
Fixpoint chars (s : string) : list Z :=
  match s with
  | EmptyString => []
  | String c s => Z.of_N (Ascii.N_of_ascii c) :: chars s
  end.

(** The literal operator [_MISA]: the accumulated disjunction over the literal's characters. *)
Definition misa_sel (acc c : Z) : Z :=
  Z.lor acc (if (65 <=? c) && (c <=? 90) then Z.shiftl 1 (25 - (90 - c)) else 0).
Definition MISA (isa : string) : Z := foldl misa_sel 0 (chars isa).
Definition rv32 : Z := Z.shiftl 1 30.
Definition misa_value : Z := Z.lor (MISA "IMS") rv32.

(** ** Lemmas *)

#[local] Opaque csr_count.

Lemma csr_count_val : csr_count = 4096. Proof. done. Qed.

Lemma all_csrs_spec c : c ∈ all_csrs.
Proof. apply list_elem_of_In. destruct c; simpl; tauto. Qed.

Lemma csr_val_range c : 0 ≤ csr_val c < 4096.
Proof. by destruct c. Qed.

Lemma csr_val_nodup : NoDup (csr_val <$> all_csrs).
Proof. apply (bool_decide_unpack _). by vm_compute. Qed.

Lemma csr_val_inj c d : csr_val c = csr_val d → c = d.
Proof.
  destruct (list_elem_of_lookup_1 _ _ (all_csrs_spec c)) as [i Hi].
  destruct (list_elem_of_lookup_1 _ _ (all_csrs_spec d)) as [j Hj]. intros Heq.
  assert (i = j) as ->; [|congruence].
  eapply (NoDup_lookup _ i j (csr_val c)); [apply csr_val_nodup | |];
    rewrite list_lookup_fmap; [by rewrite Hi | by rewrite Hj, Heq].
Qed.

#[export] Instance csr_eq_dec : EqDecision csr := λ c d,
  match decide (csr_val c = csr_val d) with
  | left H => left (csr_val_inj c d H)
  | right H => right (λ e, H (f_equal csr_val e))
  end.

(** *** The register file *)

Record csr_wf (f : csr_file) : Prop := {
  csr_len : Z.of_nat (length (csrs f)) = csr_count;
  csr_words : Forall (λ w, is_u32 w) (csrs f)
}.

(** The registers as a total function. *)
Definition csr_at (f : csr_file) (a : Z) : Z := default 0 (nth_z (csrs f) a).
Definition csr_upd (f : csr_file) (a v : Z) : csr_file :=
  mk_csr_file (<[Z.to_nat a := v]> (csrs f)).

Lemma csr_wf_init : csr_wf csr_file_init.
Proof.
  split; simpl.
  - rewrite length_replicate, csr_count_val. lia.
  - apply Forall_replicate. lia.
Qed.

Lemma csr_at_init a : csr_at csr_file_init a = 0.
Proof.
  unfold csr_at, csr_file_init. cbn [csrs]. destruct (nth_z _ a) as [v|] eqn:Hv; [|done].
  exact (nth_z_Forall (λ w, w = 0) _ _ _ (Forall_replicate _ _ _ eq_refl) Hv).
Qed.

Section file.
Implicit Types (f : csr_file).

Lemma csr_read_ok f a : csr_wf f → 0 ≤ a < 4096 → csr_read a f = Ok (csr_at f a).
Proof.
  intros Hf Ha. unfold csr_read, csr_at.
  destruct (nth_z_lt (csrs f) a) as [v ->]; [rewrite (csr_len _ Hf), csr_count_val; lia | done].
Qed.
Lemma csr_at_u32 f a : csr_wf f → is_u32 (csr_at f a).
Proof.
  intros Hf. unfold csr_at. destruct (nth_z (csrs f) a) as [v|] eqn:Hv; simpl; [|lia].
  by eapply (nth_z_Forall (λ w, is_u32 w)); [apply csr_words|].
Qed.
Lemma csr_write_vec_ok f a v vec : csr_wf f → 0 ≤ a < 4096 →
  csr_write_vec a v vec f = Ok (vec ++ [mk_csr_change a (csr_at f a) v], csr_upd f a v).
Proof.
  intros Hf Ha. unfold csr_write_vec, csr_write_out, csr_write, csr_upd.
  rewrite csr_read_ok by done. rewrite res_bind_ok.
  by rewrite set_z_Some by (rewrite (csr_len _ Hf), csr_count_val; lia).
Qed.
Lemma csr_wf_upd f a v : csr_wf f → is_u32 v → csr_wf (csr_upd f a v).
Proof.
  intros Hf Hv. split; simpl; [rewrite length_insert; apply Hf|].
  apply Forall_insert_z; [apply Hf | done].
Qed.
Lemma csr_at_upd f a b v : csr_wf f → 0 ≤ a < 4096 →
  csr_at (csr_upd f a v) b = if b =? a then v else csr_at f b.
Proof.
  intros Hf Ha. unfold csr_at, csr_upd; simpl. destruct (Z.eqb_spec b a) as [->|].
  - by rewrite nth_z_insert_eq by (rewrite (csr_len _ Hf), csr_count_val; lia).
  - by rewrite nth_z_insert_ne by lia.
Qed.

(** Replaying recorded changes. *)
Definition csr_replay f (cs : list csr_change) : csr_file :=
  foldl (λ f c, csr_upd f (c_index c) (c_next c)) f cs.
Fixpoint csr_prevs_ok f (cs : list csr_change) : Prop :=
  match cs with
  | [] => True
  | c :: cs => c_prev c = csr_at f (c_index c) ∧ csr_prevs_ok (csr_upd f (c_index c) (c_next c)) cs
  end.
Lemma csr_replay_snoc f cs c : csr_replay f (cs ++ [c]) = csr_upd (csr_replay f cs) (c_index c) (c_next c).
Proof. unfold csr_replay. by rewrite foldl_app. Qed.
Lemma csr_prevs_ok_snoc f cs c :
  csr_prevs_ok f (cs ++ [c]) ↔ csr_prevs_ok f cs ∧ c_prev c = csr_at (csr_replay f cs) (c_index c).
Proof.
  revert f. induction cs as [|c' cs IH]; intros f; simpl; [tauto|].
  rewrite IH. unfold csr_replay. simpl. tauto.
Qed.
End file.

(** *** The mode *)

Lemma privilege_of_val p : privilege_of (privilege_val p) = p.
Proof. by destruct p. Qed.

(** [base] is kept in step with [m]. *)
Definition mode_ok (p : privileged_mode) : Prop := p = set_mode (m p).
Lemma set_mode_ok p : mode_ok (set_mode p).
Proof. done. Qed.

Section mode.
Context `{CommonLaws}.

Lemma priv_spec a : is_u32 a → priv a = (a / 2 ^ 8) mod 4.
Proof.
  intros. unfold priv. rewrite offset_spec by lia. change (9 - 8 + 1) with 2.
  rewrite u8_small; [done|]. pose proof (Z.mod_pos_bound (a / 2 ^ 8) (2 ^ 2)). lia.
Qed.
Lemma can_read_spec a p : is_u32 a →
  can_read a p = true ↔ (a / 2 ^ 8) mod 4 ≤ privilege_val (m p).
Proof. intros. unfold can_read. rewrite priv_spec, to_int_id by done. apply Z.leb_le. Qed.
Lemma can_write_spec a p : is_u32 a →
  can_write a p = true ↔ (a / 2 ^ 10) mod 4 ≠ 3 ∧ (a / 2 ^ 8) mod 4 ≤ privilege_val (m p).
Proof.
  intros. unfold can_write, readonly. rewrite priv_spec, to_int_id, offset_spec by lia.
  rewrite andb_true_iff, negb_true_iff, Z.eqb_neq, Z.leb_le. done.
Qed.
Lemma priv_csr_val c p : mode_ok p → priv_csr c p = Z.lor (256 * privilege_val (m p)) (csr_val c).
Proof. intros ->. unfold priv_csr. rewrite to_int_id. by destruct (m p). Qed.
Lemma priv_csr_range c p : mode_ok p → 0 ≤ priv_csr c p < 4096.
Proof.
  intros. rewrite priv_csr_val by done. apply (lor_bound 12); [lia| |apply csr_val_range].
  destruct (m p); simpl; lia.
Qed.
End mode.

(** *** The [misa] literal *)

Lemma misa_sel_bit acc c i : 0 ≤ i → 0 ≤ c →
  Z.testbit (misa_sel acc c) i = Z.testbit acc i || ((65 <=? c) && (c <=? 90) && (c =? 65 + i)).
Proof.
  intros Hi Hc. unfold misa_sel. rewrite Z.lor_spec. f_equal.
  destruct ((65 <=? c) && (c <=? 90)) eqn:Hr; [|apply Z.bits_0].
  apply andb_true_iff in Hr as [?%Z.leb_le ?%Z.leb_le].
  rewrite Z.shiftl_spec by done. simpl. destruct (Z.eqb_spec c (65 + i)) as [->|].
  - by replace (i - (25 - (90 - (65 + i)))) with 0 by lia.
  - destruct (decide (i < 25 - (90 - c))); [by rewrite Z.testbit_neg_r by lia|].
    by rewrite Z.bits_above_log2 by (simpl; lia).
Qed.

Lemma chars_nonneg s c : c ∈ chars s → 0 ≤ c.
Proof.
  induction s as [|a s IH]; simpl; intros Hc; [by apply not_elem_of_nil in Hc|].
  apply elem_of_cons in Hc as [->|Hc]; [lia | auto].
Qed.

Lemma misa_fold_bit l acc i : 0 ≤ i → (∀ c, c ∈ l → 0 ≤ c) →
  Z.testbit (foldl misa_sel acc l) i = true ↔
  Z.testbit acc i = true ∨ (i < 26 ∧ 65 + i ∈ l).
Proof.
  intros Hi. revert acc. induction l as [|c l IH]; intros acc Hl; simpl.
  - split; [by left|]. intros [?|[_ Hin]]; [done | by apply not_elem_of_nil in Hin].
  - rewrite IH by (intros c' Hc'; apply Hl; by right).
    rewrite misa_sel_bit by (done || (apply Hl; by left)).
    rewrite orb_true_iff, !andb_true_iff, !Z.leb_le, Z.eqb_eq, elem_of_cons.
    split; [intros [[?|(? & ?)]|?] | intros [?|(? & [?|?])]]; try tauto.
    + right. split; [lia | left; lia].
    + left. right. lia.
Qed.

(** ** Properties *)

(** The CSR file.  A write below 4096 succeeds, records the old and the new
    value and changes that register only; any access from 4096 on throws
    [std::out_of_range] and the write of the recording overload records nothing. *)
Theorem csr_write_spec f a v vec :
  csr_wf f → is_u32 v → 0 ≤ a →
  (a < 4096 → ∃ f', csr_write_vec a v vec f = Ok (vec ++ [mk_csr_change a (csr_at f a) v], f') ∧
     csr_wf f' ∧ csr_read a f' = Ok v ∧
     ∀ b, 0 ≤ b < 4096 → b ≠ a → csr_read b f' = csr_read b f) ∧
  (4096 ≤ a → csr_read a f = Fail (Thrown out_of_range) ∧
     csr_write_vec a v vec f = Fail (Thrown out_of_range)).
Proof.
  intros Hf Hv Ha. split; intros Hlt.
  - exists (csr_upd f a v). assert (csr_wf (csr_upd f a v)) by (by apply csr_wf_upd).
    split; [by apply csr_write_vec_ok|]. split; [done|]. split.
    + by rewrite csr_read_ok, csr_at_upd, Z.eqb_refl.
    + intros b Hb Hne. rewrite !csr_read_ok, csr_at_upd by done. by rewrite (proj2 (Z.eqb_neq _ _)).
  - assert (csr_read a f = Fail (Thrown out_of_range)) as Hr.
    { unfold csr_read, nth_z. rewrite (proj2 (Z.leb_le _ _)) by done.
      rewrite lookup_ge_None_2; [done|]. pose proof (csr_len _ Hf). rewrite csr_count_val in *. lia. }
    split; [done|]. unfold csr_write_vec, csr_write_out. by rewrite Hr.
Qed.

(** The privilege checks.  A read is allowed exactly when bits 9:8 of the CSR
    number do not exceed the mode; a write needs in addition that bits 11:10 are
    not both set.  So every mode that may write a CSR may read it, a higher mode
    may do whatever a lower one may, and machine mode may read every CSR. *)
Theorem privilege_checks {C : CommonLib} {L : @CommonLaws C} a p q :
  is_u32 a →
  (can_read a p = true ↔ (a / 2 ^ 8) mod 4 ≤ privilege_val (m p)) ∧
  (can_write a p = true ↔ (a / 2 ^ 10) mod 4 ≠ 3 ∧ can_read a p = true) ∧
  (privilege_val (m p) ≤ privilege_val (m q) →
     (can_read a p = true → can_read a q = true) ∧ (can_write a p = true → can_write a q = true)) ∧
  can_read a (set_mode machine) = true.
Proof.
  intros Ha. rewrite !can_write_spec, !can_read_spec by done. simpl.
  pose proof (Z.mod_pos_bound (a / 2 ^ 8) 4 ltac:(lia)). intuition lia.
Qed.

(** [priv_csr] of a user-level trap register is the register of the same name
    of the current mode. *)
Lemma priv_csr_selects {C : CommonLib} {L : @CommonLaws C} :
  priv_csr ucause (set_mode machine) = csr_val mcause ∧
  priv_csr utval (set_mode machine) = csr_val mtval ∧
  priv_csr utvec (set_mode machine) = csr_val mtvec ∧
  priv_csr uepc (set_mode machine) = csr_val mepc ∧
  priv_csr ucause (set_mode supervisor) = csr_val scause ∧
  priv_csr utval (set_mode supervisor) = csr_val stval ∧
  priv_csr utvec (set_mode supervisor) = csr_val stvec ∧
  priv_csr uepc (set_mode supervisor) = csr_val sepc ∧
  ∀ c, priv_csr c (set_mode user) = csr_val c.
Proof.
  repeat split; try intros c; rewrite priv_csr_val by apply set_mode_ok; try done.
Qed.

(** The literal operator sets exactly the bits of the upper-case letters that
    occur in the literal: bit [i] stands for the letter at distance [i] from A. *)
Lemma misa_literal s i :
  0 ≤ i → Z.testbit (MISA s) i = true ↔ i < 26 ∧ 65 + i ∈ chars s.
Proof.
  intros Hi. unfold MISA. rewrite misa_fold_bit; [|done|apply chars_nonneg].
  rewrite Z.bits_0. split; [by intros [?|?] | by right].
Qed.

(** ** Witnesses *)

Section witnesses.
#[local] Existing Instance ref_common.

Lemma csr_write_spec_witness :
  (0x300 < 4096 → ∃ f', csr_write_vec 0x300 8 [] csr_file_init = Ok ([mk_csr_change 0x300 (csr_at csr_file_init 0x300) 8], f') ∧
     csr_wf f' ∧ csr_read 0x300 f' = Ok 8 ∧
     ∀ b, 0 ≤ b < 4096 → b ≠ 0x300 → csr_read b f' = csr_read b csr_file_init) ∧
  (4096 ≤ 0x300 → csr_read 0x300 csr_file_init = Fail (Thrown out_of_range) ∧
     csr_write_vec 0x300 8 [] csr_file_init = Fail (Thrown out_of_range)).
Proof. apply (csr_write_spec csr_file_init 0x300 8 []); [apply csr_wf_init | lia | lia]. Defined.

Lemma privilege_checks_witness :
  can_write 0xF14 (set_mode machine) = false ∧ can_read 0xF14 (set_mode machine) = true.
Proof.
  destruct (privilege_checks 0xF14 (set_mode machine) (set_mode machine) ltac:(lia)) as (_ & Hw & _ & Hr).
  split; [|exact Hr]. apply not_true_is_false. intros Hc. apply Hw in Hc as [Hne _]. by apply Hne.
Defined.
End witnesses.
