(* ===== verification/TrapCause.v ===== *)
(** * Trap causes ([include/trap_cause.hpp]) *)

From S2P Require Import Common.

Inductive trap_cause : Set :=
  | exp_inst_addr_misaligned
  | exp_inst_access_fault
  | exp_inst_illegal
  | exp_breakpoint
  | exp_load_addr_misaligned
  | exp_load_access_fault
  | exp_store_addr_misaligned
  | exp_store_access_fault
  | exp_ecall_from_u_vu_mode
  | exp_ecall_from_hs_mode
  | exp_ecall_from_vs_mode
  | exp_ecall_from_m_mode
  | exp_inst_page_fault
  | exp_load_page_fault
  | exp_store_page_fault
  | exp_inst_guest_page_fault
  | exp_load_guest_page_fault
  | exp_inst_virtual
  | exp_store_guest_page_fault
  | int_sw_s
  | int_sw_vs
  | int_sw_m
  | int_timer_s
  | int_timer_vs
  | int_timer_m
  | int_external_s
  | int_external_vs
  | int_external_m
  | int_external_s_guest.

Definition trap_cause_val (c : trap_cause) : Z :=
  match c with
  | exp_inst_addr_misaligned => 0x0
  | exp_inst_access_fault => 0x1
  | exp_inst_illegal => 0x2
  | exp_breakpoint => 0x3
  | exp_load_addr_misaligned => 0x4
  | exp_load_access_fault => 0x5
  | exp_store_addr_misaligned => 0x6
  | exp_store_access_fault => 0x7
  | exp_ecall_from_u_vu_mode => 0x8
  | exp_ecall_from_hs_mode => 0x9
  | exp_ecall_from_vs_mode => 0x10
  | exp_ecall_from_m_mode => 0x11
  | exp_inst_page_fault => 0x12
  | exp_load_page_fault => 0x13
  | exp_store_page_fault => 0x15
  | exp_inst_guest_page_fault => 0x20
  | exp_load_guest_page_fault => 0x21
  | exp_inst_virtual => 0x22
  | exp_store_guest_page_fault => 0x23
  | int_sw_s => 0x80000001
  | int_sw_vs => 0x80000002
  | int_sw_m => 0x80000003
  | int_timer_s => 0x80000005
  | int_timer_vs => 0x80000006
  | int_timer_m => 0x80000007
  | int_external_s => 0x80000009
  | int_external_vs => 0x80000010
  | int_external_m => 0x80000011
  | int_external_s_guest => 0x80000012
  end.

Definition all_trap_causes : list trap_cause :=
  [exp_inst_addr_misaligned;
   exp_inst_access_fault;
   exp_inst_illegal;
   exp_breakpoint;
   exp_load_addr_misaligned;
   exp_load_access_fault;
   exp_store_addr_misaligned;
   exp_store_access_fault;
   exp_ecall_from_u_vu_mode;
   exp_ecall_from_hs_mode;
   exp_ecall_from_vs_mode;
   exp_ecall_from_m_mode;
   exp_inst_page_fault;
   exp_load_page_fault;
   exp_store_page_fault;
   exp_inst_guest_page_fault;
   exp_load_guest_page_fault;
   exp_inst_virtual;
   exp_store_guest_page_fault;
   int_sw_s;
   int_sw_vs;
   int_sw_m;
   int_timer_s;
   int_timer_vs;
   int_timer_m;
   int_external_s;
   int_external_vs;
   int_external_m;
   int_external_s_guest].

#[export] Instance trap_cause_eq_dec : EqDecision trap_cause.
Proof. solve_decision. Defined.

(** ** Interrupts *)

(** The causes [trap] treats as interrupts: those with the sign bit. *)
Definition is_int (c : trap_cause) : bool := 2 ^ 31 <=? trap_cause_val c.

(** The exception and interrupt codes of the RISC-V privileged architecture, with the
    hypervisor extension, in decimal. *)
Definition rv_code (c : trap_cause) : Z :=
  match c with
  | exp_inst_addr_misaligned => 0
  | exp_inst_access_fault => 1
  | exp_inst_illegal => 2
  | exp_breakpoint => 3
  | exp_load_addr_misaligned => 4
  | exp_load_access_fault => 5
  | exp_store_addr_misaligned => 6
  | exp_store_access_fault => 7
  | exp_ecall_from_u_vu_mode => 8
  | exp_ecall_from_hs_mode => 9
  | exp_ecall_from_vs_mode => 10
  | exp_ecall_from_m_mode => 11
  | exp_inst_page_fault => 12
  | exp_load_page_fault => 13
  | exp_store_page_fault => 15
  | exp_inst_guest_page_fault => 20
  | exp_load_guest_page_fault => 21
  | exp_inst_virtual => 22
  | exp_store_guest_page_fault => 23
  | int_sw_s => 1
  | int_sw_vs => 2
  | int_sw_m => 3
  | int_timer_s => 5
  | int_timer_vs => 6
  | int_timer_m => 7
  | int_external_s => 9
  | int_external_vs => 10
  | int_external_m => 11
  | int_external_s_guest => 12
  end.

Lemma trap_cause_val_u32 c : is_u32 (trap_cause_val c).
Proof. by destruct c. Qed.

Lemma all_trap_causes_spec c : c ∈ all_trap_causes.
Proof. apply list_elem_of_In. destruct c; simpl; tauto. Qed.

Lemma trap_cause_val_nodup : NoDup (trap_cause_val <$> all_trap_causes).
Proof. apply (bool_decide_unpack _). by vm_compute. Qed.

Lemma trap_cause_sign c :
  negb (Z.land (trap_cause_val c) 0x80000000 =? 0) = is_int c.
Proof. by destruct c. Qed.

(** The number of an interrupt is below 32, so the [bitset] accesses are in range. *)
Lemma trap_cause_number c :
  Z.land (trap_cause_val c) 0x7FFFFFFF = trap_cause_val c mod 2 ^ 31 ∧
  0 ≤ trap_cause_val c mod 2 ^ 31 < 64.
Proof. by destruct c. Qed.
Lemma int_number c : is_int c = true → 0 ≤ trap_cause_val c mod 2 ^ 31 < 32.
Proof. by destruct c. Qed.

(** ** Properties *)

(** The enumerators write the decimal codes of the architecture as if they
    were hexadecimal.  With the interrupt flag apart, the value of each cause has the
    decimal digits of its architectural code as hexadecimal digits, so it is the
    architectural code exactly when that is below ten: an ecall from machine mode
    is reported as 0x11, not 11. *)
Lemma trap_cause_codes c :
  trap_cause_val c mod 2 ^ 31 = 16 * (rv_code c / 10) + rv_code c mod 10 ∧
  (trap_cause_val c mod 2 ^ 31 = rv_code c ↔ rv_code c < 10) ∧
  (is_int c = true ↔ trap_cause_val c = 2 ^ 31 + trap_cause_val c mod 2 ^ 31).
Proof. destruct c; vm_compute; repeat split; congruence. Qed.
