(* ===== verification/Format.v ===== *)
(** * Printing ([include/util/format_helpers.hpp])

    The names of trap causes, targets and operations, the lines the run logs for
    register changes and the table it prints of each decoded operation.  fmt is a
    library; of its format language the code uses right-aligned hexadecimal with prefix
    and left-aligned text, numbers and flags, which [hex_field] and [left_field] spell
    out. *)

From Stdlib Require Import Ascii.
From S2P Require Export TrapCause.
From S2P Require Import Common.

(** ** Names *)

Definition str_trap_cause (cause : trap_cause) : string :=
  match cause with
  | exp_inst_addr_misaligned => "misaligned instruction address"
  | exp_inst_access_fault => "instruction access fault"
  | exp_inst_illegal => "illegal instruction"
  | exp_breakpoint => "breakpoint"
  | exp_load_addr_misaligned => "misaligned load address"
  | exp_load_access_fault => "load access fault"
  | exp_store_addr_misaligned => "misaligned store address"
  | exp_store_access_fault => "store access fault"
  | exp_ecall_from_u_vu_mode => "ecall from user / virtual user mode"
  | exp_ecall_from_hs_mode => "ecall from supervisor mode"
  | exp_ecall_from_vs_mode => "ecall from virtual supervisor mode"
  | exp_ecall_from_m_mode => "ecall from machine mode"
  | exp_inst_page_fault => "instruction page fault"
  | exp_load_page_fault => "load page fault"
  | exp_store_page_fault => "store page fault"
  | exp_inst_guest_page_fault => "instruction guest page fault"
  | exp_load_guest_page_fault => "load guest page fault"
  | exp_inst_virtual => "virtual instruction"
  | exp_store_guest_page_fault => "store guest page fault"
  | int_sw_s => "supervisor software interrupt"
  | int_sw_vs => "virtual supervisor software interrupt"
  | int_sw_m => "machine software interrupt"
  | int_timer_s => "supervisor timer interrupt"
  | int_timer_vs => "virtual supervisor timer interrupt"
  | int_timer_m => "machine timer interrupt"
  | int_external_s => "supervisor external interrupt"
  | int_external_vs => "virtual supervisor external interrupt"
  | int_external_m => "machine external interrupt"
  | int_external_s_guest => "supervisor guest external interrupt"
  end.

Definition target_str (tgt : target.target) : string :=
  match tgt with
  | target.load => "load"
  | target.store => "store"
  | target.alu => "alu"
  | target.branch => "branch"
  | target.csr => "csr"
  | target.mret => "mret"
  | target.illegal => "illegal"
  | target.ebreak => "ebreak"
  | target.ecall => "ecall"
  | target.target_unnamed _ => "unknown"
  end.

Definition op_type_str (type : op_type) : string :=
  match type with
  | op_monostate => "empty"
  | op_alu val =>
      match val with
      | _and => "and" | _or => "or" | _xor => "xor" | _add => "add" | _sub => "sub"
      | _sll => "sll" | _srl => "srl" | _sra => "sra" | _slt => "slt" | _sltu => "sltu"
      | _mul => "mul" | _mulh => "mulh" | _mulhsu => "mulhsu" | _mulhu => "mulhu"
      | _div => "div" | _divu => "divu" | _rem => "rem" | _remu => "remu"
      | _auipc => "auipc" | _jal => "jal" | _jalr => "jalr"
      | alu_unnamed _ => "unknown"
      end
  | op_load val =>
      match val with
      | masks.lb => "lb" | masks.lh => "lh" | masks.lw => "lw" | masks.lbu => "lbu"
      | masks.lhu => "lhu" | masks.load_unnamed _ => "unknown"
      end
  | op_store val =>
      match val with
      | masks.sb => "sb" | masks.sh => "sh" | masks.sw => "sw" | masks.store_unnamed _ => "unknown"
      end
  | op_branch val =>
      match val with
      | masks.beq => "beq" | masks.bne => "bne" | masks.blt => "blt" | masks.bge => "bge"
      | masks.bltu => "bltu" | masks.bgeu => "bgeu" | masks.branch_unnamed _ => "unknown"
      end
  | op_sys val =>
      match val with
      | masks.csrrw => "csrrw" | masks.csrrs => "csrrs" | masks.other => "other"
      | masks.csrrc => "csrrc" | masks.csrrwi => "csrrwi" | masks.csrrsi => "csrrsi"
      | masks.csrrci => "csrrci" | masks.sys_unnamed _ => "unknown"
      end
  end.

(** ** Fields *)

Fixpoint pad (n : nat) : string := match n with O => "" | S n => String " "%char (pad n) end.
Definition left_field (width : nat) (s : string) : string := s +:+ pad (width - String.length s).
Definition right_field (width : nat) (s : string) : string := pad (width - String.length s) +:+ s.

Definition digit_char (d : Z) : Ascii.ascii :=
  Ascii.ascii_of_N (Z.to_N (if d <? 10 then 48 + d else 87 + d)).
(** The digits of [z] in a base, most significant first; at most [fuel] of them. *)
Fixpoint digits (base : Z) (fuel : nat) (z : Z) (acc : string) : string :=
  match fuel with
  | O => acc
  | S fuel =>
      let acc := String (digit_char (z mod base)) acc in
      if z / base =? 0 then acc else digits base fuel (z / base) acc
  end.
(** Values are at most 32 bits wide: eight hexadecimal digits, ten decimal ones. *)
Definition hex (z : Z) : string := "0x" +:+ digits 16 8 z "".
Definition dec_str (z : Z) : string := digits 10 10 z "".
Definition bool_str (b : bool) : string := if b then "true" else "false".
(** [{:>#<width>x}] *)
Definition hex_field (width : nat) (z : Z) : string := right_field width (hex z).

(** ** The lines of the log *)

Definition format_csr_change (change : csr_change) : string :=
  "CSR[" +:+ hex_field 5 (c_index change) +:+ "]: " +:+ hex_field 10 (c_prev change) +:+ " => "
  +:+ hex_field 10 (c_next change).
Definition format_gpr_change (change : gpr_change) : string :=
  "GPR[" +:+ hex_field 5 (g_index change) +:+ "]: " +:+ hex_field 10 (g_prev change) +:+ " => "
  +:+ hex_field 10 (g_next change).

(** ** The table of a decoded operation *)

Definition newline : string := String "010"%char "".
Definition separator : string := "+--------------+-----------------+" +:+ newline.
(** A row [|{:<14}|{:<17}|] and the separator below it. *)
Definition table_row (field value : string) : string :=
  "|" +:+ left_field 14 field +:+ "|" +:+ left_field 17 value +:+ "|" +:+ newline +:+ separator.
Definition format_op (value : op) : string :=
  separator
  +:+ table_row "Field" "Value" +:+ table_row "imm" (dec_str (imm value))
  +:+ table_row "tgt" (target_str (tgt value)) +:+ table_row "opt" (op_type_str (opt value))
  +:+ table_row "rd" (dec_str (rd value)) +:+ table_row "rs1" (dec_str (rs1 value))
  +:+ table_row "rs2" (dec_str (rs2 value)) +:+ table_row "has_imm" (bool_str (has_imm value))
  +:+ table_row "use_pc" (bool_str (use_pc value))
  +:+ table_row "is_compressed" (bool_str (is_compressed value)).

(** ** The last line of the log *)

Definition upper_char (c : Ascii.ascii) : Ascii.ascii :=
  let n := Ascii.N_of_ascii c in if (97 <=? n)%N && (n <=? 122)%N then Ascii.ascii_of_N (n - 32) else c.
Fixpoint upper (s : string) : string :=
  match s with "" => "" | String c s => String (upper_char c) (upper s) end.
(** [{:X}] of an unsigned number and [{}] of an [int32_t]. *)
Definition hex_upper (z : Z) : string := upper (digits 16 8 z "").
Definition int_str (z : Z) : string := if z <? 0 then "-" +:+ dec_str (- z) else dec_str z.
(** ["{} Exited with 0x{:X} ({})"] *)
Definition exit_line (target : string) (tohost signed : Z) : string :=
  target +:+ " Exited with 0x" +:+ hex_upper tohost +:+ " (" +:+ int_str signed +:+ ")".

(** ** Lemmas *)

Lemma length_append s t : String.length (s +:+ t) = (String.length s + String.length t)%nat.
Proof. induction s as [|c s IH]; [done|]. simpl. by rewrite IH. Qed.
Lemma append_nil s : s +:+ "" = s.
Proof. induction s as [|c s IH]; [done|]. exact (f_equal (String c) IH). Qed.
Lemma append_assoc s t u : s +:+ (t +:+ u) = (s +:+ t) +:+ u.
Proof. induction s as [|c s IH]; [done|]. exact (f_equal (String c) IH). Qed.
Lemma length_pad n : String.length (pad n) = n.
Proof. induction n as [|n IH]; [done|]. simpl. by rewrite IH. Qed.
Lemma length_right_field w s : (String.length s ≤ w)%nat → String.length (right_field w s) = w.
Proof. intros. unfold right_field. rewrite length_append, length_pad. lia. Qed.

Lemma append_inj s s' t t' : String.length s = String.length s' →
  s +:+ t = s' +:+ t' → s = s' ∧ t = t'.
Proof.
  revert s'. induction s as [|c s IH]; intros [|c' s'] Hl Heq; simpl in *; try done.
  injection Heq as -> Heq. destruct (IH s' ltac:(lia) Heq). by subst.
Qed.

(** Reading hexadecimal digits, and blanks before them. *)
Definition digit_value (c : Ascii.ascii) : Z :=
  let n := Z.of_N (Ascii.N_of_ascii c) in if n <? 58 then n - 48 else n - 87.
Fixpoint read_digits (base acc : Z) (s : string) : Z :=
  match s with
  | EmptyString => acc
  | String c s => read_digits base (base * acc + digit_value c) s
  end.
Fixpoint skip_blanks (s : string) : string :=
  match s with String c s' => if Ascii.eqb c " "%char then skip_blanks s' else s | EmptyString => s end.
Definition read_hex (s : string) : Z :=
  match skip_blanks s with String _ (String _ s) => read_digits 16 0 s | _ => 0 end.

Lemma digit_value_digit d : 0 ≤ d < 16 → digit_value (digit_char d) = d.
Proof.
  intros Hd. assert (d ∈ seqZ 0 16) as Hin by (apply elem_of_seqZ; lia).
  revert d Hin Hd. apply (Forall_forall (λ d, 0 ≤ d < 16 → digit_value (digit_char d) = d)).
  by repeat constructor.
Qed.

(** What is left of a number with [S n] digits after its last. *)
Lemma digits_rest base n z : 2 ≤ base → 0 ≤ z < base ^ Z.of_nat (S n) →
  0 ≤ z mod base < base ∧ 0 ≤ z / base < base ^ Z.of_nat n ∧ z = base * (z / base) + z mod base.
Proof.
  intros Hb Hz. rewrite Nat2Z.inj_succ, Z.pow_succ_r in Hz by lia.
  split; [apply Z.mod_pos_bound; lia|]. split; [|apply Z.div_mod; lia].
  split; [apply Z.div_pos; lia | apply Z.div_lt_upper_bound; lia].
Qed.

Lemma digits_length base fuel n z acc : 2 ≤ base → 0 ≤ z < base ^ Z.of_nat (S n) →
  (String.length (digits base fuel z acc) ≤ S n + String.length acc)%nat.
Proof.
  intros Hb. revert n z acc. induction fuel as [|fuel IH]; intros n z acc Hz; cbn [digits]; [lia|].
  destruct (digits_rest base n z Hb Hz) as (_ & Hq & _).
  destruct (Z.eqb_spec (z / base) 0) as [Hz0|Hz0]; [simpl; lia|].
  destruct n as [|n]; [rewrite Z.pow_0_r in Hq; lia|].
  etrans; [by apply IH | simpl; lia].
Qed.

(** The digits read back as the number, after whatever was read before. *)
Lemma read_digits_digits base fuel z acc a : 2 ≤ base ≤ 16 → 0 ≤ z < base ^ Z.of_nat (S fuel) →
  ∃ k, 0 ≤ k ∧ read_digits base a (digits base (S fuel) z acc) = read_digits base (base ^ k * a + z) acc.
Proof.
  intros Hb. revert z acc. induction fuel as [|fuel IH]; intros z acc Hz; cbn [digits];
    destruct (digits_rest base _ z ltac:(lia) Hz) as (Hm & Hq & Heq);
    destruct (Z.eqb_spec (z / base) 0) as [Hz0|Hz0].
  1,3: exists 1; split; [lia|]; cbn [read_digits]; rewrite digit_value_digit by lia; f_equal; lia.
  { rewrite Z.pow_0_r in Hq. lia. }
  destruct (IH _ (String (digit_char (z mod base)) acc) Hq) as (k & Hk & Hr).
  exists (Z.succ k). split; [lia|]. etrans; [exact Hr|]. cbn [read_digits].
  rewrite digit_value_digit by lia. rewrite Z.pow_succ_r by lia. f_equal. lia.
Qed.

Lemma read_number base fuel z : 2 ≤ base ≤ 16 → 0 ≤ z < base ^ Z.of_nat (S fuel) →
  read_digits base 0 (digits base (S fuel) z "") = z.
Proof.
  intros Hb Hz. destruct (read_digits_digits base fuel z "" 0 Hb Hz) as (k & _ & ->). cbn [read_digits]. lia.
Qed.

Lemma skip_pad n s : skip_blanks (pad n +:+ s) = skip_blanks s.
Proof. induction n as [|n IH]; [done|]. exact IH. Qed.

Lemma read_hex_field w z : is_u32 z → read_hex (hex_field w z) = z.
Proof.
  intros Hz. unfold read_hex, hex_field, right_field. rewrite skip_pad.
  apply (read_number 16 7); [lia | exact Hz].
Qed.

(** A field as wide as prefix and digits has exactly its width. *)
Lemma length_hex_field n z : 0 ≤ z < 16 ^ Z.of_nat (S n) →
  String.length (hex_field (3 + n) z) = (3 + n)%nat.
Proof.
  intros Hz. apply length_right_field. unfold hex. rewrite length_append.
  pose proof (digits_length 16 8 n z "" ltac:(lia) Hz). simpl in *. lia.
Qed.

Lemma hex_field_inj n z z' s s' : 0 ≤ z < 16 ^ Z.of_nat (S n) → 0 ≤ z' < 16 ^ Z.of_nat (S n) →
  (n < 8)%nat → hex_field (3 + n) z +:+ s = hex_field (3 + n) z' +:+ s' → z = z' ∧ s = s'.
Proof.
  intros Hz Hz' Hn Heq. apply append_inj in Heq as [Hf ->]; [|by rewrite !length_hex_field by done].
  assert (16 ^ Z.of_nat (S n) ≤ 2 ^ 32).
  { change (2 ^ 32) with (16 ^ 8). apply Z.pow_le_mono_r; lia. }
  split; [|done]. rewrite <-(read_hex_field (3 + n) z), <-(read_hex_field (3 + n) z') by lia. by rewrite Hf.
Qed.

(** *** Lines and words *)

Fixpoint lines (s : string) : list string :=
  match s with
  | EmptyString => []
  | String c s =>
      if Ascii.eqb c "010"%char then "" :: lines s
      else match lines s with [] => [String c ""] | l :: ls => String c l :: ls end
  end.

Fixpoint all_chars (p : Ascii.ascii → bool) (s : string) : bool :=
  match s with EmptyString => true | String c s => p c && all_chars p s end.
Definition no_newline (c : Ascii.ascii) : bool := negb (Ascii.eqb c "010"%char).
(** A word that fits in a field: no blank and no newline. *)
Definition plain (c : Ascii.ascii) : bool := negb (Ascii.eqb c " "%char) && no_newline c.
Definition word_in (w : nat) (s : string) : Prop := all_chars plain s = true ∧ (String.length s ≤ w)%nat.

Lemma all_chars_app p s t : all_chars p (s +:+ t) = all_chars p s && all_chars p t.
Proof. induction s as [|c s IH]; [done|]. simpl. by rewrite IH, andb_assoc. Qed.
Lemma all_chars_weaken (p q : Ascii.ascii → bool) s :
  (∀ c, p c = true → q c = true) → all_chars p s = true → all_chars q s = true.
Proof.
  intros Hpq. induction s as [|c s IH]; [done|]. simpl. intros [Hc Hs]%andb_prop. by rewrite Hpq, IH.
Qed.
Lemma no_newline_pad n : all_chars no_newline (pad n) = true.
Proof. by induction n. Qed.

Lemma lines_append s t : all_chars no_newline s = true → lines (s +:+ newline +:+ t) = s :: lines t.
Proof.
  induction s as [|c s IH]; [done|]. simpl. intros [Hc%negb_true_iff Hs]%andb_prop.
  change (s ++ String "010" t)%string with (s +:+ newline +:+ t). by rewrite Hc, IH.
Qed.

Lemma length_left_field w s : (String.length s ≤ w)%nat → String.length (left_field w s) = w.
Proof. intros. unfold left_field. rewrite length_append, length_pad. lia. Qed.
Lemma left_field_no_newline w s : word_in w s → all_chars no_newline (left_field w s) = true.
Proof.
  intros [Hs _]. unfold left_field. rewrite all_chars_app, no_newline_pad, andb_true_r.
  revert Hs. apply all_chars_weaken. by intros c [_ ?]%andb_prop.
Qed.

(** The word before the first blank. *)
Fixpoint first_word (s : string) : string :=
  match s with
  | String c s => if Ascii.eqb c " "%char then "" else String c (first_word s)
  | EmptyString => ""
  end.
Lemma first_word_left_field w s : all_chars plain s = true → first_word (left_field w s) = s.
Proof.
  unfold left_field. generalize (w - String.length s)%nat as n. intros n.
  induction s as [|c s IH]; simpl; [by destruct n|].
  intros [[Hc%negb_true_iff _]%andb_prop Hs]%andb_prop. by rewrite Hc, IH.
Qed.
Lemma left_field_inj w s s' t t' : word_in w s → word_in w s' →
  left_field w s +:+ t = left_field w s' +:+ t' → s = s' ∧ t = t'.
Proof.
  intros [Hs Hw] [Hs' Hw'] Heq. apply append_inj in Heq as [Hf ->]; [|by rewrite !length_left_field].
  split; [|done]. by rewrite <-(first_word_left_field w s), Hf, first_word_left_field.
Qed.

Lemma digit_plain d : 0 ≤ d < 16 → plain (digit_char d) = true.
Proof.
  intros Hd. assert (d ∈ seqZ 0 16) as Hin by (apply elem_of_seqZ; lia).
  revert d Hin Hd. apply (Forall_forall (λ d, 0 ≤ d < 16 → plain (digit_char d) = true)).
  by repeat constructor.
Qed.
Lemma digits_plain base fuel z acc : 2 ≤ base ≤ 16 → all_chars plain acc = true →
  all_chars plain (digits base fuel z acc) = true.
Proof.
  intros Hb. revert z acc. induction fuel as [|fuel IH]; intros z acc Ha; cbn [digits]; [done|].
  pose proof (Z.mod_pos_bound z base ltac:(lia)).
  assert (all_chars plain (String (digit_char (z mod base)) acc) = true).
  { simpl. by rewrite digit_plain by lia. }
  destruct (z / base =? 0); [done|]. by apply IH.
Qed.

Lemma word_dec_str z : is_u32 z → word_in 17 (dec_str z).
Proof.
  intros Hz. split; [apply digits_plain; [lia | done]|].
  pose proof (digits_length 10 10 9 z "" ltac:(lia) ltac:(simpl; lia)). unfold dec_str. simpl in *. lia.
Qed.
Lemma dec_str_inj z z' : is_u32 z → is_u32 z' → dec_str z = dec_str z' → z = z'.
Proof.
  intros Hz Hz' Heq.
  rewrite <-(read_number 10 9 z), <-(read_number 10 9 z') by (simpl; lia). by f_equal.
Qed.
Lemma word_target t : word_in 17 (target_str t).
Proof. split; destruct t; simpl; by (done || lia). Qed.
Lemma word_op_type o : word_in 17 (op_type_str o).
Proof. split; destruct o as [|[]|[]|[]|[]|[]]; simpl; by (done || lia). Qed.
Lemma word_bool b : word_in 17 (bool_str b).
Proof. split; destruct b; simpl; by (done || lia). Qed.

(** Names that are not the default name determine what they name. *)
Lemma target_str_inj t t' : named_target t = true → named_target t' = true →
  target_str t = target_str t' → t = t'.
Proof. by destruct t, t'. Qed.
Lemma op_type_str_inj o o' : named o = true → named o' = true → op_type_str o = op_type_str o' → o = o'.
Proof.
  destruct o as [|[]|[]|[]|[]|[]]; intros Ho; try done;
    destruct o' as [|[]|[]|[]|[]|[]]; intros Ho'; done.
Qed.

(** *** Rows *)

Lemma row_lines field value t : word_in 14 field → word_in 17 value →
  ∃ l l', lines (table_row field value +:+ t) = l :: l' :: lines t ∧
    String.length l = 34%nat ∧ String.length l' = 34%nat.
Proof.
  intros Hf Hv. unfold table_row, separator. set (rule := "+--------------+-----------------+").
  exists ("|" +:+ left_field 14 field +:+ "|" +:+ left_field 17 value +:+ "|"), rule.
  split.
  - transitivity (lines (("|" +:+ left_field 14 field +:+ "|" +:+ left_field 17 value +:+ "|") +:+ newline
      +:+ rule +:+ newline +:+ t)); [f_equal; by rewrite !append_assoc|].
    rewrite lines_append, lines_append; [done | done |].
    by rewrite !all_chars_app, !left_field_no_newline.
  - by rewrite !length_append, !length_left_field by (apply Hf || apply Hv).
Qed.
Lemma row_inj field v v' t t' : word_in 17 v → word_in 17 v' →
  table_row field v +:+ t = table_row field v' +:+ t' → v = v' ∧ t = t'.
Proof.
  intros Hv Hv' Heq. unfold table_row in Heq. rewrite <-!append_assoc in Heq.
  apply append_inj in Heq as [_ Heq]; [|done]. apply append_inj in Heq as [_ Heq]; [|done].
  apply append_inj in Heq as [_ Heq]; [|done]. apply left_field_inj in Heq as [-> Heq]; [|done..].
  split; [done|]. apply append_inj in Heq as [_ Heq]; [|done].
  apply append_inj in Heq as [_ Heq]; [|done]. by apply append_inj in Heq as [_ ?].
Qed.

(** The table as a list of rows. *)
Definition op_rows (o : op) : list (string * string) :=
  [("Field", "Value"); ("imm", dec_str (imm o)); ("tgt", target_str (tgt o));
   ("opt", op_type_str (opt o)); ("rd", dec_str (rd o)); ("rs1", dec_str (rs1 o));
   ("rs2", dec_str (rs2 o)); ("has_imm", bool_str (has_imm o)); ("use_pc", bool_str (use_pc o));
   ("is_compressed", bool_str (is_compressed o))].
Definition rows_str (rs : list (string * string)) : string :=
  foldr (λ r acc, table_row r.1 r.2 +:+ acc) "" rs.
Definition row_words (r : string * string) : Prop := word_in 14 r.1 ∧ word_in 17 r.2.

Lemma format_op_rows o : format_op o = separator +:+ rows_str (op_rows o).
Proof. unfold format_op, op_rows, rows_str. cbn [foldr fst snd]. by rewrite append_nil. Qed.

Lemma rows_lines rs : Forall row_words rs →
  length (lines (rows_str rs)) = (2 * length rs)%nat ∧
  Forall (λ l, String.length l = 34%nat) (lines (rows_str rs)).
Proof.
  induction 1 as [|r rs [Hf Hv] _ [IHl IHf]]; [done|]. cbn [rows_str foldr].
  destruct (row_lines r.1 r.2 (rows_str rs) Hf Hv) as (l & l' & Heq & Hl & Hl').
  fold (rows_str rs). rewrite Heq. split; [simpl; lia | by repeat constructor].
Qed.
Lemma rows_inj rs rs' : Forall row_words rs → Forall row_words rs' → rs.*1 = rs'.*1 →
  rows_str rs = rows_str rs' → rs = rs'.
Proof.
  intros Hrs. revert rs'. induction Hrs as [|[f v] rs [_ Hv] _ IH]; intros [|[f' v'] rs'] Hrs'; try done.
  apply Forall_cons in Hrs' as [[_ Hv'] Hrs']. intros [= -> Hk] Heq.
  destruct (row_inj f' v v' _ _ Hv Hv' Heq) as [-> Heq']. f_equal. by apply IH.
Qed.

(** The widths the record gives the printed numbers. *)
Definition op_widths (o : op) : Prop := is_u32 (imm o) ∧ is_u8 (rd o) ∧ is_u8 (rs1 o) ∧ is_u8 (rs2 o).

Lemma op_rows_words o : op_widths o → Forall row_words (op_rows o).
Proof.
  intros (Himm & Hrd & Hrs1 & Hrs2). unfold op_rows.
  repeat apply Forall_cons_2; try done; (split; [split; [done | simpl; lia]|]); simpl snd;
    first [apply word_dec_str; lia | apply word_target | apply word_op_type | apply word_bool | idtac].
  split; [done | simpl; lia].
Qed.
Lemma bool_str_inj b b' : bool_str b = bool_str b' → b = b'.
Proof. by destruct b, b'. Qed.

(** ** Properties *)

(** The log lines.  For a GPR change with an 8-bit index and a CSR change with a
    12-bit index, both with word values, every line is 36 characters long, so GPR and
    CSR lines are aligned (the comment in the source says so); and a line determines
    the change it was printed from. *)
Theorem change_lines (g g' : gpr_change) (c c' : csr_change) :
  is_u8 (g_index g) → is_u32 (g_prev g) → is_u32 (g_next g) →
  is_u8 (g_index g') → is_u32 (g_prev g') → is_u32 (g_next g') →
  0 ≤ c_index c < 4096 → is_u32 (c_prev c) → is_u32 (c_next c) →
  0 ≤ c_index c' < 4096 → is_u32 (c_prev c') → is_u32 (c_next c') →
  String.length (format_gpr_change g) = 36%nat ∧ String.length (format_csr_change c) = 36%nat ∧
  (format_gpr_change g = format_gpr_change g' → g = g') ∧
  (format_csr_change c = format_csr_change c' → c = c') ∧
  format_gpr_change g ≠ format_csr_change c.
Proof.
  intros. unfold format_gpr_change, format_csr_change.
  assert (∀ z, 0 ≤ z < 4096 → String.length (hex_field 5 z) = 5%nat) as Hw5
    by (intros; apply (length_hex_field 2); simpl; lia).
  assert (∀ z, is_u32 z → String.length (hex_field 10 z) = 10%nat) as Hw10
    by (intros; apply (length_hex_field 7); simpl; lia).
  split; [by rewrite !length_append, Hw5, !Hw10 by lia|].
  split; [by rewrite !length_append, Hw5, !Hw10 by lia|].
  split; [|split].
  - intros Heq. apply (append_inj "GPR[" "GPR[") in Heq as [_ Heq]; [|done].
    apply (hex_field_inj 2) in Heq as [? Heq]; [|simpl; lia..].
    apply (append_inj "]: " "]: ") in Heq as [_ Heq]; [|done].
    apply (hex_field_inj 7) in Heq as [? Heq]; [|simpl; lia..].
    apply (append_inj " => " " => ") in Heq as [_ Heq]; [|done].
    rewrite <-(append_nil (hex_field _ (g_next g))), <-(append_nil (hex_field _ (g_next g'))) in Heq.
    apply (hex_field_inj 7) in Heq as [? _]; [|simpl; lia..]. destruct g, g'. simpl in *. congruence.
  - intros Heq. apply (append_inj "CSR[" "CSR[") in Heq as [_ Heq]; [|done].
    apply (hex_field_inj 2) in Heq as [? Heq]; [|simpl; lia..].
    apply (append_inj "]: " "]: ") in Heq as [_ Heq]; [|done].
    apply (hex_field_inj 7) in Heq as [? Heq]; [|simpl; lia..].
    apply (append_inj " => " " => ") in Heq as [_ Heq]; [|done].
    rewrite <-(append_nil (hex_field _ (c_next c))), <-(append_nil (hex_field _ (c_next c'))) in Heq.
    apply (hex_field_inj 7) in Heq as [? _]; [|simpl; lia..]. destruct c, c'. simpl in *. congruence.
  - intros Heq. by apply (append_inj "GPR[" "CSR[") in Heq as [? _].
Qed.

(** The table of a decoded operation.  Whatever the operation, the table is 21 lines
    of 34 characters each, so its columns never break; and it shows the operation: two
    tables are equal only when all numbers and flags are, and, for operations and
    targets with a name, only when the operations are. *)
Theorem op_table (o o' : op) : op_widths o → op_widths o' →
  length (lines (format_op o)) = 21%nat ∧
  Forall (λ l, String.length l = 34%nat) (lines (format_op o)) ∧
  (format_op o = format_op o' →
     named (opt o) = true → named (opt o') = true →
     named_target (tgt o) = true → named_target (tgt o') = true → o = o').
Proof.
  intros Ho Ho'. rewrite !format_op_rows.
  pose proof (op_rows_words o Ho) as Hw. pose proof (op_rows_words o' Ho') as Hw'.
  destruct (rows_lines _ Hw) as [Hlen Hall]. split; [|split].
  - unfold separator. rewrite <-append_assoc, lines_append by done. cbn [length]. by rewrite Hlen.
  - unfold separator. rewrite <-append_assoc, lines_append by done. by constructor.
  - intros [_ Heq]%append_inj Hn Hn' Ht Ht'; [|done]. apply rows_inj in Heq; [|done..].
    destruct Ho as (? & ? & ? & ?), Ho' as (? & ? & ? & ?).
    injection Heq as Himm Htgt Hopt Hrd Hrs1 Hrs2 Hhi Hup Hic.
    apply dec_str_inj in Himm, Hrd, Hrs1, Hrs2; [|lia..]. apply bool_str_inj in Hhi, Hup, Hic.
    apply target_str_inj in Htgt; [|done..]. apply op_type_str_inj in Hopt; [|done..].
    destruct o, o'. simpl in *. congruence.
Qed.

(** The names.  Different trap causes print differently, and no cause prints as
    the default name; the same holds of the targets the code names. *)
Lemma names_distinct :
  (∀ c c', str_trap_cause c = str_trap_cause c' → c = c') ∧
  (∀ c, str_trap_cause c ≠ "unknown") ∧
  ∀ t t', target_str t = target_str t' → t = t' ∨ target_str t = "unknown".
Proof.
  split; [|split].
  - intros c c' Heq. destruct (list_elem_of_lookup_1 _ _ (all_trap_causes_spec c)) as [i Hi].
    destruct (list_elem_of_lookup_1 _ _ (all_trap_causes_spec c')) as [j Hj].
    assert (i = j) as ->; [|congruence].
    eapply (NoDup_lookup (str_trap_cause <$> all_trap_causes)).
    + apply (bool_decide_unpack _). by vm_compute.
    + rewrite list_lookup_fmap, Hi. reflexivity.
    + by rewrite list_lookup_fmap, Hj, Heq.
  - by destruct c.
  - intros t t' Heq. destruct t, t'; try done; by left + right.
Qed.

(** ** Witnesses *)

Section witnesses.

Definition sample_op : op := mk_op 4294967295 (op_alu _add) target.alu 5 5 0 true false false.

Lemma op_table_witness :
  length (lines (format_op sample_op)) = 21%nat ∧
  lines (format_op sample_op) !! 3%nat = Some "|imm           |4294967295       |" ∧
  lines (format_op sample_op) !! 7%nat = Some "|opt           |add              |".
Proof.
  split; [|by split; vm_compute].
  apply (op_table sample_op sample_op); repeat split; simpl; lia.
Defined.

Lemma change_lines_witness :
  String.length (format_gpr_change (mk_gpr_change 5 0 7)) = 36%nat ∧
  format_csr_change (mk_csr_change 0x305 0 8) = "CSR[0x305]:        0x0 =>        0x8".
Proof.
  split; [|by vm_compute].
  apply (change_lines (mk_gpr_change 5 0 7) (mk_gpr_change 5 0 7) (mk_csr_change 0x305 0 8)
    (mk_csr_change 0x305 0 8)); simpl; lia.
Defined.
End witnesses.
