(* ===== verification/Json.v ===== *)
(** * JSON export ([include/util/json_export_helpers.hpp])

    The conversions of register changes, operation kinds, decoded operations,
    program counters and hart states to and from JSON. nlohmann::json is a library:
    its values and accessors are the parameter [JsonLib]. The enumerators'
    underlying values belong to common.hpp: they are the parameter [EnumCodes]. *)

From Stdlib Require Import Ascii.
From stdpp Require Import pretty.
From S2P Require Import Common.

(** ** The library and the enumerator values *)

Class JsonLib := {
  json : Type;
  json_num : Z → json;                        (* a number *)
  json_bool : bool → json;
  json_obj : list (string * json) → json;     (* an object, in the order written *)
  json_arr : list json → json;                (* an array *)
  json_elems : json → res (list json);        (* the elements of an array *)
  json_at : string → json → res json;         (* j.at(key) *)
  json_get : Z → json → res Z;                (* get of an n-bit unsigned integer *)
  json_get_bool : json → res bool
}.

Class JsonLaws `{JsonLib} := {
  json_at_obj k l v : list_find (λ p, p.1 = k) l = Some v → json_at k (json_obj l) = Ok v.2.2;
  json_get_num n z : 0 ≤ z < 2 ^ n → json_get n (json_num z) = Ok z;
  json_elems_arr l : json_elems (json_arr l) = Ok l;
  json_get_bool_bool b : json_get_bool (json_bool b) = Ok b
}.

(** What the run does with a document: a default-constructed value is null,
    [emplace_back] turns null into an array and appends to an array, [dump] is its text. *)
Class JsonDoc `{JsonLib} := {
  json_null : json;
  emplace_back : json → json → res json;      (* the element, then the document *)
  json_dump : json → string
}.
Class JsonDocLaws `{JsonDoc} := {
  emplace_back_null x : emplace_back x json_null = Ok (json_arr [x]);
  emplace_back_arr x l : emplace_back x (json_arr l) = Ok (json_arr (l ++ [x]))
}.

(** [static_cast] between an enumeration and its underlying value. *)
Class EnumCodes := {
  alu_code : alu → Z; alu_of : Z → alu;
  load_code : masks.load → Z; load_of : Z → masks.load;
  store_code : masks.store → Z; store_of : Z → masks.store;
  branch_code : masks.branch → Z; branch_of : Z → masks.branch;
  sys_code : masks.sys → Z; sys_of : Z → masks.sys;
  target_code : target.target → Z; target_of : Z → target.target
}.

(** Conversion back undoes conversion, and the values fit the block of codes the
    export reserves for the kind. *)
Class EnumLaws `{EnumCodes} := {
  alu_codes a : named (op_alu a) = true → alu_of (alu_code a) = a ∧ 0 ≤ alu_code a ≤ 50;
  load_codes a : named (op_load a) = true → load_of (load_code a) = a ∧ 0 ≤ load_code a ≤ 9;
  store_codes a : named (op_store a) = true → store_of (store_code a) = a ∧ 0 ≤ store_code a ≤ 9;
  branch_codes a : named (op_branch a) = true → branch_of (branch_code a) = a ∧ 0 ≤ branch_code a ≤ 9;
  sys_codes a : named (op_sys a) = true → sys_of (sys_code a) = a ∧ 0 ≤ sys_code a ≤ 18
}.

(** The two members of [program_counter] the export names, and their width. *)
Class PcMembers `{CommonLib} := {
  pc_width : Z;
  pc_members : program_counter → Z * Z;
  pc_make : Z → Z → program_counter
}.
Class PcMembersLaws `{PcMembers} := {
  pc_make_members p : pc_make (pc_members p).1 (pc_members p).2 = p
}.

Section json.
Context `{JsonLib} `{EnumCodes}.

(** ** [op_type] *)

Definition op_type_to_json (opt : op_type) : json :=
  json_num
    match opt with
    | op_alu a => 50 + u8 (alu_code a)
    | op_load l => 40 + u8 (load_code l)
    | op_store s => 30 + u8 (store_code s)
    | op_branch b => 20 + u8 (branch_code b)
    | op_sys s => 1 + u8 (sys_code s)
    | op_monostate => 0
    end.

(** The chain of [if]s of [from_json]: each arm assigns [type] and updates [x]. *)
Definition in_range (lo hi x : Z) : bool := (lo <=? x) && (x <=? hi).
Definition parse_op_type (x : Z) (type : op_type) : op_type :=
  let type := if x =? 0 then op_monostate else type in
  let '(x, type) := if in_range 1 19 x then (u8 (x - 1), op_sys (sys_of (u8 (x - 1)))) else (x, type) in
  let '(x, type) := if in_range 20 29 x then (u8 (x - 20), op_branch (branch_of (u8 (x - 20)))) else (x, type) in
  let '(x, type) := if in_range 30 39 x then (u8 (x - 30), op_store (store_of (u8 (x - 30)))) else (x, type) in
  let '(x, type) := if in_range 40 49 x then (u8 (x - 40), op_load (load_of (u8 (x - 40)))) else (x, type) in
  if in_range 50 100 x then op_alu (alu_of (u8 (x - 50))) else type.

(** The out parameter when the function is left, and how it is left. *)
Definition op_type_from_json (j : json) (type : op_type) : op_type * res unit :=
  match json_get 8 j with
  | Fail f => (type, Fail f)
  | Ok x => (parse_op_type x type, Fail (Thrown (runtime_error "cannot parse")))
  end.

(** ** Register changes *)

Definition gpr_change_to_json (gpr : gpr_change) : json :=
  json_obj [("index", json_num (g_index gpr)); ("prev", json_num (g_prev gpr));
            ("next", json_num (g_next gpr))].
Definition gpr_change_from_json (j : json) : res gpr_change :=
  index ← json_at "index" j ≫= json_get 8;
  prev ← json_at "prev" j ≫= json_get 32;
  next ← json_at "next" j ≫= json_get 32;
  mret (mk_gpr_change index prev next).

Definition csr_change_to_json (csr : csr_change) : json :=
  json_obj [("index", json_num (c_index csr)); ("prev", json_num (c_prev csr));
            ("next", json_num (c_next csr))].
Definition csr_change_from_json (j : json) : res csr_change :=
  index ← json_at "index" j ≫= json_get 16;
  prev ← json_at "prev" j ≫= json_get 32;
  next ← json_at "next" j ≫= json_get 32;
  mret (mk_csr_change index prev next).

(** ** [op], by [NLOHMANN_DEFINE_TYPE_NON_INTRUSIVE] *)

Definition op_to_json (o : op) : json :=
  json_obj [("imm", json_num (imm o)); ("opt", op_type_to_json (opt o));
            ("tgt", json_num (target_code (tgt o))); ("rd", json_num (rd o));
            ("rs1", json_num (rs1 o)); ("rs2", json_num (rs2 o));
            ("has_imm", json_bool (has_imm o)); ("use_pc", json_bool (use_pc o));
            ("is_compressed", json_bool (is_compressed o))].
Definition op_from_json (j : json) : res op :=
  imm ← json_at "imm" j ≫= json_get 32;
  jo ← json_at "opt" j;
  let '(opt, r) := op_type_from_json jo op_monostate in
  _ ← r;
  tgt ← json_at "tgt" j ≫= json_get 32;
  rd ← json_at "rd" j ≫= json_get 8;
  rs1 ← json_at "rs1" j ≫= json_get 8;
  rs2 ← json_at "rs2" j ≫= json_get 8;
  has_imm ← json_at "has_imm" j ≫= json_get_bool;
  use_pc ← json_at "use_pc" j ≫= json_get_bool;
  is_compressed ← json_at "is_compressed" j ≫= json_get_bool;
  mret (mk_op imm opt (target_of tgt) rd rs1 rs2 has_imm use_pc is_compressed).

(** ** [program_counter] and [hart_state], by the same macro

    The staged changes are vectors, which the library writes as arrays and reads back
    element by element. *)

Fixpoint read_all {A} (f : json → res A) (l : list json) : res (list A) :=
  match l with
  | [] => mret []
  | j :: l => x ← f j; xs ← read_all f l; mret (x :: xs)
  end.

(** [state_export]: the documents of the operations, one after the other. *)
Fixpoint export_all `{!JsonDoc} (ds : list op) (state_export : json) : res json :=
  match ds with
  | [] => mret state_export
  | d :: ds => j ← emplace_back (op_to_json d) state_export; export_all ds j
  end.

Context `{PcMembers}.

Definition pc_to_json (p : program_counter) : json :=
  json_obj [("pc", json_num (pc_members p).1); ("pc_next", json_num (pc_members p).2)].
Definition pc_from_json (j : json) : res program_counter :=
  a ← json_at "pc" j ≫= json_get pc_width;
  b ← json_at "pc_next" j ≫= json_get pc_width;
  mret (pc_make a b).

Definition hart_state_to_json (h : hart_state) : json :=
  json_obj [("pc", pc_to_json (pc h)); ("instr", json_num (instr h)); ("dec", op_to_json (dec h));
            ("gpr_staged", json_arr (gpr_change_to_json <$> gpr_staged h));
            ("csr_staged", json_arr (csr_change_to_json <$> csr_staged h))].
Definition hart_state_from_json (j : json) : res hart_state :=
  pc ← json_at "pc" j ≫= pc_from_json;
  instr ← json_at "instr" j ≫= json_get 32;
  dec ← json_at "dec" j ≫= op_from_json;
  gpr_staged ← (json_at "gpr_staged" j ≫= json_elems) ≫= read_all gpr_change_from_json;
  csr_staged ← (json_at "csr_staged" j ≫= json_elems) ≫= read_all csr_change_from_json;
  mret (mk_hart_state _ pc instr dec gpr_staged csr_staged).
End json.

(** ** Lemmas *)

Section lemmas.
Context `{JsonLaws} `{EnumLaws}.

Lemma in_range_true lo hi x : lo ≤ x ≤ hi → in_range lo hi x = true.
Proof. intros. unfold in_range. by rewrite !(proj2 (Z.leb_le _ _)) by lia. Qed.
Lemma in_range_false lo hi x : x < lo ∨ hi < x → in_range lo hi x = false.
Proof.
  intros. unfold in_range. apply andb_false_iff.
  destruct (Z.leb_spec lo x), (Z.leb_spec x hi); (by (left + right)) || lia.
Qed.

Ltac ranges :=
  repeat first
    [ rewrite in_range_true by lia
    | rewrite in_range_false by lia
    | rewrite u8_small by lia ].

Lemma parse_op_type_code o t : named o = true →
  ∃ x, op_type_to_json o = json_num x ∧ 0 ≤ x < 2 ^ 8 ∧ parse_op_type x t = o.
Proof.
  intros Ho. unfold op_type_to_json, parse_op_type.
  destruct o as [|a|a|a|a|a]; (eexists; split; [done|]).
  { by split. }
  1: destruct (alu_codes a Ho) as [Hof Hc].
  2: destruct (load_codes a Ho) as [Hof Hc].
  3: destruct (store_codes a Ho) as [Hof Hc].
  4: destruct (branch_codes a Ho) as [Hof Hc].
  5: destruct (sys_codes a Ho) as [Hof Hc].
  all: rewrite (u8_small (_ a)) by lia; split; [lia|].
  all: rewrite (proj2 (Z.eqb_neq _ _)) by lia; ranges; by rewrite Z.add_simpl_l, Hof.
Qed.
End lemmas.

(** ** Reading back *)

Section roundtrips.
Context {J : JsonLib} {JL : JsonLaws} {EC : EnumCodes}.

Lemma op_type_from_json_fails t j : ∃ f, (op_type_from_json j t).2 = Fail f.
Proof. unfold op_type_from_json. destruct (json_get 8 j); simpl; eauto. Qed.

Lemma op_from_json_fails j : ∃ f, op_from_json j = Fail f.
Proof.
  unfold op_from_json. destruct (json_at "imm" j ≫= json_get 32) as [i|]; [rewrite res_bind_ok|eauto].
  destruct (json_at "opt" j) as [jo|]; [rewrite res_bind_ok|eauto].
  destruct (op_type_from_json_fails op_monostate jo) as [f Hf].
  destruct (op_type_from_json jo op_monostate) as [o r]. simpl in Hf. subst r. eauto.
Qed.

Lemma hart_state_from_json_fails {C : CommonLib} {PM : PcMembers} j :
  ∃ f, hart_state_from_json j = Fail f.
Proof.
  unfold hart_state_from_json. destruct (json_at "pc" j ≫= pc_from_json); [rewrite res_bind_ok|eauto].
  destruct (json_at "instr" j ≫= json_get 32); [rewrite res_bind_ok|eauto].
  destruct (json_at "dec" j) as [jd|f]; [|by exists f].
  destruct (op_from_json_fails jd) as [f Hf]. exists f. by rewrite res_bind_ok, Hf.
Qed.

Lemma read_all_ok {A} (f : json → res A) (g : A → json) (l : list A) :
  Forall (λ x, f (g x) = Ok x) l → read_all f (g <$> l) = Ok l.
Proof.
  induction 1 as [|x l Hx _ IH]; [done|]. csimpl. by rewrite Hx, res_bind_ok, IH, res_bind_ok.
Qed.

(** What has been exported: null before the first operation, then an array. *)
Definition exported_json {JD : JsonDoc} (ds : list op) : json :=
  match ds with [] => json_null | _ => json_arr (op_to_json <$> ds) end.
Lemma exported_json_snoc {JD : JsonDoc} {JDL : JsonDocLaws} ds d :
  emplace_back (op_to_json d) (exported_json ds) = Ok (exported_json (ds ++ [d])).
Proof.
  destruct ds as [|d0 ds]; [apply emplace_back_null|]. simpl exported_json.
  by rewrite emplace_back_arr, fmap_app.
Qed.
Lemma export_all_ok {JD : JsonDoc} {JDL : JsonDocLaws} ds ds0 :
  export_all ds (exported_json ds0) = Ok (exported_json (ds0 ++ ds)).
Proof.
  revert ds0. induction ds as [|d ds IH]; intros ds0; cbn [export_all]; [by rewrite app_nil_r|].
  by rewrite exported_json_snoc, res_bind_ok, IH, <-app_assoc.
Qed.

Definition wf_gpr_change (g : gpr_change) : Prop :=
  is_u8 (g_index g) ∧ is_u32 (g_prev g) ∧ is_u32 (g_next g).
Definition wf_csr_change (c : csr_change) : Prop :=
  is_u16 (c_index c) ∧ is_u32 (c_prev c) ∧ is_u32 (c_next c).

Lemma gpr_change_roundtrip g : wf_gpr_change g → gpr_change_from_json (gpr_change_to_json g) = Ok g.
Proof.
  intros (? & ? & ?). unfold gpr_change_from_json, gpr_change_to_json.
  rewrite !(json_at_obj "index" _ (0%nat, ("index", _))) by done.
  rewrite !(json_at_obj "prev" _ (1%nat, ("prev", _))) by done.
  rewrite !(json_at_obj "next" _ (2%nat, ("next", _))) by done.
  rewrite !res_bind_ok. simpl snd. rewrite !json_get_num by done. by destruct g.
Qed.
Lemma csr_change_roundtrip c : wf_csr_change c → csr_change_from_json (csr_change_to_json c) = Ok c.
Proof.
  intros (? & ? & ?). unfold csr_change_from_json, csr_change_to_json.
  rewrite !(json_at_obj "index" _ (0%nat, ("index", _))) by done.
  rewrite !(json_at_obj "prev" _ (1%nat, ("prev", _))) by done.
  rewrite !(json_at_obj "next" _ (2%nat, ("next", _))) by done.
  rewrite !res_bind_ok. simpl snd. rewrite !json_get_num by done. by destruct c.
Qed.
Definition wf_pc {C : CommonLib} {PM : PcMembers} (p : program_counter) : Prop :=
  0 ≤ (pc_members p).1 < 2 ^ pc_width ∧ 0 ≤ (pc_members p).2 < 2 ^ pc_width.
Lemma pc_roundtrip {C : CommonLib} {PM : PcMembers} {PL : PcMembersLaws} p :
  wf_pc p → pc_from_json (pc_to_json p) = Ok p.
Proof.
  intros [? ?]. unfold pc_from_json, pc_to_json.
  rewrite !(json_at_obj "pc" _ (0%nat, ("pc", _))) by done.
  rewrite !(json_at_obj "pc_next" _ (1%nat, ("pc_next", _))) by done.
  rewrite !res_bind_ok. simpl snd. rewrite !json_get_num by done. by rewrite !res_bind_ok, pc_make_members.
Qed.
End roundtrips.

(** ** Properties *)

(** C39: [from_json] of an operation kind never returns.  It throws for every JSON
    value: when the value is not a number, as the library does, and otherwise with
    "cannot parse" after the chain of cases, which has no [return].  The decoding
    itself is right: for every kind the export wrote, the out parameter holds that kind
    when the exception leaves.  So no decoded operation and no hart state can be read
    back either. *)
Theorem op_type_from_json_always_throws {J : JsonLib} {JL : JsonLaws} {EC : EnumCodes} {ECL : EnumLaws}
    {C : CommonLib} {PM : PcMembers} (t : op_type) :
  (∀ j, ∃ f, (op_type_from_json j t).2 = Fail f) ∧
  (∀ o, named o = true →
     op_type_from_json (op_type_to_json o) t = (o, Fail (Thrown (runtime_error "cannot parse")))) ∧
  (∀ j, ∃ f, op_from_json j = Fail f) ∧
  (∀ j, ∃ f, hart_state_from_json j = Fail f).
Proof.
  split; [apply op_type_from_json_fails|]. split; [|split; [apply op_from_json_fails | apply hart_state_from_json_fails]].
  intros o Ho. destruct (parse_op_type_code o t Ho) as (x & Hx & Hr & Hp).
  unfold op_type_from_json. by rewrite Hx, json_get_num, Hp by done.
Qed.

(** The rest of a hart state survives the export.  Vectors of register and CSR
    changes whose fields have the widths the records give them are read back unchanged
    and in order, and so is the program counter. *)
Theorem changes_roundtrip {J : JsonLib} {JL : JsonLaws} {C : CommonLib} {PM : PcMembers} {PL : PcMembersLaws}
    (gs : list gpr_change) (cs : list csr_change) (p : program_counter) :
  Forall wf_gpr_change gs → Forall wf_csr_change cs → wf_pc p →
  json_elems (json_arr (gpr_change_to_json <$> gs)) ≫= read_all gpr_change_from_json = Ok gs ∧
  json_elems (json_arr (csr_change_to_json <$> cs)) ≫= read_all csr_change_from_json = Ok cs ∧
  pc_from_json (pc_to_json p) = Ok p.
Proof.
  intros Hg Hc Hp. rewrite !json_elems_arr, !res_bind_ok. split; [|split; [|by apply pc_roundtrip]].
  - apply read_all_ok. exact (Forall_impl _ _ _ Hg gpr_change_roundtrip).
  - apply read_all_ok. exact (Forall_impl _ _ _ Hc csr_change_roundtrip).
Qed.

(** ** Witnesses *)

Section witnesses.

(** JSON values as an inductive type, and the enumerators numbered in order. *)
Inductive tree : Type := Null | Num (z : Z) | Bool (b : bool) | Obj (l : list (string * tree)) | Arr (l : list tree).
Definition ref_json : JsonLib := {|
  json := tree; json_num := Num; json_bool := Bool; json_obj := Obj; json_arr := Arr;
  json_elems j := match j with Arr l => Ok l | _ => Fail (Thrown (runtime_error "type must be array")) end;
  json_at k j := match j with
    | Obj l => match list_find (λ p, p.1 = k) l with
               | Some v => Ok v.2.2 | None => Fail (Thrown (runtime_error "key not found")) end
    | _ => Fail (Thrown (runtime_error "cannot use at()")) end;
  json_get n j := match j with Num z => Ok (z mod 2 ^ n) | _ => Fail (Thrown (runtime_error "type must be number")) end;
  json_get_bool j := match j with Bool b => Ok b | _ => Fail (Thrown (runtime_error "type must be boolean")) end |}.
#[local] Existing Instance ref_json.
#[local] Instance ref_json_laws : JsonLaws.
Proof.
  split; simpl; [by intros k l v -> | | done | done]. intros n z Hz. by rewrite Z.mod_small.
Qed.
Definition quoted (s : string) : string := String "034" s +:+ String "034" "".
Fixpoint show (j : tree) : string :=
  match j with
  | Null => "null"
  | Num z => pretty z
  | Bool b => if b then "true" else "false"
  | Obj l => "{" +:+ String.concat "," (map (λ p, quoted p.1 +:+ ":" +:+ show p.2) l) +:+ "}"
  | Arr l => "[" +:+ String.concat "," (map show l) +:+ "]"
  end.
Definition ref_json_doc : JsonDoc := {|
  json_null := Null;
  emplace_back x j := match j with
    | Null => Ok (Arr [x]) | Arr l => Ok (Arr (l ++ [x]))
    | _ => Fail (Thrown (runtime_error "cannot use emplace_back()")) end;
  json_dump := show |}.
Lemma ref_json_doc_laws : @JsonDocLaws ref_json ref_json_doc.
Proof. by split. Qed.

Definition alus : list alu :=
  [_and; _or; _xor; _add; _sub; _sll; _srl; _sra; _slt; _sltu; _mul; _mulh; _mulhsu; _mulhu;
   _div; _divu; _rem; _remu; _auipc; _jal; _jalr].
Definition loads : list masks.load := [masks.lb; masks.lh; masks.lw; masks.lbu; masks.lhu].
Definition stores : list masks.store := [masks.sb; masks.sh; masks.sw].
Definition branches : list masks.branch :=
  [masks.beq; masks.bne; masks.blt; masks.bge; masks.bltu; masks.bgeu].
Definition syss : list masks.sys :=
  [masks.csrrw; masks.csrrs; masks.csrrc; masks.csrrwi; masks.csrrsi; masks.csrrci; masks.other].
Definition targets : list target.target :=
  [target.load; target.store; target.alu; target.branch; target.csr; target.mret; target.ecall;
   target.illegal; target.ebreak].
Definition position {A} `{EqDecision A} (l : list A) (x : A) : Z :=
  match list_find (x =.) l with Some (n, _) => Z.of_nat n | None => 255 end.
Definition member {A} (d : A) (l : list A) (z : Z) : A := default d (l !! Z.to_nat z).
Definition ref_codes : EnumCodes := {|
  alu_code := position alus; alu_of := member _and alus;
  load_code := position loads; load_of := member masks.lb loads;
  store_code := position stores; store_of := member masks.sb stores;
  branch_code := position branches; branch_of := member masks.beq branches;
  sys_code := position syss; sys_of := member masks.csrrw syss;
  target_code := position targets; target_of := member target.load targets |}.
#[local] Existing Instance ref_codes.
#[local] Instance ref_codes_laws : EnumLaws.
Proof. split; intros a Ha; destruct a; (done || by vm_compute). Qed.

#[local] Existing Instance ref_common.
(** The reference program counter is a pair; its members are taken as words. *)
#[local] Instance ref_pc_members : PcMembers := Build_PcMembers ref_common 32 (λ p, p) pair.
#[local] Instance ref_pc_laws : PcMembersLaws.
Proof. split. by intros []. Qed.

Lemma op_type_from_json_always_throws_witness :
  op_type_from_json (op_type_to_json (op_sys masks.csrrc)) op_monostate =
    (op_sys masks.csrrc, Fail (Thrown (runtime_error "cannot parse"))).
Proof.
  exact (proj1 (proj2 (op_type_from_json_always_throws op_monostate)) (op_sys masks.csrrc) eq_refl).
Defined.

Lemma changes_roundtrip_witness :
  json_elems (json_arr (gpr_change_to_json <$> [mk_gpr_change 5 0 7; mk_gpr_change 6 1 9]))
    ≫= read_all gpr_change_from_json = Ok [mk_gpr_change 5 0 7; mk_gpr_change 6 1 9] ∧
  pc_from_json (pc_to_json (pc_set 0x1004 (pc_of 0x1000))) = Ok (pc_set 0x1004 (pc_of 0x1000)).
Proof.
  edestruct (changes_roundtrip [mk_gpr_change 5 0 7; mk_gpr_change 6 1 9] [mk_csr_change 0x305 0 7]
    (pc_set 0x1004 (pc_of 0x1000))) as (Hg & _ & Hp).
  1-3: unfold wf_pc; simpl; repeat constructor; simpl; lia.
  split; [exact Hg | exact Hp].
Defined.
End witnesses.
