(* ===== verification/Ipc.v ===== *)
(** * The TCP echo server ([include/ipc.hpp], [src/ipc.cpp])

    An optional build of the simulator runs an echo server before the simulation.  Each
    session reads into its 1024-byte buffer, writes back what it read and reads again;
    the acceptor re-arms itself.  boost::asio is a library and a parameter, [Asio]: which
    completions it delivers in a state of the program.  [AsioLaws] states what its
    documentation promises of them and the code relies on; what a completion makes the code
    do, the handlers, is the code.  Up to five threads run handlers, but a session has at
    most one operation outstanding, so its handlers never overlap, and handlers that
    do overlap touch different sessions: a schedule is a sequence of completions. *)

From S2P Require Import Prelude.

(** ** Sessions *)

(** An asynchronous operation on the socket: [async_read_some] into at most so many
    bytes of the buffer, [async_write] of the bytes given. *)
Inductive operation : Set :=
  | async_read_some (max_bytes : nat)
  | async_write (bytes : list Z).

Definition max_length : nat := Z.to_nat 1024.

Record session : Set := mk_session { data_ : list Z; outstanding : option operation }.

Definition session_init : session := mk_session (replicate max_length 0) None.

(** [boost::asio::buffer(data_, n)]: the first [n] bytes, at most the whole array. *)
Definition buffer (data : list Z) (n : nat) : list Z := take n data.

Definition session_start (s : session) : session :=
  mk_session (data_ s) (Some (async_read_some (length (buffer (data_ s) max_length)))).
Definition handle_read (error : bool) (bytes_transferred : nat) (s : session) : session :=
  if negb error then mk_session (data_ s) (Some (async_write (buffer (data_ s) bytes_transferred))) else s.
Definition handle_write (error : bool) (s : session) : session :=
  if negb error then mk_session (data_ s) (Some (async_read_some (length (buffer (data_ s) max_length))))
  else s.

(** The handlers the code passes to [async_read_some] and [async_write]; the second drops the
    number of bytes. *)
Definition read_handler (error : bool) (bytes_transferred : nat) : session → session :=
  handle_read error bytes_transferred.
Definition write_handler (error : bool) (bytes_transferred : nat) : session → session := handle_write error.

(** ** The server *)

(** A session with what was read from its peer and written to it. *)
Record connection : Set := mk_connection { sess : session; received : list Z; sent : list Z }.

Record server : Set := mk_server {
  accepting : option session;       (* the session the outstanding accept will fill *)
  connections : list connection;
  signal_wait : bool;               (* a wait for a signal is outstanding *)
  stopped : bool
}.

Definition start_accept (sv : server) : server :=
  mk_server (Some session_init) (connections sv) (signal_wait sv) (stopped sv).
Definition server_init : server := start_accept (mk_server None [] false false).
Definition add_connection (new_session : session) (sv : server) : server :=
  mk_server (accepting sv) (connections sv ++ [mk_connection (session_start new_session) [] []]) (signal_wait sv) (stopped sv).
(** The handler [start_accept] passes to [async_accept]. *)
Definition accept_handler (error : bool) (new_session : session) (sv : server) : server :=
  start_accept (if negb error then add_connection new_session sv else sv).
(** A variant of that handler that nothing passes to the library. *)
Definition handle_accept (new_session : session) (error : bool) (sv : server) : server :=
  if negb error then start_accept (add_connection new_session sv) else sv.
Definition stop (sv : server) : server := mk_server (accepting sv) (connections sv) (signal_wait sv) true.
(** [run] waits for a signal; its threads run handlers before that and until the stop. *)
Definition run (sv : server) : server := mk_server (accepting sv) (connections sv) true (stopped sv).
Definition signal_handler (error : bool) (signal_number : Z) (sv : server) : server := stop sv.

(** ** Completions *)

(** What the library reports when it runs a handler: of the accept, with its error; of the
    [i]-th connection's read, with the buffer as the read has left it; of its write, with
    the bytes that have gone out; of the wait for a signal. *)
Inductive completion : Set :=
  | accepted (error : bool)
  | read_completed (i : nat) (error : bool) (bytes_transferred : nat) (data : list Z)
  | write_completed (i : nat) (error : bool) (bytes_transferred : nat)
  | signalled (error : bool) (signal_number : Z).

Definition on_connection (f : connection → connection) (i : nat) (sv : server) : server :=
  mk_server (accepting sv) (alter f i (connections sv)) (signal_wait sv) (stopped sv).
(** The operation is no longer outstanding, and its handler runs. *)
Definition dispatch (e : completion) (sv : server) : server :=
  match e with
  | accepted error =>
      match accepting sv with
      | Some new => accept_handler error new (mk_server None (connections sv) (signal_wait sv) (stopped sv))
      | None => sv
      end
  | read_completed i error n data =>
      on_connection (λ c, mk_connection (read_handler error n (mk_session data None)) (received c ++ take n data) (sent c)) i sv
  | write_completed i error n =>
      on_connection (λ c, mk_connection (write_handler error n (mk_session (data_ (sess c)) None)) (received c)
        (sent c ++ match outstanding (sess c) with Some (async_write bs) => take n bs | _ => [] end)) i sv
  | signalled error n => signal_handler error n (mk_server (accepting sv) (connections sv) false (stopped sv))
  end.

(** ** boost::asio *)

(** Which completions the library may deliver. *)
Class Asio := { delivers : server → completion → Prop }.

(** Documented: handlers run only for outstanding operations and not after [stop]; a read
    transfers at most the size of the buffer it was given, into its front, and without an
    error at least one byte; a write without an error has written all its bytes. *)
Class AsioLaws `{Asio} := {
  law_running sv e : delivers sv e → stopped sv = false;
  law_accept sv error : delivers sv (accepted error) → accepting sv ≠ None;
  law_read sv i error n data : delivers sv (read_completed i error n data) →
    ∃ c m, connections sv !! i = Some c ∧ outstanding (sess c) = Some (async_read_some m) ∧ (n <= m)%nat ∧
      length data = length (data_ (sess c)) ∧ drop n data = drop n (data_ (sess c)) ∧ (error = false → 0 < n)%nat;
  law_write sv i error n : delivers sv (write_completed i error n) →
    ∃ c bs, connections sv !! i = Some c ∧ outstanding (sess c) = Some (async_write bs) ∧ (n <= length bs)%nat ∧
      (error = false → n = length bs);
  law_signal sv error n : delivers sv (signalled error n) → signal_wait sv = true
}.

Section asio.
Context `{AL : AsioLaws}.

(** The states of the server: [run] is called, and the library does the rest. *)
Inductive served : server → Prop :=
  | served_init : served server_init
  | served_run sv : served sv → served (run sv)
  | served_step sv e : served sv → delivers sv e → served (dispatch e sv).

(** ** Lemmas *)

(** What is still to be echoed, while the connection is alive. *)
Definition in_flight (c : connection) : option (list Z) :=
  match outstanding (sess c) with
  | Some (async_read_some _) => Some []
  | Some (async_write bs) => Some bs
  | None => None
  end.

Record echoes (c : connection) : Prop := {
  echo_prefix : sent c `prefix_of` received c;
  echo_exact bs : in_flight c = Some bs → received c = sent c ++ bs;
  echo_buffer : length (data_ (sess c)) = max_length;
  echo_bound n : outstanding (sess c) = Some (async_read_some n) → n = max_length
}.

#[local] Opaque max_length.

Lemma buffer_whole d : length d = max_length → length (buffer d max_length) = max_length.
Proof. intros Hd. unfold buffer. rewrite length_take. lia. Qed.

Lemma echoes_start : echoes (mk_connection (session_start session_init) [] []).
Proof.
  assert (length (replicate max_length 0) = max_length) as Hl by apply length_replicate.
  split; simpl; [done | by intros bs [= <-] | exact Hl | intros n [= <-]; by apply buffer_whole].
Qed.

(** A completed read, and a completed write. *)
Lemma echoes_read c m error n data : echoes c → outstanding (sess c) = Some (async_read_some m) → (n <= m)%nat →
  length data = length (data_ (sess c)) →
  echoes (mk_connection (read_handler error n (mk_session data None)) (received c ++ take n data) (sent c)).
Proof.
  intros [Hp He Hb Hn] Ho Hnm Hl. specialize (He []). unfold in_flight in He. rewrite Ho in He.
  specialize (He eq_refl). rewrite app_nil_r in He.
  destruct error; split; cbn [read_handler handle_read negb sess received sent data_ outstanding];
    try (by rewrite Hl); try by (apply prefix_app_r).
  - done.
  - done.
  - unfold in_flight. cbn. intros bs [= <-]. by rewrite He.
  - done.
Qed.
Lemma echoes_write c bs error n : echoes c → outstanding (sess c) = Some (async_write bs) → (error = false → n = length bs) →
  echoes (mk_connection (write_handler error n (mk_session (data_ (sess c)) None)) (received c)
    (sent c ++ match outstanding (sess c) with Some (async_write bs) => take n bs | _ => [] end)).
Proof.
  intros [Hp He Hb Hn] Ho Hall. rewrite Ho. specialize (He bs). unfold in_flight in He. rewrite Ho in He. specialize (He eq_refl).
  destruct error; split; cbn [write_handler handle_write negb sess received sent data_ outstanding]; try done.
  - rewrite He. apply prefix_app, prefix_take.
  - rewrite He, (Hall eq_refl), firstn_all. done.
  - unfold in_flight. cbn. intros b [= <-]. by rewrite He, (Hall eq_refl), firstn_all, app_nil_r.
  - intros k [= <-]. by apply buffer_whole.
Qed.

Definition server_ok (sv : server) : Prop := accepting sv = Some session_init ∧ Forall echoes (connections sv).

Lemma dispatch_ok sv e : server_ok sv → delivers sv e → server_ok (dispatch e sv).
Proof.
  intros [Ha Hc] He. destruct e as [error|i error n data|i error n|error n].
  - cbn [dispatch]. rewrite Ha. unfold accept_handler. destruct error; simpl; [done|].
    split; [done|]. apply Forall_app. split; [done | apply Forall_singleton, echoes_start].
  - destruct (law_read _ _ _ _ _ He) as (c & m & Hi & Ho & Hn & Hl & _). split; [done|]. simpl.
    apply Forall_alter; [done|]. intros c' Hi' Hc'. rewrite Hi in Hi'. injection Hi' as <-. by eapply echoes_read.
  - destruct (law_write _ _ _ _ He) as (c & bs & Hi & Ho & Hn & Hl). split; [done|]. simpl.
    apply Forall_alter; [done|]. intros c' Hi' Hc'. rewrite Hi in Hi'. injection Hi' as <-. by eapply echoes_write.
  - done.
Qed.
Lemma served_ok sv : served sv → server_ok sv.
Proof. induction 1 as [|sv _ IH|sv e _ IH He]; [by split; [|constructor] | exact IH | by apply dispatch_ok]. Qed.
End asio.

(** ** Properties *)

(** C40: The server echoes, whatever completions and errors the library delivers.  In every
    state it can reach an accept is outstanding, so that while it is not stopped it takes
    connections; an accept that completes adds a connection that reads, unless with an
    error, and starts the next.  On each connection the bytes written back are a prefix of
    the bytes read, in order, with nothing but the bytes of the outstanding write missing
    while the connection lives, so all of them while it waits for input; a read is never
    given more than the 1024-byte buffer.  And a read that succeeds and the write that
    follows it, if it succeeds, return exactly the bytes read, after which the connection
    reads again. *)
Theorem server_echoes `{AL : AsioLaws} (sv : server) :
  served sv →
  accepting sv = Some session_init ∧
  (∀ error, delivers sv (accepted error) →
     accepting (dispatch (accepted error) sv) = Some session_init ∧
     connections (dispatch (accepted error) sv) =
       connections sv ++ (if error then [] else [mk_connection (session_start session_init) [] []])) ∧
  ∀ i c, connections sv !! i = Some c → echoes c ∧
    ∀ n data m, let sv' := dispatch (read_completed i false n data) sv in
      let sv'' := dispatch (write_completed i false m) sv' in
      delivers sv (read_completed i false n data) → delivers sv' (write_completed i false m) →
      ∃ c'', connections sv'' !! i = Some c'' ∧ (0 < n)%nat ∧ received c'' = received c ++ take n data ∧
        sent c'' = sent c ++ take n data ∧ outstanding (sess c'') = Some (async_read_some max_length).
Proof.
  intros Hsv. destruct (served_ok sv Hsv) as [Ha Hall]. split; [done|]. split.
  { intros error _. cbn [dispatch]. rewrite Ha. destruct error; simpl; by rewrite ?app_nil_r. }
  intros i c Hi. split; [by eapply Forall_lookup_1|]. intros n data m sv' sv'' Hr Hw.
  destruct (served_ok sv'' (served_step _ _ (served_step _ _ Hsv Hr) Hw)) as [_ Hall''].
  destruct (law_read _ _ _ _ _ Hr) as (c0 & k & Hi0 & Ho & Hn & Hl & _ & Hpos). rewrite Hi in Hi0. injection Hi0 as <-.
  destruct (law_write _ _ _ _ Hw) as (c1 & bs & Hi1 & Ho1 & _ & Hm). specialize (Hm eq_refl).
  pose proof (list_lookup_alter_eq (λ c, mk_connection (read_handler false n (mk_session data None)) (received c ++ take n data) (sent c)) (connections sv) i) as Hr1.
  rewrite Hi in Hr1. cbn [fmap option_fmap option_map] in Hr1.
  assert (Some c1 = Some _) as Hc1 by (rewrite <- Hi1; exact Hr1). clear Hr1. injection Hc1 as ->.
  injection Ho1 as <-. pose proof (list_lookup_alter_eq (λ c, mk_connection (write_handler false m (mk_session (data_ (sess c)) None)) (received c)
        (sent c ++ match outstanding (sess c) with Some (async_write bs) => take m bs | _ => [] end)) (connections sv') i) as Hw1.
  rewrite Hi1 in Hw1. eexists. split; [exact Hw1|]. split; [by apply Hpos|]. split; [done|]. split.
  - rewrite Hm. cbn [sent sess read_handler handle_read negb outstanding data_]. by rewrite firstn_all.
  - pose proof (Forall_lookup_1 _ _ _ _ Hall'' Hw1) as Hc. simpl. do 2 f_equal. by apply (echo_bound _ Hc).
Qed.

(** ** Witnesses *)

Section witnesses.
(** A library that delivers whatever its documentation allows. *)
#[local] Instance ref_asio : Asio := {| delivers sv e := stopped sv = false ∧ match e with
  | accepted _ => accepting sv ≠ None
  | read_completed i error n data =>
      ∃ c m, connections sv !! i = Some c ∧ outstanding (sess c) = Some (async_read_some m) ∧ (n <= m)%nat ∧
        length data = length (data_ (sess c)) ∧ drop n data = drop n (data_ (sess c)) ∧ (error = false → 0 < n)%nat
  | write_completed i error n =>
      ∃ c bs, connections sv !! i = Some c ∧ outstanding (sess c) = Some (async_write bs) ∧ (n <= length bs)%nat ∧
        (error = false → n = length bs)
  | signalled _ _ => signal_wait sv = true
  end |}.
#[local] Instance ref_asio_laws : AsioLaws.
Proof. split; by intros * [??]. Qed.

(** A client connects and sends two bytes, which it gets back. *)
Definition one_client : server := dispatch (accepted false) server_init.
Definition two_bytes : list Z := [104; 105] ++ replicate 1022 0.
Lemma server_echoes_witness :
  served one_client ∧ ∃ c'', connections (dispatch (write_completed 0 false 2)
      (dispatch (read_completed 0 false 2 two_bytes) one_client)) !! 0%nat = Some c'' ∧ sent c'' = [104; 105].
Proof.
  assert (served one_client) as Hs by by apply (served_step server_init (accepted false) served_init).
  split; [exact Hs|]. destruct (server_echoes one_client Hs) as (_ & _ & Hc).
  destruct (Hc 0%nat _ eq_refl) as [_ H]. destruct (H 2%nat two_bytes 2%nat) as (c'' & Hc'' & _ & _ & Hsent & _).
  - split; [done|]. do 2 eexists. split; [reflexivity|]. split; [reflexivity|].
    split; [apply Nat.leb_le; by vm_compute|]. split; [by vm_compute|]. split; [by vm_compute | lia].
  - split; [done|]. do 2 eexists. split; [reflexivity|]. split; [reflexivity|]. split; [simpl; lia | done].
  - exists c''. split; [exact Hc'' | exact Hsent].
Defined.
End witnesses.
