(* ===== verification/Bits.v ===== *)
(** * Fields of an instruction word

    A field of a word is a slice of its bits, [slice k n z].  C code cuts fields out by
    shifting left and right in a 64-bit type; [pack] builds a word from its fields, least
    significant first.  The lemmas turn the C expressions into slices, read slices of
    packed words, and put immediates together from their scattered pieces. *)

From S2P Require Export Prelude.

(** Bits [k] to [k + n - 1]. *)
Definition slice (k n z : Z) : Z := (z / 2 ^ k) mod 2 ^ n.

(** An [n]-bit pattern read as a signed number. *)
Definition signed (n v : Z) : Z := if v <? 2 ^ (n - 1) then v else v - 2 ^ n.

(** The word with the given fields (width and value), least significant first. *)
Fixpoint pack (fields : list (Z * Z)) : Z :=
  match fields with [] => 0 | (n, v) :: fields => v + 2 ^ n * pack fields end.

(** ** Slices *)

Lemma slice_range k n z : 0 ≤ n → 0 ≤ slice k n z < 2 ^ n.
Proof. intros. apply Z.mod_pos_bound, Z.pow_pos_nonneg; lia. Qed.

Lemma slice_testbit k n z i : 0 ≤ k → 0 ≤ n → 0 ≤ i →
  Z.testbit (slice k n z) i = (i <? n) && Z.testbit z (i + k).
Proof.
  intros. unfold slice. rewrite <-Z.shiftr_div_pow2, Z.testbit_mod_pow2, Z.shiftr_spec by lia. done.
Qed.

Lemma slice_0 n z : 0 ≤ z < 2 ^ n → slice 0 n z = z.
Proof. intros. unfold slice. change (2 ^ 0) with 1. by rewrite Z.div_1_r, Z.mod_small. Qed.

Lemma slice_slice k n j m z : 0 ≤ k → 0 ≤ n → 0 ≤ j → k + n ≤ m →
  slice k n (slice j m z) = slice (j + k) n z.
Proof.
  intros. apply Z.bits_inj'. intros i Hi. rewrite !slice_testbit by lia.
  replace (i + (j + k)) with (i + k + j) by lia.
  destruct (Z.ltb_spec i n); [|done]. by rewrite (proj2 (Z.ltb_lt (i + k) m)) by lia.
Qed.

Lemma slice_app k n m z : 0 ≤ k → 0 ≤ n → 0 ≤ m →
  slice k (n + m) z = slice k n z + 2 ^ n * slice (k + n) m z.
Proof.
  intros. unfold slice. rewrite (Z.pow_add_r 2 k n), <-Z.div_div by lia.
  rewrite (Z.pow_add_r 2 n m) by lia. by rewrite Z.rem_mul_r by lia.
Qed.

Lemma slice_mod k n z m : 0 ≤ k → 0 ≤ n → k + n ≤ m → slice k n (z mod 2 ^ m) = slice k n z.
Proof.
  intros. change (z mod 2 ^ m) with (z mod 2 ^ m). rewrite <-(Z.div_1_r z) at 1. change 1 with (2 ^ 0) at 1.
  fold (slice 0 m z). by rewrite slice_slice, Z.add_0_l by lia.
Qed.

(** ** Packed words *)

Lemma pack_bound fields : Forall (λ f, 0 ≤ f.1 ∧ 0 ≤ f.2 < 2 ^ f.1) fields →
  0 ≤ pack fields < 2 ^ foldr (λ f n, f.1 + n) 0 fields.
Proof.
  induction 1 as [|[n v] fields [Hn Hv] Hf IH]; simpl; [lia|]. simpl in *.
  assert (0 ≤ foldr (λ f n, f.1 + n) 0 fields).
  { clear IH. induction Hf as [|[? ?] ? [? _]]; simpl in *; lia. }
  rewrite Z.pow_add_r by lia. nia.
Qed.

Lemma slice_skip k n m v z : 0 ≤ m → 0 ≤ v < 2 ^ m → m ≤ k → slice k n (v + 2 ^ m * z) = slice (k - m) n z.
Proof.
  intros Hm Hv Hk. unfold slice. replace k with (m + (k - m)) at 1 by lia.
  rewrite Z.pow_add_r, <-Z.div_div by lia. f_equal. f_equal.
  rewrite Z.mul_comm, Z.div_add by lia. rewrite Z.div_small by lia. lia.
Qed.

Lemma slice_inside k n m v z : 0 ≤ k → 0 ≤ n → k + n ≤ m → slice k n (v + 2 ^ m * z) = slice k n v.
Proof.
  intros. rewrite <-(slice_mod k n (v + 2 ^ m * z) m), <-(slice_mod k n v m) by lia.
  f_equal. rewrite Z.mul_comm. apply Z.mod_add. lia.
Qed.

Lemma slice_take n v z : 0 ≤ v < 2 ^ n → 0 ≤ n → slice 0 n (v + 2 ^ n * z) = v.
Proof. intros. rewrite slice_inside by lia. by apply slice_0. Qed.

(** ** The C expressions *)

Lemma land_slice z k m n : 0 ≤ k → 0 ≤ n → m = Z.ones n → Z.land (Z.shiftr z k) m = slice k n z.
Proof. intros ? ? ->. rewrite Z.land_ones, Z.shiftr_div_pow2 by lia. done. Qed.

(** A field masked in its shifted place. *)
Lemma land_slice_shifted z k j m n : 0 ≤ j → 0 ≤ k → 0 ≤ n → m = Z.shiftl (Z.ones n) j →
  Z.land (Z.shiftr z k) m = slice (k + j) n z * 2 ^ j.
Proof.
  intros ? ? ? ->. rewrite <-Z.shiftl_mul_pow2 by lia. apply Z.bits_inj'. intros i Hi.
  rewrite Z.land_spec, Z.shiftr_spec by lia. destruct (Z.ltb_spec i j).
  { rewrite !Z.shiftl_spec_low by lia. by rewrite andb_false_r. }
  rewrite !Z.shiftl_spec, slice_testbit by lia. replace (i - j + (k + j)) with (i + k) by lia.
  rewrite Z.testbit_ones_nonneg by lia. by rewrite andb_comm.
Qed.

Lemma shift_slice z a b : 0 ≤ a ≤ b → b ≤ 64 →
  Z.shiftr (u64 (Z.shiftl z a)) b = slice (b - a) (64 - b) z.
Proof.
  intros. apply Z.bits_inj'. intros i Hi. unfold u64.
  rewrite Z.shiftr_spec, Z.testbit_mod_pow2, slice_testbit by lia.
  destruct (Z.ltb_spec i (64 - b)).
  - rewrite (proj2 (Z.ltb_lt _ _)), Z.shiftl_spec by lia. simpl. f_equal. lia.
  - by rewrite (proj2 (Z.ltb_ge _ _)) by lia.
Qed.

Lemma signed_shiftr n b w : 0 ≤ b < n → 0 ≤ w < 2 ^ n →
  Z.shiftr (signed n w) b = signed (n - b) (w / 2 ^ b).
Proof.
  intros Hb Hw. rewrite Z.shiftr_div_pow2 by lia. unfold signed.
  assert (0 < 2 ^ b) by (apply Z.pow_pos_nonneg; lia).
  assert (2 ^ (n - 1) = 2 ^ b * 2 ^ (n - b - 1)) as H1 by (rewrite <-Z.pow_add_r by lia; f_equal; lia).
  assert (2 ^ n = 2 ^ (n - b) * 2 ^ b) as H2 by (rewrite <-Z.pow_add_r by lia; f_equal; lia).
  destruct (Z.ltb_spec w (2 ^ (n - 1))).
  - rewrite (proj2 (Z.ltb_lt _ _)); [done|]. apply Z.div_lt_upper_bound; lia.
  - rewrite (proj2 (Z.ltb_ge _ _)) by (apply Z.div_le_lower_bound; lia).
    replace (w - 2 ^ n) with (w + (- 2 ^ (n - b)) * 2 ^ b) by lia. rewrite Z.div_add by lia. lia.
Qed.

Lemma s64_signed z : s64 z = signed 64 (u64 z).
Proof. done. Qed.
Lemma u64_s64 z : u64 (s64 z) = u64 z.
Proof.
  unfold s64. destruct (_ <? _); unfold u64; [by rewrite Z.mod_mod by lia|].
  replace (z mod 2 ^ 64 - 2 ^ 64) with (z mod 2 ^ 64 + (-1) * 2 ^ 64) by lia.
  rewrite Z.mod_add by lia. by rewrite Z.mod_mod by lia.
Qed.
Lemma u64_mul_l a b : u64 (u64 a * b) = u64 (a * b).
Proof. unfold u64. by rewrite Z.mul_mod_idemp_l by lia. Qed.
Lemma u64_shiftl_s64 z a : 0 ≤ a → u64 (Z.shiftl (s64 z) a) = u64 (Z.shiftl z a).
Proof.
  intros. rewrite !Z.shiftl_mul_pow2 by lia. by rewrite <-u64_mul_l, u64_s64, u64_mul_l.
Qed.

Lemma shift_signed z a b : 0 ≤ a ≤ b → b < 64 →
  Z.shiftr (s64 (Z.shiftl (s64 z) a)) b = signed (64 - b) (slice (b - a) (64 - b) z).
Proof.
  intros. rewrite s64_signed, signed_shiftr by (lia || apply u64_range).
  rewrite u64_shiftl_s64, <-Z.shiftr_div_pow2, shift_slice by lia. done.
Qed.

Lemma signed_range n v : 0 < n → 0 ≤ v < 2 ^ n → - 2 ^ (n - 1) ≤ signed n v < 2 ^ (n - 1).
Proof.
  intros Hn Hv. assert (2 ^ n = 2 * 2 ^ (n - 1)) by (rewrite <-Z.pow_succ_r by lia; f_equal; lia).
  unfold signed. destruct (Z.ltb_spec v (2 ^ (n - 1))); lia.
Qed.

Lemma signed_slice_range k n z : 0 < n → - 2 ^ (n - 1) ≤ signed n (slice k n z) < 2 ^ (n - 1).
Proof. intros. apply signed_range; [done|]. apply slice_range. lia. Qed.

(** Reading the low bits of a signed number back as a signed number. *)
Lemma signed_slice n z : 0 < n → - 2 ^ (n - 1) ≤ z < 2 ^ (n - 1) → signed n (slice 0 n z) = z.
Proof.
  intros Hn Hz. assert (2 ^ n = 2 * 2 ^ (n - 1)) by (rewrite <-Z.pow_succ_r by lia; f_equal; lia).
  unfold signed, slice. rewrite Z.div_1_r. destruct (Z.le_gt_cases 0 z).
  - rewrite Z.mod_small by lia. by rewrite (proj2 (Z.ltb_lt _ _)) by lia.
  - rewrite <-(Z.mod_add z 1), Z.mod_small by lia. rewrite (proj2 (Z.ltb_ge _ _)) by lia. lia.
Qed.

(** ** Pieces in their places

    A bitwise or of pieces that do not overlap is their sum. *)

Lemma lor_pieces k n v j m w : 0 ≤ k → 0 ≤ j → 0 ≤ v < 2 ^ n → 0 ≤ w < 2 ^ m → 0 ≤ n → 0 ≤ m →
  k + n ≤ j ∨ j + m ≤ k → Z.land (v * 2 ^ k) (w * 2 ^ j) = 0.
Proof.
  intros Hk Hj Hv Hw Hn Hm Hd. apply Z.bits_inj'. intros i Hi. rewrite Z.land_spec, Z.bits_0.
  rewrite <-!Z.shiftl_mul_pow2 by lia. rewrite !Z.shiftl_spec by lia.
  rewrite <-(Z.mod_small v (2 ^ n)), <-(Z.mod_small w (2 ^ m)), !Z.testbit_mod_pow2 by lia.
  destruct (Z.lt_ge_cases i k); [by rewrite (Z.testbit_neg_r v), andb_false_r by lia|].
  destruct (Z.lt_ge_cases i j); [by rewrite (Z.testbit_neg_r w), !andb_false_r by lia|].
  destruct (Z.ltb_spec (i - k) n), (Z.ltb_spec (i - j) m); simpl; rewrite ?andb_false_r; done || lia.
Qed.

(** The field of a packed word at an offset. *)
Fixpoint field_at (k n : Z) (fields : list (Z * Z)) : option Z :=
  match fields with
  | [] => None
  | (m, v) :: fields =>
      if k =? 0 then if n =? m then Some v else None
      else if m <=? k then field_at (k - m) n fields else None
  end.

Definition fields_ok : list (Z * Z) → Prop := Forall (λ f, 0 ≤ f.1 ∧ 0 ≤ f.2 < 2 ^ f.1).

Lemma slice_pack k n fields v : fields_ok fields → field_at k n fields = Some v → slice k n (pack fields) = v.
Proof.
  intros Hf. revert k. induction Hf as [|[m w] fields [Hm Hw] Hf IH]; intros k; simpl in *; [done|].
  destruct (Z.eqb_spec k 0) as [->|Hk].
  - destruct (Z.eqb_spec n m) as [->|]; [|done]. intros [= ->]. by apply slice_take.
  - destruct (Z.leb_spec m k); [|done]. intros Hv. rewrite slice_skip by lia. by apply IH.
Qed.

(** *** Immediates

    A sign-extended piece at the top, or-ed with the pieces below it. *)

Lemma sign_extend s k low : 0 ≤ k ≤ 32 → 0 ≤ low < 2 ^ k → is_s32 (s * 2 ^ k + low) →
  s32 (Z.lor (u64 (s64 (Z.shiftl s k))) low) = s * 2 ^ k + low.
Proof.
  intros Hk Hlow Hr. assert (0 < 2 ^ (64 - k)) by (apply Z.pow_pos_nonneg; lia). rewrite u64_s64. unfold u64.
  assert (Z.shiftl s k mod 2 ^ 64 = Z.shiftl (s mod 2 ^ (64 - k)) k) as ->.
  { rewrite !Z.shiftl_mul_pow2 by lia. replace 64 with ((64 - k) + k) at 1 by lia.
    rewrite Z.pow_add_r, Z.mul_mod_distr_r by lia. done. }
  rewrite lor_disjoint_add by lia.
  pose proof (Z.div_mod s (2 ^ (64 - k)) ltac:(lia)) as Hdm.
  assert (2 ^ (64 - k) * 2 ^ k = 2 ^ 32 * 2 ^ 32) as Hp by (rewrite <-!Z.pow_add_r by lia; f_equal; lia).
  set (q := s / 2 ^ (64 - k)) in *. set (r := s mod 2 ^ (64 - k)) in *.
  assert (s * 2 ^ k = q * (2 ^ 32 * 2 ^ 32) + r * 2 ^ k) as Hs by (rewrite <-Hp, Hdm; ring).
  replace (r * 2 ^ k + low) with (s * 2 ^ k + low + (- q * 2 ^ 32) * 2 ^ 32) by lia.
  rewrite <-(s32_u32 (_ + _)). unfold u32. rewrite Z.mod_add by lia.
  fold (u32 (s * 2 ^ k + low)). by rewrite s32_u32, s32_small.
Qed.

Lemma signed_high k n z : 0 ≤ k → 0 < n → - 2 ^ (k + n - 1) ≤ z < 2 ^ (k + n - 1) →
  signed n (slice k n z) = z / 2 ^ k.
Proof.
  intros Hk Hn Hz. replace (k + n - 1) with (k + (n - 1)) in Hz by lia. rewrite Z.pow_add_r in Hz by lia.
  assert (slice k n z = slice 0 n (z / 2 ^ k)) as ->.
  { unfold slice. change (2 ^ 0) with 1. by rewrite Z.div_1_r. }
  apply signed_slice; [done|].
  split; [apply Z.div_le_lower_bound; lia | apply Z.div_lt_upper_bound; lia].
Qed.

(** A number from its high part and its low bits. *)
Lemma slice_low k z : 0 ≤ k → z = z / 2 ^ k * 2 ^ k + slice 0 k z.
Proof. intros. unfold slice. change (2 ^ 0) with 1. rewrite Z.div_1_r. pose proof (Z.div_mod z (2 ^ k)). lia. Qed.

(** Pieces next to each other and apart. *)
Lemma lor_add a b : 0 ≤ a → 0 ≤ b → Z.land a b = 0 → Z.lor a b = a + b.
Proof. intros. rewrite Z.add_nocarry_lxor by done. symmetry. by apply Z.lxor_lor. Qed.
Lemma lor_add3 a b c : 0 ≤ a → 0 ≤ b → 0 ≤ c →
  Z.land a b = 0 → Z.land a c = 0 → Z.land b c = 0 → Z.lor a (Z.lor b c) = a + b + c.
Proof.
  intros Ha Hb Hc Hab Hac Hbc. rewrite (lor_add a (Z.lor b c)); [rewrite (lor_add b c) by done; lia | done | |].
  - by apply Z.lor_nonneg.
  - by rewrite Z.land_lor_distr_r, Hab, Hac.
Qed.
Lemma lor_mod a b m : 0 ≤ m → a mod 2 ^ m = 0 → b mod 2 ^ m = 0 → Z.lor a b mod 2 ^ m = 0.
Proof. intros Hm. rewrite <-!Z.land_ones by done. intros Ha Hb. by rewrite Z.land_lor_distr_l, Ha, Hb. Qed.
