(* ===== verification/DisasTables.v ===== *)
(** * The tables of the disassembler ([external/riscv-disas])

    The enumerations of [riscv-disas.h] and the constant tables of [riscv-disas.c]:
    register names, operand formats, the constraints under which an instruction is
    shown as a pseudo-instruction, the metadata of every instruction in the order of
    the enumeration, and the names of the CSRs.  An enumerator is a constructor; the
    tables stay lists that the code indexes by the enumerator's value, as arrays are.
    An array of constraints or of pseudo-instructions keeps its terminator. *)

From Stdlib Require Import Ascii.
From S2P Require Export Prelude.

(** ** Enumerations *)

Inductive rv_isa : Set :=
  | rv32 | rv64 | rv128.

Inductive rv_codec : Set :=
  | rv_codec_illegal | rv_codec_none | rv_codec_u | rv_codec_uj | rv_codec_i | rv_codec_i_sh5
  | rv_codec_i_sh6 | rv_codec_i_sh7 | rv_codec_i_csr | rv_codec_s | rv_codec_sb | rv_codec_r
  | rv_codec_r_m | rv_codec_r4_m | rv_codec_r_a | rv_codec_r_l | rv_codec_r_f | rv_codec_cb
  | rv_codec_cb_imm | rv_codec_cb_sh5 | rv_codec_cb_sh6 | rv_codec_ci | rv_codec_ci_sh5
  | rv_codec_ci_sh6 | rv_codec_ci_16sp | rv_codec_ci_lwsp | rv_codec_ci_ldsp | rv_codec_ci_lqsp
  | rv_codec_ci_li | rv_codec_ci_lui | rv_codec_ci_none | rv_codec_ciw_4spn | rv_codec_cj
  | rv_codec_cj_jal | rv_codec_cl_lw | rv_codec_cl_ld | rv_codec_cl_lq | rv_codec_cr
  | rv_codec_cr_mv | rv_codec_cr_jalr | rv_codec_cr_jr | rv_codec_cs | rv_codec_cs_sw
  | rv_codec_cs_sd | rv_codec_cs_sq | rv_codec_css_swsp | rv_codec_css_sdsp | rv_codec_css_sqsp.

Inductive rvc_constraint : Set :=
  | rvc_end | rvc_rd_eq_ra | rvc_rd_eq_x0 | rvc_rs1_eq_x0 | rvc_rs2_eq_x0 | rvc_rs2_eq_rs1
  | rvc_rs1_eq_ra | rvc_imm_eq_zero | rvc_imm_eq_n1 | rvc_imm_eq_p1 | rvc_csr_eq_0x001
  | rvc_csr_eq_0x002 | rvc_csr_eq_0x003 | rvc_csr_eq_0xc00 | rvc_csr_eq_0xc01 | rvc_csr_eq_0xc02
  | rvc_csr_eq_0xc80 | rvc_csr_eq_0xc81 | rvc_csr_eq_0xc82.

Inductive rv_op : Set :=
  | rv_op_illegal | rv_op_lui | rv_op_auipc | rv_op_jal | rv_op_jalr | rv_op_beq | rv_op_bne
  | rv_op_blt | rv_op_bge | rv_op_bltu | rv_op_bgeu | rv_op_lb | rv_op_lh | rv_op_lw | rv_op_lbu
  | rv_op_lhu | rv_op_sb | rv_op_sh | rv_op_sw | rv_op_addi | rv_op_slti | rv_op_sltiu
  | rv_op_xori | rv_op_ori | rv_op_andi | rv_op_slli | rv_op_srli | rv_op_srai | rv_op_add
  | rv_op_sub | rv_op_sll | rv_op_slt | rv_op_sltu | rv_op_xor | rv_op_srl | rv_op_sra
  | rv_op_or | rv_op_and | rv_op_fence | rv_op_fence_i | rv_op_lwu | rv_op_ld | rv_op_sd
  | rv_op_addiw | rv_op_slliw | rv_op_srliw | rv_op_sraiw | rv_op_addw | rv_op_subw | rv_op_sllw
  | rv_op_srlw | rv_op_sraw | rv_op_ldu | rv_op_lq | rv_op_sq | rv_op_addid | rv_op_sllid
  | rv_op_srlid | rv_op_sraid | rv_op_addd | rv_op_subd | rv_op_slld | rv_op_srld | rv_op_srad
  | rv_op_mul | rv_op_mulh | rv_op_mulhsu | rv_op_mulhu | rv_op_div | rv_op_divu | rv_op_rem
  | rv_op_remu | rv_op_mulw | rv_op_divw | rv_op_divuw | rv_op_remw | rv_op_remuw | rv_op_muld
  | rv_op_divd | rv_op_divud | rv_op_remd | rv_op_remud | rv_op_lr_w | rv_op_sc_w
  | rv_op_amoswap_w | rv_op_amoadd_w | rv_op_amoxor_w | rv_op_amoor_w | rv_op_amoand_w
  | rv_op_amomin_w | rv_op_amomax_w | rv_op_amominu_w | rv_op_amomaxu_w | rv_op_lr_d
  | rv_op_sc_d | rv_op_amoswap_d | rv_op_amoadd_d | rv_op_amoxor_d | rv_op_amoor_d
  | rv_op_amoand_d | rv_op_amomin_d | rv_op_amomax_d | rv_op_amominu_d | rv_op_amomaxu_d
  | rv_op_lr_q | rv_op_sc_q | rv_op_amoswap_q | rv_op_amoadd_q | rv_op_amoxor_q | rv_op_amoor_q
  | rv_op_amoand_q | rv_op_amomin_q | rv_op_amomax_q | rv_op_amominu_q | rv_op_amomaxu_q
  | rv_op_ecall | rv_op_ebreak | rv_op_uret | rv_op_sret | rv_op_hret | rv_op_mret | rv_op_dret
  | rv_op_sfence_vm | rv_op_sfence_vma | rv_op_wfi | rv_op_csrrw | rv_op_csrrs | rv_op_csrrc
  | rv_op_csrrwi | rv_op_csrrsi | rv_op_csrrci | rv_op_flw | rv_op_fsw | rv_op_fmadd_s
  | rv_op_fmsub_s | rv_op_fnmsub_s | rv_op_fnmadd_s | rv_op_fadd_s | rv_op_fsub_s | rv_op_fmul_s
  | rv_op_fdiv_s | rv_op_fsgnj_s | rv_op_fsgnjn_s | rv_op_fsgnjx_s | rv_op_fmin_s | rv_op_fmax_s
  | rv_op_fsqrt_s | rv_op_fle_s | rv_op_flt_s | rv_op_feq_s | rv_op_fcvt_w_s | rv_op_fcvt_wu_s
  | rv_op_fcvt_s_w | rv_op_fcvt_s_wu | rv_op_fmv_x_s | rv_op_fclass_s | rv_op_fmv_s_x
  | rv_op_fcvt_l_s | rv_op_fcvt_lu_s | rv_op_fcvt_s_l | rv_op_fcvt_s_lu | rv_op_fld | rv_op_fsd
  | rv_op_fmadd_d | rv_op_fmsub_d | rv_op_fnmsub_d | rv_op_fnmadd_d | rv_op_fadd_d
  | rv_op_fsub_d | rv_op_fmul_d | rv_op_fdiv_d | rv_op_fsgnj_d | rv_op_fsgnjn_d | rv_op_fsgnjx_d
  | rv_op_fmin_d | rv_op_fmax_d | rv_op_fcvt_s_d | rv_op_fcvt_d_s | rv_op_fsqrt_d | rv_op_fle_d
  | rv_op_flt_d | rv_op_feq_d | rv_op_fcvt_w_d | rv_op_fcvt_wu_d | rv_op_fcvt_d_w
  | rv_op_fcvt_d_wu | rv_op_fclass_d | rv_op_fcvt_l_d | rv_op_fcvt_lu_d | rv_op_fmv_x_d
  | rv_op_fcvt_d_l | rv_op_fcvt_d_lu | rv_op_fmv_d_x | rv_op_flq | rv_op_fsq | rv_op_fmadd_q
  | rv_op_fmsub_q | rv_op_fnmsub_q | rv_op_fnmadd_q | rv_op_fadd_q | rv_op_fsub_q | rv_op_fmul_q
  | rv_op_fdiv_q | rv_op_fsgnj_q | rv_op_fsgnjn_q | rv_op_fsgnjx_q | rv_op_fmin_q | rv_op_fmax_q
  | rv_op_fcvt_s_q | rv_op_fcvt_q_s | rv_op_fcvt_d_q | rv_op_fcvt_q_d | rv_op_fsqrt_q
  | rv_op_fle_q | rv_op_flt_q | rv_op_feq_q | rv_op_fcvt_w_q | rv_op_fcvt_wu_q | rv_op_fcvt_q_w
  | rv_op_fcvt_q_wu | rv_op_fclass_q | rv_op_fcvt_l_q | rv_op_fcvt_lu_q | rv_op_fcvt_q_l
  | rv_op_fcvt_q_lu | rv_op_fmv_x_q | rv_op_fmv_q_x | rv_op_c_addi4spn | rv_op_c_fld
  | rv_op_c_lw | rv_op_c_flw | rv_op_c_fsd | rv_op_c_sw | rv_op_c_fsw | rv_op_c_nop
  | rv_op_c_addi | rv_op_c_jal | rv_op_c_li | rv_op_c_addi16sp | rv_op_c_lui | rv_op_c_srli
  | rv_op_c_srai | rv_op_c_andi | rv_op_c_sub | rv_op_c_xor | rv_op_c_or | rv_op_c_and
  | rv_op_c_subw | rv_op_c_addw | rv_op_c_j | rv_op_c_beqz | rv_op_c_bnez | rv_op_c_slli
  | rv_op_c_fldsp | rv_op_c_lwsp | rv_op_c_flwsp | rv_op_c_jr | rv_op_c_mv | rv_op_c_ebreak
  | rv_op_c_jalr | rv_op_c_add | rv_op_c_fsdsp | rv_op_c_swsp | rv_op_c_fswsp | rv_op_c_ld
  | rv_op_c_sd | rv_op_c_addiw | rv_op_c_ldsp | rv_op_c_sdsp | rv_op_c_lq | rv_op_c_sq
  | rv_op_c_lqsp | rv_op_c_sqsp | rv_op_nop | rv_op_mv | rv_op_not | rv_op_neg | rv_op_negw
  | rv_op_sext_w | rv_op_seqz | rv_op_snez | rv_op_sltz | rv_op_sgtz | rv_op_fmv_s
  | rv_op_fabs_s | rv_op_fneg_s | rv_op_fmv_d | rv_op_fabs_d | rv_op_fneg_d | rv_op_fmv_q
  | rv_op_fabs_q | rv_op_fneg_q | rv_op_beqz | rv_op_bnez | rv_op_blez | rv_op_bgez | rv_op_bltz
  | rv_op_bgtz | rv_op_ble | rv_op_bleu | rv_op_bgt | rv_op_bgtu | rv_op_j | rv_op_ret
  | rv_op_jr | rv_op_rdcycle | rv_op_rdtime | rv_op_rdinstret | rv_op_rdcycleh | rv_op_rdtimeh
  | rv_op_rdinstreth | rv_op_frcsr | rv_op_frrm | rv_op_frflags | rv_op_fscsr | rv_op_fsrm
  | rv_op_fsflags | rv_op_fsrmi | rv_op_fsflagsi.

(** [rv_fence], [rv_rm] and [rv_ireg] are only used for their values. *)
Definition rv_fence_i : Z := 8.
Definition rv_fence_o : Z := 4.
Definition rv_fence_r : Z := 2.
Definition rv_fence_w : Z := 1.
Definition rv_ireg_zero : Z := 0.
Definition rv_ireg_ra : Z := 1.
Definition rv_ireg_sp : Z := 2.

Definition rv_ops : list rv_op :=
  [rv_op_illegal; rv_op_lui; rv_op_auipc; rv_op_jal; rv_op_jalr; rv_op_beq; rv_op_bne;
   rv_op_blt; rv_op_bge; rv_op_bltu; rv_op_bgeu; rv_op_lb; rv_op_lh; rv_op_lw; rv_op_lbu;
   rv_op_lhu; rv_op_sb; rv_op_sh; rv_op_sw; rv_op_addi; rv_op_slti; rv_op_sltiu; rv_op_xori;
   rv_op_ori; rv_op_andi; rv_op_slli; rv_op_srli; rv_op_srai; rv_op_add; rv_op_sub; rv_op_sll;
   rv_op_slt; rv_op_sltu; rv_op_xor; rv_op_srl; rv_op_sra; rv_op_or; rv_op_and; rv_op_fence;
   rv_op_fence_i; rv_op_lwu; rv_op_ld; rv_op_sd; rv_op_addiw; rv_op_slliw; rv_op_srliw;
   rv_op_sraiw; rv_op_addw; rv_op_subw; rv_op_sllw; rv_op_srlw; rv_op_sraw; rv_op_ldu; rv_op_lq;
   rv_op_sq; rv_op_addid; rv_op_sllid; rv_op_srlid; rv_op_sraid; rv_op_addd; rv_op_subd;
   rv_op_slld; rv_op_srld; rv_op_srad; rv_op_mul; rv_op_mulh; rv_op_mulhsu; rv_op_mulhu;
   rv_op_div; rv_op_divu; rv_op_rem; rv_op_remu; rv_op_mulw; rv_op_divw; rv_op_divuw;
   rv_op_remw; rv_op_remuw; rv_op_muld; rv_op_divd; rv_op_divud; rv_op_remd; rv_op_remud;
   rv_op_lr_w; rv_op_sc_w; rv_op_amoswap_w; rv_op_amoadd_w; rv_op_amoxor_w; rv_op_amoor_w;
   rv_op_amoand_w; rv_op_amomin_w; rv_op_amomax_w; rv_op_amominu_w; rv_op_amomaxu_w; rv_op_lr_d;
   rv_op_sc_d; rv_op_amoswap_d; rv_op_amoadd_d; rv_op_amoxor_d; rv_op_amoor_d; rv_op_amoand_d;
   rv_op_amomin_d; rv_op_amomax_d; rv_op_amominu_d; rv_op_amomaxu_d; rv_op_lr_q; rv_op_sc_q;
   rv_op_amoswap_q; rv_op_amoadd_q; rv_op_amoxor_q; rv_op_amoor_q; rv_op_amoand_q;
   rv_op_amomin_q; rv_op_amomax_q; rv_op_amominu_q; rv_op_amomaxu_q; rv_op_ecall; rv_op_ebreak;
   rv_op_uret; rv_op_sret; rv_op_hret; rv_op_mret; rv_op_dret; rv_op_sfence_vm;
   rv_op_sfence_vma; rv_op_wfi; rv_op_csrrw; rv_op_csrrs; rv_op_csrrc; rv_op_csrrwi;
   rv_op_csrrsi; rv_op_csrrci; rv_op_flw; rv_op_fsw; rv_op_fmadd_s; rv_op_fmsub_s;
   rv_op_fnmsub_s; rv_op_fnmadd_s; rv_op_fadd_s; rv_op_fsub_s; rv_op_fmul_s; rv_op_fdiv_s;
   rv_op_fsgnj_s; rv_op_fsgnjn_s; rv_op_fsgnjx_s; rv_op_fmin_s; rv_op_fmax_s; rv_op_fsqrt_s;
   rv_op_fle_s; rv_op_flt_s; rv_op_feq_s; rv_op_fcvt_w_s; rv_op_fcvt_wu_s; rv_op_fcvt_s_w;
   rv_op_fcvt_s_wu; rv_op_fmv_x_s; rv_op_fclass_s; rv_op_fmv_s_x; rv_op_fcvt_l_s;
   rv_op_fcvt_lu_s; rv_op_fcvt_s_l; rv_op_fcvt_s_lu; rv_op_fld; rv_op_fsd; rv_op_fmadd_d;
   rv_op_fmsub_d; rv_op_fnmsub_d; rv_op_fnmadd_d; rv_op_fadd_d; rv_op_fsub_d; rv_op_fmul_d;
   rv_op_fdiv_d; rv_op_fsgnj_d; rv_op_fsgnjn_d; rv_op_fsgnjx_d; rv_op_fmin_d; rv_op_fmax_d;
   rv_op_fcvt_s_d; rv_op_fcvt_d_s; rv_op_fsqrt_d; rv_op_fle_d; rv_op_flt_d; rv_op_feq_d;
   rv_op_fcvt_w_d; rv_op_fcvt_wu_d; rv_op_fcvt_d_w; rv_op_fcvt_d_wu; rv_op_fclass_d;
   rv_op_fcvt_l_d; rv_op_fcvt_lu_d; rv_op_fmv_x_d; rv_op_fcvt_d_l; rv_op_fcvt_d_lu;
   rv_op_fmv_d_x; rv_op_flq; rv_op_fsq; rv_op_fmadd_q; rv_op_fmsub_q; rv_op_fnmsub_q;
   rv_op_fnmadd_q; rv_op_fadd_q; rv_op_fsub_q; rv_op_fmul_q; rv_op_fdiv_q; rv_op_fsgnj_q;
   rv_op_fsgnjn_q; rv_op_fsgnjx_q; rv_op_fmin_q; rv_op_fmax_q; rv_op_fcvt_s_q; rv_op_fcvt_q_s;
   rv_op_fcvt_d_q; rv_op_fcvt_q_d; rv_op_fsqrt_q; rv_op_fle_q; rv_op_flt_q; rv_op_feq_q;
   rv_op_fcvt_w_q; rv_op_fcvt_wu_q; rv_op_fcvt_q_w; rv_op_fcvt_q_wu; rv_op_fclass_q;
   rv_op_fcvt_l_q; rv_op_fcvt_lu_q; rv_op_fcvt_q_l; rv_op_fcvt_q_lu; rv_op_fmv_x_q;
   rv_op_fmv_q_x; rv_op_c_addi4spn; rv_op_c_fld; rv_op_c_lw; rv_op_c_flw; rv_op_c_fsd;
   rv_op_c_sw; rv_op_c_fsw; rv_op_c_nop; rv_op_c_addi; rv_op_c_jal; rv_op_c_li;
   rv_op_c_addi16sp; rv_op_c_lui; rv_op_c_srli; rv_op_c_srai; rv_op_c_andi; rv_op_c_sub;
   rv_op_c_xor; rv_op_c_or; rv_op_c_and; rv_op_c_subw; rv_op_c_addw; rv_op_c_j; rv_op_c_beqz;
   rv_op_c_bnez; rv_op_c_slli; rv_op_c_fldsp; rv_op_c_lwsp; rv_op_c_flwsp; rv_op_c_jr;
   rv_op_c_mv; rv_op_c_ebreak; rv_op_c_jalr; rv_op_c_add; rv_op_c_fsdsp; rv_op_c_swsp;
   rv_op_c_fswsp; rv_op_c_ld; rv_op_c_sd; rv_op_c_addiw; rv_op_c_ldsp; rv_op_c_sdsp; rv_op_c_lq;
   rv_op_c_sq; rv_op_c_lqsp; rv_op_c_sqsp; rv_op_nop; rv_op_mv; rv_op_not; rv_op_neg;
   rv_op_negw; rv_op_sext_w; rv_op_seqz; rv_op_snez; rv_op_sltz; rv_op_sgtz; rv_op_fmv_s;
   rv_op_fabs_s; rv_op_fneg_s; rv_op_fmv_d; rv_op_fabs_d; rv_op_fneg_d; rv_op_fmv_q;
   rv_op_fabs_q; rv_op_fneg_q; rv_op_beqz; rv_op_bnez; rv_op_blez; rv_op_bgez; rv_op_bltz;
   rv_op_bgtz; rv_op_ble; rv_op_bleu; rv_op_bgt; rv_op_bgtu; rv_op_j; rv_op_ret; rv_op_jr;
   rv_op_rdcycle; rv_op_rdtime; rv_op_rdinstret; rv_op_rdcycleh; rv_op_rdtimeh;
   rv_op_rdinstreth; rv_op_frcsr; rv_op_frrm; rv_op_frflags; rv_op_fscsr; rv_op_fsrm;
   rv_op_fsflags; rv_op_fsrmi; rv_op_fsflagsi].

(** The value of an enumerator. *)
Definition rv_op_val (op : rv_op) : Z :=
  match op with
  | rv_op_illegal => 0 | rv_op_lui => 1 | rv_op_auipc => 2 | rv_op_jal => 3 | rv_op_jalr => 4
  | rv_op_beq => 5 | rv_op_bne => 6 | rv_op_blt => 7 | rv_op_bge => 8 | rv_op_bltu => 9
  | rv_op_bgeu => 10 | rv_op_lb => 11 | rv_op_lh => 12 | rv_op_lw => 13 | rv_op_lbu => 14
  | rv_op_lhu => 15 | rv_op_sb => 16 | rv_op_sh => 17 | rv_op_sw => 18 | rv_op_addi => 19
  | rv_op_slti => 20 | rv_op_sltiu => 21 | rv_op_xori => 22 | rv_op_ori => 23 | rv_op_andi => 24
  | rv_op_slli => 25 | rv_op_srli => 26 | rv_op_srai => 27 | rv_op_add => 28 | rv_op_sub => 29
  | rv_op_sll => 30 | rv_op_slt => 31 | rv_op_sltu => 32 | rv_op_xor => 33 | rv_op_srl => 34
  | rv_op_sra => 35 | rv_op_or => 36 | rv_op_and => 37 | rv_op_fence => 38 | rv_op_fence_i => 39
  | rv_op_lwu => 40 | rv_op_ld => 41 | rv_op_sd => 42 | rv_op_addiw => 43 | rv_op_slliw => 44
  | rv_op_srliw => 45 | rv_op_sraiw => 46 | rv_op_addw => 47 | rv_op_subw => 48
  | rv_op_sllw => 49 | rv_op_srlw => 50 | rv_op_sraw => 51 | rv_op_ldu => 52 | rv_op_lq => 53
  | rv_op_sq => 54 | rv_op_addid => 55 | rv_op_sllid => 56 | rv_op_srlid => 57
  | rv_op_sraid => 58 | rv_op_addd => 59 | rv_op_subd => 60 | rv_op_slld => 61
  | rv_op_srld => 62 | rv_op_srad => 63 | rv_op_mul => 64 | rv_op_mulh => 65
  | rv_op_mulhsu => 66 | rv_op_mulhu => 67 | rv_op_div => 68 | rv_op_divu => 69
  | rv_op_rem => 70 | rv_op_remu => 71 | rv_op_mulw => 72 | rv_op_divw => 73 | rv_op_divuw => 74
  | rv_op_remw => 75 | rv_op_remuw => 76 | rv_op_muld => 77 | rv_op_divd => 78
  | rv_op_divud => 79 | rv_op_remd => 80 | rv_op_remud => 81 | rv_op_lr_w => 82
  | rv_op_sc_w => 83 | rv_op_amoswap_w => 84 | rv_op_amoadd_w => 85 | rv_op_amoxor_w => 86
  | rv_op_amoor_w => 87 | rv_op_amoand_w => 88 | rv_op_amomin_w => 89 | rv_op_amomax_w => 90
  | rv_op_amominu_w => 91 | rv_op_amomaxu_w => 92 | rv_op_lr_d => 93 | rv_op_sc_d => 94
  | rv_op_amoswap_d => 95 | rv_op_amoadd_d => 96 | rv_op_amoxor_d => 97 | rv_op_amoor_d => 98
  | rv_op_amoand_d => 99 | rv_op_amomin_d => 100 | rv_op_amomax_d => 101
  | rv_op_amominu_d => 102 | rv_op_amomaxu_d => 103 | rv_op_lr_q => 104 | rv_op_sc_q => 105
  | rv_op_amoswap_q => 106 | rv_op_amoadd_q => 107 | rv_op_amoxor_q => 108
  | rv_op_amoor_q => 109 | rv_op_amoand_q => 110 | rv_op_amomin_q => 111 | rv_op_amomax_q => 112
  | rv_op_amominu_q => 113 | rv_op_amomaxu_q => 114 | rv_op_ecall => 115 | rv_op_ebreak => 116
  | rv_op_uret => 117 | rv_op_sret => 118 | rv_op_hret => 119 | rv_op_mret => 120
  | rv_op_dret => 121 | rv_op_sfence_vm => 122 | rv_op_sfence_vma => 123 | rv_op_wfi => 124
  | rv_op_csrrw => 125 | rv_op_csrrs => 126 | rv_op_csrrc => 127 | rv_op_csrrwi => 128
  | rv_op_csrrsi => 129 | rv_op_csrrci => 130 | rv_op_flw => 131 | rv_op_fsw => 132
  | rv_op_fmadd_s => 133 | rv_op_fmsub_s => 134 | rv_op_fnmsub_s => 135 | rv_op_fnmadd_s => 136
  | rv_op_fadd_s => 137 | rv_op_fsub_s => 138 | rv_op_fmul_s => 139 | rv_op_fdiv_s => 140
  | rv_op_fsgnj_s => 141 | rv_op_fsgnjn_s => 142 | rv_op_fsgnjx_s => 143 | rv_op_fmin_s => 144
  | rv_op_fmax_s => 145 | rv_op_fsqrt_s => 146 | rv_op_fle_s => 147 | rv_op_flt_s => 148
  | rv_op_feq_s => 149 | rv_op_fcvt_w_s => 150 | rv_op_fcvt_wu_s => 151 | rv_op_fcvt_s_w => 152
  | rv_op_fcvt_s_wu => 153 | rv_op_fmv_x_s => 154 | rv_op_fclass_s => 155 | rv_op_fmv_s_x => 156
  | rv_op_fcvt_l_s => 157 | rv_op_fcvt_lu_s => 158 | rv_op_fcvt_s_l => 159
  | rv_op_fcvt_s_lu => 160 | rv_op_fld => 161 | rv_op_fsd => 162 | rv_op_fmadd_d => 163
  | rv_op_fmsub_d => 164 | rv_op_fnmsub_d => 165 | rv_op_fnmadd_d => 166 | rv_op_fadd_d => 167
  | rv_op_fsub_d => 168 | rv_op_fmul_d => 169 | rv_op_fdiv_d => 170 | rv_op_fsgnj_d => 171
  | rv_op_fsgnjn_d => 172 | rv_op_fsgnjx_d => 173 | rv_op_fmin_d => 174 | rv_op_fmax_d => 175
  | rv_op_fcvt_s_d => 176 | rv_op_fcvt_d_s => 177 | rv_op_fsqrt_d => 178 | rv_op_fle_d => 179
  | rv_op_flt_d => 180 | rv_op_feq_d => 181 | rv_op_fcvt_w_d => 182 | rv_op_fcvt_wu_d => 183
  | rv_op_fcvt_d_w => 184 | rv_op_fcvt_d_wu => 185 | rv_op_fclass_d => 186
  | rv_op_fcvt_l_d => 187 | rv_op_fcvt_lu_d => 188 | rv_op_fmv_x_d => 189
  | rv_op_fcvt_d_l => 190 | rv_op_fcvt_d_lu => 191 | rv_op_fmv_d_x => 192 | rv_op_flq => 193
  | rv_op_fsq => 194 | rv_op_fmadd_q => 195 | rv_op_fmsub_q => 196 | rv_op_fnmsub_q => 197
  | rv_op_fnmadd_q => 198 | rv_op_fadd_q => 199 | rv_op_fsub_q => 200 | rv_op_fmul_q => 201
  | rv_op_fdiv_q => 202 | rv_op_fsgnj_q => 203 | rv_op_fsgnjn_q => 204 | rv_op_fsgnjx_q => 205
  | rv_op_fmin_q => 206 | rv_op_fmax_q => 207 | rv_op_fcvt_s_q => 208 | rv_op_fcvt_q_s => 209
  | rv_op_fcvt_d_q => 210 | rv_op_fcvt_q_d => 211 | rv_op_fsqrt_q => 212 | rv_op_fle_q => 213
  | rv_op_flt_q => 214 | rv_op_feq_q => 215 | rv_op_fcvt_w_q => 216 | rv_op_fcvt_wu_q => 217
  | rv_op_fcvt_q_w => 218 | rv_op_fcvt_q_wu => 219 | rv_op_fclass_q => 220
  | rv_op_fcvt_l_q => 221 | rv_op_fcvt_lu_q => 222 | rv_op_fcvt_q_l => 223
  | rv_op_fcvt_q_lu => 224 | rv_op_fmv_x_q => 225 | rv_op_fmv_q_x => 226
  | rv_op_c_addi4spn => 227 | rv_op_c_fld => 228 | rv_op_c_lw => 229 | rv_op_c_flw => 230
  | rv_op_c_fsd => 231 | rv_op_c_sw => 232 | rv_op_c_fsw => 233 | rv_op_c_nop => 234
  | rv_op_c_addi => 235 | rv_op_c_jal => 236 | rv_op_c_li => 237 | rv_op_c_addi16sp => 238
  | rv_op_c_lui => 239 | rv_op_c_srli => 240 | rv_op_c_srai => 241 | rv_op_c_andi => 242
  | rv_op_c_sub => 243 | rv_op_c_xor => 244 | rv_op_c_or => 245 | rv_op_c_and => 246
  | rv_op_c_subw => 247 | rv_op_c_addw => 248 | rv_op_c_j => 249 | rv_op_c_beqz => 250
  | rv_op_c_bnez => 251 | rv_op_c_slli => 252 | rv_op_c_fldsp => 253 | rv_op_c_lwsp => 254
  | rv_op_c_flwsp => 255 | rv_op_c_jr => 256 | rv_op_c_mv => 257 | rv_op_c_ebreak => 258
  | rv_op_c_jalr => 259 | rv_op_c_add => 260 | rv_op_c_fsdsp => 261 | rv_op_c_swsp => 262
  | rv_op_c_fswsp => 263 | rv_op_c_ld => 264 | rv_op_c_sd => 265 | rv_op_c_addiw => 266
  | rv_op_c_ldsp => 267 | rv_op_c_sdsp => 268 | rv_op_c_lq => 269 | rv_op_c_sq => 270
  | rv_op_c_lqsp => 271 | rv_op_c_sqsp => 272 | rv_op_nop => 273 | rv_op_mv => 274
  | rv_op_not => 275 | rv_op_neg => 276 | rv_op_negw => 277 | rv_op_sext_w => 278
  | rv_op_seqz => 279 | rv_op_snez => 280 | rv_op_sltz => 281 | rv_op_sgtz => 282
  | rv_op_fmv_s => 283 | rv_op_fabs_s => 284 | rv_op_fneg_s => 285 | rv_op_fmv_d => 286
  | rv_op_fabs_d => 287 | rv_op_fneg_d => 288 | rv_op_fmv_q => 289 | rv_op_fabs_q => 290
  | rv_op_fneg_q => 291 | rv_op_beqz => 292 | rv_op_bnez => 293 | rv_op_blez => 294
  | rv_op_bgez => 295 | rv_op_bltz => 296 | rv_op_bgtz => 297 | rv_op_ble => 298
  | rv_op_bleu => 299 | rv_op_bgt => 300 | rv_op_bgtu => 301 | rv_op_j => 302 | rv_op_ret => 303
  | rv_op_jr => 304 | rv_op_rdcycle => 305 | rv_op_rdtime => 306 | rv_op_rdinstret => 307
  | rv_op_rdcycleh => 308 | rv_op_rdtimeh => 309 | rv_op_rdinstreth => 310 | rv_op_frcsr => 311
  | rv_op_frrm => 312 | rv_op_frflags => 313 | rv_op_fscsr => 314 | rv_op_fsrm => 315
  | rv_op_fsflags => 316 | rv_op_fsrmi => 317 | rv_op_fsflagsi => 318
  end.

(** ** Register names *)

Definition rv_ireg_name_sym : list string :=
  ["zero"; "ra"; "sp"; "gp"; "tp"; "t0"; "t1"; "t2"; "s0"; "s1"; "a0"; "a1"; "a2"; "a3"; "a4";
   "a5"; "a6"; "a7"; "s2"; "s3"; "s4"; "s5"; "s6"; "s7"; "s8"; "s9"; "s10"; "s11"; "t3"; "t4";
   "t5"; "t6"].

Definition rv_freg_name_sym : list string :=
  ["ft0"; "ft1"; "ft2"; "ft3"; "ft4"; "ft5"; "ft6"; "ft7"; "fs0"; "fs1"; "fa0"; "fa1"; "fa2";
   "fa3"; "fa4"; "fa5"; "fa6"; "fa7"; "fs2"; "fs3"; "fs4"; "fs5"; "fs6"; "fs7"; "fs8"; "fs9";
   "fs10"; "fs11"; "ft8"; "ft9"; "ft10"; "ft11"].

(** ** Operand formats *)

Definition tab : string := String "009"%char EmptyString.

Definition rv_fmt_none : string := "O" +:+ tab.
Definition rv_fmt_rs1 : string := "O" +:+ tab +:+ "1".
Definition rv_fmt_offset : string := "O" +:+ tab +:+ "o".
Definition rv_fmt_pred_succ : string := "O" +:+ tab +:+ "p,s".
Definition rv_fmt_rs1_rs2 : string := "O" +:+ tab +:+ "1,2".
Definition rv_fmt_rd_imm : string := "O" +:+ tab +:+ "0,i".
Definition rv_fmt_rd_offset : string := "O" +:+ tab +:+ "0,o".
Definition rv_fmt_rd_rs1_rs2 : string := "O" +:+ tab +:+ "0,1,2".
Definition rv_fmt_frd_rs1 : string := "O" +:+ tab +:+ "3,1".
Definition rv_fmt_rd_frs1 : string := "O" +:+ tab +:+ "0,4".
Definition rv_fmt_rd_frs1_frs2 : string := "O" +:+ tab +:+ "0,4,5".
Definition rv_fmt_frd_frs1_frs2 : string := "O" +:+ tab +:+ "3,4,5".
Definition rv_fmt_rm_frd_frs1 : string := "O" +:+ tab +:+ "r,3,4".
Definition rv_fmt_rm_frd_rs1 : string := "O" +:+ tab +:+ "r,3,1".
Definition rv_fmt_rm_rd_frs1 : string := "O" +:+ tab +:+ "r,0,4".
Definition rv_fmt_rm_frd_frs1_frs2 : string := "O" +:+ tab +:+ "r,3,4,5".
Definition rv_fmt_rm_frd_frs1_frs2_frs3 : string := "O" +:+ tab +:+ "r,3,4,5,6".
Definition rv_fmt_rd_rs1_imm : string := "O" +:+ tab +:+ "0,1,i".
Definition rv_fmt_rd_rs1_offset : string := "O" +:+ tab +:+ "0,1,i".
Definition rv_fmt_rd_offset_rs1 : string := "O" +:+ tab +:+ "0,i(1)".
Definition rv_fmt_frd_offset_rs1 : string := "O" +:+ tab +:+ "3,i(1)".
Definition rv_fmt_rd_csr_rs1 : string := "O" +:+ tab +:+ "0,c,1".
Definition rv_fmt_rd_csr_zimm : string := "O" +:+ tab +:+ "0,c,7".
Definition rv_fmt_rs2_offset_rs1 : string := "O" +:+ tab +:+ "2,i(1)".
Definition rv_fmt_frs2_offset_rs1 : string := "O" +:+ tab +:+ "5,i(1)".
Definition rv_fmt_rs1_rs2_offset : string := "O" +:+ tab +:+ "1,2,o".
Definition rv_fmt_rs2_rs1_offset : string := "O" +:+ tab +:+ "2,1,o".
Definition rv_fmt_aqrl_rd_rs2_rs1 : string := "OAR" +:+ tab +:+ "0,2,(1)".
Definition rv_fmt_aqrl_rd_rs1 : string := "OAR" +:+ tab +:+ "0,(1)".
Definition rv_fmt_rd : string := "O" +:+ tab +:+ "0".
Definition rv_fmt_rd_zimm : string := "O" +:+ tab +:+ "0,7".
Definition rv_fmt_rd_rs1 : string := "O" +:+ tab +:+ "0,1".
Definition rv_fmt_rd_rs2 : string := "O" +:+ tab +:+ "0,2".
Definition rv_fmt_rs1_offset : string := "O" +:+ tab +:+ "1,o".
Definition rv_fmt_rs2_offset : string := "O" +:+ tab +:+ "2,o".

(** ** Pseudo-instructions *)

Definition rvcc_last : list rvc_constraint := [rvc_end].
Definition rvcc_imm_eq_zero : list rvc_constraint := [rvc_imm_eq_zero; rvc_end].
Definition rvcc_imm_eq_n1 : list rvc_constraint := [rvc_imm_eq_n1; rvc_end].
Definition rvcc_imm_eq_p1 : list rvc_constraint := [rvc_imm_eq_p1; rvc_end].
Definition rvcc_rs1_eq_x0 : list rvc_constraint := [rvc_rs1_eq_x0; rvc_end].
Definition rvcc_rs2_eq_x0 : list rvc_constraint := [rvc_rs2_eq_x0; rvc_end].
Definition rvcc_rs2_eq_rs1 : list rvc_constraint := [rvc_rs2_eq_rs1; rvc_end].
Definition rvcc_jal_j : list rvc_constraint := [rvc_rd_eq_x0; rvc_end].
Definition rvcc_jal_jal : list rvc_constraint := [rvc_rd_eq_ra; rvc_end].
Definition rvcc_jalr_jr : list rvc_constraint := [rvc_rd_eq_x0; rvc_imm_eq_zero; rvc_end].
Definition rvcc_jalr_jalr : list rvc_constraint := [rvc_rd_eq_ra; rvc_imm_eq_zero; rvc_end].
Definition rvcc_jalr_ret : list rvc_constraint := [rvc_rd_eq_x0; rvc_rs1_eq_ra; rvc_end].
Definition rvcc_addi_nop : list rvc_constraint := [rvc_rd_eq_x0; rvc_rs1_eq_x0; rvc_imm_eq_zero; rvc_end].
Definition rvcc_rdcycle : list rvc_constraint := [rvc_rs1_eq_x0; rvc_csr_eq_0xc00; rvc_end].
Definition rvcc_rdtime : list rvc_constraint := [rvc_rs1_eq_x0; rvc_csr_eq_0xc01; rvc_end].
Definition rvcc_rdinstret : list rvc_constraint := [rvc_rs1_eq_x0; rvc_csr_eq_0xc02; rvc_end].
Definition rvcc_rdcycleh : list rvc_constraint := [rvc_rs1_eq_x0; rvc_csr_eq_0xc80; rvc_end].
Definition rvcc_rdtimeh : list rvc_constraint := [rvc_rs1_eq_x0; rvc_csr_eq_0xc81; rvc_end].
Definition rvcc_rdinstreth : list rvc_constraint := [rvc_rs1_eq_x0; rvc_csr_eq_0xc82; rvc_end].
Definition rvcc_frcsr : list rvc_constraint := [rvc_rs1_eq_x0; rvc_csr_eq_0x003; rvc_end].
Definition rvcc_frrm : list rvc_constraint := [rvc_rs1_eq_x0; rvc_csr_eq_0x002; rvc_end].
Definition rvcc_frflags : list rvc_constraint := [rvc_rs1_eq_x0; rvc_csr_eq_0x001; rvc_end].
Definition rvcc_fscsr : list rvc_constraint := [rvc_csr_eq_0x003; rvc_end].
Definition rvcc_fsrm : list rvc_constraint := [rvc_csr_eq_0x002; rvc_end].
Definition rvcc_fsflags : list rvc_constraint := [rvc_csr_eq_0x001; rvc_end].
Definition rvcc_fsrmi : list rvc_constraint := [rvc_csr_eq_0x002; rvc_end].
Definition rvcc_fsflagsi : list rvc_constraint := [rvc_csr_eq_0x001; rvc_end].

(** An operation and its constraints; the last entry has none ([NULL]). *)
Definition rv_comp_data : Set := rv_op * option (list rvc_constraint).

Definition rvcp_jal : list rv_comp_data :=
  [(rv_op_j, Some rvcc_jal_j);
   (rv_op_jal, Some rvcc_jal_jal);
   (rv_op_illegal, None)].
Definition rvcp_jalr : list rv_comp_data :=
  [(rv_op_ret, Some rvcc_jalr_ret);
   (rv_op_jr, Some rvcc_jalr_jr);
   (rv_op_jalr, Some rvcc_jalr_jalr);
   (rv_op_illegal, None)].
Definition rvcp_beq : list rv_comp_data :=
  [(rv_op_beqz, Some rvcc_rs2_eq_x0);
   (rv_op_illegal, None)].
Definition rvcp_bne : list rv_comp_data :=
  [(rv_op_bnez, Some rvcc_rs2_eq_x0);
   (rv_op_illegal, None)].
Definition rvcp_blt : list rv_comp_data :=
  [(rv_op_bltz, Some rvcc_rs2_eq_x0);
   (rv_op_bgtz, Some rvcc_rs1_eq_x0);
   (rv_op_bgt, Some rvcc_last);
   (rv_op_illegal, None)].
Definition rvcp_bge : list rv_comp_data :=
  [(rv_op_blez, Some rvcc_rs1_eq_x0);
   (rv_op_bgez, Some rvcc_rs2_eq_x0);
   (rv_op_ble, Some rvcc_last);
   (rv_op_illegal, None)].
Definition rvcp_bltu : list rv_comp_data := [(rv_op_bgtu, Some rvcc_last); (rv_op_illegal, None)].
Definition rvcp_bgeu : list rv_comp_data := [(rv_op_bleu, Some rvcc_last); (rv_op_illegal, None)].
Definition rvcp_addi : list rv_comp_data :=
  [(rv_op_nop, Some rvcc_addi_nop);
   (rv_op_mv, Some rvcc_imm_eq_zero);
   (rv_op_illegal, None)].
Definition rvcp_sltiu : list rv_comp_data :=
  [(rv_op_seqz, Some rvcc_imm_eq_p1);
   (rv_op_illegal, None)].
Definition rvcp_xori : list rv_comp_data :=
  [(rv_op_not, Some rvcc_imm_eq_n1);
   (rv_op_illegal, None)].
Definition rvcp_sub : list rv_comp_data :=
  [(rv_op_neg, Some rvcc_rs1_eq_x0);
   (rv_op_illegal, None)].
Definition rvcp_slt : list rv_comp_data :=
  [(rv_op_sltz, Some rvcc_rs2_eq_x0);
   (rv_op_sgtz, Some rvcc_rs1_eq_x0);
   (rv_op_illegal, None)].
Definition rvcp_sltu : list rv_comp_data :=
  [(rv_op_snez, Some rvcc_rs1_eq_x0);
   (rv_op_illegal, None)].
Definition rvcp_addiw : list rv_comp_data :=
  [(rv_op_sext_w, Some rvcc_imm_eq_zero);
   (rv_op_illegal, None)].
Definition rvcp_subw : list rv_comp_data :=
  [(rv_op_negw, Some rvcc_rs1_eq_x0);
   (rv_op_illegal, None)].
Definition rvcp_csrrw : list rv_comp_data :=
  [(rv_op_fscsr, Some rvcc_fscsr);
   (rv_op_fsrm, Some rvcc_fsrm);
   (rv_op_fsflags, Some rvcc_fsflags);
   (rv_op_illegal, None)].
Definition rvcp_csrrs : list rv_comp_data :=
  [(rv_op_rdcycle, Some rvcc_rdcycle);
   (rv_op_rdtime, Some rvcc_rdtime);
   (rv_op_rdinstret, Some rvcc_rdinstret);
   (rv_op_rdcycleh, Some rvcc_rdcycleh);
   (rv_op_rdtimeh, Some rvcc_rdtimeh);
   (rv_op_rdinstreth, Some rvcc_rdinstreth);
   (rv_op_frcsr, Some rvcc_frcsr);
   (rv_op_frrm, Some rvcc_frrm);
   (rv_op_frflags, Some rvcc_frflags);
   (rv_op_illegal, None)].
Definition rvcp_csrrwi : list rv_comp_data :=
  [(rv_op_fsrmi, Some rvcc_fsrmi);
   (rv_op_fsflagsi, Some rvcc_fsflagsi);
   (rv_op_illegal, None)].
Definition rvcp_fsgnj_s : list rv_comp_data :=
  [(rv_op_fmv_s, Some rvcc_rs2_eq_rs1);
   (rv_op_illegal, None)].
Definition rvcp_fsgnjn_s : list rv_comp_data :=
  [(rv_op_fneg_s, Some rvcc_rs2_eq_rs1);
   (rv_op_illegal, None)].
Definition rvcp_fsgnjx_s : list rv_comp_data :=
  [(rv_op_fabs_s, Some rvcc_rs2_eq_rs1);
   (rv_op_illegal, None)].
Definition rvcp_fsgnj_d : list rv_comp_data :=
  [(rv_op_fmv_d, Some rvcc_rs2_eq_rs1);
   (rv_op_illegal, None)].
Definition rvcp_fsgnjn_d : list rv_comp_data :=
  [(rv_op_fneg_d, Some rvcc_rs2_eq_rs1);
   (rv_op_illegal, None)].
Definition rvcp_fsgnjx_d : list rv_comp_data :=
  [(rv_op_fabs_d, Some rvcc_rs2_eq_rs1);
   (rv_op_illegal, None)].
Definition rvcp_fsgnj_q : list rv_comp_data :=
  [(rv_op_fmv_q, Some rvcc_rs2_eq_rs1);
   (rv_op_illegal, None)].
Definition rvcp_fsgnjn_q : list rv_comp_data :=
  [(rv_op_fneg_q, Some rvcc_rs2_eq_rs1);
   (rv_op_illegal, None)].
Definition rvcp_fsgnjx_q : list rv_comp_data :=
  [(rv_op_fabs_q, Some rvcc_rs2_eq_rs1);
   (rv_op_illegal, None)].

(** ** Instruction metadata *)

(** In the [decomp] fields of the source zero stands for [rv_op_illegal]. *)
Definition rvcd_imm_nz : Z := 1.
Definition rvcd_imm_nz_hint : Z := 2.

Record rv_opcode_data : Set := mk_opcode {
  od_name : string;
  od_codec : rv_codec;
  od_format : string;
  od_pseudo : option (list rv_comp_data);
  decomp_rv32 : rv_op;
  decomp_rv64 : rv_op;
  decomp_rv128 : rv_op;
  decomp_data : Z
}.

(** An entry that decompresses to nothing. *)
Definition plain_op (name : string) (codec : rv_codec) (format : string)
    (pseudo : option (list rv_comp_data)) : rv_opcode_data :=
  mk_opcode name codec format pseudo rv_op_illegal rv_op_illegal rv_op_illegal 0.

Definition opcodes_base : list rv_opcode_data :=
  [plain_op "illegal" rv_codec_illegal rv_fmt_none None;
   plain_op "lui" rv_codec_u rv_fmt_rd_imm None;
   plain_op "auipc" rv_codec_u rv_fmt_rd_offset None;
   plain_op "jal" rv_codec_uj rv_fmt_rd_offset (Some rvcp_jal);
   plain_op "jalr" rv_codec_i rv_fmt_rd_rs1_offset (Some rvcp_jalr);
   plain_op "beq" rv_codec_sb rv_fmt_rs1_rs2_offset (Some rvcp_beq);
   plain_op "bne" rv_codec_sb rv_fmt_rs1_rs2_offset (Some rvcp_bne);
   plain_op "blt" rv_codec_sb rv_fmt_rs1_rs2_offset (Some rvcp_blt);
   plain_op "bge" rv_codec_sb rv_fmt_rs1_rs2_offset (Some rvcp_bge);
   plain_op "bltu" rv_codec_sb rv_fmt_rs1_rs2_offset (Some rvcp_bltu);
   plain_op "bgeu" rv_codec_sb rv_fmt_rs1_rs2_offset (Some rvcp_bgeu);
   plain_op "lb" rv_codec_i rv_fmt_rd_offset_rs1 None;
   plain_op "lh" rv_codec_i rv_fmt_rd_offset_rs1 None;
   plain_op "lw" rv_codec_i rv_fmt_rd_offset_rs1 None;
   plain_op "lbu" rv_codec_i rv_fmt_rd_offset_rs1 None;
   plain_op "lhu" rv_codec_i rv_fmt_rd_offset_rs1 None;
   plain_op "sb" rv_codec_s rv_fmt_rs2_offset_rs1 None;
   plain_op "sh" rv_codec_s rv_fmt_rs2_offset_rs1 None;
   plain_op "sw" rv_codec_s rv_fmt_rs2_offset_rs1 None;
   plain_op "addi" rv_codec_i rv_fmt_rd_rs1_imm (Some rvcp_addi);
   plain_op "slti" rv_codec_i rv_fmt_rd_rs1_imm None;
   plain_op "sltiu" rv_codec_i rv_fmt_rd_rs1_imm (Some rvcp_sltiu);
   plain_op "xori" rv_codec_i rv_fmt_rd_rs1_imm (Some rvcp_xori);
   plain_op "ori" rv_codec_i rv_fmt_rd_rs1_imm None;
   plain_op "andi" rv_codec_i rv_fmt_rd_rs1_imm None;
   plain_op "slli" rv_codec_i_sh7 rv_fmt_rd_rs1_imm None;
   plain_op "srli" rv_codec_i_sh7 rv_fmt_rd_rs1_imm None;
   plain_op "srai" rv_codec_i_sh7 rv_fmt_rd_rs1_imm None;
   plain_op "add" rv_codec_r rv_fmt_rd_rs1_rs2 None;
   plain_op "sub" rv_codec_r rv_fmt_rd_rs1_rs2 (Some rvcp_sub);
   plain_op "sll" rv_codec_r rv_fmt_rd_rs1_rs2 None;
   plain_op "slt" rv_codec_r rv_fmt_rd_rs1_rs2 (Some rvcp_slt);
   plain_op "sltu" rv_codec_r rv_fmt_rd_rs1_rs2 (Some rvcp_sltu);
   plain_op "xor" rv_codec_r rv_fmt_rd_rs1_rs2 None;
   plain_op "srl" rv_codec_r rv_fmt_rd_rs1_rs2 None;
   plain_op "sra" rv_codec_r rv_fmt_rd_rs1_rs2 None;
   plain_op "or" rv_codec_r rv_fmt_rd_rs1_rs2 None;
   plain_op "and" rv_codec_r rv_fmt_rd_rs1_rs2 None;
   plain_op "fence" rv_codec_r_f rv_fmt_pred_succ None;
   plain_op "fence.i" rv_codec_none rv_fmt_none None;
   plain_op "lwu" rv_codec_i rv_fmt_rd_offset_rs1 None;
   plain_op "ld" rv_codec_i rv_fmt_rd_offset_rs1 None;
   plain_op "sd" rv_codec_s rv_fmt_rs2_offset_rs1 None;
   plain_op "addiw" rv_codec_i rv_fmt_rd_rs1_imm (Some rvcp_addiw);
   plain_op "slliw" rv_codec_i_sh5 rv_fmt_rd_rs1_imm None;
   plain_op "srliw" rv_codec_i_sh5 rv_fmt_rd_rs1_imm None;
   plain_op "sraiw" rv_codec_i_sh5 rv_fmt_rd_rs1_imm None;
   plain_op "addw" rv_codec_r rv_fmt_rd_rs1_rs2 None;
   plain_op "subw" rv_codec_r rv_fmt_rd_rs1_rs2 (Some rvcp_subw);
   plain_op "sllw" rv_codec_r rv_fmt_rd_rs1_rs2 None;
   plain_op "srlw" rv_codec_r rv_fmt_rd_rs1_rs2 None;
   plain_op "sraw" rv_codec_r rv_fmt_rd_rs1_rs2 None;
   plain_op "ldu" rv_codec_i rv_fmt_rd_offset_rs1 None;
   plain_op "lq" rv_codec_i rv_fmt_rd_offset_rs1 None;
   plain_op "sq" rv_codec_s rv_fmt_rs2_offset_rs1 None;
   plain_op "addid" rv_codec_i rv_fmt_rd_rs1_imm None;
   plain_op "sllid" rv_codec_i_sh6 rv_fmt_rd_rs1_imm None;
   plain_op "srlid" rv_codec_i_sh6 rv_fmt_rd_rs1_imm None;
   plain_op "sraid" rv_codec_i_sh6 rv_fmt_rd_rs1_imm None;
   plain_op "addd" rv_codec_r rv_fmt_rd_rs1_rs2 None;
   plain_op "subd" rv_codec_r rv_fmt_rd_rs1_rs2 None;
   plain_op "slld" rv_codec_r rv_fmt_rd_rs1_rs2 None;
   plain_op "srld" rv_codec_r rv_fmt_rd_rs1_rs2 None;
   plain_op "srad" rv_codec_r rv_fmt_rd_rs1_rs2 None;
   plain_op "mul" rv_codec_r rv_fmt_rd_rs1_rs2 None;
   plain_op "mulh" rv_codec_r rv_fmt_rd_rs1_rs2 None;
   plain_op "mulhsu" rv_codec_r rv_fmt_rd_rs1_rs2 None;
   plain_op "mulhu" rv_codec_r rv_fmt_rd_rs1_rs2 None;
   plain_op "div" rv_codec_r rv_fmt_rd_rs1_rs2 None;
   plain_op "divu" rv_codec_r rv_fmt_rd_rs1_rs2 None;
   plain_op "rem" rv_codec_r rv_fmt_rd_rs1_rs2 None;
   plain_op "remu" rv_codec_r rv_fmt_rd_rs1_rs2 None;
   plain_op "mulw" rv_codec_r rv_fmt_rd_rs1_rs2 None;
   plain_op "divw" rv_codec_r rv_fmt_rd_rs1_rs2 None;
   plain_op "divuw" rv_codec_r rv_fmt_rd_rs1_rs2 None;
   plain_op "remw" rv_codec_r rv_fmt_rd_rs1_rs2 None;
   plain_op "remuw" rv_codec_r rv_fmt_rd_rs1_rs2 None;
   plain_op "muld" rv_codec_r rv_fmt_rd_rs1_rs2 None;
   plain_op "divd" rv_codec_r rv_fmt_rd_rs1_rs2 None;
   plain_op "divud" rv_codec_r rv_fmt_rd_rs1_rs2 None;
   plain_op "remd" rv_codec_r rv_fmt_rd_rs1_rs2 None;
   plain_op "remud" rv_codec_r rv_fmt_rd_rs1_rs2 None].

Definition opcodes_atomic_system : list rv_opcode_data :=
  [plain_op "lr.w" rv_codec_r_l rv_fmt_aqrl_rd_rs1 None;
   plain_op "sc.w" rv_codec_r_a rv_fmt_aqrl_rd_rs2_rs1 None;
   plain_op "amoswap.w" rv_codec_r_a rv_fmt_aqrl_rd_rs2_rs1 None;
   plain_op "amoadd.w" rv_codec_r_a rv_fmt_aqrl_rd_rs2_rs1 None;
   plain_op "amoxor.w" rv_codec_r_a rv_fmt_aqrl_rd_rs2_rs1 None;
   plain_op "amoor.w" rv_codec_r_a rv_fmt_aqrl_rd_rs2_rs1 None;
   plain_op "amoand.w" rv_codec_r_a rv_fmt_aqrl_rd_rs2_rs1 None;
   plain_op "amomin.w" rv_codec_r_a rv_fmt_aqrl_rd_rs2_rs1 None;
   plain_op "amomax.w" rv_codec_r_a rv_fmt_aqrl_rd_rs2_rs1 None;
   plain_op "amominu.w" rv_codec_r_a rv_fmt_aqrl_rd_rs2_rs1 None;
   plain_op "amomaxu.w" rv_codec_r_a rv_fmt_aqrl_rd_rs2_rs1 None;
   plain_op "lr.d" rv_codec_r_l rv_fmt_aqrl_rd_rs1 None;
   plain_op "sc.d" rv_codec_r_a rv_fmt_aqrl_rd_rs2_rs1 None;
   plain_op "amoswap.d" rv_codec_r_a rv_fmt_aqrl_rd_rs2_rs1 None;
   plain_op "amoadd.d" rv_codec_r_a rv_fmt_aqrl_rd_rs2_rs1 None;
   plain_op "amoxor.d" rv_codec_r_a rv_fmt_aqrl_rd_rs2_rs1 None;
   plain_op "amoor.d" rv_codec_r_a rv_fmt_aqrl_rd_rs2_rs1 None;
   plain_op "amoand.d" rv_codec_r_a rv_fmt_aqrl_rd_rs2_rs1 None;
   plain_op "amomin.d" rv_codec_r_a rv_fmt_aqrl_rd_rs2_rs1 None;
   plain_op "amomax.d" rv_codec_r_a rv_fmt_aqrl_rd_rs2_rs1 None;
   plain_op "amominu.d" rv_codec_r_a rv_fmt_aqrl_rd_rs2_rs1 None;
   plain_op "amomaxu.d" rv_codec_r_a rv_fmt_aqrl_rd_rs2_rs1 None;
   plain_op "lr.q" rv_codec_r_l rv_fmt_aqrl_rd_rs1 None;
   plain_op "sc.q" rv_codec_r_a rv_fmt_aqrl_rd_rs2_rs1 None;
   plain_op "amoswap.q" rv_codec_r_a rv_fmt_aqrl_rd_rs2_rs1 None;
   plain_op "amoadd.q" rv_codec_r_a rv_fmt_aqrl_rd_rs2_rs1 None;
   plain_op "amoxor.q" rv_codec_r_a rv_fmt_aqrl_rd_rs2_rs1 None;
   plain_op "amoor.q" rv_codec_r_a rv_fmt_aqrl_rd_rs2_rs1 None;
   plain_op "amoand.q" rv_codec_r_a rv_fmt_aqrl_rd_rs2_rs1 None;
   plain_op "amomin.q" rv_codec_r_a rv_fmt_aqrl_rd_rs2_rs1 None;
   plain_op "amomax.q" rv_codec_r_a rv_fmt_aqrl_rd_rs2_rs1 None;
   plain_op "amominu.q" rv_codec_r_a rv_fmt_aqrl_rd_rs2_rs1 None;
   plain_op "amomaxu.q" rv_codec_r_a rv_fmt_aqrl_rd_rs2_rs1 None;
   plain_op "ecall" rv_codec_none rv_fmt_none None;
   plain_op "ebreak" rv_codec_none rv_fmt_none None;
   plain_op "uret" rv_codec_none rv_fmt_none None;
   plain_op "sret" rv_codec_none rv_fmt_none None;
   plain_op "hret" rv_codec_none rv_fmt_none None;
   plain_op "mret" rv_codec_none rv_fmt_none None;
   plain_op "dret" rv_codec_none rv_fmt_none None;
   plain_op "sfence.vm" rv_codec_r rv_fmt_rs1 None;
   plain_op "sfence.vma" rv_codec_r rv_fmt_rs1_rs2 None;
   plain_op "wfi" rv_codec_none rv_fmt_none None;
   plain_op "csrrw" rv_codec_i_csr rv_fmt_rd_csr_rs1 (Some rvcp_csrrw);
   plain_op "csrrs" rv_codec_i_csr rv_fmt_rd_csr_rs1 (Some rvcp_csrrs);
   plain_op "csrrc" rv_codec_i_csr rv_fmt_rd_csr_rs1 None;
   plain_op "csrrwi" rv_codec_i_csr rv_fmt_rd_csr_zimm (Some rvcp_csrrwi);
   plain_op "csrrsi" rv_codec_i_csr rv_fmt_rd_csr_zimm None;
   plain_op "csrrci" rv_codec_i_csr rv_fmt_rd_csr_zimm None].

Definition opcodes_float : list rv_opcode_data :=
  [plain_op "flw" rv_codec_i rv_fmt_frd_offset_rs1 None;
   plain_op "fsw" rv_codec_s rv_fmt_frs2_offset_rs1 None;
   plain_op "fmadd.s" rv_codec_r4_m rv_fmt_rm_frd_frs1_frs2_frs3 None;
   plain_op "fmsub.s" rv_codec_r4_m rv_fmt_rm_frd_frs1_frs2_frs3 None;
   plain_op "fnmsub.s" rv_codec_r4_m rv_fmt_rm_frd_frs1_frs2_frs3 None;
   plain_op "fnmadd.s" rv_codec_r4_m rv_fmt_rm_frd_frs1_frs2_frs3 None;
   plain_op "fadd.s" rv_codec_r_m rv_fmt_rm_frd_frs1_frs2 None;
   plain_op "fsub.s" rv_codec_r_m rv_fmt_rm_frd_frs1_frs2 None;
   plain_op "fmul.s" rv_codec_r_m rv_fmt_rm_frd_frs1_frs2 None;
   plain_op "fdiv.s" rv_codec_r_m rv_fmt_rm_frd_frs1_frs2 None;
   plain_op "fsgnj.s" rv_codec_r rv_fmt_frd_frs1_frs2 (Some rvcp_fsgnj_s);
   plain_op "fsgnjn.s" rv_codec_r rv_fmt_frd_frs1_frs2 (Some rvcp_fsgnjn_s);
   plain_op "fsgnjx.s" rv_codec_r rv_fmt_frd_frs1_frs2 (Some rvcp_fsgnjx_s);
   plain_op "fmin.s" rv_codec_r rv_fmt_frd_frs1_frs2 None;
   plain_op "fmax.s" rv_codec_r rv_fmt_frd_frs1_frs2 None;
   plain_op "fsqrt.s" rv_codec_r_m rv_fmt_rm_frd_frs1 None;
   plain_op "fle.s" rv_codec_r rv_fmt_rd_frs1_frs2 None;
   plain_op "flt.s" rv_codec_r rv_fmt_rd_frs1_frs2 None;
   plain_op "feq.s" rv_codec_r rv_fmt_rd_frs1_frs2 None;
   plain_op "fcvt.w.s" rv_codec_r_m rv_fmt_rm_rd_frs1 None;
   plain_op "fcvt.wu.s" rv_codec_r_m rv_fmt_rm_rd_frs1 None;
   plain_op "fcvt.s.w" rv_codec_r_m rv_fmt_rm_frd_rs1 None;
   plain_op "fcvt.s.wu" rv_codec_r_m rv_fmt_rm_frd_rs1 None;
   plain_op "fmv.x.s" rv_codec_r rv_fmt_rd_frs1 None;
   plain_op "fclass.s" rv_codec_r rv_fmt_rd_frs1 None;
   plain_op "fmv.s.x" rv_codec_r rv_fmt_frd_rs1 None;
   plain_op "fcvt.l.s" rv_codec_r_m rv_fmt_rm_rd_frs1 None;
   plain_op "fcvt.lu.s" rv_codec_r_m rv_fmt_rm_rd_frs1 None;
   plain_op "fcvt.s.l" rv_codec_r_m rv_fmt_rm_frd_rs1 None;
   plain_op "fcvt.s.lu" rv_codec_r_m rv_fmt_rm_frd_rs1 None;
   plain_op "fld" rv_codec_i rv_fmt_frd_offset_rs1 None;
   plain_op "fsd" rv_codec_s rv_fmt_frs2_offset_rs1 None;
   plain_op "fmadd.d" rv_codec_r4_m rv_fmt_rm_frd_frs1_frs2_frs3 None;
   plain_op "fmsub.d" rv_codec_r4_m rv_fmt_rm_frd_frs1_frs2_frs3 None;
   plain_op "fnmsub.d" rv_codec_r4_m rv_fmt_rm_frd_frs1_frs2_frs3 None;
   plain_op "fnmadd.d" rv_codec_r4_m rv_fmt_rm_frd_frs1_frs2_frs3 None;
   plain_op "fadd.d" rv_codec_r_m rv_fmt_rm_frd_frs1_frs2 None;
   plain_op "fsub.d" rv_codec_r_m rv_fmt_rm_frd_frs1_frs2 None;
   plain_op "fmul.d" rv_codec_r_m rv_fmt_rm_frd_frs1_frs2 None;
   plain_op "fdiv.d" rv_codec_r_m rv_fmt_rm_frd_frs1_frs2 None;
   plain_op "fsgnj.d" rv_codec_r rv_fmt_frd_frs1_frs2 (Some rvcp_fsgnj_d);
   plain_op "fsgnjn.d" rv_codec_r rv_fmt_frd_frs1_frs2 (Some rvcp_fsgnjn_d);
   plain_op "fsgnjx.d" rv_codec_r rv_fmt_frd_frs1_frs2 (Some rvcp_fsgnjx_d);
   plain_op "fmin.d" rv_codec_r rv_fmt_frd_frs1_frs2 None;
   plain_op "fmax.d" rv_codec_r rv_fmt_frd_frs1_frs2 None;
   plain_op "fcvt.s.d" rv_codec_r_m rv_fmt_rm_frd_frs1 None;
   plain_op "fcvt.d.s" rv_codec_r_m rv_fmt_rm_frd_frs1 None;
   plain_op "fsqrt.d" rv_codec_r_m rv_fmt_rm_frd_frs1 None;
   plain_op "fle.d" rv_codec_r rv_fmt_rd_frs1_frs2 None;
   plain_op "flt.d" rv_codec_r rv_fmt_rd_frs1_frs2 None;
   plain_op "feq.d" rv_codec_r rv_fmt_rd_frs1_frs2 None;
   plain_op "fcvt.w.d" rv_codec_r_m rv_fmt_rm_rd_frs1 None;
   plain_op "fcvt.wu.d" rv_codec_r_m rv_fmt_rm_rd_frs1 None;
   plain_op "fcvt.d.w" rv_codec_r_m rv_fmt_rm_frd_rs1 None;
   plain_op "fcvt.d.wu" rv_codec_r_m rv_fmt_rm_frd_rs1 None;
   plain_op "fclass.d" rv_codec_r rv_fmt_rd_frs1 None;
   plain_op "fcvt.l.d" rv_codec_r_m rv_fmt_rm_rd_frs1 None;
   plain_op "fcvt.lu.d" rv_codec_r_m rv_fmt_rm_rd_frs1 None;
   plain_op "fmv.x.d" rv_codec_r rv_fmt_rd_frs1 None;
   plain_op "fcvt.d.l" rv_codec_r_m rv_fmt_rm_frd_rs1 None;
   plain_op "fcvt.d.lu" rv_codec_r_m rv_fmt_rm_frd_rs1 None;
   plain_op "fmv.d.x" rv_codec_r rv_fmt_frd_rs1 None;
   plain_op "flq" rv_codec_i rv_fmt_frd_offset_rs1 None;
   plain_op "fsq" rv_codec_s rv_fmt_frs2_offset_rs1 None;
   plain_op "fmadd.q" rv_codec_r4_m rv_fmt_rm_frd_frs1_frs2_frs3 None;
   plain_op "fmsub.q" rv_codec_r4_m rv_fmt_rm_frd_frs1_frs2_frs3 None;
   plain_op "fnmsub.q" rv_codec_r4_m rv_fmt_rm_frd_frs1_frs2_frs3 None;
   plain_op "fnmadd.q" rv_codec_r4_m rv_fmt_rm_frd_frs1_frs2_frs3 None;
   plain_op "fadd.q" rv_codec_r_m rv_fmt_rm_frd_frs1_frs2 None;
   plain_op "fsub.q" rv_codec_r_m rv_fmt_rm_frd_frs1_frs2 None;
   plain_op "fmul.q" rv_codec_r_m rv_fmt_rm_frd_frs1_frs2 None;
   plain_op "fdiv.q" rv_codec_r_m rv_fmt_rm_frd_frs1_frs2 None;
   plain_op "fsgnj.q" rv_codec_r rv_fmt_frd_frs1_frs2 (Some rvcp_fsgnj_q);
   plain_op "fsgnjn.q" rv_codec_r rv_fmt_frd_frs1_frs2 (Some rvcp_fsgnjn_q);
   plain_op "fsgnjx.q" rv_codec_r rv_fmt_frd_frs1_frs2 (Some rvcp_fsgnjx_q);
   plain_op "fmin.q" rv_codec_r rv_fmt_frd_frs1_frs2 None;
   plain_op "fmax.q" rv_codec_r rv_fmt_frd_frs1_frs2 None;
   plain_op "fcvt.s.q" rv_codec_r_m rv_fmt_rm_frd_frs1 None;
   plain_op "fcvt.q.s" rv_codec_r_m rv_fmt_rm_frd_frs1 None;
   plain_op "fcvt.d.q" rv_codec_r_m rv_fmt_rm_frd_frs1 None;
   plain_op "fcvt.q.d" rv_codec_r_m rv_fmt_rm_frd_frs1 None;
   plain_op "fsqrt.q" rv_codec_r_m rv_fmt_rm_frd_frs1 None;
   plain_op "fle.q" rv_codec_r rv_fmt_rd_frs1_frs2 None;
   plain_op "flt.q" rv_codec_r rv_fmt_rd_frs1_frs2 None;
   plain_op "feq.q" rv_codec_r rv_fmt_rd_frs1_frs2 None;
   plain_op "fcvt.w.q" rv_codec_r_m rv_fmt_rm_rd_frs1 None;
   plain_op "fcvt.wu.q" rv_codec_r_m rv_fmt_rm_rd_frs1 None;
   plain_op "fcvt.q.w" rv_codec_r_m rv_fmt_rm_frd_rs1 None;
   plain_op "fcvt.q.wu" rv_codec_r_m rv_fmt_rm_frd_rs1 None;
   plain_op "fclass.q" rv_codec_r rv_fmt_rd_frs1 None;
   plain_op "fcvt.l.q" rv_codec_r_m rv_fmt_rm_rd_frs1 None;
   plain_op "fcvt.lu.q" rv_codec_r_m rv_fmt_rm_rd_frs1 None;
   plain_op "fcvt.q.l" rv_codec_r_m rv_fmt_rm_frd_rs1 None;
   plain_op "fcvt.q.lu" rv_codec_r_m rv_fmt_rm_frd_rs1 None;
   plain_op "fmv.x.q" rv_codec_r rv_fmt_rd_frs1 None;
   plain_op "fmv.q.x" rv_codec_r rv_fmt_frd_rs1 None].

Definition opcodes_compressed : list rv_opcode_data :=
  [mk_opcode "c.addi4spn" rv_codec_ciw_4spn rv_fmt_rd_rs1_imm None
     rv_op_addi rv_op_addi rv_op_addi rvcd_imm_nz;
   mk_opcode "c.fld" rv_codec_cl_ld rv_fmt_frd_offset_rs1 None
     rv_op_fld rv_op_fld rv_op_illegal 0;
   mk_opcode "c.lw" rv_codec_cl_lw rv_fmt_rd_offset_rs1 None
     rv_op_lw rv_op_lw rv_op_lw 0;
   mk_opcode "c.flw" rv_codec_cl_lw rv_fmt_frd_offset_rs1 None
     rv_op_flw rv_op_illegal rv_op_illegal 0;
   mk_opcode "c.fsd" rv_codec_cs_sd rv_fmt_frs2_offset_rs1 None
     rv_op_fsd rv_op_fsd rv_op_illegal 0;
   mk_opcode "c.sw" rv_codec_cs_sw rv_fmt_rs2_offset_rs1 None
     rv_op_sw rv_op_sw rv_op_sw 0;
   mk_opcode "c.fsw" rv_codec_cs_sw rv_fmt_frs2_offset_rs1 None
     rv_op_fsw rv_op_illegal rv_op_illegal 0;
   mk_opcode "c.nop" rv_codec_ci_none rv_fmt_none None
     rv_op_addi rv_op_addi rv_op_addi 0;
   mk_opcode "c.addi" rv_codec_ci rv_fmt_rd_rs1_imm None
     rv_op_addi rv_op_addi rv_op_addi rvcd_imm_nz_hint;
   mk_opcode "c.jal" rv_codec_cj_jal rv_fmt_rd_offset None
     rv_op_jal rv_op_illegal rv_op_illegal 0;
   mk_opcode "c.li" rv_codec_ci_li rv_fmt_rd_rs1_imm None
     rv_op_addi rv_op_addi rv_op_addi 0;
   mk_opcode "c.addi16sp" rv_codec_ci_16sp rv_fmt_rd_rs1_imm None
     rv_op_addi rv_op_addi rv_op_addi rvcd_imm_nz;
   mk_opcode "c.lui" rv_codec_ci_lui rv_fmt_rd_imm None
     rv_op_lui rv_op_lui rv_op_lui rvcd_imm_nz;
   mk_opcode "c.srli" rv_codec_cb_sh6 rv_fmt_rd_rs1_imm None
     rv_op_srli rv_op_srli rv_op_srli rvcd_imm_nz;
   mk_opcode "c.srai" rv_codec_cb_sh6 rv_fmt_rd_rs1_imm None
     rv_op_srai rv_op_srai rv_op_srai rvcd_imm_nz;
   mk_opcode "c.andi" rv_codec_cb_imm rv_fmt_rd_rs1_imm None
     rv_op_andi rv_op_andi rv_op_andi rvcd_imm_nz;
   mk_opcode "c.sub" rv_codec_cs rv_fmt_rd_rs1_rs2 None
     rv_op_sub rv_op_sub rv_op_sub 0;
   mk_opcode "c.xor" rv_codec_cs rv_fmt_rd_rs1_rs2 None
     rv_op_xor rv_op_xor rv_op_xor 0;
   mk_opcode "c.or" rv_codec_cs rv_fmt_rd_rs1_rs2 None
     rv_op_or rv_op_or rv_op_or 0;
   mk_opcode "c.and" rv_codec_cs rv_fmt_rd_rs1_rs2 None
     rv_op_and rv_op_and rv_op_and 0;
   mk_opcode "c.subw" rv_codec_cs rv_fmt_rd_rs1_rs2 None
     rv_op_subw rv_op_subw rv_op_subw 0;
   mk_opcode "c.addw" rv_codec_cs rv_fmt_rd_rs1_rs2 None
     rv_op_addw rv_op_addw rv_op_addw 0;
   mk_opcode "c.j" rv_codec_cj rv_fmt_rd_offset None
     rv_op_jal rv_op_jal rv_op_jal 0;
   mk_opcode "c.beqz" rv_codec_cb rv_fmt_rs1_rs2_offset None
     rv_op_beq rv_op_beq rv_op_beq 0;
   mk_opcode "c.bnez" rv_codec_cb rv_fmt_rs1_rs2_offset None
     rv_op_bne rv_op_bne rv_op_bne 0;
   mk_opcode "c.slli" rv_codec_ci_sh6 rv_fmt_rd_rs1_imm None
     rv_op_slli rv_op_slli rv_op_slli rvcd_imm_nz;
   mk_opcode "c.fldsp" rv_codec_ci_ldsp rv_fmt_frd_offset_rs1 None
     rv_op_fld rv_op_fld rv_op_fld 0;
   mk_opcode "c.lwsp" rv_codec_ci_lwsp rv_fmt_rd_offset_rs1 None
     rv_op_lw rv_op_lw rv_op_lw 0;
   mk_opcode "c.flwsp" rv_codec_ci_lwsp rv_fmt_frd_offset_rs1 None
     rv_op_flw rv_op_illegal rv_op_illegal 0;
   mk_opcode "c.jr" rv_codec_cr_jr rv_fmt_rd_rs1_offset None
     rv_op_jalr rv_op_jalr rv_op_jalr 0;
   mk_opcode "c.mv" rv_codec_cr_mv rv_fmt_rd_rs1_rs2 None
     rv_op_addi rv_op_addi rv_op_addi 0;
   mk_opcode "c.ebreak" rv_codec_ci_none rv_fmt_none None
     rv_op_ebreak rv_op_ebreak rv_op_ebreak 0;
   mk_opcode "c.jalr" rv_codec_cr_jalr rv_fmt_rd_rs1_offset None
     rv_op_jalr rv_op_jalr rv_op_jalr 0;
   mk_opcode "c.add" rv_codec_cr rv_fmt_rd_rs1_rs2 None
     rv_op_add rv_op_add rv_op_add 0;
   mk_opcode "c.fsdsp" rv_codec_css_sdsp rv_fmt_frs2_offset_rs1 None
     rv_op_fsd rv_op_fsd rv_op_fsd 0;
   mk_opcode "c.swsp" rv_codec_css_swsp rv_fmt_rs2_offset_rs1 None
     rv_op_sw rv_op_sw rv_op_sw 0;
   mk_opcode "c.fswsp" rv_codec_css_swsp rv_fmt_frs2_offset_rs1 None
     rv_op_fsw rv_op_illegal rv_op_illegal 0;
   mk_opcode "c.ld" rv_codec_cl_ld rv_fmt_rd_offset_rs1 None
     rv_op_illegal rv_op_ld rv_op_ld 0;
   mk_opcode "c.sd" rv_codec_cs_sd rv_fmt_rs2_offset_rs1 None
     rv_op_illegal rv_op_sd rv_op_sd 0;
   mk_opcode "c.addiw" rv_codec_ci rv_fmt_rd_rs1_imm None
     rv_op_illegal rv_op_addiw rv_op_addiw 0;
   mk_opcode "c.ldsp" rv_codec_ci_ldsp rv_fmt_rd_offset_rs1 None
     rv_op_illegal rv_op_ld rv_op_ld 0;
   mk_opcode "c.sdsp" rv_codec_css_sdsp rv_fmt_rs2_offset_rs1 None
     rv_op_illegal rv_op_sd rv_op_sd 0;
   mk_opcode "c.lq" rv_codec_cl_lq rv_fmt_rd_offset_rs1 None
     rv_op_illegal rv_op_illegal rv_op_lq 0;
   mk_opcode "c.sq" rv_codec_cs_sq rv_fmt_rs2_offset_rs1 None
     rv_op_illegal rv_op_illegal rv_op_sq 0;
   mk_opcode "c.lqsp" rv_codec_ci_lqsp rv_fmt_rd_offset_rs1 None
     rv_op_illegal rv_op_illegal rv_op_lq 0;
   mk_opcode "c.sqsp" rv_codec_css_sqsp rv_fmt_rs2_offset_rs1 None
     rv_op_illegal rv_op_illegal rv_op_sq 0].

Definition opcodes_pseudo : list rv_opcode_data :=
  [plain_op "nop" rv_codec_i rv_fmt_none None;
   plain_op "mv" rv_codec_i rv_fmt_rd_rs1 None;
   plain_op "not" rv_codec_i rv_fmt_rd_rs1 None;
   plain_op "neg" rv_codec_r rv_fmt_rd_rs2 None;
   plain_op "negw" rv_codec_r rv_fmt_rd_rs2 None;
   plain_op "sext.w" rv_codec_i rv_fmt_rd_rs1 None;
   plain_op "seqz" rv_codec_i rv_fmt_rd_rs1 None;
   plain_op "snez" rv_codec_r rv_fmt_rd_rs2 None;
   plain_op "sltz" rv_codec_r rv_fmt_rd_rs1 None;
   plain_op "sgtz" rv_codec_r rv_fmt_rd_rs2 None;
   plain_op "fmv.s" rv_codec_r rv_fmt_rd_rs1 None;
   plain_op "fabs.s" rv_codec_r rv_fmt_rd_rs1 None;
   plain_op "fneg.s" rv_codec_r rv_fmt_rd_rs1 None;
   plain_op "fmv.d" rv_codec_r rv_fmt_rd_rs1 None;
   plain_op "fabs.d" rv_codec_r rv_fmt_rd_rs1 None;
   plain_op "fneg.d" rv_codec_r rv_fmt_rd_rs1 None;
   plain_op "fmv.q" rv_codec_r rv_fmt_rd_rs1 None;
   plain_op "fabs.q" rv_codec_r rv_fmt_rd_rs1 None;
   plain_op "fneg.q" rv_codec_r rv_fmt_rd_rs1 None;
   plain_op "beqz" rv_codec_sb rv_fmt_rs1_offset None;
   plain_op "bnez" rv_codec_sb rv_fmt_rs1_offset None;
   plain_op "blez" rv_codec_sb rv_fmt_rs2_offset None;
   plain_op "bgez" rv_codec_sb rv_fmt_rs1_offset None;
   plain_op "bltz" rv_codec_sb rv_fmt_rs1_offset None;
   plain_op "bgtz" rv_codec_sb rv_fmt_rs2_offset None;
   plain_op "ble" rv_codec_sb rv_fmt_rs2_rs1_offset None;
   plain_op "bleu" rv_codec_sb rv_fmt_rs2_rs1_offset None;
   plain_op "bgt" rv_codec_sb rv_fmt_rs2_rs1_offset None;
   plain_op "bgtu" rv_codec_sb rv_fmt_rs2_rs1_offset None;
   plain_op "j" rv_codec_uj rv_fmt_offset None;
   plain_op "ret" rv_codec_i rv_fmt_none None;
   plain_op "jr" rv_codec_i rv_fmt_rs1 None;
   plain_op "rdcycle" rv_codec_i_csr rv_fmt_rd None;
   plain_op "rdtime" rv_codec_i_csr rv_fmt_rd None;
   plain_op "rdinstret" rv_codec_i_csr rv_fmt_rd None;
   plain_op "rdcycleh" rv_codec_i_csr rv_fmt_rd None;
   plain_op "rdtimeh" rv_codec_i_csr rv_fmt_rd None;
   plain_op "rdinstreth" rv_codec_i_csr rv_fmt_rd None;
   plain_op "frcsr" rv_codec_i_csr rv_fmt_rd None;
   plain_op "frrm" rv_codec_i_csr rv_fmt_rd None;
   plain_op "frflags" rv_codec_i_csr rv_fmt_rd None;
   plain_op "fscsr" rv_codec_i_csr rv_fmt_rd_rs1 None;
   plain_op "fsrm" rv_codec_i_csr rv_fmt_rd_rs1 None;
   plain_op "fsflags" rv_codec_i_csr rv_fmt_rd_rs1 None;
   plain_op "fsrmi" rv_codec_i_csr rv_fmt_rd_zimm None;
   plain_op "fsflagsi" rv_codec_i_csr rv_fmt_rd_zimm None].

Definition opcode_data : list rv_opcode_data :=
  opcodes_base ++ opcodes_atomic_system ++ opcodes_float ++ opcodes_compressed ++ opcodes_pseudo.

(** ** CSR names *)

Definition csr_names_0 : list (Z * string) :=
  [(0x000, "ustatus"); (0x001, "fflags"); (0x002, "frm"); (0x003, "fcsr"); (0x004, "uie");
   (0x005, "utvec"); (0x007, "utvt"); (0x008, "vstart"); (0x009, "vxsat"); (0x00a, "vxrm");
   (0x00f, "vcsr"); (0x040, "uscratch"); (0x041, "uepc"); (0x042, "ucause"); (0x043, "utval");
   (0x044, "uip"); (0x045, "unxti"); (0x046, "uintstatus"); (0x048, "uscratchcsw");
   (0x049, "uscratchcswl"); (0x100, "sstatus"); (0x102, "sedeleg"); (0x103, "sideleg");
   (0x104, "sie"); (0x105, "stvec"); (0x106, "scounteren"); (0x107, "stvt");
   (0x140, "sscratch"); (0x141, "sepc"); (0x142, "scause"); (0x143, "stval"); (0x144, "sip");
   (0x145, "snxti"); (0x146, "sintstatus"); (0x148, "sscratchcsw"); (0x149, "sscratchcswl");
   (0x180, "satp"); (0x200, "vsstatus"); (0x204, "vsie"); (0x205, "vstvec");
   (0x240, "vsscratch"); (0x241, "vsepc"); (0x242, "vscause"); (0x243, "vstval");
   (0x244, "vsip"); (0x280, "vsatp"); (0x300, "mstatus"); (0x301, "misa"); (0x302, "medeleg");
   (0x303, "mideleg"); (0x304, "mie"); (0x305, "mtvec"); (0x306, "mcounteren"); (0x307, "mtvt");
   (0x310, "mstatush"); (0x320, "mcountinhibit"); (0x323, "mhpmevent3"); (0x324, "mhpmevent4");
   (0x325, "mhpmevent5"); (0x326, "mhpmevent6"); (0x327, "mhpmevent7"); (0x328, "mhpmevent8");
   (0x329, "mhpmevent9"); (0x32a, "mhpmevent10"); (0x32b, "mhpmevent11");
   (0x32c, "mhpmevent12"); (0x32d, "mhpmevent13"); (0x32e, "mhpmevent14");
   (0x32f, "mhpmevent15"); (0x330, "mhpmevent16")].

Definition csr_names_1 : list (Z * string) :=
  [(0x331, "mhpmevent17"); (0x332, "mhpmevent18"); (0x333, "mhpmevent19");
   (0x334, "mhpmevent20"); (0x335, "mhpmevent21"); (0x336, "mhpmevent22");
   (0x337, "mhpmevent23"); (0x338, "mhpmevent24"); (0x339, "mhpmevent25");
   (0x33a, "mhpmevent26"); (0x33b, "mhpmevent27"); (0x33c, "mhpmevent28");
   (0x33d, "mhpmevent29"); (0x33e, "mhpmevent30"); (0x33f, "mhpmevent31"); (0x340, "mscratch");
   (0x341, "mepc"); (0x342, "mcause"); (0x343, "mtval"); (0x344, "mip"); (0x345, "mnxti");
   (0x346, "mintstatus"); (0x348, "mscratchcsw"); (0x349, "mscratchcswl"); (0x34a, "mtinst");
   (0x34b, "mtval2"); (0x3a0, "pmpcfg0"); (0x3a1, "pmpcfg1"); (0x3a2, "pmpcfg2");
   (0x3a3, "pmpcfg3"); (0x3b0, "pmpaddr0"); (0x3b1, "pmpaddr1"); (0x3b2, "pmpaddr2");
   (0x3b3, "pmpaddr3"); (0x3b4, "pmpaddr4"); (0x3b5, "pmpaddr5"); (0x3b6, "pmpaddr6");
   (0x3b7, "pmpaddr7"); (0x3b8, "pmpaddr8"); (0x3b9, "pmpaddr9"); (0x3ba, "pmpaddr10");
   (0x3bb, "pmpaddr11"); (0x3bc, "pmpaddr12"); (0x3bd, "pmpaddr13"); (0x3be, "pmpaddr14");
   (0x3bf, "pmpaddr15"); (0x600, "hstatus"); (0x602, "hedeleg"); (0x603, "hideleg");
   (0x604, "hie"); (0x605, "htimedelta"); (0x606, "hcounteren"); (0x607, "hgeie");
   (0x615, "htimedeltah"); (0x643, "htval"); (0x644, "hip"); (0x645, "hvip"); (0x64a, "htinst");
   (0x680, "hgatp"); (0x7a0, "tselect"); (0x7a1, "tdata1"); (0x7a2, "tdata2");
   (0x7a3, "tdata3"); (0x7a4, "tinfo"); (0x7a5, "tcontrol"); (0x7a8, "mcontext");
   (0x7a9, "mnoise"); (0x7aa, "scontext"); (0x7b0, "dcsr"); (0x7b1, "dpc")].

Definition csr_names_2 : list (Z * string) :=
  [(0x7b2, "dscratch0"); (0x7b3, "dscratch1"); (0xb00, "mcycle"); (0xb02, "minstret");
   (0xb03, "mhpmcounter3"); (0xb04, "mhpmcounter4"); (0xb05, "mhpmcounter5");
   (0xb06, "mhpmcounter6"); (0xb07, "mhpmcounter7"); (0xb08, "mhpmcounter8");
   (0xb09, "mhpmcounter9"); (0xb0a, "mhpmcounter10"); (0xb0b, "mhpmcounter11");
   (0xb0c, "mhpmcounter12"); (0xb0d, "mhpmcounter13"); (0xb0e, "mhpmcounter14");
   (0xb0f, "mhpmcounter15"); (0xb10, "mhpmcounter16"); (0xb11, "mhpmcounter17");
   (0xb12, "mhpmcounter18"); (0xb13, "mhpmcounter19"); (0xb14, "mhpmcounter20");
   (0xb15, "mhpmcounter21"); (0xb16, "mhpmcounter22"); (0xb17, "mhpmcounter23");
   (0xb18, "mhpmcounter24"); (0xb19, "mhpmcounter25"); (0xb1a, "mhpmcounter26");
   (0xb1b, "mhpmcounter27"); (0xb1c, "mhpmcounter28"); (0xb1d, "mhpmcounter29");
   (0xb1e, "mhpmcounter30"); (0xb1f, "mhpmcounter31"); (0xb80, "mcycleh"); (0xb82, "minstreth");
   (0xb83, "mhpmcounter3h"); (0xb84, "mhpmcounter4h"); (0xb85, "mhpmcounter5h");
   (0xb86, "mhpmcounter6h"); (0xb87, "mhpmcounter7h"); (0xb88, "mhpmcounter8h");
   (0xb89, "mhpmcounter9h"); (0xb8a, "mhpmcounter10h"); (0xb8b, "mhpmcounter11h");
   (0xb8c, "mhpmcounter12h"); (0xb8d, "mhpmcounter13h"); (0xb8e, "mhpmcounter14h");
   (0xb8f, "mhpmcounter15h"); (0xb90, "mhpmcounter16h"); (0xb91, "mhpmcounter17h");
   (0xb92, "mhpmcounter18h"); (0xb93, "mhpmcounter19h"); (0xb94, "mhpmcounter20h");
   (0xb95, "mhpmcounter21h"); (0xb96, "mhpmcounter22h"); (0xb97, "mhpmcounter23h");
   (0xb98, "mhpmcounter24h"); (0xb99, "mhpmcounter25h"); (0xb9a, "mhpmcounter26h");
   (0xb9b, "mhpmcounter27h"); (0xb9c, "mhpmcounter28h"); (0xb9d, "mhpmcounter29h");
   (0xb9e, "mhpmcounter30h"); (0xb9f, "mhpmcounter31h"); (0xc00, "cycle"); (0xc01, "time");
   (0xc02, "instret"); (0xc03, "hpmcounter3"); (0xc04, "hpmcounter4"); (0xc05, "hpmcounter5")].

Definition csr_names_3 : list (Z * string) :=
  [(0xc06, "hpmcounter6"); (0xc07, "hpmcounter7"); (0xc08, "hpmcounter8");
   (0xc09, "hpmcounter9"); (0xc0a, "hpmcounter10"); (0xc0b, "hpmcounter11");
   (0xc0c, "hpmcounter12"); (0xc0d, "hpmcounter13"); (0xc0e, "hpmcounter14");
   (0xc0f, "hpmcounter15"); (0xc10, "hpmcounter16"); (0xc11, "hpmcounter17");
   (0xc12, "hpmcounter18"); (0xc13, "hpmcounter19"); (0xc14, "hpmcounter20");
   (0xc15, "hpmcounter21"); (0xc16, "hpmcounter22"); (0xc17, "hpmcounter23");
   (0xc18, "hpmcounter24"); (0xc19, "hpmcounter25"); (0xc1a, "hpmcounter26");
   (0xc1b, "hpmcounter27"); (0xc1c, "hpmcounter28"); (0xc1d, "hpmcounter29");
   (0xc1e, "hpmcounter30"); (0xc1f, "hpmcounter31"); (0xc20, "vl"); (0xc21, "vtype");
   (0xc22, "vlenb"); (0xc80, "cycleh"); (0xc81, "timeh"); (0xc82, "instreth");
   (0xc83, "hpmcounter3h"); (0xc84, "hpmcounter4h"); (0xc85, "hpmcounter5h");
   (0xc86, "hpmcounter6h"); (0xc87, "hpmcounter7h"); (0xc88, "hpmcounter8h");
   (0xc89, "hpmcounter9h"); (0xc8a, "hpmcounter10h"); (0xc8b, "hpmcounter11h");
   (0xc8c, "hpmcounter12h"); (0xc8d, "hpmcounter13h"); (0xc8e, "hpmcounter14h");
   (0xc8f, "hpmcounter15h"); (0xc90, "hpmcounter16h"); (0xc91, "hpmcounter17h");
   (0xc92, "hpmcounter18h"); (0xc93, "hpmcounter19h"); (0xc94, "hpmcounter20h");
   (0xc95, "hpmcounter21h"); (0xc96, "hpmcounter22h"); (0xc97, "hpmcounter23h");
   (0xc98, "hpmcounter24h"); (0xc99, "hpmcounter25h"); (0xc9a, "hpmcounter26h");
   (0xc9b, "hpmcounter27h"); (0xc9c, "hpmcounter28h"); (0xc9d, "hpmcounter29h");
   (0xc9e, "hpmcounter30h"); (0xc9f, "hpmcounter31h"); (0xe12, "hgeip"); (0xf11, "mvendorid");
   (0xf12, "marchid"); (0xf13, "mimpid"); (0xf14, "mhartid"); (0xf15, "mentropy")].

Definition csr_name (csrno : Z) : option string :=
  switch csrno ((λ '(k, s), (k, Some s)) <$> csr_names_0 ++ csr_names_1 ++ csr_names_2 ++ csr_names_3) None.

(** ** Lemmas *)

Lemma rv_op_val_lookup op : rv_ops !! Z.to_nat (rv_op_val op) = Some op.
Proof. by destruct op. Qed.
Lemma rv_op_val_inj op op' : rv_op_val op = rv_op_val op' → op = op'.
Proof. intros Heq. pose proof (rv_op_val_lookup op) as H. rewrite Heq, rv_op_val_lookup in H. congruence. Qed.
#[export] Instance rv_op_eq_dec : EqDecision rv_op.
Proof.
  intros op op'. destruct (decide (rv_op_val op = rv_op_val op')) as [Heq|Hne].
  - left. by apply rv_op_val_inj.
  - right. congruence.
Defined.
#[export] Instance rv_isa_eq_dec : EqDecision rv_isa.
Proof. solve_decision. Defined.
#[export] Instance rvc_constraint_eq_dec : EqDecision rvc_constraint.
Proof. solve_decision. Defined.

(** A property checked of every operation in the enumeration holds of each. *)
Lemma forall_rv_op (P : rv_op → Prop) : Forall P rv_ops → ∀ op, P op.
Proof. intros HP op. eapply Forall_lookup_1; [exact HP | apply rv_op_val_lookup]. Qed.
Lemma check_rv_op (P : rv_op → Prop) (f : rv_op → bool) :
  (∀ op, f op = true → P op) → forallb f rv_ops = true → ∀ op, P op.
Proof. intros Hf Hc. apply forall_rv_op. by eapply Forall_check. Qed.
