(* ===== verification/DisasOpcode.v ===== *)
(** * Opcode recognition ([decode_inst_opcode] of [external/riscv-disas/riscv-disas.c])

    The nested switches of the source, one definition per quadrant and major opcode.
    A [select] is a switch without a default: the variable [op] keeps its first value,
    [rv_op_illegal].  The instruction is an unsigned 64-bit number. *)

From S2P Require Export DisasTables Bits.

Abbreviation select x cases := (switch x cases rv_op_illegal).

Definition decode_c0 (isa : rv_isa) (inst : Z) : rv_op :=
  select (Z.land (Z.shiftr inst 13) 7)
    [(0, rv_op_c_addi4spn); (1, if bool_decide (isa = rv128) then rv_op_c_lq else rv_op_c_fld);
     (2, rv_op_c_lw); (3, if bool_decide (isa = rv32) then rv_op_c_flw else rv_op_c_ld);
     (5, if bool_decide (isa = rv128) then rv_op_c_sq else rv_op_c_fsd); (6, rv_op_c_sw);
     (7, if bool_decide (isa = rv32) then rv_op_c_fsw else rv_op_c_sd)].

Definition decode_c1 (isa : rv_isa) (inst : Z) : rv_op :=
  select (Z.land (Z.shiftr inst 13) 7)
    [(0, switch (Z.land (Z.shiftr inst 2) 2047) [(0, rv_op_c_nop)] rv_op_c_addi);
     (1, if bool_decide (isa = rv32) then rv_op_c_jal else rv_op_c_addiw); (2, rv_op_c_li);
     (3, switch (Z.land (Z.shiftr inst 7) 31) [(2, rv_op_c_addi16sp)] rv_op_c_lui);
     (4, select (Z.land (Z.shiftr inst 10) 3)
       [(0, rv_op_c_srli); (1, rv_op_c_srai); (2, rv_op_c_andi);
        (3, select (Z.lor (Z.land (Z.shiftr inst 10) 4) (Z.land (Z.shiftr inst 5) 3))
          [(0, rv_op_c_sub); (1, rv_op_c_xor); (2, rv_op_c_or); (3, rv_op_c_and);
           (4, rv_op_c_subw); (5, rv_op_c_addw)])]);
     (5, rv_op_c_j); (6, rv_op_c_beqz); (7, rv_op_c_bnez)].

Definition decode_c2 (isa : rv_isa) (inst : Z) : rv_op :=
  select (Z.land (Z.shiftr inst 13) 7)
    [(0, rv_op_c_slli); (1, if bool_decide (isa = rv128) then rv_op_c_lqsp else rv_op_c_fldsp);
     (2, rv_op_c_lwsp); (3, if bool_decide (isa = rv32) then rv_op_c_flwsp else rv_op_c_ldsp);
     (4, select (Z.land (Z.shiftr inst 12) 1)
       [(0, switch (Z.land (Z.shiftr inst 2) 31) [(0, rv_op_c_jr)] rv_op_c_mv);
        (1, switch (Z.land (Z.shiftr inst 2) 31)
          [(0, switch (Z.land (Z.shiftr inst 7) 31) [(0, rv_op_c_ebreak)] rv_op_c_jalr)] rv_op_c_add)]);
     (5, if bool_decide (isa = rv128) then rv_op_c_sqsp else rv_op_c_fsdsp); (6, rv_op_c_swsp);
     (7, if bool_decide (isa = rv32) then rv_op_c_fswsp else rv_op_c_sdsp)].

Definition decode_load (inst : Z) : rv_op :=
  select (Z.land (Z.shiftr inst 12) 7)
    [(0, rv_op_lb); (1, rv_op_lh); (2, rv_op_lw); (3, rv_op_ld); (4, rv_op_lbu); (5, rv_op_lhu);
     (6, rv_op_lwu); (7, rv_op_ldu)].

Definition decode_load_fp (inst : Z) : rv_op :=
  select (Z.land (Z.shiftr inst 12) 7) [(2, rv_op_flw); (3, rv_op_fld); (4, rv_op_flq)].

Definition decode_misc_mem (inst : Z) : rv_op :=
  select (Z.land (Z.shiftr inst 12) 7) [(0, rv_op_fence); (1, rv_op_fence_i); (2, rv_op_lq)].

Definition decode_op_imm (inst : Z) : rv_op :=
  select (Z.land (Z.shiftr inst 12) 7)
    [(0, rv_op_addi); (1, select (Z.land (Z.shiftr inst 27) 31) [(0, rv_op_slli)]);
     (2, rv_op_slti); (3, rv_op_sltiu); (4, rv_op_xori);
     (5, select (Z.land (Z.shiftr inst 27) 31) [(0, rv_op_srli); (8, rv_op_srai)]);
     (6, rv_op_ori); (7, rv_op_andi)].

Definition decode_op_imm_32 (inst : Z) : rv_op :=
  select (Z.land (Z.shiftr inst 12) 7)
    [(0, rv_op_addiw); (1, select (Z.land (Z.shiftr inst 25) 127) [(0, rv_op_slliw)]);
     (5, select (Z.land (Z.shiftr inst 25) 127) [(0, rv_op_srliw); (32, rv_op_sraiw)])].

Definition decode_store (inst : Z) : rv_op :=
  select (Z.land (Z.shiftr inst 12) 7)
    [(0, rv_op_sb); (1, rv_op_sh); (2, rv_op_sw); (3, rv_op_sd); (4, rv_op_sq)].

Definition decode_store_fp (inst : Z) : rv_op :=
  select (Z.land (Z.shiftr inst 12) 7) [(2, rv_op_fsw); (3, rv_op_fsd); (4, rv_op_fsq)].

Definition decode_amo (inst : Z) : rv_op :=
  select (Z.lor (Z.land (Z.shiftr inst 24) 248) (Z.land (Z.shiftr inst 12) 7))
    [(2, rv_op_amoadd_w); (3, rv_op_amoadd_d); (4, rv_op_amoadd_q); (10, rv_op_amoswap_w);
     (11, rv_op_amoswap_d); (12, rv_op_amoswap_q);
     (18, select (Z.land (Z.shiftr inst 20) 31) [(0, rv_op_lr_w)]);
     (19, select (Z.land (Z.shiftr inst 20) 31) [(0, rv_op_lr_d)]);
     (20, select (Z.land (Z.shiftr inst 20) 31) [(0, rv_op_lr_q)]); (26, rv_op_sc_w);
     (27, rv_op_sc_d); (28, rv_op_sc_q); (34, rv_op_amoxor_w); (35, rv_op_amoxor_d);
     (36, rv_op_amoxor_q); (66, rv_op_amoor_w); (67, rv_op_amoor_d); (68, rv_op_amoor_q);
     (98, rv_op_amoand_w); (99, rv_op_amoand_d); (100, rv_op_amoand_q); (130, rv_op_amomin_w);
     (131, rv_op_amomin_d); (132, rv_op_amomin_q); (162, rv_op_amomax_w); (163, rv_op_amomax_d);
     (164, rv_op_amomax_q); (194, rv_op_amominu_w); (195, rv_op_amominu_d);
     (196, rv_op_amominu_q); (226, rv_op_amomaxu_w); (227, rv_op_amomaxu_d);
     (228, rv_op_amomaxu_q)].

Definition decode_op (inst : Z) : rv_op :=
  select (Z.lor (Z.land (Z.shiftr inst 22) 1016) (Z.land (Z.shiftr inst 12) 7))
    [(0, rv_op_add); (1, rv_op_sll); (2, rv_op_slt); (3, rv_op_sltu); (4, rv_op_xor);
     (5, rv_op_srl); (6, rv_op_or); (7, rv_op_and); (8, rv_op_mul); (9, rv_op_mulh);
     (10, rv_op_mulhsu); (11, rv_op_mulhu); (12, rv_op_div); (13, rv_op_divu); (14, rv_op_rem);
     (15, rv_op_remu); (256, rv_op_sub); (261, rv_op_sra)].

Definition decode_op_32 (inst : Z) : rv_op :=
  select (Z.lor (Z.land (Z.shiftr inst 22) 1016) (Z.land (Z.shiftr inst 12) 7))
    [(0, rv_op_addw); (1, rv_op_sllw); (5, rv_op_srlw); (8, rv_op_mulw); (12, rv_op_divw);
     (13, rv_op_divuw); (14, rv_op_remw); (15, rv_op_remuw); (256, rv_op_subw); (261, rv_op_sraw)].

Definition decode_fmadd (inst : Z) : rv_op :=
  select (Z.land (Z.shiftr inst 25) 3) [(0, rv_op_fmadd_s); (1, rv_op_fmadd_d); (3, rv_op_fmadd_q)].

Definition decode_fmsub (inst : Z) : rv_op :=
  select (Z.land (Z.shiftr inst 25) 3) [(0, rv_op_fmsub_s); (1, rv_op_fmsub_d); (3, rv_op_fmsub_q)].

Definition decode_fnmsub (inst : Z) : rv_op :=
  select (Z.land (Z.shiftr inst 25) 3)
    [(0, rv_op_fnmsub_s); (1, rv_op_fnmsub_d); (3, rv_op_fnmsub_q)].

Definition decode_fnmadd (inst : Z) : rv_op :=
  select (Z.land (Z.shiftr inst 25) 3)
    [(0, rv_op_fnmadd_s); (1, rv_op_fnmadd_d); (3, rv_op_fnmadd_q)].

Definition op_fp_arith (inst : Z) : list (Z * rv_op) :=
  [(0, rv_op_fadd_s); (1, rv_op_fadd_d); (3, rv_op_fadd_q); (4, rv_op_fsub_s);
   (5, rv_op_fsub_d); (7, rv_op_fsub_q); (8, rv_op_fmul_s); (9, rv_op_fmul_d);
   (11, rv_op_fmul_q); (12, rv_op_fdiv_s); (13, rv_op_fdiv_d); (15, rv_op_fdiv_q);
   (16, select (Z.land (Z.shiftr inst 12) 7)
     [(0, rv_op_fsgnj_s); (1, rv_op_fsgnjn_s); (2, rv_op_fsgnjx_s)]);
   (17, select (Z.land (Z.shiftr inst 12) 7)
     [(0, rv_op_fsgnj_d); (1, rv_op_fsgnjn_d); (2, rv_op_fsgnjx_d)]);
   (19, select (Z.land (Z.shiftr inst 12) 7)
     [(0, rv_op_fsgnj_q); (1, rv_op_fsgnjn_q); (2, rv_op_fsgnjx_q)]);
   (20, select (Z.land (Z.shiftr inst 12) 7) [(0, rv_op_fmin_s); (1, rv_op_fmax_s)]);
   (21, select (Z.land (Z.shiftr inst 12) 7) [(0, rv_op_fmin_d); (1, rv_op_fmax_d)]);
   (23, select (Z.land (Z.shiftr inst 12) 7) [(0, rv_op_fmin_q); (1, rv_op_fmax_q)])].

Definition op_fp_convert (inst : Z) : list (Z * rv_op) :=
  [(32, select (Z.land (Z.shiftr inst 20) 31) [(1, rv_op_fcvt_s_d); (3, rv_op_fcvt_s_q)]);
   (33, select (Z.land (Z.shiftr inst 20) 31) [(0, rv_op_fcvt_d_s); (3, rv_op_fcvt_d_q)]);
   (35, select (Z.land (Z.shiftr inst 20) 31) [(0, rv_op_fcvt_q_s); (1, rv_op_fcvt_q_d)]);
   (44, select (Z.land (Z.shiftr inst 20) 31) [(0, rv_op_fsqrt_s)]);
   (45, select (Z.land (Z.shiftr inst 20) 31) [(0, rv_op_fsqrt_d)]);
   (47, select (Z.land (Z.shiftr inst 20) 31) [(0, rv_op_fsqrt_q)]);
   (80, select (Z.land (Z.shiftr inst 12) 7) [(0, rv_op_fle_s); (1, rv_op_flt_s); (2, rv_op_feq_s)]);
   (81, select (Z.land (Z.shiftr inst 12) 7) [(0, rv_op_fle_d); (1, rv_op_flt_d); (2, rv_op_feq_d)]);
   (83, select (Z.land (Z.shiftr inst 12) 7) [(0, rv_op_fle_q); (1, rv_op_flt_q); (2, rv_op_feq_q)])].

Definition op_fp_integer (inst : Z) : list (Z * rv_op) :=
  [(96, select (Z.land (Z.shiftr inst 20) 31)
     [(0, rv_op_fcvt_w_s); (1, rv_op_fcvt_wu_s); (2, rv_op_fcvt_l_s); (3, rv_op_fcvt_lu_s)]);
   (97, select (Z.land (Z.shiftr inst 20) 31)
     [(0, rv_op_fcvt_w_d); (1, rv_op_fcvt_wu_d); (2, rv_op_fcvt_l_d); (3, rv_op_fcvt_lu_d)]);
   (99, select (Z.land (Z.shiftr inst 20) 31)
     [(0, rv_op_fcvt_w_q); (1, rv_op_fcvt_wu_q); (2, rv_op_fcvt_l_q); (3, rv_op_fcvt_lu_q)]);
   (104, select (Z.land (Z.shiftr inst 20) 31)
     [(0, rv_op_fcvt_s_w); (1, rv_op_fcvt_s_wu); (2, rv_op_fcvt_s_l); (3, rv_op_fcvt_s_lu)]);
   (105, select (Z.land (Z.shiftr inst 20) 31)
     [(0, rv_op_fcvt_d_w); (1, rv_op_fcvt_d_wu); (2, rv_op_fcvt_d_l); (3, rv_op_fcvt_d_lu)]);
   (107, select (Z.land (Z.shiftr inst 20) 31)
     [(0, rv_op_fcvt_q_w); (1, rv_op_fcvt_q_wu); (2, rv_op_fcvt_q_l); (3, rv_op_fcvt_q_lu)])].

Definition op_fp_move (inst : Z) : list (Z * rv_op) :=
  [(112, select (Z.lor (Z.land (Z.shiftr inst 17) 248) (Z.land (Z.shiftr inst 12) 7))
     [(0, rv_op_fmv_x_s); (1, rv_op_fclass_s)]);
   (113, select (Z.lor (Z.land (Z.shiftr inst 17) 248) (Z.land (Z.shiftr inst 12) 7))
     [(0, rv_op_fmv_x_d); (1, rv_op_fclass_d)]);
   (115, select (Z.lor (Z.land (Z.shiftr inst 17) 248) (Z.land (Z.shiftr inst 12) 7))
     [(0, rv_op_fmv_x_q); (1, rv_op_fclass_q)]);
   (120, select (Z.lor (Z.land (Z.shiftr inst 17) 248) (Z.land (Z.shiftr inst 12) 7))
     [(0, rv_op_fmv_s_x)]);
   (121, select (Z.lor (Z.land (Z.shiftr inst 17) 248) (Z.land (Z.shiftr inst 12) 7))
     [(0, rv_op_fmv_d_x)]);
   (123, select (Z.lor (Z.land (Z.shiftr inst 17) 248) (Z.land (Z.shiftr inst 12) 7))
     [(0, rv_op_fmv_q_x)])].

Definition decode_op_fp (inst : Z) : rv_op :=
  select (Z.land (Z.shiftr inst 25) 127)
    (op_fp_arith inst ++ op_fp_convert inst ++ op_fp_integer inst ++ op_fp_move inst).

Definition decode_op_imm_64 (inst : Z) : rv_op :=
  select (Z.land (Z.shiftr inst 12) 7)
    [(0, rv_op_addid); (1, select (Z.land (Z.shiftr inst 26) 63) [(0, rv_op_sllid)]);
     (5, select (Z.land (Z.shiftr inst 26) 63) [(0, rv_op_srlid); (16, rv_op_sraid)])].

Definition decode_branch (inst : Z) : rv_op :=
  select (Z.land (Z.shiftr inst 12) 7)
    [(0, rv_op_beq); (1, rv_op_bne); (4, rv_op_blt); (5, rv_op_bge); (6, rv_op_bltu);
     (7, rv_op_bgeu)].

Definition decode_system (inst : Z) : rv_op :=
  select (Z.land (Z.shiftr inst 12) 7)
    [(0, select (Z.lor (Z.land (Z.shiftr inst 20) 4064) (Z.land (Z.shiftr inst 7) 31))
       [(0, select (Z.land (Z.shiftr inst 15) 1023)
          [(0, rv_op_ecall); (32, rv_op_ebreak); (64, rv_op_uret)]);
        (256, select (Z.land (Z.shiftr inst 20) 31)
          [(2, select (Z.land (Z.shiftr inst 15) 31) [(0, rv_op_sret)]); (4, rv_op_sfence_vm);
           (5, select (Z.land (Z.shiftr inst 15) 31) [(0, rv_op_wfi)])]);
        (288, rv_op_sfence_vma);
        (512, select (Z.land (Z.shiftr inst 15) 1023) [(64, rv_op_hret)]);
        (768, select (Z.land (Z.shiftr inst 15) 1023) [(64, rv_op_mret)]);
        (1952, select (Z.land (Z.shiftr inst 15) 1023) [(576, rv_op_dret)])]);
     (1, rv_op_csrrw); (2, rv_op_csrrs); (3, rv_op_csrrc); (5, rv_op_csrrwi); (6, rv_op_csrrsi);
     (7, rv_op_csrrci)].

Definition decode_op_64 (inst : Z) : rv_op :=
  select (Z.lor (Z.land (Z.shiftr inst 22) 1016) (Z.land (Z.shiftr inst 12) 7))
    [(0, rv_op_addd); (1, rv_op_slld); (5, rv_op_srld); (8, rv_op_muld); (12, rv_op_divd);
     (13, rv_op_divud); (14, rv_op_remd); (15, rv_op_remud); (256, rv_op_subd); (261, rv_op_srad)].

Definition decode_full (inst : Z) : rv_op :=
  select (Z.land (Z.shiftr inst 2) 31)
    [(0, decode_load inst); (1, decode_load_fp inst); (3, decode_misc_mem inst);
     (4, decode_op_imm inst); (5, rv_op_auipc); (6, decode_op_imm_32 inst);
     (8, decode_store inst); (9, decode_store_fp inst); (11, decode_amo inst);
     (12, decode_op inst); (13, rv_op_lui); (14, decode_op_32 inst); (16, decode_fmadd inst);
     (17, decode_fmsub inst); (18, decode_fnmsub inst); (19, decode_fnmadd inst);
     (20, decode_op_fp inst); (22, decode_op_imm_64 inst); (24, decode_branch inst);
     (25, select (Z.land (Z.shiftr inst 12) 7) [(0, rv_op_jalr)]); (27, rv_op_jal);
     (28, decode_system inst); (30, decode_op_64 inst)].

Definition decode_inst_opcode (isa : rv_isa) (inst : Z) : rv_op :=
  select (Z.land (Z.shiftr inst 0) 3)
    [(0, decode_c0 isa inst); (1, decode_c1 isa inst); (2, decode_c2 isa inst);
     (3, decode_full inst)].

(** ** The reference: RV32IM, Zicsr and the privileged instructions

    The encodings of the architecture manual by opcode, funct3, funct7 and, for the
    instructions without operands, the remaining fields. *)

Definition opcode (inst : Z) : Z := slice 0 7 inst.
Definition f_rd (inst : Z) : Z := slice 7 5 inst.
Definition funct3 (inst : Z) : Z := slice 12 3 inst.
Definition f_rs1 (inst : Z) : Z := slice 15 5 inst.
Definition f_rs2 (inst : Z) : Z := slice 20 5 inst.
Definition funct7 (inst : Z) : Z := slice 25 7 inst.
Definition funct12 (inst : Z) : Z := slice 20 12 inst.

(** Fixed fields of an encoding; [None] where the instruction has operands. *)
Inductive encoding : Set :=
  | enc_opcode (o : Z)
  | enc_funct3 (o f3 : Z)
  | enc_funct7 (o f3 f7 : Z)
  | enc_funct7_rd (o f3 f7 r : Z)
  | enc_whole (o f12 : Z).

Definition rv32_encoding (op : rv_op) : option encoding :=
  match op with
  | rv_op_lui => Some (enc_opcode 0x37)
  | rv_op_auipc => Some (enc_opcode 0x17)
  | rv_op_jal => Some (enc_opcode 0x6F)
  | rv_op_jalr => Some (enc_funct3 0x67 0)
  | rv_op_beq => Some (enc_funct3 0x63 0)
  | rv_op_bne => Some (enc_funct3 0x63 1)
  | rv_op_blt => Some (enc_funct3 0x63 4)
  | rv_op_bge => Some (enc_funct3 0x63 5)
  | rv_op_bltu => Some (enc_funct3 0x63 6)
  | rv_op_bgeu => Some (enc_funct3 0x63 7)
  | rv_op_lb => Some (enc_funct3 0x03 0)
  | rv_op_lh => Some (enc_funct3 0x03 1)
  | rv_op_lw => Some (enc_funct3 0x03 2)
  | rv_op_lbu => Some (enc_funct3 0x03 4)
  | rv_op_lhu => Some (enc_funct3 0x03 5)
  | rv_op_sb => Some (enc_funct3 0x23 0)
  | rv_op_sh => Some (enc_funct3 0x23 1)
  | rv_op_sw => Some (enc_funct3 0x23 2)
  | rv_op_addi => Some (enc_funct3 0x13 0)
  | rv_op_slti => Some (enc_funct3 0x13 2)
  | rv_op_sltiu => Some (enc_funct3 0x13 3)
  | rv_op_xori => Some (enc_funct3 0x13 4)
  | rv_op_ori => Some (enc_funct3 0x13 6)
  | rv_op_andi => Some (enc_funct3 0x13 7)
  | rv_op_slli => Some (enc_funct7 0x13 1 0)
  | rv_op_srli => Some (enc_funct7 0x13 5 0)
  | rv_op_srai => Some (enc_funct7 0x13 5 0x20)
  | rv_op_add => Some (enc_funct7 0x33 0 0)
  | rv_op_sub => Some (enc_funct7 0x33 0 0x20)
  | rv_op_sll => Some (enc_funct7 0x33 1 0)
  | rv_op_slt => Some (enc_funct7 0x33 2 0)
  | rv_op_sltu => Some (enc_funct7 0x33 3 0)
  | rv_op_xor => Some (enc_funct7 0x33 4 0)
  | rv_op_srl => Some (enc_funct7 0x33 5 0)
  | rv_op_sra => Some (enc_funct7 0x33 5 0x20)
  | rv_op_or => Some (enc_funct7 0x33 6 0)
  | rv_op_and => Some (enc_funct7 0x33 7 0)
  | rv_op_mul => Some (enc_funct7 0x33 0 1)
  | rv_op_mulh => Some (enc_funct7 0x33 1 1)
  | rv_op_mulhsu => Some (enc_funct7 0x33 2 1)
  | rv_op_mulhu => Some (enc_funct7 0x33 3 1)
  | rv_op_div => Some (enc_funct7 0x33 4 1)
  | rv_op_divu => Some (enc_funct7 0x33 5 1)
  | rv_op_rem => Some (enc_funct7 0x33 6 1)
  | rv_op_remu => Some (enc_funct7 0x33 7 1)
  | rv_op_fence => Some (enc_funct3 0x0F 0)
  | rv_op_fence_i => Some (enc_funct3 0x0F 1)
  | rv_op_csrrw => Some (enc_funct3 0x73 1)
  | rv_op_csrrs => Some (enc_funct3 0x73 2)
  | rv_op_csrrc => Some (enc_funct3 0x73 3)
  | rv_op_csrrwi => Some (enc_funct3 0x73 5)
  | rv_op_csrrsi => Some (enc_funct3 0x73 6)
  | rv_op_csrrci => Some (enc_funct3 0x73 7)
  | rv_op_ecall => Some (enc_whole 0x73 0x000)
  | rv_op_ebreak => Some (enc_whole 0x73 0x001)
  | rv_op_uret => Some (enc_whole 0x73 0x002)
  | rv_op_sret => Some (enc_whole 0x73 0x102)
  | rv_op_mret => Some (enc_whole 0x73 0x302)
  | rv_op_wfi => Some (enc_whole 0x73 0x105)
  | rv_op_sfence_vma => Some (enc_funct7_rd 0x73 0 9 0)
  | _ => None
  end.

Definition encodes (e : encoding) (inst : Z) : Prop :=
  match e with
  | enc_opcode o => opcode inst = o
  | enc_funct3 o f3 => opcode inst = o ∧ funct3 inst = f3
  | enc_funct7 o f3 f7 => opcode inst = o ∧ funct3 inst = f3 ∧ funct7 inst = f7
  | enc_funct7_rd o f3 f7 r => opcode inst = o ∧ funct3 inst = f3 ∧ funct7 inst = f7 ∧ f_rd inst = r
  | enc_whole o f12 =>
      opcode inst = o ∧ funct3 inst = 0 ∧ funct12 inst = f12 ∧ f_rs1 inst = 0 ∧ f_rd inst = 0
  end.

(** What the disassembler takes for an instruction: its shifts by an immediate leave the
    shift amount seven bits, as RV128 needs, and do not look at the two low bits of funct7. *)
Definition shift_immediate (op : rv_op) : bool :=
  match op with rv_op_slli | rv_op_srli | rv_op_srai => true | _ => false end.
Definition accepts (op : rv_op) (e : encoding) (inst : Z) : Prop :=
  match e with
  | enc_funct7 o f3 f7 =>
      opcode inst = o ∧ funct3 inst = f3 ∧
      if shift_immediate op then funct7 inst / 4 = f7 / 4 else funct7 inst = f7
  | _ => encodes e inst
  end.

(** ** Lemmas *)

Section fields.
Context (inst : Z).

Lemma scrutinee_quadrant : Z.land (Z.shiftr inst 0) 3 = slice 0 2 inst.
Proof. by apply land_slice. Qed.
Lemma scrutinee_major : Z.land (Z.shiftr inst 2) 31 = slice 2 5 inst.
Proof. by apply land_slice. Qed.
Lemma scrutinee_funct3 : Z.land (Z.shiftr inst 12) 7 = slice 12 3 inst.
Proof. by apply land_slice. Qed.
Lemma scrutinee_funct5 : Z.land (Z.shiftr inst 27) 31 = slice 27 5 inst.
Proof. by apply land_slice. Qed.
Lemma scrutinee_rs2 : Z.land (Z.shiftr inst 20) 31 = slice 20 5 inst.
Proof. by apply land_slice. Qed.
Lemma scrutinee_rs1 : Z.land (Z.shiftr inst 15) 31 = slice 15 5 inst.
Proof. by apply land_slice. Qed.
Lemma scrutinee_rs : Z.land (Z.shiftr inst 15) 1023 = slice 15 5 inst + 32 * slice 20 5 inst.
Proof. rewrite (land_slice _ _ _ 10) by done. by rewrite (slice_app 15 5 5). Qed.
Lemma scrutinee_funct7_funct3 :
  Z.lor (Z.land (Z.shiftr inst 22) 1016) (Z.land (Z.shiftr inst 12) 7) = 8 * slice 25 7 inst + slice 12 3 inst.
Proof.
  rewrite scrutinee_funct3, (land_slice_shifted _ _ 3 _ 7) by done.
  rewrite <-Z.shiftl_mul_pow2, lor_disjoint_add by (done || by apply slice_range). change (22 + 3) with 25. lia.
Qed.
Lemma scrutinee_funct7_rd :
  Z.lor (Z.land (Z.shiftr inst 20) 4064) (Z.land (Z.shiftr inst 7) 31) = 32 * slice 25 7 inst + slice 7 5 inst.
Proof.
  rewrite (land_slice _ 7 _ 5), (land_slice_shifted _ _ 5 _ 7) by done.
  rewrite <-Z.shiftl_mul_pow2, lor_disjoint_add by (done || by apply slice_range). change (20 + 5) with 25. lia.
Qed.

Lemma opcode_parts : slice 0 2 inst + 4 * slice 2 5 inst = opcode inst.
Proof. symmetry. apply (slice_app 0 2 5); lia. Qed.
Lemma funct12_parts : slice 20 5 inst + 32 * slice 25 7 inst = funct12 inst.
Proof. symmetry. apply (slice_app 20 5 7); lia. Qed.
Lemma funct7_parts : slice 25 2 inst + 4 * slice 27 5 inst = slice 25 7 inst.
Proof. symmetry. apply (slice_app 25 2 5); lia. Qed.
Lemma funct5_parts : slice 25 7 inst / 4 = slice 27 5 inst.
Proof.
  rewrite <-funct7_parts. pose proof (slice_range 25 2 inst ltac:(lia)). change (2 ^ 2) with 4 in *.
  Z.to_euclidean_division_equations; lia.
Qed.
Lemma shift_amount_parts : slice 20 5 inst + 32 * slice 25 2 inst = slice 20 7 inst.
Proof. symmetry. apply (slice_app 20 5 2); lia. Qed.
End fields.

Ltac field_facts inst :=
  pose proof (opcode_parts inst); pose proof (funct12_parts inst);
  pose proof (slice_range 0 2 inst ltac:(lia)); pose proof (slice_range 2 5 inst ltac:(lia));
  pose proof (slice_range 7 5 inst ltac:(lia)); pose proof (slice_range 12 3 inst ltac:(lia));
  pose proof (slice_range 15 5 inst ltac:(lia)); pose proof (slice_range 20 5 inst ltac:(lia));
  pose proof (slice_range 25 7 inst ltac:(lia)); pose proof (slice_range 25 2 inst ltac:(lia));
  pose proof (slice_range 27 5 inst ltac:(lia)); pose proof (funct7_parts inst).

(** What recognition must guarantee of an operation. *)
Definition recognised (inst : Z) (op : rv_op) : Prop :=
  ∀ e, rv32_encoding op = Some e → accepts op e inst.

(** One switch: a goal for each case and for the default. *)
Ltac by_cases :=
  apply switch_ind; [repeat (refine (proj2 (Forall_cons _ _ _) _); split); [.. | apply Forall_nil]; cbn [fst snd] | ].

Lemma recognised_none inst op : rv32_encoding op = None → recognised inst op.
Proof. intros Hn e He. congruence. Qed.

Ltac fields_of_switches :=
  rewrite ?scrutinee_quadrant, ?scrutinee_major, ?scrutinee_funct7_funct3, ?scrutinee_funct7_rd,
    ?scrutinee_rs, ?scrutinee_funct3, ?scrutinee_funct5, ?scrutinee_rs2, ?scrutinee_rs1.

(** Walks the switches; an operation with a reference encoding must have the fields
    the walk has met. *)
Ltac walk :=
  lazymatch goal with
  | |- recognised _ (switch _ _ _) => by_cases; intros; walk
  | |- recognised _ (if ?b then _ else _) => destruct b; walk
  | |- True => exact I
  | |- recognised _ _ =>
      first [ by apply recognised_none
            | intros e [= <-]; unfold accepts, encodes, funct3, funct7, f_rs1, f_rd in *; cbn [shift_immediate];
              change (2 ^ 2) with 4 in *; Z.to_euclidean_division_equations; lia ]
  end.

Section recognition.
Context (isa : rv_isa) (inst : Z).

Lemma compressed_recognised :
  recognised inst (decode_c0 isa inst) ∧ recognised inst (decode_c1 isa inst) ∧
  recognised inst (decode_c2 isa inst).
Proof. split_and!; unfold decode_c0, decode_c1, decode_c2; walk. Qed.

(** The major opcodes none of whose instructions the reference has. *)
Lemma other_recognised :
  recognised inst (decode_load_fp inst) ∧
  recognised inst (decode_op_imm_32 inst) ∧
  recognised inst (decode_store_fp inst) ∧
  recognised inst (decode_amo inst) ∧
  recognised inst (decode_op_32 inst) ∧
  recognised inst (decode_fmadd inst) ∧
  recognised inst (decode_fmsub inst) ∧
  recognised inst (decode_fnmsub inst) ∧
  recognised inst (decode_fnmadd inst) ∧
  recognised inst (decode_op_fp inst) ∧
  recognised inst (decode_op_imm_64 inst) ∧
  recognised inst (decode_op_64 inst).
Proof.
  split_and!;
    unfold decode_load_fp, decode_op_imm_32, decode_store_fp, decode_amo, decode_op_32, decode_fmadd,
      decode_fmsub, decode_fnmsub, decode_fnmadd, decode_op_fp, op_fp_arith, op_fp_convert, op_fp_integer,
      op_fp_move, decode_op_imm_64, decode_op_64; cbn [app]; walk.
Qed.

Lemma full_recognised : slice 0 2 inst = 3 → recognised inst (decode_full inst).
Proof.
  intros Hq. field_facts inst. pose proof other_recognised as Hother.
  destruct_and! Hother.
  unfold decode_full, decode_load, decode_misc_mem, decode_op_imm, decode_store, decode_op,
    decode_branch, decode_system. fields_of_switches.
  by_cases; intros; first [assumption | walk].
Qed.
End recognition.

(** The other direction: an encoding fixes the value of every switch on its path. *)
Ltac run_switch := lazy beta iota delta [switch Z.eqb Pos.eqb Z.add Z.mul Pos.add Pos.mul Pos.succ].

Section encodings.
Context (isa : rv_isa) (inst : Z).

(** The value of a field, computed from the constant it is part of. *)
Ltac field_value t c :=
  let v := eval vm_compute in c in assert (t = v) by (Z.to_euclidean_division_equations; lia).
Ltac take_path unfolding :=
  unfold decode_inst_opcode; rewrite scrutinee_quadrant;
  match goal with H : slice 0 2 inst = _ |- _ => rewrite H end; run_switch;
  unfold decode_full; rewrite scrutinee_major;
  match goal with H : slice 2 5 inst = _ |- _ => rewrite H end; run_switch;
  unfolding; fields_of_switches;
  repeat match goal with H : slice _ _ inst = _ |- _ => rewrite H end; run_switch.

Lemma accepted_decodes op e : rv32_encoding op = Some e → accepts op e inst → decode_inst_opcode isa inst = op.
Proof.
  intros He Hinst. field_facts inst.
  destruct op; try discriminate He; injection He as <-;
    unfold accepts, encodes, funct3, funct7, f_rs1, f_rs2, f_rd in Hinst; cbn [shift_immediate] in Hinst;
    destruct_and? Hinst;
    try match goal with H : slice 25 7 inst / 4 = ?v |- _ => field_value (slice 27 5 inst) v end;
    match goal with H : opcode inst = ?o |- _ =>
      field_value (slice 0 2 inst) (o mod 4); field_value (slice 2 5 inst) (o / 4) end;
    try match goal with H : funct12 inst = ?c |- _ =>
      field_value (slice 20 5 inst) (c mod 32); field_value (slice 25 7 inst) (c / 32) end;
    take_path ltac:(unfold decode_load, decode_misc_mem, decode_op_imm, decode_store, decode_op,
                      decode_branch, decode_system);
    reflexivity.
Qed.
End encodings.

Lemma accepts_spec inst op e : rv32_encoding op = Some e →
  encodes e inst ↔ accepts op e inst ∧ (shift_immediate op = true → slice 20 7 inst < 32).
Proof.
  intros He. field_facts inst. pose proof (shift_amount_parts inst). change (2 ^ 2) with 4 in *. change (2 ^ 5) with 32 in *.
  destruct (shift_immediate op) eqn:Hs.
  - assert (∃ o f3 f7, e = enc_funct7 o f3 f7 ∧ f7 mod 4 = 0) as (o & f3 & f7 & -> & Hf)
      by (destruct op; try discriminate Hs; injection He as <-; by do 3 eexists).
    unfold accepts, encodes, funct7. rewrite Hs. Z.to_euclidean_division_equations; lia.
  - assert (accepts op e inst ↔ encodes e inst) as -> by (unfold accepts; rewrite Hs; by destruct e).
    split; [by split | by intros []].
Qed.
Lemma encoded_decodes isa inst op e : rv32_encoding op = Some e → encodes e inst → decode_inst_opcode isa inst = op.
Proof. intros He Hi. apply (accepted_decodes isa inst op e He). by apply (accepts_spec inst op e He). Qed.

(** ** Properties *)

(** C13: Which words the disassembler recognises, against the architecture manual.  For
    every instruction of RV32IM, Zicsr and the privileged set it reports that instruction
    exactly for the words it [accepts], in any of the three ISAs: no other word, compressed
    ones included, is taken for it.  These are the words whose fixed fields (opcode, funct3,
    funct7, the whole immediate, rd) are those of the manual, and for [slli], [srli] and
    [srai] besides them those with a shift amount of 32 or more, in seven bits, which RV32
    reserves; no word of the manual is missed. *)
Theorem decode_inst_opcode_exact (isa : rv_isa) (inst : Z) (op : rv_op) (e : encoding) :
  rv32_encoding op = Some e →
  (decode_inst_opcode isa inst = op ↔ accepts op e inst) ∧
  (encodes e inst ↔ accepts op e inst ∧ (shift_immediate op = true → slice 20 7 inst < 32)).
Proof.
  intros He. split; [|by apply accepts_spec]. split; [|by apply accepted_decodes].
  intros Hop. revert e He. rewrite <-Hop. clear Hop op.
  change (recognised inst (decode_inst_opcode isa inst)).
  destruct (compressed_recognised isa inst) as (? & ? & ?). unfold decode_inst_opcode.
  rewrite scrutinee_quadrant. by_cases; intros;
    first [exact I | assumption | by apply full_recognised | by apply recognised_none].
Qed.

(** ** Witnesses *)

(** [mret]; and [slli] with the reserved amount 32. *)
Lemma decode_inst_opcode_exact_witness :
  decode_inst_opcode rv32 0x30200073 = rv_op_mret ∧ encodes (enc_whole 0x73 0x302) 0x30200073 ∧
  decode_inst_opcode rv32 0x02009093 = rv_op_slli ∧ ¬ encodes (enc_funct7 0x13 1 0) 0x02009093.
Proof.
  destruct (decode_inst_opcode_exact rv32 0x30200073 rv_op_mret (enc_whole 0x73 0x302) eq_refl) as [Hm _].
  destruct (decode_inst_opcode_exact rv32 0x02009093 rv_op_slli (enc_funct7 0x13 1 0) eq_refl) as [Hs He].
  split; [by apply Hm|]. split; [by split_and!|]. split; [by apply Hs|].
  intros [_ Hl]%He. specialize (Hl eq_refl). by vm_compute in Hl.
Defined.
