(* ===== verification/DisasOperand.v ===== *)
(** * Operands of an instruction ([external/riscv-disas/riscv-disas.c])

    [rv_decode], the extractors that cut registers and immediates out of the word, and
    [decode_inst_operands], which fills the record according to the codec of the
    operation.  The source extracts with pairs of 64-bit shifts.  A left shift of a signed
    value that leaves its range is undefined in C; the compilers the project supports
    define it as two's complement, and so does [sshl64]. *)

From S2P Require Export DisasOpcode.

(** ** [rv_decode] *)

Record rv_decode : Set := mk_decode {
  d_pc : Z; d_inst : Z; d_imm : Z; d_op : rv_op; d_codec : rv_codec;
  d_rd : Z; d_rs1 : Z; d_rs2 : Z; d_rs3 : Z; d_rm : Z; d_pred : Z; d_succ : Z; d_aq : Z; d_rl : Z
}.

(** [{.pc = pc, .inst = inst}]: the other members are zero. *)
Definition decode_init (pc inst : Z) : rv_decode :=
  mk_decode pc inst 0 rv_op_illegal rv_codec_illegal 0 0 0 0 0 0 0 0 0.

(** Assignments to members; registers and flags are [uint8_t], the immediate [int32_t]. *)
Definition set_op (op : rv_op) (d : rv_decode) : rv_decode :=
  mk_decode (d_pc d) (d_inst d) (d_imm d) op (d_codec d) (d_rd d) (d_rs1 d) (d_rs2 d) (d_rs3 d)
    (d_rm d) (d_pred d) (d_succ d) (d_aq d) (d_rl d).
Definition set_codec (codec : rv_codec) (d : rv_decode) : rv_decode :=
  mk_decode (d_pc d) (d_inst d) (d_imm d) (d_op d) codec (d_rd d) (d_rs1 d) (d_rs2 d) (d_rs3 d)
    (d_rm d) (d_pred d) (d_succ d) (d_aq d) (d_rl d).
Definition set_operands (rd rs1 rs2 imm : Z) (d : rv_decode) : rv_decode :=
  mk_decode (d_pc d) (d_inst d) (s32 imm) (d_op d) (d_codec d) (u8 rd) (u8 rs1) (u8 rs2) (d_rs3 d)
    (d_rm d) (d_pred d) (d_succ d) (d_aq d) (d_rl d).
Definition set_rs3 (rs3 : Z) (d : rv_decode) : rv_decode :=
  mk_decode (d_pc d) (d_inst d) (d_imm d) (d_op d) (d_codec d) (d_rd d) (d_rs1 d) (d_rs2 d) (u8 rs3)
    (d_rm d) (d_pred d) (d_succ d) (d_aq d) (d_rl d).
Definition set_rm (rm : Z) (d : rv_decode) : rv_decode :=
  mk_decode (d_pc d) (d_inst d) (d_imm d) (d_op d) (d_codec d) (d_rd d) (d_rs1 d) (d_rs2 d) (d_rs3 d)
    (u8 rm) (d_pred d) (d_succ d) (d_aq d) (d_rl d).
Definition set_aqrl (aq rl : Z) (d : rv_decode) : rv_decode :=
  mk_decode (d_pc d) (d_inst d) (d_imm d) (d_op d) (d_codec d) (d_rd d) (d_rs1 d) (d_rs2 d) (d_rs3 d)
    (d_rm d) (d_pred d) (d_succ d) (u8 aq) (u8 rl).
Definition set_fence (pred succ : Z) (d : rv_decode) : rv_decode :=
  mk_decode (d_pc d) (d_inst d) (d_imm d) (d_op d) (d_codec d) (d_rd d) (d_rs1 d) (d_rs2 d) (d_rs3 d)
    (d_rm d) (u8 pred) (u8 succ) (d_aq d) (d_rl d).

(** ** Operand extractors *)

(** [(inst << a) >> b] and [((int64_t)inst << a) >> b]. *)
Definition ufield (inst a b : Z) : Z := Z.shiftr (u64 (Z.shiftl inst a)) b.
Definition sfield (inst a b : Z) : Z := Z.shiftr (s64 (Z.shiftl (s64 inst) a)) b.
(** [<< k] on [uint64_t] and on [int64_t]; [|] on [uint64_t]. *)
Definition shl64 (x k : Z) : Z := u64 (Z.shiftl x k).
Definition sshl64 (x k : Z) : Z := s64 (Z.shiftl x k).
#[local] Notation "x .| y" := (Z.lor x y) (at level 50, left associativity).

Definition operand_rd (inst : Z) : Z := u32 (ufield inst 52 59).
Definition operand_rs1 (inst : Z) : Z := u32 (ufield inst 44 59).
Definition operand_rs2 (inst : Z) : Z := u32 (ufield inst 39 59).
Definition operand_rs3 (inst : Z) : Z := u32 (ufield inst 32 59).
Definition operand_aq (inst : Z) : Z := u32 (ufield inst 37 63).
Definition operand_rl (inst : Z) : Z := u32 (ufield inst 38 63).
Definition operand_pred (inst : Z) : Z := u32 (ufield inst 36 60).
Definition operand_succ (inst : Z) : Z := u32 (ufield inst 40 60).
Definition operand_rm (inst : Z) : Z := u32 (ufield inst 49 61).
Definition operand_shamt5 (inst : Z) : Z := u32 (ufield inst 39 59).
Definition operand_shamt6 (inst : Z) : Z := u32 (ufield inst 38 58).
Definition operand_shamt7 (inst : Z) : Z := u32 (ufield inst 37 57).
Definition operand_crdq (inst : Z) : Z := u32 (ufield inst 59 61).
Definition operand_crs1q (inst : Z) : Z := u32 (ufield inst 54 61).
Definition operand_crs1rdq (inst : Z) : Z := u32 (ufield inst 54 61).
Definition operand_crs2q (inst : Z) : Z := u32 (ufield inst 59 61).
Definition operand_crd (inst : Z) : Z := u32 (ufield inst 52 59).
Definition operand_crs1 (inst : Z) : Z := u32 (ufield inst 52 59).
Definition operand_crs1rd (inst : Z) : Z := u32 (ufield inst 52 59).
Definition operand_crs2 (inst : Z) : Z := u32 (ufield inst 57 59).
Definition operand_cimmsh5 (inst : Z) : Z := u32 (ufield inst 57 59).
Definition operand_csr12 (inst : Z) : Z := u32 (ufield inst 32 52).
Definition operand_imm12 (inst : Z) : Z := s32 (sfield inst 32 52).
Definition operand_imm20 (inst : Z) : Z := s32 (sshl64 (sfield inst 32 44) 12).
Definition operand_jimm20 (inst : Z) : Z :=
  s32 (u64 (sshl64 (sfield inst 32 63) 20) .| shl64 (ufield inst 33 54) 1 .|
    shl64 (ufield inst 43 63) 11 .| shl64 (ufield inst 44 56) 12).
Definition operand_simm12 (inst : Z) : Z :=
  s32 (u64 (sshl64 (sfield inst 32 57) 5) .| ufield inst 52 59).
Definition operand_sbimm12 (inst : Z) : Z :=
  s32 (u64 (sshl64 (sfield inst 32 63) 12) .| shl64 (ufield inst 33 58) 5 .|
    shl64 (ufield inst 52 60) 1 .| shl64 (ufield inst 56 63) 11).
Definition operand_cimmsh6 (inst : Z) : Z := u32 (shl64 (ufield inst 51 63) 5 .| ufield inst 57 59).
Definition operand_cimmi (inst : Z) : Z :=
  s32 (u64 (sshl64 (sfield inst 51 63) 5) .| ufield inst 57 59).
Definition operand_cimmui (inst : Z) : Z :=
  s32 (u64 (sshl64 (sfield inst 51 63) 17) .| shl64 (ufield inst 57 59) 12).
Definition operand_cimmlwsp (inst : Z) : Z :=
  u32 (shl64 (ufield inst 51 63) 5 .| shl64 (ufield inst 57 61) 2 .|
    shl64 (ufield inst 60 62) 6).
Definition operand_cimmldsp (inst : Z) : Z :=
  u32 (shl64 (ufield inst 51 63) 5 .| shl64 (ufield inst 57 62) 3 .|
    shl64 (ufield inst 59 61) 6).
Definition operand_cimmlqsp (inst : Z) : Z :=
  u32 (shl64 (ufield inst 51 63) 5 .| shl64 (ufield inst 57 63) 4 .|
    shl64 (ufield inst 58 60) 6).
Definition operand_cimm16sp (inst : Z) : Z :=
  s32 (u64 (sshl64 (sfield inst 51 63) 9) .| shl64 (ufield inst 57 63) 4 .|
    shl64 (ufield inst 58 63) 6 .| shl64 (ufield inst 59 62) 7 .| shl64 (ufield inst 61 63) 5).
Definition operand_cimmj (inst : Z) : Z :=
  s32 (u64 (sshl64 (sfield inst 51 63) 11) .| shl64 (ufield inst 52 63) 4 .|
    shl64 (ufield inst 53 62) 8 .| shl64 (ufield inst 55 63) 10 .| shl64 (ufield inst 56 63) 6
    .| shl64 (ufield inst 57 63) 7 .| shl64 (ufield inst 58 61) 1 .|
    shl64 (ufield inst 61 63) 5).
Definition operand_cimmb (inst : Z) : Z :=
  s32 (u64 (sshl64 (sfield inst 51 63) 8) .| shl64 (ufield inst 52 62) 3 .|
    shl64 (ufield inst 57 62) 6 .| shl64 (ufield inst 59 62) 1 .| shl64 (ufield inst 61 63) 5).
Definition operand_cimmswsp (inst : Z) : Z :=
  u32 (shl64 (ufield inst 51 60) 2 .| shl64 (ufield inst 55 62) 6).
Definition operand_cimmsdsp (inst : Z) : Z :=
  u32 (shl64 (ufield inst 51 61) 3 .| shl64 (ufield inst 54 61) 6).
Definition operand_cimmsqsp (inst : Z) : Z :=
  u32 (shl64 (ufield inst 51 62) 4 .| shl64 (ufield inst 53 60) 6).
Definition operand_cimm4spn (inst : Z) : Z :=
  u32 (shl64 (ufield inst 51 62) 4 .| shl64 (ufield inst 53 60) 6 .| shl64 (ufield inst 57 63) 2
    .| shl64 (ufield inst 58 63) 3).
Definition operand_cimmw (inst : Z) : Z :=
  u32 (shl64 (ufield inst 51 61) 3 .| shl64 (ufield inst 57 63) 2 .|
    shl64 (ufield inst 58 63) 6).
Definition operand_cimmd (inst : Z) : Z :=
  u32 (shl64 (ufield inst 51 61) 3 .| shl64 (ufield inst 57 62) 6).
Definition operand_cimmq (inst : Z) : Z :=
  u32 (shl64 (ufield inst 51 62) 4 .| shl64 (ufield inst 53 63) 8 .|
    shl64 (ufield inst 57 62) 6).

(** ** [decode_inst_operands]

    The codecs of 16-bit instructions, then the others; for [rv_codec_illegal] the record
    keeps its zeros. *)

Definition compressed_operands (codec : rv_codec) (inst : Z) (dec : rv_decode) : rv_decode :=
  match codec with
  | rv_codec_cb =>
      set_operands rv_ireg_zero (u32 (operand_crs1q inst + 8)) rv_ireg_zero (operand_cimmb inst) dec
  | rv_codec_cb_imm =>
      set_operands (u32 (operand_crs1rdq inst + 8)) (u32 (operand_crs1rdq inst + 8))
        rv_ireg_zero (operand_cimmi inst) dec
  | rv_codec_cb_sh5 =>
      set_operands (u32 (operand_crs1rdq inst + 8)) (u32 (operand_crs1rdq inst + 8))
        rv_ireg_zero (operand_cimmsh5 inst) dec
  | rv_codec_cb_sh6 =>
      set_operands (u32 (operand_crs1rdq inst + 8)) (u32 (operand_crs1rdq inst + 8))
        rv_ireg_zero (operand_cimmsh6 inst) dec
  | rv_codec_ci =>
      set_operands (operand_crs1rd inst) (operand_crs1rd inst) rv_ireg_zero (operand_cimmi inst) dec
  | rv_codec_ci_sh5 =>
      set_operands (operand_crs1rd inst) (operand_crs1rd inst) rv_ireg_zero (operand_cimmsh5 inst) dec
  | rv_codec_ci_sh6 =>
      set_operands (operand_crs1rd inst) (operand_crs1rd inst) rv_ireg_zero (operand_cimmsh6 inst) dec
  | rv_codec_ci_16sp => set_operands rv_ireg_sp rv_ireg_sp rv_ireg_zero (operand_cimm16sp inst) dec
  | rv_codec_ci_lwsp =>
      set_operands (operand_crd inst) rv_ireg_sp rv_ireg_zero (operand_cimmlwsp inst) dec
  | rv_codec_ci_ldsp =>
      set_operands (operand_crd inst) rv_ireg_sp rv_ireg_zero (operand_cimmldsp inst) dec
  | rv_codec_ci_lqsp =>
      set_operands (operand_crd inst) rv_ireg_sp rv_ireg_zero (operand_cimmlqsp inst) dec
  | rv_codec_ci_li =>
      set_operands (operand_crd inst) rv_ireg_zero rv_ireg_zero (operand_cimmi inst) dec
  | rv_codec_ci_lui =>
      set_operands (operand_crd inst) rv_ireg_zero rv_ireg_zero (operand_cimmui inst) dec
  | rv_codec_ci_none => set_operands rv_ireg_zero rv_ireg_zero rv_ireg_zero 0 dec
  | rv_codec_ciw_4spn =>
      set_operands (u32 (operand_crdq inst + 8)) rv_ireg_sp rv_ireg_zero (operand_cimm4spn inst) dec
  | rv_codec_cj => set_operands rv_ireg_zero rv_ireg_zero rv_ireg_zero (operand_cimmj inst) dec
  | rv_codec_cj_jal => set_operands rv_ireg_ra rv_ireg_zero rv_ireg_zero (operand_cimmj inst) dec
  | rv_codec_cl_lw =>
      set_operands (u32 (operand_crdq inst + 8)) (u32 (operand_crs1q inst + 8)) rv_ireg_zero
        (operand_cimmw inst) dec
  | rv_codec_cl_ld =>
      set_operands (u32 (operand_crdq inst + 8)) (u32 (operand_crs1q inst + 8)) rv_ireg_zero
        (operand_cimmd inst) dec
  | rv_codec_cl_lq =>
      set_operands (u32 (operand_crdq inst + 8)) (u32 (operand_crs1q inst + 8)) rv_ireg_zero
        (operand_cimmq inst) dec
  | rv_codec_cr => set_operands (operand_crs1rd inst) (operand_crs1rd inst) (operand_crs2 inst) 0 dec
  | rv_codec_cr_mv => set_operands (operand_crd inst) (operand_crs2 inst) rv_ireg_zero 0 dec
  | rv_codec_cr_jalr => set_operands rv_ireg_ra (operand_crs1 inst) rv_ireg_zero 0 dec
  | rv_codec_cr_jr => set_operands rv_ireg_zero (operand_crs1 inst) rv_ireg_zero 0 dec
  | rv_codec_cs =>
      set_operands (u32 (operand_crs1rdq inst + 8)) (u32 (operand_crs1rdq inst + 8)) (u32
        (operand_crs2q inst + 8)) 0 dec
  | rv_codec_cs_sw =>
      set_operands rv_ireg_zero (u32 (operand_crs1q inst + 8)) (u32 (operand_crs2q inst + 8))
        (operand_cimmw inst) dec
  | rv_codec_cs_sd =>
      set_operands rv_ireg_zero (u32 (operand_crs1q inst + 8)) (u32 (operand_crs2q inst + 8))
        (operand_cimmd inst) dec
  | rv_codec_cs_sq =>
      set_operands rv_ireg_zero (u32 (operand_crs1q inst + 8)) (u32 (operand_crs2q inst + 8))
        (operand_cimmq inst) dec
  | rv_codec_css_swsp =>
      set_operands rv_ireg_zero rv_ireg_sp (operand_crs2 inst) (operand_cimmswsp inst) dec
  | rv_codec_css_sdsp =>
      set_operands rv_ireg_zero rv_ireg_sp (operand_crs2 inst) (operand_cimmsdsp inst) dec
  | rv_codec_css_sqsp =>
      set_operands rv_ireg_zero rv_ireg_sp (operand_crs2 inst) (operand_cimmsqsp inst) dec
  | _ => dec
  end.

Definition full_operands (codec : rv_codec) (inst : Z) (dec : rv_decode) : rv_decode :=
  match codec with
  | rv_codec_none => set_operands rv_ireg_zero rv_ireg_zero rv_ireg_zero 0 dec
  | rv_codec_u => set_operands (operand_rd inst) rv_ireg_zero rv_ireg_zero (operand_imm20 inst) dec
  | rv_codec_uj => set_operands (operand_rd inst) rv_ireg_zero rv_ireg_zero (operand_jimm20 inst) dec
  | rv_codec_i =>
      set_operands (operand_rd inst) (operand_rs1 inst) rv_ireg_zero (operand_imm12 inst) dec
  | rv_codec_i_sh5 =>
      set_operands (operand_rd inst) (operand_rs1 inst) rv_ireg_zero (operand_shamt5 inst) dec
  | rv_codec_i_sh6 =>
      set_operands (operand_rd inst) (operand_rs1 inst) rv_ireg_zero (operand_shamt6 inst) dec
  | rv_codec_i_sh7 =>
      set_operands (operand_rd inst) (operand_rs1 inst) rv_ireg_zero (operand_shamt7 inst) dec
  | rv_codec_i_csr =>
      set_operands (operand_rd inst) (operand_rs1 inst) rv_ireg_zero (operand_csr12 inst) dec
  | rv_codec_s =>
      set_operands rv_ireg_zero (operand_rs1 inst) (operand_rs2 inst) (operand_simm12 inst) dec
  | rv_codec_sb =>
      set_operands rv_ireg_zero (operand_rs1 inst) (operand_rs2 inst) (operand_sbimm12 inst) dec
  | rv_codec_r => set_operands (operand_rd inst) (operand_rs1 inst) (operand_rs2 inst) 0 dec
  | rv_codec_r_m =>
      set_rm (operand_rm inst) (set_operands (operand_rd inst) (operand_rs1 inst) (operand_rs2
        inst) 0 dec)
  | rv_codec_r4_m =>
      set_rm (operand_rm inst) (set_rs3 (operand_rs3 inst) (set_operands (operand_rd inst)
        (operand_rs1 inst) (operand_rs2 inst) 0 dec))
  | rv_codec_r_a =>
      set_aqrl (operand_aq inst) (operand_rl inst) (set_operands (operand_rd inst) (operand_rs1
        inst) (operand_rs2 inst) 0 dec)
  | rv_codec_r_l =>
      set_aqrl (operand_aq inst) (operand_rl inst) (set_operands (operand_rd inst) (operand_rs1
        inst) rv_ireg_zero 0 dec)
  | rv_codec_r_f =>
      set_fence (operand_pred inst) (operand_succ inst) (set_operands rv_ireg_zero rv_ireg_zero
        rv_ireg_zero 0 dec)
  | _ => compressed_operands codec inst dec
  end.
(** [opcode_data[op]]. *)
Definition opcode_entry (op : rv_op) : res rv_opcode_data :=
  or_fail (Undefined ub_out_of_bounds) (nth_z opcode_data (rv_op_val op)).

Definition decode_inst_operands (dec : rv_decode) : res rv_decode :=
  entry ← opcode_entry (d_op dec);
  let dec := set_codec (od_codec entry) dec in
  mret (full_operands (d_codec dec) (d_inst dec) dec).

(** ** Lemmas *)

Lemma opcode_entry_ok op : ∃ e, opcode_entry op = Ok e.
Proof. destruct op; by eexists. Qed.

(** *** Well-formed operands *)

Record wf_decode (d : rv_decode) : Prop := {
  wf_imm : is_s32 (d_imm d);
  wf_rd : 0 ≤ d_rd d < 32; wf_rs1 : 0 ≤ d_rs1 d < 32;
  wf_rs2 : 0 ≤ d_rs2 d < 32; wf_rs3 : 0 ≤ d_rs3 d < 32;
  wf_rm : 0 ≤ d_rm d < 8; wf_pred : 0 ≤ d_pred d < 16; wf_succ : 0 ≤ d_succ d < 16;
  wf_aq : 0 ≤ d_aq d < 2; wf_rl : 0 ≤ d_rl d < 2
}.

Lemma wf_decode_init pc inst : wf_decode (decode_init pc inst).
Proof. split; simpl; lia. Qed.

Section wf.
Context (d : rv_decode) (Hd : wf_decode d).

Lemma wf_set_op op : wf_decode (set_op op d).
Proof. by destruct Hd. Qed.
Lemma wf_set_codec codec : wf_decode (set_codec codec d).
Proof. by destruct Hd. Qed.
Lemma wf_set_operands rd rs1 rs2 imm :
  0 ≤ rd < 32 → 0 ≤ rs1 < 32 → 0 ≤ rs2 < 32 → wf_decode (set_operands rd rs1 rs2 imm d).
Proof.
  intros. destruct Hd. split; simpl; rewrite ?u8_small by lia; try done. apply s32_range.
Qed.
Lemma wf_set_rs3 rs3 : 0 ≤ rs3 < 32 → wf_decode (set_rs3 rs3 d).
Proof. intros. destruct Hd. split; simpl; rewrite ?u8_small by lia; done. Qed.
Lemma wf_set_rm rm : 0 ≤ rm < 8 → wf_decode (set_rm rm d).
Proof. intros. destruct Hd. split; simpl; rewrite ?u8_small by lia; done. Qed.
Lemma wf_set_aqrl aq rl : 0 ≤ aq < 2 → 0 ≤ rl < 2 → wf_decode (set_aqrl aq rl d).
Proof. intros. destruct Hd. split; simpl; rewrite ?u8_small by lia; done. Qed.
Lemma wf_set_fence pred succ : 0 ≤ pred < 16 → 0 ≤ succ < 16 → wf_decode (set_fence pred succ d).
Proof. intros. destruct Hd. split; simpl; rewrite ?u8_small by lia; done. Qed.
End wf.

(** *** Fields *)

Lemma ufield_slice inst a b : 0 ≤ a ≤ b → b ≤ 64 → ufield inst a b = slice (b - a) (64 - b) inst.
Proof. apply shift_slice. Qed.
Lemma sfield_signed inst a b : 0 ≤ a ≤ b → b < 64 →
  sfield inst a b = signed (64 - b) (slice (b - a) (64 - b) inst).
Proof. apply shift_signed. Qed.

(** A field of at most 32 bits survives the conversion to [uint32_t]. *)
Lemma u32_ufield inst a b : 0 ≤ a ≤ b → 32 ≤ b ≤ 64 → u32 (ufield inst a b) = slice (b - a) (64 - b) inst.
Proof.
  intros. rewrite ufield_slice by lia. apply u32_small.
  pose proof (slice_range (b - a) (64 - b) inst ltac:(lia)).
  assert (2 ^ (64 - b) ≤ 2 ^ 32) by (apply Z.pow_le_mono_r; lia). lia.
Qed.

Lemma operand_range inst a b m : 0 ≤ a ≤ b → 32 ≤ b ≤ 64 → m = 2 ^ (64 - b) → 0 ≤ u32 (ufield inst a b) < m.
Proof. intros ? ? ->. rewrite u32_ufield by lia. apply slice_range. lia. Qed.

(** The three-bit register fields of compressed instructions name [x8] to [x15]. *)
Lemma compressed_register x : 0 ≤ x < 8 → 0 ≤ u32 (x + 8) < 32.
Proof. intros. rewrite u32_small; lia. Qed.

(** [operands] closes [wf_decode] of a record with freshly extracted operands. *)
Ltac operands :=
  repeat lazymatch goal with
  | |- wf_decode (set_operands _ _ _ _ _) => apply wf_set_operands
  | |- wf_decode (set_rs3 _ _) => apply wf_set_rs3
  | |- wf_decode (set_rm _ _) => apply wf_set_rm
  | |- wf_decode (set_aqrl _ _ _) => apply wf_set_aqrl
  | |- wf_decode (set_fence _ _ _) => apply wf_set_fence
  | |- wf_decode _ => assumption
  | |- 0 ≤ u32 (ufield _ _ _) < _ => apply operand_range; lia
  | |- 0 ≤ u32 (_ + 8) < _ => apply compressed_register
  | |- 0 ≤ ?f _ < _ => unfold f
  | |- 0 ≤ ?x < _ => unfold x; lia
  end.

Lemma compressed_operands_wf codec inst d : wf_decode d → wf_decode (compressed_operands codec inst d).
Proof. intros Hd. destruct codec; simpl; operands. Qed.
Lemma full_operands_wf codec inst d : wf_decode d → wf_decode (full_operands codec inst d).
Proof.
  intros Hd. pose proof (compressed_operands_wf codec inst d Hd).
  destruct codec; simpl; operands.
Qed.

(** *** Immediates *)

Lemma shl64_piece x n k : 0 ≤ n → 0 ≤ k → n + k ≤ 64 → 0 ≤ x < 2 ^ n → shl64 x k = x * 2 ^ k.
Proof.
  intros Hn Hk Hs Hx. unfold shl64. rewrite Z.shiftl_mul_pow2 by lia. apply u64_small.
  assert (2 ^ n * 2 ^ k ≤ 2 ^ 64) by (rewrite <-Z.pow_add_r by lia; apply Z.pow_le_mono_r; lia).
  assert (0 < 2 ^ k) by (apply Z.pow_pos_nonneg; lia). nia.
Qed.

(** A piece of [n] bits moved to bit [k]. *)
Lemma shl64_ufield inst a b k : 0 ≤ a ≤ b → b ≤ 64 → 0 ≤ k ≤ b →
  shl64 (ufield inst a b) k = slice (b - a) (64 - b) inst * 2 ^ k.
Proof.
  intros. rewrite ufield_slice by lia. apply (shl64_piece _ (64 - b)); try lia. apply slice_range. lia.
Qed.

Section immediates.
Context (inst : Z).

(** The pieces of an immediate as slices at their places. *)
Local Ltac pieces :=
  unfold sshl64; rewrite ?sfield_signed, ?shl64_ufield, ?ufield_slice by lia;
  rewrite <-?Z.lor_assoc;
  repeat match goal with |- context [?a - ?b] => let c := eval vm_compute in (a - b) in change (a - b) with c end.
Local Ltac ranges :=
  repeat match goal with
  | |- context [signed ?n (slice ?k ?n inst)] =>
      pose proof (signed_slice_range k n inst ltac:(lia)); generalize dependent (signed n (slice k n inst)); intros
  | |- context [slice ?k ?n inst] =>
      pose proof (slice_range k n inst ltac:(lia)); generalize dependent (slice k n inst); intros
  end.
Local Ltac disjoint := eapply lor_pieces; try eassumption; lia.

Lemma operand_imm12_fields : operand_imm12 inst = signed 12 (slice 20 12 inst).
Proof. unfold operand_imm12. pieces. ranges. apply s32_small. simpl in *. lia. Qed.
Lemma operand_imm20_fields : operand_imm20 inst = signed 20 (slice 12 20 inst) * 2 ^ 12.
Proof.
  unfold operand_imm20. pieces. ranges. simpl in *.
  rewrite Z.shiftl_mul_pow2 by lia. unfold s64. word.
Qed.
Lemma operand_simm12_fields :
  operand_simm12 inst = signed 7 (slice 25 7 inst) * 2 ^ 5 + slice 7 5 inst.
Proof. unfold operand_simm12. pieces. ranges. rewrite sign_extend; simpl in *; lia. Qed.
Lemma operand_sbimm12_fields :
  operand_sbimm12 inst = signed 1 (slice 31 1 inst) * 2 ^ 12
    + (slice 25 6 inst * 2 ^ 5 + slice 8 4 inst * 2 ^ 1 + slice 7 1 inst * 2 ^ 11).
Proof.
  unfold operand_sbimm12. pieces. ranges. rewrite (lor_add3 (_ * _)); [| simpl in *; lia .. | disjoint | disjoint | disjoint].
  rewrite sign_extend; simpl in *; lia.
Qed.
Lemma operand_jimm20_fields :
  operand_jimm20 inst = signed 1 (slice 31 1 inst) * 2 ^ 20
    + (slice 21 10 inst * 2 ^ 1 + slice 20 1 inst * 2 ^ 11 + slice 12 8 inst * 2 ^ 12).
Proof.
  unfold operand_jimm20. pieces. ranges. rewrite (lor_add3 (_ * _)); [| simpl in *; lia .. | disjoint | disjoint | disjoint].
  rewrite sign_extend; simpl in *; lia.
Qed.

(** The unsigned immediates of compressed instructions are below [2 ^ 11]. *)
Local Ltac bounded :=
  lazymatch goal with
  | |- 0 <= Z.lor _ _ < _ => apply lor_bound; [lia | bounded ..]
  | |- _ => simpl in *; lia
  end.
Local Ltac unsigned_immediate :=
  pieces; ranges; match goal with |- 0 <= u32 ?x < _ =>
    assert (0 <= x < 2 ^ 11) by bounded; rewrite u32_small; lia end.

Lemma compressed_unsigned_range :
  Forall (λ imm, 0 ≤ imm < 2 ^ 11)
    [operand_cimmlwsp inst; operand_cimmldsp inst; operand_cimmlqsp inst; operand_cimmswsp inst;
     operand_cimmsdsp inst; operand_cimmsqsp inst; operand_cimm4spn inst; operand_cimmw inst;
     operand_cimmd inst; operand_cimmq inst].
Proof.
  unfold operand_cimmlwsp, operand_cimmldsp, operand_cimmlqsp, operand_cimmswsp, operand_cimmsdsp,
    operand_cimmsqsp, operand_cimm4spn, operand_cimmw, operand_cimmd, operand_cimmq.
  repeat (apply Forall_cons; split); [unsigned_immediate.. | apply Forall_nil_2].
Qed.
Lemma compressed_shift_range : 0 ≤ operand_cimmsh6 inst < 2 ^ 6.
Proof.
  unfold operand_cimmsh6. pieces. ranges. match goal with |- 0 <= u32 ?x < _ =>
    assert (0 <= x < 2 ^ 6) by bounded; rewrite u32_small; lia end.
Qed.

(** The signed ones, by their top piece. *)
Lemma operand_cimmi_fields : operand_cimmi inst = signed 1 (slice 12 1 inst) * 2 ^ 5 + slice 2 5 inst.
Proof. unfold operand_cimmi. pieces. ranges. rewrite sign_extend; simpl in *; lia. Qed.
Lemma operand_cimmui_fields :
  operand_cimmui inst = signed 1 (slice 12 1 inst) * 2 ^ 17 + slice 2 5 inst * 2 ^ 12.
Proof. unfold operand_cimmui. pieces. ranges. rewrite sign_extend; simpl in *; lia. Qed.

(** Of an immediate with a sign at bit [k] and pieces from bit [m] to there. *)
Lemma signed_immediate s k low m : 0 ≤ k ≤ 20 → 0 ≤ m ≤ k → - 1 ≤ s < 1 → 0 ≤ low < 2 ^ k → low mod 2 ^ m = 0 →
  let imm := s32 (Z.lor (u64 (s64 (Z.shiftl s k))) low) in - 2 ^ k ≤ imm < 2 ^ k ∧ imm mod 2 ^ m = 0.
Proof.
  intros Hk Hm Hs Hlow Hmod imm. assert (2 ^ k ≤ 2 ^ 20) by (apply Z.pow_le_mono_r; lia).
  assert (0 < 2 ^ m) by (apply Z.pow_pos_nonneg; lia).
  assert (2 ^ k = 2 ^ (k - m) * 2 ^ m) as Hp by (rewrite <-Z.pow_add_r by lia; f_equal; lia).
  assert (imm = s * 2 ^ k + low) as -> by (apply sign_extend; nia).
  split; [nia|]. rewrite Hp, Z.mul_assoc, Z.add_comm, Z.mod_add by lia. done.
Qed.
Local Ltac multiple :=
  lazymatch goal with
  | |- Z.lor _ _ mod _ = 0 => apply lor_mod; [lia | multiple ..]
  | |- (?v * 2 ^ ?k) mod 2 ^ 1 = 0 =>
      replace (v * 2 ^ k) with (v * 2 ^ (k - 1) * 2 ^ 1) by (simpl; lia); apply Z.mod_mul; lia
  end.

Lemma operand_cimmj_range : - 2 ^ 11 ≤ operand_cimmj inst < 2 ^ 11 ∧ operand_cimmj inst mod 2 ^ 1 = 0.
Proof.
  unfold operand_cimmj. pieces. ranges. apply signed_immediate; [lia | lia | simpl in *; lia | bounded | multiple].
Qed.
Lemma operand_cimmb_range : - 2 ^ 8 ≤ operand_cimmb inst < 2 ^ 8 ∧ operand_cimmb inst mod 2 ^ 1 = 0.
Proof.
  unfold operand_cimmb. pieces. ranges. apply signed_immediate; [lia | lia | simpl in *; lia | bounded | multiple].
Qed.
Lemma operand_cimm16sp_range : - 2 ^ 9 ≤ operand_cimm16sp inst < 2 ^ 9 ∧ operand_cimm16sp inst mod 2 ^ 1 = 0.
Proof.
  unfold operand_cimm16sp. pieces. ranges. apply signed_immediate; [lia | lia | simpl in *; lia | bounded | multiple].
Qed.
End immediates.

(** ** An assembler, for reference

    The word of an instruction from its operands, by the formats of the architecture
    manual: fields from the least significant.  A shift amount has seven bits, the two upper
    ones in funct7; of the encodings in RV32, which reserves them, they are zero. *)

Definition word_fields (codec : rv_codec) (o f3 f7 : Z) (d : rv_decode) : list (Z * Z) :=
  let imm := d_imm d in
  match codec with
  | rv_codec_u => [(7, o); (5, d_rd d); (20, slice 12 20 imm)]
  | rv_codec_uj =>
      [(7, o); (5, d_rd d); (8, slice 12 8 imm); (1, slice 11 1 imm); (10, slice 1 10 imm); (1, slice 20 1 imm)]
  | rv_codec_i | rv_codec_i_csr => [(7, o); (5, d_rd d); (3, f3); (5, d_rs1 d); (12, slice 0 12 imm)]
  | rv_codec_i_sh7 => [(7, o); (5, d_rd d); (3, f3); (5, d_rs1 d); (7, slice 0 7 imm); (5, f7 / 4)]
  | rv_codec_s => [(7, o); (5, slice 0 5 imm); (3, f3); (5, d_rs1 d); (5, d_rs2 d); (7, slice 5 7 imm)]
  | rv_codec_sb =>
      [(7, o); (1, slice 11 1 imm); (4, slice 1 4 imm); (3, f3); (5, d_rs1 d); (5, d_rs2 d);
       (6, slice 5 6 imm); (1, slice 12 1 imm)]
  | rv_codec_r => [(7, o); (5, d_rd d); (3, f3); (5, d_rs1 d); (5, d_rs2 d); (7, f7)]
  | rv_codec_r_f => [(7, o); (5, 0); (3, f3); (5, 0); (4, d_succ d); (4, d_pred d); (4, 0)]
  | _ => [(7, o); (5, 0); (3, f3); (5, 0); (12, f7)]
  end.

Definition codec_of (op : rv_op) : rv_codec :=
  match nth_z opcode_data (rv_op_val op) with Some e => od_codec e | None => rv_codec_illegal end.

(** The fixed fields of an encoding as arguments of the format. *)
Definition encoding_fields (e : encoding) : Z * Z * Z :=
  match e with
  | enc_opcode o => (o, 0, 0) | enc_funct3 o f3 => (o, f3, 0)
  | enc_funct7 o f3 f7 | enc_funct7_rd o f3 f7 _ => (o, f3, f7) | enc_whole o f12 => (o, 0, f12)
  end.
Definition encoded_fields (op : rv_op) (e : encoding) (d : rv_decode) : list (Z * Z) :=
  let '(o, f3, f7) := encoding_fields e in word_fields (codec_of op) o f3 f7 d.

(** [sfence.vma], which fixes rd, has no format of its own. *)
Definition assembled_as (op : rv_op) : option encoding :=
  match rv32_encoding op with Some (enc_funct7_rd _ _ _ _) => None | e => e end.
Definition assemble (op : rv_op) (d : rv_decode) : option Z :=
  e ← assembled_as op; Some (pack (encoded_fields op e d)).

(** The immediates a format can hold. *)
Definition encodable (codec : rv_codec) (imm : Z) : bool :=
  match codec with
  | rv_codec_u => imm mod 2 ^ 12 =? 0
  | rv_codec_uj => (imm mod 2 =? 0) && (- 2 ^ 20 <=? imm) && (imm <? 2 ^ 20)
  | rv_codec_sb => (imm mod 2 =? 0) && (- 2 ^ 12 <=? imm) && (imm <? 2 ^ 12)
  | rv_codec_i | rv_codec_s => (- 2 ^ 11 <=? imm) && (imm <? 2 ^ 11)
  | rv_codec_i_csr => (0 <=? imm) && (imm <? 2 ^ 12)
  | rv_codec_i_sh7 => (0 <=? imm) && (imm <? 2 ^ 7)
  | _ => true
  end.

(** The operands a format has; the disassembler leaves the others zero. *)
Definition visible (codec : rv_codec) (d : rv_decode) : rv_decode :=
  let mk imm rd rs1 rs2 pred succ :=
    mk_decode (d_pc d) (d_inst d) imm (d_op d) codec rd rs1 rs2 0 0 pred succ 0 0 in
  match codec with
  | rv_codec_u | rv_codec_uj => mk (d_imm d) (d_rd d) 0 0 0 0
  | rv_codec_i | rv_codec_i_csr | rv_codec_i_sh7 => mk (d_imm d) (d_rd d) (d_rs1 d) 0 0 0
  | rv_codec_s | rv_codec_sb => mk (d_imm d) 0 (d_rs1 d) (d_rs2 d) 0 0
  | rv_codec_r => mk 0 (d_rd d) (d_rs1 d) (d_rs2 d) 0 0
  | rv_codec_r_f => mk 0 0 0 0 (d_pred d) (d_succ d)
  | _ => mk 0 0 0 0 0 0
  end.
(** The same operands, for operation [op] read from the word [inst] at [pc]. *)
Definition placed (pc inst : Z) (op : rv_op) (d : rv_decode) : rv_decode :=
  mk_decode pc inst (d_imm d) op (d_codec d) (d_rd d) (d_rs1 d) (d_rs2 d) (d_rs3 d)
    (d_rm d) (d_pred d) (d_succ d) (d_aq d) (d_rl d).

(** *** Lemmas *)

(** The immediates of the formats from the pieces of the word. *)
Lemma imm_u imm : is_s32 imm → imm mod 2 ^ 12 = 0 → signed 20 (slice 12 20 imm) * 2 ^ 12 = imm.
Proof.
  intros Hr Hm. rewrite signed_high by (simpl in *; lia). pose proof (slice_low 12 imm ltac:(lia)) as Hl.
  unfold slice in Hl. change (2 ^ 0) with 1 in Hl. rewrite Z.div_1_r, Hm in Hl. lia.
Qed.
Lemma imm_uj imm : - 2 ^ 20 ≤ imm < 2 ^ 20 → imm mod 2 = 0 →
  signed 1 (slice 20 1 imm) * 2 ^ 20
    + (slice 1 10 imm * 2 ^ 1 + slice 11 1 imm * 2 ^ 11 + slice 12 8 imm * 2 ^ 12) = imm.
Proof.
  intros Hr Hm. rewrite signed_high by (simpl in *; lia). rewrite (slice_low 20 imm) at 5 by lia.
  rewrite (slice_app 0 1 19), (slice_app 1 10 9), (slice_app 11 1 8) by lia. simpl Z.add.
  assert (slice 0 1 imm = 0) as -> by (unfold slice; change (2 ^ 0) with 1; by rewrite Z.div_1_r).
  simpl Z.pow. change (11 + 1) with 12. lia.
Qed.
Lemma imm_sb imm : - 2 ^ 12 ≤ imm < 2 ^ 12 → imm mod 2 = 0 →
  signed 1 (slice 12 1 imm) * 2 ^ 12
    + (slice 5 6 imm * 2 ^ 5 + slice 1 4 imm * 2 ^ 1 + slice 11 1 imm * 2 ^ 11) = imm.
Proof.
  intros Hr Hm. rewrite signed_high by (simpl in *; lia). rewrite (slice_low 12 imm) at 5 by lia.
  rewrite (slice_app 0 1 11), (slice_app 1 4 7), (slice_app 5 6 1) by lia. simpl Z.add.
  assert (slice 0 1 imm = 0) as -> by (unfold slice; change (2 ^ 0) with 1; by rewrite Z.div_1_r).
  simpl Z.pow. change (5 + 6) with 11. lia.
Qed.
Lemma imm_s imm : - 2 ^ 11 ≤ imm < 2 ^ 11 →
  signed 7 (slice 5 7 imm) * 2 ^ 5 + slice 0 5 imm = imm.
Proof. intros Hr. rewrite signed_high by (simpl in *; lia). symmetry. apply (slice_low 5). lia. Qed.

(** The codecs of the assembler. *)
Definition rv32_codec (codec : rv_codec) : bool :=
  match codec with
  | rv_codec_u | rv_codec_uj | rv_codec_i | rv_codec_i_csr | rv_codec_i_sh7 | rv_codec_s | rv_codec_sb
  | rv_codec_r | rv_codec_r_f | rv_codec_none => true
  | _ => false
  end.

Section assembled.
Context (pc : Z) (op : rv_op) (codec : rv_codec) (o f3 f7 : Z) (d : rv_decode) (w : Z).
Hypothesis Hd : wf_decode d.
Hypothesis Hw : w = pack (word_fields codec o f3 f7 d).
Hypothesis Hf : fields_ok (word_fields codec o f3 f7 d).

(** A slice of the word at a field of its format. *)
Lemma word_field k n v : field_at k n (word_fields codec o f3 f7 d) = Some v → slice k n w = v.
Proof. rewrite Hw. by apply slice_pack. Qed.
End assembled.

Local Ltac read_fields :=
  rewrite ?operand_imm12_fields, ?operand_imm20_fields, ?operand_simm12_fields,
    ?operand_sbimm12_fields, ?operand_jimm20_fields;
  unfold operand_rd, operand_rs1, operand_rs2, operand_shamt7, operand_csr12, operand_pred, operand_succ;
  rewrite ?u32_ufield by lia;
  repeat match goal with |- context [?a - ?b] =>
    match a with Zpos _ => let c := eval vm_compute in (a - b) in change (a - b) with c end end;
  repeat match goal with |- context [slice ?k ?n ?w] =>
    is_var w; erewrite (word_field _ _ _ _ _ w) by (eassumption || reflexivity) end.

Lemma operands_of_word pc op codec o f3 f7 d w :
  rv32_codec codec = true → wf_decode d → encodable codec (d_imm d) = true →
  w = pack (word_fields codec o f3 f7 d) → fields_ok (word_fields codec o f3 f7 d) →
  full_operands codec w (set_codec codec (set_op op (decode_init pc w)))
  = visible codec (placed pc w op d).
Proof.
  intros Hc [] He Hw Hf. destruct codec; try discriminate Hc; simpl in He;
    repeat match goal with H : _ && _ = true |- _ => apply andb_prop in H as [? ?] end;
    simpl; unfold set_operands, set_fence, visible, placed; simpl; read_fields.
  all: rewrite ?(u8_small (d_rd d)), ?(u8_small (d_rs1 d)), ?(u8_small (d_rs2 d)),
    ?(u8_small (d_pred d)), ?(u8_small (d_succ d)) by lia.
  all: f_equal.
  all: rewrite ?imm_u, ?imm_uj, ?imm_sb, ?imm_s, ?signed_slice, ?slice_0 by (simpl in *; lia).
  all: apply s32_small; lia.
Qed.

Lemma codec_of_entry op : ∃ e, opcode_entry op = Ok e ∧ od_codec e = codec_of op.
Proof. destruct op; eexists; by split. Qed.

Lemma encoded_fields_ok op e d : wf_decode d → encodable (codec_of op) (d_imm d) = true →
  assembled_as op = Some e → rv32_codec (codec_of op) = true ∧ fields_ok (encoded_fields op e d).
Proof.
  intros [] He Henc. destruct op; try discriminate Henc; injection Henc as <-; (split; [done|]).
  all: repeat (apply Forall_cons; split); [.. | apply Forall_nil]; simpl; change (32 / 4) with 8; change (0 / 4) with 0;
    split; try lia.
  all: try apply slice_range; simpl in *; lia.
Qed.

Lemma encoded_fields_encode op e d : fields_ok (encoded_fields op e d) →
  assembled_as op = Some e → accepts op e (pack (encoded_fields op e d)).
Proof.
  intros Hf Henc. destruct op; try discriminate Henc; injection Henc as <-; repeat split;
    try (apply slice_pack; [exact Hf | reflexivity]).
  all: cbn [shift_immediate]; unfold funct7; rewrite funct5_parts; by apply (slice_pack 27 5 _ _ Hf).
Qed.
Lemma assembled_as_encoding op e : assembled_as op = Some e → rv32_encoding op = Some e.
Proof. unfold assembled_as. by destruct (rv32_encoding op) as [[]|]. Qed.

(** ** Properties *)

(** C14: Assembling and disassembling are inverse on RV32IM, Zicsr and the privileged
    instructions.  For each operation and operands its format can hold, the word assembled
    by the formats of the architecture manual is recognised as that operation, in any of the
    three ISAs, and its operands are read back: registers, the sign-extended immediates with
    their scattered bits, CSR numbers, shift amounts and fence sets; the members a format
    does not have are zero. *)
Theorem assemble_decodes (isa : rv_isa) (pc : Z) (op : rv_op) (d : rv_decode) (w : Z) :
  wf_decode d → encodable (codec_of op) (d_imm d) = true → assemble op d = Some w →
  decode_inst_opcode isa w = op ∧
  decode_inst_operands (set_op op (decode_init pc w)) = Ok (visible (codec_of op) (placed pc w op d)).
Proof.
  intros Hd He Hw. unfold assemble in Hw.
  destruct (assembled_as op) as [e|] eqn:Henc; [|done]. cbn [mbind option_bind] in Hw.
  injection Hw as Hw. destruct (codec_of_entry op) as (entry & Hentry & Hcodec).
  destruct (encoded_fields_ok op e d Hd He Henc) as [Hc Hf].
  pose proof (encoded_fields_encode op e d Hf Henc) as Hin.
  rewrite Hw in Hin. unfold encoded_fields in *. destruct (encoding_fields e) as [[o f3] f7].
  split; [by apply (accepted_decodes isa w op e); [apply assembled_as_encoding|]|].
  unfold decode_inst_operands. simpl d_op. rewrite Hentry, res_bind_ok, Hcodec. cbn zeta. simpl d_codec.
  f_equal. by apply (operands_of_word pc op _ o f3 f7); [..|rewrite Hw|].
Qed.

(** ** Witnesses *)

Lemma assemble_decodes_witness :
  let d := mk_decode 0 0 (-8) rv_op_beq rv_codec_sb 0 5 6 0 0 0 0 0 0 in
  assemble rv_op_beq d = Some 0xFE628CE3 ∧ decode_inst_opcode rv32 0xFE628CE3 = rv_op_beq.
Proof.
  intros d. assert (assemble rv_op_beq d = Some 0xFE628CE3) as Hw by by vm_compute.
  split; [exact Hw|].
  apply (assemble_decodes rv32 0 rv_op_beq d 0xFE628CE3); [split; simpl; lia | by vm_compute | exact Hw].
Defined.
