(* ===== verification/Disas.v ===== *)
(** * Disassembling an instruction ([external/riscv-disas/riscv-disas.c])

    Decompression, lifting to pseudo-instructions, and the text: [disasm_inst] and the
    functions it calls after the operands are known, and [inst_fetch].  The text buffer is
    a C string in an array of [buflen] bytes: the model keeps the characters before the
    terminator, and a write past the array is a fault. *)

From Stdlib Require Import Ascii.
From S2P Require Export DisasOperand.
From S2P Require Import Format.

(** ** Decompression *)

Definition decode_inst_decompress (isa : rv_isa) (dec : rv_decode) : res rv_decode :=
  entry ← opcode_entry (d_op dec);
  let decomp_op :=
    match isa with
    | rv32 => decomp_rv32 entry | rv64 => decomp_rv64 entry | rv128 => decomp_rv128 entry
    end in
  if decide (decomp_op = rv_op_illegal) then mret dec
  else if negb (Z.land (decomp_data entry) rvcd_imm_nz =? 0) && (d_imm dec =? 0)
  then mret (set_op rv_op_illegal dec)
  else target ← opcode_entry decomp_op; mret (set_codec (od_codec target) (set_op decomp_op dec)).

(** ** Pseudo-instructions *)

(** One constraint; [rvc_end] ends the list before it is asked. *)
Definition check_constraint (dec : rv_decode) (c : rvc_constraint) : bool :=
  let imm := d_imm dec in let rd := d_rd dec in let rs1 := d_rs1 dec in let rs2 := d_rs2 dec in
  match c with
  | rvc_end => true
  | rvc_rd_eq_ra => rd =? 1
  | rvc_rd_eq_x0 => rd =? 0
  | rvc_rs1_eq_x0 => rs1 =? 0
  | rvc_rs2_eq_x0 => rs2 =? 0
  | rvc_rs2_eq_rs1 => rs2 =? rs1
  | rvc_rs1_eq_ra => rs1 =? 1
  | rvc_imm_eq_zero => imm =? 0
  | rvc_imm_eq_n1 => imm =? -1
  | rvc_imm_eq_p1 => imm =? 1
  | rvc_csr_eq_0x001 => imm =? 0x001
  | rvc_csr_eq_0x002 => imm =? 0x002
  | rvc_csr_eq_0x003 => imm =? 0x003
  | rvc_csr_eq_0xc00 => imm =? 0xc00
  | rvc_csr_eq_0xc01 => imm =? 0xc01
  | rvc_csr_eq_0xc02 => imm =? 0xc02
  | rvc_csr_eq_0xc80 => imm =? 0xc80
  | rvc_csr_eq_0xc81 => imm =? 0xc81
  | rvc_csr_eq_0xc82 => imm =? 0xc82
  end.

(** The loop reads past a list that has no terminator. *)
Fixpoint check_constraints (dec : rv_decode) (c : list rvc_constraint) : res bool :=
  match c with
  | [] => Fail (Undefined ub_out_of_bounds)
  | rvc_end :: _ => mret true
  | k :: c => if check_constraint dec k then check_constraints dec c else mret false
  end.

Fixpoint lift_loop (dec : rv_decode) (comp_data : list rv_comp_data) : res rv_decode :=
  match comp_data with
  | [] => Fail (Undefined ub_out_of_bounds)
  | (_, None) :: _ => mret dec
  | (op, Some constraints) :: comp_data =>
      b ← check_constraints dec constraints;
      if (b : bool) then entry ← opcode_entry op; mret (set_codec (od_codec entry) (set_op op dec))
      else lift_loop dec comp_data
  end.

Definition decode_inst_lift_pseudo (dec : rv_decode) : res rv_decode :=
  entry ← opcode_entry (d_op dec);
  match od_pseudo entry with None => mret dec | Some comp_data => lift_loop dec comp_data end.

(** ** Text *)

Definition strlen (s : string) : Z := Z.of_nat (String.length s).
Definition str_take (n : Z) (s : string) : string := String.substring 0 (Z.to_nat n) s.

(** [append(s1, s2, n)] on a string [s1] in an array of [size] bytes. *)
Definition append (size : Z) (s1 s2 : string) (n : Z) : res string :=
  let l1 := strlen s1 in
  if 0 <? n - l1 - 1 then
    (* strncat: at most [n - l1] characters, then the terminator *)
    let s := s1 +:+ str_take (n - l1) s2 in
    if strlen s <? size then mret s else Fail (Undefined ub_out_of_bounds)
  else mret s1.

(** [snprintf(buf, size, ...)] of a text, into an array of at least [size] bytes. *)
Definition snprintf (size : Z) (s : string) : string := str_take (size - 1) s.

Fixpoint zeros (n : nat) : string := match n with O => "" | S n => String "0"%char (zeros n) end.
(** [%x], [%0<width>x] and [%d]; a 64-bit value has at most 16 hexadecimal digits, an [int]
    at most 10 decimal ones. *)
Definition hex_digits (z : Z) : string := digits 16 16 z "".
Definition hex_zero (width : nat) (z : Z) : string :=
  zeros (width - String.length (hex_digits z)) +:+ hex_digits z.
Definition int_str (z : Z) : string := if z <? 0 then "-" +:+ dec_str (- z) else dec_str z.

Definition inst_length (inst : Z) : Z :=
  if negb (Z.land inst 3 =? 3) then 2
  else if negb (Z.land inst 28 =? 28) then 4
  else if Z.land inst 63 =? 31 then 6
  else if Z.land inst 127 =? 63 then 8
  else 0.

(** [INST_FMT_2] to [INST_FMT_8]. *)
Definition inst_text (inst : Z) : string :=
  switch (inst_length inst)
    [(2, hex_zero 4 inst +:+ pad 14); (4, hex_zero 8 inst +:+ pad 10); (6, hex_zero 12 inst +:+ pad 6)]
    (hex_zero 16 inst +:+ pad 2).

(** [while (strlen(buf) < col) append(buf, " ", buflen);] *)
Fixpoint pad_to (fuel : nat) (buflen col : Z) (buf : string) : res string :=
  match fuel with
  | O => Fail OutOfFuel
  | S fuel =>
      if strlen buf <? col then buf ← append buflen buf " " (s64 buflen); pad_to fuel buflen col buf
      else mret buf
  end.
(** One round for each column, and the last test. *)
Definition pad_fuel (col : Z) : nat := S (Z.to_nat col).

Definition name_of (names : list string) (reg : Z) : res string :=
  or_fail (Undefined ub_out_of_bounds) (nth_z names reg).

Definition rounding_mode (rm : Z) : string :=
  switch rm [(0, "rne"); (1, "rtz"); (2, "rdn"); (3, "rup"); (4, "rmm"); (7, "dyn")] "inv".

Section format.
Context (buflen tab_ : Z) (dec : rv_decode) (entry : rv_opcode_data).

Definition put (s buf : string) : res string := append buflen buf s (s64 buflen).
Definition put_if (b : bool) (s buf : string) : res string := if b then put s buf else mret buf.
Definition put_fence (set : Z) (buf : string) : res string :=
  buf ← put_if (negb (Z.land set rv_fence_i =? 0)) "i" buf;
  buf ← put_if (negb (Z.land set rv_fence_o =? 0)) "o" buf;
  buf ← put_if (negb (Z.land set rv_fence_r =? 0)) "r" buf;
  put_if (negb (Z.land set rv_fence_w =? 0)) "w" buf.
Definition put_name (names : list string) (reg : Z) (buf : string) : res string :=
  s ← name_of names reg; put s buf.
(** Through [tmp], an array of 64 bytes. *)
Definition put_tmp (s buf : string) : res string := put (snprintf 64 s) buf.

Definition format_char (c : ascii) (buf : string) : res string :=
  match c with
  | "O"%char => put (od_name entry) buf
  | "("%char => put "(" buf
  | ","%char => put "," buf
  | ")"%char => put ")" buf
  | "0"%char => put_name rv_ireg_name_sym (d_rd dec) buf
  | "1"%char => put_name rv_ireg_name_sym (d_rs1 dec) buf
  | "2"%char => put_name rv_ireg_name_sym (d_rs2 dec) buf
  | "3"%char => put_name rv_freg_name_sym (d_rd dec) buf
  | "4"%char => put_name rv_freg_name_sym (d_rs1 dec) buf
  | "5"%char => put_name rv_freg_name_sym (d_rs2 dec) buf
  | "6"%char => put_name rv_freg_name_sym (d_rs3 dec) buf
  | "7"%char => put_tmp (int_str (d_rs1 dec)) buf
  | "i"%char => put_tmp (int_str (d_imm dec)) buf
  | "o"%char =>
      buf ← put_tmp (int_str (d_imm dec)) buf;
      buf ← pad_to (pad_fuel (tab_ * 2)) buflen (tab_ * 2) buf;
      put_tmp ("# 0x" +:+ hex_digits (u64 (d_pc dec + d_imm dec))) buf
  | "c"%char =>
      match csr_name (Z.land (d_imm dec) 0xfff) with
      | Some name => put name buf
      | None => put_tmp ("0x" +:+ hex_zero 3 (Z.land (d_imm dec) 0xfff)) buf
      end
  | "r"%char => put (rounding_mode (d_rm dec)) buf
  | "p"%char => put_fence (d_pred dec) buf
  | "s"%char => put_fence (d_succ dec) buf
  | "009"%char => pad_to (pad_fuel tab_) buflen tab_ buf
  | "A"%char => put_if (negb (d_aq dec =? 0)) ".aq" buf
  | "R"%char => put_if (negb (d_rl dec =? 0)) ".rl" buf
  | _ => mret buf
  end.

Fixpoint format_loop (fmt : string) (buf : string) : res string :=
  match fmt with
  | EmptyString => mret buf
  | String c fmt => buf ← format_char c buf; format_loop fmt buf
  end.
End format.

(** With an array of no bytes the first [strlen] reads outside it. *)
Definition decode_inst_format (buflen tab_ : Z) (dec : rv_decode) : res string :=
  entry ← opcode_entry (d_op dec);
  if buflen <=? 0 then Fail (Undefined ub_out_of_bounds)
  else format_loop buflen tab_ dec entry (od_format entry) (snprintf buflen (inst_text (d_inst dec))).

(** The record that [disasm_inst] formats. *)
Definition disasm_decode (isa : rv_isa) (pc inst : Z) : res rv_decode :=
  let dec := decode_init pc inst in
  let dec := set_op (decode_inst_opcode isa inst) dec in
  dec ← decode_inst_operands dec;
  dec ← decode_inst_decompress isa dec;
  decode_inst_lift_pseudo dec.

Definition disasm_inst (buflen : Z) (isa : rv_isa) (pc inst : Z) : res string :=
  dec ← disasm_decode isa pc inst;
  decode_inst_format buflen 32 dec.

(** ** [inst_fetch] *)

Definition byte_at (data : list Z) (i : Z) : res Z := or_fail (Undefined ub_out_of_bounds) (nth_z data i).
(** Two bytes at their place, [(data[i + 1] << 8 * (i + 1)) | (data[i] << 8 * i)]. *)
Definition fetch_pair (data : list Z) (i : Z) : res Z :=
  hi ← byte_at data (i + 1);
  lo ← byte_at data i;
  mret (Z.lor (shl64 hi (8 * (i + 1))) (shl64 lo (8 * i))).

Definition inst_fetch (data : list Z) : res (Z * Z) :=
  inst ← fetch_pair data 0;
  let len := inst_length inst in
  inst ← (if 8 <=? len then p ← fetch_pair data 6; mret (Z.lor inst p) else mret inst);
  inst ← (if 6 <=? len then p ← fetch_pair data 4; mret (Z.lor inst p) else mret inst);
  inst ← (if 4 <=? len then p ← fetch_pair data 2; mret (Z.lor inst p) else mret inst);
  mret (inst, len).

(** ** The rendering, without a buffer *)

Definition text_of (names : list string) (reg : Z) : string := default "" (nth_z names reg).
Definition text_if (b : bool) (s : string) : string := if b then s else "".
Definition fence_text (set : Z) : string :=
  text_if (Z.testbit set 3) "i" +:+ text_if (Z.testbit set 2) "o"
  +:+ text_if (Z.testbit set 1) "r" +:+ text_if (Z.testbit set 0) "w".

(** What each format character stands for; the tabulator and the branch target move to a
    column first. *)
Definition item_text (dec : rv_decode) (name : string) (c : ascii) : string :=
  match c with
  | "O"%char => name
  | "("%char => "(" | ","%char => "," | ")"%char => ")"
  | "0"%char => text_of rv_ireg_name_sym (d_rd dec)
  | "1"%char => text_of rv_ireg_name_sym (d_rs1 dec)
  | "2"%char => text_of rv_ireg_name_sym (d_rs2 dec)
  | "3"%char => text_of rv_freg_name_sym (d_rd dec)
  | "4"%char => text_of rv_freg_name_sym (d_rs1 dec)
  | "5"%char => text_of rv_freg_name_sym (d_rs2 dec)
  | "6"%char => text_of rv_freg_name_sym (d_rs3 dec)
  | "7"%char => int_str (d_rs1 dec)
  | "i"%char => int_str (d_imm dec)
  | "c"%char =>
      let csrno := slice 0 12 (d_imm dec) in
      default ("0x" +:+ hex_zero 3 csrno) (csr_name csrno)
  | "r"%char => rounding_mode (d_rm dec)
  | "p"%char => fence_text (d_pred dec)
  | "s"%char => fence_text (d_succ dec)
  | "A"%char => text_if (d_aq dec =? 1) ".aq"
  | "R"%char => text_if (d_rl dec =? 1) ".rl"
  | _ => ""
  end.
Definition target_text (dec : rv_decode) : string := "# 0x" +:+ hex_digits (u64 (d_pc dec + d_imm dec)).

Definition emit (dec : rv_decode) (name : string) (buf : string) (c : ascii) : string :=
  match c with
  | "009"%char => left_field 32 buf
  | "o"%char => left_field 64 (buf +:+ int_str (d_imm dec)) +:+ target_text dec
  | _ => buf +:+ item_text dec name c
  end.
Fixpoint emit_all (dec : rv_decode) (name fmt buf : string) : string :=
  match fmt with
  | EmptyString => buf
  | String c fmt => emit_all dec name fmt (emit dec name buf c)
  end.

(** The line of a decoded instruction. *)
Definition entry_of (op : rv_op) : rv_opcode_data :=
  default (plain_op "" rv_codec_illegal "" None) (nth_z opcode_data (rv_op_val op)).
Definition render (dec : rv_decode) : string :=
  let entry := entry_of (d_op dec) in
  emit_all dec (od_name entry) (od_format entry) (inst_text (d_inst dec)).

(** ** Lemmas *)

(** *** The buffer *)

Lemma strlen_append s t : strlen (s +:+ t) = strlen s + strlen t.
Proof. unfold strlen. rewrite length_append. lia. Qed.
Lemma strlen_pad n : strlen (pad n) = Z.of_nat n.
Proof. unfold strlen. by rewrite length_pad. Qed.
Lemma strlen_nonneg s : 0 ≤ strlen s.
Proof. unfold strlen. lia. Qed.

Lemma str_take_all n s : strlen s ≤ n → str_take n s = s.
Proof.
  unfold str_take, strlen. revert n. induction s as [|c s IH]; intros n Hn; simpl in *.
  - by destruct (Z.to_nat n).
  - destruct (Z.to_nat n) as [|m] eqn:Hm; [lia|]. simpl. f_equal.
    rewrite <-(Nat2Z.id m). apply IH. lia.
Qed.
Lemma strlen_str_take n s : 0 ≤ n → n ≤ strlen s → strlen (str_take n s) = n.
Proof.
  unfold str_take, strlen. revert n. induction s as [|c s IH]; intros n Hn Hl; simpl in *.
  - destruct (Z.to_nat n); simpl; lia.
  - destruct (Z.to_nat n) as [|m] eqn:Hm; simpl; [lia|].
    pose proof (IH (Z.of_nat m) ltac:(lia) ltac:(lia)) as Hrec. rewrite Nat2Z.id in Hrec. lia.
Qed.

Lemma append_eq size s1 s2 : size < 2 ^ 63 → strlen s1 < size →
  append size s1 s2 (s64 size)
  = if size - strlen s1 <=? 1 then Ok s1
    else if strlen s2 <? size - strlen s1 then Ok (s1 +:+ s2) else Fail (Undefined ub_out_of_bounds).
Proof.
  intros Hs Hl. pose proof (strlen_nonneg s1). pose proof (strlen_nonneg s2).
  assert (s64 size = size) as ->.
  { unfold s64. rewrite u64_small by lia. by rewrite (proj2 (Z.ltb_lt _ _)). }
  unfold append. destruct (Z.leb_spec (size - strlen s1) 1).
  { by rewrite (proj2 (Z.ltb_ge _ _)) by lia. }
  rewrite (proj2 (Z.ltb_lt 0 _)) by lia. rewrite strlen_append.
  destruct (Z.ltb_spec (strlen s2) (size - strlen s1)).
  - rewrite str_take_all by lia. by rewrite (proj2 (Z.ltb_lt _ _)) by lia.
  - rewrite strlen_str_take by lia. by rewrite (proj2 (Z.ltb_ge _ _)) by lia.
Qed.

(** *** Columns *)

Section pad_to.
Context (buflen col : Z) (Hb : buflen < 2 ^ 63).

Lemma pad_to_done fuel buf : col ≤ strlen buf → pad_to (S fuel) buflen col buf = Ok buf.
Proof. intros. simpl. by rewrite (proj2 (Z.ltb_ge _ _)). Qed.

Lemma pad_to_round fuel buf : strlen buf < col → strlen buf + 1 < buflen →
  pad_to (S fuel) buflen col buf = pad_to fuel buflen col (buf +:+ " ").
Proof.
  intros Hc Hl. simpl. rewrite (proj2 (Z.ltb_lt _ _)), append_eq by lia.
  change (strlen " ") with 1. by rewrite (proj2 (Z.leb_gt _ _)), (proj2 (Z.ltb_lt _ _)) by lia.
Qed.

Lemma pad_to_column fuel buf : strlen buf < buflen → col < buflen → (Z.to_nat (col - strlen buf) < fuel)%nat →
  pad_to fuel buflen col buf = Ok (left_field (Z.to_nat col) buf).
Proof.
  intros Hl Hc. remember (Z.to_nat (col - strlen buf)) as k eqn:Hk. revert fuel buf Hl Hk.
  induction k as [|k IH]; intros [|fuel] buf Hl Hk Hf; try lia.
  - rewrite pad_to_done by lia. unfold left_field. unfold strlen in Hk.
    replace (Z.to_nat col - String.length buf)%nat with 0%nat by lia. by rewrite append_nil.
  - rewrite pad_to_round by lia. rewrite IH.
    + unfold left_field. rewrite length_append. unfold strlen in Hk. simpl String.length.
      replace (Z.to_nat col - String.length buf)%nat with (S (Z.to_nat col - (String.length buf + 1))) by lia.
      by rewrite <-append_assoc.
    + rewrite strlen_append. change (strlen " ") with 1. lia.
    + rewrite strlen_append. change (strlen " ") with 1. lia.
    + lia.
Qed.

(** A full buffer keeps the loop going. *)
Lemma pad_to_stuck fuel buf : strlen buf < buflen → buflen ≤ col → pad_to fuel buflen col buf = Fail OutOfFuel.
Proof.
  intros Hl Hc. revert buf Hl. induction fuel as [|fuel IH]; intros buf Hl; [done|].
  destruct (Z.ltb_spec (strlen buf + 1) buflen).
  - rewrite pad_to_round by lia. apply IH. rewrite strlen_append. by change (strlen " ") with 1.
  - simpl. rewrite (proj2 (Z.ltb_lt _ _)), append_eq by lia.
    rewrite (proj2 (Z.leb_le _ _)) by lia. by apply IH.
Qed.
End pad_to.

(** *** The decoded record *)

(** All but operation and codec agree. *)
Definition same_operands (d d' : rv_decode) : Prop := d' = set_codec (d_codec d') (set_op (d_op d') d).

Lemma same_operands_refl d : same_operands d d.
Proof. by destruct d. Qed.
Lemma same_operands_set d op codec : same_operands d (set_codec codec (set_op op d)).
Proof. by destruct d. Qed.
Lemma same_operands_trans d1 d2 d3 : same_operands d1 d2 → same_operands d2 d3 → same_operands d1 d3.
Proof. unfold same_operands. intros -> ->. by destruct d1, d3. Qed.
Lemma same_operands_wf d d' : same_operands d d' → wf_decode d → wf_decode d'.
Proof. unfold same_operands. intros -> Hd. by apply wf_set_codec, wf_set_op. Qed.

Lemma entry_of_eq op : opcode_entry op = Ok (entry_of op).
Proof. by destruct op. Qed.

Fixpoint terminated (c : list rvc_constraint) : bool :=
  match c with [] => false | rvc_end :: _ => true | _ :: c => terminated c end.
(** A list of alternatives whose last has no constraints. *)
Fixpoint alternatives_ok (comp_data : list rv_comp_data) : bool :=
  match comp_data with
  | [] => false
  | (_, None) :: _ => true
  | (op, Some c) :: comp_data => terminated c && alternatives_ok comp_data
  end.

(** The constraints up to the terminator. *)
Fixpoint constraints_of (c : list rvc_constraint) : list rvc_constraint :=
  match c with [] => [] | rvc_end :: _ => [] | k :: c => k :: constraints_of c end.

Lemma check_constraints_eq d c : terminated c = true →
  check_constraints d c = Ok (forallb (check_constraint d) (constraints_of c)).
Proof.
  induction c as [|k c IH]; [done|]. intros Hc.
  destruct k; [done| ..]; specialize (IH Hc); cbn [check_constraints constraints_of forallb];
    by destruct (check_constraint d _).
Qed.

Lemma tables_ok op :
  match od_pseudo (entry_of op) with None => true | Some l => alternatives_ok l end = true.
Proof. by destruct op. Qed.

(** Lifting keeps the record, or takes the first alternative whose constraints hold. *)
Lemma lift_loop_ok d comp_data : alternatives_ok comp_data = true →
  lift_loop d comp_data = Ok d ∨
  ∃ op c, (op, Some c) ∈ comp_data ∧ forallb (check_constraint d) (constraints_of c) = true ∧
    lift_loop d comp_data = Ok (set_codec (codec_of op) (set_op op d)).
Proof.
  induction comp_data as [|[op [c|]] comp_data IH]; [done| |by left].
  simpl. intros [Hc Hl]%andb_prop. rewrite check_constraints_eq, res_bind_ok by done.
  destruct (forallb _ _) eqn:Hb.
  - right. exists op, c. split; [by left|]. split; [done|].
    destruct (codec_of_entry op) as (e & -> & <-). done.
  - destruct (IH Hl) as [?|(op' & c' & Hin & Hb' & Heq)]; [by left|].
    right. exists op', c'. split; [by right | done].
Qed.

Lemma lift_ok d : ∃ d', decode_inst_lift_pseudo d = Ok d' ∧ same_operands d d' ∧
  (d' = d ∨ d_codec d' = codec_of (d_op d')).
Proof.
  unfold decode_inst_lift_pseudo. rewrite entry_of_eq, res_bind_ok. pose proof (tables_ok (d_op d)) as Hok.
  destruct (od_pseudo _) as [l|]; [|by exists d; eauto using same_operands_refl].
  destruct (lift_loop_ok d l Hok) as [->|(op & c & _ & _ & ->)].
  - exists d; eauto using same_operands_refl.
  - eexists. split; [done|]. split; [apply same_operands_set | by right].
Qed.

Lemma decompress_ok isa d : ∃ d', decode_inst_decompress isa d = Ok d' ∧ same_operands d d' ∧
  (d' = d ∨ d_op d' = rv_op_illegal ∨ d_codec d' = codec_of (d_op d')).
Proof.
  unfold decode_inst_decompress. rewrite entry_of_eq, res_bind_ok. cbn zeta.
  set (op := match isa with rv32 => _ | rv64 => _ | rv128 => _ end). clearbody op.
  destruct (decide _); [by exists d; eauto using same_operands_refl|]. destruct (_ && _).
  - eexists. split; [done|]. split; [by destruct d | auto].
  - destruct (codec_of_entry op) as (e & -> & He). rewrite res_bind_ok.
    eexists. split; [done|]. split; [apply same_operands_set | by right; right].
Qed.

Lemma decode_inst_operands_ok dec : wf_decode dec →
  ∃ d, decode_inst_operands dec = Ok d ∧ wf_decode d ∧ d_pc d = d_pc dec ∧ d_inst d = d_inst dec ∧
    d_op d = d_op dec ∧ d_codec d = codec_of (d_op dec).
Proof.
  intros Hd. destruct (codec_of_entry (d_op dec)) as (e & He & Hc). unfold decode_inst_operands.
  rewrite He, res_bind_ok, Hc. eexists. split; [done|]. cbn zeta. simpl d_codec. simpl d_inst.
  split; [by apply full_operands_wf, wf_set_codec|]. by destruct (codec_of (d_op dec)).
Qed.

(** The record that is formatted: operands in range, and the codec of its operation unless
    an invalid compressed instruction was made illegal. *)
Lemma disasm_decode_ok isa pc inst : ∃ d, disasm_decode isa pc inst = Ok d ∧ wf_decode d ∧
  d_pc d = pc ∧ d_inst d = inst ∧ (d_op d = rv_op_illegal ∨ d_codec d = codec_of (d_op d)).
Proof.
  unfold disasm_decode. cbn zeta.
  destruct (decode_inst_operands_ok (set_op (decode_inst_opcode isa inst) (decode_init pc inst)))
    as (d1 & -> & Hw1 & Hpc & Hin & Hop & Hc); [apply wf_set_op, wf_decode_init|]. rewrite res_bind_ok.
  destruct (decompress_ok isa d1) as (d2 & -> & Hs2 & Hc2). rewrite res_bind_ok.
  destruct (lift_ok d2) as (d3 & -> & Hs3 & Hc3). exists d3. split; [done|].
  pose proof (same_operands_trans _ _ _ Hs2 Hs3) as Hs. split; [by eapply same_operands_wf|].
  rewrite Hs. split; [done|]. split; [done|]. simpl.
  destruct Hc3 as [->|?]; [|by right]. destruct Hc2 as [->|[?|?]]; [right; congruence | by left | by right].
Qed.

(** *** Lengths *)

Lemma hex_digits_length n z : 0 ≤ z < 16 ^ Z.of_nat (S n) → (String.length (hex_digits z) ≤ S n)%nat.
Proof.
  intros Hz. pose proof (digits_length 16 16 n z "" ltac:(lia) Hz). unfold hex_digits.
  simpl (String.length "") in *. lia.
Qed.
Lemma zeros_length n : String.length (zeros n) = n.
Proof. induction n as [|n IH]; [done|]. simpl. by rewrite IH. Qed.
Lemma hex_zero_length w z : String.length (hex_zero w z) = Nat.max w (String.length (hex_digits z)).
Proof. unfold hex_zero. rewrite length_append, zeros_length. lia. Qed.

Lemma int_str_length z : is_s32 z → strlen (int_str z) ≤ 11.
Proof.
  intros Hz. unfold int_str, dec_str, strlen. destruct (Z.ltb_spec z 0).
  - pose proof (digits_length 10 10 9 (- z) "" ltac:(lia) ltac:(simpl; lia)).
    rewrite length_append. simpl (String.length "-"). simpl (String.length "") in *. lia.
  - pose proof (digits_length 10 10 9 z "" ltac:(lia) ltac:(simpl; lia)).
    simpl (String.length "") in *. lia.
Qed.

Lemma inst_text_length inst : is_u64 inst → 18 ≤ strlen (inst_text inst) ≤ 30.
Proof.
  intros Hi. pose proof (hex_digits_length 15 inst ltac:(simpl; lia)).
  unfold inst_text. apply (switch_ind (λ s, 18 ≤ strlen s ≤ 30)); [rewrite !Forall_cons, Forall_nil; split_and!|];
    intros; cbn [snd]; rewrite ?strlen_append, ?strlen_pad; unfold strlen; rewrite ?hex_zero_length; lia || done.
Qed.

Lemma name_ok names reg : length names = 32%nat → 0 ≤ reg < 32 →
  name_of names reg = Ok (text_of names reg).
Proof.
  intros Hl Hr. destruct (nth_z_lt names reg) as [x Hx]; [lia|]. unfold name_of, text_of. by rewrite Hx.
Qed.
Lemma name_length names reg : Forall (λ s, strlen s ≤ 4) names → strlen (text_of names reg) ≤ 4.
Proof.
  intros Hn. unfold text_of. destruct (nth_z names reg) eqn:Hx; [|done]. exact (nth_z_Forall _ _ _ _ Hn Hx).
Qed.
Lemma ireg_names_length : Forall (λ s, strlen s ≤ 4) rv_ireg_name_sym.
Proof. apply (Forall_check _ (λ s, strlen s <=? 4)); [intros; lia | by vm_compute]. Qed.
Lemma freg_names_length : Forall (λ s, strlen s ≤ 4) rv_freg_name_sym.
Proof. apply (Forall_check _ (λ s, strlen s <=? 4)); [intros; lia | by vm_compute]. Qed.

Lemma csr_name_length csrno s : csr_name csrno = Some s → strlen s ≤ 14.
Proof.
  unfold csr_name. apply (switch_ind (λ o, o = Some s → strlen s ≤ 14)); [|done].
  apply (Forall_check _ (λ c, match c.2 with Some s => strlen s <=? 14 | None => true end)); [|by vm_compute].
  intros [k o] Hc _ Ho. simpl in *. rewrite Ho in Hc. lia.
Qed.

Lemma fence_text_length set : strlen (fence_text set) ≤ 4.
Proof.
  unfold fence_text. rewrite !strlen_append.
  destruct (Z.testbit set 3), (Z.testbit set 2), (Z.testbit set 1), (Z.testbit set 0); by vm_compute.
Qed.
Lemma rounding_mode_length rm : strlen (rounding_mode rm) = 3.
Proof. unfold rounding_mode. apply (switch_ind (λ s, strlen s = 3)); [by rewrite !Forall_cons, Forall_nil | done]. Qed.

(** The longest text of an item, and the longest line after it. *)
Definition item_max (name : string) (c : ascii) : Z :=
  match c with
  | "O"%char => strlen name
  | "("%char | ","%char | ")"%char => 1
  | "0"%char | "1"%char | "2"%char | "3"%char | "4"%char | "5"%char | "6"%char | "p"%char | "s"%char => 4
  | "7"%char | "i"%char => 11
  | "c"%char => 14
  | "r"%char | "A"%char | "R"%char => 3
  | _ => 0
  end.
Definition emit_max (name : string) (l : Z) (c : ascii) : Z :=
  match c with
  | "009"%char => Z.max 32 l
  | "o"%char => Z.max 64 (l + 11) + 20
  | _ => l + item_max name c
  end.
Fixpoint line_max (name fmt : string) (l : Z) : Z :=
  match fmt with EmptyString => l | String c fmt => line_max name fmt (emit_max name l c) end.

(** Whatever the operation, a line has at most 90 characters. *)
Lemma lines_fit op : line_max (od_name (entry_of op)) (od_format (entry_of op)) 30 ≤ 90.
Proof.
  revert op. apply (check_rv_op _ (λ op, line_max (od_name (entry_of op)) (od_format (entry_of op)) 30 <=? 90));
    [intros; lia | by vm_compute].
Qed.

Lemma item_length d name c : wf_decode d → strlen (item_text d name c) ≤ item_max name c.
Proof.
  intros []. pose proof ireg_names_length. pose proof freg_names_length.
  assert (∀ b s, strlen s = 3 → strlen (text_if b s) ≤ 3) as Hif by (intros [] s Hs; [rewrite <-Hs; done | done]).
  assert (strlen ("0x" +:+ hex_zero 3 (slice 0 12 (d_imm d))) ≤ 14).
  { pose proof (hex_digits_length 2 (slice 0 12 (d_imm d)) (slice_range 0 12 _ ltac:(lia))).
    unfold strlen. rewrite length_append, hex_zero_length. simpl (String.length "0x"). lia. }
  destruct c as [[] [] [] [] [] [] [] []]; cbn [item_text item_max];
    first [ reflexivity | done | by apply name_length | by apply Hif | apply int_str_length; lia
          | by rewrite rounding_mode_length | apply fence_text_length | idtac ].
  destruct (csr_name _) eqn:Hc; [by eapply csr_name_length | done].
Qed.

Lemma target_length d : strlen (target_text d) ≤ 20.
Proof.
  unfold target_text. rewrite strlen_append. change (strlen "# 0x") with 4. unfold strlen.
  pose proof (hex_digits_length 15 _ (u64_range (d_pc d + d_imm d))). lia.
Qed.
Lemma strlen_left_field w s : strlen (left_field w s) = Z.max (Z.of_nat w) (strlen s).
Proof. unfold left_field. rewrite strlen_append, strlen_pad. unfold strlen. lia. Qed.

Lemma emit_length d name buf c l : wf_decode d → strlen buf ≤ l →
  strlen buf ≤ strlen (emit d name buf c) ≤ emit_max name l c.
Proof.
  intros Hd Hl. pose proof (item_length d name c Hd). pose proof (strlen_nonneg (item_text d name c)).
  pose proof (int_str_length (d_imm d) ltac:(apply Hd)). pose proof (strlen_nonneg (int_str (d_imm d))).
  pose proof (target_length d). pose proof (strlen_nonneg (target_text d)).
  assert (strlen buf ≤ strlen (buf +:+ item_text d name c) ≤ l + item_max name c) by (rewrite strlen_append; lia).
  destruct c as [[] [] [] [] [] [] [] []]; cbn [emit emit_max]; try assumption;
    rewrite ?strlen_append, !strlen_left_field, ?strlen_append; lia.
Qed.

Lemma emit_max_le name l c : l ≤ emit_max name l c.
Proof.
  assert (0 ≤ item_max name c).
  { pose proof (strlen_nonneg name). by destruct c as [[] [] [] [] [] [] [] []]; cbn [item_max]. }
  destruct c as [[] [] [] [] [] [] [] []]; cbn [emit_max]; lia.
Qed.
Lemma line_max_le name fmt l : l ≤ line_max name fmt l.
Proof.
  revert l. induction fmt as [|c fmt IH]; intros l; [done|]. simpl.
  etrans; [apply (emit_max_le name l c) | apply IH].
Qed.

(** *** The buffer against the rendering *)

Section bounded.
Context (buflen : Z) (Hb : 64 < buflen < 2 ^ 63).

Lemma put_ok s buf : strlen (buf +:+ s) < buflen → put buflen s buf = Ok (buf +:+ s).
Proof.
  rewrite strlen_append. intros Hl. pose proof (strlen_nonneg buf). pose proof (strlen_nonneg s).
  unfold put. rewrite append_eq by lia. destruct (Z.leb_spec (buflen - strlen buf) 1).
  - assert (strlen s = 0) as Hs by lia. destruct s; [by rewrite append_nil | done].
  - by rewrite (proj2 (Z.ltb_lt _ _)) by lia.
Qed.
Lemma put_if_ok b s buf : strlen (buf +:+ text_if b s) < buflen → put_if buflen b s buf = Ok (buf +:+ text_if b s).
Proof. destruct b; [apply put_ok | by rewrite append_nil]. Qed.
Lemma put_tmp_ok s buf : strlen s ≤ 63 → strlen (buf +:+ s) < buflen → put_tmp buflen s buf = Ok (buf +:+ s).
Proof. intros Hs. unfold put_tmp, snprintf. rewrite str_take_all by lia. apply put_ok. Qed.
Lemma put_name_ok names reg buf : length names = 32%nat → 0 ≤ reg < 32 →
  strlen (buf +:+ text_of names reg) < buflen → put_name buflen names reg buf = Ok (buf +:+ text_of names reg).
Proof. intros Hn Hr. unfold put_name. rewrite name_ok, res_bind_ok by done. apply put_ok. Qed.

Lemma fence_bits set : 0 ≤ set < 16 →
  negb (Z.land set rv_fence_i =? 0) = Z.testbit set 3 ∧ negb (Z.land set rv_fence_o =? 0) = Z.testbit set 2 ∧
  negb (Z.land set rv_fence_r =? 0) = Z.testbit set 1 ∧ negb (Z.land set rv_fence_w =? 0) = Z.testbit set 0.
Proof.
  intros Hs. assert (set ∈ seqZ 0 16) as Hin by (apply elem_of_seqZ; lia). clear Hs. revert set Hin.
  apply Forall_forall. repeat (apply Forall_cons; split; [by vm_compute|]). apply Forall_nil_2.
Qed.
Lemma put_fence_ok set buf : 0 ≤ set < 16 → strlen (buf +:+ fence_text set) < buflen →
  put_fence buflen set buf = Ok (buf +:+ fence_text set).
Proof.
  intros Hs. destruct (fence_bits set Hs) as (Hi & Ho & Hr & Hw). unfold put_fence, fence_text.
  rewrite Hi, Ho, Hr, Hw, !strlen_append. intros Hl.
  repeat match goal with |- context [text_if ?b ?s] =>
    lazymatch goal with _ : 0 <= strlen (text_if b s) |- _ => fail | _ => pose proof (strlen_nonneg (text_if b s)) end end.
  rewrite put_if_ok, res_bind_ok by (rewrite !strlen_append; lia).
  rewrite put_if_ok, res_bind_ok by (rewrite !strlen_append; lia).
  rewrite put_if_ok, res_bind_ok by (rewrite !strlen_append; lia).
  rewrite put_if_ok by (rewrite !strlen_append; lia). by rewrite !append_assoc.
Qed.

Lemma target_ok d buf : wf_decode d → strlen (emit d "" buf "o") < buflen →
  format_char buflen 32 d (entry_of (d_op d)) "o" buf = Ok (emit d "" buf "o").
Proof.
  intros Hd. cbn [format_char emit]. rewrite strlen_append, strlen_left_field. intros Hl.
  pose proof (strlen_nonneg (target_text d)). pose proof (int_str_length (d_imm d) ltac:(apply Hd)).
  rewrite put_tmp_ok, res_bind_ok by lia. change (32 * 2) with 64.
  rewrite pad_to_column, res_bind_ok; [| lia | lia | lia | unfold pad_fuel; pose proof (strlen_nonneg (buf +:+ int_str (d_imm d))); lia].
  apply put_tmp_ok; [pose proof (target_length d); unfold target_text in *; lia|].
  change ("# 0x" +:+ hex_digits (u64 (d_pc d + d_imm d))) with (target_text d).
  rewrite strlen_append, strlen_left_field. lia.
Qed.

Lemma csr_ok d buf : strlen (buf +:+ item_text d "" "c") < buflen →
  format_char buflen 32 d (entry_of (d_op d)) "c" buf = Ok (buf +:+ item_text d "" "c").
Proof.
  cbn [format_char item_text].
  assert (Z.land (d_imm d) 0xfff = slice 0 12 (d_imm d)) as -> by (rewrite <-(Z.shiftr_0_r (d_imm d)) at 1; by apply land_slice).
  destruct (csr_name _) as [s|]; simpl default; [apply put_ok|]. apply put_tmp_ok.
  pose proof (hex_digits_length 2 _ (slice_range 0 12 (d_imm d) ltac:(lia))).
  unfold strlen. rewrite length_append, hex_zero_length. simpl (String.length "0x"). lia.
Qed.

Lemma format_char_ok d c buf : wf_decode d →
  strlen buf < buflen → strlen (emit d (od_name (entry_of (d_op d))) buf c) < buflen →
  format_char buflen 32 d (entry_of (d_op d)) c buf = Ok (emit d (od_name (entry_of (d_op d))) buf c).
Proof.
  intros Hd Hlb Hl. pose proof (target_ok d buf Hd) as Ho. pose proof (csr_ok d buf) as Hc. destruct Hd.
  destruct c as [[] [] [] [] [] [] [] []];
    try (apply Ho; exact Hl); try (apply Hc; exact Hl); clear Ho Hc; cbn [format_char emit item_text] in *;
    first [ by apply put_ok | by apply put_name_ok | by apply put_fence_ok | by rewrite append_nil | idtac ].
  - apply put_tmp_ok; [|done]. pose proof (int_str_length (d_rs1 d)). lia.
  - apply put_tmp_ok; [|done]. pose proof (int_str_length (d_imm d)). lia.
  - unfold pad_fuel. pose proof (strlen_nonneg buf). by rewrite pad_to_column by lia.
  - replace (negb (d_aq d =? 0)) with (d_aq d =? 1) by lia. by apply put_if_ok.
  - replace (negb (d_rl d =? 0)) with (d_rl d =? 1) by lia. by apply put_if_ok.
Qed.

Lemma format_loop_ok d fmt buf l : wf_decode d →
  let name := od_name (entry_of (d_op d)) in
  strlen buf ≤ l → line_max name fmt l < buflen →
  format_loop buflen 32 d (entry_of (d_op d)) fmt buf = Ok (emit_all d name fmt buf) ∧
  strlen (emit_all d name fmt buf) ≤ line_max name fmt l.
Proof.
  intros Hd name. revert buf l. induction fmt as [|c fmt IH]; intros buf l Hl Hm; simpl in *; [by split|].
  destruct (emit_length d name buf c l Hd Hl) as [Hge Hle].
  pose proof (line_max_le name fmt (emit_max name l c)).
  rewrite format_char_ok, res_bind_ok by (done || fold name; lia). by apply IH.
Qed.

Lemma render_ok d : wf_decode d → is_u64 (d_inst d) → 90 < buflen →
  decode_inst_format buflen 32 d = Ok (render d) ∧ strlen (render d) ≤ 90.
Proof.
  intros Hd Hi Hl. pose proof (inst_text_length _ Hi) as Hp. unfold decode_inst_format.
  rewrite entry_of_eq, res_bind_ok. rewrite (proj2 (Z.leb_gt _ _)) by lia.
  unfold snprintf. rewrite str_take_all by lia. pose proof (lines_fit (d_op d)) as Hfit.
  destruct (format_loop_ok d (od_format (entry_of (d_op d))) (inst_text (d_inst d)) 30 Hd) as [-> Hlen]; [lia..|].
  split; [done|]. unfold render. lia.
Qed.
End bounded.

(** ** Properties *)

(** C12: The disassembler never overruns the buffer it is given, nor cuts its line short,
    when the buffer has more than 90 bytes; the run gives it 128.  For every ISA, every
    64-bit word and program counter the call ends, the record it formats is well formed and
    carries that word, and the buffer holds exactly the unbounded rendering of the record,
    which has at most 90 characters. *)
Theorem disasm_inst_renders (isa : rv_isa) (buflen pc inst : Z) :
  90 < buflen < 2 ^ 63 → is_u64 inst →
  ∃ d, disasm_decode isa pc inst = Ok d ∧ wf_decode d ∧ d_pc d = pc ∧ d_inst d = inst ∧
    disasm_inst buflen isa pc inst = Ok (render d) ∧ strlen (render d) ≤ 90.
Proof.
  intros Hb Hi. destruct (disasm_decode_ok isa pc inst) as (d & Hd & Hwf & Hpc & Hin & _).
  exists d. unfold disasm_inst. rewrite Hd, res_bind_ok. subst inst.
  destruct (render_ok buflen ltac:(lia) d Hwf Hi ltac:(lia)) as [Hr Hlen]. done.
Qed.

(** C34: Every stage of the decoding keeps the record well formed.  For every ISA, address
    and word, extraction, decompression and lifting all succeed; the extracted operands are
    in the ranges of their kinds (registers below 32, a 32-bit signed immediate, a three-bit
    rounding mode, four-bit fence sets, one-bit flags), the later stages change nothing but
    operation and codec, and the codec stays that of the operation unless an invalid
    compressed instruction was made illegal. *)
Theorem disasm_decode_typed (isa : rv_isa) (pc inst : Z) :
  ∃ d1 d2 d3,
    decode_inst_operands (set_op (decode_inst_opcode isa inst) (decode_init pc inst)) = Ok d1 ∧
    decode_inst_decompress isa d1 = Ok d2 ∧ decode_inst_lift_pseudo d2 = Ok d3 ∧
    disasm_decode isa pc inst = Ok d3 ∧
    wf_decode d1 ∧ d_codec d1 = codec_of (d_op d1) ∧
    same_operands d1 d2 ∧ same_operands d2 d3 ∧ wf_decode d3 ∧
    (d_op d3 = rv_op_illegal ∨ d_codec d3 = codec_of (d_op d3)).
Proof.
  destruct (decode_inst_operands_ok (set_op (decode_inst_opcode isa inst) (decode_init pc inst)))
    as (d1 & H1 & Hw1 & _ & _ & Hop & Hc); [apply wf_set_op, wf_decode_init|].
  destruct (decompress_ok isa d1) as (d2 & H2 & Hs2 & _). destruct (lift_ok d2) as (d3 & H3 & Hs3 & _).
  assert (disasm_decode isa pc inst = Ok d3) as Hd.
  { unfold disasm_decode. cbn zeta. by rewrite H1, res_bind_ok, H2, res_bind_ok. }
  destruct (disasm_decode_ok isa pc inst) as (d & Hd' & Hwf & _ & _ & Hcodec).
  rewrite Hd in Hd'. injection Hd' as <-. exists d1, d2, d3. split_and!; congruence || done.
Qed.

(** What [append] does with a text too long.  The test before [strncat] leaves room
    for one character less than it allows: on a terminated string in an array of [size]
    bytes the call writes the terminator one byte past the array exactly when the array has
    at least two bytes left and the text does not fit; it appends the whole text when that
    fits, and drops it silently when a single byte is left. *)
Theorem append_overruns (size : Z) (s1 s2 : string) :
  size < 2 ^ 63 → strlen s1 < size →
  (append size s1 s2 (s64 size) = Fail (Undefined ub_out_of_bounds)
     ↔ 2 ≤ size - strlen s1 ∧ size ≤ strlen s1 + strlen s2) ∧
  (2 ≤ size - strlen s1 → strlen s1 + strlen s2 < size → append size s1 s2 (s64 size) = Ok (s1 +:+ s2)) ∧
  (size - strlen s1 = 1 → append size s1 s2 (s64 size) = Ok s1).
Proof.
  intros Hs Hl. rewrite append_eq by done.
  destruct (Z.leb_spec (size - strlen s1) 1), (Z.ltb_spec (strlen s2) (size - strlen s1));
    split_and!; intros; try split; intros; done || lia.
Qed.

(** C35: The loops that pad to a column end exactly when the column is inside the buffer.
    Then every number of rounds from [pad_fuel] on gives the text padded with blanks;
    otherwise no number of rounds is enough, for a full buffer no longer grows. *)
Theorem pad_to_terminates (buflen col : Z) (buf : string) :
  strlen buf < buflen < 2 ^ 63 →
  (col < buflen → ∀ fuel, (pad_fuel col ≤ fuel)%nat → pad_to fuel buflen col buf = Ok (left_field (Z.to_nat col) buf)) ∧
  (buflen ≤ col → ∀ fuel, pad_to fuel buflen col buf = Fail OutOfFuel).
Proof.
  intros [Hl Hb]. split; intros Hc fuel.
  - intros Hf. unfold pad_fuel in Hf. pose proof (strlen_nonneg buf). apply pad_to_column; lia.
  - by apply pad_to_stuck.
Qed.

(** Every format begins with the name, two flags in some, and the tabulator. *)
Lemma format_shape op : ∃ rest,
  od_format (entry_of op) = String "O" (String "009" rest) ∨
  od_format (entry_of op) = String "O" (String "A" (String "R" (String "009" rest))).
Proof. destruct op; eexists; (left; reflexivity) || (right; reflexivity). Qed.

Lemma put_length buflen s buf r : buflen < 2 ^ 63 → strlen buf < buflen → put buflen s buf = Ok r → strlen r < buflen.
Proof.
  intros Hb Hl. unfold put. rewrite append_eq by done.
  destruct (_ <=? _); [by intros [= <-]|]. destruct (Z.ltb_spec (strlen s) (buflen - strlen buf)); [|done].
  intros [= <-]. rewrite strlen_append. lia.
Qed.
Lemma put_if_length buflen b s buf r : buflen < 2 ^ 63 → strlen buf < buflen →
  put_if buflen b s buf = Ok r → strlen r < buflen.
Proof. intros Hb Hl. destruct b; [by apply put_length | by intros [= <-]]. Qed.

(** With a buffer of at most 32 bytes the disassembler never returns: for every ISA
    and word the call writes outside the buffer, or pads it for ever. *)
Theorem disasm_inst_needs_33_bytes (isa : rv_isa) (buflen pc inst : Z) (s : string) :
  buflen ≤ 32 → disasm_inst buflen isa pc inst ≠ Ok s.
Proof.
  intros Hb Hr. unfold disasm_inst in Hr. destruct (disasm_decode_ok isa pc inst) as (d & Hd & _).
  rewrite Hd, res_bind_ok in Hr. unfold decode_inst_format in Hr. rewrite entry_of_eq, res_bind_ok in Hr.
  destruct (Z.leb_spec buflen 0) as [|H0]; [done|].
  assert (strlen (snprintf buflen (inst_text (d_inst d))) < buflen) as Hl.
  { unfold snprintf. destruct (Z.le_gt_cases (strlen (inst_text (d_inst d))) (buflen - 1)).
    - rewrite str_take_all by done. lia.
    - rewrite strlen_str_take by lia. lia. }
  destruct (format_shape (d_op d)) as [rest [Hf|Hf]]; rewrite Hf in Hr; cbn [format_loop format_char] in Hr;
    apply res_bind_inv in Hr as (b1 & H1 & Hr); apply put_length in H1; try lia.
  - by rewrite pad_to_stuck in Hr by lia.
  - apply res_bind_inv in Hr as (b2 & H2 & Hr). apply put_if_length in H2; try lia.
    apply res_bind_inv in Hr as (b3 & H3 & Hr). apply put_if_length in H3; try lia.
    by rewrite pad_to_stuck in Hr by lia.
Qed.

(** *** Fetching *)

(** The half-word at byte [i]. *)
Definition half (data : list Z) (i : nat) : Z := default 0 (data !! i) + 2 ^ 8 * default 0 (data !! S i).

Lemma byte_at_ok data i : (i < length data)%nat → byte_at data (Z.of_nat i) = Ok (default 0 (data !! i)).
Proof.
  intros Hi. apply lookup_lt_is_Some_2 in Hi as [b Hb]. unfold byte_at, nth_z.
  rewrite (proj2 (Z.leb_le _ _)), Nat2Z.id, Hb by lia. done.
Qed.
Lemma byte_at_fail data i : Z.of_nat (length data) ≤ i → byte_at data i = Fail (Undefined ub_out_of_bounds).
Proof.
  intros Hi. unfold byte_at, nth_z. rewrite (proj2 (Z.leb_le _ _)) by lia.
  by rewrite lookup_ge_None_2 by lia.
Qed.

Lemma byte_range data i : Forall (λ b, is_u8 b) data → is_u8 (default 0 (data !! i)).
Proof. intros Hd. destruct (data !! i) eqn:Hb; simpl; [exact (Forall_lookup_1 _ _ _ _ Hd Hb) | lia]. Qed.
Lemma half_range data i : Forall (λ b, is_u8 b) data → 0 ≤ half data i < 2 ^ 16.
Proof.
  intros Hd. pose proof (byte_range data i Hd). pose proof (byte_range data (S i) Hd). unfold half. lia.
Qed.

Lemma fetch_pair_ok data i k : Forall (λ b, is_u8 b) data → k = Z.of_nat i →
  (S i < length data)%nat → (i ≤ 6)%nat → fetch_pair data k = Ok (half data i * 2 ^ (8 * k)).
Proof.
  intros Hd -> Hi Hle. unfold fetch_pair. replace (Z.of_nat i + 1) with (Z.of_nat (S i)) by lia.
  rewrite !byte_at_ok, !res_bind_ok by lia. f_equal.
  pose proof (byte_range data i Hd). pose proof (byte_range data (S i) Hd). unfold half.
  rewrite !(shl64_piece _ 8) by lia.
  rewrite lor_add; [|apply Z.mul_nonneg_nonneg; lia..|eapply (lor_pieces _ 8 _ _ 8); lia].
  replace (8 * Z.of_nat (S i)) with (8 * Z.of_nat i + 8) by lia. rewrite Z.pow_add_r by lia. ring.
Qed.

Lemma fetch_pair_fail data i : Z.of_nat (length data) ≤ i + 1 → fetch_pair data i = Fail (Undefined ub_out_of_bounds).
Proof. intros Hi. unfold fetch_pair. rewrite (byte_at_fail data (i + 1)) by exact Hi. apply res_bind_fail. Qed.

(** The length is in the low seven bits. *)
Lemma inst_length_low a b : 0 ≤ a → inst_length (a + 2 ^ 16 * b) = inst_length a.
Proof.
  intros Ha. assert (∀ m, 0 ≤ m < 2 ^ 16 → Z.land (a + 2 ^ 16 * b) m = Z.land a m) as Hm.
  { intros m Hm. rewrite <-(slice_0 16 m) by done.
    apply Z.bits_inj'. intros i Hi. rewrite !Z.land_spec, slice_testbit by lia.
    destruct (Z.ltb_spec i 16); [|by rewrite !andb_false_r]. f_equal.
    rewrite <-(Z.mod_pow2_bits_low _ 16) by lia. rewrite <-(Z.mod_pow2_bits_low a 16) by lia.
    f_equal. rewrite Z.mul_comm. apply Z.mod_add. lia. }
  unfold inst_length. by rewrite !Hm by lia.
Qed.
Lemma inst_length_cases inst : inst_length inst ∈ [2; 4; 6; 8; 0].
Proof. unfold inst_length. repeat case_match; set_solver. Qed.

(** The pieces are or-ed from the top; their sum from the bottom. *)
Lemma lor_up a k p : 0 ≤ k → 0 ≤ a < 2 ^ k → Z.lor a (p * 2 ^ k) = a + 2 ^ k * p.
Proof. intros. rewrite <-Z.shiftl_mul_pow2, lor_le by lia. lia. Qed.
Lemma lor_swap a b c : Z.lor (Z.lor a c) b = Z.lor (Z.lor a b) c.
Proof. by rewrite <-!Z.lor_assoc, (Z.lor_comm b). Qed.

(** [inst_fetch] reads an instruction of any length in little-endian order.  The length
    comes from the first two bytes; when that many bytes are there, the result is the word
    whose bytes they are, least significant first, and the length, which is also the length
    of that word; when bytes are missing the read goes outside the data. *)
Theorem inst_fetch_little_endian (data : list Z) :
  Forall (λ b, is_u8 b) data → (2 ≤ length data)%nat →
  let len := inst_length (half data 0) in
  let word := half data 0 + (if 4 <=? len then 2 ^ 16 * half data 2 else 0)
    + (if 6 <=? len then 2 ^ 32 * half data 4 else 0) + (if 8 <=? len then 2 ^ 48 * half data 6 else 0) in
  if len <=? Z.of_nat (length data) then inst_fetch data = Ok (word, len) ∧ inst_length word = len
  else inst_fetch data = Fail (Undefined ub_out_of_bounds).
Proof.
  intros Hd Hl len word. pose proof (half_range data 0 Hd). pose proof (half_range data 2 Hd).
  pose proof (half_range data 4 Hd). pose proof (half_range data 6 Hd).
  assert (inst_length word = len) as Hlen.
  { unfold word. set (b := (if 4 <=? len then half data 2 else 0) + (if 6 <=? len then 2 ^ 16 * half data 4 else 0)
      + (if 8 <=? len then 2 ^ 32 * half data 6 else 0)).
    etrans; [|apply (inst_length_low (half data 0) b); lia]. f_equal. unfold b. repeat case_match; lia. }
  unfold inst_fetch. rewrite (fetch_pair_ok data 0 0), res_bind_ok by (done || lia).
  change (half data 0 * 2 ^ (8 * 0)) with (half data 0 * 1). rewrite Z.mul_1_r. cbn zeta.
  fold len. pose proof (inst_length_cases (half data 0)) as Hc. fold len in Hc.
  revert Hlen. unfold word. clear word. clearbody len. intros Hlen.
  rewrite !elem_of_cons in Hc.
  destruct Hc as [->|[->|[->|[->|[->|Hc%elem_of_nil]]]]]; [..|done];
    cbn [Z.leb Z.compare Pos.compare Pos.compare_cont] in *; rewrite ?res_bind_ok;
    match goal with |- context [if ?b then _ else _] => destruct b eqn:Hle end; try lia.
  all: try (split; [unfold mret, res_ret; do 2 f_equal; lia | exact Hlen]).
  all: repeat match goal with |- context [fetch_pair ?l ?k] =>
    first [rewrite (fetch_pair_fail l k) by lia; reflexivity
          | let n := eval vm_compute in (Z.to_nat k) in rewrite (fetch_pair_ok l n k), !res_bind_ok by (done || lia)] end.
  all: (split; [|exact Hlen]); unfold mret, res_ret; do 2 f_equal;
    change (8 * 2) with 16; change (8 * 4) with 32; change (8 * 6) with 48.
  - rewrite lor_up; lia.
  - rewrite lor_swap, (lor_up (half data 0)) by lia. rewrite lor_up; lia.
  - rewrite (lor_swap _ (_ * 2 ^ 16) (_ * 2 ^ 32)), (lor_swap (half data 0)), (lor_swap _ (_ * 2 ^ 32) (_ * 2 ^ 48)).
    rewrite (lor_up (half data 0)) by lia. rewrite (lor_up (_ + _) 32) by lia. rewrite lor_up; lia.
Qed.

(** ** Witnesses *)

Lemma disasm_inst_renders_witness :
  let line := "fe628ce3          beq           t0,t1,-8                        # 0x7ffffff8"%string in
  disasm_inst 128 rv32 0x80000000 0xFE628CE3 = Ok line ∧
  ∃ d, disasm_decode rv32 0x80000000 0xFE628CE3 = Ok d ∧ render d = line.
Proof.
  intros line. assert (disasm_inst 128 rv32 0x80000000 0xFE628CE3 = Ok line) as Hl by by vm_compute.
  split; [exact Hl|].
  destruct (disasm_inst_renders rv32 128 0x80000000 0xFE628CE3 ltac:(lia) ltac:(lia))
    as (d & Hd & _ & _ & _ & Hr & _).
  exists d. split; [exact Hd|]. rewrite Hl in Hr. by injection Hr.
Defined.

Lemma append_overruns_witness : append 16 "0123456789" "abcdef" (s64 16) = Fail (Undefined ub_out_of_bounds).
Proof. apply (append_overruns 16 "0123456789" "abcdef"); by vm_compute. Defined.

Lemma pad_to_terminates_witness :
  pad_to (pad_fuel 8) 16 8 "abc" = Ok "abc     "%string ∧ ∀ fuel, pad_to fuel 8 8 "abc" = Fail OutOfFuel.
Proof.
  split.
  - apply (pad_to_terminates 16 8 "abc"); [by vm_compute | lia | lia].
  - apply (pad_to_terminates 8 8 "abc"); [by vm_compute | lia].
Defined.

Lemma disasm_inst_needs_33_bytes_witness :
  disasm_inst 32 rv32 0 0x13 ≠ Ok "" ∧ disasm_inst 33 rv32 0 0x13 = Ok "00000013          nop           "%string.
Proof. split; [apply disasm_inst_needs_33_bytes; lia | by vm_compute]. Defined.

Lemma inst_fetch_little_endian_witness :
  inst_fetch [0xE3; 0x8C; 0x62; 0xFE] = Ok (0xFE628CE3, 4) ∧ inst_length 0xFE628CE3 = 4.
Proof.
  apply (inst_fetch_little_endian [0xE3; 0x8C; 0x62; 0xFE]); [|simpl; lia].
  repeat (apply Forall_cons; split; [lia|]). apply Forall_nil_2.
Defined.
