(* ===== verification/DisasText.v ===== *)
(** * What the disassembled line says

    The operands behind the format characters, what lifting to a pseudo-instruction leaves
    known of them, and where the mnemonic ends. *)

From Stdlib Require Import Ascii.
From S2P Require Export Disas.
From S2P Require Import Format.

(** ** The operands a line shows *)

Inductive operand : Set :=
  | o_rd | o_rs1 | o_rs2 | o_rs3 | o_imm | o_csr | o_rm | o_pred | o_succ | o_aq | o_rl.
#[export] Instance operand_eq_dec : EqDecision operand.
Proof. solve_decision. Defined.

Definition operand_value (o : operand) (d : rv_decode) : Z :=
  match o with
  | o_rd => d_rd d | o_rs1 => d_rs1 d | o_rs2 => d_rs2 d | o_rs3 => d_rs3 d
  | o_imm => d_imm d | o_csr => slice 0 12 (d_imm d) | o_rm => d_rm d
  | o_pred => d_pred d | o_succ => d_succ d | o_aq => d_aq d | o_rl => d_rl d
  end.

(** The operand that stands behind a format character. *)
Definition shown_by (c : ascii) : list operand :=
  match c with
  | "0"%char | "3"%char => [o_rd]
  | "1"%char | "4"%char | "7"%char => [o_rs1]
  | "2"%char | "5"%char => [o_rs2]
  | "6"%char => [o_rs3]
  | "i"%char | "o"%char => [o_imm]
  | "c"%char => [o_csr]
  | "r"%char => [o_rm]
  | "p"%char => [o_pred]
  | "s"%char => [o_succ]
  | "A"%char => [o_aq]
  | "R"%char => [o_rl]
  | _ => []
  end.
Fixpoint shown_in (fmt : string) : list operand :=
  match fmt with EmptyString => [] | String c fmt => shown_by c ++ shown_in fmt end.
Definition shown (op : rv_op) : list operand := shown_in (od_format (entry_of op)).

(** The operands a constraint gives a value. *)
Definition fixed_by (k : rvc_constraint) : list operand :=
  match k with
  | rvc_rd_eq_ra | rvc_rd_eq_x0 => [o_rd]
  | rvc_rs1_eq_x0 | rvc_rs1_eq_ra => [o_rs1]
  | rvc_rs2_eq_x0 => [o_rs2]
  | rvc_end | rvc_rs2_eq_rs1 => []
  | _ => [o_imm; o_csr]
  end.

(** What is known of the operands when the line of [op] is read, and the constraints [c]
    of the alternative are known to hold. *)
Definition known (op : rv_op) (c : list rvc_constraint) : list operand :=
  let direct := shown op ++ (c ≫= fixed_by) in
  direct ++ (if bool_decide (rvc_rs2_eq_rs1 ∈ c ∧ o_rs1 ∈ direct) then [o_rs2] else []).

(** ** Lemmas *)

Section known.
Context (d1 d2 : rv_decode).
Local Definition agree (o : operand) : Prop := operand_value o d1 = operand_value o d2.

Lemma fixed_agree k o : check_constraint d1 k = true → check_constraint d2 k = true →
  o ∈ fixed_by k → agree o.
Proof.
  intros H1 H2 Ho. unfold agree. destruct k; simpl in *; rewrite ?elem_of_cons, ?elem_of_nil in Ho;
    destruct_or? Ho; subst; simpl; first [done | lia | f_equal; lia].
Qed.

Lemma known_agree op c o :
  forallb (check_constraint d1) c = true → forallb (check_constraint d2) c = true →
  (∀ o, o ∈ shown op → agree o) → o ∈ known op c → agree o.
Proof.
  intros H1 H2 Hs. rewrite forallb_forall in H1, H2.
  assert (∀ k, k ∈ c → check_constraint d1 k = true ∧ check_constraint d2 k = true) as Hk.
  { intros k Hk%list_elem_of_In. auto. }
  assert (∀ o, o ∈ shown op ++ (c ≫= fixed_by) → agree o) as Hd.
  { intros o' [?|(k & Hin & Hkc)%list_elem_of_bind]%elem_of_app; [by apply Hs|].
    destruct (Hk k Hkc). by eapply fixed_agree. }
  unfold known. intros [?|Ho]%elem_of_app; [by apply Hd|]. case_bool_decide as Hrs; [|by apply elem_of_nil in Ho].
  apply list_elem_of_singleton in Ho as ->. destruct Hrs as [Hc Hrs1]. specialize (Hd _ Hrs1).
  destruct (Hk _ Hc) as [Hc1 Hc2]. unfold agree in *. simpl in *. lia.
Qed.
End known.

(** The alternatives of an operation; none is offered twice. *)
Definition pseudos (op : rv_op) : list rv_comp_data := default [] (od_pseudo (entry_of op)).

Lemma alternatives_once op : NoDup (pseudos op).*1.
Proof.
  revert op. apply (check_rv_op _ (λ op, bool_decide (NoDup (pseudos op).*1))); [|by vm_compute].
  intros op. apply bool_decide_eq_true_1.
Qed.

(** The outcome of lifting. *)
Lemma lift_cases d l : decode_inst_lift_pseudo d = Ok l →
  l = d ∨ ∃ op c, (op, Some c) ∈ pseudos (d_op d) ∧ forallb (check_constraint d) (constraints_of c) = true ∧
    l = set_codec (codec_of op) (set_op op d).
Proof.
  unfold decode_inst_lift_pseudo, pseudos. rewrite entry_of_eq, res_bind_ok. pose proof (tables_ok (d_op d)) as Hok.
  destruct (od_pseudo _) as [alts|]; [|intros [= ->]; by left].
  destruct (lift_loop_ok d alts Hok) as [->|(op & c & Hin & Hc & ->)]; intros [= <-]; [by left|].
  right. by exists op, c.
Qed.

Lemma pseudo_unique op op' c1 c2 : (op', c1) ∈ pseudos op → (op', c2) ∈ pseudos op → c1 = c2.
Proof.
  pose proof (alternatives_once op) as Hn. induction (pseudos op) as [|[o c] l IH]; [by intros ?%elem_of_nil|].
  apply NoDup_cons in Hn as [Ho Hn].
  assert (∀ c', (o, c') ∉ l) as Hout.
  { intros c' Hin. apply Ho. exact (list_elem_of_fmap_2 fst _ _ Hin). }
  rewrite !elem_of_cons. intros [?|?] [?|?]; simplify_eq; auto; exfalso; by eapply Hout.
Qed.

Lemma operand_value_lifted o codec op d : operand_value o (set_codec codec (set_op op d)) = operand_value o d.
Proof. by destruct o. Qed.

(** *** The mnemonic *)

(** The text before the tabulator: the name and, for the atomic operations, the flags. *)
Fixpoint head_text (d : rv_decode) (name fmt : string) : string :=
  match fmt with
  | EmptyString => ""
  | String c fmt => if Ascii.eqb c "009"%char then "" else item_text d name c +:+ head_text d name fmt
  end.
Definition mnemonic (d : rv_decode) : string :=
  head_text d (od_name (entry_of (d_op d))) (od_format (entry_of (d_op d))).

Lemma emit_all_prefix d name fmt buf : ∃ rest, emit_all d name fmt buf = buf +:+ rest.
Proof.
  revert buf. induction fmt as [|c fmt IH]; intros buf; [exists ""; by rewrite append_nil|].
  assert (∃ r, emit d name buf c = buf +:+ r) as [r Hr].
  { unfold emit, left_field. destruct c as [[] [] [] [] [] [] [] []]; rewrite <-?append_assoc; by eexists. }
  destruct (IH (emit d name buf c)) as [rest Hrest]. exists (r +:+ rest).
  simpl. by rewrite Hrest, Hr, append_assoc.
Qed.

Lemma render_head d : ∃ rest, render d = left_field 32 (inst_text (d_inst d) +:+ mnemonic d) +:+ rest.
Proof.
  unfold render, mnemonic. destruct (format_shape (d_op d)) as [fmt [-> | ->]];
    cbn [emit_all emit head_text Ascii.eqb Bool.eqb]; rewrite ?append_nil, ?append_assoc; apply emit_all_prefix.
Qed.

Lemma hex_zero_8 inst : is_u32 inst → String.length (hex_zero 8 inst) = 8%nat.
Proof.
  intros Hi. rewrite hex_zero_length. pose proof (hex_digits_length 7 inst ltac:(simpl; lia)). lia.
Qed.
Lemma word_column inst : is_u32 inst → inst_length inst = 4 → strlen (inst_text inst) = 18.
Proof.
  intros Hi Hl. unfold inst_text. rewrite Hl. cbn [switch Z.eqb Pos.eqb].
  rewrite strlen_append, strlen_pad. unfold strlen. rewrite hex_zero_8 by done. done.
Qed.

(** Checked of the tables: names have at most ten characters, and operations with flags
    begin with the name and the two flags. *)
Definition flagged (op : rv_op) : bool := bool_decide (o_aq ∈ shown op).
Lemma names_short op : strlen (od_name (entry_of op)) ≤ 10.
Proof.
  revert op. refine (check_rv_op _ (λ op, strlen (od_name (entry_of op)) <=? 10) _ _); [intros; lia | by vm_compute].
Qed.
Lemma head_shape d : mnemonic d = od_name (entry_of (d_op d)) +:+
  (if flagged (d_op d) then text_if (d_aq d =? 1) ".aq" +:+ text_if (d_rl d =? 1) ".rl" else "").
Proof.
  assert (∀ op, if flagged op
    then ∃ rest, od_format (entry_of op) = String "O" (String "A" (String "R" (String "009" rest)))
    else ∃ rest, od_format (entry_of op) = String "O" (String "009" rest)) as Hop.
  { intros op. destruct op; eexists; reflexivity. }
  specialize (Hop (d_op d)). unfold mnemonic.
  destruct (flagged (d_op d)); destruct Hop as [fmt ->]; cbn [head_text Ascii.eqb Bool.eqb item_text];
    by rewrite ?append_nil.
Qed.
Lemma mnemonic_lengths d : wf_decode d →
  14 ≤ strlen (mnemonic d) ↔
    o_aq ∈ shown (d_op d) ∧ d_aq d = 1 ∧ d_rl d = 1 ∧ 8 ≤ strlen (od_name (entry_of (d_op d))).
Proof.
  intros []. rewrite head_shape, strlen_append. pose proof (names_short (d_op d)).
  unfold flagged. case_bool_decide as Hs.
  - rewrite strlen_append. assert (∀ b s, strlen s = 3 → strlen (text_if b s) = if b then 3 else 0) as Hif by by intros [].
    rewrite !Hif by done. destruct (Z.eqb_spec (d_aq d) 1), (Z.eqb_spec (d_rl d) 1); split; intros; destruct_and?; split_and?; lia || done.
  - split; [|tauto]. change (strlen "") with 0. lia.
Qed.

(** *** No line break *)

Abbreviation one_line s := (all_chars no_newline s = true).

Lemma plain_one_line s : all_chars plain s = true → one_line s.
Proof. apply all_chars_weaken. by intros c [_ ?]%andb_prop. Qed.
Lemma one_line_app s t : one_line s → one_line t → one_line (s +:+ t).
Proof. intros Hs Ht. by rewrite all_chars_app, Hs, Ht. Qed.
Lemma one_line_digits base fuel z : 2 ≤ base ≤ 16 → one_line (digits base fuel z "").
Proof. intros. by apply plain_one_line, digits_plain. Qed.
Lemma one_line_left_field w s : one_line s → one_line (left_field w s).
Proof. intros. apply one_line_app; [done | apply no_newline_pad]. Qed.
Lemma one_line_hex_zero w z : one_line (hex_zero w z).
Proof.
  apply one_line_app; [|by apply one_line_digits].
  induction (w - String.length (hex_digits z))%nat as [|n IH]; [done | exact IH].
Qed.
Lemma one_line_int z : one_line (int_str z).
Proof. unfold int_str. case_match; [apply (one_line_app "-"); [done|]|]; by apply one_line_digits. Qed.

Lemma one_line_name names reg : Forall (λ s, one_line s) names → one_line (text_of names reg).
Proof.
  intros Hn. unfold text_of. destruct (nth_z names reg) eqn:Hx; [exact (nth_z_Forall _ _ _ _ Hn Hx) | done].
Qed.
Lemma one_line_csr csrno : one_line (default "" (csr_name csrno)).
Proof.
  unfold csr_name. apply (switch_ind (λ o, one_line (default "" o))); [|done].
  apply (Forall_check _ (λ c, all_chars no_newline (default "" c.2))); [by intros|]. by vm_compute.
Qed.
Lemma one_line_rounding rm : one_line (rounding_mode rm).
Proof. unfold rounding_mode. apply (switch_ind (λ s, one_line s)); [by rewrite !Forall_cons, Forall_nil | done]. Qed.
Lemma one_line_fence set : one_line (fence_text set).
Proof. unfold fence_text. by destruct (Z.testbit set 3), (Z.testbit set 2), (Z.testbit set 1), (Z.testbit set 0). Qed.
Lemma one_line_item d name c : one_line name → one_line (item_text d name c).
Proof.
  intros Hn.
  assert (Forall (λ s, one_line s) rv_ireg_name_sym ∧ Forall (λ s, one_line s) rv_freg_name_sym) as [Hi Hf].
  { split; apply (Forall_check _ (all_chars no_newline)); (by intros) || by vm_compute. }
  destruct c as [[] [] [] [] [] [] [] []]; cbn [item_text];
    first [ done | by apply one_line_name | apply one_line_int | apply one_line_fence | apply one_line_rounding
          | by unfold text_if; case_match | idtac ].
  pose proof (one_line_csr (slice 0 12 (d_imm d))) as Hc. destruct (csr_name _); [exact Hc|].
  apply (one_line_app "0x"); [done | apply one_line_hex_zero].
Qed.

Lemma one_line_emit d name c buf : one_line name → one_line buf → one_line (emit d name buf c).
Proof.
  intros Hn Hb. pose proof (one_line_app _ _ Hb (one_line_item d name c Hn)).
  destruct c as [[] [] [] [] [] [] [] []]; cbn [emit]; try assumption; try by apply one_line_left_field.
  apply one_line_app; [apply one_line_left_field, one_line_app; [done | apply one_line_int]|].
  apply (one_line_app "# 0x"); [done | by apply one_line_digits].
Qed.

Lemma names_one_line op : one_line (od_name (entry_of op)).
Proof. revert op. refine (check_rv_op _ (λ op, all_chars no_newline (od_name (entry_of op))) _ _); [done | by vm_compute]. Qed.

Lemma render_one_line d : one_line (render d).
Proof.
  unfold render. assert (one_line (inst_text (d_inst d))) as Hb.
  { unfold inst_text. apply (switch_ind (λ s, one_line s)); [rewrite !Forall_cons, Forall_nil; split_and!|];
      intros; cbn [snd]; try done; (apply one_line_app; [apply one_line_hex_zero | done]). }
  revert Hb. generalize (inst_text (d_inst d)), (od_format (entry_of (d_op d))). intros buf fmt. revert buf.
  induction fmt as [|c fmt IH]; intros buf Hb; [done|]. apply IH, one_line_emit; [apply names_one_line | done].
Qed.

(** ** Properties *)

(** Where the mnemonic ends.  In the line of every 32-bit instruction word, of any ISA,
    the name with its acquire and release flags starts in column 18 and is padded to column
    32, where the operands start; it is separated from them by a blank unless its name has
    eight characters or more and both flags are set: [amoswap.w.aq.rl] runs into its first
    operand. *)
Theorem mnemonic_separated (isa : rv_isa) (pc inst : Z) (d : rv_decode) :
  is_u32 inst → inst_length inst = 4 → disasm_decode isa pc inst = Ok d →
  (∃ rest, render d = left_field 32 (inst_text inst +:+ mnemonic d) +:+ rest) ∧
  strlen (inst_text inst) = 18 ∧
  (32 ≤ strlen (inst_text inst +:+ mnemonic d) ↔
     o_aq ∈ shown (d_op d) ∧ d_aq d = 1 ∧ d_rl d = 1 ∧ 8 ≤ strlen (od_name (entry_of (d_op d)))).
Proof.
  intros Hi Hl Hd. destruct (disasm_decode_ok isa pc inst) as (d' & Hd' & Hwf & _ & Hin & _).
  rewrite Hd in Hd'. injection Hd' as <-. destruct (render_head d) as [rest Hr]. rewrite Hin in Hr.
  split; [by exists rest|]. split; [by apply word_column|]. rewrite strlen_append, word_column by done.
  rewrite <-(mnemonic_lengths d Hwf). lia.
Qed.

(** ** Witnesses *)

Lemma mnemonic_separated_witness :
  ∃ d, disasm_decode rv32 0 0x0EE5272F = Ok d ∧ 32 ≤ strlen (inst_text 0x0EE5272F +:+ mnemonic d) ∧
    disasm_inst 128 rv32 0 0x0EE5272F = Ok "0ee5272f          amoswap.w.aq.rla4,a4,(a0)"%string.
Proof.
  set (d := default (decode_init 0 0) (match disasm_decode rv32 0 0x0EE5272F with Ok d => Some d | Fail _ => None end)).
  assert (disasm_decode rv32 0 0x0EE5272F = Ok d) as Hd by by vm_compute.
  exists d. split; [exact Hd|]. split; [|by vm_compute].
  destruct (mnemonic_separated rv32 0 0x0EE5272F d) as (_ & _ & H); [lia | by vm_compute | exact Hd |].
  apply H. split; [apply (bool_decide_eq_true_1 (o_aq ∈ shown (d_op d))); vm_compute; reflexivity|]. by vm_compute.
Defined.
