(* ===== verification/DisasCompressed.v ===== *)
(** * Compressed instructions against the architecture manual

    The 16-bit instructions of RV32C (without those of the F and D extensions), their
    operands and expansions as the manual's instruction listings give them, independently of
    the disassembler's extractors and tables; what the disassembler makes of such a word is
    compared with what it makes of the 32-bit word that the manual expands it to. *)

From S2P Require Export Disas.

(** ** The reference *)

(** An immediate as the listings write it: [immediate 12 [(5, 4); (9, 6); (2, 2); (3, 3)]] is
    [imm[5:4|9:6|2|3]] in the bits of the word from 12 downward. *)
Fixpoint immediate (top : Z) (ranges : list (Z * Z)) (inst : Z) : Z :=
  match ranges with
  | [] => 0
  | (hi, lo) :: ranges =>
      let n := hi - lo + 1 in
      slice (top - n + 1) n inst * 2 ^ lo + immediate (top - n) ranges inst
  end.

Section reference.
Context (inst : Z).

Definition uimm_4spn : Z := immediate 12 [(5, 4); (9, 6); (2, 2); (3, 3)] inst.
Definition uimm_word : Z := immediate 12 [(5, 3)] inst + immediate 6 [(2, 2); (6, 6)] inst.
Definition uimm_lwsp : Z := immediate 12 [(5, 5)] inst + immediate 6 [(4, 2); (7, 6)] inst.
Definition uimm_swsp : Z := immediate 12 [(5, 2); (7, 6)] inst.
Definition shift_amount : Z := immediate 12 [(5, 5)] inst + immediate 6 [(4, 0)] inst.
Definition imm_6 : Z := signed 6 (immediate 12 [(5, 5)] inst + immediate 6 [(4, 0)] inst).
Definition imm_lui : Z := signed 18 (immediate 12 [(17, 17)] inst + immediate 6 [(16, 12)] inst).
Definition imm_16sp : Z :=
  signed 10 (immediate 12 [(9, 9)] inst + immediate 6 [(4, 4); (6, 6); (8, 7); (5, 5)] inst).
Definition imm_j : Z :=
  signed 12 (immediate 12 [(11, 11); (4, 4); (9, 8); (10, 10); (6, 6); (7, 7); (3, 1); (5, 5)] inst).
Definition imm_b : Z :=
  signed 9 (immediate 12 [(8, 8); (4, 3)] inst + immediate 6 [(7, 6); (2, 1); (5, 5)] inst).

(** An instruction of the base set with its operands. *)
Definition base (op : rv_op) (rd rs1 rs2 imm : Z) : rv_decode :=
  mk_decode 0 0 imm op (codec_of op) rd rs1 rs2 0 0 0 0 0 0.
(** Encodings that are neither reserved nor hints. *)
Definition valid (b : bool) (d : rv_decode) : option rv_decode := if b then Some d else None.
Definition nonzero (z : Z) : bool := negb (z =? 0).

(** [rvc_reference inst]: the instruction that the 16-bit instruction in the low half of the
    word expands to, quadrant by quadrant and by funct3. *)
Definition rvc_reference : option rv_decode :=
  let rd := slice 7 5 inst in
  let rs2 := slice 2 5 inst in
  let rd' := 8 + slice 2 3 inst in
  let rs1' := 8 + slice 7 3 inst in
  switch (slice 0 2 inst)
    [(0, switch (slice 13 3 inst)
       [(0, valid (nonzero uimm_4spn) (base rv_op_addi rd' 2 0 uimm_4spn));
        (2, Some (base rv_op_lw rd' rs1' 0 uimm_word));
        (6, Some (base rv_op_sw 0 rs1' rd' uimm_word))] None);
     (1, switch (slice 13 3 inst)
       [(0, if rd =? 0 then valid (imm_6 =? 0) (base rv_op_addi 0 0 0 0)
            else valid (nonzero imm_6) (base rv_op_addi rd rd 0 imm_6));
        (1, Some (base rv_op_jal 1 0 0 imm_j));
        (2, valid (nonzero rd) (base rv_op_addi rd 0 0 imm_6));
        (3, if rd =? 2 then valid (nonzero imm_16sp) (base rv_op_addi 2 2 0 imm_16sp)
            else valid (nonzero rd && nonzero imm_lui) (base rv_op_lui rd 0 0 imm_lui));
        (4, switch (slice 10 2 inst)
          [(0, valid (nonzero shift_amount && (shift_amount <? 32)) (base rv_op_srli rs1' rs1' 0 shift_amount));
           (1, valid (nonzero shift_amount && (shift_amount <? 32)) (base rv_op_srai rs1' rs1' 0 shift_amount));
           (2, Some (base rv_op_andi rs1' rs1' 0 imm_6));
           (3, if slice 12 1 inst =? 0
               then switch (slice 5 2 inst)
                 [(0, Some (base rv_op_sub rs1' rs1' rd' 0)); (1, Some (base rv_op_xor rs1' rs1' rd' 0));
                  (2, Some (base rv_op_or rs1' rs1' rd' 0)); (3, Some (base rv_op_and rs1' rs1' rd' 0))] None
               else None)] None);
        (5, Some (base rv_op_jal 0 0 0 imm_j));
        (6, Some (base rv_op_beq 0 rs1' 0 imm_b));
        (7, Some (base rv_op_bne 0 rs1' 0 imm_b))] None);
     (2, switch (slice 13 3 inst)
       [(0, valid (nonzero rd && nonzero shift_amount && (shift_amount <? 32))
              (base rv_op_slli rd rd 0 shift_amount));
        (2, valid (nonzero rd) (base rv_op_lw rd 2 0 uimm_lwsp));
        (4, if slice 12 1 inst =? 0
            then if rs2 =? 0 then valid (nonzero rd) (base rv_op_jalr 0 rd 0 0)
                 else valid (nonzero rd) (base rv_op_add rd 0 rs2 0)
            else if rs2 =? 0
                 then Some (if rd =? 0 then base rv_op_ebreak 0 0 0 0 else base rv_op_jalr 1 rd 0 0)
                 else valid (nonzero rd) (base rv_op_add rd rd rs2 0));
        (6, Some (base rv_op_sw 0 2 rs2 uimm_swsp))] None)] None.
End reference.

(** Where the disassembler departs from the listings.  [c.mv rd, rs2], which expands to
    [add rd, x0, rs2], it expands to [addi rd, rs2, 0], an instruction with the same effect;
    and [c.andi rd', 0] it takes for an illegal instruction. *)
Definition read_as (d : rv_decode) : rv_decode :=
  if bool_decide (d_op d = rv_op_add ∧ d_rs1 d = 0) then base rv_op_addi (d_rd d) (d_rs2 d) 0 0 else d.
Definition andi_zero (d : rv_decode) : bool := bool_decide (d_op d = rv_op_andi ∧ d_imm d = 0).

(** ** Lemmas *)

(** *** The same record in another place *)

(** The decoded members do not depend on the address, nor on the word once the operands
    are extracted. *)
Definition at_word (pc inst : Z) (d : rv_decode) : rv_decode := placed pc inst (d_op d) d.

Section at_word.
Context (pc w : Z) (d : rv_decode).
Lemma at_set_operands rd rs1 rs2 imm :
  set_operands rd rs1 rs2 imm (at_word pc w d) = at_word pc w (set_operands rd rs1 rs2 imm d).
Proof. reflexivity. Qed.
Lemma at_set_rs3 rs3 : set_rs3 rs3 (at_word pc w d) = at_word pc w (set_rs3 rs3 d).
Proof. reflexivity. Qed.
Lemma at_set_rm rm : set_rm rm (at_word pc w d) = at_word pc w (set_rm rm d).
Proof. reflexivity. Qed.
Lemma at_set_aqrl aq rl : set_aqrl aq rl (at_word pc w d) = at_word pc w (set_aqrl aq rl d).
Proof. reflexivity. Qed.
Lemma at_set_fence pred succ : set_fence pred succ (at_word pc w d) = at_word pc w (set_fence pred succ d).
Proof. reflexivity. Qed.
End at_word.

Lemma full_operands_at codec inst pc w d :
  full_operands codec inst (at_word pc w d) = at_word pc w (full_operands codec inst d).
Proof.
  destruct codec; cbn [full_operands compressed_operands];
    rewrite ?at_set_operands, ?at_set_rs3, ?at_set_operands, ?at_set_rm, ?at_set_aqrl, ?at_set_fence; reflexivity.
Qed.
Lemma decompress_at isa pc w d d' :
  decode_inst_decompress isa d = Ok d' → decode_inst_decompress isa (at_word pc w d) = Ok (at_word pc w d').
Proof.
  unfold decode_inst_decompress. simpl d_op. simpl d_imm. destruct (opcode_entry (d_op d)); [|done].
  rewrite !res_bind_ok. cbn zeta. set (op := match isa with rv32 => _ | rv64 => _ | rv128 => _ end).
  destruct (decide _); [by intros [= ->]|]. destruct (_ && _); [by intros [= <-]|].
  destruct (opcode_entry op); [|done]. rewrite !res_bind_ok. by intros [= <-].
Qed.
Lemma check_at pc w d c : check_constraint (at_word pc w d) c = check_constraint d c.
Proof. by destruct c. Qed.
Lemma check_list_at pc w d c : check_constraints (at_word pc w d) c = check_constraints d c.
Proof. induction c as [|k c IH]; [done|]. destruct k; cbn [check_constraints]; rewrite ?check_at, ?IH; done. Qed.
Lemma lift_at pc w d d' :
  decode_inst_lift_pseudo d = Ok d' → decode_inst_lift_pseudo (at_word pc w d) = Ok (at_word pc w d').
Proof.
  unfold decode_inst_lift_pseudo. simpl d_op. rewrite entry_of_eq, !res_bind_ok.
  destruct (od_pseudo _) as [l|]; [|by intros [= ->]].
  induction l as [|[op [c|]] l IH]; [done| |by intros [= ->]]. cbn [lift_loop]. rewrite check_list_at.
  destruct (check_constraints d c) as [[]|]; [|exact IH|done].
  rewrite !res_bind_ok, entry_of_eq, !res_bind_ok. by intros [= <-].
Qed.

(** The fields of the first half-word. *)
Section low.
Context (inst : Z).

Lemma ufield_low a b : 48 ≤ a ≤ b → b ≤ 64 → ufield (inst mod 2 ^ 16) a b = ufield inst a b.
Proof. intros. rewrite !ufield_slice by lia. apply slice_mod; lia. Qed.
Lemma sfield_low a b : 48 ≤ a ≤ b → b < 64 → sfield (inst mod 2 ^ 16) a b = sfield inst a b.
Proof. intros. rewrite !sfield_signed by lia. f_equal. apply slice_mod; lia. Qed.
Lemma land_low k m n : 0 ≤ k → 0 ≤ n → m = Z.ones n → k + n ≤ 16 →
  Z.land (Z.shiftr (inst mod 2 ^ 16) k) m = Z.land (Z.shiftr inst k) m.
Proof. intros ? ? ? ?. rewrite !(land_slice _ _ m n) by done. apply slice_mod; lia. Qed.
End low.

(** The codecs of 16-bit instructions, and that of an unrecognised word. *)
Definition compressed_codec (codec : rv_codec) : bool :=
  match codec with
  | rv_codec_none | rv_codec_u | rv_codec_uj | rv_codec_i | rv_codec_i_sh5 | rv_codec_i_sh6 | rv_codec_i_sh7
  | rv_codec_i_csr | rv_codec_s | rv_codec_sb | rv_codec_r | rv_codec_r_m | rv_codec_r4_m | rv_codec_r_a
  | rv_codec_r_l | rv_codec_r_f => false
  | _ => true
  end.

Lemma operands_low codec inst d : compressed_codec codec = true →
  full_operands codec (inst mod 2 ^ 16) d = full_operands codec inst d.
Proof.
  intros Hc. destruct codec; try discriminate Hc; cbn [full_operands compressed_operands];
    unfold operand_crdq, operand_crs1q, operand_crs1rdq, operand_crs2q, operand_crd, operand_crs1,
      operand_crs1rd, operand_crs2, operand_cimmsh5, operand_cimmsh6, operand_cimmi, operand_cimmui,
      operand_cimmlwsp, operand_cimmldsp, operand_cimmlqsp, operand_cimm16sp, operand_cimmj, operand_cimmb,
      operand_cimmswsp, operand_cimmsdsp, operand_cimmsqsp, operand_cimm4spn, operand_cimmw, operand_cimmd,
      operand_cimmq;
    rewrite ?ufield_low, ?sfield_low by lia; reflexivity.
Qed.

Lemma opcode_low isa inst : slice 0 2 inst ≠ 3 →
  decode_inst_opcode isa (inst mod 2 ^ 16) = decode_inst_opcode isa inst ∧
  compressed_codec (codec_of (decode_inst_opcode isa inst)) = true.
Proof.
  intros Hq. unfold decode_inst_opcode. rewrite (land_low inst 0 3 2), scrutinee_quadrant by (done || lia).
  pose proof (slice_range 0 2 inst ltac:(lia)).
  assert (decode_c0 isa (inst mod 2 ^ 16) = decode_c0 isa inst ∧
    decode_c1 isa (inst mod 2 ^ 16) = decode_c1 isa inst ∧
    decode_c2 isa (inst mod 2 ^ 16) = decode_c2 isa inst) as (-> & -> & ->).
  { unfold decode_c0, decode_c1, decode_c2.
    rewrite ?(land_low inst 13 7 3), ?(land_low inst 2 2047 11), ?(land_low inst 7 31 5), ?(land_low inst 10 3 2),
      ?(land_low inst 5 3 2), ?(land_low inst 12 1 1), ?(land_low inst 2 31 5) by (done || lia).
    replace (Z.land (Z.shiftr (inst mod 2 ^ 16) 10) 4) with (Z.land (Z.shiftr inst 10) 4); [done|].
    rewrite !(land_slice_shifted _ 10 2 4 1) by (done || lia). f_equal. symmetry. by apply slice_mod; lia. }
  split.
  - assert (slice 0 2 inst = 0 ∨ slice 0 2 inst = 1 ∨ slice 0 2 inst = 2) as [->|[->| ->]] by lia; done.
  - by_cases; intros; try done; unfold decode_c0, decode_c1, decode_c2;
      repeat (by_cases; intros); repeat case_bool_decide; done.
Qed.

(** The record after extraction and decompression. *)
Definition expand (isa : rv_isa) (pc inst : Z) : res rv_decode :=
  d ← decode_inst_operands (set_op (decode_inst_opcode isa inst) (decode_init pc inst));
  decode_inst_decompress isa d.

(** The 32-bit formats that compressed formats expand into. *)
Definition expands_into (c16 c32 : rv_codec) : bool :=
  match c16, c32 with
  | rv_codec_cb, rv_codec_sb
  | rv_codec_cb_imm, rv_codec_i | rv_codec_cb_sh6, rv_codec_i_sh7
  | rv_codec_ci, rv_codec_i | rv_codec_ci_sh6, rv_codec_i_sh7
  | rv_codec_ci_16sp, rv_codec_i | rv_codec_ci_lwsp, rv_codec_i | rv_codec_ci_li, rv_codec_i
  | rv_codec_ci_lui, rv_codec_u | rv_codec_ci_none, rv_codec_i | rv_codec_ci_none, rv_codec_none
  | rv_codec_ciw_4spn, rv_codec_i
  | rv_codec_cj, rv_codec_uj | rv_codec_cj_jal, rv_codec_uj
  | rv_codec_cl_lw, rv_codec_i
  | rv_codec_cr, rv_codec_r | rv_codec_cr_mv, rv_codec_i | rv_codec_cr_jalr, rv_codec_i
  | rv_codec_cr_jr, rv_codec_i
  | rv_codec_cs, rv_codec_r | rv_codec_cs_sw, rv_codec_s | rv_codec_css_swsp, rv_codec_s => true
  | _, _ => false
  end.

Lemma expansion_codecs op : compressed_codec (codec_of op) = true →
  assembled_as (decomp_rv32 (entry_of op)) ≠ None →
  expands_into (codec_of op) (codec_of (decomp_rv32 (entry_of op))) = true.
Proof.
  revert op. refine (check_rv_op _ (λ op, negb (compressed_codec (codec_of op))
    || match assembled_as (decomp_rv32 (entry_of op)) with None => true | Some _ => false end
    || expands_into (codec_of op) (codec_of (decomp_rv32 (entry_of op)))) _ _); [|by vm_compute].
  intros op. destruct (assembled_as _); [|by intros]. intros Hc Hop. rewrite Hop in Hc. by intros _.
Qed.

(** Whatever the word, the operands of a compressed format are operands of the format it
    expands into. *)
Lemma expansion_operands c16 c32 op16 op pc inst : expands_into c16 c32 = true →
  let d := set_codec c32 (set_op op (full_operands c16 inst (set_codec c16 (set_op op16 (decode_init pc inst))))) in
  encodable c32 (d_imm d) = true ∧ d = visible c32 d.
Proof.
  intros He. pose proof (operand_cimmj_range inst). pose proof (operand_cimmb_range inst).
  pose proof (operand_cimm16sp_range inst). pose proof (compressed_shift_range inst).
  pose proof (operand_cimmi_fields inst) as Hi. pose proof (operand_cimmui_fields inst) as Hui.
  pose proof (signed_slice_range 12 1 inst ltac:(lia)). pose proof (slice_range 2 5 inst ltac:(lia)).
  pose proof (compressed_unsigned_range inst) as Hu. rewrite !Forall_cons in Hu. destruct_and! Hu.
  change (2 ^ 1) with 2 in *. destruct c16, c32; try discriminate He; split.
  all: cbn [full_operands compressed_operands]; unfold set_operands, visible; cbn [d_imm set_codec set_op];
    try reflexivity.
  all: rewrite s32_small by lia; cbn [encodable]; try lia.
  rewrite Hui. Z.to_euclidean_division_equations; lia.
Qed.

(** An operation in the reference set does not decompress further. *)
Lemma reference_is_expanded op e isa : assembled_as op = Some e →
  match isa with
  | rv32 => decomp_rv32 (entry_of op) | rv64 => decomp_rv64 (entry_of op) | rv128 => decomp_rv128 (entry_of op)
  end = rv_op_illegal.
Proof. intros He. destruct op; try discriminate He; by destruct isa. Qed.
Lemma decompress_reference isa d e : assembled_as (d_op d) = Some e → decode_inst_decompress isa d = Ok d.
Proof.
  intros He. unfold decode_inst_decompress. rewrite entry_of_eq, res_bind_ok. cbn zeta.
  by rewrite (reference_is_expanded _ e isa He), decide_True.
Qed.

Lemma expand_reference pc inst d e : slice 0 2 inst ≠ 3 → expand rv32 pc inst = Ok d →
  assembled_as (d_op d) = Some e →
  encodable (codec_of (d_op d)) (d_imm d) = true ∧ d = visible (codec_of (d_op d)) d.
Proof.
  intros Hq. destruct (opcode_low rv32 inst Hq) as [_ Hc]. unfold expand.
  set (op := decode_inst_opcode rv32 inst) in *. clearbody op.
  destruct (codec_of_entry op) as (entry & Hentry & Hcodec).
  unfold decode_inst_operands. simpl d_op. rewrite Hentry, res_bind_ok, Hcodec. cbn zeta. simpl d_codec. simpl d_inst.
  rewrite res_bind_ok. set (d0 := full_operands _ _ _).
  assert (d_op d0 = op) as Hop by (unfold d0; by destruct (codec_of op)).
  unfold decode_inst_decompress. rewrite Hop, entry_of_eq, res_bind_ok. cbn zeta.
  destruct (decide _) as [_|Hd]; [|destruct (_ && _)].
  - intros [= <-] He. rewrite Hop in He. exfalso. clear -Hc He. by destruct op.
  - by intros [= <-].
  - destruct (codec_of_entry (decomp_rv32 (entry_of op))) as (target & -> & Ht). rewrite res_bind_ok, Ht.
    intros [= <-] He. simpl d_op in *. apply expansion_operands, expansion_codecs; [done|]. by rewrite He.
Qed.

(** The second half-word of a compressed instruction only shows in the word itself. *)
Lemma disasm_decode_low isa pc inst l : slice 0 2 inst ≠ 3 → disasm_decode isa pc inst = Ok l →
  disasm_decode isa pc (inst mod 2 ^ 16) = Ok (at_word pc (inst mod 2 ^ 16) l).
Proof.
  intros Hq. destruct (opcode_low isa inst Hq) as [Hop Hc]. unfold disasm_decode. cbn zeta. rewrite Hop.
  set (op := decode_inst_opcode isa inst) in *. clearbody op.
  destruct (codec_of_entry op) as (entry & Hentry & Hcodec).
  unfold decode_inst_operands. simpl d_op. rewrite Hentry, !res_bind_ok, Hcodec. cbn zeta. simpl d_codec. simpl d_inst.
  rewrite operands_low by done.
  change (set_codec (codec_of op) (set_op op (decode_init pc (inst mod 2 ^ 16))))
    with (at_word pc (inst mod 2 ^ 16) (set_codec (codec_of op) (set_op op (decode_init pc inst)))).
  rewrite full_operands_at. intros (d1 & Hd1 & Hl)%res_bind_inv.
  rewrite (decompress_at _ _ _ _ _ Hd1), res_bind_ok. by apply lift_at.
Qed.

(** *** Immediates

    The extractors or their pieces together; the listings' pieces do not overlap. *)

Fixpoint combined (pieces : list (Z * Z * Z)) (inst : Z) : Z :=
  match pieces with [] => 0 | (from, n, at_) :: pieces => Z.lor (slice from n inst * 2 ^ at_) (combined pieces inst) end.
Fixpoint summed (pieces : list (Z * Z * Z)) (inst : Z) : Z :=
  match pieces with [] => 0 | (from, n, at_) :: pieces => slice from n inst * 2 ^ at_ + summed pieces inst end.

(** The pieces are below bit [k] and apart. *)
Definition piece_ok (k : Z) (p : Z * Z * Z) : bool := let '(_, n, at_) := p in (0 <=? n) && (0 <=? at_) && (at_ + n <=? k).
Definition apart (p q : Z * Z * Z) : bool :=
  let '(_, n, at_) := p in let '(_, m, bt) := q in (at_ + n <=? bt) || (bt + m <=? at_).
Fixpoint pieces_ok (k : Z) (pieces : list (Z * Z * Z)) : bool :=
  match pieces with [] => true | p :: pieces => piece_ok k p && forallb (apart p) pieces && pieces_ok k pieces end.

Section pieces.
Context (inst k : Z) (Hk : 0 ≤ k).

Lemma piece_range from n at_ : piece_ok k (from, n, at_) = true → 0 ≤ slice from n inst * 2 ^ at_ < 2 ^ k.
Proof.
  simpl. intros [[Hn Ha]%andb_prop Hle]%andb_prop. pose proof (slice_range from n inst ltac:(lia)) as Hr.
  assert (0 < 2 ^ at_) by (apply Z.pow_pos_nonneg; lia).
  assert (2 ^ n * 2 ^ at_ ≤ 2 ^ k) by (rewrite <-Z.pow_add_r by lia; apply Z.pow_le_mono_r; lia). nia.
Qed.

Lemma apart_land p pieces : piece_ok k p = true → pieces_ok k pieces = true → forallb (apart p) pieces = true →
  let '(from, n, at_) := p in Z.land (slice from n inst * 2 ^ at_) (combined pieces inst) = 0.
Proof.
  destruct p as [[from n] at_]. intros Hp Hok Ha. induction pieces as [|[[from' m] bt] pieces IH]; [apply Z.land_0_r|].
  simpl in Hok, Ha. apply andb_prop in Hok as [[Hq _]%andb_prop Hok]. apply andb_prop in Ha as [Hpq Ha].
  cbn [combined]. rewrite Z.land_lor_distr_r, IH, Z.lor_0_r by done. simpl in Hp.
  apply (lor_pieces _ n _ _ m); try apply slice_range; lia.
Qed.

Lemma combined_summed pieces : pieces_ok k pieces = true →
  combined pieces inst = summed pieces inst ∧ 0 ≤ summed pieces inst < 2 ^ k.
Proof.
  intros Hok. assert (0 ≤ combined pieces inst < 2 ^ k) as Hr.
  { induction pieces as [|[[from n] at_] pieces IH]; [simpl; split; [lia|]; by apply Z.pow_pos_nonneg|].
    cbn [pieces_ok] in Hok. apply andb_prop in Hok as [[Hp _]%andb_prop Hok].
    cbn [combined]. apply lor_bound; [done | by apply piece_range | by apply IH]. }
  assert (combined pieces inst = summed pieces inst) as Heq; [|by rewrite <-Heq].
  clear Hr. induction pieces as [|[[from n] at_] pieces IH]; [done|].
  cbn [pieces_ok] in Hok. apply andb_prop in Hok as [[Hp Ha]%andb_prop Hok]. cbn [combined summed].
  pose proof (apart_land _ _ Hp Hok Ha) as Hl. simpl in Hl. pose proof (piece_range _ _ _ Hp).
  rewrite lor_add; [by rewrite IH | lia | | done].
  clear -Hok Hk. induction pieces as [|[[from n] at_] pieces IH]; [done|].
  cbn [pieces_ok] in Hok. apply andb_prop in Hok as [[Hp _]%andb_prop Hok]. cbn [combined].
  apply Z.lor_nonneg. pose proof (piece_range _ _ _ Hp). split; [lia | by apply IH].
Qed.

(** With the sign in bit [k]. *)
Lemma signed_summed top pieces : k ≤ 20 → pieces_ok k pieces = true →
  s32 (Z.lor (u64 (s64 (Z.shiftl (signed 1 (slice top 1 inst)) k))) (combined pieces inst))
  = signed (k + 1) (slice top 1 inst * 2 ^ k + summed pieces inst).
Proof.
  intros Hk2 Hok. destruct (combined_summed pieces Hok) as [-> Hr].
  pose proof (slice_range top 1 inst ltac:(lia)) as Hs. assert (2 ^ k ≤ 2 ^ 20) by (apply Z.pow_le_mono_r; lia).
  pose proof (signed_slice_range top 1 inst ltac:(lia)). change (2 ^ 1) with 2 in Hs. change (2 ^ (1 - 1)) with 1 in *.
  rewrite sign_extend by nia. unfold signed. replace (k + 1 - 1) with k by lia. change (2 ^ (1 - 1)) with 1.
  rewrite Z.pow_add_r by lia. change (2 ^ 1) with 2.
  destruct (Z.ltb_spec (slice top 1 inst) 1).
  - assert (slice top 1 inst = 0) as -> by lia. rewrite (proj2 (Z.ltb_lt _ _)); lia.
  - assert (slice top 1 inst = 1) as -> by lia. rewrite (proj2 (Z.ltb_ge _ _)); lia.
Qed.
End pieces.

(** The pieces of an immediate as the listings write it. *)
Fixpoint layout (top : Z) (ranges : list (Z * Z)) : list (Z * Z * Z) :=
  match ranges with
  | [] => []
  | (hi, lo) :: ranges => let n := hi - lo + 1 in (top - n + 1, n, lo) :: layout (top - n) ranges
  end.

Section immediates.
Context (inst : Z).

Lemma immediate_summed top ranges : immediate top ranges inst = summed (layout top ranges) inst.
Proof. revert top. induction ranges as [|[hi lo] ranges IH]; intros top; simpl; [done | by rewrite IH]. Qed.
Lemma summed_app p q : summed p inst + summed q inst = summed (p ++ q) inst.
Proof. induction p as [|[[from n] at_] p IH]; [done|]. cbn [summed app]. rewrite <-IH. lia. Qed.

(** The extractor as its pieces, which are those of the listing. *)
Local Ltac extractor :=
  unfold sshl64; rewrite ?sfield_signed, ?shl64_ufield, ?ufield_slice by lia; rewrite <-?Z.lor_assoc;
  repeat match goal with |- context [?a - ?b] => let c := eval vm_compute in (a - b) in change (a - b) with c end.
Local Ltac listing :=
  rewrite ?immediate_summed, ?summed_app;
  repeat match goal with |- context [summed ?p inst] =>
    lazymatch p with
    | _ ++ _ => let c := eval vm_compute in p in change p with c
    | layout _ _ => let c := eval vm_compute in p in change p with c
    end end.
Local Ltac unsigned_as k :=
  listing; extractor;
  match goal with |- _ = summed ?p _ =>
    let H := fresh in let R := fresh in
    destruct (combined_summed inst k ltac:(lia) p eq_refl) as [H R]; rewrite <-H in R |- *;
    rewrite <-(u32_small (combined p inst)) by (simpl in R |- *; lia)
  end; cbn [combined]; rewrite ?Z.lor_0_r, ?Z.mul_1_r; reflexivity.
Local Ltac signed_as k :=
  listing; extractor;
  match goal with |- _ = signed _ (summed ((?top, 1, k) :: ?p) _) =>
    etransitivity; [|exact (signed_summed inst k ltac:(lia) top p ltac:(lia) eq_refl)]
  end; cbn [combined]; rewrite ?Z.lor_0_r, ?Z.mul_1_r; reflexivity.

Lemma cimm4spn_listing : operand_cimm4spn inst = uimm_4spn inst.
Proof. unfold operand_cimm4spn, uimm_4spn. unsigned_as 11. Qed.
Lemma cimmw_listing : operand_cimmw inst = uimm_word inst.
Proof. unfold operand_cimmw, uimm_word. unsigned_as 11. Qed.
Lemma cimmlwsp_listing : operand_cimmlwsp inst = uimm_lwsp inst.
Proof. unfold operand_cimmlwsp, uimm_lwsp. unsigned_as 11. Qed.
Lemma cimmswsp_listing : operand_cimmswsp inst = uimm_swsp inst.
Proof. unfold operand_cimmswsp, uimm_swsp. unsigned_as 11. Qed.
Lemma cimmsh6_listing : operand_cimmsh6 inst = shift_amount inst.
Proof. unfold operand_cimmsh6, shift_amount. unsigned_as 11. Qed.
Lemma cimmi_listing : operand_cimmi inst = imm_6 inst.
Proof. unfold operand_cimmi, imm_6. signed_as 5. Qed.
Lemma cimmui_listing : operand_cimmui inst = imm_lui inst.
Proof. unfold operand_cimmui, imm_lui. signed_as 17. Qed.
Lemma cimm16sp_listing : operand_cimm16sp inst = imm_16sp inst.
Proof. unfold operand_cimm16sp, imm_16sp. signed_as 9. Qed.
Lemma cimmj_listing : operand_cimmj inst = imm_j inst.
Proof. unfold operand_cimmj, imm_j. signed_as 11. Qed.
Lemma cimmb_listing : operand_cimmb inst = imm_b inst.
Proof. unfold operand_cimmb, imm_b. signed_as 8. Qed.
End immediates.

(** *** From the listings to the expanded record *)

Section expansion.
Context (pc inst : Z).

Lemma listing_ranges :
  Forall (λ imm, is_s32 imm) [uimm_4spn inst; uimm_word inst; uimm_lwsp inst; uimm_swsp inst; shift_amount inst;
    imm_6 inst; imm_lui inst; imm_16sp inst; imm_j inst; imm_b inst].
Proof.
  pose proof (compressed_unsigned_range inst) as Hu. rewrite !Forall_cons in Hu. destruct_and! Hu.
  pose proof (compressed_shift_range inst).
  rewrite <-cimm4spn_listing, <-cimmw_listing, <-cimmlwsp_listing, <-cimmswsp_listing, <-cimmsh6_listing,
    <-cimmi_listing, <-cimmui_listing, <-cimm16sp_listing, <-cimmj_listing, <-cimmb_listing.
  repeat (apply Forall_cons; split); [simpl in *; lia .. | | | | | | apply Forall_nil_2]; apply s32_range.
Qed.

(** Extraction and decompression by the table entry of the operation. *)
Definition expanded (op : rv_op) : rv_decode :=
  let d := full_operands (codec_of op) inst (set_codec (codec_of op) (set_op op (decode_init pc inst))) in
  let op' := decomp_rv32 (entry_of op) in
  if decide (op' = rv_op_illegal) then d
  else if negb (Z.land (decomp_data (entry_of op)) rvcd_imm_nz =? 0) && (d_imm d =? 0) then set_op rv_op_illegal d
  else set_codec (codec_of op') (set_op op' d).
Lemma expand_eq op : decode_inst_opcode rv32 inst = op → expand rv32 pc inst = Ok (expanded op).
Proof.
  intros Hop. unfold expand. rewrite Hop. destruct (codec_of_entry op) as (entry & Hentry & Hcodec).
  unfold decode_inst_operands. simpl d_op. rewrite Hentry, res_bind_ok, Hcodec. cbn zeta. simpl d_codec. simpl d_inst.
  rewrite res_bind_ok. unfold expanded. set (d := full_operands _ _ _).
  assert (d_op d = op) as Hd by (unfold d; by destruct (codec_of op)).
  unfold decode_inst_decompress. rewrite Hd, entry_of_eq, res_bind_ok. cbn zeta.
  destruct (decide _); [done|]. destruct (_ && _); [done|].
  destruct (codec_of_entry (decomp_rv32 (entry_of op))) as (target & -> & Ht). by rewrite res_bind_ok, Ht.
Qed.

Lemma read_other op rd rs1 rs2 imm : op ≠ rv_op_add ∨ rs1 ≠ 0 →
  read_as (base op rd rs1 rs2 imm) = base op rd rs1 rs2 imm.
Proof. intros H. unfold read_as. rewrite bool_decide_false; [done|]. simpl. tauto. Qed.
Lemma read_mv rd rs2 imm : read_as (base rv_op_add rd 0 rs2 imm) = base rv_op_addi rd rs2 0 0.
Proof. reflexivity. Qed.
Lemma andi_zero_base op rd rs1 rs2 imm : andi_zero (base op rd rs1 rs2 imm) = bool_decide (op = rv_op_andi) && (imm =? 0).
Proof. unfold andi_zero. simpl. case_bool_decide; case_bool_decide; destruct (Z.eqb_spec imm 0); tauto. Qed.

(** Registers. *)
Lemma low_register a b k : 0 ≤ a ≤ b → b = 61 → k = b - a → u8 (u32 (u32 (ufield inst a b) + 8)) = 8 + slice k 3 inst.
Proof.
  intros ? -> ->. rewrite u32_ufield by lia. change (64 - 61) with 3.
  pose proof (slice_range (61 - a) 3 inst ltac:(lia)). change (2 ^ 3) with 8 in *.
  rewrite u32_small by lia. rewrite u8_small by lia. lia.
Qed.
Lemma full_register a b k : 0 ≤ a ≤ b → b = 59 → k = b - a → u8 (u32 (ufield inst a b)) = slice k 5 inst.
Proof.
  intros ? -> ->. rewrite u32_ufield by lia. change (64 - 59) with 5.
  pose proof (slice_range (59 - a) 5 inst ltac:(lia)). change (2 ^ 5) with 32 in *. by rewrite u8_small by lia.
Qed.

(** The fields of the quadrants' switches. *)
Lemma compressed_scrutinees :
  Z.land (Z.shiftr inst 13) 7 = slice 13 3 inst ∧ Z.land (Z.shiftr inst 7) 31 = slice 7 5 inst ∧
  Z.land (Z.shiftr inst 10) 3 = slice 10 2 inst ∧ Z.land (Z.shiftr inst 12) 1 = slice 12 1 inst ∧
  Z.land (Z.shiftr inst 2) 31 = slice 2 5 inst ∧
  Z.land (Z.shiftr inst 2) 2047 = slice 2 11 inst ∧
  Z.lor (Z.land (Z.shiftr inst 10) 4) (Z.land (Z.shiftr inst 5) 3) = 4 * slice 12 1 inst + slice 5 2 inst.
Proof.
  split_and!; try (by apply land_slice).
  rewrite (land_slice _ 5 _ 2), (land_slice_shifted _ _ 2 _ 1) by done.
    rewrite <-Z.shiftl_mul_pow2, lor_disjoint_add by (done || by apply slice_range). change (10 + 2) with 12. lia.
Qed.
Lemma nop_parts : slice 2 11 inst = slice 2 5 inst + 32 * (slice 7 5 inst + 32 * slice 12 1 inst).
Proof. by rewrite (slice_app 2 5 6), (slice_app 7 5 1) by lia. Qed.
Lemma imm_6_zero : imm_6 inst = 0 ↔ slice 2 5 inst = 0 ∧ slice 12 1 inst = 0.
Proof.
  change (imm_6 inst) with (signed 6 (slice 12 1 inst * 32 + 0 + (slice 2 5 inst * 1 + 0))). pose proof (slice_range 2 5 inst ltac:(lia)).
  pose proof (slice_range 12 1 inst ltac:(lia)). change (2 ^ 5) with 32 in *. change (2 ^ 1) with 2 in *.
  unfold signed. change (2 ^ (6 - 1)) with 32. change (2 ^ 6) with 64. case_match; lia.
Qed.

Definition reads (o : option rv_decode) : Prop :=
  ∀ d, o = Some d → expand rv32 pc inst = Ok (if andi_zero d then set_codec rv_codec_cb_imm (set_op rv_op_illegal (at_word pc inst d))
                       else at_word pc inst (read_as d)).

Lemma reads_valid b d : (b = true → reads (Some d)) → reads (valid b d).
Proof. unfold valid. intros H. destruct b; [by apply H | by intros ?]. Qed.

Local Ltac field_ranges :=
  pose proof (slice_range 2 5 inst ltac:(lia)); pose proof (slice_range 7 5 inst ltac:(lia));
  pose proof (slice_range 2 3 inst ltac:(lia)); pose proof (slice_range 7 3 inst ltac:(lia));
  pose proof (slice_range 12 1 inst ltac:(lia));
  change (2 ^ 5) with 32 in *; change (2 ^ 3) with 8 in *; change (2 ^ 1) with 2 in *.
(** A leaf: the path to the operation, then its expanded record. *)
Local Ltac path op :=
  let H := fresh in
  assert (decode_inst_opcode rv32 inst = op) as H;
  [ unfold decode_inst_opcode, decode_c0, decode_c1, decode_c2;
    let S := fresh in pose proof compressed_scrutinees as S; destruct_and! S;
    rewrite scrutinee_quadrant;
    repeat match goal with E : ?x = _ |- context [?x] =>
      lazymatch x with Z.land _ _ => rewrite E | Z.lor _ _ => rewrite E | slice _ _ _ => rewrite E end end;
    cbn [switch Z.eqb Pos.eqb];
    repeat match goal with |- context [4 * ?a + ?b] => let c := eval vm_compute in (4 * a + b) in change (4 * a + b) with c end;
    cbn [switch Z.eqb Pos.eqb];
    repeat match goal with |- context [?x =? ?y] => destruct (Z.eqb_spec x y); [try (exfalso; lia)|try (exfalso; lia)] end;
    reflexivity
  | rewrite (expand_eq op H); clear H ].
Local Ltac registers :=
  unfold operand_crdq, operand_crs1q, operand_crs1rdq, operand_crs2q, operand_crd, operand_crs1, operand_crs1rd, operand_crs2;
  rewrite ?(low_register 59 61 2), ?(low_register 54 61 7), ?(full_register 52 59 7), ?(full_register 57 59 2) by lia.
Local Ltac record op :=
  f_equal; unfold expanded;
  let c := eval vm_compute in (codec_of op) in change (codec_of op) with c;
  let o := eval vm_compute in (decomp_rv32 (entry_of op)) in change (decomp_rv32 (entry_of op)) with o;
  let f := eval vm_compute in (Z.land (decomp_data (entry_of op)) rvcd_imm_nz =? 0) in
    change (Z.land (decomp_data (entry_of op)) rvcd_imm_nz =? 0) with f;
  cbn [full_operands compressed_operands negb andb]; unfold set_operands; registers;
  rewrite ?cimm4spn_listing, ?cimmw_listing, ?cimmlwsp_listing, ?cimmswsp_listing, ?cimmsh6_listing,
    ?cimmi_listing, ?cimmui_listing, ?cimm16sp_listing, ?cimmj_listing, ?cimmb_listing;
  rewrite ?s32_small by (done || assumption).
Local Ltac leaf op :=
  intros d [= <-]; path op; rewrite andi_zero_base; record op;
  rewrite decide_False by done; cbn [d_imm negb andb bool_decide decide_rel rv_op_eq_dec];
  repeat match goal with |- context [?x =? 0] => destruct (Z.eqb_spec x 0); [try (exfalso; lia)|] end;
  rewrite ?read_mv; rewrite ?read_other by ((left; done) || (right; lia));
  reflexivity.

Local Ltac conditions :=
  repeat match goal with
  | H : _ && _ = true |- _ => apply andb_prop in H as [? ?]
  | H : nonzero ?x = true |- _ => apply negb_true_iff, Z.eqb_neq in H
  | H : (_ =? _) = true |- _ => apply Z.eqb_eq in H
  | H : (_ <? _) = true |- _ => apply Z.ltb_lt in H
  end.
(** The cases of the listings. *)
Local Ltac cases :=
  lazymatch goal with
  | |- reads (switch _ _ _) => by_cases; intros; cases
  | |- reads (if ?x =? ?k then _ else _) => destruct (Z.eqb_spec x k); cases
  | |- reads (Some (if ?x =? ?k then _ else _)) => destruct (Z.eqb_spec x k); cases
  | |- reads (valid _ _) => apply reads_valid; intros; cases
  | |- True => exact I
  | |- _ => conditions
  end.

Lemma expand_listings : reads (rvc_reference inst).
Proof.
  field_ranges. pose proof imm_6_zero. pose proof nop_parts.
  pose proof listing_ranges as Hr; rewrite !Forall_cons in Hr; destruct_and! Hr.
  unfold rvc_reference. cbn zeta. cases; try by (intros ? ?).
  leaf rv_op_c_addi4spn. leaf rv_op_c_lw. leaf rv_op_c_sw.
  leaf rv_op_c_nop. leaf rv_op_c_addi. leaf rv_op_c_jal. leaf rv_op_c_li. leaf rv_op_c_addi16sp. leaf rv_op_c_lui.
  leaf rv_op_c_srli. leaf rv_op_c_srai. leaf rv_op_c_andi. leaf rv_op_c_sub. leaf rv_op_c_xor. leaf rv_op_c_or.
  leaf rv_op_c_and. leaf rv_op_c_j. leaf rv_op_c_beqz. leaf rv_op_c_bnez.
  leaf rv_op_c_slli. leaf rv_op_c_lwsp. leaf rv_op_c_jr. leaf rv_op_c_mv. leaf rv_op_c_ebreak. leaf rv_op_c_jalr.
  leaf rv_op_c_add. leaf rv_op_c_swsp.
Qed.
End expansion.

(** What the listings give is in the reference set of 32-bit instructions. *)
Definition listed (inst : Z) (o : option rv_decode) : Prop :=
  ∀ d, o = Some d → slice 0 2 inst ≠ 3 ∧ assembled_as (d_op d) ≠ None.
Lemma rvc_listed inst : listed inst (rvc_reference inst).
Proof.
  unfold rvc_reference. cbn zeta. repeat (by_cases; intros); unfold valid; repeat case_match;
    try exact I; intros d; try discriminate; intros [= <-]; (split; [lia | discriminate]).
Qed.
Lemma read_assembled d : assembled_as (d_op d) ≠ None → assembled_as (d_op (read_as d)) ≠ None.
Proof. intros Hd. unfold read_as. by case_bool_decide. Qed.

Lemma expand_disasm isa pc inst d l : expand isa pc inst = Ok d → decode_inst_lift_pseudo d = Ok l →
  disasm_decode isa pc inst = Ok l.
Proof.
  unfold disasm_decode, expand. cbn zeta. destruct (decode_inst_operands _); [|done].
  rewrite !res_bind_ok. intros He Hl. by rewrite He, res_bind_ok.
Qed.
Lemma expand_wf pc inst d : expand rv32 pc inst = Ok d → wf_decode d.
Proof.
  unfold expand. destruct (decode_inst_operands_ok (set_op (decode_inst_opcode rv32 inst) (decode_init pc inst)))
    as (d1 & Hd1 & Hw1 & _); [apply wf_set_op, wf_decode_init|]. rewrite Hd1, res_bind_ok.
  destruct (decompress_ok rv32 d1) as (d2 & Hd2 & Hs & _). rewrite Hd2. intros [= <-]. by eapply same_operands_wf.
Qed.

(** The assembled word of an expanded record. *)
Lemma assembled_reads pc inst d : slice 0 2 inst ≠ 3 → expand rv32 pc inst = Ok d → assembled_as (d_op d) ≠ None →
  ∃ w l, assemble (d_op d) d = Some w ∧ disasm_decode rv32 pc inst = Ok l ∧
    disasm_decode rv32 pc w = Ok (at_word pc w l).
Proof.
  intros Hq He Hr. destruct (assembled_as (d_op d)) as [e|] eqn:Henc; [|done].
  destruct (expand_reference pc inst d e Hq He Henc) as [Himm Hvis]. pose proof (expand_wf _ _ _ He) as Hwf.
  destruct (assemble (d_op d) d) as [w|] eqn:Hw; [|by unfold assemble in Hw; rewrite Henc in Hw].
  destruct (lift_ok d) as (l & Hl & _). exists w, l. split; [done|]. split; [by eapply expand_disasm|].
  destruct (assemble_decodes rv32 pc (d_op d) d w Hwf Himm Hw) as [Hop Hops].
  assert (visible (codec_of (d_op d)) (placed pc w (d_op d) d) = at_word pc w d) as Hat.
  { transitivity (at_word pc w (visible (codec_of (d_op d)) d)); [by destruct (codec_of (d_op d)) | by rewrite <-Hvis]. }
  unfold disasm_decode. cbn zeta. rewrite Hop, Hops, res_bind_ok, Hat.
  rewrite (decompress_reference rv32 (at_word pc w d) e), res_bind_ok by done. by apply lift_at.
Qed.
Lemma assemble_at pc w op d : assemble op (at_word pc w d) = assemble op d.
Proof.
  unfold assemble. destruct (assembled_as op) as [e|]; [|done]. cbn [mbind option_bind].
  unfold encoded_fields. destruct (encoding_fields e) as [[o f3] f7]. by destruct (codec_of op).
Qed.

(** ** Properties *)

(** C32: A compressed instruction reads as the manual's expansion of it.  For every word
    whose low half is a 16-bit instruction of RV32C (neither reserved, nor a hint, nor of
    the F and D extensions) the disassembler for RV32 extracts and expands exactly the
    instruction, the registers and the immediate of the manual's listing; the 32-bit word
    assembled from that instruction by the manual's formats is disassembled to the same
    record, pseudo-instruction included, but for the word itself; and so is the low half
    alone.  The two exceptions: [c.mv] is expanded to [addi rd,rs2,0] instead of
    [add rd,x0,rs2], and [c.andi] with immediate zero, which is valid, is read as an illegal
    instruction. *)
Theorem compressed_reads_as_expansion (pc inst : Z) (d : rv_decode) :
  rvc_reference inst = Some d →
  if andi_zero d then ∃ l, disasm_decode rv32 pc inst = Ok l ∧ d_op l = rv_op_illegal
  else ∃ w l, expand rv32 pc inst = Ok (at_word pc inst (read_as d)) ∧
    assemble (d_op (read_as d)) (read_as d) = Some w ∧
    disasm_decode rv32 pc inst = Ok l ∧ disasm_decode rv32 pc w = Ok (at_word pc w l) ∧
    disasm_decode rv32 pc (inst mod 2 ^ 16) = Ok (at_word pc (inst mod 2 ^ 16) l).
Proof.
  intros Hd. pose proof (expand_listings pc inst d Hd) as He.
  destruct (rvc_listed inst d Hd) as [Hq Ha%read_assembled]. destruct (andi_zero d).
  { eexists. split; [eapply expand_disasm; [exact He|]; by vm_compute | done]. }
  destruct (assembled_reads pc inst _ Hq He Ha) as (w & l & Hw & Hl & Hwl). exists w, l. rewrite assemble_at in Hw.
  split_and!; [exact He | exact Hw | exact Hl | exact Hwl | by apply disasm_decode_low].
Qed.

(** ** Witnesses *)

(** [c.lw a4, 68(a1)], with [lw a4, 68(a1)], and the valid [c.andi a0, 0]. *)
Lemma compressed_reads_as_expansion_witness :
  rvc_reference 0x123441F8 = Some (base rv_op_lw 14 11 0 68) ∧
  (∃ l, disasm_decode rv32 0 0x123441F8 = Ok l ∧ disasm_decode rv32 0 0x0445A703 = Ok (at_word 0 0x0445A703 l)) ∧
  ∃ l, disasm_decode rv32 0 0x8901 = Ok l ∧ d_op l = rv_op_illegal.
Proof.
  assert (rvc_reference 0x123441F8 = Some (base rv_op_lw 14 11 0 68)) as Hd by by vm_compute.
  split; [exact Hd|]. split.
  - destruct (compressed_reads_as_expansion 0 0x123441F8 _ Hd) as (w & l & _ & Hw & Hl & Hwl & _).
    exists l. split; [exact Hl|]. assert (Some w = Some 0x0445A703) as [= ->] by (rewrite <-Hw; by vm_compute). exact Hwl.
  - apply (compressed_reads_as_expansion 0 0x8901 (base rv_op_andi 10 10 0 0)). by vm_compute.
Defined.
