(* ===== verification/DisasLine.v ===== *)
(** * What a disassembled line determines

    Reading a line back: the text after the word decides the operation, the operands behind
    every format character, and through the constraints of the pseudo-instructions those of
    the instruction before it was lifted. *)

From Stdlib Require Import Ascii.
From S2P Require Export DisasText DisasCompressed.
From S2P Require Import Format.

(** ** Reading a line *)

(** Two records agree on a shown operand, as far as its text tells: rounding modes 5 and 6
    have one name. *)
Definition invalid_mode (rm : Z) : bool := (rm =? 5) || (rm =? 6).
Definition read_alike (d1 d2 : rv_decode) (o : operand) : Prop :=
  operand_value o d1 = operand_value o d2 ∨
  o = o_rm ∧ invalid_mode (d_rm d1) = true ∧ invalid_mode (d_rm d2) = true.

(** The characters of an operand's text. *)
Definition item_char (c : ascii) : bool :=
  match c with " "%char | "("%char | ")"%char | ","%char | "#"%char => false | _ => true end.
Definition separator_char (c : ascii) : bool :=
  match c with "("%char | ")"%char | ","%char => true | _ => false end.
Definition operand_char (c : ascii) : bool :=
  match c with
  | "0"%char | "1"%char | "2"%char | "3"%char | "4"%char | "5"%char | "6"%char | "7"%char
  | "i"%char | "c"%char | "r"%char | "p"%char | "s"%char => true
  | _ => false
  end.
Definition separated (fmt : string) : bool :=
  match fmt with EmptyString => true | String c _ => separator_char c end.

(** Formats after the tabulator: operands with separators between them, a branch target only
    at the end. *)
Fixpoint readable (fmt : string) : bool :=
  match fmt with
  | EmptyString => true
  | String c fmt =>
      if separator_char c then readable fmt
      else if operand_char c then separated fmt && readable fmt
      else match c, fmt with "o"%char, EmptyString => true | _, _ => false end
  end.

(** What [emit_all] appends to a buffer of [len] characters. *)
Fixpoint tail_text (d : rv_decode) (name fmt : string) (len : nat) : string :=
  match fmt with
  | EmptyString => ""
  | String c fmt =>
      let s := match c with
               | "o"%char => left_field (64 - len) (int_str (d_imm d)) +:+ target_text d
               | _ => item_text d name c
               end in
      s +:+ tail_text d name fmt (len + String.length s)
  end.

(** The text up to a blank or a flag of an atomic operation. *)
Definition stop (s : string) : bool :=
  match s with
  | String " " _ | String "." (String "a" (String "q" _)) | String "." (String "r" (String "l" _)) => true
  | _ => false
  end.
Fixpoint cut (s : string) : string :=
  match s with
  | EmptyString => ""
  | String c s' => if stop s then "" else String c (cut s')
  end.
(** Names in which it stops nowhere, whatever follows them. *)
Definition partial (s : string) : bool :=
  match s with String "." "" | String "." (String "a" "") | String "." (String "r" "") => true | _ => false end.
Fixpoint clean (s : string) : bool :=
  match s with EmptyString => true | String _ s' => negb (stop s) && negb (partial s) && clean s' end.

(** ** Lemmas *)

(** *** Strings *)

Definition ends (p : ascii → bool) (s : string) : bool :=
  match s with EmptyString => true | String c _ => negb (p c) end.
Lemma span_inj p s1 s2 r1 r2 : all_chars p s1 = true → all_chars p s2 = true → ends p r1 = true → ends p r2 = true →
  s1 +:+ r1 = s2 +:+ r2 → s1 = s2 ∧ r1 = r2.
Proof.
  revert s2. induction s1 as [|c1 s1 IH]; intros [|c2 s2] H1 H2 E1 E2 Heq; [done| | |].
  - cbn [all_chars] in H2. apply andb_prop in H2 as [Hc _].
    change (r1 = String c2 (s2 +:+ r2)) in Heq. rewrite Heq in E1. cbn [ends] in E1. by rewrite Hc in E1.
  - cbn [all_chars] in H1. apply andb_prop in H1 as [Hc _].
    change (String c1 (s1 +:+ r1) = r2) in Heq. rewrite <-Heq in E2. cbn [ends] in E2. by rewrite Hc in E2.
  - cbn [all_chars] in H1, H2. apply andb_prop in H1 as [_ H1]. apply andb_prop in H2 as [_ H2].
    injection Heq as -> Heq. by destruct (IH s2 H1 H2 E1 E2 Heq) as [-> ->].
Qed.
Lemma append_inj_l s t t' : s +:+ t = s +:+ t' → t = t'.
Proof. intros H. by destruct (append_inj s s t t' eq_refl H). Qed.

Lemma cut_name name x : clean name = true → stop x = true → cut (name +:+ x) = name.
Proof.
  intros Hn Hx. induction name as [|c name IH].
  - destruct x; [done|]. change ("" +:+ String a x) with (String a x). cbn [cut]. by rewrite Hx.
  - cbn [clean] in Hn. apply andb_prop in Hn as [[Hs%negb_true_iff Hp%negb_true_iff]%andb_prop Hn].
    change (String c name +:+ x) with (String c (name +:+ x)). cbn [cut]. rewrite IH by done.
    assert (stop (String c (name +:+ x)) = false) as ->; [|done].
    destruct c as [[] [] [] [] [] [] [] []]; try done; destruct name as [|c2 [|c3 name]]; try done;
      by destruct c2 as [[] [] [] [] [] [] [] []].
Qed.

Lemma all_chars_digits (p : ascii → bool) base fuel z acc : 2 ≤ base ≤ 16 →
  Forall (λ d, p (digit_char d) = true) (seqZ 0 16) → all_chars p acc = true → all_chars p (digits base fuel z acc) = true.
Proof.
  intros Hb Hp. revert z acc. induction fuel as [|fuel IH]; intros z acc Ha; cbn [digits]; [done|].
  pose proof (Z.mod_pos_bound z base ltac:(lia)).
  assert (all_chars p (String (digit_char (z mod base)) acc) = true) as Hd.
  { cbn [all_chars]. rewrite Ha, andb_true_r. rewrite Forall_forall in Hp. apply Hp, elem_of_seqZ. lia. }
  destruct (z / base =? 0); [done|]. by apply IH.
Qed.

(** Numbers are read back. *)
Lemma dec_read z : is_u32 z → read_digits 10 0 (dec_str z) = z.
Proof. intros Hz. apply (read_number 10 9); simpl; lia. Qed.
Lemma int_str_inj z z' : is_s32 z → is_s32 z' → int_str z = int_str z' → z = z'.
Proof.
  intros Hz Hz'. assert (∀ x s, dec_str x ≠ "-" +:+ s) as Hm.
  { intros x s Hs. pose proof (all_chars_digits (λ c, negb (Ascii.eqb c "-"%char)) 10 10 x "" ltac:(lia)) as Hc.
    fold (dec_str x) in Hc. rewrite Hs in Hc. discriminate Hc; [|done]. by repeat constructor. }
  unfold int_str. destruct (Z.ltb_spec z 0), (Z.ltb_spec z' 0); intros Heq.
  - apply append_inj_l in Heq. assert (- z = - z'); [|lia]. rewrite <-(dec_read (- z)), <-(dec_read (- z')) by lia. by rewrite Heq.
  - by symmetry in Heq; apply Hm in Heq.
  - by apply Hm in Heq.
  - rewrite <-(dec_read z), <-(dec_read z') by lia. by rewrite Heq.
Qed.

Lemma read_zeros n s : read_digits 16 0 (zeros n +:+ s) = read_digits 16 0 s.
Proof. induction n as [|n IH]; [done | exact IH]. Qed.
Lemma hex_zero_inj w z z' : is_u64 z → is_u64 z' → hex_zero w z = hex_zero w z' → z = z'.
Proof.
  intros Hz Hz'. assert (∀ x, is_u64 x → read_digits 16 0 (hex_zero w x) = x) as Hr.
  { intros x Hx. unfold hex_zero. rewrite read_zeros. apply (read_number 16 15); simpl; lia. }
  intros Heq. rewrite <-(Hr z), <-(Hr z') by done. by rewrite Heq.
Qed.

(** *** Names *)

(** Names that differ, by comparing each with those after it. *)
Fixpoint distinct (l : list string) : bool :=
  match l with [] => true | s :: l => forallb (λ t, negb (String.eqb s t)) l && distinct l end.
Lemma distinct_NoDup l : distinct l = true → NoDup l.
Proof.
  induction l as [|s l IH]; [constructor|]. cbn [distinct]. intros [Hs Hl]%andb_prop. constructor; [|by apply IH].
  rewrite forallb_forall in Hs. intros Hin%list_elem_of_In%Hs. by rewrite String.eqb_refl in Hin.
Qed.

Lemma text_of_inj names r r' : distinct names = true → length names = 32%nat → 0 ≤ r < 32 → 0 ≤ r' < 32 →
  text_of names r = text_of names r' → r = r'.
Proof.
  intros Hn%distinct_NoDup Hl Hr Hr'. unfold text_of.
  destruct (nth_z_lt names r) as [x Hx]; [lia|]. destruct (nth_z_lt names r') as [x' Hx']; [lia|].
  rewrite Hx, Hx'. simpl. intros ->. unfold nth_z in Hx, Hx'. repeat case_match; try lia.
  assert (Z.to_nat r = Z.to_nat r') by by eapply NoDup_lookup. lia.
Qed.

Lemma csr_name_elem csrno s : csr_name csrno = Some s →
  (csrno, s) ∈ csr_names_0 ++ csr_names_1 ++ csr_names_2 ++ csr_names_3.
Proof.
  unfold csr_name. generalize (csr_names_0 ++ csr_names_1 ++ csr_names_2 ++ csr_names_3). intros l.
  apply (switch_ind (λ o, o = Some s → (csrno, s) ∈ l)); [|done].
  apply Forall_forall. intros c ([k t] & -> & Hin)%list_elem_of_fmap. simpl. by intros -> [= ->].
Qed.
Definition csr_table_ok : bool :=
  let l := csr_names_0 ++ csr_names_1 ++ csr_names_2 ++ csr_names_3 in
  distinct l.*2 && forallb (λ p, negb (String.prefix "0" p.2) && all_chars item_char p.2) l.
Lemma csr_table : csr_table_ok = true.
Proof. by vm_compute. Qed.

(** The CSR operand: a name of the table, or the number. *)
Definition csr_text (csrno : Z) : string := default ("0x" +:+ hex_zero 3 csrno) (csr_name csrno).
Lemma csr_text_inj c c' : is_u64 c → is_u64 c' → csr_text c = csr_text c' → c = c'.
Proof.
  intros Hc Hc'. pose proof csr_table as [Hd Hp]%andb_prop. apply distinct_NoDup in Hd. rewrite forallb_forall in Hp.
  assert (∀ k s, csr_name k = Some s → ∀ t, s ≠ "0x" +:+ t) as Hx.
  { intros k s Hk%csr_name_elem t ->. apply list_elem_of_In, Hp in Hk. discriminate Hk. }
  unfold csr_text. destruct (csr_name c) as [s|] eqn:Hs, (csr_name c') as [s'|] eqn:Hs'; simpl default.
  - intros ->. apply csr_name_elem in Hs, Hs'. apply list_elem_of_lookup in Hs as [i Hi], Hs' as [j Hj].
    assert (i = j) as ->; [|by simplify_eq]. eapply (NoDup_lookup _ _ _ s' Hd); rewrite list_lookup_fmap; by rewrite ?Hi, ?Hj.
  - intros Heq. by destruct (Hx _ _ Hs _ Heq).
  - intros Heq. by destruct (Hx _ _ Hs' _ (eq_sym Heq)).
  - intros Heq%(append_inj_l "0x"). by eapply hex_zero_inj.
Qed.

Lemma check_pairs n (ok : Z → Z → bool) a b : forallb (λ a, forallb (ok a) (seqZ 0 n)) (seqZ 0 n) = true →
  0 ≤ a < n → 0 ≤ b < n → ok a b = true.
Proof.
  intros Hok Ha Hb. rewrite forallb_forall in Hok. assert (∀ x, 0 ≤ x < n → In x (seqZ 0 n)) as Hin.
  { intros x Hx. apply list_elem_of_In, elem_of_seqZ. lia. }
  specialize (Hok a (Hin a Ha)). rewrite forallb_forall in Hok. by apply Hok, Hin.
Qed.
Lemma fence_text_inj a b : 0 ≤ a < 16 → 0 ≤ b < 16 → fence_text a = fence_text b → a = b.
Proof.
  intros Ha Hb Heq. pose proof (check_pairs 16 (λ a b, negb (String.eqb (fence_text a) (fence_text b)) || (a =? b)) a b
    ltac:(by vm_compute) Ha Hb) as Hok. simpl in Hok. rewrite Heq, String.eqb_refl in Hok. simpl in Hok. lia.
Qed.
Lemma rounding_mode_inj a b : 0 ≤ a < 8 → 0 ≤ b < 8 → rounding_mode a = rounding_mode b →
  a = b ∨ invalid_mode a = true ∧ invalid_mode b = true.
Proof.
  intros Ha Hb Heq. pose proof (check_pairs 8 (λ a b, negb (String.eqb (rounding_mode a) (rounding_mode b)) || (a =? b)
    || invalid_mode a && invalid_mode b) a b ltac:(by vm_compute) Ha Hb) as Hok.
  simpl in Hok. rewrite Heq, String.eqb_refl in Hok. simpl in Hok.
  apply orb_prop in Hok as [?|[]%andb_prop]; [left; lia | by right].
Qed.

Lemma register_names : distinct rv_ireg_name_sym = true ∧ distinct rv_freg_name_sym = true.
Proof. split; by vm_compute. Qed.

(** *** Operands *)

Section items.
Context (d1 d2 : rv_decode) (H1 : wf_decode d1) (H2 : wf_decode d2).

(** Equal texts of one format character are equal operands. *)
Lemma item_inj n1 n2 c : operand_char c = true → item_text d1 n1 c = item_text d2 n2 c →
  ∀ o, o ∈ shown_by c → read_alike d1 d2 o.
Proof.
  intros Hc Heq o. destruct H1, H2, register_names as [Hi Hf].
  pose proof (slice_range 0 12 (d_imm d1) ltac:(lia)). pose proof (slice_range 0 12 (d_imm d2) ltac:(lia)).
  change (2 ^ 12) with 4096 in *.
  destruct c as [[] [] [] [] [] [] [] []]; try discriminate Hc; cbn [item_text shown_by] in *;
    intros ->%list_elem_of_singleton; unfold read_alike; cbn [operand_value].
  all: try (left; apply (text_of_inj rv_ireg_name_sym); done || lia).
  all: try (left; apply (text_of_inj rv_freg_name_sym); done || lia).
  all: try (left; apply int_str_inj; done || lia).
  all: try (left; apply fence_text_inj; done || lia).
  - left. apply csr_text_inj; [lia | lia | exact Heq].
  - apply rounding_mode_inj in Heq as [?|[]]; [by left | by right | done | done].
Qed.

Lemma item_chars d name c : wf_decode d → operand_char c = true → all_chars item_char (item_text d name c) = true.
Proof.
  intros [] Hc.
  assert (∀ names r, forallb (all_chars item_char) names = true → all_chars item_char (text_of names r) = true) as Hn.
  { intros names r Hf. unfold text_of. destruct (nth_z names r) eqn:Hx; [|done].
    apply (nth_z_Forall (λ s, all_chars item_char s = true) _ _ _ ltac:(by apply Forall_check with (all_chars item_char)) Hx). }
  assert (∀ fuel base z, 2 ≤ base ≤ 16 → all_chars item_char (digits base fuel z "") = true) as Hd.
  { intros fuel base z Hb. apply all_chars_digits; [lia | by repeat constructor | done]. }
  assert (∀ z, all_chars item_char (int_str z) = true) as Hint.
  { intros z. unfold int_str, dec_str. case_match; [rewrite all_chars_app; change (all_chars item_char "-") with true; cbn [andb]|]; apply Hd; lia. }
  assert (∀ set, all_chars item_char (fence_text set) = true) as Hfence.
  { intros set. unfold fence_text. by destruct (Z.testbit set 3), (Z.testbit set 2), (Z.testbit set 1), (Z.testbit set 0). }
  assert (∀ rm, all_chars item_char (rounding_mode rm) = true) as Hrm.
  { intros rm. by apply (switch_ind (λ s, all_chars item_char s = true)); [repeat constructor|]. }
  destruct c as [[] [] [] [] [] [] [] []]; try discriminate Hc; cbn [item_text];
    first [apply Hn; by vm_compute | apply Hint | apply Hfence | apply Hrm | idtac].
  fold (csr_text (slice 0 12 (d_imm d))). unfold csr_text. destruct (csr_name _) as [s|] eqn:Hs; simpl default.
  - apply csr_name_elem, list_elem_of_In in Hs. pose proof csr_table as [_ Hp]%andb_prop.
    rewrite forallb_forall in Hp. by apply Hp, andb_prop in Hs as [_ ?].
  - change (all_chars item_char (hex_zero 3 (slice 0 12 (d_imm d))) = true). unfold hex_zero.
    rewrite all_chars_app. unfold hex_digits. rewrite Hd by lia. rewrite andb_true_r.
    generalize (3 - String.length (digits 16 16 (slice 0 12 (d_imm d)) ""))%nat as n. by induction n.
Qed.
End items.

(** *** Operand lists *)

Lemma emit_all_tail d name fmt buf : readable fmt = true →
  emit_all d name fmt buf = buf +:+ tail_text d name fmt (String.length buf).
Proof.
  revert buf. induction fmt as [|c fmt IH]; intros buf Hf; [by rewrite append_nil|].
  assert (readable fmt = true) as Hf'.
  { cbn [readable] in Hf. destruct (separator_char c); [done|]. destruct (operand_char c); [by apply andb_prop in Hf as [_ ?]|].
    destruct fmt; [done|]. by destruct c as [[] [] [] [] [] [] [] []]. }
  cbn [emit_all tail_text]. rewrite IH by done.
  assert (emit d name buf c = buf +:+ match c with
    | "o"%char => left_field (64 - String.length buf) (int_str (d_imm d)) +:+ target_text d | _ => item_text d name c end) as ->.
  { destruct c as [[] [] [] [] [] [] [] []]; try reflexivity; [|discriminate Hf].
    cbn [emit]. unfold left_field. by rewrite length_append, Nat.sub_add_distr, !append_assoc. }
  rewrite length_append. by rewrite append_assoc.
Qed.

Lemma tail_ends d name fmt len : readable fmt = true → separated fmt = true → ends item_char (tail_text d name fmt len) = true.
Proof.
  destruct fmt as [|c fmt]; [done|]. intros _ Hs. cbn [separated] in Hs.
  by destruct c as [[] [] [] [] [] [] [] []].
Qed.

Lemma pad_ends n s : ends item_char s = true → ends item_char (pad n +:+ s) = true.
Proof. by destruct n. Qed.

(** Equal operand lists are equal operands. *)
Lemma tail_inj d1 d2 n1 n2 fmt l1 l2 : wf_decode d1 → wf_decode d2 → readable fmt = true →
  tail_text d1 n1 fmt l1 = tail_text d2 n2 fmt l2 → ∀ o, o ∈ shown_in fmt → read_alike d1 d2 o.
Proof.
  intros Hd1 Hd2. revert l1 l2. induction fmt as [|c fmt IH]; intros l1 l2 Hf Heq o Ho; [by apply elem_of_nil in Ho|].
  cbn [readable] in Hf. cbn [shown_in] in Ho. destruct (separator_char c) eqn:Hs.
  - destruct c as [[] [] [] [] [] [] [] []]; try discriminate Hs; cbn [tail_text item_text shown_by app] in *;
      injection Heq as Heq; by eapply IH.
  - destruct (operand_char c) eqn:Hc.
    + apply andb_prop in Hf as [Hsep Hf]. cbn [tail_text] in Heq.
      assert (∀ d n l, (match c with "o"%char => left_field (64 - l) (int_str (d_imm d)) +:+ target_text d
        | _ => item_text d n c end) = item_text d n c) as Hitem.
      { intros. by destruct c as [[] [] [] [] [] [] [] []]. }
      rewrite !Hitem in Heq. apply (span_inj item_char) in Heq as [Hi Ht];
        [|by apply item_chars | by apply item_chars | by apply tail_ends | by apply tail_ends].
      apply elem_of_app in Ho as [Ho|Ho]; [by eapply item_inj | by eapply IH].
    + destruct fmt; [|by destruct c as [[] [] [] [] [] [] [] []]].
      assert (c = "o"%char) as -> by by destruct c as [[] [] [] [] [] [] [] []].
      cbn [tail_text shown_by shown_in app] in *. apply list_elem_of_singleton in Ho as ->.
      left. cbn [operand_value]. rewrite !append_nil in Heq. unfold left_field in Heq. rewrite <-!append_assoc in Heq.
      apply (span_inj item_char) in Heq as [Hi _].
      * by apply int_str_inj; [apply Hd1 | apply Hd2 |].
      * by apply (item_chars d1 "" "i").
      * by apply (item_chars d2 "" "i").
      * by apply pad_ends.
      * by apply pad_ends.
Qed.

(** *** Operations *)

(** The operation a pseudo-instruction stands for. *)
Definition base_of (op : rv_op) : rv_op :=
  match op with
  | rv_op_j => rv_op_jal
  | rv_op_ret | rv_op_jr => rv_op_jalr
  | rv_op_beqz => rv_op_beq | rv_op_bnez => rv_op_bne
  | rv_op_bltz | rv_op_bgtz | rv_op_bgt => rv_op_blt
  | rv_op_blez | rv_op_bgez | rv_op_ble => rv_op_bge
  | rv_op_bgtu => rv_op_bltu | rv_op_bleu => rv_op_bgeu
  | rv_op_nop | rv_op_mv => rv_op_addi
  | rv_op_seqz => rv_op_sltiu | rv_op_not => rv_op_xori | rv_op_neg => rv_op_sub
  | rv_op_sltz | rv_op_sgtz => rv_op_slt | rv_op_snez => rv_op_sltu
  | rv_op_sext_w => rv_op_addiw | rv_op_negw => rv_op_subw
  | rv_op_fscsr | rv_op_fsrm | rv_op_fsflags => rv_op_csrrw
  | rv_op_rdcycle | rv_op_rdtime | rv_op_rdinstret | rv_op_rdcycleh | rv_op_rdtimeh | rv_op_rdinstreth
  | rv_op_frcsr | rv_op_frrm | rv_op_frflags => rv_op_csrrs
  | rv_op_fsrmi | rv_op_fsflagsi => rv_op_csrrwi
  | rv_op_fmv_s => rv_op_fsgnj_s | rv_op_fneg_s => rv_op_fsgnjn_s | rv_op_fabs_s => rv_op_fsgnjx_s
  | rv_op_fmv_d => rv_op_fsgnj_d | rv_op_fneg_d => rv_op_fsgnjn_d | rv_op_fabs_d => rv_op_fsgnjx_d
  | rv_op_fmv_q => rv_op_fsgnj_q | rv_op_fneg_q => rv_op_fsgnjn_q | rv_op_fabs_q => rv_op_fsgnjx_q
  | op => op
  end.

(** Every alternative with constraints stands for its operation, and gives the operands not
    shown, but for the offset of [ret]. *)
Definition stands_for (op : rv_op) (a : rv_comp_data) : bool :=
  match a with
  | (op', Some c) =>
      bool_decide (base_of op' = op) &&
      forallb (λ o, bool_decide (o ∈ known op' (constraints_of c)) || bool_decide (op' = rv_op_ret ∧ o = o_imm)) (shown op)
  | (_, None) => true
  end.
Lemma alternatives_stand_for op a : a ∈ pseudos op → stands_for op a = true.
Proof.
  revert a. rewrite <-Forall_forall. revert op.
  apply (check_rv_op _ (λ op, forallb (stands_for op) (pseudos op))); [|by vm_compute].
  intros op. by apply Forall_check.
Qed.

(** Recognition never yields a pseudo-instruction, nor does decompression. *)
Definition real (op : rv_op) : Prop := base_of op = op.
Local Ltac walk_real := lazymatch goal with
  | |- real (switch _ _ _) => by_cases; intros; walk_real
  | |- real (if ?b then _ else _) => destruct b; walk_real
  | |- True => exact I
  | |- _ => try reflexivity
  end.
Lemma opcode_real isa inst : real (decode_inst_opcode isa inst).
Proof.
  assert (real (decode_op_fp inst)) as Hfp.
  { unfold decode_op_fp, op_fp_arith, op_fp_convert, op_fp_integer, op_fp_move. cbn [app]. walk_real. }
  unfold decode_inst_opcode, decode_c0, decode_c1, decode_c2, decode_full, decode_load, decode_load_fp,
    decode_misc_mem, decode_op_imm, decode_op_imm_32, decode_store, decode_store_fp, decode_amo, decode_op,
    decode_op_32, decode_fmadd, decode_fmsub, decode_fnmsub, decode_fnmadd, decode_op_imm_64, decode_branch,
    decode_system, decode_op_64. walk_real. exact Hfp.
Qed.
Lemma decompressed_real op : real (decomp_rv32 (entry_of op)) ∧ real (decomp_rv64 (entry_of op)) ∧ real (decomp_rv128 (entry_of op)).
Proof.
  revert op. refine (check_rv_op _ (λ op, bool_decide (base_of (decomp_rv32 (entry_of op)) = decomp_rv32 (entry_of op))
    && bool_decide (base_of (decomp_rv64 (entry_of op)) = decomp_rv64 (entry_of op))
    && bool_decide (base_of (decomp_rv128 (entry_of op)) = decomp_rv128 (entry_of op))) _ _); [|by vm_compute].
  intros op [[H1 H2]%andb_prop H3]%andb_prop. by rewrite !bool_decide_eq_true in *.
Qed.

Lemma expand_real isa pc inst : ∃ d, expand isa pc inst = Ok d ∧ wf_decode d ∧ d_inst d = inst ∧ real (d_op d).
Proof.
  unfold expand.
  destruct (decode_inst_operands_ok (set_op (decode_inst_opcode isa inst) (decode_init pc inst)))
    as (d1 & -> & Hw & _ & Hin & Hop & _); [apply wf_set_op, wf_decode_init|]. rewrite res_bind_ok.
  pose proof (opcode_real isa inst) as Hr. change (d_op d1 = decode_inst_opcode isa inst) in Hop. rewrite <-Hop in Hr.
  change (d_inst d1 = inst) in Hin. unfold decode_inst_decompress. rewrite entry_of_eq, res_bind_ok. cbn zeta.
  destruct (decompressed_real (d_op d1)) as (H32 & H64 & H128).
  set (op := match isa with rv32 => _ | rv64 => _ | rv128 => _ end).
  assert (real op) as Ho by by destruct isa. clearbody op.
  destruct (decide _); [by exists d1|]. destruct (_ && _); [eexists; split; [done|]; split; [by apply wf_set_op | done]|].
  destruct (codec_of_entry op) as (e & -> & _). rewrite res_bind_ok. eexists. split; [done|].
  split; [by apply wf_set_codec, wf_set_op | done].
Qed.

Lemma lifted_base d l : real (d_op d) → decode_inst_lift_pseudo d = Ok l → base_of (d_op l) = d_op d.
Proof.
  intros Hr [->|(op & c & Hin & _ & ->)]%lift_cases; [done|].
  apply alternatives_stand_for, andb_prop in Hin as [Hb _]. by apply bool_decide_eq_true_1 in Hb.
Qed.

(** *** The head of a line *)

Lemma name_inj op op' : od_name (entry_of op) = od_name (entry_of op') → op = op'.
Proof.
  assert (distinct ((λ op, od_name (entry_of op)) <$> rv_ops) = true) as Hd%distinct_NoDup by by vm_compute.
  intros Heq. apply rv_op_val_inj. pose proof (rv_op_val_lookup op) as H1. pose proof (rv_op_val_lookup op') as H2.
  assert (Z.to_nat (rv_op_val op) = Z.to_nat (rv_op_val op')) as Hn.
  { eapply (NoDup_lookup _ _ _ (od_name (entry_of op)) Hd); rewrite list_lookup_fmap; [by rewrite H1 | by rewrite H2, Heq]. }
  assert (0 ≤ rv_op_val op ∧ 0 ≤ rv_op_val op') as [] by (split; [by destruct op | by destruct op']). lia.
Qed.

(** The part of a format after the tabulator. *)
Fixpoint after_tab (fmt : string) : string :=
  match fmt with
  | EmptyString => ""
  | String c fmt => if Ascii.eqb c "009"%char then fmt else after_tab fmt
  end.
Definition operand_format (op : rv_op) : string := after_tab (od_format (entry_of op)).
Definition flag_text (d : rv_decode) : string :=
  if flagged (d_op d) then text_if (d_aq d =? 1) ".aq" +:+ text_if (d_rl d =? 1) ".rl" else "".

Definition format_parts_ok (op : rv_op) : bool :=
  readable (operand_format op) && clean (od_name (entry_of op)) &&
  String.eqb (od_format (entry_of op))
    (if flagged op then String "O" (String "A" (String "R" (String "009" (operand_format op))))
     else String "O" (String "009" (operand_format op))).
Lemma format_parts op :
  readable (operand_format op) = true ∧ clean (od_name (entry_of op)) = true ∧
  od_format (entry_of op) =
    if flagged op then String "O" (String "A" (String "R" (String "009" (operand_format op))))
    else String "O" (String "009" (operand_format op)).
Proof.
  revert op. refine (check_rv_op _ format_parts_ok _ _); [|by vm_compute].
  intros op [[Hr Hc]%andb_prop Hf%String.eqb_eq]%andb_prop. done.
Qed.

(** The line after the word: name, flags, blanks to the operands, operands. *)
Lemma render_parts d : is_u32 (d_inst d) → inst_length (d_inst d) = 4 → ∃ len,
  let name := od_name (entry_of (d_op d)) in
  render d = inst_text (d_inst d) +:+ (name +:+ (flag_text d +:+
    (pad (14 - String.length name - String.length (flag_text d)) +:+ tail_text d name (operand_format (d_op d)) len))).
Proof.
  intros Hi Hl. destruct (format_parts (d_op d)) as (Hr & _ & Hf). unfold render. rewrite Hf.
  set (name := od_name _). cbn zeta.
  assert (∃ len, emit_all d name (if flagged (d_op d) then String "O" (String "A" (String "R" (String "009" (operand_format (d_op d)))))
      else String "O" (String "009" (operand_format (d_op d)))) (inst_text (d_inst d))
    = left_field 32 (inst_text (d_inst d) +:+ (name +:+ flag_text d)) +:+ tail_text d name (operand_format (d_op d)) len) as [len ->].
  { unfold flag_text. destruct (flagged (d_op d)); cbn [emit_all emit item_text];
      (eexists; rewrite emit_all_tail by done; rewrite ?append_nil, ?append_assoc; reflexivity). }
  exists len. pose proof (word_column _ Hi Hl) as Hw. unfold strlen in Hw. unfold left_field.
  rewrite !length_append. replace (32 - (String.length (inst_text (d_inst d)) + (String.length name + String.length (flag_text d))))%nat
    with (14 - String.length name - String.length (flag_text d))%nat by lia. by rewrite !append_assoc.
Qed.

Lemma flags_stop d t : (String.length (od_name (entry_of (d_op d))) <= 10)%nat →
  stop (flag_text d +:+ (pad (14 - String.length (od_name (entry_of (d_op d))) - String.length (flag_text d)) +:+ t)) = true.
Proof.
  intros Hn. unfold flag_text. set (n := String.length _) in *.
  destruct (flagged _), (d_aq d =? 1), (d_rl d =? 1); try done; cbn [text_if];
    change (String.length ("" +:+ "")) with 0%nat; change (String.length "") with 0%nat;
    (replace (14 - n - 0)%nat with (S (13 - n)) by lia; reflexivity).
Qed.

(** The flags are read before the blanks or the operands. *)
Lemma flags_inj d1 d2 n t1 t2 : (n <= 10)%nat → wf_decode d1 → wf_decode d2 → flagged (d_op d1) = flagged (d_op d2) →
  flag_text d1 +:+ (pad (14 - n - String.length (flag_text d1)) +:+ t1)
  = flag_text d2 +:+ (pad (14 - n - String.length (flag_text d2)) +:+ t2) →
  flag_text d1 = flag_text d2.
Proof.
  intros Hn _ _ Hf. unfold flag_text. rewrite Hf. destruct (flagged (d_op d2)); [|done].
  assert (∃ k, (14 - n - 0 = S k)%nat) as [k H0] by (exists (13 - n)%nat; lia).
  assert (∃ k, (14 - n - 3 = S k)%nat) as [k3 H3] by (exists (10 - n)%nat; lia).
  destruct (d_aq d1 =? 1), (d_rl d1 =? 1), (d_aq d2 =? 1), (d_rl d2 =? 1); try done;
    cbn [text_if]; change (String.length (".aq" +:+ "")) with 3%nat; change (String.length ("" +:+ ".rl")) with 3%nat;
    change (String.length ("" +:+ "")) with 0%nat; rewrite ?H0, ?H3; generalize (14 - n - String.length (".aq" +:+ ".rl"))%nat;
    intros m; lazy beta iota delta [String.append pad]; discriminate.
Qed.

Lemma flag_text_inj d1 d2 o : wf_decode d1 → wf_decode d2 → d_op d1 = d_op d2 → flagged (d_op d1) = true →
  flag_text d1 = flag_text d2 → o = o_aq ∨ o = o_rl → operand_value o d1 = operand_value o d2.
Proof.
  intros [] [] Hop Hf. unfold flag_text. rewrite <-Hop, Hf.
  destruct (Z.eqb_spec (d_aq d1) 1), (Z.eqb_spec (d_rl d1) 1), (Z.eqb_spec (d_aq d2) 1), (Z.eqb_spec (d_rl d2) 1);
    try discriminate; intros _ [-> | ->]; simpl; lia.
Qed.

(** Equal lines, after the word, come from records of one operation with equal shown
    operands. *)
Lemma render_inj d1 d2 t : wf_decode d1 → wf_decode d2 → is_u32 (d_inst d1) → is_u32 (d_inst d2) →
  inst_length (d_inst d1) = 4 → inst_length (d_inst d2) = 4 →
  render d1 = inst_text (d_inst d1) +:+ t → render d2 = inst_text (d_inst d2) +:+ t →
  d_op d1 = d_op d2 ∧ ∀ o, o ∈ shown (d_op d1) → read_alike d1 d2 o.
Proof.
  intros Hd1 Hd2 Hi1 Hi2 Hl1 Hl2 Ht1 Ht2.
  destruct (render_parts d1 Hi1 Hl1) as [len1 Hr1], (render_parts d2 Hi2 Hl2) as [len2 Hr2].
  rewrite Ht1 in Hr1. rewrite Ht2 in Hr2. apply append_inj_l in Hr1, Hr2. rewrite Hr1 in Hr2.
  assert (∀ op, (String.length (od_name (entry_of op)) <= 10)%nat) as Hn.
  { intros op. pose proof (names_short op). unfold strlen in *. lia. }
  assert (d_op d1 = d_op d2) as Hop.
  { apply name_inj. apply (f_equal cut) in Hr2.
    rewrite !cut_name in Hr2; [exact Hr2 | apply format_parts | by apply flags_stop | apply format_parts | by apply flags_stop]. }
  split; [done|]. rewrite <-Hop in Hr2. apply append_inj_l in Hr2.
  assert (flag_text d1 = flag_text d2) as Hflags by (eapply flags_inj; try exact Hr2; try done; by rewrite Hop).
  rewrite Hflags in Hr2. do 2 apply append_inj_l in Hr2.
  destruct (format_parts (d_op d1)) as (Hread & _ & Hfmt). intros o. unfold shown. rewrite Hfmt.
  assert (∀ o, o ∈ shown_in (operand_format (d_op d1)) → read_alike d1 d2 o) as Htail by by eapply tail_inj.
  destruct (flagged (d_op d1)) eqn:Hf; cbn [shown_in shown_by app]; [|apply Htail].
  rewrite !elem_of_cons. intros [->|[->|Ho]]; [left; by apply flag_text_inj; auto.. | by apply Htail].
Qed.

(** No pseudo-instruction has a rounding mode. *)
Lemma pseudos_without_mode op op' c : (op', Some c) ∈ pseudos op → o_rm ∉ shown op'.
Proof.
  intros Hin. assert (forallb (λ a, negb (bool_decide (o_rm ∈ shown a.1))) (pseudos op) = true) as Hrm.
  { revert op Hin. intros op _. revert op.
    apply (check_rv_op _ (λ op, forallb (λ a, negb (bool_decide (o_rm ∈ shown a.1))) (pseudos op))); [done | by vm_compute]. }
  rewrite forallb_forall in Hrm. apply list_elem_of_In, Hrm, negb_true_iff in Hin. by apply bool_decide_eq_false_1 in Hin.
Qed.

(** From the lifted records to those before. *)
Lemma lifted_alike d1 d2 l1 l2 : real (d_op d1) → real (d_op d2) →
  decode_inst_lift_pseudo d1 = Ok l1 → decode_inst_lift_pseudo d2 = Ok l2 → d_op l1 = d_op l2 →
  (∀ o, o ∈ shown (d_op l1) → read_alike l1 l2 o) →
  d_op d1 = d_op d2 ∧ ∀ o, o ∈ shown (d_op d1) → read_alike d1 d2 o ∨ o = o_imm ∧ d_op l1 = rv_op_ret.
Proof.
  intros Hr1 Hr2 H1 H2 Hop Hs.
  assert (d_op d1 = d_op d2) as Hbase by (rewrite <-(lifted_base _ _ Hr1 H1), <-(lifted_base _ _ Hr2 H2); by f_equal).
  split; [done|]. apply lift_cases in H1, H2.
  assert (∀ o, read_alike l1 l2 o → read_alike d1 d2 o) as Hv.
  { intros o. destruct H1 as [->|(? & ? & _ & _ & ->)], H2 as [->|(? & ? & _ & _ & ->)]; unfold read_alike;
      by rewrite ?operand_value_lifted. }
  intros o Ho. destruct (decide (d_op l1 = d_op d1)) as [Heq|Hne]; [left; apply Hv, Hs; by rewrite Heq|].
  destruct H1 as [->|(op1 & c1 & Hin1 & Hc1 & ->)]; [done|].
  destruct H2 as [->|(op2 & c2 & Hin2 & Hc2 & ->)]; [simpl in *; congruence|]. simpl in Hop, Hne. subst op2.
  rewrite <-Hbase in Hin2. pose proof (pseudo_unique _ _ _ _ Hin1 Hin2) as [= ->].
  pose proof (alternatives_stand_for _ _ Hin1) as [_ Hk]%andb_prop. rewrite forallb_forall in Hk.
  specialize (Hk o (proj1 (list_elem_of_In _ _) Ho)). apply orb_prop in Hk as [Hk|Hk]; apply bool_decide_eq_true_1 in Hk;
    [|right; by destruct Hk]. left. left. apply (known_agree d1 d2 op1 (constraints_of c2)); [done | done | | done].
  intros o' Ho'. destruct (Hv o' (Hs o' Ho')) as [?|[-> _]]; [done|]. exfalso. clear -Hin1 Ho'.
  by eapply pseudos_without_mode.
Qed.

(** ** Properties *)

(** C33: A line determines the instruction it shows.  If two four-byte words, at whatever
    addresses, are disassembled to lines with the same text after the word, then the
    instructions they decode to, before any pseudo-instruction replaces them, are of one
    operation and agree in every operand its format has: the mnemonic with its flags, the
    register and CSR names, numbers, fence sets and the branch offset are read back from the
    text, and what a pseudo-instruction does not show, its constraints fix.  The two
    exceptions: [ret] does not show the offset of the [jalr] it stands for, and the invalid
    rounding modes 5 and 6 are both printed as [inv]; both do occur. *)
Theorem line_determines_operands (isa : rv_isa) (pc1 pc2 w1 w2 : Z) (t : string) :
  is_u32 w1 → is_u32 w2 → inst_length w1 = 4 → inst_length w2 = 4 →
  disasm_inst 128 isa pc1 w1 = Ok (inst_text w1 +:+ t) → disasm_inst 128 isa pc2 w2 = Ok (inst_text w2 +:+ t) →
  ∃ d1 d2 l1, expand isa pc1 w1 = Ok d1 ∧ expand isa pc2 w2 = Ok d2 ∧ decode_inst_lift_pseudo d1 = Ok l1 ∧
    d_op d1 = d_op d2 ∧
    ∀ o, o ∈ shown (d_op d1) →
      operand_value o d1 = operand_value o d2 ∨
      (o = o_rm ∧ invalid_mode (d_rm d1) = true ∧ invalid_mode (d_rm d2) = true) ∨
      (o = o_imm ∧ d_op l1 = rv_op_ret).
Proof.
  intros Hi1 Hi2 Hw1 Hw2 Ht1 Ht2.
  destruct (expand_real isa pc1 w1) as (d1 & He1 & Hd1 & Hin1 & Hr1), (expand_real isa pc2 w2) as (d2 & He2 & Hd2 & Hin2 & Hr2).
  destruct (lift_ok d1) as (l1 & Hl1 & Hs1 & _), (lift_ok d2) as (l2 & Hl2 & Hs2 & _).
  pose proof (same_operands_wf _ _ Hs1 Hd1) as Hwf1. pose proof (same_operands_wf _ _ Hs2 Hd2) as Hwf2.
  assert (d_inst l1 = w1 ∧ d_inst l2 = w2) as [Hil1 Hil2] by (by rewrite Hs1, Hs2).
  assert (∀ pc w d l, is_u32 w → d_inst l = w → wf_decode l → expand isa pc w = Ok d → decode_inst_lift_pseudo d = Ok l →
    disasm_inst 128 isa pc w = Ok (render l)) as Hrender.
  { intros pc w d l Hw Hin Hwf He Hl. unfold disasm_inst. rewrite (expand_disasm isa pc w d l He Hl), res_bind_ok.
    by apply (render_ok 128 ltac:(lia)); [|lia|]. }
  rewrite (Hrender pc1 w1 d1 l1) in Ht1 by done. rewrite (Hrender pc2 w2 d2 l2) in Ht2 by done.
  injection Ht1 as Ht1. injection Ht2 as Ht2.
  destruct (render_inj l1 l2 t Hwf1 Hwf2) as [Hop Hs]; [by rewrite ?Hil1, ?Hil2..|].
  destruct (lifted_alike d1 d2 l1 l2 Hr1 Hr2 Hl1 Hl2 Hop Hs) as [Hbase Hall].
  exists d1, d2, l1. split_and!; [done..|]. intros o Ho. unfold read_alike in Hall. destruct (Hall o Ho) as [[?|?]|?]; auto.
Qed.

(** ** Witnesses *)

(** [mv a0,a1] at two addresses; and the two exceptions: [jalr zero,0(ra)] and
    [jalr zero,4(ra)], and [fadd.s] with the rounding modes 5 and 6. *)
Lemma line_determines_operands_witness :
  (∃ d1 d2 l1, expand rv32 0 0x00058513 = Ok d1 ∧ expand rv32 8 0x00058513 = Ok d2 ∧ decode_inst_lift_pseudo d1 = Ok l1 ∧
    d_op d1 = d_op d2 ∧
    ∀ o, o ∈ shown (d_op d1) →
      operand_value o d1 = operand_value o d2 ∨
      (o = o_rm ∧ invalid_mode (d_rm d1) = true ∧ invalid_mode (d_rm d2) = true) ∨
      (o = o_imm ∧ d_op l1 = rv_op_ret)) ∧
  (∃ t, disasm_inst 128 rv32 0 0x00008067 = Ok ("00008067" +:+ t) ∧ disasm_inst 128 rv32 0 0x00408067 = Ok ("00408067" +:+ t)) ∧
  ∃ t, disasm_inst 128 rv32 0 0x003150D3 = Ok ("003150d3" +:+ t) ∧ disasm_inst 128 rv32 0 0x003160D3 = Ok ("003160d3" +:+ t).
Proof.
  split; [|split; eexists; split; by vm_compute].
  assert (∃ t, ∀ pc, pc = 0 ∨ pc = 8 → disasm_inst 128 rv32 pc 0x00058513 = Ok (inst_text 0x00058513 +:+ t)) as [t Ht].
  { eexists. intros pc [-> | ->]; by vm_compute. }
  apply (line_determines_operands rv32 0 8 0x00058513 0x00058513 t); [lia | lia | by vm_compute | by vm_compute | |];
    apply Ht; [by left | by right].
Defined.
