(* ===== verification/Loader.v ===== *)
(** * The ELF loader ([include/loader.hpp], [src/loader.cpp])

    The checks of the constructor, the copy of the loadable segments into memory, the
    symbol lookup, the entry point and the executable ranges.  ELFIO is a submodule;
    it is the parameter [ElfIO]: an image as the accessors the loader calls present
    it, and the constants of the ELF format. *)

From S2P Require Export Router.

(** ** ELFIO *)

(** [s_data] is what can be read of the process's memory from the pointer [get_data] returns
    on: the bytes of the segment first, and whatever lies behind ELFIO's buffer after them.
    (The loader copies whole pages and so reads past the buffer of a segment that does not
    fill its last page.) *)
Record segment : Set := mk_segment {
  s_type : Z; s_virtual_address : Z; s_file_size : Z; s_data : list Z
}.
Record section : Set := mk_section {
  sec_type : Z; sec_flags : Z; sec_address : Z; sec_size : Z
}.
Record elf : Type := mk_elf {
  e_class : Z; e_machine : Z; e_entry : Z;
  e_segments : list segment; e_sections : list section; e_symbols : list (string * Z)
}.

Class ElfIO := {
  elf_load : string → option elf;                 (* elfio::load *)
  get_symbol : elf → string → option Z;           (* symbol_section_accessor::get_symbol *)
  ELFCLASS32 : Z; EM_RISCV : Z; PT_LOAD : Z; SHT_PROGBITS : Z; SHF_EXECINSTR : Z
}.

(** The printers of [elfio_dump.hpp], as the text they write for an image. *)
Class ElfDump := {
  dump_header : elf → string; dump_section_headers : elf → string; dump_segment_headers : elf → string;
  dump_symbol_tables : elf → string; dump_notes : elf → string; dump_modinfo : elf → string;
  dump_dynamic_tags : elf → string; dump_section_datas : elf → string; dump_segment_datas : elf → string
}.

(** ** The loader *)

Section loader.
Context `{CommonLib} `{ElfIO}.

Definition loader_open (file_name : string) : res elf :=
  match elf_load file_name with
  | None => Fail (Thrown (loader_error "File is not an ELF file"))
  | Some reader =>
      if negb (e_class reader =? ELFCLASS32)
      then Fail (Thrown (loader_error "Only 32-bit binaries are supported"))
      else if negb (e_machine reader =? EM_RISCV)
      then Fail (Thrown (loader_error "Loaded ELF does not target RISC-V"))
      else if (length (e_segments reader) =? 0)%nat
      then Fail (Thrown (loader_error "Loaded ELF has no segments"))
      else mret reader
  end.

Definition load_segment (s : segment) (mem : address_router) : res address_router :=
  if s_type s =? PT_LOAD
  then router_write (u32 (s_virtual_address s)) (s_data s) (s64 (s_file_size s)) mem
  else mret mem.

Fixpoint load_segments (segments : list segment) (mem : address_router) : res address_router :=
  match segments with
  | [] => mret mem
  | s :: segments => mem ← load_segment s mem; load_segments segments mem
  end.

Definition loader_into (file_name : string) (mem : address_router) : res (elf * address_router) :=
  reader ← loader_open file_name;
  mem ← load_segments (e_segments reader) mem;
  mret (reader, mem).

Definition symbol (reader : elf) (str : string) : res Z :=
  match get_symbol reader str with
  | None => Fail (Thrown (runtime_error ("unable to find '" +:+ str +:+ "' symbol in the ELF file")))
  | Some value => mret (u32 value)
  end.

Definition dump `{ElfDump} (out : string) (reader : elf) : string :=
  foldl (λ out print, out +:+ print reader) out
    [dump_header; dump_section_headers; dump_segment_headers; dump_symbol_tables; dump_notes;
     dump_modinfo; dump_dynamic_tags; dump_section_datas; dump_segment_datas].

Definition entry (reader : elf) : Z := u32 (e_entry reader).

Definition is_progbit (s : section) : bool :=
  (sec_type s =? SHT_PROGBITS) && negb (Z.land (sec_flags s) SHF_EXECINSTR =? 0)
  && (0 <? sec_size s).
Definition progbit_range (s : section) : Z * Z :=
  (sec_address s, u64 (u64 (sec_address s + sec_size s) - 1)).
Definition progbit_ranges (reader : elf) : list (Z * Z) :=
  progbit_range <$> filter is_progbit (e_sections reader).
End loader.

(** ** What the segments put into memory *)

Section spec.
Context `{CommonLaws} `{ElfIO}.
Implicit Types (s : segment) (r : address_router).

Definition base_of s : Z := u32 (s_virtual_address s).
(** The bytes a segment overwrites: to the end of its last page. *)
Definition extent s : Z := if s_type s =? PT_LOAD then copied (base_of s) (s64 (s_file_size s)) else 0.
Definition covers s (a : Z) : bool := (base_of s <=? a) && (a <? base_of s + extent s).
Definition place s (f : Z → Z) : Z → Z := λ a,
  if covers s a then default 0 (nth_z (s_data s) (a - base_of s)) else f a.
Definition image (segs : list segment) (f : Z → Z) : Z → Z := foldl (λ f s, place s f) f segs.

(** A segment that can be copied: in the 32-bit address space, and with readable memory
    behind its bytes as far as [write] reads, to the end of the last page.  The second is a
    condition on the process and not on the file, which [write] leaves to chance. *)
Record loadable s : Prop := {
  l_bytes : Forall (λ b, is_u8 b) (s_data s);
  l_long : extent s ≤ Z.of_nat (length (s_data s));
  l_fits : base_of s + extent s ≤ 2 ^ 32
}.

Lemma image_ext segs f g a : f a = g a → image segs f a = image segs g a.
Proof.
  revert f g. induction segs as [|s segs IH]; intros f g Hfg; simpl; [done|].
  apply IH. unfold place. by destruct (covers s a).
Qed.

Lemma load_segment_spec s r : wf_router r → loadable s →
  ∃ m', load_segment s r = Ok (with_pages m' r) ∧ wf_router (with_pages m' r) ∧
    ∀ a, is_u32 a → byte m' a = place s (byte (pages r)) a.
Proof.
  intros Hr [Hb Hl Hf]. unfold load_segment, place, covers. unfold extent in *.
  destruct (s_type s =? PT_LOAD); cycle 1.
  { exists (pages r). split; [by destruct r|]. split; [by destruct r, Hr|].
    intros a Ha. destruct (Z.leb_spec (base_of s) a), (Z.ltb_spec a (base_of s + 0)); (done || lia). }
  pose proof (write_loop_spec (S (Z.to_nat (s64 (s_file_size s)))) (base_of s) (s_data s)
    (s64 (s_file_size s)) (pages r) ltac:(lia) (r_pages _ Hr) (u32_range _) Hb Hf) as Hw.
  rewrite (proj2 (Z.leb_le _ _) Hl) in Hw. destruct Hw as (m' & Hw & Hm' & Hby).
  exists m'. split; [|split; [by apply wf_with_pages | exact Hby]].
  unfold router_write, on_pages, write. fold (base_of s). by rewrite Hw.
Qed.

Lemma load_segments_spec segs r : wf_router r → Forall loadable segs →
  ∃ m', load_segments segs r = Ok (with_pages m' r) ∧ wf_router (with_pages m' r) ∧
    ∀ a, is_u32 a → byte m' a = image segs (byte (pages r)) a.
Proof.
  intros Hr Hsegs. revert r Hr.
  induction Hsegs as [|s segs Hs Hsegs IH]; intros r Hr; simpl.
  { exists (pages r). destruct r. done. }
  destruct (load_segment_spec s r Hr Hs) as (m1 & -> & Hr1 & Hb1).
  destruct (IH (with_pages m1 r) Hr1) as (m' & Hl & Hr' & Hb'). exists m'.
  rewrite res_bind_ok. split; [exact Hl|]. split; [exact Hr'|].
  intros a Ha. rewrite Hb' by done. by apply image_ext, Hb1.
Qed.

Lemma image_miss segs f a : Forall (λ s, covers s a = false) segs → image segs f a = f a.
Proof.
  intros Hs. revert f. induction Hs as [|s segs Hs Hsegs IH]; intros f; simpl; [done|].
  rewrite IH. unfold place. by rewrite Hs.
Qed.
Lemma image_app segs segs' f : image (segs ++ segs') f = image segs' (image segs f).
Proof. apply foldl_app. Qed.

Lemma elem_of_ranges ranges a :
  existsb (λ range : Z * Z, (range.1 <=? a) && (a <=? range.2)) ranges = true ↔
  ∃ range, range ∈ ranges ∧ range.1 ≤ a ≤ range.2.
Proof.
  rewrite existsb_exists. split; intros (x & Hx & Ha); exists x.
  - apply list_elem_of_In in Hx. apply andb_true_iff in Ha as [?%Z.leb_le ?%Z.leb_le]. done.
  - apply list_elem_of_In in Hx. by rewrite (proj2 (Z.leb_le _ _)), (proj2 (Z.leb_le _ _)) by lia.
Qed.
End spec.

(** ** Properties *)

(** Opening a file.  The loader accepts exactly the files ELFIO can load that are
    32-bit, for RISC-V and have a segment; a file that is not accepted throws
    [loader_error] with the message of the first check it fails. *)
Theorem loader_open_checks {EL : ElfIO} file_name :
  (elf_load file_name = None →
     loader_open file_name = Fail (Thrown (loader_error "File is not an ELF file"))) ∧
  ∀ e, elf_load file_name = Some e →
    (e_class e ≠ ELFCLASS32 →
       loader_open file_name = Fail (Thrown (loader_error "Only 32-bit binaries are supported"))) ∧
    (e_class e = ELFCLASS32 → e_machine e ≠ EM_RISCV →
       loader_open file_name = Fail (Thrown (loader_error "Loaded ELF does not target RISC-V"))) ∧
    (e_class e = ELFCLASS32 → e_machine e = EM_RISCV → e_segments e = [] →
       loader_open file_name = Fail (Thrown (loader_error "Loaded ELF has no segments"))) ∧
    (loader_open file_name = Ok e ↔
       e_class e = ELFCLASS32 ∧ e_machine e = EM_RISCV ∧ e_segments e ≠ []).
Proof.
  unfold loader_open. split; [by intros -> | intros e ->].
  destruct (Z.eqb_spec (e_class e) ELFCLASS32), (Z.eqb_spec (e_machine e) EM_RISCV),
    (e_segments e); simpl; split_and!; try done; naive_solver.
Qed.

(** C26: Loading the segments.  When every segment can be copied (its object is
    readable to the end of its last page and it fits the address space), the load
    succeeds, leaves the timer registers alone, and memory is the old contents
    overlaid by the segments in file order; in particular every byte of a segment
    that no later segment's pages cover is in memory. *)
Theorem load_segments_image {C : CommonLib} {L : CommonLaws} {EL : ElfIO} segs (r : address_router) :
  wf_router r → Forall loadable segs →
  ∃ m', load_segments segs r = Ok (with_pages m' r) ∧ wf_router (with_pages m' r) ∧
    (∀ a, is_u32 a → byte m' a = image segs (byte (pages r)) a) ∧
    ∀ before s after i, segs = before ++ s :: after → s_type s = PT_LOAD →
      0 ≤ i < s64 (s_file_size s) → Forall (λ s', covers s' (base_of s + i) = false) after →
      nth_z (s_data s) i = Some (byte m' (base_of s + i)).
Proof.
  intros Hr Hsegs. destruct (load_segments_spec segs r Hr Hsegs) as (m' & Hl & Hr' & Hb).
  exists m'. do 3 (split; [done|]). intros before s after i -> Ht Hi Hafter.
  apply Forall_app in Hsegs as [_ [[_ Hlong Hfit] _]%Forall_cons].
  assert (extent s = copied (base_of s) (s64 (s_file_size s))) as He by (unfold extent; by rewrite Ht, Z.eqb_refl).
  pose proof (copied_ge (base_of s) (s64 (s_file_size s)) ltac:(lia)).
  assert (is_u32 (base_of s)) by apply u32_range.
  destruct (nth_z_lt (s_data s) i) as [v Hv]; [lia|].
  rewrite Hb, image_app by lia. simpl. rewrite image_miss by done.
  unfold place, covers. rewrite (proj2 (Z.leb_le _ _)), (proj2 (Z.ltb_lt _ _)) by lia. simpl.
  replace (base_of s + i - base_of s) with i by lia. by rewrite Hv.
Qed.

(** The executable ranges.  For sections inside the 64-bit address space, the
    address check on [progbit_ranges] accepts exactly the addresses inside a non-empty
    executable PROGBITS section, both ends included. *)
Theorem progbit_ranges_exact {EL : ElfIO} (e : elf) a :
  Forall (λ s, is_u64 (sec_address s) ∧ 0 ≤ sec_size s ∧ sec_address s + sec_size s ≤ 2 ^ 64) (e_sections e) →
  existsb (λ range : Z * Z, (range.1 <=? a) && (a <=? range.2)) (progbit_ranges e) = true ↔
  ∃ s, s ∈ e_sections e ∧ sec_type s = SHT_PROGBITS ∧ Z.land (sec_flags s) SHF_EXECINSTR ≠ 0 ∧
    sec_address s ≤ a < sec_address s + sec_size s.
Proof.
  intros Hs. rewrite elem_of_ranges. unfold progbit_ranges.
  assert (∀ s, s ∈ e_sections e → 0 < sec_size s →
    (progbit_range s).2 = sec_address s + sec_size s - 1) as Hend.
  { intros s Hin Hpos. rewrite Forall_forall in Hs. specialize (Hs s Hin). simpl. word. }
  split.
  - intros (x & Hx & Ha). apply list_elem_of_fmap in Hx as (s & -> & Hx).
    apply list_elem_of_filter in Hx as [Hp Hin]. apply Is_true_true in Hp.
    unfold is_progbit in Hp. rewrite !andb_true_iff, Z.eqb_eq, negb_true_iff, Z.eqb_neq, Z.ltb_lt in Hp.
    destruct Hp as [[? ?] ?]. rewrite Hend in Ha by done. simpl in Ha. exists s. split_and!; (done || lia).
  - intros (s & Hin & Ht & Hf & Ha). exists (progbit_range s). split.
    + apply list_elem_of_fmap. exists s. split; [done|]. apply list_elem_of_filter. split; [|done].
      apply Is_true_true. unfold is_progbit.
      rewrite !andb_true_iff, Z.eqb_eq, negb_true_iff, Z.eqb_neq, Z.ltb_lt. split_and!; (done || lia).
    + rewrite Hend by (done || lia). simpl. lia.
Qed.

(** ** Witnesses *)

Section witnesses.
#[local] Existing Instance ref_common.

(** One file, [prog.elf]: [addi a0, x0, 5; addi a7, x0, 93; ecall] at 0x1000 in a
    page-long object, tohost at 0x2000. *)
Definition ref_code : list Z :=
  [0x13; 0x05; 0x50; 0x00; 0x93; 0x08; 0xD0; 0x05; 0x73; 0x00; 0x00; 0x00].
Definition ref_segment : segment := mk_segment 1 0x1000 12 (ref_code ++ replicate 4084 0).
Definition ref_image : elf :=
  mk_elf 1 243 0x1000 [ref_segment] [mk_section 1 4 0x1000 12] [("tohost", 0x2000)].
Definition ref_elf : ElfIO := {|
  elf_load := λ f, if String.eqb f "prog.elf" then Some ref_image else None;
  get_symbol := λ e str, snd <$> find (λ p, String.eqb (fst p) str) (e_symbols e);
  ELFCLASS32 := 1; EM_RISCV := 243; PT_LOAD := 1; SHT_PROGBITS := 1; SHF_EXECINSTR := 4 |}.
#[local] Existing Instance ref_elf.
(** A dump that only shows which printers ran. *)
Definition ref_dump : ElfDump :=
  Build_ElfDump (λ _, "h") (λ _, "s") (λ _, "p") (λ _, "y") (λ _, "n") (λ _, "m") (λ _, "d") (λ _, "S") (λ _, "P").

Lemma ref_loadable : Forall loadable [ref_segment].
Proof.
  constructor; [|done]. split.
  - apply Forall_app. split; [by repeat constructor|]. apply Forall_replicate. lia.
  - by vm_compute.
  - by vm_compute.
Qed.

Lemma loader_open_checks_witness :
  loader_open "prog.elf" = Ok ref_image ∧
  loader_open "prog.txt" = Fail (Thrown (loader_error "File is not an ELF file")).
Proof.
  split; [|exact (proj1 (loader_open_checks (EL := ref_elf) "prog.txt") eq_refl)].
  destruct (proj2 (loader_open_checks (EL := ref_elf) "prog.elf") ref_image eq_refl) as (_ & _ & _ & Hok).
  by apply Hok.
Defined.

Lemma load_segments_image_witness :
  ∃ m', load_segments [ref_segment] sample_router = Ok (with_pages m' sample_router) ∧
    Some 0x93 = Some (byte m' 0x1004).
Proof.
  destruct (load_segments_image [ref_segment] sample_router sample_router_ok ref_loadable)
    as (m' & Hl & _ & _ & Hin). exists m'. split; [exact Hl|].
  exact (Hin [] ref_segment [] 4 eq_refl eq_refl ltac:(by vm_compute) (List.Forall_nil _)).
Defined.

Lemma progbit_ranges_exact_witness :
  existsb (λ range : Z * Z, (range.1 <=? 0x1007) && (0x1007 <=? range.2)) (progbit_ranges ref_image) = true.
Proof.
  apply (progbit_ranges_exact ref_image 0x1007).
  - constructor; [|done]. simpl. lia.
  - exists (mk_section 1 4 0x1000 12). split; [by left|]. by vm_compute.
Defined.
End witnesses.
