(* ===== verification/Model.v ===== *)
(** * The instruction-set simulator ([include/iss/model.hpp], [src/iss/model.cpp])

    The hart: its architectural state, the handlers of the decoded operations, and
    the two phases of a cycle.  [step] fetches and executes, leaving the next
    program counter and the register changes staged; [commit] advances the program
    counter, takes a pending timer interrupt and clears the staged changes.  Every
    member function of [iss::model] that changes state is a state transformer of
    the same name; [this] is the state. *)

From S2P Require Export Common Router Csr TrapCause Alu.
From S2P Require RegFile.

(** ** [options.hpp] *)

Record options : Set := mk_options {
  o_target : string;
  tohost_sym : string;
  json_output : string;
  disas_output : string;
  o_mtime : Z;
  o_mtimecmp : Z;
  interval : Z;
  port : Z;               (* with [tcp_enabled], only in a build with the server *)
  tcp_enabled : bool;
  mti_enabled : bool;
  fstep : bool;
  dump_exit : bool
}.

Definition options_init : options := mk_options "" "tohost" "" "" 0 0 0 0 false false false false.

(** ** State *)

Record model `{CommonLib} : Type := mk_model {
  cur_state : hart_state;
  allowed_pcs : list (Z * Z);
  opts : options;
  tohost_addr : Z;
  mem : address_router;
  mode : privileged_mode;
  regf : RegFile.reg_file;
  csrf : csr_file;
  is_done : bool
}.

Section setters.
Context `{CommonLib}.
Implicit Types (h : hart_state) (s : model).

Definition with_pc p h := mk_hart_state _ p (instr h) (dec h) (gpr_staged h) (csr_staged h).
Definition with_fetched i d h := mk_hart_state _ (pc h) i d (gpr_staged h) (csr_staged h).
Definition with_gpr_staged l h := mk_hart_state _ (pc h) (instr h) (dec h) l (csr_staged h).
Definition with_csr_staged l h := mk_hart_state _ (pc h) (instr h) (dec h) (gpr_staged h) l.

Definition with_state h s :=
  mk_model _ h (allowed_pcs s) (opts s) (tohost_addr s) (mem s) (mode s) (regf s) (csrf s) (is_done s).
Definition with_mem r s :=
  mk_model _ (cur_state s) (allowed_pcs s) (opts s) (tohost_addr s) r (mode s) (regf s) (csrf s) (is_done s).
Definition with_mode p s :=
  mk_model _ (cur_state s) (allowed_pcs s) (opts s) (tohost_addr s) (mem s) p (regf s) (csrf s) (is_done s).
Definition with_regf f s :=
  mk_model _ (cur_state s) (allowed_pcs s) (opts s) (tohost_addr s) (mem s) (mode s) f (csrf s) (is_done s).
Definition with_csrf f s :=
  mk_model _ (cur_state s) (allowed_pcs s) (opts s) (tohost_addr s) (mem s) (mode s) (regf s) f (is_done s).
Definition with_done b s :=
  mk_model _ (cur_state s) (allowed_pcs s) (opts s) (tohost_addr s) (mem s) (mode s) (regf s) (csrf s) b.
End setters.

(** ** [std::bitset<32>] *)

Definition bitset_test (b i : Z) : res bool :=
  if (0 <=? i) && (i <? 32) then Ok (Z.testbit b i) else Fail (Thrown out_of_range).
Definition bitset_set (b i : Z) : res Z :=
  if (0 <=? i) && (i <? 32) then Ok (Z.setbit b i) else Fail (Thrown out_of_range).
Definition bitset_reset (b i : Z) : res Z :=
  if (0 <=? i) && (i <? 32) then Ok (Z.clearbit b i) else Fail (Thrown out_of_range).
(** [b[i] = v] at a constant position. *)
Definition bit_assign (b i : Z) (v : bool) : Z := if v then Z.setbit b i else Z.clearbit b i.

(** ** Member functions *)

Section model.
Context `{Platform} `{CommonLib} `{Decoder}.

Abbreviation M := (stateM model).

(** The constructor, given what it asks of the loader. *)
Definition model_of (opt : options) (entry : Z) (progbit_ranges : list (Z * Z)) (tohost : Z)
    (mem : address_router) : model :=
  mk_model _ (hart_state_of entry) progbit_ranges opt tohost mem (set_mode machine)
    RegFile.reg_file_init csr_file_init false.

(** The two private [write] overloads: the index is converted to the width of the
    parameter, the change is appended to the staged list. *)
Definition write_csr (index val : Z) : M unit := λ s,
  '(vec, f) ← csr_write_vec (u16 index) val (csr_staged (cur_state s)) (csrf s);
  mret (tt, with_csrf f (with_state (with_csr_staged vec (cur_state s)) s)).
Definition write_gpr (index val : Z) : M unit := λ s,
  '(vec, f) ← RegFile.write_vec (u8 index) val (gpr_staged (cur_state s)) (regf s);
  mret (tt, with_regf f (with_state (with_gpr_staged vec (cur_state s)) s)).

Definition read_csr (addr : Z) : M Z := f ← gets csrf; lift (csr_read addr f).
Definition read_gpr (index : Z) : M Z := f ← gets regf; lift (RegFile.read index f).
Definition get_dec : M op := gets (λ s, dec (cur_state s)).

(** [cur_state.pc]: its conversion, [set] and [update]. *)
Definition get_pc : M Z := gets (λ s, pc_get (pc (cur_state s))).
Definition set_pc (v : Z) : M unit :=
  modify (λ s, with_state (with_pc (pc_set v (pc (cur_state s))) (cur_state s)) s).
Definition update_pc : M unit :=
  modify (λ s, with_state (with_pc (pc_update (pc (cur_state s))) (cur_state s)) s).

(** Memory through the router. *)
Definition mem_read (rd : address_router → res Z) : M Z := r ← gets mem; lift (rd r).
Definition mem_write (wr : address_router → res address_router) : M unit := λ s,
  r ← wr (mem s); mret (tt, with_mem r s).

Definition is_address_initialized (ranges : list (Z * Z)) (address : Z) : bool :=
  existsb (λ range, (range.1 <=? address) && (address <=? range.2)) ranges.
Definition is_valid_pc (addr : Z) (s : model) : bool := is_address_initialized (allowed_pcs s) addr.

Definition tohost : M Z := a ← gets tohost_addr; mem_read (router_read32 a).
Definition done_ (s : model) : bool := is_done s.

Definition ecall_cause (s : model) : trap_cause :=
  match Csr.m (mode s) with
  | user => exp_ecall_from_u_vu_mode
  | supervisor => exp_ecall_from_vs_mode
  | hypervisor => exp_ecall_from_hs_mode
  | machine => exp_ecall_from_m_mode
  end.

Definition handle_sys_exit : M unit :=
  a7 ← read_gpr 17;
  if a7 =? 93 then
    a0 ← read_gpr 10;
    t ← gets tohost_addr;
    mem_write (router_write32 t a0);;
    modify (with_done true)
  else skip.

Definition save_pc (cause : trap_cause) : M unit :=
  v ← get_pc;
  let epc := Z.land v base_addr in
  p ← gets mode;
  match cause with
  | exp_ecall_from_hs_mode | exp_ecall_from_m_mode | exp_ecall_from_vs_mode
  | exp_ecall_from_u_vu_mode =>
      write_csr (priv_csr uepc p) epc;;
      handle_sys_exit
  | exp_breakpoint => write_csr (priv_csr uepc p) epc
  | _ => write_csr (priv_csr uepc p) (Z.land (u32 (epc + 4)) base_addr)
  end.

(** The interrupt part of [trap]: whether to go on, after updating mip and mstatus. *)
Definition take_interrupt (cause : trap_cause) : M bool :=
  mstatus_v ← read_csr (csr_val mstatus);
  let i := Z.land (to_int (trap_cause_val cause)) msb_zero in
  mie_v ← read_csr (csr_val mie);
  mip_v ← read_csr (csr_val mip);
  enabled ← lift (bitset_test mie_v i);
  pending ← (if (enabled : bool) then lift (bitset_test mip_v i) else mret false);
  take ← (if (pending : bool) then lift (bitset_test mstatus_v status.mie) else mret false);
  if (take : bool) then
    mip_v ← lift (bitset_reset mip_v i);
    write_csr (csr_val mip) mip_v;;
    let mstatus_v := bit_assign mstatus_v status.mpp true in
    let mstatus_v := bit_assign mstatus_v (status.mpp + 1) true in
    let mstatus_v := bit_assign mstatus_v status.mpie (Z.testbit mstatus_v status.mie) in
    let mstatus_v := bit_assign mstatus_v status.mie false in
    write_csr (csr_val mstatus) mstatus_v;;
    mret true
  else mret false.

Definition trap (cause : trap_cause) : M unit :=
  let c := to_int (trap_cause_val cause) in
  let is_interrupt := negb (Z.land c sign_bit =? 0) in
  go ← (if is_interrupt then take_interrupt cause else mret true);
  if negb go then skip
  else
    p ← gets mode;
    write_csr (priv_csr ucause p) c;;
    write_csr (priv_csr utval p) 0;;
    tvec ← read_csr (priv_csr utvec p);
    let entry := Z.land tvec base_addr in
    let entry := if is_interrupt then u32 (entry + Z.land c msb_zero * 4) else entry in
    set_pc entry;;
    save_pc cause;;
    if is_interrupt then update_pc else skip.

Definition set_pending (cause : trap_cause) : M unit :=
  let i := Z.land (to_int (trap_cause_val cause)) msb_zero in
  mip_v ← read_csr (csr_val mip);
  mip_v ← lift (bitset_set mip_v i);
  write_csr (csr_val mip) mip_v.

Definition handle_branch : M unit :=
  d ← get_dec;
  a ← read_gpr (rs1 d);
  b ← read_gpr (rs2 d);
  b_type ← lift (get_branch (opt d));
  taken ← lift (should_branch a b b_type);
  if (taken : bool) then v ← get_pc; set_pc (u32 (imm d + v)) else skip.

(** [lb] and [lh] sign-extend with a pair of [int] shifts. *)
Definition load : M Z :=
  d ← get_dec;
  base ← read_gpr (rs1 d);
  let addr := u32 (base + imm d) in
  l ← lift (get_load (opt d));
  match l with
  | masks.lb => v ← mem_read (router_read8 addr); mret (u32 (Z.shiftr (s32 (Z.shiftl v 24)) 24))
  | masks.lh => v ← mem_read (router_read16 addr); mret (u32 (Z.shiftr (s32 (Z.shiftl v 16)) 16))
  | masks.lw => mem_read (router_read32 addr)
  | masks.lbu => mem_read (router_read8 addr)
  | masks.lhu => mem_read (router_read16 addr)
  | masks.load_unnamed _ => fail (Thrown unexpected_switch_case_value)
  end.

Definition handle_load : M unit := d ← get_dec; v ← load; write_gpr (rd d) v.

Definition store : M unit :=
  d ← get_dec;
  base ← read_gpr (rs1 d);
  let addr := u32 (base + imm d) in
  t ← lift (get_store (opt d));
  match t with
  | masks.sb => v ← read_gpr (rs2 d); mem_write (router_write8 addr (u8 v))
  | masks.sh => v ← read_gpr (rs2 d); mem_write (router_write16 addr (u16 v))
  | masks.sw => v ← read_gpr (rs2 d); mem_write (router_write32 addr v)
  | masks.store_unnamed _ => fail (Thrown unexpected_switch_case_value)
  end;;
  h ← gets tohost_addr;
  modify (with_done (addr =? h)).

Definition handle_alu : M unit :=
  d ← get_dec;
  v ← get_pc;
  opd_1 ← (if use_pc d then mret v else read_gpr (rs1 d));
  opd_2 ← (if has_imm d then mret (imm d) else read_gpr (rs2 d));
  a ← lift (get_alu (opt d));
  r ← lift (do_alu a opd_1 opd_2);
  match a with
  | _jal | _jalr =>
      write_gpr (rd d) (u32 (v + (if is_compressed d then 2 else 4)));;
      set_pc r
  | _ => write_gpr (rd d) r
  end.

(** [model::csr].  The value read is [None] after the early return of a refused
    read; a refused write ends the function the same way. *)
Definition csr_read_phase (Sys : masks.sys) (d : op) : M (option Z) :=
  p ← gets mode;
  if negb (bool_decide (Sys = masks.csrrwi)) || negb (rd d =? 0) then
    if can_read (imm d) p then v ← read_csr (imm d); mret (Some v)
    else trap exp_inst_illegal;; mret None
  else mret (Some 0).

Definition csr_write_reg (Sys : masks.sys) (d : op) (tmp : Z) : M bool :=
  p ← gets mode;
  if bool_decide (Sys = masks.csrrw)
    || (bool_decide (Sys = masks.csrrs) && negb (rs1 d =? 0))
    || (bool_decide (Sys = masks.csrrc) && negb (rs1 d =? 0))
  then
    if can_read (rs1 d) p then
      I ← read_gpr (rs1 d);
      let I := if bool_decide (Sys = masks.csrrs) then Z.lor I tmp else I in
      let I := if bool_decide (Sys = masks.csrrc) then Z.land tmp (if I =? 0 then 1 else 0) else I in
      if can_write (imm d) p then write_csr (imm d) I;; mret true
      else trap exp_inst_illegal;; mret false
    else trap exp_inst_illegal;; mret false
  else mret true.

Definition csr_write_imm (Sys : masks.sys) (d : op) (tmp : Z) : M bool :=
  p ← gets mode;
  if bool_decide (Sys = masks.csrrwi) || bool_decide (Sys = masks.csrrsi)
    || bool_decide (Sys = masks.csrrci)
  then
    let I := rs1 d in
    let I := if bool_decide (Sys = masks.csrrsi) then Z.lor I tmp else I in
    let I := if bool_decide (Sys = masks.csrrci) then Z.land (if I =? 0 then 1 else 0) tmp else I in
    if can_write (imm d) p then write_csr (imm d) I;; mret true
    else trap exp_inst_illegal;; mret false
  else mret true.

Definition handle_csr : M unit :=
  d ← get_dec;
  Sys ← lift (get_sys (opt d));
  read ← csr_read_phase Sys d;
  match read with
  | None => skip
  | Some tmp =>
      ok ← csr_write_reg Sys d tmp;
      if negb ok then skip
      else
        ok ← csr_write_imm Sys d tmp;
        if negb ok then skip else write_gpr (rd d) tmp
  end.

Definition handle_mret : M unit :=
  mstat ← read_csr (to_int (csr_val mstatus));
  let pp := privilege_of (Z.lor (Z.shiftl (Z.b2z (Z.testbit mstat (status.mpp + 1))) 1)
                                (Z.b2z (Z.testbit mstat status.mpp))) in
  let mstat := bit_assign mstat status.mie (Z.testbit mstat status.mpie) in
  let mstat := bit_assign mstat status.mpie true in
  let mstat := bit_assign mstat status.mpp true in
  let mstat := bit_assign mstat (status.mpp + 1) true in
  write_csr (to_int (csr_val mstatus)) mstat;;
  epc ← read_csr (to_int (csr_val mepc));
  set_pc epc;;
  modify (with_mode (set_mode pp)).

Definition exec : M unit :=
  d ← get_dec;
  match tgt d with
  | target.store => store
  | target.alu => handle_alu
  | target.load => handle_load
  | target.branch => handle_branch
  | target.csr => handle_csr
  | target.mret => handle_mret
  | target.ecall => s ← gets ecall_cause; trap s
  | target.illegal => trap exp_inst_illegal
  | target.ebreak => trap exp_breakpoint
  | target.target_unnamed _ => skip
  end.

Definition is_compressed_word (word : Z) : bool := negb (Z.land word 3 =? 3).

Definition fetch : M unit :=
  v ← get_pc;
  x ← mem_read (router_read32 v);
  let d := if is_compressed_word x then decode16 x else decode x in
  modify (λ s, with_state (with_fetched x d (cur_state s)) s).

Definition step : M unit :=
  fetch;;
  v ← get_pc;
  d ← get_dec;
  set_pc (u32 (v + (if is_compressed d then 2 else 4)));;
  v ← get_pc;
  ok ← gets (is_valid_pc v);
  (if negb ok then trap exp_inst_access_fault else skip);;
  exec.

Definition interrupt_pending : M unit :=
  o ← gets opts;
  if mti_enabled o then
    t ← mem_read (router_read64 (o_mtime o));
    c ← mem_read (router_read64 (o_mtimecmp o));
    if c <? t then set_pending int_timer_m;; trap int_timer_m else skip
  else skip.

Definition commit : M unit :=
  update_pc;;
  interrupt_pending;;
  modify (λ s, with_state (with_csr_staged [] (cur_state s)) s);;
  modify (λ s, with_state (with_gpr_staged [] (cur_state s)) s).
End model.
