(* ===== verification/Safety.v ===== *)
(** * Safety of the hart

    The state invariant of [iss::model], that every member function preserves it
    and fails only as the platform does, and that the staged changes are a faithful
    trace of the register files. *)

From S2P Require Import Model.
From S2P Require RegFile.

(** ** The invariant *)

Section invariant.
Context `{CommonLaws}.
Implicit Types (s : model).

Record wf_model s : Prop := {
  wf_pc : is_u32 (pc_get (pc (cur_state s)));
  wf_mem_router : wf_router (mem s);
  wf_mode : mode_ok (mode s);
  wf_regf : RegFile.wf (regf s);
  wf_csrf : csr_wf (csrf s);
  wf_tohost : is_u32 (tohost_addr s);
  wf_dec : wf_op (dec (cur_state s));
  wf_o_mtime : is_u32 (o_mtime (opts s));
  wf_o_mtimecmp : is_u32 (o_mtimecmp (opts s))
}.

(** After [set] the next program counter is a word as well. *)
Definition next_pc s : Z := pc_get (pc_update (pc (cur_state s))).

(** The staged changes lead from the register files at the start of the cycle to
    the current ones, and each records the value it replaced. *)
Record traced (rf : RegFile.reg_file) (cf : csr_file) s : Prop := {
  traced_gpr : regf s = RegFile.replay rf (gpr_staged (cur_state s));
  traced_gpr_prev : RegFile.prevs_ok rf (gpr_staged (cur_state s));
  traced_csr : csrf s = csr_replay cf (csr_staged (cur_state s));
  traced_csr_prev : csr_prevs_ok cf (csr_staged (cur_state s))
}.

(** What no handler changes. *)
Definition fixed s : list (Z * Z) * options * Z * Z * Z :=
  (allowed_pcs s, opts s, tohost_addr s, mtime_addr (mem s), mtimecmp_addr (mem s)).
End invariant.

(** ** Rules

    [keeps E I m φ]: from a state satisfying [I], [m] ends in one satisfying [I]
    with a result satisfying [φ], or fails within [E]. *)

Section keeps.
Context {S : Type} (E : fault → Prop) (I : S → Prop).

Definition keeps {A} (m : stateM S A) (φ : A → Prop) : Prop :=
  triple E I m (λ a s, I s ∧ φ a).

Lemma keeps_bind {A B} (m : stateM S A) (k : A → stateM S B) φ ψ :
  keeps m φ → (∀ a, φ a → keeps (k a) ψ) → keeps (m ≫= k) ψ.
Proof.
  intros Hm Hk. eapply triple_bind; [exact Hm|]. intros a s [HI Ha]. by apply (Hk a Ha).
Qed.
Lemma keeps_ret {A} (a : A) (φ : A → Prop) : φ a → keeps (mret a) φ.
Proof. by intros Ha s HI. Qed.
Lemma keeps_skip (φ : unit → Prop) : φ tt → keeps skip φ.
Proof. by intros Ha s HI. Qed.
Lemma keeps_gets {A} (f : S → A) (φ : A → Prop) : (∀ s, I s → φ (f s)) → keeps (gets f) φ.
Proof. intros Hf s HI. simpl. auto. Qed.
Lemma keeps_modify f (φ : unit → Prop) : (∀ s, I s → I (f s)) → φ tt → keeps (modify f) φ.
Proof. intros Hf Ha s HI. simpl. auto. Qed.
Lemma keeps_lift {A} (r : res A) (φ : A → Prop) : sat E r φ → keeps (lift r) φ.
Proof. intros Hr s HI. by destruct r; simpl in *. Qed.
Lemma keeps_ok {A} (a : A) : keeps (lift (Ok a)) (λ b, b = a).
Proof. by intros s HI. Qed.
Lemma keeps_if {A} (b : bool) (m1 m2 : stateM S A) φ :
  (b = true → keeps m1 φ) → (b = false → keeps m2 φ) → keeps (if b then m1 else m2) φ.
Proof. destruct b; auto. Qed.
Lemma keeps_weaken {A} (m : stateM S A) (φ ψ : A → Prop) :
  keeps m φ → (∀ a, φ a → ψ a) → keeps m ψ.
Proof. intros Hm Hφ. eapply triple_weaken; [exact Hm | done |]. simpl. naive_solver. Qed.
End keeps.

(** [keeps_step prim] decomposes a handler by its outermost command; [prim] applies
    the rule of a primitive and leaves its side conditions. *)
Ltac keeps_step prim :=
  lazymatch goal with
  | |- keeps _ _ (mbind _ (lift (Ok _))) _ => eapply keeps_bind; [apply keeps_ok | intros ? ->]
  | |- keeps _ _ (mbind _ (if _ then _ else _)) _ =>
      apply (keeps_bind _ _ _ _ (λ _, True)); [| intros; cbv beta in *]
  | |- keeps _ _ (mbind _ _) _ => eapply keeps_bind; [| intros; cbv beta in *]
  | |- keeps _ _ (if _ then _ else _) _ => apply keeps_if; intros
  | |- keeps _ _ (mret _) _ => apply keeps_ret
  | |- keeps _ _ skip _ => apply keeps_skip
  | |- keeps _ _ (match ?x with _ => _ end) _ => destruct x
  | |- keeps _ _ _ _ => prim
  end.

(** ** The cycle invariant is kept by every member function *)

Section safety.
Context {P : Platform} {E : fault → Prop} `{!PlatformOk P E} `{CommonLaws} `{DecoderOk}.
Context (rf : RegFile.reg_file) (cf : csr_file) (fx : list (Z * Z) * options * Z * Z * Z).
Context (d : op) (Hd : wf_op d).
Implicit Types (s : model).

(** Before [step] has set the next program counter, and after. *)
Record core s : Prop := {
  core_wf : wf_model s;
  core_traced : traced rf cf s;
  core_fixed : fixed s = fx
}.
Definition cycle s : Prop := core s ∧ is_u32 (next_pc s) ∧ dec (cur_state s) = d.

Lemma core_cur_state s h :
  core s → is_u32 (pc_get (pc h)) → wf_op (dec h) →
  gpr_staged h = gpr_staged (cur_state s) → csr_staged h = csr_staged (cur_state s) →
  core (with_state h s).
Proof.
  intros [[] [] ?] Hpc Hdec Hg Hc. split; [split; done | | done].
  split; simpl; rewrite ?Hg, ?Hc; done.
Qed.

Lemma core_mem s r : core s → wf_router r → mtime_addr r = mtime_addr (mem s) →
  mtimecmp_addr r = mtimecmp_addr (mem s) → core (with_mem r s).
Proof.
  intros [[] [] Hf] Hr Ha Hc. split; [by split | by split |].
  rewrite <-Hf. unfold fixed. simpl. by rewrite Ha, Hc.
Qed.
Lemma core_mode s p : core s → mode_ok p → core (with_mode p s).
Proof. by intros [[] [] ?] Hp. Qed.
Lemma core_done s b : core s → core (with_done b s).
Proof. by intros [[] [] ?]. Qed.

Lemma core_write_csr s a v : core s → 0 ≤ a < 4096 → is_u32 v →
  ∃ s', write_csr a v s = Ok (tt, s') ∧ core s' ∧
    pc (cur_state s') = pc (cur_state s) ∧ dec (cur_state s') = dec (cur_state s).
Proof.
  intros [[] [] ?] Ha Hv. eexists. unfold write_csr.
  rewrite u16_small, csr_write_vec_ok by (done || lia). split; [done|]. split; [|done].
  split; [split; try done; by apply csr_wf_upd | | done].
  split; simpl; [done.. | by rewrite csr_replay_snoc; simpl; congruence |].
  apply csr_prevs_ok_snoc. split; [done|]. simpl. congruence.
Qed.

Lemma core_write_gpr s i v : core s → 0 ≤ i < 32 → is_u32 v →
  ∃ s', write_gpr i v s = Ok (tt, s') ∧ core s' ∧
    pc (cur_state s') = pc (cur_state s) ∧ dec (cur_state s') = dec (cur_state s).
Proof.
  intros [[] [] ?] Hi Hv. eexists. unfold write_gpr.
  rewrite u8_small, RegFile.write_vec_spec by (done || lia). split; [done|]. split; [|done].
  split; [split; try done; by apply RegFile.wf_upd; [done|lia|done] | | done].
  split; simpl; [| |done..].
  - rewrite RegFile.replay_snoc. unfold RegFile.apply_change. simpl. congruence.
  - apply RegFile.prevs_ok_snoc. split; [done|]. simpl. congruence.
Qed.

(** *** Primitives *)

Abbreviation safe m φ := (keeps E cycle m φ).

Lemma safe_read_csr a : 0 ≤ a < 4096 → safe (read_csr a) (λ v, is_u32 v).
Proof.
  intros Ha s [Hc Hn]. unfold read_csr. rewrite bind_gets.
  rewrite csr_read_ok by (done || apply Hc). simpl. split; [done|]. apply csr_at_u32, Hc.
Qed.
Lemma safe_read_gpr i : 0 ≤ i < 32 → safe (read_gpr i) (λ v, is_u32 v).
Proof.
  intros Hi s [Hc Hn]. unfold read_gpr. rewrite bind_gets.
  rewrite RegFile.read_reg by (done || apply Hc). simpl. split; [done|]. apply RegFile.reg_u32, Hc.
Qed.
Lemma safe_write_csr a v : 0 ≤ a < 4096 → is_u32 v → safe (write_csr a v) (λ _, True).
Proof.
  intros Ha Hv s [Hc Hn]. destruct (core_write_csr s a v) as (s' & -> & ? & Hpc & Hdec); [done..|].
  simpl. unfold cycle, next_pc in *. by rewrite Hpc, Hdec.
Qed.
Lemma safe_write_gpr i v : 0 ≤ i < 32 → is_u32 v → safe (write_gpr i v) (λ _, True).
Proof.
  intros Hi Hv s [Hc Hn]. destruct (core_write_gpr s i v) as (s' & -> & ? & Hpc & Hdec); [done..|].
  simpl. unfold cycle, next_pc in *. by rewrite Hpc, Hdec.
Qed.
Lemma safe_get_dec : safe get_dec (λ d', d' = d).
Proof. apply keeps_gets. intros s Hc. apply Hc. Qed.
Lemma safe_get_mode : safe (gets mode) mode_ok.
Proof. apply keeps_gets. intros s [Hc _]. apply Hc. Qed.
Lemma safe_get_tohost : safe (gets tohost_addr) (λ a, is_u32 a).
Proof. apply keeps_gets. intros s [Hc _]. apply Hc. Qed.
Lemma safe_get_pc : safe get_pc (λ v, is_u32 v).
Proof. apply keeps_gets. intros s [Hc _]. apply Hc. Qed.
Lemma safe_set_pc v : is_u32 v → safe (set_pc v) (λ _, True).
Proof.
  intros Hv. apply keeps_modify; [|done]. intros s [Hc Hn]. split.
  - apply core_cur_state; try done; simpl; [rewrite pc_get_set|]; apply Hc.
  - unfold next_pc. simpl. rewrite pc_get_update_set. split; [done | apply Hn].
Qed.
Lemma safe_update_pc : safe update_pc (λ _, True).
Proof.
  apply keeps_modify; [|done]. intros s [Hc Hn]. split.
  - apply core_cur_state; try done; simpl; [apply Hn | apply Hc].
  - unfold next_pc. simpl. by rewrite pc_get_update_update.
Qed.
Lemma safe_set_done b : safe (modify (with_done b)) (λ _, True).
Proof. apply keeps_modify; [|done]. intros s [Hc Hn]. split; [by apply core_done | done]. Qed.
Lemma safe_set_mode p : mode_ok p → safe (modify (with_mode p)) (λ _, True).
Proof. intros. apply keeps_modify; [|done]. intros s [Hc Hn]. split; [by apply core_mode | done]. Qed.

Lemma safe_mem_read rd (φ : Z → Prop) :
  (∀ r, wf_router r → ∃ v, rd r = Ok v ∧ φ v) → safe (mem_read rd) φ.
Proof.
  intros Hrd s [Hc Hn]. unfold mem_read. rewrite bind_gets.
  destruct (Hrd (mem s)) as (v & -> & Hv); [apply Hc | done].
Qed.
Lemma safe_mem_write wr :
  (∀ r, wf_router r → ∃ r', wr r = Ok r' ∧ wf_router r' ∧
     mtime_addr r' = mtime_addr r ∧ mtimecmp_addr r' = mtimecmp_addr r) →
  safe (mem_write wr) (λ _, True).
Proof.
  intros Hwr s [Hc Hn]. unfold mem_write.
  destruct (Hwr (mem s)) as (r' & -> & Hr' & Ha & Hca); [apply Hc|].
  simpl. split; [|done]. split; [by apply core_mem | done].
Qed.

Lemma land_base_u32 v : is_u32 v → is_u32 (Z.land v base_addr).
Proof. intros. apply (land_bound 32); lia. Qed.

(** *** Handlers *)

Ltac prim :=
  first [ apply safe_read_csr | apply safe_read_gpr | apply safe_write_csr | apply safe_write_gpr
        | apply safe_get_dec | apply safe_get_mode | apply safe_get_tohost | apply safe_get_pc
        | apply safe_set_pc | apply safe_update_pc | apply safe_set_done | apply safe_set_mode
        | apply safe_mem_read | apply safe_mem_write
        | apply keeps_ok | apply keeps_lift ].
Ltac side :=
  cbv beta in *; subst;
  try first [ done | by apply Hd | apply csr_val_range | by apply priv_csr_range | apply u32_range
            | by apply trap_cause_val_u32 | by apply land_base_u32 | lia ].
Ltac safe_with rule := repeat (keeps_step ltac:(first [rule | prim])); side.
Ltac safe := safe_with fail.

(** The rules are selected by the name of the command. *)
#[local] Opaque read_csr read_gpr write_csr write_gpr get_dec get_pc set_pc update_pc mem_read
  mem_write.

Lemma safe_sys_exit : safe handle_sys_exit (λ _, True).
Proof.
  unfold handle_sys_exit. safe. intros r Hr.
  destruct (router_write32_ok r a1 a0) as (m' & ? & ? & _); [done..|]. eauto.
Qed.

Lemma safe_save_pc c : safe (save_pc c) (λ _, True).
Proof.
  unfold save_pc. do 2 (eapply keeps_bind; [prim | intros; cbv beta in *]).
  assert (is_u32 (Z.land a base_addr)) by (by apply land_base_u32).
  assert (is_u32 (Z.land (u32 (Z.land a base_addr + 4)) base_addr))
    by (apply land_base_u32, u32_range).
  destruct c; safe_with ltac:(apply safe_sys_exit).
Qed.

Lemma bitset_test_ok b i : 0 ≤ i < 32 → bitset_test b i = Ok (Z.testbit b i).
Proof.
  intros. unfold bitset_test. by rewrite (proj2 (Z.leb_le _ _)), (proj2 (Z.ltb_lt _ _)) by lia.
Qed.
Lemma bitset_set_ok b i : 0 ≤ i < 32 → bitset_set b i = Ok (Z.setbit b i).
Proof.
  intros. unfold bitset_set. by rewrite (proj2 (Z.leb_le _ _)), (proj2 (Z.ltb_lt _ _)) by lia.
Qed.
Lemma bitset_reset_ok b i : 0 ≤ i < 32 → bitset_reset b i = Ok (Z.clearbit b i).
Proof.
  intros. unfold bitset_reset. by rewrite (proj2 (Z.leb_le _ _)), (proj2 (Z.ltb_lt _ _)) by lia.
Qed.
Lemma bit_assign_u32 b i v : 0 ≤ i < 32 → is_u32 b → is_u32 (bit_assign b i v).
Proof.
  intros. unfold bit_assign. destruct v; [by apply (setbit_bound 32) | by apply (clearbit_bound 32)].
Qed.
Lemma cause_number c : Z.land (to_int (trap_cause_val c)) msb_zero = trap_cause_val c mod 2 ^ 31.
Proof. rewrite to_int_id, msb_zero_val. apply trap_cause_number. Qed.

Lemma safe_take_interrupt c : is_int c = true → safe (take_interrupt c) (λ _, True).
Proof.
  intros Hc%int_number. unfold take_interrupt. rewrite cause_number.
  do 3 (eapply keeps_bind; [prim; side | intros; cbv beta in *]). rewrite !bitset_test_ok by done.
  keeps_step idtac. do 2 (keeps_step idtac; [safe|]).
  match goal with |- keeps _ _ (if ?b then _ else _) _ => destruct b; [|safe] end. rewrite bitset_reset_ok by done.
  safe; [by apply (clearbit_bound 32) | repeat (apply bit_assign_u32; [by vm_compute|]); done].
Qed.

Lemma safe_trap c : safe (trap c) (λ _, True).
Proof.
  unfold trap. rewrite to_int_id, sign_bit_val, trap_cause_sign.
  destruct (is_int c) eqn:Hc; (eapply keeps_bind;
    [by (apply safe_take_interrupt || by apply (keeps_ret _ _ _ (λ _, True))) | intros go _]);
    (destruct (negb go); [by apply keeps_skip|]); simpl.
  all: safe_with ltac:(apply safe_save_pc).
Qed.
#[local] Opaque trap.

Lemma safe_set_pending c : is_int c = true → safe (set_pending c) (λ _, True).
Proof.
  intros Hc%int_number. unfold set_pending. rewrite cause_number.
  eapply keeps_bind; [prim; side | intros]. rewrite bitset_set_ok by done. safe. by apply (setbit_bound 32).
Qed.

Lemma opt_cases (Q : Prop) :
  (∀ a, tgt d = target.alu → opt d = op_alu a → alu_named a = true → Q) →
  (∀ l, tgt d = target.load → opt d = op_load l → (∀ v, l ≠ masks.load_unnamed v) → Q) →
  (∀ t, tgt d = target.store → opt d = op_store t → (∀ v, t ≠ masks.store_unnamed v) → Q) →
  (∀ b, tgt d = target.branch → opt d = op_branch b → (∀ v, b ≠ masks.branch_unnamed v) → Q) →
  (∀ c, tgt d = target.csr → opt d = op_sys c → imm d < 4096 → Q) →
  (match tgt d with
   | target.alu | target.load | target.store | target.branch | target.csr => False
   | _ => True end → Q) → Q.
Proof.
  pose proof (wf_opt _ Hd) as Hm. unfold opt_matches in Hm. intros Ha Hl Ht Hb Hc Ho.
  destruct (tgt d) eqn:Htgt, (opt d) eqn:Hopt; try done; try (by apply Ho).
  - apply (Hl l); [done..|]. by intros v ->.
  - apply (Ht s); [done..|]. by intros v ->.
  - by apply (Ha a).
  - apply (Hb b); [done..|]. by intros v ->.
  - apply (Hc s); [done..|]. by apply Z.ltb_lt.
Qed.

Lemma safe_branch b : opt d = op_branch b → (∀ v, b ≠ masks.branch_unnamed v) →
  safe handle_branch (λ _, True).
Proof.
  intros Ho Hb. unfold handle_branch. eapply keeps_bind; [prim | intros ? ->]. rewrite Ho. cbn [get_branch].
  safe_with ltac:(apply (keeps_lift _ _ _ (λ _, True))).
  destruct b as [| | | | | |v]; try done. by destruct (Hb v).
Qed.

Lemma read8_safe a : is_u32 a → ∀ r, wf_router r →
  ∃ v, router_read8 a r = Ok v ∧ is_u32 v.
Proof.
  intros Ha r Hr. exists (router_byte r a). split; [by apply router_read8_byte|].
  pose proof (router_byte_u8 r a Hr Ha). lia.
Qed.
Lemma read16_safe a : is_u32 a → ∀ r, wf_router r →
  ∃ v, router_read16 a r = Ok v ∧ is_u32 v.
Proof.
  intros Ha r Hr. eexists. split; [by apply router_read16_ok|].
  pose proof (le_value_range a (pages r) 2 (r_pages _ Hr) Ha). simpl in *. lia.
Qed.
Lemma read32_safe a : is_u32 a → ∀ r, wf_router r →
  ∃ v, router_read32 a r = Ok v ∧ is_u32 v.
Proof.
  intros Ha r Hr. eexists. split; [by apply router_read32_ok|]. by apply le_value_u32.
Qed.

Lemma safe_load l : opt d = op_load l → (∀ v, l ≠ masks.load_unnamed v) →
  safe handle_load (λ _, True).
Proof.
  intros Ho Hl. unfold handle_load, load. eapply keeps_bind; [prim | intros ? ->].
  eapply (keeps_bind _ _ _ _ (λ v, is_u32 v)); [|intros; safe].
  eapply keeps_bind; [prim | intros ? ->]. eapply keeps_bind; [prim; side | intros base Hb].
  rewrite Ho. eapply keeps_bind; [apply keeps_ok | intros ? ->].
  destruct l as [| | | | |v]; [..|by destruct (Hl v)].
  all: safe_with ltac:(apply safe_mem_read; first [ apply read8_safe | apply read16_safe | apply read32_safe ]).
Qed.

Lemma safe_store t : opt d = op_store t → (∀ v, t ≠ masks.store_unnamed v) →
  safe store (λ _, True).
Proof.
  intros Ho Ht. unfold store. eapply keeps_bind; [prim | intros ? ->].
  eapply keeps_bind; [prim; side | intros base Hb].
  rewrite Ho. eapply keeps_bind; [apply keeps_ok | intros ? ->].
  apply (keeps_bind _ _ _ _ (λ _, True)); [|intros; safe].
  destruct t as [| | |v]; [..|by destruct (Ht v)].
  all: eapply keeps_bind; [prim; side | intros v Hv].
  all: apply safe_mem_write; intros r Hr; pose proof (u32_range (base + imm d)) as Ha.
  - destruct (router_write8_byte r (u32 (base + imm d)) (u8 v)) as (r' & Hw & ? & _);
      [done | done | apply u8_range |]. pose proof (router_write8_addrs _ _ _ _ Hw). eauto.
  - destruct (router_write16_ok r (u32 (base + imm d)) (u16 v)) as (m' & ? & ? & _);
      [done | done | apply u16_range |]. eauto.
  - destruct (router_write32_ok r (u32 (base + imm d)) v) as (m' & ? & ? & _); [done..|]. eauto.
Qed.

Lemma safe_alu a : opt d = op_alu a → alu_named a = true → safe handle_alu (λ _, True).
Proof.
  intros Ho Ha. unfold handle_alu. eapply keeps_bind; [prim | intros ? ->].
  rewrite Ho. cbn [get_alu].
  eapply keeps_bind; [prim | intros v Hv].
  apply (keeps_bind _ _ _ _ (λ x, is_u32 x)); [safe | intros x Hx].
  apply (keeps_bind _ _ _ _ (λ x, is_u32 x)); [safe | intros y Hy].
  keeps_step idtac. eapply keeps_bind; [by apply keeps_lift, do_alu_sat | intros r Hr].
  destruct a; safe.
Qed.

Lemma csr_operand_u32 (b c : bool) I tmp : is_u32 I → is_u32 tmp →
  is_u32 (let I := if b then Z.lor I tmp else I in
          if c then Z.land tmp (if I =? 0 then 1 else 0) else I).
Proof.
  intros. cbv zeta. destruct b, c; try done; try (by apply (lor_bound 32)); by apply (land_bound 32).
Qed.

Lemma safe_csr sy : opt d = op_sys sy → imm d < 4096 → safe handle_csr (λ _, True).
Proof.
  intros Ho Himm. assert (0 ≤ imm d < 4096) as Hi by (destruct Hd; lia).
  unfold handle_csr. eapply keeps_bind; [prim | intros ? ->].
  rewrite Ho. cbn [get_sys]. keeps_step idtac.
  apply (keeps_bind _ _ _ _ (λ o, ∀ v, o = Some v → is_u32 v)).
  { unfold csr_read_phase. safe_with ltac:(apply safe_trap); intros ? [=]; subst; (done || lia). }
  intros [tmp|] Htmp; [|safe]. specialize (Htmp tmp eq_refl).
  apply (keeps_bind _ _ _ _ (λ _, True)).
  { unfold csr_write_reg. safe_with ltac:(apply safe_trap). by apply csr_operand_u32. }
  intros ok _. destruct (negb ok); [safe|].
  apply (keeps_bind _ _ _ _ (λ _, True)).
  { unfold csr_write_imm. safe_with ltac:(apply safe_trap).
    rewrite (Z.land_comm _ tmp). apply csr_operand_u32; [destruct Hd; lia | done]. }
  intros ok' _. safe.
Qed.

Lemma safe_mret : safe handle_mret (λ _, True).
Proof.
  unfold handle_mret. rewrite !to_int_id. safe.
  repeat (apply bit_assign_u32; [by vm_compute|]). done.
Qed.

Lemma safe_exec : safe exec (λ _, True).
Proof.
  unfold exec. eapply keeps_bind; [prim | intros ? ->].
  apply opt_cases.
  - intros a -> Ho Ha. by eapply safe_alu.
  - intros l -> Ho Hl. by eapply safe_load.
  - intros t -> Ho Ht. by eapply safe_store.
  - intros b -> Ho Hb. by eapply safe_branch.
  - intros c -> Ho Hc. by eapply safe_csr.
  - destruct (tgt d); try done; intros _; try apply safe_trap; [apply safe_mret |].
    eapply keeps_bind; [by apply (keeps_gets _ _ _ (λ _, True)) | intros c _; apply safe_trap].
Qed.

Lemma safe_interrupt_pending : safe interrupt_pending (λ _, True).
Proof.
  unfold interrupt_pending.
  eapply (keeps_bind _ _ _ _ (λ o, is_u32 (o_mtime o) ∧ is_u32 (o_mtimecmp o))).
  { apply keeps_gets. intros s [Hc _]. split; apply Hc. }
  intros o [Ht Hc]. destruct (mti_enabled o); [|safe].
  do 2 (apply (keeps_bind _ _ _ _ (λ _, True));
    [apply safe_mem_read; intros r Hr; eexists; split; [by apply router_read64_ok | done] | intros ? _]).
  safe_with ltac:(first [by apply safe_set_pending | apply safe_trap]).
Qed.
End safety.

(** ** The two phases *)

Section phases.
Context {P : Platform} {E : fault → Prop} `{!PlatformOk P E} `{CommonLaws} `{DecoderOk}.
Implicit Types (s : model).

Lemma fetch_keeps rf cf fx s : core rf cf fx s →
  sat E (fetch s) (λ '(_, s'), core rf cf fx s' ∧ pc (cur_state s') = pc (cur_state s)).
Proof.
  intros Hc. assert (is_u32 (pc_get (pc (cur_state s)))) as Hpc by apply Hc.
  unfold fetch, get_pc, mem_read. rewrite !bind_gets.
  destruct (read32_safe (pc_get (pc (cur_state s))) Hpc (mem s)) as (x & Hx & Hxr); [apply Hc|].
  rewrite (bind_ok _ _ s x s) by (unfold mbind, stateM_bind, gets, lift; by rewrite Hx).
  simpl. split; [|done]. apply core_cur_state; try done.
  destruct (is_compressed_word x); [by apply decode16_wf | by apply decode_wf].
Qed.

(** [step] past the fetch: the next program counter is set, then the instruction runs. *)
Definition started s : model :=
  with_state (with_pc (pc_set (u32 (pc_get (pc (cur_state s)) +
    (if is_compressed (dec (cur_state s)) then 2 else 4))) (pc (cur_state s))) (cur_state s)) s.
Definition execution : stateM model unit :=
  v ← get_pc;
  ok ← gets (is_valid_pc v);
  (if negb ok then trap exp_inst_access_fault else skip);;
  exec.

Lemma step_fetched s s1 : fetch s = Ok (tt, s1) → step s = execution (started s1).
Proof. intros Hf. unfold step. rewrite (bind_ok _ _ _ _ _ Hf). reflexivity. Qed.
Lemma step_unfetched s f : fetch s = Fail f → step s = Fail f.
Proof. intros Hf. unfold step, mbind, stateM_bind. by rewrite Hf. Qed.

Lemma step_keeps rf cf fx : triple E (core rf cf fx) step (λ _ s', core rf cf fx s' ∧ is_u32 (next_pc s')).
Proof.
  intros s Hc. pose proof (fetch_keeps rf cf fx s Hc) as Hf.
  destruct (fetch s) as [[[] s1]|f] eqn:Hs1; simpl in Hf;
    [rewrite (step_fetched _ _ Hs1) | by rewrite (step_unfetched _ _ Hs1)].
  destruct Hf as [Hc1 _]. set (d := dec (cur_state s1)). assert (wf_op d) as Hd by apply Hc1.
  assert (cycle rf cf fx d (started s1)) as Hcy.
  { split; [|split]; [| unfold next_pc; simpl; rewrite pc_get_update_set; apply u32_range | done].
    apply core_cur_state; try done; simpl. rewrite pc_get_set. apply Hc1. }
  enough (keeps E (cycle rf cf fx d) execution (λ _, True)) as Ht.
  { eapply sat_weaken; [apply Ht, Hcy|]. intros [_ s'] [(? & ? & _) _]. done. }
  apply (keeps_bind E _ _ _ (λ v, is_u32 v)); [by apply safe_get_pc | intros w Hw].
  apply (keeps_bind E _ _ _ (λ _, True)); [by apply keeps_gets | intros ok _].
  apply (keeps_bind E _ _ _ (λ _, True)); [|intros _ _; by apply safe_exec].
  destruct (negb ok); [by apply safe_trap | by apply keeps_skip].
Qed.

(** A state at the start of a cycle: nothing staged. *)
Definition at_rest s : Prop :=
  wf_model s ∧ gpr_staged (cur_state s) = [] ∧ csr_staged (cur_state s) = [].

Lemma at_rest_core s : at_rest s → core (regf s) (csrf s) (fixed s) s.
Proof. intros (? & Hg & Hc). split; [done | by split; rewrite ?Hg, ?Hc | done]. Qed.

Lemma commit_keeps rf cf fx : triple E (λ s, core rf cf fx s ∧ is_u32 (next_pc s)) commit
  (λ _ s', at_rest s' ∧ fixed s' = fx).
Proof.
  intros s [Hc Hn]. unfold commit.
  assert (wf_op (dec (cur_state s))) as Hd by apply Hc.
  assert (keeps E (cycle rf cf fx (dec (cur_state s))) (update_pc;; interrupt_pending) (λ _, True)) as Hk.
  { apply (keeps_bind E _ _ _ (λ _, True)); [by apply safe_update_pc |].
    intros _ _. by apply safe_interrupt_pending. }
  specialize (Hk s (conj Hc (conj Hn eq_refl))). revert Hk.
  unfold mbind, stateM_bind. destruct (update_pc s) as [[[] s1]|]; [|done].
  destruct (interrupt_pending s1) as [[[] s2]|]; [|done]. simpl.
  intros [[[[] _ Hfx] _] _]. split; [|exact Hfx]. by split; [split|].
Qed.

Lemma at_rest_model_of opt entry ranges tohost r :
  is_u32 entry → is_u32 tohost → wf_router r → wf_op dec_init →
  is_u32 (o_mtime opt) → is_u32 (o_mtimecmp opt) →
  at_rest (model_of opt entry ranges tohost r).
Proof.
  intros. split; [|done]. split; try done; simpl.
  - by rewrite pc_get_of.
  - apply RegFile.wf_init.
  - apply csr_wf_init.
Qed.
End phases.

(** ** Properties *)

(** C9: Executing one instruction keeps the hart well-formed: whatever word is
    fetched and whatever the registers, the CSRs and memory hold, [step] ends in a
    well-formed state (program counter, registers and CSRs are words, register 0 is
    zero, pages and timer registers are intact, the mode's cached base agrees with
    the mode), does not touch the configuration, and leaves a 32-bit next program
    counter.  It can fail only in the way the platform lets arithmetic fail: on a
    wrapping build not at all; no array access is out of bounds, no [at] or
    [bitset] throws and no switch meets an unexpected value. *)
Theorem step_safe {P : Platform} {E} {PE : PlatformOk P E} {C : CommonLib} {L : CommonLaws}
    {D : Decoder} {DO : DecoderOk} (s : model) :
  at_rest s →
  sat E (step s) (λ '(_, s'), wf_model s' ∧ is_u32 (next_pc s') ∧ fixed s' = fixed s ∧
    RegFile.read 0 (regf s') = Ok 0).
Proof.
  intros Hs. eapply sat_weaken; [apply (step_keeps (regf s) (csrf s) (fixed s) s), at_rest_core, Hs|].
  intros [_ s'] [[Hw _ Hf] Hn]. do 3 (split; [done|]).
  rewrite RegFile.read_reg, RegFile.reg_zero; [done | apply Hw | apply Hw | lia].
Qed.

(** C10: The staged changes are a faithful trace of the cycle.  After [step] from a
    state with nothing staged, replaying [gpr_staged] on the registers and
    [csr_staged] on the CSRs of the state before gives exactly the register and CSR
    files after, and the [prev] field of every change is the value the entry held
    when the change was made; so a consumer of the exported changes can follow and
    also undo the execution. *)
Theorem step_trace {P : Platform} {E} {PE : PlatformOk P E} {C : CommonLib} {L : CommonLaws}
    {D : Decoder} {DO : DecoderOk} (s : model) :
  at_rest s →
  sat E (step s) (λ '(_, s'),
    regf s' = RegFile.replay (regf s) (gpr_staged (cur_state s')) ∧
    RegFile.prevs_ok (regf s) (gpr_staged (cur_state s')) ∧
    csrf s' = csr_replay (csrf s) (csr_staged (cur_state s')) ∧
    csr_prevs_ok (csrf s) (csr_staged (cur_state s'))).
Proof.
  intros Hs. eapply sat_weaken; [apply (step_keeps (regf s) (csrf s) (fixed s) s), at_rest_core, Hs|].
  by intros [_ s'] [[_ [] _] _].
Qed.

(** ** A concrete hart, for witnesses *)

Section sample.
#[local] Existing Instance ref_common.

Fixpoint assemble (ws : list Z) (a : Z) (r : address_router) : address_router :=
  match ws with
  | [] => r
  | w :: ws =>
      match router_write32 a w r with
      | Ok r' => assemble ws (u32 (a + 4)) r'
      | Fail _ => r
      end
  end.

Lemma wf_assemble ws a r :
  Forall (λ w, is_u32 w) ws → is_u32 a → wf_router r → wf_router (assemble ws a r).
Proof.
  revert a r. induction ws as [|w ws IH]; intros a r Hws Ha Hr; simpl; [done|].
  apply Forall_cons in Hws as [Hw Hws].
  destruct (router_write32_ok r a w Hr Ha Hw) as (m' & -> & ? & _). apply IH; [done | apply u32_range | done].
Qed.

Lemma assemble_timers ws a r : mtime (assemble ws a r) = mtime r ∧ mtimecmp (assemble ws a r) = mtimecmp r.
Proof.
  revert a r. induction ws as [|w ws IH]; intros a r; simpl; [done|].
  destruct (router_write32 a w r) as [r'|] eqn:Hw; [|done].
  apply res_bind_inv in Hw as (m' & _ & [= <-]). apply (IH _ (with_pages m' r)).
Qed.

(** A hart about to run the program [ws] at 0x1000, with [tohost] at 0x2000 and the
    timer registers at 0x8000 and 0x8100. *)
Definition sample_options : options :=
  mk_options "prog.elf" "tohost" "" "" 0x8000 0x8100 100 0 false false false false.
Definition sample_model (ws : list Z) : model :=
  model_of sample_options 0x1000 [(0x1000, 0x1FFF)] 0x2000 (assemble ws 0x1000 sample_router).

Lemma sample_at_rest ws : Forall (λ w, is_u32 w) ws → at_rest (sample_model ws).
Proof.
  intros. apply at_rest_model_of; simpl; try lia; [|by split].
  apply wf_assemble; [done | lia | apply sample_router_ok].
Qed.
End sample.

(** ** Witnesses *)

Section witnesses.
#[local] Existing Instances wrapping ref_common ref_decoder.

(** [addi x1, x0, 5], then [ecall]. *)
Definition sample_program : list Z := [0x00500093; 0x00000073].
Lemma sample_program_u32 : Forall (λ w, is_u32 w) sample_program.
Proof. repeat constructor; lia. Qed.

Lemma step_safe_witness :
  sat no_fault (step (sample_model sample_program)) (λ '(_, s'), wf_model s' ∧ is_u32 (next_pc s') ∧
    fixed s' = fixed (sample_model sample_program) ∧ RegFile.read 0 (regf s') = Ok 0).
Proof. apply (step_safe (E := no_fault)), sample_at_rest, sample_program_u32. Defined.

Lemma step_trace_witness :
  sat no_fault (step (sample_model sample_program)) (λ '(_, s'),
    regf s' = RegFile.replay RegFile.reg_file_init (gpr_staged (cur_state s')) ∧
    RegFile.prevs_ok RegFile.reg_file_init (gpr_staged (cur_state s')) ∧
    csrf s' = csr_replay csr_file_init (csr_staged (cur_state s')) ∧
    csr_prevs_ok csr_file_init (csr_staged (cur_state s'))).
Proof. apply (step_trace (E := no_fault) (sample_model sample_program)), sample_at_rest, sample_program_u32. Defined.

End witnesses.
