(* ===== verification/Exec.v ===== *)
(** * Exact effects of the hart's member functions

    Equations that turn the handlers of [Model] into updates of the state: one per
    primitive, then the trap sequence, the interrupt sequence and the exit protocol.
    The properties of [Isa], [Traps] and [Sim] are proved with them. *)

From S2P Require Export Model Safety.
From S2P Require RegFile.

(** ** State updates *)

Section updates.
Context `{CommonLib}.
Implicit Types (s : model).

Definition put_gpr (i v : Z) s : model :=
  with_regf (RegFile.upd (regf s) i v)
    (with_state (with_gpr_staged
       (gpr_staged (cur_state s) ++ [mk_gpr_change i (RegFile.reg (regf s) i) v]) (cur_state s)) s).
Definition put_csr (a v : Z) s : model :=
  with_csrf (csr_upd (csrf s) a v)
    (with_state (with_csr_staged
       (csr_staged (cur_state s) ++ [mk_csr_change a (csr_at (csrf s) a) v]) (cur_state s)) s).
(** [goto v]: the next program counter becomes [v]. *)
Definition goto (v : Z) s : model :=
  with_state (with_pc (pc_set v (pc (cur_state s))) (cur_state s)) s.
(** [jump]: the next program counter becomes the current one. *)
Definition jump s : model := with_state (with_pc (pc_update (pc (cur_state s))) (cur_state s)) s.

Definition cur_pc s : Z := pc_get (pc (cur_state s)).
Definition gpr s (i : Z) : Z := RegFile.reg (regf s) i.
Definition csrv s (a : Z) : Z := csr_at (csrf s) a.
(** The number of user-level trap register [c] of the current mode. *)
Definition mcsr s (c : csr) : Z := priv_csr c (mode s).
End updates.

Section effects.
Context `{CommonLaws}.
Implicit Types (s : model).

Lemma wf_put_gpr s i v : wf_model s → 0 ≤ i < 32 → is_u32 v → wf_model (put_gpr i v s).
Proof. intros [] Hi Hv. split; try done. by apply RegFile.wf_upd; [done | lia | done]. Qed.
Lemma wf_put_csr s a v : wf_model s → is_u32 v → wf_model (put_csr a v s).
Proof. intros [] Hv. split; try done. by apply csr_wf_upd. Qed.
Lemma wf_goto s v : wf_model s → wf_model (goto v s).
Proof. intros []. split; try done. simpl. by rewrite pc_get_set. Qed.
Lemma wf_jump s : wf_model s → is_u32 (next_pc s) → wf_model (jump s).
Proof. by intros [] ?. Qed.
Lemma wf_with_done s b : wf_model s → wf_model (with_done b s).
Proof. by intros []. Qed.
Lemma wf_with_mode s p : wf_model s → mode_ok p → wf_model (with_mode p s).
Proof. by intros [] ?. Qed.

Lemma cur_pc_goto s v : cur_pc (goto v s) = cur_pc s.
Proof. apply pc_get_set. Qed.
Lemma next_pc_goto s v : next_pc (goto v s) = v.
Proof. apply pc_get_update_set. Qed.
Lemma cur_pc_jump s : cur_pc (jump s) = next_pc s.
Proof. done. Qed.
Lemma next_pc_jump s : next_pc (jump s) = next_pc s.
Proof. apply pc_get_update_update. Qed.

Lemma pcs_put_csr s a v :
  cur_pc (put_csr a v s) = cur_pc s ∧ next_pc (put_csr a v s) = next_pc s.
Proof. done. Qed.

Lemma csrv_jump s a : csrv (jump s) a = csrv s a.
Proof. done. Qed.
Lemma csrv_goto s v a : csrv (goto v s) a = csrv s a.
Proof. done. Qed.

(** What a trap leaves alone. *)
Definition frame s s' : Prop :=
  regf s' = regf s ∧ mem s' = mem s ∧ mode s' = mode s ∧ is_done s' = is_done s ∧ fixed s' = fixed s.
Lemma frame_trans s1 s2 s3 : frame s1 s2 → frame s2 s3 → frame s1 s3.
Proof. unfold frame. intuition congruence. Qed.
Lemma frame_put_csr s a v : frame s (put_csr a v s).
Proof. done. Qed.
Lemma frame_goto s v : frame s (goto v s).
Proof. done. Qed.
Lemma frame_jump s : frame s (jump s).
Proof. done. Qed.

Lemma gpr_put_gpr s i v j : wf_model s → 0 ≤ i < 32 →
  gpr (put_gpr i v s) j = if (i =? j) && negb (i =? 0) then v else gpr s j.
Proof. intros Hs Hi. apply RegFile.reg_upd; [apply Hs | done]. Qed.
Lemma csrv_put_csr s a v b : wf_model s → 0 ≤ a < 4096 →
  csrv (put_csr a v s) b = if b =? a then v else csrv s b.
Proof. intros Hs Ha. apply csr_at_upd; [apply Hs | done]. Qed.

Lemma gpr_u32 s i : wf_model s → is_u32 (gpr s i).
Proof. intros Hs. apply RegFile.reg_u32, Hs. Qed.
Lemma csrv_u32 s a : wf_model s → is_u32 (csrv s a).
Proof. intros Hs. apply csr_at_u32, Hs. Qed.
Lemma cur_pc_u32 s : wf_model s → is_u32 (cur_pc s).
Proof. intros Hs. apply Hs. Qed.
Lemma mcsr_range s c : wf_model s → 0 ≤ mcsr s c < 4096.
Proof. intros Hs. apply priv_csr_range, Hs. Qed.

(** User-level trap registers of the same mode are different CSRs. *)
Lemma mcsr_val s c : wf_model s → csr_val c < 256 →
  mcsr s c = 256 * privilege_val (Csr.m (mode s)) + csr_val c.
Proof.
  intros Hs Hc. unfold mcsr. rewrite priv_csr_val by apply Hs.
  pose proof (csr_val_range c).
  replace (256 * privilege_val (Csr.m (mode s))) with (Z.shiftl (privilege_val (Csr.m (mode s))) 8)
    by (rewrite Z.shiftl_mul_pow2 by lia; lia).
  rewrite lor_disjoint_add, Z.shiftl_mul_pow2 by lia. lia.
Qed.
Lemma mcsr_ne s c c' : wf_model s → csr_val c < 256 → csr_val c' < 256 → csr_val c ≠ csr_val c' →
  (mcsr s c =? mcsr s c') = false.
Proof. intros. rewrite !mcsr_val by done. apply Z.eqb_neq. lia. Qed.

(** ** Primitives *)

Lemma read_gpr_eq s i : wf_model s → 0 ≤ i < 32 → read_gpr i s = Ok (gpr s i, s).
Proof.
  intros Hs Hi. unfold read_gpr. rewrite bind_gets. by rewrite RegFile.read_reg by (apply Hs || done).
Qed.
Lemma read_csr_eq s a : wf_model s → 0 ≤ a < 4096 → read_csr a s = Ok (csrv s a, s).
Proof.
  intros Hs Ha. unfold read_csr. rewrite bind_gets. by rewrite csr_read_ok by (apply Hs || done).
Qed.
Lemma write_gpr_eq s i v : wf_model s → 0 ≤ i < 32 → write_gpr i v s = Ok (tt, put_gpr i v s).
Proof.
  intros Hs Hi. unfold write_gpr.
  by rewrite u8_small, RegFile.write_vec_spec by (apply Hs || done || lia).
Qed.
Lemma write_csr_eq s a v : wf_model s → 0 ≤ a < 4096 → write_csr a v s = Ok (tt, put_csr a v s).
Proof.
  intros Hs Ha. unfold write_csr.
  by rewrite u16_small, csr_write_vec_ok by (apply Hs || done || lia).
Qed.

Section binds.
Context {B : Type}.
Lemma bind_read_gpr s i (k : Z → stateM model B) :
  wf_model s → 0 ≤ i < 32 → (read_gpr i ≫= k) s = k (gpr s i) s.
Proof. intros. by rewrite (bind_ok _ _ _ _ _ (read_gpr_eq s i ltac:(done) ltac:(done))). Qed.
Lemma bind_read_csr s a (k : Z → stateM model B) :
  wf_model s → 0 ≤ a < 4096 → (read_csr a ≫= k) s = k (csrv s a) s.
Proof. intros. by rewrite (bind_ok _ _ _ _ _ (read_csr_eq s a ltac:(done) ltac:(done))). Qed.
Lemma bind_write_gpr s i v (k : unit → stateM model B) :
  wf_model s → 0 ≤ i < 32 → (write_gpr i v ≫= k) s = k tt (put_gpr i v s).
Proof. intros. by rewrite (bind_ok _ _ _ _ _ (write_gpr_eq s i v ltac:(done) ltac:(done))). Qed.
Lemma bind_write_csr s a v (k : unit → stateM model B) :
  wf_model s → 0 ≤ a < 4096 → (write_csr a v ≫= k) s = k tt (put_csr a v s).
Proof. intros. by rewrite (bind_ok _ _ _ _ _ (write_csr_eq s a v ltac:(done) ltac:(done))). Qed.
Lemma bind_get_pc s (k : Z → stateM model B) : (get_pc ≫= k) s = k (cur_pc s) s.
Proof. reflexivity. Qed.
Lemma bind_get_dec s (k : op → stateM model B) : (get_dec ≫= k) s = k (dec (cur_state s)) s.
Proof. reflexivity. Qed.
Lemma bind_set_pc s v (k : unit → stateM model B) : (set_pc v ≫= k) s = k tt (goto v s).
Proof. reflexivity. Qed.
End binds.
End effects.

(** Run the next primitive of a handler. *)
Ltac run_step :=
  first
    [ rewrite bind_get_pc | rewrite bind_get_dec | rewrite bind_set_pc
    | rewrite bind_gets | rewrite bind_modify | rewrite bind_lift_ok
    | rewrite bind_read_gpr by (assumption || lia)
    | rewrite bind_read_csr by (assumption || apply csr_val_range || by apply mcsr_range)
    | rewrite bind_write_gpr by (assumption || lia)
    | rewrite bind_write_csr by (assumption || apply csr_val_range || by apply mcsr_range) ].

(** ** Traps *)

Section traps.
Context `{CommonLaws} `{Platform} `{Decoder}.
Implicit Types (s : model) (c : trap_cause).

Definition word_align (v : Z) : Z := Z.land v base_addr.

Definition is_ecall c : bool :=
  match c with
  | exp_ecall_from_hs_mode | exp_ecall_from_m_mode | exp_ecall_from_vs_mode
  | exp_ecall_from_u_vu_mode => true
  | _ => false
  end.
(** The program counter [save_pc] saves. *)
Definition epc_of c (v : Z) : Z :=
  if is_ecall c || bool_decide (c = exp_breakpoint) then word_align v
  else word_align (u32 (word_align v + 4)).

(** The state after [trap c] up to the exit protocol: cause, value and program
    counter saved in the registers of the current mode, the next program counter at
    [entry]. *)
Definition saved c (entry : Z) s : model :=
  put_csr (mcsr s uepc) (epc_of c (cur_pc s))
    (goto entry (put_csr (mcsr s utval) 0 (put_csr (mcsr s ucause) (trap_cause_val c) s))).
Definition vector s : Z := word_align (csrv s (mcsr s utvec)).

Lemma wf_saved c e s : wf_model s → wf_model (saved c e s).
Proof.
  intros Hs. assert (∀ v, is_u32 (word_align v)).
  { intros v. unfold word_align. rewrite Z.land_comm. apply (land_bound 32); [lia|].
    rewrite base_addr_val. lia. }
  apply wf_put_csr; [|unfold epc_of; by destruct (_ || _)].
  apply wf_goto, wf_put_csr; [|lia]. apply wf_put_csr; [done|]. apply trap_cause_val_u32.
Qed.

Lemma frame_saved c e s : frame s (saved c e s).
Proof.
  eapply frame_trans; [|apply frame_put_csr]. eapply frame_trans; [|apply frame_goto].
  eapply frame_trans; [|apply frame_put_csr]. apply frame_put_csr.
Qed.

Lemma csrv_saved c e s a : wf_model s →
  csrv (saved c e s) a =
    if a =? mcsr s uepc then epc_of c (cur_pc s)
    else if a =? mcsr s utval then 0
    else if a =? mcsr s ucause then trap_cause_val c
    else csrv s a.
Proof.
  intros Hs. pose proof (mcsr_range s ucause Hs). pose proof (mcsr_range s utval Hs).
  pose proof (mcsr_range s uepc Hs).
  assert (wf_model (put_csr (mcsr s ucause) (trap_cause_val c) s)) as H1'
    by (apply wf_put_csr; [done | apply trap_cause_val_u32]).
  assert (wf_model (put_csr (mcsr s utval) 0 (put_csr (mcsr s ucause) (trap_cause_val c) s)))
    by (apply wf_put_csr; [done | lia]).
  unfold saved. rewrite csrv_put_csr by (done || by apply wf_goto).
  destruct (a =? _); [done|].
  change (csrv (goto e ?x) a) with (csrv x a). by rewrite !csrv_put_csr.
Qed.

Lemma next_pc_saved c e s : next_pc (saved c e s) = e.
Proof. unfold saved. rewrite (proj2 (pcs_put_csr _ _ _)). apply next_pc_goto. Qed.
Lemma cur_pc_saved c e s : cur_pc (saved c e s) = cur_pc s.
Proof. unfold saved. rewrite (proj1 (pcs_put_csr _ _ _)). by rewrite cur_pc_goto. Qed.

Lemma save_pc_eq c s : wf_model s →
  save_pc c s =
    (if is_ecall c then handle_sys_exit else skip) (put_csr (mcsr s uepc) (epc_of c (cur_pc s)) s).
Proof.
  intros Hs. unfold save_pc. rewrite bind_get_pc, bind_gets. fold (word_align (cur_pc s)).
  fold (mcsr s uepc). unfold epc_of, word_align.
  destruct c; simpl is_ecall; cbn [orb]; rewrite ?bool_decide_true by done;
    rewrite ?bool_decide_false by done;
    first [ rewrite bind_write_csr by (done || by apply mcsr_range) 
          | rewrite write_csr_eq by (done || by apply mcsr_range) ]; done.
Qed.

(** The common end of an exception and of a taken interrupt. *)
Definition deliver c (entry : Z → Z) (last : stateM model unit) : stateM model unit :=
  p ← gets mode;
  write_csr (priv_csr ucause p) (trap_cause_val c);;
  write_csr (priv_csr utval p) 0;;
  tvec ← read_csr (priv_csr utvec p);
  set_pc (entry tvec);;
  save_pc c;;
  last.

Lemma deliver_eq c entry last s : wf_model s →
  deliver c entry last s =
    ((if is_ecall c then handle_sys_exit else skip) ;; last) (saved c (entry (csrv s (mcsr s utvec))) s).
Proof.
  intros Hs. unfold deliver. rewrite bind_gets.
  fold (mcsr s ucause) (mcsr s utval) (mcsr s utvec).
  assert (wf_model (put_csr (mcsr s ucause) (trap_cause_val c) s)) as Hs1
    by (apply wf_put_csr; [done | apply trap_cause_val_u32]).
  assert (wf_model (put_csr (mcsr s utval) 0 (put_csr (mcsr s ucause) (trap_cause_val c) s))) as Hs2
    by (apply wf_put_csr; [done | lia]).
  rewrite bind_write_csr by (done || by apply mcsr_range).
  rewrite bind_write_csr by (done || by apply mcsr_range).
  rewrite bind_read_csr by (done || by apply mcsr_range).
  rewrite !csrv_put_csr by (done || by apply mcsr_range).
  rewrite !(mcsr_ne s utvec) by done.
  rewrite bind_set_pc. unfold mbind, stateM_bind.
  rewrite save_pc_eq by (by apply wf_goto). unfold saved. by rewrite cur_pc_goto.
Qed.

(** An exception: cause, value, vector, program counter; then the exit protocol if
    it is an environment call. *)
Lemma trap_exception_eq c s : wf_model s → is_int c = false →
  trap c s = (if is_ecall c then handle_sys_exit else skip) (saved c (vector s) s).
Proof.
  intros Hs Hc. unfold trap. rewrite to_int_id, sign_bit_val, trap_cause_sign, Hc.
  rewrite bind_ret. cbn [negb]. unfold vector.
  etrans; [exact (deliver_eq c word_align skip s Hs) | apply bind_skip].
Qed.

(** *** Interrupts *)

Definition number c : Z := trap_cause_val c mod 2 ^ 31.
Definition enabled c s : bool :=
  Z.testbit (csrv s (csr_val mie)) (number c) && Z.testbit (csrv s (csr_val mip)) (number c)
  && Z.testbit (csrv s (csr_val mstatus)) status.mie.

(** mstatus on entry: MPP machine, MPIE the old MIE, MIE clear. *)
Definition mstatus_on_entry (v : Z) : Z :=
  let v := Z.setbit (Z.setbit v status.mpp) (status.mpp + 1) in
  bit_assign (bit_assign v status.mpie (Z.testbit v status.mie)) status.mie false.
Definition acknowledged c s : model :=
  put_csr (csr_val mstatus) (mstatus_on_entry (csrv s (csr_val mstatus)))
    (put_csr (csr_val mip) (Z.clearbit (csrv s (csr_val mip)) (number c)) s).

Lemma mstatus_on_entry_u32 v : is_u32 v → is_u32 (mstatus_on_entry v).
Proof.
  intros. unfold mstatus_on_entry.
  repeat (apply bit_assign_u32; [by vm_compute|]).
  apply (bit_assign_u32 _ (status.mpp + 1) true); [by vm_compute|].
  by apply (bit_assign_u32 _ status.mpp true).
Qed.

Lemma wf_acknowledged c s : wf_model s → wf_model (acknowledged c s).
Proof.
  intros Hs. apply wf_put_csr; [apply wf_put_csr; [done|]|].
  - apply (clearbit_bound 32); [lia | by apply csrv_u32].
  - by apply mstatus_on_entry_u32, csrv_u32.
Qed.

Lemma take_interrupt_eq c s : wf_model s → is_int c = true →
  take_interrupt c s = if enabled c s then Ok (true, acknowledged c s) else Ok (false, s).
Proof.
  intros Hs Hc%int_number. unfold take_interrupt, enabled. rewrite cause_number.
  fold (number c) in Hc |- *.
  rewrite !bind_read_csr by (done || apply csr_val_range). rewrite !bitset_test_ok by done.
  rewrite bind_lift_ok. destruct (Z.testbit (csrv s (csr_val mie)) _); [|done].
  rewrite bind_lift_ok. destruct (Z.testbit (csrv s (csr_val mip)) _); [|done].
  rewrite bind_lift_ok.
  destruct (Z.testbit (csrv s (csr_val mstatus)) _); [|done].
  rewrite bitset_reset_ok, bind_lift_ok by done.
  rewrite bind_write_csr by (done || apply csr_val_range).
  rewrite bind_write_csr by
    (apply csr_val_range || by apply wf_put_csr, (clearbit_bound 32); [| |apply csrv_u32]).
  done.
Qed.

Lemma int_not_ecall c : is_int c = true → is_ecall c = false.
Proof. by destruct c. Qed.

Lemma frame_acknowledged c s : frame s (acknowledged c s).
Proof. eapply frame_trans; [|apply frame_put_csr]. apply frame_put_csr. Qed.
Lemma mcsr_acknowledged c s r : mcsr (acknowledged c s) r = mcsr s r.
Proof. done. Qed.
Lemma cur_pc_acknowledged c s : cur_pc (acknowledged c s) = cur_pc s.
Proof. unfold acknowledged. by rewrite !(proj1 (pcs_put_csr _ _ _)). Qed.

Lemma csrv_acknowledged c s a : wf_model s →
  csrv (acknowledged c s) a =
    if a =? csr_val mstatus then mstatus_on_entry (csrv s (csr_val mstatus))
    else if a =? csr_val mip then Z.clearbit (csrv s (csr_val mip)) (number c)
    else csrv s a.
Proof.
  intros Hs. unfold acknowledged. rewrite !csrv_put_csr; try done; try apply csr_val_range.
  apply wf_put_csr; [done|]. apply (clearbit_bound 32); [lia | by apply csrv_u32].
Qed.

Lemma vector_acknowledged c s : wf_model s → vector (acknowledged c s) = vector s.
Proof.
  intros Hs. unfold vector. rewrite csrv_acknowledged by done.
  change (mcsr (acknowledged c s) utvec) with (mcsr s utvec). rewrite mcsr_val by done.
  by destruct (Csr.m (mode s)).
Qed.

(** A taken interrupt vectors to the entry of its number; the jump is immediate. *)
Definition interrupted c s : model :=
  jump (saved c (u32 (vector s + number c * 4)) (acknowledged c s)).

Lemma trap_interrupt_eq c s : wf_model s → is_int c = true →
  trap c s = Ok (tt, if enabled c s then interrupted c s else s).
Proof.
  intros Hs Hc. unfold trap. rewrite to_int_id, sign_bit_val, trap_cause_sign, Hc.
  pose proof (take_interrupt_eq c s Hs Hc) as Ht.
  destruct (enabled c s); rewrite (bind_ok _ _ _ _ _ Ht); cbn [negb]; [|done].
  etrans; [refine (deliver_eq c (λ t, u32 (word_align t + _)) update_pc _ _); by apply wf_acknowledged|].
  rewrite int_not_ecall by done. unfold interrupted. rewrite <-(vector_acknowledged c s) by done.
  unfold number. by rewrite <-cause_number, to_int_id.
Qed.
End traps.

(** ** Fetch and step *)

Section stepping.
Context `{CommonLaws} `{Platform} `{DecoderOk}.
Implicit Types (s : model).

(** The word at the program counter, and its decoding. *)
Definition fetched_word s : Z := le_value (byte (pages (mem s))) (cur_pc s) 4.
Definition fetched_op s : op :=
  if is_compressed_word (fetched_word s) then decode16 (fetched_word s) else decode (fetched_word s).
Definition fetched s : model :=
  with_state (with_fetched (fetched_word s) (fetched_op s) (cur_state s)) s.
(** The state in which the instruction runs. *)
Definition begun s : model := started (fetched s).

Lemma fetch_eq s : wf_model s → fetch s = Ok (tt, fetched s).
Proof.
  intros Hs. unfold fetch. rewrite bind_get_pc. unfold mem_read. rewrite bind_assoc, bind_gets.
  rewrite router_read32_ok by apply Hs. done.
Qed.
Lemma fetched_word_u32 s : wf_model s → is_u32 (fetched_word s).
Proof. intros Hs. apply le_value_u32; apply Hs. Qed.
Lemma fetched_op_wf s : wf_model s → wf_op (fetched_op s).
Proof.
  intros Hs%fetched_word_u32. unfold fetched_op.
  destruct (is_compressed_word _); [by apply decode16_wf | by apply decode_wf].
Qed.
Lemma wf_fetched s : wf_model s → wf_model (fetched s).
Proof. intros Hs. pose proof (fetched_op_wf s Hs). destruct Hs. by split. Qed.

Definition length_of (d : op) : Z := if is_compressed d then 2 else 4.
Lemma begun_spec s : wf_model s →
  wf_model (begun s) ∧ cur_pc (begun s) = cur_pc s ∧
  next_pc (begun s) = u32 (cur_pc s + length_of (fetched_op s)) ∧
  dec (cur_state (begun s)) = fetched_op s.
Proof.
  intros Hs. split; [by apply (wf_goto (fetched s)), wf_fetched|].
  split; [apply (cur_pc_goto (fetched s))|]. split; [apply (next_pc_goto (fetched s)) | done].
Qed.

Lemma step_eq s : wf_model s →
  step s = if is_valid_pc (cur_pc s) s then exec (begun s)
           else (trap exp_inst_access_fault;; exec) (begun s).
Proof.
  intros Hs. rewrite (step_fetched s (fetched s)) by (by apply fetch_eq). fold (begun s).
  unfold execution. rewrite bind_get_pc, bind_gets.
  rewrite (proj1 (proj2 (begun_spec s Hs))).
  change (is_valid_pc (cur_pc s) (begun s)) with (is_valid_pc (cur_pc s) s).
  by destruct (is_valid_pc (cur_pc s) s).
Qed.

(** [commit] without a timer: the program counter advances, the staged lists empty. *)
Definition settled s : model :=
  with_state (with_gpr_staged [] (with_csr_staged [] (cur_state s))) s.
Lemma commit_eq s : mti_enabled (opts s) = false → commit s = Ok (tt, settled (jump s)).
Proof.
  intros Ho. unfold commit, update_pc. rewrite bind_modify.
  unfold interrupt_pending. rewrite bind_assoc, bind_gets. simpl.
  by rewrite Ho.
Qed.
End stepping.

(** ** The ALU handler *)

Section alu_handler.
Context `{CommonLaws} {P : Platform}.
Implicit Types (s : model).

Definition alu_operands (d : op) s : Z * Z :=
  (if use_pc d then cur_pc s else gpr s (rs1 d), if has_imm d then imm d else gpr s (rs2 d)).
Definition is_jump (a : alu) : bool := match a with _jal | _jalr => true | _ => false end.

Lemma alu_operands_u32 d s : wf_model s → wf_op d →
  is_u32 (alu_operands d s).1 ∧ is_u32 (alu_operands d s).2.
Proof.
  intros Hs Hd. pose proof (cur_pc_u32 s Hs). pose proof (gpr_u32 s (rs1 d) Hs).
  pose proof (gpr_u32 s (rs2 d) Hs). destruct Hd. simpl. by destruct (use_pc d), (has_imm d).
Qed.

Lemma alu_eq d a s r : wf_model s → wf_op d → dec (cur_state s) = d → opt d = op_alu a →
  do_alu a (alu_operands d s).1 (alu_operands d s).2 = Ok r →
  handle_alu s = Ok (tt,
    if is_jump a then goto r (put_gpr (rd d) (u32 (cur_pc s + length_of d)) s)
    else put_gpr (rd d) r s).
Proof.
  intros Hs Hd Hdec Ho Hr. pose proof Hd as [_ ? ? ? _].
  unfold handle_alu. rewrite bind_get_dec, Hdec, bind_get_pc, Ho. cbn [get_alu].
  rewrite (bind_ok _ _ s (alu_operands d s).1 s) by (simpl; destruct (use_pc d); [done | by apply read_gpr_eq]).
  rewrite (bind_ok _ _ s (alu_operands d s).2 s) by (simpl; destruct (has_imm d); [done | by apply read_gpr_eq]).
  rewrite bind_lift_ok, Hr, bind_lift_ok.
  destruct a; simpl is_jump; cbv iota; try (by apply write_gpr_eq); by rewrite bind_write_gpr.
Qed.
Lemma alu_fails d a s f : wf_model s → wf_op d → dec (cur_state s) = d → opt d = op_alu a →
  do_alu a (alu_operands d s).1 (alu_operands d s).2 = Fail f → handle_alu s = Fail f.
Proof.
  intros Hs Hd Hdec Ho Hr. pose proof Hd as [_ ? ? ? _].
  unfold handle_alu. rewrite bind_get_dec, Hdec, bind_get_pc, Ho. cbn [get_alu].
  rewrite (bind_ok _ _ s (alu_operands d s).1 s) by (simpl; destruct (use_pc d); [done | by apply read_gpr_eq]).
  rewrite (bind_ok _ _ s (alu_operands d s).2 s) by (simpl; destruct (has_imm d); [done | by apply read_gpr_eq]).
  rewrite bind_lift_ok, Hr. done.
Qed.
End alu_handler.
