(* ===== verification/Isa.v ===== *)
(** * Refinement of the base instruction set

    An abstract RV32IM machine: a program counter, a register function and a memory
    function, with one deterministic step.  It has no pages, no register file object,
    no staged changes and no C++ arithmetic.  [step] followed by [commit] of the
    simulator implements it: wherever the abstract machine has a step, the concrete
    hart makes the same one. *)

From S2P Require Export Exec.
From S2P Require RegFile.

(** ** The abstract machine *)

Record arch : Type := mk_arch { a_pc : Z; a_reg : Z → Z; a_mem : Z → Z }.

#[export] Instance alu_defined_dec opt x y : Decision (alu_defined opt x y).
Proof. destruct opt; simpl; apply _. Defined.
#[export] Instance rv_branch_dec b x y : Decision (rv_branch b x y).
Proof. destruct b; simpl; apply _. Defined.

Section isa.
Context `{Decoder}.
(** Where the ALU is promised to follow the reference; the executable ranges; the
    two timer registers. *)
Context (promised : alu → Z → Z → bool) (ranges : list (Z * Z)) (ta tc : Z).
Implicit Types (σ : arch).

(** Sign extension of an [n]-bit value to a word. *)
Definition sext (n v : Z) : Z := u32 (if v <? 2 ^ (n - 1) then v else v - 2 ^ n).

Definition set_reg (f : Z → Z) (i v : Z) : Z → Z := λ j,
  if (i =? j) && negb (i =? 0) then v else f j.

Definition off_timer (a : Z) : bool := negb (in_window ta a) && negb (in_window tc a).

Definition isa_load (f : Z → Z) (l : masks.load) (a : Z) : option Z :=
  match l with
  | masks.lb => if off_timer a then Some (sext 8 (f a)) else None
  | masks.lbu => if off_timer a then Some (f a) else None
  | masks.lh => Some (sext 16 (le_value f a 2))
  | masks.lhu => Some (le_value f a 2)
  | masks.lw => Some (le_value f a 4)
  | masks.load_unnamed _ => None
  end.

Definition isa_store (f : Z → Z) (t : masks.store) (a v : Z) : option (Z → Z) :=
  match t with
  | masks.sb => if off_timer a then Some (overlay f a 1 v) else None
  | masks.sh => Some (overlay f a 2 v)
  | masks.sw => Some (overlay f a 4 v)
  | masks.store_unnamed _ => None
  end.

(** An instruction that is not taken elsewhere goes on at [next]; a jump links the address
    after it. *)
Definition link_of (d : op) σ : Z := u32 (a_pc σ + (if is_compressed d then 2 else 4)).
Definition isa_alu (d : op) (a : alu) (next : Z) σ : option arch :=
  let x := if use_pc d then a_pc σ else a_reg σ (rs1 d) in
  let y := if has_imm d then imm d else a_reg σ (rs2 d) in
  if promised a x y then
    Some match a with
    | _jal | _jalr => mk_arch (rv_alu a x y) (set_reg (a_reg σ) (rd d) (link_of d σ)) (a_mem σ)
    | _ => mk_arch next (set_reg (a_reg σ) (rd d) (rv_alu a x y)) (a_mem σ)
    end
  else None.

Definition isa_exec_to (d : op) (next : Z) σ : option arch :=
  let x := a_reg σ (rs1 d) in
  let y := a_reg σ (rs2 d) in
  match tgt d, opt d with
  | target.alu, op_alu a => isa_alu d a next σ
  | target.load, op_load l =>
      v ← isa_load (a_mem σ) l (u32 (x + imm d));
      Some (mk_arch next (set_reg (a_reg σ) (rd d) v) (a_mem σ))
  | target.store, op_store t =>
      f ← isa_store (a_mem σ) t (u32 (x + imm d)) y;
      Some (mk_arch next (a_reg σ) f)
  | target.branch, op_branch b =>
      Some (mk_arch (if decide (rv_branch b x y) then u32 (a_pc σ + imm d) else next)
              (a_reg σ) (a_mem σ))
  | _, _ => None
  end.
Definition isa_exec (d : op) σ : option arch := isa_exec_to d (link_of d σ) σ.

Definition isa_decode (f : Z → Z) (v : Z) : op :=
  let w := le_value f v 4 in if is_compressed_word w then decode16 w else decode w.

Definition isa_step σ : option arch :=
  if is_address_initialized ranges (a_pc σ) then isa_exec (isa_decode (a_mem σ) (a_pc σ)) σ
  else None.

(** The exit protocol, for a tohost word at [th]: an environment call with 93 in register
    17 exits with register 10, a store to the word with what the word then holds. *)
Definition isa_exit (th : Z) (d : op) σ : option Z :=
  match tgt d, opt d with
  | target.ecall, _ => if a_reg σ 17 =? 93 then Some (a_reg σ 10) else None
  | target.store, op_store t =>
      let a := u32 (a_reg σ (rs1 d) + imm d) in
      if a =? th then f ← isa_store (a_mem σ) t a (a_reg σ (rs2 d)); Some (le_value f th 4) else None
  | _, _ => None
  end.

(** The reference interpreter: at most [n] instructions to an exit code. *)
Fixpoint isa_run (th : Z) (n : nat) σ : option Z :=
  match n with
  | O => None
  | S n =>
      if is_address_initialized ranges (a_pc σ) then
        match isa_exit th (isa_decode (a_mem σ) (a_pc σ)) σ with
        | Some code => Some code
        | None => σ' ← isa_step σ; isa_run th n σ'
        end
      else None
  end.

Fixpoint isa_steps (n : nat) σ : option arch :=
  match n with O => Some σ | S n => σ' ← isa_step σ; isa_steps n σ' end.
End isa.

(** ** The interface to the arithmetic

    What the refinement asks of [do_alu]: that it follows the reference on the
    operands [promised] accepts.  Every platform promises the defined operands, a
    wrapping one promises all. *)
Class Arithmetic (P : Platform) `{CommonLib} (promised : alu → Z → Z → bool) := {
  promise opt x y : is_u32 x → is_u32 y → alu_named opt = true → promised opt x y = true →
    do_alu opt x y = Ok (rv_alu opt x y)
}.

Definition promise_defined (opt : alu) (x y : Z) : bool := bool_decide (alu_defined opt x y).
Definition promise_all (_ : alu) (_ _ : Z) : bool := true.

#[export] Instance arithmetic_defined (P : Platform) `{CommonLaws} : Arithmetic P promise_defined.
Proof. split. intros opt x y Hx Hy Hn Hd%bool_decide_eq_true. by apply do_alu_defined. Qed.
#[export] Instance arithmetic_wrapping `{CommonLaws} : Arithmetic wrapping promise_all.
Proof. split. intros. by apply do_alu_wraps. Qed.

(** An exact promise: where there is none, there is no result either. *)
Class ExactArithmetic (P : Platform) `{CommonLib} (promised : alu → Z → Z → bool) := {
  exact_promise :: Arithmetic P promised;
  refuse opt x y : is_u32 x → is_u32 y → alu_named opt = true → promised opt x y = false →
    ∃ f, do_alu opt x y = Fail f
}.
#[export] Instance arithmetic_strict `{CommonLaws} : ExactArithmetic strict promise_defined.
Proof.
  split; [apply _|]. intros opt x y Hx Hy Hn Hd%bool_decide_eq_false.
  destruct (do_alu opt x y) as [r|f] eqn:Hr; [|by exists f]. destruct Hd. apply do_alu_strict; eauto.
Qed.
#[export] Instance arithmetic_exact_wrapping `{CommonLaws} : ExactArithmetic wrapping promise_all.
Proof. by split; [apply _|]. Qed.

(** ** Simulation *)

Section refinement.
Context {P : Platform} {C : CommonLib} {L : CommonLaws} {D : Decoder} {DO : DecoderOk}.
Context {promised : alu → Z → Z → bool} {AR : Arithmetic P promised}.
Implicit Types (s : model) (σ τ : arch).

(** [s] with program counter [v] shows the architectural state [σ]. *)
Record shows s (v : Z) σ : Prop := {
  shows_pc : a_pc σ = v;
  shows_reg i : 0 ≤ i < 32 → a_reg σ i = gpr s i;
  shows_mem a : is_u32 a → a_mem σ a = byte (pages (mem s)) a
}.
(** What base instructions leave alone. *)
Definition timers s : list Z * list Z := (mtime (mem s), mtimecmp (mem s)).
Definition untouched s s' : Prop :=
  csrf s' = csrf s ∧ mode s' = mode s ∧ timers s' = timers s ∧ fixed s' = fixed s.

(** A handler is about to run [d] from [σ]. *)
Record ready (d : op) s σ : Prop := {
  ready_wf : wf_model s;
  ready_op : wf_op d;
  ready_dec : dec (cur_state s) = d;
  ready_shows : shows s (cur_pc s) σ;
  ready_next : is_u32 (next_pc s)
}.
Definition reaches (done : bool) s s' τ : Prop :=
  is_done s' = done ∧ wf_model s' ∧ is_u32 (next_pc s') ∧ shows s' (next_pc s') τ ∧ untouched s s'.

Lemma shows_put_gpr s v σ i w :
  wf_model s → 0 ≤ i < 32 → shows s v σ →
  shows (put_gpr i w s) v (mk_arch (a_pc σ) (set_reg (a_reg σ) i w) (a_mem σ)).
Proof.
  intros Hs Hi [Hpc Hreg Hmem]. split; simpl; [done | | done]. intros j Hj.
  rewrite gpr_put_gpr by done. unfold set_reg. by rewrite Hreg.
Qed.
Lemma shows_read s v σ a n : is_u32 a → shows s v σ →
  le_value (a_mem σ) a n = le_value (byte (pages (mem s))) a n.
Proof. intros Ha Hs. apply le_value_ext; [|done]. intros. apply Hs, u32_range. Qed.

Lemma write_result s σ d w :
  ready d s σ → is_u32 w →
  reaches (is_done s) s (put_gpr (rd d) w s) (mk_arch (next_pc s) (set_reg (a_reg σ) (rd d) w) (a_mem σ)).
Proof.
  intros [Hs Hd _ Hsh Hn] Hw. pose proof (wf_rd _ Hd).
  split; [done|]. split; [by apply wf_put_gpr|]. split; [exact Hn|].
  split; [|done]. destruct (shows_put_gpr s (cur_pc s) σ (rd d) w Hs) as [_ ??]; [done..|].
  by split.
Qed.

Lemma alu_refines d a s σ τ :
  ready d s σ → opt d = op_alu a → alu_named a = true →
  isa_alu promised d a (next_pc s) σ = Some τ →
  ∃ s', handle_alu s = Ok (tt, s') ∧ reaches (is_done s) s s' τ.
Proof.
  intros Hr Ho Ha. pose proof Hr as [Hs Hd Hdec Hsh Hn]. destruct Hsh as [Hpc Hreg _].
  pose proof Hd as [Himm Hrd Hrs1 Hrs2 _].
  unfold isa_alu. rewrite !Hreg, Hpc by done.
  pose proof (alu_operands_u32 d s Hs Hd) as [Hx Hy]. pose proof (alu_eq d a s) as Heq.
  change (if use_pc d then cur_pc s else gpr s (rs1 d)) with (alu_operands d s).1.
  change (if has_imm d then imm d else gpr s (rs2 d)) with (alu_operands d s).2.
  set (x := (alu_operands d s).1) in *. set (y := (alu_operands d s).2) in *.
  destruct (promised a x y) eqn:Hp; [|done]. intros Hτ. injection Hτ as <-.
  rewrite (Heq (rv_alu a x y)) by (done || by apply promise).
  replace (u32 (cur_pc s + length_of d)) with (link_of d σ) by (unfold link_of; by rewrite Hpc).
  assert (is_u32 (rv_alu a x y)) by (by apply rv_alu_range).
  pose proof (write_result s σ d (rv_alu a x y) Hr ltac:(done)).
  destruct (write_result s σ d (link_of d σ) Hr (u32_range _)) as (? & ? & ? & [_ ??] & ?).
  eexists. split; [reflexivity|].
  destruct a; simpl is_jump; cbv iota; try done.
  all: split; [done|]; split; [by apply wf_goto | rewrite next_pc_goto; split; [done | by split]].
Qed.

Lemma sext_shift n v : 0 < n < 32 → 0 ≤ v < 2 ^ n →
  u32 (Z.shiftr (s32 (Z.shiftl v (32 - n))) (32 - n)) = sext n v.
Proof.
  intros Hn Hv. rewrite Z.shiftr_div_pow2, Z.shiftl_mul_pow2 by lia. unfold sext. f_equal.
  assert (2 ^ 32 = 2 ^ n * 2 ^ (32 - n)) as H32 by (rewrite <-Z.pow_add_r by lia; f_equal; lia).
  assert (2 ^ n = 2 * 2 ^ (n - 1)) as Hn1 by (rewrite <-Z.pow_succ_r by lia; f_equal; lia).
  assert (0 < 2 ^ (32 - n)) by (apply Z.pow_pos_nonneg; lia).
  assert (2 ^ 31 = 2 ^ (n - 1) * 2 ^ (32 - n)) as H31 by (rewrite <-Z.pow_add_r by lia; f_equal; lia).
  unfold s32. rewrite u32_small by nia. destruct (Z.ltb_spec v (2 ^ (n - 1))).
  - rewrite (proj2 (Z.ltb_lt _ _)) by nia. by rewrite Z.div_mul by lia.
  - rewrite (proj2 (Z.ltb_ge _ _)) by nia.
    rewrite H32, <-Z.mul_sub_distr_r. by rewrite Z.div_mul by lia.
Qed.
Lemma sext_u32 n v : is_u32 (sext n v).
Proof. apply u32_range. Qed.

Lemma off_timer_byte s a : off_timer (mtime_addr (mem s)) (mtimecmp_addr (mem s)) a = true →
  router_byte (mem s) a = byte (pages (mem s)) a.
Proof.
  unfold off_timer, router_byte. by destruct (in_window _ a), (in_window _ a).
Qed.

Abbreviation ta s := (mtime_addr (mem s)).
Abbreviation tc s := (mtimecmp_addr (mem s)).

Lemma load_refines d l s σ v :
  ready d s σ → opt d = op_load l →
  isa_load (ta s) (tc s) (a_mem σ) l (u32 (a_reg σ (rs1 d) + imm d)) = Some v →
  load s = Ok (v, s) ∧ is_u32 v.
Proof.
  intros [Hs Hd Hdec Hsh _] Ho. pose proof Hsh as [_ Hreg Hmem]. pose proof Hd as [Himm _ Hrs1 _ _].
  unfold load. rewrite bind_get_dec, Hdec. rewrite bind_read_gpr, Ho by done. cbn [get_load].
  rewrite bind_lift_ok, Hreg by done. set (a := u32 (gpr s (rs1 d) + imm d)).
  assert (is_u32 a) as Ha by apply u32_range. assert (wf_router (mem s)) as Hr by apply Hs.
  pose proof (le_value_range a (pages (mem s)) 2 (r_pages _ Hr) Ha) as H2.
  change (8 * Z.of_nat 2) with 16 in H2. change (view (pages (mem s))) with (byte (pages (mem s))) in H2.
  assert (∀ rd w, rd (mem s) = Ok w → mem_read rd s = Ok (w, s)) as Hrd.
  { intros rd w Hw. unfold mem_read. rewrite bind_gets. by rewrite Hw. }
  assert (off_timer (ta s) (tc s) a = true → router_read8 a (mem s) = Ok (byte (pages (mem s)) a)) as H8.
  { intros Hoff. rewrite router_read8_byte by done. by rewrite off_timer_byte. }
  pose proof (byte_u8 (pages (mem s)) a (r_pages _ Hr) Ha).
  destruct l; cbn [isa_load]; rewrite ?(shows_read s (cur_pc s) σ), ?Hmem by done;
    try (destruct (off_timer _ _ a); [|done]); intros Hv; simplify_eq.
  - rewrite (bind_ok _ _ _ _ _ (Hrd _ _ (H8 eq_refl))).
    split; [|apply sext_u32]. by rewrite (sext_shift 8).
  - rewrite (bind_ok _ _ _ _ _ (Hrd _ _ (router_read16_ok _ _ Hr Ha))).
    split; [|apply sext_u32]. by rewrite (sext_shift 16).
  - split; [by apply Hrd, router_read32_ok | by apply le_value_u32].
  - split; [by apply Hrd, H8 | lia].
  - split; [by apply Hrd, router_read16_ok | lia].
Qed.

Lemma handle_load_refines d l s σ v :
  ready d s σ → opt d = op_load l →
  isa_load (ta s) (tc s) (a_mem σ) l (u32 (a_reg σ (rs1 d) + imm d)) = Some v →
  ∃ s', handle_load s = Ok (tt, s') ∧
    reaches (is_done s) s s' (mk_arch (next_pc s) (set_reg (a_reg σ) (rd d) v) (a_mem σ)).
Proof.
  intros Hr Ho Hv. destruct (load_refines d l s σ v Hr Ho Hv) as [Hl Hu].
  exists (put_gpr (rd d) v s). split; [|by apply write_result].
  unfold handle_load. rewrite bind_get_dec, (bind_ok _ _ _ _ _ Hl), (ready_dec _ _ _ Hr).
  apply write_gpr_eq; [apply Hr | apply Hr].
Qed.

(** A store of [n] bytes through the router. *)
Lemma shows_store s v σ m' a n w :
  shows s v σ → (∀ a', is_u32 a' → byte m' a' = overlay (byte (pages (mem s))) a n w a') →
  shows (with_mem (with_pages m' (mem s)) s) v (mk_arch (a_pc σ) (a_reg σ) (overlay (a_mem σ) a n w)).
Proof.
  intros [Hpc Hreg Hmem] Hm'. split; simpl; [done..|]. intros a' Ha'.
  rewrite Hm' by done. by apply overlay_ext, Hmem.
Qed.

Lemma overlay_low f a n w m k : 0 ≤ n → w mod 2 ^ (8 * n) = k → overlay f a n k m = overlay f a n w m.
Proof. intros Hn <-. apply overlay_mod. Qed.

Lemma store_refines d t s σ f :
  ready d s σ → opt d = op_store t →
  isa_store (ta s) (tc s) (a_mem σ) t (u32 (a_reg σ (rs1 d) + imm d)) (a_reg σ (rs2 d)) = Some f →
  ∃ s', store s = Ok (tt, s') ∧
    reaches (u32 (a_reg σ (rs1 d) + imm d) =? tohost_addr s) s s' (mk_arch (next_pc s) (a_reg σ) f).
Proof.
  intros [Hs Hd Hdec Hsh Hn] Ho. pose proof Hsh as [_ Hreg Hmem]. pose proof Hd as [Himm _ Hrs1 Hrs2 _].
  unfold store. rewrite bind_get_dec, Hdec. rewrite bind_read_gpr, Ho by done. cbn [get_store].
  rewrite bind_lift_ok, !Hreg by done. set (a := u32 (gpr s (rs1 d) + imm d)).
  assert (is_u32 a) as Ha by apply u32_range. assert (wf_router (mem s)) as Hr by apply Hs.
  pose proof (gpr_u32 s (rs2 d) Hs) as Hv. set (v := gpr s (rs2 d)) in *.
  assert (∀ n m' (w : stateM model unit),
    w s = Ok (tt, with_mem (with_pages m' (mem s)) s) → wf_router (with_pages m' (mem s)) →
    (∀ a', is_u32 a' → byte m' a' = overlay (byte (pages (mem s))) a n v a') →
    ∃ s', (w;; h ← gets tohost_addr; modify (with_done (a =? h))) s = Ok (tt, s') ∧
      reaches (a =? tohost_addr s) s s' (mk_arch (next_pc s) (a_reg σ) (overlay (a_mem σ) a n v))) as Hw.
  { intros n m' w Hw Hr' Hm'. rewrite (bind_ok _ _ _ _ _ Hw). eexists. split; [reflexivity|].
    split; [done|]. destruct (shows_store s (cur_pc s) σ m' a n v Hsh Hm') as [_ ? Hm].
    split; [destruct Hs; by split|]. split; [exact Hn|].
    split; [by split | done]. }
  destruct t; cbn [isa_store]; try (destruct (off_timer _ _ a) eqn:Hoff; [|done]); intros Hf;
    simplify_eq.
  - assert (router_write8 a (u8 v) (mem s) = on_pages (write8 a (u8 v)) (mem s)) as Hw8.
    { unfold router_write8, on_pages. unfold off_timer in Hoff.
      by destruct (in_window (ta s) a), (in_window (tc s) a). }
    destruct (on_pages_stores (write8 a (u8 v)) (mem s) a 1 (u8 v) Hr) as (m' & Hok & ? & Hm').
    { apply write8_stores; [apply Hr | done | apply u8_range]. }
    apply (Hw 1 m'); [|done|].
    + rewrite bind_read_gpr by done. unfold mem_write. fold v. rewrite Hw8, Hok. done.
    + intros a' Ha'. rewrite Hm' by done. by apply overlay_low.
  - destruct (router_write16_ok (mem s) a (u16 v) Hr Ha (u16_range _)) as (m' & Hok & ? & Hm').
    apply (Hw 2 m'); [|done|].
    + rewrite bind_read_gpr by done. unfold mem_write. fold v. rewrite Hok. done.
    + intros a' Ha'. rewrite Hm' by done. by apply overlay_low.
  - destruct (router_write32_ok (mem s) a v Hr Ha Hv) as (m' & Hok & ? & Hm').
    apply (Hw 4 m'); [|done|done].
    rewrite bind_read_gpr by done. unfold mem_write. fold v. rewrite Hok. done.
Qed.

Lemma branch_refines d b s σ :
  ready d s σ → opt d = op_branch b → (∀ v, b ≠ masks.branch_unnamed v) →
  ∃ s', handle_branch s = Ok (tt, s') ∧
    reaches (is_done s) s s' (mk_arch (if decide (rv_branch b (a_reg σ (rs1 d)) (a_reg σ (rs2 d)))
                           then u32 (a_pc σ + imm d) else next_pc s) (a_reg σ) (a_mem σ)).
Proof.
  intros [Hs Hd Hdec Hsh Hn] Ho Hb. pose proof Hsh as [Hpc Hreg Hmem].
  pose proof Hd as [Himm _ Hrs1 Hrs2 _].
  unfold handle_branch. rewrite bind_get_dec, Hdec. rewrite !bind_read_gpr, Ho by done.
  cbn [get_branch]. rewrite bind_lift_ok, !Hreg, Hpc by done.
  destruct (branch_ok b (gpr s (rs1 d)) (gpr s (rs2 d))) as (r & -> & Hr); [done|].
  rewrite bind_lift_ok. destruct r.
  - rewrite decide_True by (by apply Hr). rewrite bind_get_pc. eexists (goto _ s).
    split; [reflexivity|]. split; [done|]. split; [by apply wf_goto|]. rewrite next_pc_goto, (Z.add_comm (imm d)).
    split; [apply u32_range|]. split; [by split | done].
  - rewrite decide_False by (intros Hrv%Hr; done). exists s. split; [done|].
    split; [done|]. split; [done|]. split; [done|]. split; [by split | done].
Qed.

(** [is_done] after an instruction: a store decides it. *)
Definition done_after (d : op) (th : Z) σ (done : bool) : bool :=
  match tgt d with target.store => u32 (a_reg σ (rs1 d) + imm d) =? th | _ => done end.

Lemma exec_refines d s σ τ :
  ready d s σ → isa_exec_to promised (ta s) (tc s) d (next_pc s) σ = Some τ →
  ∃ s', exec s = Ok (tt, s') ∧ reaches (done_after d (tohost_addr s) σ (is_done s)) s s' τ.
Proof.
  intros Hr. pose proof (ready_op _ _ _ Hr) as Hd. unfold exec, isa_exec_to, done_after.
  rewrite bind_get_dec, (ready_dec _ _ _ Hr).
  apply (opt_cases d Hd).
  - intros a -> Ho Ha. rewrite Ho. by apply alu_refines.
  - intros l -> Ho _. rewrite Ho. intros Hτ.
    apply bind_Some in Hτ as (v & Hv & [= <-]). by apply (handle_load_refines d l).
  - intros t -> Ho _. rewrite Ho. intros Hτ. apply bind_Some in Hτ as (f & Hf & [= <-]).
    destruct (store_refines d t s σ f Hr Ho Hf) as (s' & ? & ?). eauto.
  - intros b -> Ho Hb. rewrite Ho. intros [= <-]. by apply branch_refines.
  - by intros c -> Ho.
  - by destruct (tgt d).
Qed.

Lemma begun_ready s σ : wf_model s → shows s (cur_pc s) σ →
  ready (fetched_op s) (begun s) σ ∧ isa_decode (a_mem σ) (a_pc σ) = fetched_op s ∧
  next_pc (begun s) = link_of (fetched_op s) σ.
Proof.
  intros Hs Hsh. pose proof (begun_spec s Hs) as (Hwf & Hpc & Hn & Hdec).
  pose proof Hsh as [Hσ Hreg Hmem]. split; [|split].
  - split; [done | by apply fetched_op_wf | done | by rewrite Hpc | rewrite Hn; apply u32_range].
  - unfold isa_decode. rewrite Hσ, (shows_read s (cur_pc s) σ) by (done || by apply cur_pc_u32). done.
  - rewrite Hn. unfold link_of. by rewrite Hσ.
Qed.

Lemma step_simulates s σ τ :
  wf_model s → shows s (cur_pc s) σ →
  isa_step promised (allowed_pcs s) (ta s) (tc s) σ = Some τ →
  ∃ s', step s = Ok (tt, s') ∧
    reaches (done_after (isa_decode (a_mem σ) (a_pc σ)) (tohost_addr s) σ (is_done s)) s s' τ.
Proof.
  intros Hs Hsh. destruct (begun_ready s σ Hs Hsh) as (Hr & Hdec & Hn).
  unfold isa_step. rewrite !Hdec, (shows_pc _ _ _ Hsh), step_eq by done. unfold is_valid_pc.
  destruct (is_address_initialized (allowed_pcs s) (cur_pc s)); [|done].
  unfold isa_exec. rewrite <-Hn. intros Hτ. exact (exec_refines (fetched_op s) (begun s) σ τ Hr Hτ).
Qed.

(** A cycle: [step], then [commit]. *)
Definition tick : stateM model unit := step;; commit.
Fixpoint ticks (n : nat) : stateM model unit :=
  match n with O => skip | S n => tick;; ticks n end.

Lemma tick_simulates s σ τ :
  at_rest s → mti_enabled (opts s) = false → shows s (cur_pc s) σ →
  isa_step promised (allowed_pcs s) (ta s) (tc s) σ = Some τ →
  ∃ s', tick s = Ok (tt, s') ∧ at_rest s' ∧ shows s' (cur_pc s') τ ∧ untouched s s' ∧
    is_done s' = done_after (isa_decode (a_mem σ) (a_pc σ)) (tohost_addr s) σ (is_done s).
Proof.
  intros (Hs & _) Ho Hsh Hτ.
  destruct (step_simulates s σ τ Hs Hsh Hτ) as (s1 & Hstep & Hdone & Hwf & Hn & Hsh1 & Hu).
  exists (settled (jump s1)). unfold tick. rewrite (bind_ok _ _ _ _ _ Hstep), commit_eq.
  - split; [done|]. split; [|split; [|done]].
    + split; [|done]. by apply (wf_jump s1) in Hwf as [].
    + destruct Hsh1. by split.
  - destruct Hu as (_ & _ & _ & Hf). unfold fixed in Hf. congruence.
Qed.
End refinement.

(** ** Properties *)

(** C7: The simulator refines the abstract RV32IM machine, for any number of
    cycles.  Take a hart at rest whose program counter, registers and memory show
    the abstract state [σ], with the timer off.  If the abstract machine makes [n]
    steps to [τ], then [n] cycles of [step] and [commit] succeed and end in a
    well-formed hart at rest that shows [τ], with CSRs, mode, timer registers and configuration
    unchanged.  This covers every ALU operation, jump, load, store and branch, in
    both encodings, including code that modifies itself; the abstract machine stops
    at system instructions, at an address outside the executable ranges, at a byte
    access to a timer register and where the arithmetic makes no promise. *)
Theorem simulator_refines_isa {P : Platform} {C : CommonLib} {L : CommonLaws} {D : Decoder}
    {DO : DecoderOk} {promised} {AR : Arithmetic P promised} n (s : model) σ τ :
  at_rest s → mti_enabled (opts s) = false → shows s (cur_pc s) σ →
  isa_steps promised (allowed_pcs s) (mtime_addr (mem s)) (mtimecmp_addr (mem s)) n σ = Some τ →
  ∃ s', ticks n s = Ok (tt, s') ∧
    at_rest s' ∧ shows s' (cur_pc s') τ ∧ untouched s s'.
Proof.
  intros Hs Ho Hsh. revert s σ Hs Ho Hsh. induction n as [|n IH]; intros s σ Hs Ho Hsh; simpl.
  - intros [= <-]. exists s. done.
  - intros Hτ. apply bind_Some in Hτ as (σ' & Hσ & Hτ). cbv beta in Hτ.
    destruct (tick_simulates s σ σ' Hs Ho Hsh Hσ) as (s1 & Ht & Hs1 & Hsh1 & (Hcsr & Hmode & Htm & Hf) & _).
    rewrite (bind_ok _ _ _ _ _ Ht). pose proof Hf as Hfx. injection Hf as Ha Hop _ Hta Htc.
    destruct (IH s1 σ') as (s' & Hrun & ? & ? & ? & ? & ? & ?); [done | congruence | done | congruence |].
    exists s'. split; [done|]. split; [done|]. split; [done|]. split_and!; congruence.
Qed.

(** ** Witnesses *)

Section witnesses.
#[local] Existing Instances wrapping ref_common ref_decoder.

(** The abstract state of the sample hart: [addi x1, x0, 5] moves to 0x1004 with 5
    in register 1. *)
Definition sample_arch : arch :=
  mk_arch 0x1000 (gpr (sample_model sample_program))
    (byte (pages (mem (sample_model sample_program)))).

Lemma simulator_refines_isa_witness :
  ∃ s', ticks 1 (sample_model sample_program) = Ok (tt, s') ∧
    cur_pc s' = 0x1004 ∧ gpr s' 1 = 5.
Proof.
  destruct (simulator_refines_isa (promised := promise_all) 1 (sample_model sample_program) sample_arch
    (mk_arch 0x1004 (set_reg (a_reg sample_arch) 1 5) (a_mem sample_arch)))
    as (s' & Hrun & _ & [Hpc Hreg _] & _).
  - apply sample_at_rest, sample_program_u32.
  - done.
  - by split.
  - assert (isa_decode (a_mem sample_arch) (a_pc sample_arch) = ref_decode false 0x00500093) as Hd
      by (vm_compute; reflexivity).
    unfold isa_steps, isa_step. rewrite Hd. reflexivity.
  - exists s'. split; [exact Hrun|]. split; [by rewrite <-Hpc | by rewrite <-Hreg by lia].
Defined.
End witnesses.
