(* ===== verification/Traps.v ===== *)
(** * Traps, interrupts and system instructions

    What the trap sequence, the timer interrupt, [mret], the CSR operations and the
    exit protocol do to the state, on every branch. *)

From S2P Require Export Exec.
From S2P Require RegFile.

(** ** Lemmas *)

Section lemmas.
Context `{CommonLaws}.
Implicit Types (s : model) (c : trap_cause).

Lemma word_align_val v : is_u32 v → word_align v = 4 * (v / 4).
Proof.
  intros Hv. unfold word_align. rewrite base_addr_val.
  exact (land_high_mask v 2 Hv ltac:(lia)).
Qed.

Lemma epc_of_val c v : is_u32 v →
  epc_of c v = if is_ecall c || bool_decide (c = exp_breakpoint) then 4 * (v / 4)
               else u32 (4 * (v / 4) + 4).
Proof.
  intros Hv. unfold epc_of. rewrite !word_align_val by (apply u32_range || done).
  destruct (_ || _); [done | word].
Qed.
Lemma epc_of_int c v : is_u32 v → is_int c = true → epc_of c v = u32 (4 * (v / 4) + 4).
Proof. intros Hv Hc. rewrite epc_of_val by done. by destruct c. Qed.

(** The trap registers of the mode are pairwise different. *)
Lemma saved_registers c e s : wf_model s →
  csrv (saved c e s) (mcsr s ucause) = trap_cause_val c ∧
  csrv (saved c e s) (mcsr s utval) = 0 ∧
  csrv (saved c e s) (mcsr s uepc) = epc_of c (cur_pc s) ∧
  ∀ a, a ≠ mcsr s ucause → a ≠ mcsr s utval → a ≠ mcsr s uepc →
    csrv (saved c e s) a = csrv s a.
Proof.
  intros Hs. split_and!; [.. | intros a Hc Ht Hp]; rewrite csrv_saved by done.
  - by rewrite !(mcsr_ne s ucause), Z.eqb_refl by done.
  - by rewrite (mcsr_ne s utval uepc), Z.eqb_refl by done.
  - by rewrite Z.eqb_refl.
  - by rewrite !(proj2 (Z.eqb_neq _ _)) by done.
Qed.

Lemma mcsr_mod s (c : csr) : wf_model s → csr_val c < 256 → mcsr s c mod 256 = csr_val c.
Proof.
  intros Hs Hc. rewrite mcsr_val by done. pose proof (csr_val_range c).
  rewrite Z.add_comm, Z.mul_comm, Z.mod_add by lia. apply Z.mod_small. lia.
Qed.
(** The machine's interrupt registers are not among them. *)
Lemma saved_other c e s r : wf_model s →
  (csr_val r mod 256 =? csr_val uepc) || (csr_val r mod 256 =? csr_val utval)
    || (csr_val r mod 256 =? csr_val ucause) = false →
  csrv (saved c e s) (csr_val r) = csrv s (csr_val r).
Proof.
  intros Hs [[Hp%Z.eqb_neq Ht%Z.eqb_neq]%orb_false_iff Hc%Z.eqb_neq]%orb_false_iff.
  destruct (saved_registers c e s Hs) as (_ & _ & _ & Hrest).
  apply Hrest; intros Heq; rewrite Heq, mcsr_mod in *; done.
Qed.

Lemma bit_assign_spec b i v j : 0 ≤ i → 0 ≤ j →
  Z.testbit (bit_assign b i v) j = if j =? i then v else Z.testbit b j.
Proof.
  intros Hi Hj. unfold bit_assign. destruct v, (Z.eqb_spec j i) as [->|].
  - by apply Z.setbit_eq.
  - by apply Z.setbit_neq.
  - by apply Z.clearbit_eq.
  - by apply Z.clearbit_neq.
Qed.

Lemma mstatus_on_entry_bit v j : 0 ≤ j →
  Z.testbit (mstatus_on_entry v) j =
    if j =? status.mie then false
    else if j =? status.mpie then Z.testbit v status.mie
    else if (j =? status.mpp) || (j =? status.mpp + 1) then true
    else Z.testbit v j.
Proof.
  intros Hj. unfold mstatus_on_entry.
  change (Z.setbit v status.mpp) with (bit_assign v status.mpp true).
  change (Z.setbit ?x (status.mpp + 1)) with (bit_assign x (status.mpp + 1) true).
  rewrite !bit_assign_spec by (done || by vm_compute).
  destruct (j =? status.mie), (j =? status.mpie); try done.
  change (status.mie =? status.mpp + 1) with false. change (status.mie =? status.mpp) with false.
  by destruct (j =? status.mpp), (j =? status.mpp + 1).
Qed.
End lemmas.

(** ** The exit protocol *)

Section exit.
Context `{CommonLaws} `{Decoder}.
Implicit Types (s : model).

Definition exits s : bool := gpr s 17 =? 93.

Lemma sys_exit_eq s : wf_model s →
  if exits s then
    ∃ m', handle_sys_exit s = Ok (tt, with_done true (with_mem (with_pages m' (mem s)) s)) ∧
      wf_router (with_pages m' (mem s)) ∧
      ∀ a, is_u32 a → byte m' a = overlay (byte (pages (mem s))) (tohost_addr s) 4 (gpr s 10) a
  else handle_sys_exit s = Ok (tt, s).
Proof.
  intros Hs. unfold exits, handle_sys_exit. rewrite bind_read_gpr by (done || lia).
  destruct (gpr s 17 =? 93); [|done].
  rewrite bind_read_gpr by (done || lia). rewrite bind_gets.
  destruct (router_write32_ok (mem s) (tohost_addr s) (gpr s 10)) as (m' & Hw & ? & ?);
    [apply Hs | apply Hs | by apply gpr_u32 |].
  exists m'. split; [|done]. unfold mem_write.
  rewrite (bind_ok _ _ s tt (with_mem (with_pages m' (mem s)) s)) by (by rewrite Hw). done.
Qed.

(** Reading back a stored word. *)
Lemma overlay_read f g a w : is_u32 a → is_u32 w →
  (∀ a', is_u32 a' → g a' = overlay f a 4 w a') → le_value g a 4 = w.
Proof.
  intros Ha Hw Hg. rewrite (le_value_bytes g a 4 w); [by apply Z.mod_small | done | lia |].
  intros i Hi. rewrite Hg by apply u32_range. unfold overlay.
  replace (u32 (u32 (a + i) - a)) with i by word. by rewrite (proj2 (Z.ltb_lt _ _)) by lia.
Qed.
Lemma tohost_eq s : wf_model s → tohost s = Ok (le_value (byte (pages (mem s))) (tohost_addr s) 4, s).
Proof.
  intros Hs. unfold tohost. rewrite bind_gets. unfold mem_read. rewrite bind_gets.
  by rewrite router_read32_ok by apply Hs.
Qed.

Lemma exit_outcome s : wf_model s →
  ∃ s', handle_sys_exit s = Ok (tt, s') ∧ next_pc s' = next_pc s ∧ csrf s' = csrf s ∧
    if gpr s 17 =? 93 then done_ s' = true ∧ tohost s' = Ok (gpr s 10, s')
    else done_ s' = done_ s ∧ mem s' = mem s.
Proof.
  intros Hs. pose proof (sys_exit_eq s Hs) as Hx. unfold exits in Hx.
  destruct (gpr s 17 =? 93); [|by exists s].
  destruct Hx as (m' & Hx & Hr & Hm). eexists. split; [exact Hx|]. do 3 (split; [done|]).
  rewrite tohost_eq by (destruct Hs; by split). do 2 f_equal.
  eapply overlay_read; [apply Hs | by apply gpr_u32 | exact Hm].
Qed.
End exit.

(** ** [mret] *)

Section mret.
Context `{CommonLaws} `{Decoder}.
Implicit Types (s : model).

Definition mstatus_on_return (v : Z) : Z :=
  let v := bit_assign v status.mie (Z.testbit v status.mpie) in
  let v := bit_assign v status.mpie true in
  let v := bit_assign v status.mpp true in
  bit_assign v (status.mpp + 1) true.
Definition previous_privilege (v : Z) : privilege :=
  privilege_of (2 * Z.b2z (Z.testbit v (status.mpp + 1)) + Z.b2z (Z.testbit v status.mpp)).

Lemma previous_privilege_val v :
  previous_privilege v = privilege_of (v / 2 ^ status.mpp mod 4).
Proof.
  unfold previous_privilege. f_equal. rewrite !Z.testbit_spec' by (by vm_compute).
  change (2 ^ (status.mpp + 1)) with (2 ^ status.mpp * 2). rewrite <-Z.div_div by done.
  generalize (v / 2 ^ status.mpp). intros x. Z.to_euclidean_division_equations. lia.
Qed.

Lemma mstatus_on_return_bit v j : 0 ≤ j →
  Z.testbit (mstatus_on_return v) j =
    if j =? status.mie then Z.testbit v status.mpie
    else if (j =? status.mpie) || (j =? status.mpp) || (j =? status.mpp + 1) then true
    else Z.testbit v j.
Proof.
  intros Hj. unfold mstatus_on_return. rewrite !bit_assign_spec by (done || by vm_compute).
  destruct (Z.eqb_spec j status.mie) as [->|]; [done|].
  by destruct (j =? status.mpie), (j =? status.mpp), (j =? status.mpp + 1).
Qed.
Lemma mstatus_on_return_u32 v : is_u32 v → is_u32 (mstatus_on_return v).
Proof. intros. unfold mstatus_on_return. by repeat (apply bit_assign_u32; [by vm_compute|]). Qed.

Lemma mret_eq s : wf_model s →
  handle_mret s = Ok (tt,
    with_mode (set_mode (previous_privilege (csrv s (csr_val mstatus))))
      (goto (csrv s (csr_val mepc))
        (put_csr (csr_val mstatus) (mstatus_on_return (csrv s (csr_val mstatus))) s))).
Proof.
  intros Hs. unfold handle_mret. rewrite !to_int_id.
  rewrite bind_read_csr by (done || apply csr_val_range).
  fold (mstatus_on_return (csrv s (csr_val mstatus))).
  rewrite bind_write_csr by (done || apply csr_val_range).
  rewrite bind_read_csr by (apply csr_val_range || by apply wf_put_csr, mstatus_on_return_u32, csrv_u32).
  rewrite csrv_put_csr by (done || apply csr_val_range).
  change (csr_val mepc =? csr_val mstatus) with false. cbv iota.
  rewrite bind_set_pc. unfold previous_privilege.
  assert (∀ x y, Z.lor (Z.shiftl (Z.b2z x) 1) (Z.b2z y) = 2 * Z.b2z x + Z.b2z y) as Hor by (by intros [] []).
  by rewrite <-Hor.
Qed.

Lemma mret_spec s : wf_model s →
  let v := csrv s (csr_val mstatus) in
  ∃ s', handle_mret s = Ok (tt, s') ∧ wf_model s' ∧ next_pc s' = csrv s (csr_val mepc) ∧
    mode s' = set_mode (previous_privilege v) ∧
    (∀ a, csrv s' a = if a =? csr_val mstatus then mstatus_on_return v else csrv s a) ∧
    regf s' = regf s ∧ mem s' = mem s.
Proof.
  intros Hs v. rewrite mret_eq by done. fold v. eexists. split; [reflexivity|].
  assert (is_u32 (mstatus_on_return v)) by (by apply mstatus_on_return_u32, csrv_u32).
  split; [by apply wf_with_mode; [apply wf_goto, wf_put_csr |]|].
  set (s1 := put_csr (csr_val mstatus) (mstatus_on_return v) s).
  assert (∀ a, csrv s1 a = if a =? csr_val mstatus then mstatus_on_return v else csrv s a) as Ha.
  { intros a. apply csrv_put_csr; [done | apply csr_val_range]. }
  split; [exact (next_pc_goto s1 _)|]. split; [done|]. split; [exact Ha | done].
Qed.
End mret.

(** ** CSR operations *)

Section csr_ops.
Context `{CommonLaws} `{Platform} `{Decoder}.
Implicit Types (s : model) (sy : masks.sys).

(** Whether the operation reads, and whether it writes, the CSR. *)
Definition csr_reads sy (d : op) : bool := negb (bool_decide (sy = masks.csrrwi)) || negb (rd d =? 0).
Definition csr_writes sy (d : op) : bool :=
  match sy with
  | masks.csrrw | masks.csrrwi | masks.csrrsi | masks.csrrci => true
  | masks.csrrs | masks.csrrc => negb (rs1 d =? 0)
  | _ => false
  end.
Definition csr_permitted sy d s : bool :=
  implb (csr_reads sy d) (can_read (imm d) (mode s)) &&
  implb (csr_writes sy d) (can_write (imm d) (mode s)).
(** The value that goes to [rd], and the one that goes to the CSR. *)
Definition csr_old sy d s : Z := if csr_reads sy d then csrv s (imm d) else 0.
Definition csr_new sy d s : Z :=
  let old := csr_old sy d s in
  let v := gpr s (rs1 d) in
  match sy with
  | masks.csrrw => v
  | masks.csrrs => Z.lor v old
  | masks.csrrc => Z.land old (Z.b2z (v =? 0))
  | masks.csrrwi => rs1 d
  | masks.csrrsi => Z.lor (rs1 d) old
  | masks.csrrci => Z.land old (Z.b2z (rs1 d =? 0))
  | _ => old
  end.
Definition csr_done sy d s : model :=
  put_gpr (rd d) (csr_old sy d s) (if csr_writes sy d then put_csr (imm d) (csr_new sy d s) s else s).
Definition refused s : model := saved exp_inst_illegal (vector s) s.

Lemma trap_illegal_eq s : wf_model s → trap exp_inst_illegal s = Ok (tt, refused s).
Proof. intros Hs. by rewrite trap_exception_eq. Qed.
Lemma can_read_low a p : 0 ≤ a < 32 → can_read a p = true.
Proof.
  intros Ha. apply can_read_spec; [lia|]. change (2 ^ 8) with 256. rewrite Z.div_small by lia. by destruct (Csr.m p).
Qed.
Lemma b2z_if (b : bool) : (if b then 1 else 0) = Z.b2z b.
Proof. by destruct b. Qed.

Lemma csr_read_phase_eq sy d s : wf_model s → 0 ≤ imm d < 4096 →
  csr_read_phase sy d s =
    if implb (csr_reads sy d) (can_read (imm d) (mode s)) then Ok (Some (csr_old sy d s), s)
    else Ok (None, refused s).
Proof.
  intros Hs Hi. unfold csr_read_phase, csr_old. rewrite bind_gets. fold (csr_reads sy d).
  destruct (csr_reads sy d); [|done]. simpl implb.
  destruct (can_read (imm d) (mode s)).
  - by rewrite bind_read_csr.
  - by rewrite (bind_ok _ _ _ _ _ (trap_illegal_eq s Hs)).
Qed.

Definition reg_form sy : bool :=
  match sy with masks.csrrw | masks.csrrs | masks.csrrc => true | _ => false end.
Definition imm_form sy : bool :=
  match sy with masks.csrrwi | masks.csrrsi | masks.csrrci => true | _ => false end.

Lemma csr_write_reg_eq sy d s : wf_model s → wf_op d → imm d < 4096 →
  csr_write_reg sy d (csr_old sy d s) s =
    if reg_form sy && csr_writes sy d then
      if can_write (imm d) (mode s) then Ok (true, put_csr (imm d) (csr_new sy d s) s)
      else Ok (false, refused s)
    else Ok (true, s).
Proof.
  intros Hs Hd Hi. pose proof Hd as [? _ Hr1 _ _]. unfold csr_write_reg. rewrite bind_gets.
  replace (_ || _ && _ || _ && _) with (reg_form sy && csr_writes sy d)
    by (destruct sy; simpl; rewrite ?orb_false_r; by repeat case_bool_decide).
  destruct (reg_form sy && csr_writes sy d) eqn:Hf; [|done].
  rewrite can_read_low, bind_read_gpr by done. unfold csr_new. rewrite b2z_if.
  destruct (can_write (imm d) (mode s)).
  - destruct sy; try done; by rewrite bind_write_csr by (done || lia).
  - by rewrite (bind_ok _ _ _ _ _ (trap_illegal_eq s Hs)).
Qed.

Lemma csr_write_imm_eq sy d s old : wf_model s → 0 ≤ imm d < 4096 →
  (imm_form sy = true → old = csr_old sy d s) →
  csr_write_imm sy d old s =
    if imm_form sy then
      if can_write (imm d) (mode s) then Ok (true, put_csr (imm d) (csr_new sy d s) s)
      else Ok (false, refused s)
    else Ok (true, s).
Proof.
  intros Hs Hi Hold. unfold csr_write_imm. rewrite bind_gets.
  replace (bool_decide _ || _ || _) with (imm_form sy)
    by (destruct sy; simpl; by repeat case_bool_decide).
  destruct (imm_form sy) eqn:Hf; [|done]. rewrite Hold by done. unfold csr_new. rewrite b2z_if.
  destruct (can_write (imm d) (mode s)).
  - destruct sy; try done; rewrite bind_write_csr by (done || lia); try done.
    by rewrite Z.land_comm.
  - by rewrite (bind_ok _ _ _ _ _ (trap_illegal_eq s Hs)).
Qed.

Lemma csr_old_u32 sy d s : wf_model s → is_u32 (csr_old sy d s).
Proof. intros. unfold csr_old. destruct (csr_reads sy d); [by apply csrv_u32 | lia]. Qed.
Lemma csr_new_u32 sy d s : wf_model s → wf_op d → is_u32 (csr_new sy d s).
Proof.
  intros Hs Hd. pose proof (csr_old_u32 sy d s Hs). pose proof (gpr_u32 s (rs1 d) Hs).
  assert (is_u32 (rs1 d)) by (destruct Hd; lia).
  unfold csr_new. destruct sy; try done; try (by apply (lor_bound 32)); by apply (land_bound 32).
Qed.

Lemma csr_eq sy d s : wf_model s → wf_op d → dec (cur_state s) = d →
  opt d = op_sys sy → imm d < 4096 →
  handle_csr s = Ok (tt, if csr_permitted sy d s then csr_done sy d s else refused s).
Proof.
  intros Hs Hd Hdec Ho Hi. pose proof Hd as [? Hrd ? _ _]. unfold handle_csr.
  rewrite bind_get_dec, Hdec, Ho. cbn [get_sys]. rewrite bind_lift_ok. unfold csr_permitted.
  pose proof (csr_read_phase_eq sy d s Hs ltac:(lia)) as Hr.
  destruct (implb (csr_reads sy d) _); rewrite (bind_ok _ _ _ _ _ Hr); cbn [andb]; [|done].
  pose proof (csr_write_reg_eq sy d s Hs Hd Hi) as Hw.
  unfold csr_done. destruct (reg_form sy && csr_writes sy d) eqn:Hf.
  - apply andb_true_iff in Hf as [Hrf Hwr]. rewrite Hwr. simpl implb.
    destruct (can_write (imm d) (mode s)); rewrite (bind_ok _ _ _ _ _ Hw); cbn [negb]; [|done].
    assert (wf_model (put_csr (imm d) (csr_new sy d s) s)) as Hs1 by (by apply wf_put_csr, csr_new_u32).
    pose proof (csr_write_imm_eq sy d _ (csr_old sy d s) Hs1 ltac:(lia)) as Hwi.
    rewrite (bind_ok _ _ _ true (put_csr (imm d) (csr_new sy d s) s)) by (rewrite Hwi; by destruct sy).
    by apply write_gpr_eq.
  - rewrite (bind_ok _ _ _ _ _ Hw). cbn [negb].
    pose proof (csr_write_imm_eq sy d s (csr_old sy d s) Hs ltac:(lia) ltac:(done)) as Hwi.
    replace (csr_writes sy d) with (imm_form sy) in * by (destruct sy; simpl in *; congruence).
    destruct (imm_form sy); simpl implb.
    + destruct (can_write (imm d) (mode s)); rewrite (bind_ok _ _ _ _ _ Hwi); cbn [negb]; [|done].
      apply write_gpr_eq; [by apply wf_put_csr, csr_new_u32 | done].
    + rewrite (bind_ok _ _ _ _ _ Hwi). cbn [negb]. by apply write_gpr_eq.
Qed.
End csr_ops.

(** ** A taken interrupt *)

Section interrupts.
Context `{CommonLaws} `{Platform} `{Decoder}.
Implicit Types (s : model) (c : trap_cause).

Lemma interrupted_spec c s : wf_model s →
  cur_pc (interrupted c s) = u32 (4 * (csrv s (mcsr s utvec) / 4) + 4 * number c) ∧
  next_pc (interrupted c s) = cur_pc (interrupted c s) ∧
  csrv (interrupted c s) (mcsr s ucause) = trap_cause_val c ∧
  csrv (interrupted c s) (mcsr s uepc) = epc_of c (cur_pc s) ∧
  csrv (interrupted c s) (csr_val mip) = Z.clearbit (csrv s (csr_val mip)) (number c) ∧
  csrv (interrupted c s) (csr_val mstatus) = mstatus_on_entry (csrv s (csr_val mstatus)) ∧
  frame s (interrupted c s).
Proof.
  intros Hs. pose proof (wf_acknowledged c s Hs) as Ha. unfold interrupted.
  set (e := u32 (vector s + number c * 4)).
  pose proof (saved_registers c e (acknowledged c s) Ha) as (Hcause & _ & Hepc & _).
  rewrite mcsr_acknowledged in Hcause, Hepc. rewrite cur_pc_acknowledged in Hepc.
  rewrite next_pc_jump, cur_pc_jump, next_pc_saved, !csrv_jump, Hcause, Hepc, !saved_other by done.
  rewrite !csrv_acknowledged by done. unfold e, vector. rewrite word_align_val by (by apply csrv_u32).
  split; [by rewrite (Z.mul_comm (number c))|]. do 5 (split; [done|]).
  eapply frame_trans; [|apply frame_jump]. eapply frame_trans; [apply frame_acknowledged | apply frame_saved].
Qed.
End interrupts.

(** ** The timer and the store to tohost *)

Section timer.
Context `{CommonLaws} `{Platform} `{Decoder}.
Implicit Types (s : model).

(** The 64-bit value the pages hold at [a]. *)
Definition page64 s (a : Z) : Z := le_value (byte (pages (mem s))) a 8.

Lemma mem_read_ok {rd s v} : rd (mem s) = Ok v → mem_read rd s = Ok (v, s).
Proof. intros Hv. unfold mem_read. rewrite bind_gets. by rewrite Hv. Qed.

Lemma interrupt_pending_eq s : wf_model s →
  interrupt_pending s =
    if mti_enabled (opts s) && (page64 s (o_mtimecmp (opts s)) <? page64 s (o_mtime (opts s)))
    then (set_pending int_timer_m;; trap int_timer_m) s else Ok (tt, s).
Proof.
  intros Hs. unfold interrupt_pending. rewrite bind_gets. destruct (mti_enabled (opts s)); [|done].
  rewrite (bind_ok _ _ _ _ _ (mem_read_ok (router_read64_ok (mem s) (o_mtime (opts s)) ltac:(apply Hs) ltac:(apply Hs)))).
  rewrite (bind_ok _ _ _ _ _ (mem_read_ok (router_read64_ok (mem s) (o_mtimecmp (opts s)) ltac:(apply Hs) ltac:(apply Hs)))).
  simpl andb. unfold page64. by destruct (_ <? _).
Qed.

Lemma set_pending_eq c s : wf_model s → is_int c = true →
  set_pending c s = Ok (tt, put_csr (csr_val mip) (Z.setbit (csrv s (csr_val mip)) (number c)) s).
Proof.
  intros Hs Hc%int_number. unfold set_pending. rewrite cause_number. fold (number c) in Hc |- *.
  rewrite bind_read_csr by (done || apply csr_val_range).
  rewrite bitset_set_ok, bind_lift_ok by done. by apply write_csr_eq; [|apply csr_val_range].
Qed.

Lemma store_word_eq d s : wf_model s → wf_op d → dec (cur_state s) = d → opt d = op_store masks.sw →
  let a := u32 (gpr s (rs1 d) + imm d) in
  ∃ m', store s = Ok (tt, with_done (a =? tohost_addr s) (with_mem (with_pages m' (mem s)) s)) ∧
    wf_router (with_pages m' (mem s)) ∧
    ∀ a', is_u32 a' → byte m' a' = overlay (byte (pages (mem s))) a 4 (gpr s (rs2 d)) a'.
Proof.
  intros Hs Hd Hdec Ho a. pose proof Hd as [? _ ? ? _].
  destruct (router_write32_ok (mem s) a (gpr s (rs2 d))) as (m' & Hw & ? & ?);
    [apply Hs | apply u32_range | by apply gpr_u32 |].
  exists m'. split; [|done]. unfold store. rewrite bind_get_dec, Hdec, Ho. cbn [get_store].
  rewrite bind_read_gpr, bind_lift_ok by done. fold a.
  rewrite (bind_ok _ _ s tt (with_mem (with_pages m' (mem s)) s)); [done|].
  rewrite bind_read_gpr by done. unfold mem_write. by rewrite Hw.
Qed.
End timer.

(** ** Exceptions *)

Section exceptions.
Context {P : Platform} {C : CommonLib} {L : CommonLaws} {D : Decoder}.
Implicit Types (s : model).

Lemma trap_saves c s : wf_model s → is_int c = false → is_ecall c && exits s = false →
  trap c s = Ok (tt, saved c (vector s) s).
Proof.
  intros Hs Hc He. rewrite trap_exception_eq by done. destruct (is_ecall c); [|done].
  simpl in He. pose proof (sys_exit_eq _ (wf_saved c (vector s) s Hs)) as Hx.
  change (exits (saved c (vector s) s)) with (exits s) in Hx. by rewrite He in Hx.
Qed.

Lemma exception_return c s : wf_model s → is_int c = false → is_ecall c && exits s = false →
  mode s = set_mode machine →
  let v := csrv s (csr_val mstatus) in
  ∃ s', (trap c;; handle_mret) s = Ok (tt, s') ∧ wf_model s' ∧
    mode s' = set_mode (privilege_of (v / 2 ^ status.mpp mod 4)) ∧
    csrv s' (csr_val mstatus) = mstatus_on_return v ∧
    next_pc s' = (if is_ecall c || bool_decide (c = exp_breakpoint) then 4 * (cur_pc s / 4)
                  else u32 (4 * (cur_pc s / 4) + 4)) ∧
    regf s' = regf s ∧ mem s' = mem s.
Proof.
  intros Hs Hc He Hm v. rewrite (bind_ok _ _ _ _ _ (trap_saves c s Hs Hc He)).
  pose proof (wf_saved c (vector s) s Hs) as Hwf.
  destruct (saved_registers c (vector s) s Hs) as (_ & _ & Hepc & Hrest).
  assert (∀ r : csr, mcsr s r = 256 * 3 + csr_val r ∨ ¬ csr_val r < 256) as Hreg.
  { intros r. destruct (decide (csr_val r < 256)); [left | by right]. by rewrite mcsr_val, Hm by done. }
  assert (csrv (saved c (vector s) s) (csr_val mstatus) = v) as Hv.
  { apply Hrest; [destruct (Hreg ucause) as [-> | []] | destruct (Hreg utval) as [-> | []] | destruct (Hreg uepc) as [-> | []]]; done. }
  destruct (Hreg uepc) as [Hu | []]; [|done]. rewrite Hu in Hepc. change (256 * 3 + csr_val uepc) with (csr_val mepc) in Hepc.
  destruct (mret_spec _ Hwf) as (s' & Hr & Hwf' & Hn & Hm' & Ha & Hregf & Hmem). rewrite Hv in Hm', Ha.
  exists s'. do 2 (split; [done|]). split; [by rewrite <-previous_privilege_val|].
  split; [by rewrite Ha, Z.eqb_refl|]. split; [|done].
  rewrite Hn, Hepc. by apply epc_of_val, cur_pc_u32.
Qed.
End exceptions.

(** ** Properties *)

(** C19: Entry into an exception.  For every exception cause that is not an
    environment call asking to exit, [trap] succeeds; in the registers of the current
    mode the cause is its enumerator, the trap value is zero and the saved program
    counter is the current one rounded down to a multiple of four, plus four unless
    the cause is an environment call or a breakpoint; the next program counter is the
    trap vector with its two low bits cleared.  No other CSR, so not mstatus either,
    no register, no memory, not the mode and not the current program counter
    changes. *)
Theorem exception_entry {P : Platform} {C : CommonLib} {L : CommonLaws} {D : Decoder}
    (c : trap_cause) (s : model) :
  wf_model s → is_int c = false → is_ecall c && exits s = false →
  ∃ s', trap c s = Ok (tt, s') ∧ wf_model s' ∧
    csrv s' (mcsr s ucause) = trap_cause_val c ∧ csrv s' (mcsr s utval) = 0 ∧
    csrv s' (mcsr s uepc) =
      (if is_ecall c || bool_decide (c = exp_breakpoint) then 4 * (cur_pc s / 4)
       else u32 (4 * (cur_pc s / 4) + 4)) ∧
    (∀ a, a ≠ mcsr s ucause → a ≠ mcsr s utval → a ≠ mcsr s uepc → csrv s' a = csrv s a) ∧
    next_pc s' = 4 * (csrv s (mcsr s utvec) / 4) ∧ cur_pc s' = cur_pc s ∧
    regf s' = regf s ∧ mem s' = mem s ∧ mode s' = mode s ∧ is_done s' = is_done s.
Proof.
  intros Hs Hc He. exists (saved c (vector s) s). split; [by apply trap_saves|].
  destruct (saved_registers c (vector s) s Hs) as (Hcause & Htval & Hepc & Hrest).
  split; [by apply wf_saved|]. do 2 (split; [done|]).
  split; [rewrite Hepc; by apply epc_of_val, cur_pc_u32|].
  split; [done|]. split.
  { rewrite next_pc_saved. unfold vector. by rewrite word_align_val by (by apply csrv_u32). }
  split; [apply cur_pc_saved|]. done.
Qed.

(** The exit protocol.  An environment call with 93 in register 17 (sys_exit)
    is a trap that in addition stores register 10 as a word at the tohost address and
    marks the hart as done: from then on [done] answers true and [tohost] returns the
    exit code.  With any other number the call is an ordinary trap. *)
Theorem ecall_exit {P : Platform} {C : CommonLib} {L : CommonLaws} {D : Decoder} (s : model) :
  wf_model s →
  ∃ s', (c ← gets ecall_cause; trap c) s = Ok (tt, s') ∧
    next_pc s' = 4 * (csrv s (mcsr s utvec) / 4) ∧ csrv s' (mcsr s uepc) = 4 * (cur_pc s / 4) ∧
    if gpr s 17 =? 93 then done_ s' = true ∧ tohost s' = Ok (gpr s 10, s')
    else done_ s' = done_ s ∧ mem s' = mem s.
Proof.
  intros Hs. rewrite bind_gets. set (c := ecall_cause s).
  assert (is_int c = false ∧ is_ecall c = true) as [Hc He] by (unfold c, ecall_cause; by destruct (Csr.m _)).
  rewrite trap_exception_eq, He by done. set (s1 := saved c (vector s) s).
  assert (wf_model s1) as Hs1 by (by apply wf_saved).
  assert (next_pc s1 = 4 * (csrv s (mcsr s utvec) / 4) ∧ csrv s1 (mcsr s uepc) = 4 * (cur_pc s / 4)) as [Hn Hp].
  { split; [unfold s1; rewrite next_pc_saved; by apply word_align_val, csrv_u32|].
    unfold s1; destruct (saved_registers c (vector s) s Hs) as (_ & _ & -> & _). unfold epc_of. rewrite He.
    by apply word_align_val, cur_pc_u32. }
  destruct (exit_outcome s1 Hs1) as (s' & Hx & Hn' & Hf & Hout). exists s'.
  split; [exact Hx|]. split; [congruence|]. split; [unfold csrv; by rewrite Hf|].
  exact Hout.
Qed.

(** C18: The interrupt decision and its effect.  A pending interrupt is taken exactly
    when its bits in mie and mip and the global bit MIE of mstatus are all set;
    otherwise [trap] changes nothing.  When taken, the hart continues at once at the
    vector plus four times the interrupt number; the cause is saved, the interrupt's
    mip bit and MIE are cleared, MPIE holds the old MIE, MPP is machine mode, every
    other bit of mip and mstatus is kept; and the saved program counter is not the
    interrupted one but the following word. *)
Theorem interrupt_taken {P : Platform} {C : CommonLib} {L : CommonLaws} {D : Decoder}
    (c : trap_cause) (s : model) :
  wf_model s → is_int c = true →
  let i := number c in
  let take := Z.testbit (csrv s (csr_val mie)) i && Z.testbit (csrv s (csr_val mip)) i &&
              Z.testbit (csrv s (csr_val mstatus)) status.mie in
  ∃ s', trap c s = Ok (tt, s') ∧
    if take then
      cur_pc s' = u32 (4 * (csrv s (mcsr s utvec) / 4) + 4 * i) ∧ next_pc s' = cur_pc s' ∧
      csrv s' (mcsr s ucause) = trap_cause_val c ∧
      csrv s' (mcsr s uepc) = u32 (4 * (cur_pc s / 4) + 4) ∧
      (∀ j, 0 ≤ j → Z.testbit (csrv s' (csr_val mip)) j =
         Z.testbit (csrv s (csr_val mip)) j && negb (j =? i)) ∧
      (∀ j, 0 ≤ j → Z.testbit (csrv s' (csr_val mstatus)) j =
         if j =? status.mie then false
         else if j =? status.mpie then true
         else if (j =? status.mpp) || (j =? status.mpp + 1) then true
         else Z.testbit (csrv s (csr_val mstatus)) j) ∧
      regf s' = regf s ∧ mem s' = mem s ∧ mode s' = mode s
    else s' = s.
Proof.
  intros Hs Hc i take. exists (if take then interrupted c s else s).
  split; [by apply trap_interrupt_eq|]. destruct take eqn:Htake; [|done].
  apply andb_true_iff in Htake as [_ Hmie].
  destruct (interrupted_spec c s Hs) as (Hpc & Hn & Hcause & Hepc & Hmip & Hst & Hrest).
  destruct Hrest as (? & ? & ? & _).
  split; [exact Hpc|]. split; [exact Hn|]. split; [exact Hcause|].
  split; [rewrite Hepc; by apply epc_of_int; [apply cur_pc_u32|]|]. split.
  { intros j Hj. rewrite Hmip. fold i. rewrite Z.clearbit_eqb by (by apply int_number in Hc).
    by rewrite Z.eqb_sym. }
  split; [intros j Hj; rewrite Hst; by rewrite mstatus_on_entry_bit, Hmie by done | done].
Qed.

(** C28: [mret].  It goes to the address in mepc, returns to the mode MPP encodes, puts
    MPIE into MIE, sets MPIE and makes MPP machine mode again; every other bit of
    mstatus and every other CSR, the registers and memory are kept. *)
Theorem mret_returns {P : Platform} {C : CommonLib} {L : CommonLaws} {D : Decoder} (s : model) :
  wf_model s →
  let v := csrv s (csr_val mstatus) in
  ∃ s', handle_mret s = Ok (tt, s') ∧ wf_model s' ∧ next_pc s' = csrv s (csr_val mepc) ∧
    mode s' = set_mode (privilege_of (v / 2 ^ status.mpp mod 4)) ∧
    (∀ j, 0 ≤ j → Z.testbit (csrv s' (csr_val mstatus)) j =
       if j =? status.mie then Z.testbit v status.mpie
       else if (j =? status.mpie) || (j =? status.mpp) || (j =? status.mpp + 1) then true
       else Z.testbit v j) ∧
    (∀ a, a ≠ csr_val mstatus → csrv s' a = csrv s a) ∧ regf s' = regf s ∧ mem s' = mem s.
Proof.
  intros Hs v. destruct (mret_spec s Hs) as (s' & Hr & Hwf & Hn & Hm & Ha & Hrest).
  fold v in Hm, Ha. exists s'. do 3 (split; [done|]). rewrite <-previous_privilege_val.
  split; [done|]. split; [|split; [|done]].
  - intros j Hj. rewrite Ha, Z.eqb_refl. by apply mstatus_on_return_bit.
  - intros a Hne. by rewrite Ha, (proj2 (Z.eqb_neq _ _)).
Qed.

(** Returning from an interrupt does not resume the interrupted instruction.
    After an interrupt taken in machine mode, an immediate [mret] goes back to
    machine mode with interrupts enabled, but to the word after the aligned program
    counter at which the interrupt was taken: for an aligned program counter the
    instruction there is skipped. *)
Theorem interrupt_return_skips {P : Platform} {C : CommonLib} {L : CommonLaws} {D : Decoder}
    (c : trap_cause) (s : model) :
  wf_model s → is_int c = true → enabled c s = true → mode s = set_mode machine →
  ∃ s', (trap c;; handle_mret) s = Ok (tt, s') ∧ mode s' = set_mode machine ∧
    Z.testbit (csrv s' (csr_val mstatus)) status.mie = true ∧
    next_pc s' = u32 (4 * (cur_pc s / 4) + 4) ∧ (cur_pc s mod 4 = 0 → next_pc s' ≠ cur_pc s).
Proof.
  intros Hs Hc He Hm. pose proof (trap_interrupt_eq c s Hs Hc) as Ht. rewrite He in Ht.
  rewrite (bind_ok _ _ _ _ _ Ht).
  destruct (interrupted_spec c s Hs) as (_ & _ & _ & Hepc & _ & Hst & (_ & _ & Hmode & _)).
  assert (wf_model (interrupted c s)) as Hwf.
  { apply wf_jump; [by apply wf_saved, wf_acknowledged|]. rewrite next_pc_saved. apply u32_range. }
  replace (mcsr s uepc) with (csr_val mepc) in Hepc by (unfold mcsr; by rewrite Hm, priv_csr_val).
  apply andb_true_iff in He as [_ Hmie].
  destruct (mret_spec (interrupted c s) Hwf) as (s' & Hr & _ & Hn & Hm' & Ha & _).
  rewrite Hst in Hm', Ha. rewrite Hepc, epc_of_int in Hn by (done || by apply cur_pc_u32).
  exists s'. split; [done|]. split.
  { rewrite Hm'. unfold previous_privilege. by rewrite !mstatus_on_entry_bit by (by vm_compute). }
  split.
  { rewrite Ha, Z.eqb_refl, mstatus_on_return_bit, mstatus_on_entry_bit by (by vm_compute). done. }
  split; [done|]. intros Hal. rewrite Hn. pose proof (cur_pc_u32 s Hs). word.
Qed.

(** C20: Returning from an exception does not return to where it came from.  An exception
    leaves mstatus as it was (only interrupts save the mode and the interrupt enable there),
    and [mret] goes by it: after an exception in machine mode an immediate [mret] enters the
    mode that mstatus.MPP happens to hold, with MIE set to what MPIE held and MPP to 3.
    With MPP zero, as out of reset, that is user mode, where no machine-mode CSR can be
    accessed any more; the program goes on after the instruction for all causes but
    environment calls and breakpoints. *)
Theorem exception_return_loses_mode {P : Platform} {C : CommonLib} {L : CommonLaws} {D : Decoder}
    (c : trap_cause) (s : model) :
  wf_model s → is_int c = false → is_ecall c && exits s = false → mode s = set_mode machine →
  let v := csrv s (csr_val mstatus) in
  ∃ s', (trap c;; handle_mret) s = Ok (tt, s') ∧ wf_model s' ∧
    mode s' = set_mode (privilege_of (v / 2 ^ status.mpp mod 4)) ∧
    Z.testbit (csrv s' (csr_val mstatus)) status.mie = Z.testbit v status.mpie ∧
    next_pc s' = (if is_ecall c || bool_decide (c = exp_breakpoint) then 4 * (cur_pc s / 4)
                  else u32 (4 * (cur_pc s / 4) + 4)) ∧
    regf s' = regf s ∧ mem s' = mem s ∧
    (v / 2 ^ status.mpp mod 4 = 0 → ∀ a, is_u32 a → 0 < a / 2 ^ 8 mod 4 → can_read a (mode s') = false ∧ can_write a (mode s') = false).
Proof.
  intros Hs Hc He Hm v. destruct (exception_return c s Hs Hc He Hm) as (s' & Hr & Hwf & Hm' & Ha & Hn & Hreg & Hmem).
  exists s'. do 3 (split; [done|]). split.
  { rewrite Ha, mstatus_on_return_bit by (by vm_compute). done. }
  do 3 (split; [done|]). intros H0 a Hu Hpos. rewrite Hm'. unfold v in H0. rewrite H0.
  rewrite <-!not_true_iff_false, can_read_spec, can_write_spec by done.
  change (privilege_val (m (set_mode (privilege_of 0)))) with 0. lia.
Qed.

(** C22: A CSR operation the mode permits.  Reading and writing as the Zicsr table
    says ([csrrw] always writes, [csrrs] and [csrrc] only when [rs1] is not register
    0, [csrrwi] reads only when [rd] is not register 0), it succeeds; [rd] receives
    the old value, zero-extended, or zero when nothing was read; the CSR receives the
    operand ([csrrw], [csrrwi]), its disjunction with the old value ([csrrs],
    [csrrsi]), and for [csrrc] and [csrrci] the old value masked with the logical
    negation of the operand; no other CSR, register, memory byte or program counter
    changes. *)
Theorem csr_operation {P : Platform} {C : CommonLib} {L : CommonLaws} {D : Decoder}
    (s : model) (d : op) (sy : masks.sys) :
  wf_model s → dec (cur_state s) = d → wf_op d → opt d = op_sys sy → imm d < 4096 →
  csr_permitted sy d s = true →
  ∃ s', handle_csr s = Ok (tt, s') ∧ wf_model s' ∧
    (∀ i, gpr s' i = if (rd d =? i) && negb (rd d =? 0) then csr_old sy d s else gpr s i) ∧
    (∀ a, csrv s' a = if csr_writes sy d && (a =? imm d) then csr_new sy d s else csrv s a) ∧
    next_pc s' = next_pc s ∧ cur_pc s' = cur_pc s ∧ mem s' = mem s ∧ mode s' = mode s.
Proof.
  intros Hs Hdec Hd Ho Hi Hp. rewrite (csr_eq sy d s Hs Hd Hdec Ho Hi), Hp.
  exists (csr_done sy d s). split; [done|]. pose proof Hd as [? Hrd _ _ _].
  pose proof (csr_old_u32 sy d s Hs). pose proof (csr_new_u32 sy d s Hs Hd).
  unfold csr_done. set (s1 := if csr_writes sy d then _ else s).
  assert (wf_model s1 ∧ (∀ i, gpr s1 i = gpr s i) ∧
    (∀ a, csrv s1 a = if csr_writes sy d && (a =? imm d) then csr_new sy d s else csrv s a) ∧
    next_pc s1 = next_pc s ∧ cur_pc s1 = cur_pc s ∧ mem s1 = mem s ∧ mode s1 = mode s)
    as (Hs1 & Hg & Hc & Hrest).
  { unfold s1. destruct (csr_writes sy d); [|done]. split; [by apply wf_put_csr|]. split; [done|].
    split; [|done]. intros a. rewrite csrv_put_csr by (done || lia). done. }
  clearbody s1. split; [by apply wf_put_gpr|].
  split; [intros i; by rewrite gpr_put_gpr, Hg | by split].
Qed.

(** A CSR operation the mode does not permit: reading a register of a higher
    privilege, or writing such a register or a read-only one.  It raises the illegal
    instruction exception and does nothing else: the only CSRs that change are the
    three trap registers of the mode, no integer register changes, so [rd] does not
    receive the value even when only the write was refused. *)
Theorem csr_refused {P : Platform} {C : CommonLib} {L : CommonLaws} {D : Decoder}
    (s : model) (d : op) (sy : masks.sys) :
  wf_model s → dec (cur_state s) = d → wf_op d → opt d = op_sys sy → imm d < 4096 →
  csr_permitted sy d s = false →
  ∃ s', handle_csr s = Ok (tt, s') ∧ trap exp_inst_illegal s = Ok (tt, s') ∧
    regf s' = regf s ∧ mem s' = mem s ∧ csrv s' (mcsr s ucause) = trap_cause_val exp_inst_illegal ∧
    next_pc s' = 4 * (csrv s (mcsr s utvec) / 4) ∧
    ∀ a, a ≠ mcsr s ucause → a ≠ mcsr s utval → a ≠ mcsr s uepc → csrv s' a = csrv s a.
Proof.
  intros Hs Hdec Hd Ho Hi Hp. rewrite (csr_eq sy d s Hs Hd Hdec Ho Hi), Hp, trap_illegal_eq by done.
  exists (refused s). destruct (frame_saved exp_inst_illegal (vector s) s) as (? & ? & _).
  destruct (saved_registers exp_inst_illegal (vector s) s Hs) as (? & _ & _ & ?).
  do 5 (split; [done|]). split; [|done].
  unfold refused. rewrite next_pc_saved. by apply word_align_val, csrv_u32.
Qed.

(** [csrrc] and [csrrci] do not clear the bits of the mask.  The code negates the
    operand with the logical operator, so whenever the operand is not zero the value
    written is zero.  RISC-V asks for the old value without the bits of the mask: the
    two agree only when the old value has no bit outside the mask. *)
Theorem csrrc_clears_everything {C : CommonLib} {L : CommonLaws} (s : model) (d : op) (sy : masks.sys) :
  wf_model s → wf_op d → sy = masks.csrrc ∨ sy = masks.csrrci →
  let mask := if decide (sy = masks.csrrc) then gpr s (rs1 d) else rs1 d in
  mask ≠ 0 →
  csr_new sy d s = 0 ∧
  (csr_new sy d s = Z.ldiff (csrv s (imm d)) mask ↔ Z.ldiff (csrv s (imm d)) mask = 0).
Proof.
  intros Hs Hd Hsy mask Hmask.
  assert (csr_new sy d s = 0) as Hnew.
  { unfold mask in Hmask. destruct Hsy as [-> | ->]; simpl in Hmask; unfold csr_new;
      rewrite (proj2 (Z.eqb_neq _ _) Hmask); apply Z.land_0_r. }
  rewrite Hnew. split; [done|]. split; intros; congruence.
Qed.

(** The timer thread cannot raise an interrupt.  Whether [commit] raises the
    timer interrupt depends on the pages at the addresses of [--mtime] and
    [--mtimecmp], never on the router's two register arrays: replacing the arrays by
    any others leaves the decision as it is, and as long as the pages there hold
    equal values, as they do when the program has stored nothing, no interrupt is
    raised whatever the counter has reached. *)
Theorem timer_array_is_not_read {P : Platform} {C : CommonLib} {L : CommonLaws} {D : Decoder}
    (s : model) (t tc : list Z) :
  wf_model s → timer_ok t → timer_ok tc →
  let s' := with_mem (with_mtime t (with_mtimecmp tc (mem s))) s in
  let due := mti_enabled (opts s) && (page64 s (o_mtimecmp (opts s)) <? page64 s (o_mtime (opts s))) in
  interrupt_pending s' = (if due then set_pending int_timer_m;; trap int_timer_m else skip) s' ∧
  (page64 s (o_mtimecmp (opts s)) = page64 s (o_mtime (opts s)) → interrupt_pending s' = Ok (tt, s')).
Proof.
  intros Hs Ht Htc s' due. assert (wf_model s') as Hs'.
  { destruct Hs as [? [] ? ? ? ? ? ? ?]. by split. }
  pose proof (interrupt_pending_eq s' Hs') as Heq.
  change (mti_enabled (opts s') && _) with due in Heq. rewrite Heq. split.
  - by destruct due.
  - intros Hpages. unfold due. by rewrite Hpages, Z.ltb_irrefl, andb_false_r.
Qed.

(** An enabled and due timer interrupt.  When the timer is on, the pages hold a
    count above the comparison value, and MIE and the machine timer bit of mie are
    set, [interrupt_pending] sets the pending bit and takes the interrupt at once:
    the hart is at the seventh entry of the vector with the cause in the trap
    registers, interrupts off and the pending bit clear again. *)
Theorem timer_interrupt {P : Platform} {C : CommonLib} {L : CommonLaws} {D : Decoder} (s : model) :
  wf_model s → mti_enabled (opts s) = true →
  page64 s (o_mtimecmp (opts s)) < page64 s (o_mtime (opts s)) →
  Z.testbit (csrv s (csr_val mie)) 7 = true → Z.testbit (csrv s (csr_val mstatus)) status.mie = true →
  ∃ s', interrupt_pending s = Ok (tt, s') ∧
    cur_pc s' = u32 (4 * (csrv s (mcsr s utvec) / 4) + 28) ∧
    csrv s' (mcsr s ucause) = 0x80000007 ∧ csrv s' (mcsr s uepc) = u32 (4 * (cur_pc s / 4) + 4) ∧
    Z.testbit (csrv s' (csr_val mip)) 7 = false ∧
    Z.testbit (csrv s' (csr_val mstatus)) status.mie = false.
Proof.
  intros Hs Hon Hdue Hmie Hst. rewrite interrupt_pending_eq by done.
  rewrite Hon, (proj2 (Z.ltb_lt _ _) Hdue). cbn [andb].
  rewrite (bind_ok _ _ _ _ _ (set_pending_eq int_timer_m s Hs eq_refl)).
  change (number int_timer_m) with 7.
  assert (is_u32 (Z.setbit (csrv s (csr_val mip)) 7)) by (apply (setbit_bound 32); [lia | by apply csrv_u32]).
  pose proof (wf_put_csr s (csr_val mip) _ Hs H) as Hs1.
  assert (∀ a, csrv (put_csr (csr_val mip) (Z.setbit (csrv s (csr_val mip)) 7) s) a =
    if a =? csr_val mip then Z.setbit (csrv s (csr_val mip)) 7 else csrv s a) as Hv.
  { intros a. apply csrv_put_csr; [done | apply csr_val_range]. }
  assert (cur_pc (put_csr (csr_val mip) (Z.setbit (csrv s (csr_val mip)) 7) s) = cur_pc s) as Hpc by done.
  assert (∀ r, mcsr (put_csr (csr_val mip) (Z.setbit (csrv s (csr_val mip)) 7) s) r = mcsr s r) as Hm by done.
  revert Hs1 Hv Hpc Hm. generalize (put_csr (csr_val mip) (Z.setbit (csrv s (csr_val mip)) 7) s).
  intros s1 Hs1 Hv Hpc Hm. exists (interrupted int_timer_m s1). split.
  { rewrite trap_interrupt_eq by done. unfold enabled. change (number int_timer_m) with 7.
    rewrite !Hv. simpl Z.eqb. cbv iota. by rewrite Hmie, Hst, Z.setbit_eq. }
  destruct (interrupted_spec int_timer_m s1 Hs1) as (-> & _ & Hc & He & Hp & Ht & _).
  rewrite !Hm in *. rewrite Hp, Ht, Hc, He, Hpc, epc_of_int by (done || by apply cur_pc_u32).
  assert (mcsr s utvec ≠ csr_val mip) as Hne.
  { intros Heq. pose proof (mcsr_mod s utvec Hs ltac:(done)) as Hmod. by rewrite Heq in Hmod. }
  rewrite (Hv (mcsr s utvec)), (proj2 (Z.eqb_neq _ _) Hne).
  do 3 (split; [done|]). split; [apply Z.clearbit_eq|].
  rewrite mstatus_on_entry_bit by done. by rewrite Z.eqb_refl.
Qed.

(** Storing to tohost ends the run.  A word store succeeds, sets the done flag to
    whether its address is tohost (so a later store elsewhere clears it again), and
    when it is, [tohost] then returns the word stored. *)
Theorem store_to_tohost {P : Platform} {C : CommonLib} {L : CommonLaws} {D : Decoder}
    (s : model) (d : op) :
  wf_model s → wf_op d → dec (cur_state s) = d → opt d = op_store masks.sw →
  let a := u32 (gpr s (rs1 d) + imm d) in
  ∃ s', store s = Ok (tt, s') ∧ (done_ s' = true ↔ a = tohost_addr s) ∧
    (a = tohost_addr s → tohost s' = Ok (gpr s (rs2 d), s')) ∧
    regf s' = regf s ∧ csrf s' = csrf s ∧ next_pc s' = next_pc s.
Proof.
  intros Hs Hd Hdec Ho a. destruct (store_word_eq d s Hs Hd Hdec Ho) as (m' & Hst & Hr & Hm).
  fold a in Hst, Hm. eexists. split; [exact Hst|]. split; [apply Z.eqb_eq|]. split; [|done].
  intros Ha. rewrite tohost_eq by (destruct Hs; by split). do 2 f_equal.
  apply (overlay_read (byte (pages (mem s)))); [apply Hs | by apply (gpr_u32 s) |].
  intros a' Ha'. simpl. rewrite <-Ha. by apply Hm.
Qed.

(** A fetch outside the executable ranges traps, and then the instruction runs
    all the same.  [step] raises the instruction access fault (cause 1, next program
    counter at the trap vector) and goes on to [exec]: an addition still writes its
    register, and a jump replaces the trap vector by its target, so the handler is
    never reached. *)
Theorem access_fault_still_executes {P : Platform} {C : CommonLib} {L : CommonLaws} {D : Decoder}
    {DO : DecoderOk} (s : model) :
  wf_model s → is_valid_pc (cur_pc s) s = false →
  let d := fetched_op s in
  ∃ s1, trap exp_inst_access_fault (begun s) = Ok (tt, s1) ∧ step s = exec s1 ∧
    csrv s1 (mcsr s ucause) = 1 ∧ next_pc s1 = 4 * (csrv s (mcsr s utvec) / 4) ∧
    (tgt d = target.alu → opt d = op_alu _add → use_pc d = false → has_imm d = true →
       ∃ s', step s = Ok (tt, s') ∧ next_pc s' = next_pc s1 ∧
         (rd d ≠ 0 → gpr s' (rd d) = u32 (gpr s (rs1 d) + imm d))) ∧
    (tgt d = target.alu → opt d = op_alu _jal → use_pc d = true → has_imm d = true →
       ∃ s', step s = Ok (tt, s') ∧ next_pc s' = u32 (cur_pc s + imm d)).
Proof.
  intros Hs Hpc d. pose proof (begun_spec s Hs) as (Hb & Hbpc & _ & Hbd).
  assert (csrv (begun s) (mcsr s utvec) = csrv s (mcsr s utvec)) as Hbv by done.
  assert (∀ i, gpr (begun s) i = gpr s i) as Hbg by done.
  assert (∀ r, mcsr (begun s) r = mcsr s r) as Hbm by done.
  pose proof (fetched_op_wf s Hs) as Hd. fold d in Hd, Hbd.
  pose proof (step_eq s Hs) as Hstep. rewrite Hpc in Hstep.
  revert Hb Hbpc Hbd Hbv Hbg Hbm Hstep. generalize (begun s). intros s0 Hb Hbpc Hbd Hbv Hbg Hbm Hstep.
  set (s1 := saved exp_inst_access_fault (vector s0) s0).
  assert (trap exp_inst_access_fault s0 = Ok (tt, s1)) as Ht by (by rewrite trap_exception_eq).
  rewrite (bind_ok _ _ _ _ _ Ht) in Hstep.
  destruct (frame_saved exp_inst_access_fault (vector s0) s0) as (Hregf & _).
  destruct (saved_registers exp_inst_access_fault (vector s0) s0 Hb) as (Hcause & _).
  assert (wf_model s1) as Hs1 by (by apply wf_saved).
  assert (next_pc s1 = 4 * (csrv s (mcsr s utvec) / 4)) as Hn.
  { unfold s1. rewrite next_pc_saved. unfold vector. rewrite Hbm, Hbv.
    by apply word_align_val, csrv_u32. }
  assert (cur_pc s1 = cur_pc s) as Hpc1 by (unfold s1; by rewrite cur_pc_saved).
  assert (dec (cur_state s1) = d) as Hd1 by done.
  assert (∀ i, gpr s1 i = gpr s i) as Hg1 by (intros i; rewrite <-Hbg; unfold gpr; by f_equal).
  rewrite Hbm in Hcause. change (csrv s1 (mcsr s ucause) = trap_cause_val exp_inst_access_fault) in Hcause.
  clearbody s1. exists s1. do 4 (split; [done|]).
  assert (∀ a, tgt d = target.alu → opt d = op_alu a → use_pc d = (is_jump a) → has_imm d = true →
    do_alu a (alu_operands d s1).1 (alu_operands d s1).2 = Ok (u32 ((alu_operands d s1).1 + imm d)) →
    step s = Ok (tt, if is_jump a then goto (u32 (cur_pc s + imm d)) (put_gpr (rd d) (u32 (cur_pc s1 + length_of d)) s1)
       else put_gpr (rd d) (u32 (gpr s (rs1 d) + imm d)) s1)) as Halu.
  { intros a Htgt Ho Hup Hhi Hdo. rewrite Hstep. unfold exec. rewrite bind_get_dec, Hd1, Htgt.
    rewrite (alu_eq d a s1 _ Hs1 Hd Hd1 Ho Hdo). simpl fst. rewrite Hup, Hpc1, <-Hg1. by destruct (is_jump a). }
  split; intros Htgt Ho Hup Hhi.
  - eexists. split; [apply Halu; try done; simpl; by rewrite Hhi|]. split; [done|]. intros Hne.
    destruct Hd as [? Hrd ? ? _]. simpl. rewrite gpr_put_gpr by done.
    by rewrite Z.eqb_refl, (proj2 (Z.eqb_neq _ _)).
  - eexists. split; [apply Halu; try done; simpl; by rewrite Hhi|]. apply next_pc_goto.
Qed.

(** ** Witnesses *)

Section witnesses.
#[local] Existing Instances wrapping ref_common ref_decoder.

Definition sample : model := sample_model sample_program.
Lemma sample_wf : wf_model sample.
Proof. apply sample_at_rest, sample_program_u32. Qed.

(** The sample hart with a decoded operation, and with interrupts enabled. *)
Definition decoded (d : op) (s : model) : model := with_state (with_fetched 0 d (cur_state s)) s.
Lemma decoded_wf d s : wf_model s → wf_op d → wf_model (decoded d s).
Proof. by intros [] ?. Qed.
Definition interruptible (s : model) : model :=
  put_csr (csr_val mie) 0x80 (put_csr (csr_val mip) 0x80 (put_csr (csr_val mstatus) 0x8 s)).
Lemma interruptible_wf s : wf_model s → wf_model (interruptible s).
Proof. intros. by repeat (apply wf_put_csr; [|lia]). Qed.

Definition csr_sample (sy : masks.sys) (number r1 : Z) : op :=
  mk_op number (op_sys sy) target.csr 5 r1 0 true false false.
Lemma csr_sample_wf sy number r1 : 0 ≤ number < 4096 → 0 ≤ r1 < 32 → wf_op (csr_sample sy number r1).
Proof. intros. split; simpl; try lia. unfold opt_matches; simpl. apply Z.ltb_lt. lia. Qed.

Lemma exception_entry_witness :
  ∃ s', trap exp_breakpoint sample = Ok (tt, s') ∧ csrv s' (csr_val mepc) = 0x1000.
Proof.
  destruct (exception_entry exp_breakpoint sample sample_wf eq_refl eq_refl)
    as (s' & Ht & _ & _ & _ & He & _).
  exists s'. split; [exact Ht|]. exact He.
Defined.

Lemma ecall_exit_witness :
  ∃ s', (c ← gets ecall_cause; trap c) (put_gpr 17 93 (put_gpr 10 4 sample)) = Ok (tt, s') ∧
    done_ s' = true ∧ tohost s' = Ok (4, s').
Proof.
  assert (wf_model (put_gpr 17 93 (put_gpr 10 4 sample))) as Hs.
  { apply wf_put_gpr; [apply wf_put_gpr; [apply sample_wf | lia | lia] | lia | lia]. }
  destruct (ecall_exit _ Hs) as (s' & Ht & _ & _ & Hd). exists s'. split; [exact Ht|]. exact Hd.
Defined.

Lemma interrupt_taken_witness :
  ∃ s', trap int_timer_m (interruptible sample) = Ok (tt, s') ∧ cur_pc s' = 28.
Proof.
  destruct (interrupt_taken int_timer_m (interruptible sample) (interruptible_wf _ sample_wf) eq_refl)
    as (s' & Ht & Hs'). exists s'. split; [exact Ht|]. exact (proj1 Hs').
Defined.

(** Out of reset the handler of an illegal instruction returns to user mode. *)
Lemma exception_return_loses_mode_witness :
  ∃ s', (trap exp_inst_illegal;; handle_mret) sample = Ok (tt, s') ∧ mode s' = set_mode user ∧ next_pc s' = 0x1004 ∧
    can_read (csr_val mcause) (mode s') = false.
Proof.
  destruct (exception_return_loses_mode exp_inst_illegal sample sample_wf eq_refl eq_refl eq_refl)
    as (s' & Ht & _ & Hm & _ & Hn & _ & _ & Ha).
  exists s'. split; [exact Ht|]. split; [exact Hm|]. split; [exact Hn|].
  refine (proj1 (Ha _ (csr_val mcause) _ _)); [reflexivity | vm_compute; split; done | reflexivity].
Defined.

Lemma mret_returns_witness :
  ∃ s', handle_mret (interruptible sample) = Ok (tt, s') ∧ mode s' = set_mode user.
Proof.
  destruct (mret_returns (interruptible sample) (interruptible_wf _ sample_wf))
    as (s' & Hr & _ & _ & Hm & _). exists s'. split; [exact Hr | exact Hm].
Defined.

Lemma interrupt_return_skips_witness :
  ∃ s', (trap int_timer_m;; handle_mret) (interruptible sample) = Ok (tt, s') ∧ next_pc s' = 0x1004.
Proof.
  destruct (interrupt_return_skips int_timer_m (interruptible sample)
    (interruptible_wf _ sample_wf) eq_refl eq_refl eq_refl) as (s' & Hr & _ & _ & Hn & _).
  exists s'. split; [exact Hr | exact Hn].
Defined.

Lemma csr_operation_witness :
  ∃ s', handle_csr (decoded (csr_sample masks.csrrwi 0x305 8) sample) = Ok (tt, s') ∧
    csrv s' 0x305 = 8 ∧ gpr s' 5 = 0.
Proof.
  assert (wf_op (csr_sample masks.csrrwi 0x305 8)) as Hd by (apply csr_sample_wf; lia).
  destruct (csr_operation (decoded (csr_sample masks.csrrwi 0x305 8) sample)
    (csr_sample masks.csrrwi 0x305 8) masks.csrrwi (decoded_wf _ _ sample_wf Hd) eq_refl Hd eq_refl
    eq_refl eq_refl) as (s' & Hr & _ & Hg & Hc & _).
  exists s'. split; [exact Hr|]. split; [exact (Hc 0x305) | exact (Hg 5)].
Defined.

Lemma csr_refused_witness :
  ∃ s', handle_csr (decoded (csr_sample masks.csrrw 0xF14 8) sample) = Ok (tt, s') ∧
    csrv s' (csr_val mcause) = 2.
Proof.
  assert (wf_op (csr_sample masks.csrrw 0xF14 8)) as Hd by (apply csr_sample_wf; lia).
  destruct (csr_refused (decoded (csr_sample masks.csrrw 0xF14 8) sample)
    (csr_sample masks.csrrw 0xF14 8) masks.csrrw (decoded_wf _ _ sample_wf Hd) eq_refl Hd eq_refl
    eq_refl eq_refl) as (s' & Hr & _ & _ & _ & Hc & _).
  exists s'. split; [exact Hr | exact Hc].
Defined.

(** Clearing the low bits of mie, which holds 0x80, loses the timer bit. *)
Lemma csrrc_clears_everything_witness :
  csr_new masks.csrrci (csr_sample masks.csrrci 0x304 3) (interruptible sample) = 0 ∧
  csrv (interruptible sample) 0x304 = 0x80.
Proof.
  assert (wf_op (csr_sample masks.csrrci 0x304 3)) as Hd by (apply csr_sample_wf; lia).
  split; [|reflexivity].
  exact (proj1 (csrrc_clears_everything (interruptible sample) (csr_sample masks.csrrci 0x304 3)
    masks.csrrci (interruptible_wf _ sample_wf) Hd (or_intror eq_refl) ltac:(done))).
Defined.

Lemma sample_timer_ok t : length t = 8%nat → Forall (λ b, is_u8 b) t → timer_ok t.
Proof. by split. Qed.
Lemma timer_array_is_not_read_witness :
  let s' := with_mem (with_mtime (replicate 8 255) (with_mtimecmp (replicate 8 1) (mem sample))) sample in
  interrupt_pending s' = Ok (tt, s').
Proof.
  refine (proj2 (timer_array_is_not_read sample (replicate 8 255) (replicate 8 1) sample_wf _ _) eq_refl);
    (apply sample_timer_ok; [done | by repeat constructor]).
Defined.

(** The pages hold the count 5 at 0x8000. *)
Definition due_options : options :=
  mk_options "prog.elf" "tohost" "" "" 0x8000 0x8100 100 0 false true false false.
Definition due_sample : model :=
  interruptible (model_of due_options 0x1000 [] 0x2000 (assemble [5] 0x8000 sample_router)).
Lemma due_sample_wf : wf_model due_sample.
Proof.
  apply interruptible_wf, at_rest_model_of; [lia | lia | | by split | simpl; lia | simpl; lia].
  apply wf_assemble; [by repeat constructor | lia | apply sample_router_ok].
Qed.
Lemma timer_interrupt_witness :
  ∃ s', interrupt_pending due_sample = Ok (tt, s') ∧ cur_pc s' = 28.
Proof.
  destruct (timer_interrupt due_sample due_sample_wf eq_refl ltac:(by vm_compute) eq_refl eq_refl)
    as (s' & Hr & Hpc & _). exists s'. split; [exact Hr | exact Hpc].
Defined.

Definition sw_sample : op := mk_op 0x2000 (op_store masks.sw) target.store 0 0 0 true false false.
Lemma sw_sample_wf : wf_op sw_sample.
Proof. split; simpl; (done || lia). Qed.
Lemma store_to_tohost_witness :
  ∃ s', store (decoded sw_sample sample) = Ok (tt, s') ∧ done_ s' = true ∧ tohost s' = Ok (0, s').
Proof.
  destruct (store_to_tohost (decoded sw_sample sample) sw_sample
    (decoded_wf _ _ sample_wf sw_sample_wf) sw_sample_wf eq_refl eq_refl) as (s' & Hr & Hd & Ht & _).
  exists s'. split; [exact Hr|]. split; [by apply Hd | by apply Ht].
Defined.

(** The same program, with no executable range. *)
Definition faulting : model := model_of sample_options 0x1000 [] 0x2000 (assemble sample_program 0x1000 sample_router).
Lemma faulting_wf : wf_model faulting.
Proof.
  apply at_rest_model_of; [lia | lia | | by split | simpl; lia | simpl; lia].
  apply wf_assemble; [apply sample_program_u32 | lia | apply sample_router_ok].
Qed.
Lemma access_fault_still_executes_witness :
  ∃ s1 s', trap exp_inst_access_fault (begun faulting) = Ok (tt, s1) ∧ csrv s1 (csr_val mcause) = 1 ∧
    step faulting = Ok (tt, s') ∧ gpr s' 1 = 5.
Proof.
  assert (fetched_op faulting = ref_decode false 0x00500093) as Hd by (vm_compute; reflexivity).
  destruct (access_fault_still_executes faulting faulting_wf eq_refl) as (s1 & Ht & _ & Hc & _ & Ha & _).
  rewrite Hd in Ha. destruct (Ha eq_refl eq_refl eq_refl eq_refl) as (s' & Hs & _ & Hg).
  exists s1, s'. split; [exact Ht|]. split; [exact Hc|]. split; [exact Hs|]. by apply Hg.
Defined.
End witnesses.
