(* ===== verification/Exits.v ===== *)
(** * Programs that exit ([src/iss/model.cpp], [store] and [handle_sys_exit])

    A simulated program ends by an environment call or by a store to the tohost word.
    Here the refinement of [Isa] is extended to the instruction that ends the program:
    where the reference interpreter [isa_run] returns an exit code, the hart is done after
    as many cycles, not before, and tohost holds the code. *)

From S2P Require Export Isa Traps.

Section exits.
Context {P : Platform} {C : CommonLib} {L : CommonLaws} {D : Decoder} {DO : DecoderOk}.
Context {promised : alu → Z → Z → bool} {AR : Arithmetic P promised}.
Implicit Types (s : model) (σ τ : arch).

(** The hart is at rest, done, and tohost holds [code]. *)
Definition exited (code : Z) s : Prop :=
  at_rest s ∧ done_ s = true ∧ tohost s = Ok (code, s).

Lemma exited_intro s code : at_rest s → is_done s = true →
  le_value (byte (pages (mem s))) (tohost_addr s) 4 = code → exited code s.
Proof. intros Hs Hd <-. split; [done|]. split; [done|]. apply tohost_eq, Hs. Qed.

(** The environment call that ends the program. *)
Lemma sys_exit_exits s : wf_model s → is_u32 (next_pc s) → gpr s 17 = 93 →
  ∃ s', handle_sys_exit s = Ok (tt, s') ∧ wf_model s' ∧ is_u32 (next_pc s') ∧ is_done s' = true ∧
    fixed s' = fixed s ∧ le_value (byte (pages (mem s'))) (tohost_addr s') 4 = gpr s 10.
Proof.
  intros Hs Hn H17. pose proof (sys_exit_eq s Hs) as Hx. unfold exits in Hx. rewrite H17 in Hx.
  destruct Hx as (m' & Hx & Hr & Hm). eexists. split; [exact Hx|].
  split; [destruct Hs; by split|]. do 3 (split; [done|]).
  eapply overlay_read; [apply Hs | by apply gpr_u32 | exact Hm].
Qed.

Lemma ecall_exec s : wf_model s → tgt (dec (cur_state s)) = target.ecall → gpr s 17 = 93 →
  ∃ s', exec s = Ok (tt, s') ∧ wf_model s' ∧ is_u32 (next_pc s') ∧ is_done s' = true ∧ fixed s' = fixed s ∧
    le_value (byte (pages (mem s'))) (tohost_addr s') 4 = gpr s 10.
Proof.
  intros Hs Htgt H17. unfold exec. rewrite bind_get_dec, Htgt, bind_gets. set (c := ecall_cause s).
  assert (is_int c = false ∧ is_ecall c = true) as [Hc He] by (unfold c, ecall_cause; by destruct (Csr.m _)).
  rewrite trap_exception_eq, He by done. destruct (frame_saved c (vector s) s) as (Hreg & _ & _ & _ & Hf).
  assert (∀ i, gpr (saved c (vector s) s) i = gpr s i) as Hgpr by (intros i; unfold gpr; by rewrite Hreg).
  rewrite <-Hf, <-(Hgpr 10). apply sys_exit_exits; [by apply wf_saved | | by rewrite Hgpr].
  rewrite next_pc_saved. unfold vector. rewrite word_align_val by by apply csrv_u32.
  pose proof (csrv_u32 s (mcsr s utvec) Hs). word.
Qed.

Lemma tick_of_step s s1 : mti_enabled (opts s1) = false → step s = Ok (tt, s1) →
  tick s = Ok (tt, settled (jump s1)).
Proof. intros Ho Hs. unfold tick. by rewrite (bind_ok _ _ _ _ _ Hs), commit_eq. Qed.

Lemma ecall_tick s σ : at_rest s → mti_enabled (opts s) = false → shows s (cur_pc s) σ →
  is_address_initialized (allowed_pcs s) (a_pc σ) = true →
  tgt (isa_decode (a_mem σ) (a_pc σ)) = target.ecall → a_reg σ 17 = 93 →
  ∃ s', tick s = Ok (tt, s') ∧ exited (a_reg σ 10) s' ∧ fixed s' = fixed s.
Proof.
  intros (Hs & _) Ho Hsh Hin Htgt H17. destruct (begun_ready s σ Hs Hsh) as (Hr & Hdec & _).
  rewrite Hdec in Htgt. rewrite (shows_pc _ _ _ Hsh) in Hin. rewrite !(shows_reg _ _ _ Hsh) in * by lia.
  destruct (ecall_exec (begun s)) as (s1 & Hx & Hwf & Hn & Hd & Hf & Hcode);
    [apply Hr | by rewrite (ready_dec _ _ _ Hr) | done |].
  assert (step s = Ok (tt, s1)) as Hstep by (rewrite step_eq by done; unfold is_valid_pc; by rewrite Hin).
  exists (settled (jump s1)).
  assert (fixed s1 = fixed s) as Hfs by done. injection Hfs as _ Hop _ _ _.
  split; [apply tick_of_step; [by rewrite Hop | done]|]. split; [|done]. apply exited_intro; [|done | exact Hcode]. split; [|done].
  by apply (wf_jump s1) in Hwf as [].
Qed.

(** A store to tohost that ends the program, and any instruction that does not end it. *)
Lemma exit_tick s σ code : at_rest s → mti_enabled (opts s) = false → shows s (cur_pc s) σ →
  is_address_initialized (allowed_pcs s) (a_pc σ) = true →
  isa_exit (mtime_addr (mem s)) (mtimecmp_addr (mem s)) (tohost_addr s) (isa_decode (a_mem σ) (a_pc σ)) σ = Some code →
  ∃ s', tick s = Ok (tt, s') ∧ exited code s' ∧ fixed s' = fixed s.
Proof.
  intros Hs Ho Hsh Hin. unfold isa_exit.
  destruct (tgt _) eqn:Htgt; try done.
  2: { destruct (Z.eqb_spec (a_reg σ 17) 93) as [H17|]; [|done]. intros [= <-]. by apply ecall_tick. }
  destruct (opt _) as [| | |t| |] eqn:Hopt; try done. destruct (_ =? _) eqn:Hhit; [|done].
  intros Hcode. apply bind_Some in Hcode as (f & Hf & [= <-]).
  destruct (tick_simulates (promised := promised) s σ
    (mk_arch (u32 (a_pc σ + (if is_compressed (isa_decode (a_mem σ) (a_pc σ)) then 2 else 4))) (a_reg σ) f))
    as (s' & Ht & Hs' & Hsh' & (_ & _ & _ & Hfx) & Hd); [done..| |].
  { unfold isa_step, isa_exec, isa_exec_to. by rewrite Hin, Htgt, Hopt, Hf. }
  exists s'. split; [done|]. split; [|done]. apply exited_intro; [done | |].
  - rewrite Hd. unfold done_after. by rewrite Htgt.
  - assert (tohost_addr s' = tohost_addr s) as -> by (unfold fixed in Hfx; congruence).
    assert (is_u32 (tohost_addr s)) as Hto by apply Hs.
    symmetry. exact (shows_read s' (cur_pc s') _ _ 4 Hto Hsh').
Qed.

Lemma quiet_tick s σ τ : at_rest s → mti_enabled (opts s) = false → shows s (cur_pc s) σ → done_ s = false →
  isa_exit (mtime_addr (mem s)) (mtimecmp_addr (mem s)) (tohost_addr s) (isa_decode (a_mem σ) (a_pc σ)) σ = None →
  isa_step promised (allowed_pcs s) (mtime_addr (mem s)) (mtimecmp_addr (mem s)) σ = Some τ →
  ∃ s', tick s = Ok (tt, s') ∧ at_rest s' ∧ shows s' (cur_pc s') τ ∧ fixed s' = fixed s ∧ done_ s' = false.
Proof.
  intros Hs Ho Hsh Hd Hx Hτ.
  destruct (tick_simulates s σ τ Hs Ho Hsh Hτ) as (s' & Ht & Hs' & Hsh' & (_ & _ & _ & Hf) & Hdone).
  exists s'. do 4 (split; [done|]). unfold done_ in *. rewrite Hdone, Hd. unfold done_after.
  unfold isa_step in Hτ. destruct (is_address_initialized _ _); [|done].
  unfold isa_exec, isa_exec_to, isa_exit in *. destruct (tgt _); try done.
  destruct (opt _) as [| | |t| |]; try done. destruct (_ =? _); [|done].
  apply bind_Some in Hτ as (f & Hf' & _). by rewrite Hf' in Hx.
Qed.
End exits.

(** ** Properties *)

(** The exit code of a program.  If the reference interpreter, started where a hart at
    rest stands, returns an exit code within [n] instructions (by the environment call 93
    or by a store to the tohost word), then the hart, with the timer off, is done after
    some number of cycles that is at most [n], was not done before, and [tohost] returns
    that code.  The interpreter is as total as the code allows: it has no answer only
    where [simulator_refines_isa] promises nothing. *)
Theorem program_exits {P : Platform} {C : CommonLib} {L : CommonLaws} {D : Decoder} {DO : DecoderOk}
    {promised} {AR : Arithmetic P promised} n (s : model) σ code :
  at_rest s → mti_enabled (opts s) = false → shows s (cur_pc s) σ → done_ s = false →
  isa_run promised (allowed_pcs s) (mtime_addr (mem s)) (mtimecmp_addr (mem s)) (tohost_addr s) n σ = Some code →
  ∃ k s', (0 < k ≤ n)%nat ∧ ticks k s = Ok (tt, s') ∧ exited code s' ∧ fixed s' = fixed s ∧
    ∀ j sj, (j < k)%nat → ticks j s = Ok (tt, sj) → done_ sj = false.
Proof.
  revert s σ. induction n as [|n IH]; intros s σ Hs Ho Hsh Hd; [done|]. cbn [isa_run].
  destruct (is_address_initialized _ _) eqn:Hin; [|done].
  destruct (isa_exit _ _ _ _ _) as [c|] eqn:Hx.
  - intros [= ->]. destruct (exit_tick s σ code) as (s' & Ht & Hex & Hf); [done..|].
    exists 1%nat, s'. split; [lia|]. split; [cbn [ticks]; by rewrite (bind_ok _ _ _ _ _ Ht)|].
    do 2 (split; [done|]). intros j sj Hj Hsj. assert (j = 0)%nat as -> by lia. by injection Hsj as <-.
  - intros Hrun. apply bind_Some in Hrun as (τ & Hτ & Hrun).
    destruct (quiet_tick s σ τ Hs Ho Hsh Hd Hx Hτ) as (s1 & Ht & Hs1 & Hsh1 & Hf & Hd1).
    pose proof Hf as Hfx. injection Hfx as Ha Hop Hto Hta Htc.
    destruct (IH s1 τ) as (k & s' & Hk & Hrun' & Hex & Hf' & Hb); [done | congruence | done | done | congruence |].
    exists (S k), s'. split; [lia|]. split; [cbn [ticks]; by rewrite (bind_ok _ _ _ _ _ Ht)|].
    split; [done|]. split; [congruence|]. intros [|j] sj Hj Hsj; [by injection Hsj as <-|].
    cbn [ticks] in Hsj. rewrite (bind_ok _ _ _ _ _ Ht) in Hsj. apply (Hb j); [lia | done].
Qed.

(** ** Witnesses *)

Section witnesses.
#[local] Existing Instances wrapping ref_common ref_decoder.

(** [addi a0,zero,5; addi a7,zero,93; ecall]. *)
Definition exiting : model := sample_model [0x00500513; 0x05D00893; 0x00000073].
Definition exiting_arch : arch := mk_arch 0x1000 (gpr exiting) (byte (pages (mem exiting))).
Lemma exiting_at_rest : at_rest exiting.
Proof. apply sample_at_rest. repeat constructor; lia. Qed.
Lemma program_exits_witness :
  ∃ k s', (0 < k ≤ 10)%nat ∧ ticks k exiting = Ok (tt, s') ∧ tohost s' = Ok (5, s').
Proof.
  destruct (program_exits (promised := promise_all) 10 exiting exiting_arch 5) as (k & s' & Hk & Hr & (_ & _ & Ht) & _).
  - exact exiting_at_rest.
  - done.
  - by split.
  - done.
  - vm_compute. reflexivity.
  - exists k, s'. split; [exact Hk | split; [exact Hr | exact Ht]].
Defined.
End witnesses.
