(* ===== verification/Priv.v ===== *)
(** * Refinement of the whole hart

    The abstract machine of [Isa] extended to everything a hart does in a cycle: the CSRs
    and the bytes of the two timer registers as functions, the privilege mode, the done
    flag; steps for byte accesses to the timer registers, the CSR instructions, the
    environment call with its exit protocol, the breakpoint, illegal instructions, [mret],
    a fetch outside the executable ranges; and at the end of a cycle the timer interrupt.
    It is the architecture's privileged machine with the simulator's departures written
    out, in arithmetic on functions: a trap is taken in the mode it occurs in, the saved
    program counter of most causes is the following word, a clearing CSR instruction
    negates its operand with the logical operator, and after an instruction access fault
    the instruction is executed all the same.  It has a step from every state in which the
    arithmetic has a result. *)

From S2P Require Export Exits.
From S2P Require RegFile.

(** ** The abstract machine *)

Record cpu : Type := mk_cpu {
  cpu_arch : arch; cpu_dev : Z → Z; cpu_csr : Z → Z; cpu_priv : privilege; cpu_done : bool
}.

(** Where things are: the executable ranges, the two timer registers of the router, the
    tohost word, and the two addresses whose contents the timer interrupt compares, count
    first, if it is on. *)
Record soc : Type := mk_soc {
  executable : list (Z * Z); mtime_at : Z; mtimecmp_at : Z; tohost_at : Z; compared : option (Z * Z)
}.

(** The machine out of reset. *)
Definition cpu_reset (pc : Z) (f : Z → Z) : cpu := mk_cpu (mk_arch pc (λ _, 0) f) (λ _, 0) (λ _, 0) machine false.

Section cpu.
Context `{Decoder}.
Context (promised : alu → Z → Z → bool) (ς : soc).
Implicit Types (κ : cpu) (c : trap_cause).

Definition set_at (f : Z → Z) (a v : Z) : Z → Z := λ b, if b =? a then v else f b.
Definition with_target (v : Z) κ : cpu :=
  mk_cpu (mk_arch v (a_reg (cpu_arch κ)) (a_mem (cpu_arch κ))) (cpu_dev κ) (cpu_csr κ) (cpu_priv κ) (cpu_done κ).
Definition with_csrs (f : Z → Z) κ : cpu := mk_cpu (cpu_arch κ) (cpu_dev κ) f (cpu_priv κ) (cpu_done κ).
Definition with_dev (f : Z → Z) κ : cpu := mk_cpu (cpu_arch κ) f (cpu_csr κ) (cpu_priv κ) (cpu_done κ).
Definition with_arch σ κ : cpu := mk_cpu σ (cpu_dev κ) (cpu_csr κ) (cpu_priv κ) (cpu_done κ).
Definition with_end (b : bool) κ : cpu := mk_cpu (cpu_arch κ) (cpu_dev κ) (cpu_csr κ) (cpu_priv κ) b.

(** The number of a trap register in the mode of the machine. *)
Definition trap_register κ (r : csr) : Z := 256 * privilege_val (cpu_priv κ) + csr_val r.
Definition saved_pc c (v : Z) : Z :=
  if is_ecall c || bool_decide (c = exp_breakpoint) then 4 * (v / 4) else u32 (4 * (v / 4) + 4).
(** A trap to [entry]. *)
Definition cpu_save c (entry : Z) κ : cpu :=
  with_target entry (with_csrs
    (set_at (set_at (set_at (cpu_csr κ) (trap_register κ ucause) (trap_cause_val c))
       (trap_register κ utval) 0)
       (trap_register κ uepc) (saved_pc c (a_pc (cpu_arch κ)))) κ).
Definition trap_vector κ : Z := 4 * (cpu_csr κ (trap_register κ utvec) / 4).
Definition cpu_trap c κ : cpu := cpu_save c (trap_vector κ) κ.

(** The environment call: a trap, and the exit protocol. *)
Definition cpu_exit κ : cpu :=
  let σ := cpu_arch κ in
  if a_reg σ 17 =? 93 then
    with_end true (with_arch (mk_arch (a_pc σ) (a_reg σ) (overlay (a_mem σ) (tohost_at ς) 4 (a_reg σ 10))) κ)
  else κ.
Definition call_cause κ : trap_cause :=
  match cpu_priv κ with
  | user => exp_ecall_from_u_vu_mode
  | supervisor => exp_ecall_from_vs_mode
  | hypervisor => exp_ecall_from_hs_mode
  | machine => exp_ecall_from_m_mode
  end.

(** CSR access: bits 9:8 of the number are the lowest privilege, both of 11:10 set make it
    read-only. *)
Definition may_read κ (a : Z) : bool := (a / 2 ^ 8) mod 4 <=? privilege_val (cpu_priv κ).
Definition may_write κ (a : Z) : bool := negb ((a / 2 ^ 10) mod 4 =? 3) && may_read κ a.
Definition csr_value (sy : masks.sys) (operand old : Z) : Z :=
  match sy with
  | masks.csrrw | masks.csrrwi => operand
  | masks.csrrs | masks.csrrsi => Z.lor operand old
  | masks.csrrc | masks.csrrci => if operand =? 0 then Z.land old 1 else 0
  | _ => old
  end.
Definition cpu_csr_op (sy : masks.sys) (d : op) (next : Z) κ : cpu :=
  let σ := cpu_arch κ in
  let old := if csr_reads sy d then cpu_csr κ (imm d) else 0 in
  let operand := if reg_form sy then a_reg σ (rs1 d) else rs1 d in
  if implb (csr_reads sy d) (may_read κ (imm d)) && implb (csr_writes sy d) (may_write κ (imm d)) then
    with_arch (mk_arch next (set_reg (a_reg σ) (rd d) old) (a_mem σ))
      (if csr_writes sy d then with_csrs (set_at (cpu_csr κ) (imm d) (csr_value sy operand old)) κ else κ)
  else cpu_trap exp_inst_illegal κ.

Definition cpu_return κ : cpu :=
  let v := cpu_csr κ (csr_val mstatus) in
  mk_cpu (mk_arch (cpu_csr κ (csr_val mepc)) (a_reg (cpu_arch κ)) (a_mem (cpu_arch κ))) (cpu_dev κ)
    (set_at (cpu_csr κ) (csr_val mstatus) (mstatus_on_return v))
    (privilege_of (v / 2 ^ status.mpp mod 4)) (cpu_done κ).

(** Byte accesses to the timer registers. *)
Definition timer_byte (d : op) (σ : arch) : bool :=
  match tgt d, opt d with
  | target.load, op_load (masks.lb | masks.lbu) | target.store, op_store masks.sb =>
      negb (off_timer (mtime_at ς) (mtimecmp_at ς) (u32 (a_reg σ (rs1 d) + imm d)))
  | _, _ => false
  end.
Definition cpu_device (d : op) (next : Z) κ : cpu :=
  let σ := cpu_arch κ in
  let a := u32 (a_reg σ (rs1 d) + imm d) in
  let loads (v : Z) := with_arch (mk_arch next (set_reg (a_reg σ) (rd d) v) (a_mem σ)) κ in
  match opt d with
  | op_load masks.lb => loads (sext 8 (cpu_dev κ a))
  | op_load _ => loads (cpu_dev κ a)
  | _ => with_end (a =? tohost_at ς) (with_dev (set_at (cpu_dev κ) a (u8 (a_reg σ (rs2 d)))) (with_target next κ))
  end.

(** The instruction [d] at the program counter, with [next] after it unless it goes
    elsewhere. *)
Definition cpu_exec (d : op) (next : Z) κ : option cpu :=
  let σ := cpu_arch κ in
  match tgt d, opt d with
  | target.csr, op_sys sy => Some (cpu_csr_op sy d next κ)
  | target.mret, _ => Some (cpu_return κ)
  | target.ecall, _ => Some (cpu_exit (cpu_trap (call_cause κ) κ))
  | target.ebreak, _ => Some (cpu_trap exp_breakpoint κ)
  | target.illegal, _ => Some (cpu_trap exp_inst_illegal κ)
  | target.target_unnamed _, _ => Some (with_target next κ)
  | _, _ =>
      if timer_byte d σ then Some (cpu_device d next κ)
      else
        τ ← isa_exec_to promised (mtime_at ς) (mtimecmp_at ς) d next σ;
        Some (with_end (done_after d (tohost_at ς) σ (cpu_done κ)) (with_arch τ κ))
  end.

(** The end of a cycle: when the count exceeds the comparison value the timer interrupt
    becomes pending, and if it is enabled, it is taken at once. *)
Definition takes c κ : bool :=
  Z.testbit (cpu_csr κ (csr_val mie)) (number c) && Z.testbit (cpu_csr κ (csr_val mip)) (number c)
  && Z.testbit (cpu_csr κ (csr_val mstatus)) status.mie.
Definition cpu_interrupt c κ : cpu :=
  if takes c κ then
    let f := set_at (cpu_csr κ) (csr_val mip) (Z.clearbit (cpu_csr κ (csr_val mip)) (number c)) in
    let f := set_at f (csr_val mstatus) (mstatus_on_entry (cpu_csr κ (csr_val mstatus))) in
    cpu_save c (u32 (trap_vector κ + 4 * number c)) (with_csrs f κ)
  else κ.
Definition cpu_pend c κ : cpu :=
  with_csrs (set_at (cpu_csr κ) (csr_val mip) (Z.setbit (cpu_csr κ (csr_val mip)) (number c))) κ.
Definition cpu_commit κ : cpu :=
  match compared ς with
  | Some (t, tc) =>
      if le_value (a_mem (cpu_arch κ)) tc 8 <? le_value (a_mem (cpu_arch κ)) t 8
      then cpu_interrupt int_timer_m (cpu_pend int_timer_m κ) else κ
  | None => κ
  end.

Definition decoded_at (σ : arch) : op := isa_decode (a_mem σ) (a_pc σ).
Definition cpu_fault κ : cpu := with_target (a_pc (cpu_arch κ)) (cpu_trap exp_inst_access_fault κ).
Definition cpu_step κ : option cpu :=
  let σ := cpu_arch κ in
  let d := decoded_at σ in
  κ' ← (if is_address_initialized (executable ς) (a_pc σ) then cpu_exec d (link_of d σ) κ
        else cpu_exec d (trap_vector κ) (cpu_fault κ));
  Some (cpu_commit κ').

(** Where the machine has no step: where the arithmetic makes no promise. *)
Definition unpromised (d : op) (σ : arch) : bool :=
  match tgt d, opt d with
  | target.alu, op_alu a =>
      negb (promised a (if use_pc d then a_pc σ else a_reg σ (rs1 d)) (if has_imm d then imm d else a_reg σ (rs2 d)))
  | _, _ => false
  end.
Definition stuck κ : bool := unpromised (decoded_at (cpu_arch κ)) (cpu_arch κ).

(** What the timer thread does to the machine, if there is one; and an instruction that
    meets it, a byte access to a timer register. *)
Definition cpu_count κ : cpu :=
  if in_window (mtime_at ς) (mtime_at ς)
  then with_dev (set_at (cpu_dev κ) (mtime_at ς) (u8 (cpu_dev κ (mtime_at ς) + 1))) κ else κ.
Definition contended κ : bool :=
  match compared ς with Some _ => timer_byte (decoded_at (cpu_arch κ)) (cpu_arch κ) | None => false end.
Inductive cpu_move : cpu → cpu → Prop :=
  | move_cycle κ κ' : cpu_step κ = Some κ' → cpu_move κ κ'
  | move_count κ : compared ς ≠ None → cpu_move κ (cpu_count κ).

Fixpoint cpu_steps (n : nat) κ : option cpu :=
  match n with O => Some κ | S n => κ' ← cpu_step κ; cpu_steps n κ' end.
(** No contended instruction in [n] cycles. *)
Fixpoint alone (n : nat) κ : bool :=
  match n with
  | O => true
  | S n => negb (contended κ) && match cpu_step κ with Some κ' => alone n κ' | None => true end
  end.
(** At most [n] cycles to the exit code. *)
Fixpoint cpu_run (n : nat) κ : option Z :=
  if cpu_done κ then Some (le_value (a_mem (cpu_arch κ)) (tohost_at ς) 4)
  else match n with O => None | S n => κ' ← cpu_step κ; cpu_run n κ' end.
End cpu.

(** ** Simulation *)

Section simulation.
Context {P : Platform} {C : CommonLib} {L : CommonLaws} {D : Decoder} {DO : DecoderOk}.
Context {promised : alu → Z → Z → bool} {AR : Arithmetic P promised}.
Implicit Types (s : model) (κ : cpu) (c : trap_cause).

(** [s] with program counter [v] shows the state [κ]. *)
Record presents s (v : Z) κ : Prop := {
  presents_arch : shows s v (cpu_arch κ);
  presents_dev a : is_u32 a → off_timer (mtime_addr (mem s)) (mtimecmp_addr (mem s)) a = false →
    cpu_dev κ a = router_byte (mem s) a;
  presents_csr a : cpu_csr κ a = csrv s a;
  presents_mode : mode s = set_mode (cpu_priv κ);
  presents_done : is_done s = cpu_done κ
}.
Definition soc_of s : soc :=
  mk_soc (allowed_pcs s) (mtime_addr (mem s)) (mtimecmp_addr (mem s)) (tohost_addr s)
    (if mti_enabled (opts s) then Some (o_mtime (opts s), o_mtimecmp (opts s)) else None).
(** The end of an instruction. *)
Definition arrives s s' κ : Prop :=
  wf_model s' ∧ is_u32 (next_pc s') ∧ presents s' (next_pc s') κ ∧ fixed s' = fixed s.

Lemma soc_of_fixed s s' : fixed s' = fixed s → soc_of s' = soc_of s.
Proof. unfold fixed, soc_of. intros [= -> -> -> -> ->]. done. Qed.

(** A machine out of reset shows the machine out of reset. *)
Lemma nth_z_zeros i : default 0 (nth_z (replicate 8 0) i) = 0.
Proof.
  destruct (nth_z (replicate 8 0) i) as [v|] eqn:Hv; [|done].
  exact (nth_z_Forall (λ b, b = 0) _ _ _ (Forall_replicate _ _ _ eq_refl) Hv).
Qed.
Lemma presents_reset opt pc ranges th r : mtime r = replicate 8 0 → mtimecmp r = replicate 8 0 →
  presents (model_of opt pc ranges th r) (cur_pc (model_of opt pc ranges th r)) (cpu_reset pc (byte (pages r))).
Proof.
  intros Ht Htc. split; [split | | | |]; try done.
  - symmetry. apply pc_get_of.
  - intros i _. symmetry. apply RegFile.reg_init.
  - intros a _ Hoff. unfold off_timer, router_byte in *.
    simpl in *. rewrite Ht, Htc, !nth_z_zeros. by destruct (in_window _ a), (in_window _ a).
  - intros a. symmetry. apply csr_at_init.
Qed.

(** Which bytes of the router are those of the timer registers. *)
Lemma router_byte_pages m r a : off_timer (mtime_addr r) (mtimecmp_addr r) a = false →
  router_byte (with_pages m r) a = router_byte r a.
Proof. unfold off_timer, router_byte. simpl. by destruct (in_window _ a), (in_window _ a). Qed.
Lemma router_byte_timers s s' a : timers s' = timers s → fixed s' = fixed s →
  off_timer (mtime_addr (mem s)) (mtimecmp_addr (mem s)) a = false → router_byte (mem s') a = router_byte (mem s) a.
Proof.
  unfold timers, fixed, off_timer, router_byte. intros [= -> ->] [= _ _ _ -> ->].
  by destruct (in_window _ a), (in_window _ a).
Qed.

Lemma presents_register s v κ (r : csr) : wf_model s → presents s v κ → csr_val r < 256 →
  trap_register κ r = mcsr s r.
Proof. intros Hs [_ _ _ Hm _] Hr. rewrite mcsr_val by done. unfold trap_register. by rewrite Hm. Qed.
Lemma presents_vector s v κ : wf_model s → presents s v κ → trap_vector κ = vector s.
Proof.
  intros Hs Hp. unfold trap_vector, vector. rewrite (presents_register s v), (presents_csr s v κ Hp) by done.
  by rewrite word_align_val by by apply csrv_u32.
Qed.
Lemma vector_u32 s : wf_model s → is_u32 (vector s).
Proof.
  intros Hs. unfold vector. pose proof (csrv_u32 s (mcsr s utvec) Hs). rewrite word_align_val by done. word.
Qed.

Lemma presents_put_csr s v κ a w : wf_model s → 0 ≤ a < 4096 → presents s v κ →
  presents (put_csr a w s) v (with_csrs (set_at (cpu_csr κ) a w) κ).
Proof.
  intros Hs Ha [[Hpc Hreg Hmem] Hv Hc Hm Hd]. split; [by split | done | | done | done].
  intros b. rewrite csrv_put_csr by done. simpl. unfold set_at. by rewrite Hc.
Qed.
Lemma presents_saved s c e κ : wf_model s → presents s (cur_pc s) κ →
  presents (saved c e s) e (cpu_save c e κ).
Proof.
  intros Hs Hp. pose proof Hp as [[Hpc Hreg Hmem] Hv Hc Hm Hd]. split; [by split | done | | done | done].
  intros a. rewrite csrv_saved, epc_of_val by (done || by apply cur_pc_u32). simpl. unfold set_at.
  rewrite !(presents_register s (cur_pc s)), Hc, Hpc by done. done.
Qed.

Lemma trap_arrives s c κ : wf_model s → presents s (cur_pc s) κ →
  arrives s (saved c (vector s) s) (cpu_trap c κ).
Proof.
  intros Hs Hp. split; [by apply wf_saved|]. rewrite next_pc_saved. split; [by apply vector_u32|].
  split; [|apply frame_saved]. unfold cpu_trap. rewrite (presents_vector s _ κ Hs Hp). by apply presents_saved.
Qed.
Lemma trap_simulates s c κ : wf_model s → is_int c = false → is_ecall c = false → presents s (cur_pc s) κ →
  ∃ s', trap c s = Ok (tt, s') ∧ arrives s s' (cpu_trap c κ).
Proof.
  intros Hs Hc He Hp. exists (saved c (vector s) s). split; [|by apply trap_arrives].
  by rewrite trap_exception_eq, He.
Qed.

Lemma exit_simulates s κ : wf_model s → is_u32 (next_pc s) → presents s (next_pc s) κ →
  ∃ s', handle_sys_exit s = Ok (tt, s') ∧ arrives s s' (cpu_exit (soc_of s) κ).
Proof.
  intros Hs Hn Hp. pose proof Hp as [[Hpc Hreg Hmem] Hv Hc Hm Hd].
  pose proof (sys_exit_eq s Hs) as Hx. unfold exits in Hx. unfold cpu_exit. rewrite !Hreg by lia.
  destruct (gpr s 17 =? 93); [|by exists s].
  destruct Hx as (m' & Hx & Hr & Hm'). eexists. split; [exact Hx|].
  split; [destruct Hs; by split|]. split; [done|]. split; [|done]. split; [| |done..].
  2: { simpl. intros a Ha Hoff. rewrite Hv by done. by rewrite router_byte_pages. }
  split; [done..|].
  intros a Ha. simpl. rewrite Hm' by done. by apply overlay_ext, Hmem.
Qed.

Lemma ecall_simulates s κ : wf_model s → presents s (cur_pc s) κ →
  ∃ s', (c ← gets ecall_cause; trap c) s = Ok (tt, s') ∧ arrives s s' (cpu_exit (soc_of s) (cpu_trap (call_cause κ) κ)).
Proof.
  intros Hs Hp. rewrite bind_gets.
  assert (ecall_cause s = call_cause κ) as ->.
  { unfold ecall_cause, call_cause. by rewrite (presents_mode _ _ _ Hp). }
  set (c := call_cause κ).
  assert (is_int c = false ∧ is_ecall c = true) as [Hc He] by (unfold c, call_cause; by destruct (cpu_priv κ)).
  destruct (trap_arrives s c κ Hs Hp) as (Hwf & Hn & Hp1 & Hf).
  destruct (exit_simulates _ _ Hwf Hn Hp1) as (s' & Hx & ? & ? & Hp' & Hf').
  exists s'. split; [by rewrite trap_exception_eq, He|]. rewrite (soc_of_fixed _ _ Hf) in Hp'.
  split; [done|]. split; [done|]. split; [done | congruence].
Qed.

Lemma mret_simulates s κ : wf_model s → presents s (cur_pc s) κ →
  ∃ s', handle_mret s = Ok (tt, s') ∧ arrives s s' (cpu_return κ).
Proof.
  intros Hs Hp. pose proof Hp as [[Hpc Hreg Hmem] Hv Hc Hm Hd].
  destruct (mret_spec s Hs) as (s' & _ & Hwf & Hn & _ & Ha & _). rewrite mret_eq by done.
  eexists. split; [reflexivity|]. split.
  { apply wf_with_mode; [|done]. apply wf_goto, wf_put_csr; [done | by apply mstatus_on_return_u32, csrv_u32]. }
  set (s1 := put_csr _ _ s). change (next_pc (with_mode ?m (goto ?v s1))) with (next_pc (goto v s1)).
  rewrite next_pc_goto. split; [by apply csrv_u32|]. split; [|done]. unfold cpu_return.
  rewrite !Hc, <-previous_privilege_val. split; [by split | done | | done | done].
  intros a. simpl. unfold set_at. change (csrv (with_mode ?m (goto ?v s1)) a) with (csrv s1 a).
  unfold s1. rewrite csrv_put_csr by (done || apply csr_val_range). by rewrite Hc.
Qed.
(** *** CSR instructions *)

Lemma may_read_eq s v κ a : 0 ≤ a < 4096 → presents s v κ → may_read κ a = can_read a (mode s).
Proof.
  intros Ha Hp. apply eq_bool_prop_intro. rewrite !Is_true_true, can_read_spec by lia.
  unfold may_read. by rewrite Z.leb_le, (presents_mode _ _ _ Hp).
Qed.
Lemma may_write_eq s v κ a : 0 ≤ a < 4096 → presents s v κ → may_write κ a = can_write a (mode s).
Proof.
  intros Ha Hp. apply eq_bool_prop_intro. rewrite !Is_true_true, can_write_spec by lia.
  unfold may_write. rewrite andb_true_iff, negb_true_iff, Z.eqb_neq, (may_read_eq s v) by done.
  by rewrite can_read_spec by lia.
Qed.

Lemma csr_new_eq sy d s v κ : wf_op d → presents s v κ →
  csr_new sy d s = csr_value sy (if reg_form sy then a_reg (cpu_arch κ) (rs1 d) else rs1 d) (csr_old sy d s).
Proof.
  intros Hd Hp. unfold csr_new. rewrite (shows_reg _ _ _ (presents_arch _ _ _ Hp)) by apply Hd.
  destruct sy; try done; simpl; by case_match; rewrite ?Z.land_0_r.
Qed.

Lemma presents_put_gpr s v κ i w : wf_model s → 0 ≤ i < 32 → presents s v κ →
  presents (put_gpr i w s) v
    (with_arch (mk_arch (a_pc (cpu_arch κ)) (set_reg (a_reg (cpu_arch κ)) i w) (a_mem (cpu_arch κ))) κ).
Proof. intros Hs Hi [Hsh Hv Hc Hm Hd]. split; [by apply shows_put_gpr | done..]. Qed.

Lemma presents_jump s v κ : presents s v κ → presents (jump s) v κ.
Proof. by intros [[] ? ? ? ?]. Qed.
Lemma presents_settled s v κ : presents s v κ → presents (settled s) v κ.
Proof. by intros [[] ? ? ? ?]. Qed.
(** The same state, seen at another program counter. *)
Lemma presents_target s v w κ : presents s v κ → presents s w (with_target w κ).
Proof. by intros [[] ? ? ? ?]. Qed.

(** The hart is about to run [d] at [κ]. *)
Definition about (d : op) s κ : Prop := ready d s (cpu_arch κ) ∧ presents s (cur_pc s) κ.

Lemma csr_simulates d sy s κ : about d s κ → opt d = op_sys sy → imm d < 4096 →
  ∃ s', handle_csr s = Ok (tt, s') ∧ arrives s s' (cpu_csr_op sy d (next_pc s) κ).
Proof.
  intros [[Hs Hd Hdec _ Hnr] Hp] Ho Hi. pose proof Hd as [Him Hrd Hr1 _ _].
  rewrite (csr_eq sy d s Hs Hd Hdec Ho Hi). eexists. split; [reflexivity|].
  unfold csr_permitted, cpu_csr_op.
  rewrite (may_read_eq s (cur_pc s)), (may_write_eq s (cur_pc s)) by (done || lia).
  destruct (_ && _); [|by apply trap_arrives].
  assert ((if csr_reads sy d then cpu_csr κ (imm d) else 0) = csr_old sy d s) as ->
    by (unfold csr_old; by rewrite (presents_csr _ _ _ Hp)).
  rewrite <-(csr_new_eq sy d s (cur_pc s)) by done. unfold csr_done.
  apply (presents_target _ _ (next_pc s)) in Hp.
  pose proof (csr_new_u32 sy d s Hs Hd) as Hnew. pose proof (csr_old_u32 sy d s Hs) as Hold.
  destruct (csr_writes sy d).
  - assert (wf_model (put_csr (imm d) (csr_new sy d s) s)) as Hs1 by (by apply wf_put_csr).
    split; [by apply wf_put_gpr|]. split; [done|]. split; [|done].
    exact (presents_put_gpr _ _ _ _ (csr_old sy d s) Hs1 Hrd
      (presents_put_csr s (next_pc s) _ (imm d) (csr_new sy d s) Hs ltac:(lia) Hp)).
  - split; [by apply wf_put_gpr|]. split; [done|]. split; [|done].
    exact (presents_put_gpr s (next_pc s) _ (rd d) (csr_old sy d s) Hs Hrd Hp).
Qed.

(** *** Byte accesses to the timer registers *)

Lemma load_device_simulates d l s κ : about d s κ → opt d = op_load l → (l = masks.lb ∨ l = masks.lbu) →
  off_timer (mtime_addr (mem s)) (mtimecmp_addr (mem s)) (u32 (a_reg (cpu_arch κ) (rs1 d) + imm d)) = false →
  ∃ s', handle_load s = Ok (tt, s') ∧ arrives s s' (cpu_device (soc_of s) d (next_pc s) κ).
Proof.
  intros [[Hs Hd Hdec _ Hn] Hp] Ho Hl Hoff. pose proof Hd as [_ Hrd Hr1 _ _].
  pose proof (shows_reg _ _ _ (presents_arch _ _ _ Hp)) as Hreg. unfold cpu_device. rewrite Ho, Hreg in * by done.
  set (a := u32 (gpr s (rs1 d) + imm d)) in *. assert (is_u32 a) as Ha by apply u32_range.
  rewrite (presents_dev _ _ _ Hp a Ha Hoff). assert (wf_router (mem s)) as Hr by apply Hs.
  pose proof (router_byte_u8 (mem s) a Hr Ha) as Hb. pose proof (router_read8_byte (mem s) a Hr Ha) as Hrd8.
  set (v := if bool_decide (l = masks.lb) then sext 8 (router_byte (mem s) a) else router_byte (mem s) a).
  assert (is_u32 v) as Hv by (unfold v; case_bool_decide; [apply sext_u32 | lia]).
  exists (put_gpr (rd d) v s). split.
  - unfold handle_load. rewrite bind_get_dec, (bind_ok _ _ s v s), Hdec; [by apply write_gpr_eq|].
    unfold load. rewrite bind_get_dec, Hdec, bind_read_gpr, Ho by done. cbn [get_load]. rewrite bind_lift_ok. fold a.
    unfold v. destruct Hl as [-> | ->]; simpl; [|by apply mem_read_ok].
    rewrite (bind_ok _ _ _ _ _ (mem_read_ok Hrd8)). by rewrite (sext_shift 8).
  - split; [by apply wf_put_gpr|]. split; [done|]. split; [|done].
    pose proof (presents_put_gpr s (next_pc s) _ (rd d) v Hs Hrd (presents_target _ _ (next_pc s) _ Hp)) as Hp'.
    unfold v in *. by destruct Hl as [-> | ->].
Qed.

Lemma store_device_simulates d s κ : about d s κ → opt d = op_store masks.sb →
  off_timer (mtime_addr (mem s)) (mtimecmp_addr (mem s)) (u32 (a_reg (cpu_arch κ) (rs1 d) + imm d)) = false →
  ∃ s', store s = Ok (tt, s') ∧ arrives s s' (cpu_device (soc_of s) d (next_pc s) κ).
Proof.
  intros [[Hs Hd Hdec _ Hn] Hp] Ho Hoff. pose proof Hd as [_ _ Hr1 Hr2 _].
  pose proof Hp as [[Hpc Hreg Hmem] Hdev Hc Hm Hdn]. unfold cpu_device. rewrite Ho, !Hreg in * by done.
  set (a := u32 (gpr s (rs1 d) + imm d)) in *. assert (is_u32 a) as Ha by apply u32_range.
  set (b := u8 (gpr s (rs2 d))). assert (wf_router (mem s)) as Hr by apply Hs.
  destruct (router_write8_byte (mem s) a b Hr Ha (u8_range _)) as (r' & Hw & Hr' & Hb).
  destruct (router_write8_addrs _ _ _ _ Hw) as [Hta Htc].
  exists (with_done (a =? tohost_addr s) (with_mem r' s)). split.
  - unfold store. rewrite bind_get_dec, Hdec, Ho. cbn [get_store]. rewrite bind_read_gpr, bind_lift_ok by done. fold a.
    rewrite (bind_ok _ _ s tt (with_mem r' s)); [done|]. rewrite bind_read_gpr by done. unfold mem_write. fold b. by rewrite Hw.
  - assert (pages r' = pages (mem s)) as Hpg.
    { unfold off_timer in Hoff. unfold router_write8 in Hw.
      destruct (in_window (mtime_addr (mem s)) a); [|destruct (in_window (mtimecmp_addr (mem s)) a); [|done]];
        by apply res_bind_inv in Hw as (t & _ & [= <-]). }
    split; [destruct Hs; by split|]. split; [done|]. split; [|unfold fixed; simpl; by rewrite Hta, Htc].
    split; simpl; [| | done | done | done].
    + split; simpl; [done | done |]. intros a' Ha'. rewrite Hmem by done. by rewrite Hpg.
    + rewrite Hta, Htc. intros a' Ha' Hoff'. rewrite Hb by done. unfold set_at. by rewrite Hdev.
Qed.

(** *** An instruction *)

Lemma base_simulates d s κ τ : about d s κ →
  isa_exec_to promised (mtime_addr (mem s)) (mtimecmp_addr (mem s)) d (next_pc s) (cpu_arch κ) = Some τ →
  ∃ s', exec s = Ok (tt, s') ∧ arrives s s'
    (with_end (done_after d (tohost_addr s) (cpu_arch κ) (cpu_done κ)) (with_arch τ κ)).
Proof.
  intros [Hr [_ Hv Hc Hm Hd]] Hτ.
  destruct (exec_refines d s _ τ Hr Hτ) as (s' & Hx & Hdone & Hwf & Hn & Hsh & Hcs & Hms & Htm & Hf).
  exists s'. split; [done|]. split; [done|]. split; [done|]. split; [|done].
  split; simpl; [done | | | congruence | congruence].
  - intros a Ha Hoff. assert (mtime_addr (mem s') = mtime_addr (mem s) ∧ mtimecmp_addr (mem s') = mtimecmp_addr (mem s))
      as [Hta Htc] by (unfold fixed in Hf; split; congruence).
    rewrite Hta, Htc in Hoff. by rewrite Hv, (router_byte_timers s s').
  - intros a. rewrite Hc. unfold csrv. by rewrite Hcs.
Qed.

Lemma device_simulates d s κ : about d s κ → timer_byte (soc_of s) d (cpu_arch κ) = true →
  ∃ s', exec s = Ok (tt, s') ∧ arrives s s' (cpu_device (soc_of s) d (next_pc s) κ).
Proof.
  intros Hab Htb. unfold exec. rewrite bind_get_dec, (ready_dec _ _ _ (proj1 Hab)). unfold timer_byte in Htb.
  destruct (tgt d), (opt d) as [| |l|t| |] eqn:Ho; try done; [destruct l; try done | destruct t; try done];
    apply negb_true_iff in Htb; try (by eapply load_device_simulates; eauto).
  by apply store_device_simulates.
Qed.

Lemma cpu_exec_simulates d s κ κ' : about d s κ → cpu_exec promised (soc_of s) d (next_pc s) κ = Some κ' →
  ∃ s', exec s = Ok (tt, s') ∧ arrives s s' κ'.
Proof.
  intros Hab. pose proof Hab as [Hr Hp]. pose proof Hr as [Hs Hd Hdec _ Hn].
  assert ((if timer_byte (soc_of s) d (cpu_arch κ) then Some (cpu_device (soc_of s) d (next_pc s) κ)
      else isa_exec_to promised (mtime_at (soc_of s)) (mtimecmp_at (soc_of s)) d (next_pc s) (cpu_arch κ)
      ≫= (λ τ, Some (with_end (done_after d (tohost_at (soc_of s)) (cpu_arch κ) (cpu_done κ)) (with_arch τ κ))))
      = Some κ' → ∃ s', exec s = Ok (tt, s') ∧ arrives s s' κ') as Hbase.
  { destruct (timer_byte _ _ _) eqn:Htb; [intros [= <-]; by apply device_simulates|].
    intros Hτ. apply bind_Some in Hτ as (τ & Hτ & [= <-]). by apply base_simulates. }
  assert (exec s = (match tgt d with
    | target.csr => handle_csr | target.mret => handle_mret
    | target.ecall => c ← gets ecall_cause; trap c
    | target.illegal => trap exp_inst_illegal | target.ebreak => trap exp_breakpoint
    | target.target_unnamed _ => skip
    | _ => exec end) s) as Hexec.
  { unfold exec. rewrite bind_get_dec, Hdec. by destruct (tgt d) eqn:Ht; rewrite ?bind_get_dec, ?Hdec, ?Ht. }
  unfold cpu_exec. apply (opt_cases d Hd).
  1-4: intros a Ht Ho _; rewrite Ht; exact Hbase.
  - intros sy Ht Ho Hi. rewrite Hexec, Ht, Ho. intros [= <-]. by apply csr_simulates.
  - rewrite Hexec. destruct (tgt d) eqn:Ht; try done; intros _ [= <-].
    + by apply mret_simulates.
    + by apply ecall_simulates.
    + by apply trap_simulates.
    + by apply trap_simulates.
    + exists s. split; [done|]. split; [done|]. split; [done|]. split; [by eapply presents_target | done].
Qed.

(** *** The end of a cycle *)

Lemma presents_read s v κ a n : is_u32 a → presents s v κ →
  le_value (a_mem (cpu_arch κ)) a n = le_value (byte (pages (mem s))) a n.
Proof. intros Ha Hp. apply (shows_read s v); [done | apply Hp]. Qed.

Lemma interrupt_simulates s c κ : wf_model s → is_int c = true → presents s (cur_pc s) κ → next_pc s = cur_pc s →
  ∃ s', trap c s = Ok (tt, s') ∧ wf_model s' ∧ presents s' (cur_pc s') (cpu_interrupt c κ) ∧ fixed s' = fixed s.
Proof.
  intros Hs Hc Hp Hn. rewrite trap_interrupt_eq by done. eexists. split; [reflexivity|].
  unfold cpu_interrupt. assert (takes c κ = enabled c s) as ->.
  { unfold takes, enabled. by rewrite !(presents_csr _ _ _ Hp). }
  destruct (enabled c s); [|done]. rewrite !(presents_csr _ _ _ Hp), (presents_vector s _ κ Hs Hp).
  rewrite (Z.mul_comm 4). set (e := u32 (vector s + number c * 4)).
  pose proof (wf_acknowledged c s Hs) as Ha. unfold interrupted. fold e. split.
  { apply wf_jump; [by apply wf_saved|]. rewrite next_pc_saved. apply u32_range. }
  split; [|by apply interrupted_spec]. rewrite cur_pc_jump, next_pc_saved.
  assert (presents (acknowledged c s) (cur_pc (acknowledged c s)) (with_csrs
    (set_at (set_at (cpu_csr κ) (csr_val mip) (Z.clearbit (csrv s (csr_val mip)) (number c)))
       (csr_val mstatus) (mstatus_on_entry (csrv s (csr_val mstatus)))) κ)) as Hack.
  { rewrite cur_pc_acknowledged. pose proof (csr_val_range mip). pose proof (csr_val_range mstatus).
    refine (presents_put_csr _ _ _ _ _ _ _ (presents_put_csr _ _ _ _ _ _ _ Hp)); try done.
    apply wf_put_csr; [done|]. apply (clearbit_bound 32); [lia | by apply csrv_u32]. }
  by apply presents_jump, presents_saved.
Qed.

Lemma commit_simulates s κ : wf_model s → is_u32 (next_pc s) → presents s (next_pc s) κ →
  ∃ s', commit s = Ok (tt, s') ∧ at_rest s' ∧ presents s' (cur_pc s') (cpu_commit (soc_of s) κ) ∧ fixed s' = fixed s.
Proof.
  intros Hs Hn Hp. pose proof (wf_jump s Hs Hn) as Hj.
  assert (presents (jump s) (cur_pc (jump s)) κ) as Hpj by by apply presents_jump.
  enough (∃ s', interrupt_pending (jump s) = Ok (tt, s') ∧ wf_model s' ∧
    presents s' (cur_pc s') (cpu_commit (soc_of s) κ) ∧ fixed s' = fixed s) as (s' & Hi & Hwf & Hp' & Hf).
  { exists (settled s'). unfold commit, update_pc. rewrite bind_modify. fold (jump s).
    rewrite (bind_ok _ _ _ _ _ Hi). split; [done|]. split; [destruct Hwf; by split; [split|]|].
    split; [by apply presents_settled | done]. }
  rewrite interrupt_pending_eq by done. unfold cpu_commit, soc_of. cbn [compared].
  change (opts (jump s)) with (opts s). destruct (mti_enabled (opts s)); [|by exists (jump s)].
  simpl andb. unfold page64. rewrite !(presents_read s (next_pc s)) by (done || apply Hs).
  change (pages (mem (jump s))) with (pages (mem s)). destruct (_ <? _); [|by exists (jump s)].
  rewrite (bind_ok _ _ _ _ _ (set_pending_eq int_timer_m (jump s) Hj eq_refl)).
  unfold cpu_pend. rewrite (presents_csr _ _ _ Hpj). set (w := Z.setbit _ _).
  assert (is_u32 w) by (apply (setbit_bound 32); [by vm_compute | by apply csrv_u32]).
  destruct (interrupt_simulates (put_csr (csr_val mip) w (jump s)) int_timer_m
    (with_csrs (set_at (cpu_csr κ) (csr_val mip) w) κ)) as (s' & Ht & ? & ? & ?);
    [by apply wf_put_csr | done | | apply (next_pc_jump s) | by exists s'].
  by apply presents_put_csr; [|apply csr_val_range |].
Qed.

(** ** Cycles *)

(** Which of the two ways a cycle takes. *)
Lemma starts_about s κ : wf_model s → presents s (cur_pc s) κ →
  about (fetched_op s) (begun s) κ ∧ decoded_at (cpu_arch κ) = fetched_op s ∧
  next_pc (begun s) = link_of (fetched_op s) (cpu_arch κ).
Proof.
  intros Hs Hp. destruct (begun_ready s _ Hs (presents_arch _ _ _ Hp)) as (Hr & Hdec & Hn).
  split; [|done]. split; [done|]. rewrite (proj1 (proj2 (begun_spec s Hs))). by destruct Hp as [[] ? ? ? ?].
Qed.
Lemma fault_about s κ d : about d s κ →
  let s1 := saved exp_inst_access_fault (vector s) s in
  trap exp_inst_access_fault s = Ok (tt, s1) ∧ about d s1 (cpu_fault κ) ∧ next_pc s1 = trap_vector κ.
Proof.
  intros [[Hs Hd Hdec Hsh Hn] Hp] s1. destruct (trap_arrives s exp_inst_access_fault κ Hs Hp) as (Hwf & Hn1 & Hp1 & _).
  split; [by rewrite trap_exception_eq|].
  assert (presents s1 (cur_pc s1) (cpu_fault κ)) as Hp2.
  { unfold cpu_fault. rewrite (shows_pc _ _ _ Hsh). unfold s1 at 2. rewrite cur_pc_saved. by eapply presents_target. }
  split; [|unfold s1; by rewrite next_pc_saved, (presents_vector s _ κ Hs Hp)].
  split; [|done]. split; [done | done | done | apply Hp2 | done].
Qed.

(** The instruction that runs and the machine it runs on. *)
Definition cpu_begun ς κ : Z * cpu :=
  if is_address_initialized (executable ς) (a_pc (cpu_arch κ)) then (link_of (decoded_at (cpu_arch κ)) (cpu_arch κ), κ)
  else (trap_vector κ, cpu_fault κ).
Lemma cpu_step_eq ς κ : cpu_step promised ς κ =
  κ' ← cpu_exec promised ς (decoded_at (cpu_arch κ)) (cpu_begun ς κ).1 (cpu_begun ς κ).2; Some (cpu_commit ς κ').
Proof. unfold cpu_step, cpu_begun. by destruct (is_address_initialized _ _). Qed.

Lemma step_begins s κ : wf_model s → presents s (cur_pc s) κ →
  ∃ s1, step s = exec s1 ∧ about (decoded_at (cpu_arch κ)) s1 (cpu_begun (soc_of s) κ).2 ∧
    next_pc s1 = (cpu_begun (soc_of s) κ).1 ∧ fixed s1 = fixed s.
Proof.
  intros Hs Hp. destruct (starts_about s κ Hs Hp) as (Hab & Hdec & Hn). unfold cpu_begun. rewrite Hdec.
  rewrite (shows_pc _ _ _ (presents_arch _ _ _ Hp)). rewrite step_eq by done. unfold is_valid_pc.
  change (executable (soc_of s)) with (allowed_pcs s). destruct (is_address_initialized _ _); [by exists (begun s)|].
  destruct (fault_about (begun s) κ _ Hab) as (Ht & Hab1 & Hn1). rewrite (bind_ok _ _ _ _ _ Ht).
  eexists. split; [reflexivity|]. split; [done|]. split; [done|].
  exact (proj2 (proj2 (proj2 (proj2 (frame_saved exp_inst_access_fault (vector (begun s)) (begun s)))))).
Qed.

Lemma cpu_step_simulates s κ κ' : at_rest s → presents s (cur_pc s) κ →
  cpu_step promised (soc_of s) κ = Some κ' →
  ∃ s', tick s = Ok (tt, s') ∧ at_rest s' ∧ presents s' (cur_pc s') κ' ∧ fixed s' = fixed s.
Proof.
  intros (Hs & _) Hp. rewrite cpu_step_eq. intros Hk. apply bind_Some in Hk as (κ1 & Hx & [= <-]).
  destruct (step_begins s κ Hs Hp) as (s1 & Hstep & Hab & Hn & Hf).
  assert (soc_of s1 = soc_of s) as He by (by apply soc_of_fixed).
  revert Hx Hab Hn. generalize (cpu_begun (soc_of s) κ). intros [next κ0]. simpl. intros Hx Hab <-. rewrite <-He in Hx.
  destruct (cpu_exec_simulates _ s1 κ0 κ1 Hab Hx) as (s2 & Hexec & Hwf & Hn2 & Hp2 & Hf2).
  destruct (commit_simulates s2 κ1 Hwf Hn2 Hp2) as (s' & Hc & Hrest & Hp' & Hf').
  exists s'. rewrite <-(soc_of_fixed s s2) by congruence. split; [|split; [done | split; [done | congruence]]].
  unfold tick. rewrite <-Hstep in Hexec. by rewrite (bind_ok _ _ _ _ _ Hexec).
Qed.

(** *** Where there is no step *)

Lemma cpu_exec_total d ς next κ : wf_op d →
  unpromised promised d (cpu_arch κ) = false ↔ is_Some (cpu_exec promised ς d next κ).
Proof.
  intros Hd. unfold unpromised, cpu_exec, isa_exec_to, timer_byte. apply (opt_cases d Hd).
  - intros a -> -> _. cbv zeta. unfold isa_alu. destruct (promised _ _ _); simpl.
    + split; [intros _ | done]. by destruct a.
    + split; [done | by intros []].
  - intros l -> -> Hl. unfold isa_load. destruct l as [| | | | |v]; try (by destruct (Hl v)); try done;
      by destruct (off_timer _ _ _).
  - intros t -> -> Ht. unfold isa_store. destruct t as [| | |v]; try (by destruct (Ht v)); try done;
      by destruct (off_timer _ _ _).
  - intros b -> -> _. done.
  - intros sy -> -> _. done.
  - by destruct (tgt d).
Qed.

Lemma unpromised_begun ς d κ : unpromised promised d (cpu_arch (cpu_begun ς κ).2) = unpromised promised d (cpu_arch κ).
Proof. unfold cpu_begun, unpromised. by destruct (is_address_initialized _ _). Qed.

(** A hart's machine has a step unless it is [stuck]. *)
Lemma cpu_step_total s κ : wf_model s → presents s (cur_pc s) κ →
  stuck promised κ = false ↔ is_Some (cpu_step promised (soc_of s) κ).
Proof.
  intros Hs Hp. destruct (step_begins s κ Hs Hp) as (s1 & _ & [Hr _] & _).
  unfold stuck.
  rewrite <-(unpromised_begun (soc_of s)), cpu_step_eq.
  rewrite (cpu_exec_total _ (soc_of s) (cpu_begun (soc_of s) κ).1) by apply Hr.
  destruct (cpu_exec _ _ _ _ _); simpl; [by split | done].
Qed.

Lemma cpu_steps_simulate n s κ κ' : at_rest s → presents s (cur_pc s) κ →
  cpu_steps promised (soc_of s) n κ = Some κ' →
  ∃ s', ticks n s = Ok (tt, s') ∧ at_rest s' ∧ presents s' (cur_pc s') κ' ∧ fixed s' = fixed s.
Proof.
  revert s κ. induction n as [|n IH]; intros s κ Hs Hp; simpl; [intros [= <-]; by exists s|].
  intros Hk. apply bind_Some in Hk as (κ1 & Hk1 & Hk).
  destruct (cpu_step_simulates s κ κ1 Hs Hp Hk1) as (s1 & Ht & Hs1 & Hp1 & Hf).
  rewrite <-(soc_of_fixed _ _ Hf) in Hk. destruct (IH s1 κ1 Hs1 Hp1 Hk) as (s' & Hr & ? & ? & ?).
  exists s'. rewrite (bind_ok _ _ _ _ _ Ht). split; [done|]. split; [done|]. split; [done | congruence].
Qed.

Lemma cpu_steps_total n s κ : (∀ a x y, promised a x y = true) → at_rest s → presents s (cur_pc s) κ →
  is_Some (cpu_steps promised (soc_of s) n κ).
Proof.
  intros Hall. revert s κ. induction n as [|n IH]; intros s κ Hs Hp; [done|]. cbn [cpu_steps].
  destruct (proj1 (cpu_step_total s κ (proj1 Hs) Hp)) as [κ1 Hk].
  { unfold stuck, unpromised. destruct (tgt _); try done. destruct (opt _); try done. by rewrite Hall. }
  rewrite Hk. simpl. destruct (cpu_step_simulates s κ κ1 Hs Hp Hk) as (s1 & _ & Hs1 & Hp1 & Hf).
  rewrite <-(soc_of_fixed _ _ Hf). by apply (IH s1).
Qed.

Lemma presents_tohost s κ : wf_model s → presents s (cur_pc s) κ →
  tohost s = Ok (le_value (a_mem (cpu_arch κ)) (tohost_addr s) 4, s).
Proof. intros Hs Hp. rewrite tohost_eq, (presents_read s (cur_pc s)) by (done || apply Hs). done. Qed.

(** A run to the exit code is a number of steps to the first state that is done. *)
Lemma cpu_run_steps ς n κ code : cpu_run promised ς n κ = Some code →
  ∃ k κ', (k ≤ n)%nat ∧ cpu_steps promised ς k κ = Some κ' ∧ cpu_done κ' = true ∧
    le_value (a_mem (cpu_arch κ')) (tohost_at ς) 4 = code ∧
    ∀ j κj, (j < k)%nat → cpu_steps promised ς j κ = Some κj → cpu_done κj = false.
Proof.
  revert κ. induction n as [|n IH]; intros κ; cbn [cpu_run]; destruct (cpu_done κ) eqn:Hd; try done.
  1, 2: intros [= <-]; exists 0%nat, κ; split; [lia|]; do 3 (split; [done|]); lia.
  intros Hk. apply bind_Some in Hk as (κ1 & Hk1 & Hk). destruct (IH κ1 Hk) as (k & κ' & Hle & Hs & ? & ? & Hb).
  exists (S k), κ'. split; [lia|]. split; [simpl; by rewrite Hk1|]. do 2 (split; [done|]).
  intros [|j] κj Hj Hsj; [by injection Hsj as <-|]. simpl in Hsj. rewrite Hk1 in Hsj. apply (Hb j); [lia | done].
Qed.
Lemma cpu_steps_prefix ς j k κ κ' : (j ≤ k)%nat → cpu_steps promised ς k κ = Some κ' →
  is_Some (cpu_steps promised ς j κ).
Proof.
  revert k κ. induction j as [|j IH]; intros k κ Hj Hk; [done|]. destruct k as [|k]; [lia|].
  simpl in *. apply bind_Some in Hk as (κ1 & -> & Hk). simpl. apply (IH k); [lia | done].
Qed.

(** The exit code, and when the hart is done. *)
Lemma cpu_run_simulates n s κ code : at_rest s → presents s (cur_pc s) κ →
  cpu_run promised (soc_of s) n κ = Some code →
  ∃ k s', (k ≤ n)%nat ∧ ticks k s = Ok (tt, s') ∧ exited code s' ∧ fixed s' = fixed s ∧
    ∀ j sj, (j < k)%nat → ticks j s = Ok (tt, sj) → done_ sj = false.
Proof.
  intros Hs Hp Hrun. destruct (cpu_run_steps _ _ _ _ Hrun) as (k & κ' & Hk & Hst & Hd & Hcode & Hb).
  destruct (cpu_steps_simulate k s κ κ' Hs Hp Hst) as (s' & Ht & Hs' & Hp' & Hf).
  exists k, s'. do 2 (split; [done|]). split; [|split; [done|]].
  - split; [done|]. split; [by rewrite <-Hd, <-(presents_done _ _ _ Hp')|].
    rewrite (presents_tohost s' κ') by (done || apply Hs'). rewrite <-Hcode. do 3 f_equal.
    unfold fixed in Hf. simpl. congruence.
  - intros j sj Hj Hsj. destruct (cpu_steps_prefix _ j k κ κ' ltac:(lia) Hst) as [κj Hkj].
    destruct (cpu_steps_simulate j s κ κj Hs Hp Hkj) as (sj' & Htj & _ & Hpj & _). rewrite Hsj in Htj. injection Htj as <-.
    unfold done_. rewrite (presents_done _ _ _ Hpj). by apply (Hb j κj).
Qed.

(** *** The timer registers left alone *)

Lemma cpu_exec_dev ς f d next κ : timer_byte ς d (cpu_arch κ) = false →
  cpu_exec promised ς d next (with_dev f κ) = with_dev f <$> cpu_exec promised ς d next κ.
Proof.
  intros Ht. unfold cpu_exec. simpl. rewrite Ht.
  assert (∀ ξ, cpu_exit ς (with_dev f ξ) = with_dev f (cpu_exit ς ξ)) as Hx by (intros ξ; unfold cpu_exit; simpl; by case_match).
  assert (∀ sy, cpu_csr_op sy d next (with_dev f κ) = with_dev f (cpu_csr_op sy d next κ)) as Hc.
  { intros sy. unfold cpu_csr_op. simpl. change (may_read (with_dev f κ)) with (may_read κ).
    change (may_write (with_dev f κ)) with (may_write κ). destruct (_ && _); [|done]. by destruct (csr_writes sy d). }
  destruct (tgt d); try done; try (by destruct (isa_exec_to _ _ _ _ _ _)).
  - destruct (opt d) as [| | | | |sy]; try (by destruct (isa_exec_to _ _ _ _ _ _)). by rewrite Hc.
  - simpl. rewrite <-Hx. done.
Qed.
Lemma cpu_commit_dev ς f κ : cpu_commit ς (with_dev f κ) = with_dev f (cpu_commit ς κ).
Proof.
  unfold cpu_commit. destruct (compared ς) as [[t tc]|]; [|done]. simpl. destruct (_ <? _); [|done].
  unfold cpu_interrupt. change (takes ?c (cpu_pend ?c' (with_dev f κ))) with (takes c (cpu_pend c' κ)).
  by destruct (takes _ _).
Qed.
Lemma cpu_step_dev ς f κ : timer_byte ς (decoded_at (cpu_arch κ)) (cpu_arch κ) = false →
  cpu_step promised ς (with_dev f κ) = with_dev f <$> cpu_step promised ς κ.
Proof.
  intros Ht. rewrite !cpu_step_eq. simpl.
  assert (cpu_begun ς (with_dev f κ) = ((cpu_begun ς κ).1, with_dev f (cpu_begun ς κ).2)) as ->
    by (unfold cpu_begun; simpl; by destruct (is_address_initialized _ _)).
  simpl. rewrite cpu_exec_dev by (unfold cpu_begun; by destruct (is_address_initialized _ _)).
  destruct (cpu_exec _ _ _ _ _) as [κ1|]; [|done]. simpl. by rewrite cpu_commit_dev.
Qed.
End simulation.

(** ** Where the promise is exact *)

Section exact.
Context {P : Platform} {C : CommonLib} {L : CommonLaws} {D : Decoder} {DO : DecoderOk}.
Context {promised : alu → Z → Z → bool} {EA : ExactArithmetic P promised}.
Implicit Types (s : model) (κ : cpu).

Lemma unpromised_fails d s κ : about d s κ → unpromised promised d (cpu_arch κ) = true → ∃ f, exec s = Fail f.
Proof.
  intros [[Hs Hd Hdec [Hpc Hreg _] _] _] Hu. pose proof Hd as [_ _ Hr1 Hr2 _]. unfold unpromised in Hu.
  destruct (tgt d) eqn:Ht; try done. destruct (opt d) as [|a| | | |] eqn:Ho; try done.
  rewrite Hpc, !Hreg in Hu by done. apply negb_true_iff in Hu.
  pose proof (alu_operands_u32 d s Hs Hd) as [Hx Hy].
  assert (alu_named a = true) as Ha by (pose proof (wf_opt _ Hd) as Hm; unfold opt_matches in Hm; by rewrite Ht, Ho in Hm).
  destruct (refuse a _ _ Hx Hy Ha Hu) as [f Hf]. exists f. unfold exec. rewrite bind_get_dec, Hdec, Ht.
  by apply (alu_fails d a s f).
Qed.

Lemma cpu_stuck_fails s κ : wf_model s → presents s (cur_pc s) κ →
  cpu_step promised (soc_of s) κ = None → ∃ f, tick s = Fail f.
Proof.
  intros Hs Hp Hk. destruct (step_begins s κ Hs Hp) as (s1 & Hstep & Hab & _).
  assert (stuck promised κ = true) as Hst.
  { apply not_false_iff_true. rewrite (cpu_step_total s κ Hs Hp), Hk. by intros []. }
  unfold stuck in Hst. rewrite <-(unpromised_begun (soc_of s)) in Hst.
  destruct (unpromised_fails _ s1 _ Hab Hst) as [f Hf]. exists f. unfold tick.
  unfold mbind, stateM_bind. by rewrite Hstep, Hf.
Qed.

Lemma cpu_steps_exact n s κ : at_rest s → presents s (cur_pc s) κ →
  match cpu_steps promised (soc_of s) n κ with
  | Some κ' => ∃ s', ticks n s = Ok (tt, s') ∧ at_rest s' ∧ presents s' (cur_pc s') κ' ∧ fixed s' = fixed s
  | None => ∃ f, ticks n s = Fail f
  end.
Proof.
  revert s κ. induction n as [|n IH]; intros s κ Hs Hp; [by exists s|]. cbn [cpu_steps ticks].
  destruct (cpu_step promised (soc_of s) κ) as [κ1|] eqn:Hk; simpl.
  - destruct (cpu_step_simulates s κ κ1 Hs Hp Hk) as (s1 & Ht & Hs1 & Hp1 & Hf).
    specialize (IH s1 κ1 Hs1 Hp1). rewrite (soc_of_fixed _ _ Hf) in IH. rewrite (bind_ok _ _ _ _ _ Ht).
    destruct (cpu_steps _ _ n κ1); [|done]. destruct IH as (s' & ? & ? & ? & ?). exists s'. do 3 (split; [done|]). congruence.
  - destruct (cpu_stuck_fails s κ) as [f Hf]; [apply Hs | done | done |]. exists f.
    unfold mbind, stateM_bind. by rewrite Hf.
Qed.
End exact.
(** ** Properties *)

(** C2: The simulator refines the abstract hart, for any number of cycles.  Take a hart at
    rest that shows the abstract state [κ]: program counter, registers, memory, timer
    registers, CSRs, privilege mode and done flag.  If the abstract machine makes [n] steps
    to [κ'], then [n] cycles of [step] and [commit] succeed and end in a well-formed hart at
    rest that shows [κ'].  This covers every instruction of the decoder at every address:
    byte accesses to the timer registers, environment calls with the exit protocol,
    breakpoints, illegal instructions, access faults, CSR accesses the mode permits or
    refuses, [mret], and with the timer on the interrupt at the end of each cycle; and the
    abstract machine has a further step unless it is [stuck], in an ALU operation on
    operands about which the platform makes no promise. *)
Theorem simulator_refines_cpu {P : Platform} {C : CommonLib} {L : CommonLaws} {D : Decoder}
    {DO : DecoderOk} {promised} {AR : Arithmetic P promised} n (s : model) κ κ' :
  at_rest s → presents s (cur_pc s) κ → cpu_steps promised (soc_of s) n κ = Some κ' →
  (∃ s', ticks n s = Ok (tt, s') ∧ at_rest s' ∧ presents s' (cur_pc s') κ' ∧ fixed s' = fixed s) ∧
  (stuck promised κ' = false ↔ is_Some (cpu_step promised (soc_of s) κ')).
Proof.
  intros Hs Hp Hk. destruct (cpu_steps_simulate n s κ κ' Hs Hp Hk) as (s' & Hr & Hs' & Hp' & Hf).
  split; [by exists s'|]. rewrite <-(soc_of_fixed _ _ Hf). by apply cpu_step_total; [apply Hs'|].
Qed.

(** C3: The simulator and the abstract hart are the same machine.  On a platform whose
    promise is exact, where a program faults on undefined arithmetic ([strict]) or where
    arithmetic wraps ([wrapping]), [n] cycles from a hart that shows [κ] succeed exactly
    when the abstract machine makes [n] steps, and then show the state it reaches;
    otherwise they fail.  Where every operand is promised, as on a wrapping platform, every
    hart at rest runs for any number of cycles. *)
Theorem simulator_is_cpu {P : Platform} {C : CommonLib} {L : CommonLaws} {D : Decoder}
    {DO : DecoderOk} {promised} {EA : ExactArithmetic P promised} n (s : model) κ :
  at_rest s → presents s (cur_pc s) κ →
  match cpu_steps promised (soc_of s) n κ with
  | Some κ' => ∃ s', ticks n s = Ok (tt, s') ∧ at_rest s' ∧ presents s' (cur_pc s') κ'
  | None => ∃ f, ticks n s = Fail f
  end ∧
  ((∀ a x y, promised a x y = true) → is_Some (cpu_steps promised (soc_of s) n κ)).
Proof.
  intros Hs Hp. pose proof (cpu_steps_exact n s κ Hs Hp) as Hn. split.
  - destruct (cpu_steps _ _ _ _); [|done]. destruct Hn as (s' & ? & ? & ? & _). by exists s'.
  - intros Hall. by apply cpu_steps_total.
Qed.

(** ** Witnesses *)

Section witnesses.
#[local] Existing Instances wrapping ref_common ref_decoder.

(** The program sets mtvec to 0x101C and its exit code to 5 and runs into an illegal
    instruction; the handler reads mcause into register 5 and makes the exit call, whose own
    cause is the enumerator 0x11. *)
Definition trapping_program : list Z :=
  [0x7F000093; 0x7F008093; 0x03C08093; 0x30509073; 0x00500513; 0x05D00893; 0; 0x342022F3; 0x73].
Definition trapping : model := sample_model trapping_program.
Definition trapping_cpu : cpu := cpu_reset 0x1000 (byte (pages (assemble trapping_program 0x1000 sample_router))).
Lemma trapping_at_rest : at_rest trapping.
Proof. apply sample_at_rest. repeat constructor; lia. Qed.

Lemma trapping_presents : presents trapping (cur_pc trapping) trapping_cpu.
Proof.
  apply presents_reset; by rewrite ?(proj1 (assemble_timers _ _ _)), ?(proj2 (assemble_timers _ _ _)).
Qed.

Lemma simulator_refines_cpu_witness :
  ∃ s', ticks 9 trapping = Ok (tt, s') ∧ gpr s' 5 = 2 ∧ csrv s' 0x342 = 17 ∧ is_done s' = true.
Proof.
  assert (option_map (λ κ, (a_reg (cpu_arch κ) 5, cpu_csr κ 0x342, cpu_done κ))
    (cpu_steps promise_all (soc_of trapping) 9 trapping_cpu) = Some (2, 17, true)) as Hval
    by (vm_compute; reflexivity).
  destruct (cpu_steps promise_all (soc_of trapping) 9 trapping_cpu) as [κ'|] eqn:Hk; [|done].
  destruct (simulator_refines_cpu (promised := promise_all) 9 trapping trapping_cpu κ') as [(s' & Hr & _ & Hp & _) _].
  - exact trapping_at_rest.
  - exact trapping_presents.
  - exact Hk.
  - injection Hval as H5 Hc Hd. exists s'. split; [exact Hr|]. destruct Hp as [[_ Hreg _] _ Hcsr _ Hdone].
    split; [by rewrite <-Hreg by lia|]. split; [by rewrite <-Hcsr | by rewrite Hdone].
Defined.

Lemma simulator_is_cpu_witness : ∃ s', ticks 1000 trapping = Ok (tt, s') ∧ at_rest s'.
Proof.
  destruct (simulator_is_cpu (promised := promise_all) 1000 trapping trapping_cpu trapping_at_rest trapping_presents)
    as [Hn Htotal]. destruct (Htotal (λ _ _ _, eq_refl)) as [κ' Hk]. rewrite Hk in Hn.
  destruct Hn as (s' & Hr & Hs' & _). exists s'. split; [exact Hr | exact Hs'].
Defined.
End witnesses.
