(* ===== verification/Sim.v ===== *)
(** * The simulation run ([src/main.cpp])

    [run] prints the file, or serves the echo clients if asked to, builds the machine from
    the loaded file, repeats step, export, commit until the hart is done, and reports.  The
    timer thread of [Timer] runs beside the loop and is joined at the end.  The run is a
    function with fuel; the two threads together are a transition system: a whole cycle is
    one step, for the thread touches nothing of the machine but one atomic byte, and an
    instruction accesses that byte at most once. *)

From S2P Require Export Timer Exits Loader.
From S2P Require RegFile Format Json DisasTables Disas DisasText.

(** ** Signals *)

(** The handler stores the number in the global; [signal] sets a disposition.  The numbers
    are those of POSIX, where all three exist. *)
Definition SIGINT : Z := 2.
Definition SIGQUIT : Z := 3.
Definition SIGTERM : Z := 15.
Definition sighandler (signal : Z) (_ : Z) : Z := signal.
Definition register_signals (dispositions : gmap Z (Z → Z → Z)) : gmap Z (Z → Z → Z) :=
  <[SIGQUIT := sighandler]> (<[SIGTERM := sighandler]> (<[SIGINT := sighandler]> dispositions)).

(** ** The main loop *)

(** What the loop prints and records, in order. *)
Inductive event : Set :=
  | Printed (d : op)
  | LoggedGpr (c : gpr_change)
  | LoggedCsr (c : csr_change)
  | Disassembled (line : string)
  | Exported (d : op)
  | Dumped (text : string)
  | ServerTerminated
  | ServerException (what : string)
  | WrittenJson (file contents : string)
  | LoggedExit (line : string).

(** [config.hpp], which the build generates. *)
Class Config := { ENABLE_TCP : bool }.

Section run.
Context `{Platform} `{CommonLib} `{Decoder} `{ElfIO}.
Implicit Types (s : model).

(** [std::cin.get()]; end of file is -1. *)
Definition cin_get (input : list Z) : Z * list Z :=
  match input with [] => (-1, []) | c :: input => (c, input) end.

(** The loop condition: [(opt.fstep && std::cin.get() == 'q') || !model.done()]. *)
Definition loop_condition (opt : options) (input : list Z) s : bool * list Z :=
  if fstep opt then
    let '(c, input) := cin_get input in (if c =? 113 then true else negb (done_ s), input)
  else (negb (done_ s), input).

(** [operator<<] of a hart state: the address and the disassembled instruction.  The
    conversions are those of [static_cast<uint32_t>] and of the call's argument. *)
Definition state_line (state : hart_state) : res string :=
  let pc := u32 (pc_get (pc state)) in
  buf ← Disas.disasm_inst 128 DisasTables.rv32 pc (u64 (instr state));
  mret (Format.hex_field 10 pc +:+ DisasTables.tab +:+ buf).

(** The output of one iteration, between [step] and [commit]. *)
Definition exports (opt : options) s : res (list event) :=
  let state := cur_state s in
  let changes := [Printed (dec state)] ++ (LoggedGpr <$> gpr_staged state) ++ (LoggedCsr <$> csr_staged state) in
  disas ← (if String.eqb (disas_output opt) "" then mret []
           else line ← state_line state; mret [Disassembled line]);
  mret (changes ++ disas ++ (if String.eqb (json_output opt) "" then [] else [Exported (dec state)])).

Fixpoint run_loop (fuel : nat) (opt : options) (input : list Z) (out : list event) s
    : res (model * list event) :=
  match fuel with
  | O => Fail OutOfFuel
  | S fuel =>
      let '(go, input) := loop_condition opt input s in
      if go then
        '(_, s) ← step s;
        new ← exports opt s;
        let out := out ++ new in
        '(_, s) ← commit s;
        run_loop fuel opt input out s
      else mret (s, out)
  end.

(** The machine [run] builds. *)
Definition build (opt : options) : res model :=
  '(l, rout) ← loader_into (o_target opt) (address_router_of ∅ (o_mtime opt) (o_mtimecmp opt));
  tohost ← symbol l (tohost_sym opt);
  mret (model_of opt (entry l) (progbit_ranges l) tohost rout).

(** The echo server runs to its end before the simulation: a signal stops it, or an
    exception leaves it, which [run] reports and swallows.  Which of the two is not in the
    program's hands: it is an argument, the exception's text if there was one. *)
Definition serve `{Config} (opt : options) (exception : option string) : list event :=
  if ENABLE_TCP && tcp_enabled opt then
    match exception with None => [ServerTerminated] | Some what => [ServerException what] end
  else [].

(** The operations appended to [state_export], and the file written from it. *)
Definition exported (out : list event) : list op :=
  omap (λ e, match e with Exported d => Some d | _ => None end) out.
Definition write_json `{Json.JsonDoc} `{Json.EnumCodes} (opt : options) (out : list event) : res (list event) :=
  if String.eqb (json_output opt) "" then mret []
  else
    state_export ← Json.export_all (exported out) Json.json_null;
    mret [WrittenJson (json_output opt) (Json.json_dump state_export)].

(** What follows the loop: the JSON file, and the exit line, for which tohost is read twice;
    [between] is what happens to the machine between the two reads. *)
Definition report `{Json.JsonDoc} `{Json.EnumCodes} (opt : options) (out : list event) (between : model → model)
    (s : model) : res (Z * list event) :=
  file ← write_json opt out;
  '(code, s) ← tohost s;
  '(code', s) ← tohost (between s);
  mret (0, out ++ file ++ [LoggedExit (Format.exit_line (o_target opt) code (s32 code'))]).

(** [run]: the exit status of the process and the output, if no other thread makes a step.
    [--dump] ends in [std::exit(EXIT_SUCCESS)]. *)
Definition run `{Config} `{ElfDump} `{Json.JsonDoc} `{Json.EnumCodes} (fuel : nat) (opt : options)
    (input : list Z) (exception : option string) : res (Z * list event) :=
  if dump_exit opt then
    prog ← loader_open (o_target opt);
    mret (0, [Dumped (dump "" prog)])
  else
    let out := serve opt exception in
    s ← build opt;
    '(s, out) ← run_loop fuel opt input out s;
    report opt out id s.
End run.

(** ** The two threads *)

Section threads.
Context {P : Platform} {C : CommonLib} {D : Decoder}.
Implicit Types (s : model).

(** What a step of the timer thread does to the router it refers to. *)
Definition perform (a : action) (r : address_router) : res address_router :=
  match a with
  | increment => t ← fetch_add (mtime r); mret (with_mtime t r)
  | _ => mret r
  end.

(** The machine, what the loop has written, the timer thread if there is one, and where
    [run] is: in its loop, or leaving, when the destructor of [mti_source] calls
    [set_exiting].  Nothing calls [register_signals], so no step changes
    [pending_interrupt]. *)
Record system : Type := mk_system {
  hart : model; stdin : list Z; written : list event; timer : option mti_source;
  pending_interrupt : Z; leaving : option caller_pc
}.

Inductive sys_step : system → system → Prop :=
  | sys_cycle s s1 s2 i i' o new t p :
      loop_condition (opts s) i s = (true, i') → step s = Ok (tt, s1) →
      exports (opts s) s1 = Ok new → commit s1 = Ok (tt, s2) →
      sys_step (mk_system s i o t p None) (mk_system s2 i' (o ++ new) t p None)
  | sys_finish s i i' o t p :
      loop_condition (opts s) i s = (false, i') →
      sys_step (mk_system s i o t p None)
        (mk_system s i' o t p (Some (match t with Some _ => at_store | None => returned end)))
  | sys_runner s i o t p l status a t' r :
      runner_step p status t = Some (a, t') → perform a (mem s) = Ok r →
      sys_step (mk_system s i o (Some t) p l) (mk_system (with_mem r s) i o (Some t') p l)
  | sys_destroy s i o t p c c' t' :
      destroy_step c t = Some (c', t') →
      sys_step (mk_system s i o (Some t) p (Some c)) (mk_system s i o (Some t') p (Some c')).

Inductive reachable (w0 : system) : system → Prop :=
  | reach_start : reachable w0 w0
  | reach_step w w' : reachable w0 w → sys_step w w' → reachable w0 w'.

Definition start (s : model) (input : list Z) : system :=
  mk_system s input [] (if mti_enabled (opts s) then Some mti_source_init else None) 0 None.

(** One round of the loop, as [sys_cycle] makes it. *)
Definition cycle (s : model) : res (list event * model) :=
  '(_, s1) ← step s;
  new ← exports (opts s) s1;
  '(_, s2) ← commit s1;
  mret (new, s2).

(** The ways [run] can end, whatever the timer thread does meanwhile: it fails before the
    loop or in one of its rounds, or reports after it.  The thread still runs during the
    report. *)
Inductive run_outcome `{ElfIO} `{Config} `{ElfDump} `{Json.JsonDoc} `{Json.EnumCodes} (opt : options) (input : list Z)
    (exception : option string) : res (Z * list event) → Prop :=
  | outcome_dump prog : dump_exit opt = true → loader_open (o_target opt) = Ok prog →
      run_outcome opt input exception (Ok (0, [Dumped (dump "" prog)]))
  | outcome_no_dump f : dump_exit opt = true → loader_open (o_target opt) = Fail f →
      run_outcome opt input exception (Fail f)
  | outcome_no_machine f : dump_exit opt = false → build opt = Fail f → run_outcome opt input exception (Fail f)
  | outcome_round s w i f : dump_exit opt = false → build opt = Ok s → reachable (start s input) w →
      leaving w = None → loop_condition (opts (hart w)) (stdin w) (hart w) = (true, i) → cycle (hart w) = Fail f →
      run_outcome opt input exception (Fail f)
  | outcome_report s w w' : dump_exit opt = false → build opt = Ok s → reachable (start s input) w →
      leaving w ≠ None → reachable w w' →
      run_outcome opt input exception (report opt (serve opt exception ++ written w) (λ _, hart w') (hart w)).
End threads.

(** ** Lemmas *)

Section lemmas.
Context {P : Platform} {C : CommonLib} {L : CommonLaws} {D : Decoder} {DO : DecoderOk}.
Implicit Types (s : model).

Lemma interrupt_pending_frame s : wf_model s →
  ∃ s', interrupt_pending s = Ok (tt, s') ∧ frame s s' ∧ (mti_enabled (opts s) = false → s' = s).
Proof.
  intros Hs. rewrite interrupt_pending_eq by done.
  destruct (mti_enabled (opts s)); [|by exists s]. simpl andb. destruct (_ <? _); [|by exists s].
  rewrite (bind_ok _ _ _ _ _ (set_pending_eq int_timer_m s Hs eq_refl)).
  set (s1 := put_csr _ _ s).
  assert (wf_model s1) as Hs1.
  { apply wf_put_csr; [done|]. apply (setbit_bound 32); [by vm_compute | by apply csrv_u32]. }
  rewrite trap_interrupt_eq by done. eexists. split; [done|]. split; [|done].
  apply (frame_trans _ s1); [apply frame_put_csr|]. clearbody s1.
  destruct (enabled int_timer_m s1); [|done]. apply (interrupted_spec int_timer_m s1 Hs1).
Qed.

Lemma commit_frame s : wf_model s → is_u32 (next_pc s) →
  ∃ s', commit s = Ok (tt, s') ∧ frame s s' ∧ (mti_enabled (opts s) = false → csrf s' = csrf s).
Proof.
  intros Hs Hn. destruct (interrupt_pending_frame (jump s) (wf_jump s Hs Hn)) as (s1 & Hi & Hf & Hoff).
  exists (settled s1). split.
  { unfold commit, update_pc. rewrite bind_modify. fold (jump s). by rewrite (bind_ok _ _ _ _ _ Hi). }
  split; [exact Hf|]. intros Ho. specialize (Hoff Ho). by subst s1.
Qed.

Lemma settled_rest s : wf_model s → at_rest (settled s).
Proof. intros []. split; [by split | done]. Qed.

Lemma tick_eq s : tick s = match step s with Ok (_, s1) => commit s1 | Fail f => Fail f end.
Proof. done. Qed.

Lemma tick_ok {E} {PE : PlatformOk P E} s : at_rest s →
  sat E (tick s) (λ '(_, s'), at_rest s' ∧ fixed s' = fixed s).
Proof.
  intros Hs. eapply triple_bind; [apply (step_keeps (regf s) (csrf s) (fixed s)) | | ].
  - intros []. apply commit_keeps.
  - by apply at_rest_core.
Qed.

Lemma with_mtime_ok s t : at_rest s → timer_ok t →
  at_rest (with_mem (with_mtime t (mem s)) s) ∧ fixed (with_mem (with_mtime t (mem s)) s) = fixed s.
Proof. intros ([? [] ? ? ? ? ? ? ?] & ? & ?) Ht. split; [|done]. split; [by split | done]. Qed.

Lemma perform_ok a r : wf_router r →
  perform a r = Ok (match a with increment => with_mtime (<[0%nat := u8 (default 0 (nth_z (mtime r) 0) + 1)]> (mtime r)) r | _ => r end).
Proof.
  intros Hr. destruct a; [done | | done]. unfold perform.
  by destruct (fetch_add_ok (mtime r) (r_mtime _ Hr)) as [-> _].
Qed.

Lemma perform_keeps a s r : at_rest s → perform a (mem s) = Ok r →
  at_rest (with_mem r s) ∧ fixed (with_mem r s) = fixed s.
Proof.
  intros Hs Hp. assert (wf_router (mem s)) as Hr by apply Hs.
  rewrite perform_ok in Hp by done. injection Hp as <-.
  destruct a; [by destruct s | | by destruct s].
  apply with_mtime_ok; [done|]. apply fetch_add_ok, Hr.
Qed.

Lemma sys_step_inv {E} {PE : PlatformOk P E} w w' :
  at_rest (hart w) → sys_step w w' → at_rest (hart w') ∧ fixed (hart w') = fixed (hart w).
Proof.
  intros Hw Hstep.
  destruct Hstep as [s s1 s2 i i' o new t p _ Hs1 _ Hs2 | s i i' o t p _ | s i o t p l status a t' r _ Hr
    | s i o t p c c' t' _]; simpl in *; [|done | by eapply perform_keeps | done].
  pose proof (tick_ok (E := E) s Hw) as Hok. rewrite tick_eq, Hs1 in Hok. by rewrite Hs2 in Hok.
Qed.

Lemma reachable_inv {E} {PE : PlatformOk P E} w0 w :
  at_rest (hart w0) → reachable w0 w → at_rest (hart w) ∧ fixed (hart w) = fixed (hart w0).
Proof.
  intros H0. induction 1 as [|w w' _ [Hw Hf] Hs]; [done|].
  destruct (sys_step_inv (E := E) w w' Hw Hs) as [? ?]. split; [done | congruence].
Qed.

(** The timer thread of a reachable system is one of [Timer]'s executions, in which the
    caller of [set_exiting] has not begun while [run] is in its loop. *)
Definition caller_of (w : system) : caller_pc := default at_store (leaving w).
Lemma reachable_threads (s : model) input w : reachable (start s input) w →
  match timer w with
  | Some t => ∃ l, Timer.execution true l created (caller_of w, t)
  | None => leaving w = None ∨ leaving w = Some returned
  end.
Proof.
  induction 1 as [|w w' _ IH Hs].
  { simpl. destruct (mti_enabled _); [exists []; constructor | by left]. }
  destruct Hs as [s0 s1 s2 i i' o new t p _ _ _ _ | s1 i i' o t p _ | s1 i o t p l status a t' r Hr _
    | s1 i o t p c c' t' Hd]; simpl in *; [done | by destruct t; [|right] | |]; destruct IH as [l0 He].
  - exists (l0 ++ [a]). eapply execution_app; [exact He|].
    eapply exec_cons; [by eapply step_runner | constructor].
  - exists (l0 ++ [silent]). eapply execution_app; [exact He|].
    eapply exec_cons; [by eapply step_caller | constructor].
Qed.

Lemma leave_step s i o t p c : at_rest s → threads_ok (c, t) → c ≠ returned →
  ∃ w', sys_step (mk_system s i o (Some t) p (Some c)) w'.
Proof.
  intros Hs Ht Hc. destruct (one_can_step p c t Ht Hc) as [(a & t' & Hr)|(c' & t' & Hd)].
  - eexists. eapply sys_runner; [exact Hr|]. apply perform_ok, Hs.
  - eexists. by apply sys_destroy.
Qed.

(** The register changes, and the CSR changes, among the events. *)
Definition gpr_log (out : list event) : list gpr_change :=
  omap (λ e, match e with LoggedGpr c => Some c | _ => None end) out.
Definition csr_log (out : list event) : list csr_change :=
  omap (λ e, match e with LoggedCsr c => Some c | _ => None end) out.

Lemma omap_fmap {A B C'} (f : B → option C') (g : A → B) (l : list A) : omap f (g <$> l) = omap (f ∘ g) l.
Proof. induction l as [|x l IH]; [done|]. csimpl. by rewrite IH. Qed.
Lemma omap_some {A} (l : list A) : omap Some l = l.
Proof. induction l as [|x l IH]; [done|]. csimpl. by rewrite IH. Qed.
Lemma omap_none {A B} (l : list A) : omap (λ _, None : option B) l = [].
Proof. by induction l. Qed.

Definition disas_log (out : list event) : list string :=
  omap (λ e, match e with Disassembled l => Some l | _ => None end) out.

(** The line of a state without the buffer. *)
Definition line_of (state : hart_state) : string :=
  let pc := u32 (pc_get (pc state)) in
  Format.hex_field 10 pc +:+ DisasTables.tab
  +:+ match Disas.disasm_decode DisasTables.rv32 pc (u64 (instr state)) with
      | Ok d => Disas.render d | Fail _ => "" end.

Lemma state_line_ok (state : hart_state) : state_line state = Ok (line_of state).
Proof.
  unfold state_line, line_of. cbn zeta.
  destruct (Disas.disasm_decode_ok DisasTables.rv32 (u32 (pc_get (pc state))) (u64 (instr state)))
    as (d & Hd & Hwf & _ & Hin & _).
  unfold Disas.disasm_inst. rewrite Hd, res_bind_ok.
  destruct (Disas.render_ok 128 ltac:(lia) d Hwf) as [-> _]; [rewrite Hin; apply u64_range | lia | done].
Qed.

(** The output of an iteration: printing cannot fail. *)
Definition events (opt : options) (state : hart_state) : list event :=
  [Printed (dec state)] ++ (LoggedGpr <$> gpr_staged state) ++ (LoggedCsr <$> csr_staged state)
  ++ (if String.eqb (disas_output opt) "" then [] else [Disassembled (line_of state)])
  ++ (if String.eqb (json_output opt) "" then [] else [Exported (dec state)]).
Lemma exports_ok opt s : exports opt s = Ok (events opt (cur_state s)).
Proof.
  unfold exports, events. cbn zeta. rewrite state_line_ok, res_bind_ok.
  by destruct (String.eqb (disas_output opt) ""); rewrite res_bind_ok, <-!app_assoc.
Qed.

Lemma events_logs opt (state : hart_state) :
  gpr_log (events opt state) = gpr_staged state ∧
  csr_log (events opt state) = csr_staged state ∧
  disas_log (events opt state) = (if String.eqb (disas_output opt) "" then [] else [line_of state]) ∧
  exported (events opt state) = (if String.eqb (json_output opt) "" then [] else [dec state]).
Proof.
  unfold events, gpr_log, csr_log, disas_log, exported. rewrite !omap_app, !omap_fmap.
  split_and!; destruct (String.eqb _ _), (String.eqb _ _); simpl;
    rewrite ?app_nil_r; unfold compose; rewrite ?omap_some, ?omap_none, ?app_nil_r; done.
Qed.

(** Reading one thing off the output of several iterations. *)
Lemma omap_events {A} (f : event → option A) (g : hart_state → A) opt states :
  (∀ state, omap f (events opt state) = [g state]) → omap f (states ≫= events opt) = g <$> states.
Proof.
  intros Hf. induction states as [|state states IH]; [done|].
  by rewrite bind_cons, omap_app, Hf, IH.
Qed.
End lemmas.

Section loop.
Context {P : Platform} {C : CommonLib} {L : CommonLaws} {D : Decoder} {DO : DecoderOk}.
Implicit Types (s : model).

Lemma loop_not_stepping opt i s : fstep opt = false → loop_condition opt i s = (negb (done_ s), i).
Proof. intros Hf. unfold loop_condition. by rewrite Hf. Qed.

Lemma run_loop_S fuel opt i out s :
  run_loop (S fuel) opt i out s =
    let '(go, i) := loop_condition opt i s in
    if go then
      match step s with
      | Ok (_, s1) =>
          match commit s1 with
          | Ok (_, s2) => run_loop fuel opt i (out ++ events opt (cur_state s1)) s2
          | Fail f => Fail f
          end
      | Fail f => Fail f
      end
    else Ok (s, out).
Proof.
  cbn [run_loop]. destruct (loop_condition opt i s) as [[] i']; [|done].
  destruct (step s) as [[[] s1]|]; [|done]. rewrite res_bind_ok, exports_ok, res_bind_ok.
  by destruct (commit s1) as [[[] s2]|].
Qed.

(** What was written before the loop stays in front. *)
Lemma run_loop_prefix fuel opt i o out s :
  run_loop fuel opt i (o ++ out) s =
  match run_loop fuel opt i out s with Ok (s', out') => Ok (s', o ++ out') | Fail f => Fail f end.
Proof.
  revert i out s. induction fuel as [|fuel IH]; intros i out s; [done|]. rewrite !run_loop_S.
  destruct (loop_condition opt i s) as [[] i']; [|done]. destruct (step s) as [[_ s1]|]; [|done].
  destruct (commit s1) as [[_ s2]|]; [|done]. rewrite <-app_assoc. apply IH.
Qed.

Lemma run_loop_sound opt i out s fuel s' out' : fstep opt = false →
  run_loop fuel opt i out s = Ok (s', out') →
  ∃ n, ticks n s = Ok (tt, s') ∧ done_ s' = true ∧
    ∀ k sk, (k < n)%nat → ticks k s = Ok (tt, sk) → done_ sk = false.
Proof.
  intros Hf. revert out s. induction fuel as [|fuel IH]; intros out s; [done|].
  rewrite run_loop_S, loop_not_stepping by done. destruct (done_ s) eqn:Hd; simpl negb; cbv iota.
  - intros [= -> _]. exists 0%nat. split; [done|]. split; [done|]. intros. lia.
  - destruct (step s) as [[[] s1]|] eqn:Hs1; [|done]. destruct (commit s1) as [[[] s2]|] eqn:Hs2; [|done].
    intros Hrun. destruct (IH _ _ Hrun) as (n & Hn & Hdone & Hbefore).
    assert (tick s = Ok (tt, s2)) as Ht by (rewrite tick_eq; by rewrite Hs1).
    exists (S n). cbn [ticks]. rewrite (bind_ok _ _ _ _ _ Ht). split; [done|]. split; [done|].
    intros [|k] sk Hk; cbn [ticks]; [by intros [= <-]|].
    rewrite (bind_ok _ _ _ _ _ Ht). apply Hbefore. lia.
Qed.

Lemma run_loop_complete opt i n out s s' fuel : fstep opt = false →
  ticks n s = Ok (tt, s') → done_ s' = true →
  (∀ k sk, (k < n)%nat → ticks k s = Ok (tt, sk) → done_ sk = false) → (n < fuel)%nat →
  ∃ out', run_loop fuel opt i out s = Ok (s', out').
Proof.
  intros Hf. revert out s fuel. induction n as [|n IH]; intros out s [|fuel] Hn Hd Hb Hfuel; try lia;
    rewrite run_loop_S, loop_not_stepping by done.
  - injection Hn as ->. rewrite Hd. eauto.
  - rewrite (Hb 0%nat s ltac:(lia) eq_refl). simpl negb. cbv iota. cbn [ticks] in Hn.
    unfold mbind, stateM_bind in Hn. rewrite tick_eq in Hn.
    destruct (step s) as [[[] s1]|] eqn:Hs1; [|done]. destruct (commit s1) as [[[] s2]|] eqn:Hs2; [|done].
    apply IH; [done | done | | lia]. intros k sk Hk Hsk. apply (Hb (S k)); [lia|]. cbn [ticks].
    unfold mbind, stateM_bind. rewrite tick_eq, Hs1, Hs2. exact Hsk.
Qed.

Lemma run_loop_fixed {E} {PE : PlatformOk P E} fuel opt i out s : at_rest s →
  sat (λ f, E f ∨ f = OutOfFuel) (run_loop fuel opt i out s) (λ '(s', _), at_rest s' ∧ fixed s' = fixed s).
Proof.
  revert i out s. induction fuel as [|fuel IH]; intros i out s Hs; [by right|].
  rewrite run_loop_S. destruct (loop_condition opt i s) as [[] i']; [|done].
  pose proof (tick_ok (E := E) s Hs) as Ht. rewrite tick_eq in Ht.
  destruct (step s) as [[[] s1]|f]; [|by left].
  destruct (commit s1) as [[[] s2]|f]; [|by left]. destruct Ht as [Hs2 Hf].
  eapply sat_weaken; [apply IH, Hs2|]. intros [s' out'] [? ?]. split; [done | congruence].
Qed.

(** The states the loop exports in [n] cycles, one between [step] and [commit] of each. *)
Fixpoint exported_states (n : nat) s : list hart_state :=
  match n with
  | O => []
  | S n =>
      match step s with
      | Ok (_, s1) =>
          cur_state s1 :: match commit s1 with Ok (_, s2) => exported_states n s2 | Fail _ => [] end
      | Fail _ => []
      end
  end.

(** One cycle and what it logs. *)
Lemma cycle_log {E} {PE : PlatformOk P E} opt s s1 s2 : at_rest s →
  step s = Ok (tt, s1) → commit s1 = Ok (tt, s2) →
  at_rest s2 ∧ opts s2 = opts s ∧ regf s2 = RegFile.replay (regf s) (gpr_log (events opt (cur_state s1))) ∧
  (mti_enabled (opts s) = false → csrf s2 = csr_replay (csrf s) (csr_log (events opt (cur_state s1)))).
Proof.
  intros Hs Hs1 Hs2.
  pose proof (step_keeps (regf s) (csrf s) (fixed s) s (at_rest_core s Hs) (E := E)) as Hstep.
  rewrite Hs1 in Hstep. destruct Hstep as [[Hwf Htr Hfx] Hn].
  pose proof (commit_keeps (regf s) (csrf s) (fixed s) s1 (conj (Build_core _ _ _ _ Hwf Htr Hfx) Hn) (E := E)) as Hc.
  destruct (commit_frame s1 Hwf Hn) as (s2' & Hcommit & (Hregf & _) & Hcsr).
  rewrite Hs2 in Hc, Hcommit. injection Hcommit as <-. destruct Hc as [Hrest Hfx2].
  destruct (events_logs opt (cur_state s1)) as (-> & -> & _). destruct Htr as [Htg _ Htc _].
  injection Hfx as _ Hop _ _ _. injection Hfx2 as _ Hop2 _ _ _.
  split; [done|]. split; [done|]. split; [congruence|]. intros Ho. rewrite Hcsr, Htc by congruence. done.
Qed.

Lemma reachable_log {E} {PE : PlatformOk P E} s input w : at_rest s → reachable (start s input) w →
  at_rest (hart w) ∧ opts (hart w) = opts s ∧
  regf (hart w) = RegFile.replay (regf s) (gpr_log (written w)) ∧
  (mti_enabled (opts s) = false → csrf (hart w) = csr_replay (csrf s) (csr_log (written w))).
Proof.
  intros Hs. induction 1 as [|w w' _ (Hw & Hop & Hreg & Hcsr) Hstep]; [done|].
  destruct Hstep as [s0 s1 s2 i i' o new t p _ Hs1 He Hs2 | s0 i i' o t p _ | s0 i o t p l status a t' r _ Hr
    | s0 i o t p c c' t' _]; simpl in *; [|done | |done].
  - rewrite exports_ok in He. injection He as <-.
    destruct (cycle_log (E := E) (opts s0) s0 s1 s2 Hw Hs1 Hs2) as (Hw2 & Hop2 & Hr2 & Hc2).
    unfold gpr_log, csr_log, RegFile.replay, csr_replay in *. rewrite !omap_app, !foldl_app.
    split; [done|]. split; [congruence|]. split; [by rewrite Hr2, Hreg|].
    intros Ho. rewrite Hc2 by congruence. by rewrite Hcsr.
  - split; [by eapply perform_keeps | done].
Qed.

(** The sequential loop, as a schedule. *)
Lemma run_loop_reachable {E} {PE : PlatformOk P E} fuel w0 w s' out' : at_rest (hart w) → leaving w = None →
  reachable w0 w →
  run_loop fuel (opts (hart w)) (stdin w) (written w) (hart w) = Ok (s', out') →
  ∃ w', reachable w0 w' ∧ hart w' = s' ∧ written w' = out' ∧ leaving w' ≠ None.
Proof.
  revert w. induction fuel as [|fuel IH]; intros [s i o t p l] Hs Hl Hr;
    cbn [hart stdin written leaving] in *; subst l; [done|].
  rewrite run_loop_S. destruct (loop_condition (opts s) i s) as [go i'] eqn:Hgo. destruct go.
  - destruct (step s) as [[[] s1]|] eqn:Hs1; [|done]. destruct (commit s1) as [[[] s2]|] eqn:Hs2; [|done].
    destruct (cycle_log (E := E) (opts s) s s1 s2 Hs Hs1 Hs2) as (Hw2 & Hop2 & _). rewrite <-Hop2 at 1.
    intros Hrun. apply (IH (mk_system s2 i' (o ++ events (opts s) (cur_state s1)) t p None)); [done | done | | exact Hrun].
    eapply reach_step; [exact Hr|]. by apply (sys_cycle s s1 s2); [..| apply exports_ok |].
  - intros [= <- <-]. eexists. split; [eapply reach_step; [exact Hr | by eapply sys_finish]|]. done.
Qed.

(** What the loop adds to the output: that of the states it exports, in order. *)
Lemma run_loop_output opt i out s fuel s' out' :
  run_loop fuel opt i out s = Ok (s', out') →
  ∃ n, ticks n s = Ok (tt, s') ∧ out' = out ++ (exported_states n s ≫= events opt).
Proof.
  revert i out s. induction fuel as [|fuel IH]; intros i out s; [done|].
  rewrite run_loop_S. destruct (loop_condition opt i s) as [[] i'].
  2: { intros [= -> ->]. exists 0%nat. by rewrite app_nil_r. }
  destruct (step s) as [[[] s1]|] eqn:Hs1; [|done]. destruct (commit s1) as [[[] s2]|] eqn:Hs2; [|done].
  intros Hrun. destruct (IH _ _ _ Hrun) as (n & Hn & Hout). exists (S n). split.
  - cbn [ticks]. unfold mbind, stateM_bind. by rewrite tick_eq, Hs1, Hs2.
  - rewrite Hout, <-app_assoc. cbn [exported_states]. by rewrite Hs1, Hs2.
Qed.

Lemma line_of_one_line (state : hart_state) : Format.all_chars Format.no_newline (line_of state) = true.
Proof.
  unfold line_of. cbn zeta. apply DisasText.one_line_app.
  { unfold Format.hex_field, Format.right_field, Format.hex.
    apply DisasText.one_line_app; [apply Format.no_newline_pad|].
    apply (DisasText.one_line_app "0x"); [done | by apply DisasText.one_line_digits]. }
  apply (DisasText.one_line_app DisasTables.tab); [done|].
  destruct (Disas.disasm_decode _ _ _); [apply DisasText.render_one_line | done].
Qed.

(** The rest of [run] once the loop has returned. *)
Lemma report_ok `{JD : Json.JsonDoc} {JDL : Json.JsonDocLaws} {EC : Json.EnumCodes} opt out s : at_rest s →
  let code := le_value (byte (pages (mem s))) (tohost_addr s) 4 in
  tohost s = Ok (code, s) ∧ is_u32 code ∧
  write_json opt out = Ok (if String.eqb (json_output opt) "" then []
    else [WrittenJson (json_output opt) (Json.json_dump (Json.exported_json (exported out)))]).
Proof.
  intros Hs code. split; [apply tohost_eq, Hs|]. split; [apply le_value_u32; apply Hs|].
  unfold write_json. destruct (String.eqb _ _); [done|].
  change Json.json_null with (Json.exported_json []). by rewrite Json.export_all_ok, res_bind_ok.
Qed.

Lemma report_eq `{JD : Json.JsonDoc} {JDL : Json.JsonDocLaws} {EC : Json.EnumCodes} opt out between s code code' s' : at_rest s →
  tohost s = Ok (code, s) → tohost (between s) = Ok (code', s') →
  report opt out between s = Ok (0, out ++ (if String.eqb (json_output opt) "" then []
      else [WrittenJson (json_output opt) (Json.json_dump (Json.exported_json (exported out)))])
    ++ [LoggedExit (Format.exit_line (o_target opt) code (s32 code'))]).
Proof.
  intros Hs Ht Ht'. unfold report. destruct (report_ok opt out s Hs) as (_ & _ & ->).
  by rewrite res_bind_ok, Ht, res_bind_ok, Ht', res_bind_ok.
Qed.

(** The JSON document sees the operations of the cycles and nothing else. *)
Lemma exported_events `{CF : Config} opt exception states : String.eqb (json_output opt) "" = false →
  exported (serve opt exception ++ (states ≫= events opt)) = dec <$> states.
Proof.
  intros Hj. unfold exported. rewrite omap_app.
  assert (omap (λ e, match e with Exported d => Some d | _ => None end) (serve opt exception) = []) as ->.
  { unfold serve. destruct (_ && _); [|done]. by destruct exception. }
  apply (omap_events _ dec opt states). intros state.
  destruct (events_logs opt state) as (_ & _ & _ & He). by rewrite Hj in He.
Qed.

(** The machine [build] makes. *)
Lemma build_ok `{EL : ElfIO} opt (e : elf) :
  loader_open (o_target opt) = Ok e → Forall loadable (e_segments e) → wf_op dec_init →
  is_u32 (o_mtime opt) → is_u32 (o_mtimecmp opt) →
  let r0 := address_router_of ∅ (o_mtime opt) (o_mtimecmp opt) in
  ∃ m, load_segments (e_segments e) r0 = Ok (with_pages m r0) ∧
  (∀ a, get_symbol e (tohost_sym opt) = Some a →
     let s := model_of opt (entry e) (progbit_ranges e) (u32 a) (with_pages m r0) in
     build opt = Ok s ∧ at_rest s) ∧
  (get_symbol e (tohost_sym opt) = None → ∃ w, build opt = Fail (Thrown (runtime_error w))).
Proof.
  intros Ho Hsegs Hdec Ht Htc r0.
  destruct (load_segments_spec (e_segments e) r0) as (m' & Hl & Hr & _);
    [by apply wf_address_router_of; [apply wf_mem_empty|..] | done |].
  assert (loader_into (o_target opt) r0 = Ok (e, with_pages m' r0)) as Hinto.
  { unfold loader_into. by rewrite Ho, res_bind_ok, Hl, res_bind_ok. }
  exists m'. split; [done|].
  split; [|intros Hn; unfold build, symbol; fold r0; rewrite Hinto, res_bind_ok, Hn; by eexists].
  intros a Ha s. split; [unfold build, symbol; fold r0; by rewrite Hinto, res_bind_ok, Ha|].
  apply at_rest_model_of; (done || apply u32_range).
Qed.

(** [run] once the loop has ended in a state that has exited. *)
Lemma run_of_loop `{EL : ElfIO} `{ED : ElfDump} `{CF : Config} `{JD : Json.JsonDoc} {JDL : Json.JsonDocLaws}
    {EC : Json.EnumCodes} fuel opt input exception s s' out code :
  dump_exit opt = false → build opt = Ok s →
  run_loop fuel opt input (serve opt exception) s = Ok (s', out) →
  at_rest s' → tohost s' = Ok (code, s') →
  run fuel opt input exception = Ok (0, out ++ (if String.eqb (json_output opt) "" then []
      else [WrittenJson (json_output opt) (Json.json_dump (Json.exported_json (exported out)))])
    ++ [LoggedExit (Format.exit_line (o_target opt) code (s32 code))]).
Proof.
  intros Hd Hb Hl Hs' Ht. unfold run. rewrite Hd, Hb, res_bind_ok, Hl, res_bind_ok. by eapply report_eq.
Qed.
End loop.

(** ** Properties *)

(** C27: The main loop runs the hart until it is done, and no further.  Without
    [--step], the loop returns a state exactly when that is the first state of the
    sequence of cycles in which [done] holds: whatever it returns is such a state, and
    if [n] cycles reach one, any fuel above [n] makes the loop return it, so more
    iterations change nothing. *)
Theorem run_loop_stops_at_done {P : Platform} {C : CommonLib} {D : Decoder} opt input out (s : model) s' :
  fstep opt = false →
  (∀ fuel out', run_loop fuel opt input out s = Ok (s', out') →
     ∃ n, ticks n s = Ok (tt, s') ∧ done_ s' = true ∧
       ∀ k sk, (k < n)%nat → ticks k s = Ok (tt, sk) → done_ sk = false) ∧
  (∀ n, ticks n s = Ok (tt, s') → done_ s' = true →
     (∀ k sk, (k < n)%nat → ticks k s = Ok (tt, sk) → done_ sk = false) →
     ∀ fuel, (n < fuel)%nat → ∃ out', run_loop fuel opt input out s = Ok (s', out')).
Proof.
  intros Hf. split; [intros fuel out' Hr; by eapply run_loop_sound|].
  intros n Hn Hd Hb fuel Hfuel. by eapply run_loop_complete.
Qed.

(** C11: The log is complete under every interleaving.  In every state the main loop and the
    timer thread reach from a hart at rest, replaying the register changes logged so far on
    the initial register file gives the current one; without the timer the same holds of
    the CSR changes.  (With it, the changes an interrupt makes in [commit] are cleared
    before they are logged.)  And the sequential loop is one of these executions: whatever
    it returns, state and output, is reached by a schedule in which the thread never
    runs. *)
Theorem log_replays {P : Platform} {E} {PE : PlatformOk P E} {C : CommonLib} {L : CommonLaws}
    {D : Decoder} {DO : DecoderOk} (s : model) (input : list Z) :
  at_rest s →
  (∀ w, reachable (start s input) w →
     regf (hart w) = RegFile.replay (regf s) (gpr_log (written w)) ∧
     (mti_enabled (opts s) = false → csrf (hart w) = csr_replay (csrf s) (csr_log (written w)))) ∧
  (∀ fuel s' out, run_loop fuel (opts s) input [] s = Ok (s', out) →
     ∃ w, reachable (start s input) w ∧ hart w = s' ∧ written w = out ∧ leaving w ≠ None).
Proof.
  intros Hs. split.
  - intros w Hr. destruct (reachable_log (E := E) s input w Hs Hr) as (_ & _ & Hlog). exact Hlog.
  - intros fuel s' out Hrun.
    destruct (run_loop_reachable (E := E) fuel (start s input) (start s input) s' out Hs eq_refl (reach_start _) Hrun) as (w & Hw).
    by exists w.
Qed.

(** The contents of the trace file: the lines go to one stream, one after the other. *)
Definition disas_file (out : list event) : string := foldr String.append "" (disas_log out).

(** C15: The disassembly trace of a run.  With [-d], a run of the loop that returns has
    written one line for each cycle, in order: the address of the state between [step] and
    [commit] in a field of ten characters, a tabulator, and the rendering of the decoded
    instruction; no line is cut or fails, whatever the instruction words.  The file they go
    to is a single line of text: nothing separates the records. *)
Theorem disas_trace_of_run {P : Platform} {C : CommonLib} {D : Decoder} fuel opt input (s s' : model) out :
  disas_output opt ≠ "" → run_loop fuel opt input [] s = Ok (s', out) →
  ∃ n, ticks n s = Ok (tt, s') ∧ disas_log out = line_of <$> exported_states n s ∧
    Forall (λ state, state_line state = Ok (line_of state)) (exported_states n s) ∧
    Format.all_chars Format.no_newline (disas_file out) = true.
Proof.
  intros Ho Hr. destruct (run_loop_output opt input [] s fuel s' out Hr) as (n & Hn & ->).
  assert (disas_log (exported_states n s ≫= events opt) = line_of <$> exported_states n s) as Hlog.
  { apply omap_events. intros state.
    destruct (events_logs opt state) as (_ & _ & Hl & _).
    by rewrite (proj2 (String.eqb_neq _ _) Ho) in Hl. }
  exists n. split; [done|]. split; [done|]. split.
  { apply Forall_forall. intros state _. apply state_line_ok. }
  unfold disas_file. simpl app. rewrite Hlog. clear. induction (exported_states n s) as [|state l IH]; [done|].
  simpl. apply DisasText.one_line_app; [apply line_of_one_line | exact IH].
Qed.

(** C8: The two threads together are safe.  In every state the main loop and the timer
    thread can reach from a hart at rest, in whatever order their steps interleave,
    the hart is at rest and well-formed, its configuration is the initial one, and the
    next cycle can fail only the way the platform lets arithmetic fail.  Once the loop is
    left, the run never gets stuck before the timer thread has been joined, and from then
    on no thread touches the machine, which may be destroyed. *)
Theorem threads_safe {P : Platform} {E} {PE : PlatformOk P E} {C : CommonLib} {L : CommonLaws}
    {D : Decoder} {DO : DecoderOk} (s : model) (input : list Z) (w : system) :
  at_rest s → reachable (start s input) w →
  at_rest (hart w) ∧ fixed (hart w) = fixed s ∧
  sat E (tick (hart w)) (λ '(_, s'), at_rest s' ∧ fixed s' = fixed s) ∧
  (∀ c, leaving w = Some c → c ≠ returned → ∃ w', sys_step w w') ∧
  (leaving w = Some returned → ∀ w', ¬ sys_step w w').
Proof.
  intros H0 Hr. destruct (reachable_inv (E := E) (start s input) w H0 Hr) as [Hw Hf]. simpl in Hf.
  split; [done|]. split; [done|]. split; [rewrite <-Hf; by apply tick_ok|].
  pose proof (reachable_threads s input w Hr) as Ht.
  destruct w as [s1 i o t p l]. unfold caller_of in Ht. simpl in *.
  assert (∀ c t', t = Some t' → l = Some c → threads_ok (c, t')) as Hok.
  { intros c t' -> ->. destruct Ht as [tr He]. exact (execution_ok tr _ _ created_ok He). }
  split.
  - intros c -> Hc. destruct t as [t|]; [|destruct Ht as [|[= ->]]; done].
    by apply leave_step; [| apply Hok |].
  - intros -> w' Hs. inversion Hs as [| |s2 i2 o2 t2 p2 l2 status a t' r Hr1 _|s2 i2 o2 t2 p2 c c' t' Hd]; subst; [|done].
    destruct (Hok returned t2 eq_refl eq_refl) as [[_ Hj] _ [Hret _]]. simpl in *.
    unfold runner_step in Hr1. by rewrite (Hj (Hret eq_refl)) in Hr1.
Qed.

(** The 64-bit value of a timer register. *)
Definition timer_value (t : list Z) : Z := foldr (λ b acc, b + 2 ^ 8 * acc) 0 t.

(** The timer thread counts modulo 256.  [fetch_add] on the first byte does not
    carry: after any number of increments the 64-bit value of mtime has the same upper
    seven bytes, and only its lowest byte has advanced, modulo 256.  So a comparison
    value that differs from mtime above the lowest byte is never crossed by waiting. *)
Theorem timer_counts_modulo_256 (n : nat) (t : list Z) :
  timer_ok t →
  ∃ t', Nat.iter n (λ r, r ≫= fetch_add) (Ok t) = Ok t' ∧ timer_ok t' ∧
    timer_value t' = 2 ^ 8 * (timer_value t / 2 ^ 8) + (timer_value t + Z.of_nat n) mod 2 ^ 8.
Proof.
  intros Ht. induction n as [|n IH].
  - exists t. do 2 (split; [done|]). rewrite Z.add_0_r. apply Z.div_mod. lia.
  - destruct IH as (t1 & Hi & Ht1 & Hv).
    destruct (fetch_add_ok t1 Ht1) as [Hf Hok]. eexists. split; [|split; [exact Hok|]].
    + change (Nat.iter (S n) (λ r, r ≫= fetch_add) (Ok t)) with (Nat.iter n (λ r, r ≫= fetch_add) (Ok t) ≫= fetch_add).
      rewrite Hi, res_bind_ok. exact Hf.
    + destruct t1 as [|b t1]; [by destruct Ht1|]. destruct Ht1 as [_ [Hb _]%Forall_cons].
      simpl in *. unfold nth_z. simpl. word.
Qed.

(** A run from the file to the exit code.  For a file the loader accepts, whose
    segments can be copied and that has the tohost symbol, [build] succeeds: the hart is
    at rest at the entry point in machine mode with zeroed registers, its memory is the
    image of the segments and its executable ranges are the file's.  The run then
    returns or runs out of fuel (or fails as the platform's arithmetic does); when it
    returns, its last line reports the tohost word of the state the loop ended in, unsigned
    and signed, and the exit status is 0 whatever that word is.  Without the symbol, [run]
    throws before executing anything. *)
Theorem run_from_file {P : Platform} {E} {PE : PlatformOk P E} {C : CommonLib} {L : CommonLaws}
    {D : Decoder} {DO : DecoderOk} {EL : ElfIO} {ED : ElfDump} {CF : Config}
    {J : Json.JsonLib} {JD : Json.JsonDoc} {JDL : Json.JsonDocLaws} {EC : Json.EnumCodes}
    fuel opt input exception (e : elf) :
  dump_exit opt = false → loader_open (o_target opt) = Ok e → Forall loadable (e_segments e) →
  wf_op dec_init → is_u32 (o_mtime opt) → is_u32 (o_mtimecmp opt) →
  (∀ a, get_symbol e (tohost_sym opt) = Some a →
     ∃ s, build opt = Ok s ∧ at_rest s ∧ cur_pc s = entry e ∧ tohost_addr s = u32 a ∧
       mode s = set_mode machine ∧ regf s = RegFile.reg_file_init ∧ allowed_pcs s = progbit_ranges e ∧
       load_segments (e_segments e) (address_router_of ∅ (o_mtime opt) (o_mtimecmp opt)) = Ok (mem s) ∧
       sat (λ f, E f ∨ f = OutOfFuel) (run fuel opt input exception) (λ '(status, out),
         status = 0 ∧ ∃ s' loop_out file,
           run_loop fuel opt input (serve opt exception) s = Ok (s', loop_out) ∧ at_rest s' ∧
           let code := le_value (byte (pages (mem s'))) (u32 a) 4 in
           is_u32 code ∧ out = loop_out ++ file ++ [LoggedExit (Format.exit_line (o_target opt) code (s32 code))])) ∧
  (get_symbol e (tohost_sym opt) = None →
     ∃ w, run fuel opt input exception = Fail (Thrown (runtime_error w))).
Proof.
  intros Hdump Ho Hsegs Hdec Ht Htc.
  destruct (build_ok opt e Ho Hsegs Hdec Ht Htc) as (m & Hl & Hb & Hnone).
  split; [|intros Hn; destruct (Hnone Hn) as [w Hw]; exists w; unfold run; by rewrite Hdump, Hw].
  intros a Ha. destruct (Hb a Ha) as [Hs Hrest]. eexists. split; [exact Hs|]. split; [exact Hrest|].
  split; [apply pc_get_of|]. do 4 (split; [done|]). split; [exact Hl|].
  match type of Hs with _ = Ok ?x => set (s := x) in * end. pose proof (eq_refl : tohost_addr s = u32 a) as Hto.
  clearbody s.
  pose proof (run_loop_fixed (E := E) fuel opt input (serve opt exception) s Hrest) as Hloop.
  destruct (run_loop fuel opt input (serve opt exception) s) as [[s' out]|f] eqn:Hrun;
    [|unfold run; by rewrite Hdump, Hs, res_bind_ok, Hrun].
  destruct Hloop as [Hs' Hf]. destruct (report_ok opt out s' Hs') as (Htohost & Hcode & _).
  rewrite (run_of_loop _ _ _ _ _ _ _ _ Hdump Hs Hrun Hs' Htohost). split; [done|].
  assert (tohost_addr s' = u32 a) as Hto' by (unfold fixed in Hf; congruence).
  rewrite Hto' in *. by eexists s', out, _.
Qed.

(** The exit code of a run, for programs of the base set.  Take a file the loader accepts, with the timer and
    [--step] off, and start the reference interpreter at its entry point with zeroed
    registers on the image of its segments.  If the interpreter returns an exit code within
    [n] instructions, then the whole program [run], given more fuel than that, returns with
    status 0, and the last line of its log reports that code, in hexadecimal and as a
    signed number. *)
Theorem run_exit_code {P : Platform} {C : CommonLib} {L : CommonLaws} {D : Decoder} {DO : DecoderOk}
    {promised} {AR : Arithmetic P promised} {EL : ElfIO} {ED : ElfDump} {CF : Config}
    {J : Json.JsonLib} {JD : Json.JsonDoc} {JDL : Json.JsonDocLaws} {EC : Json.EnumCodes}
    n fuel opt input exception (e : elf) (r : address_router) a code :
  dump_exit opt = false → mti_enabled opt = false → fstep opt = false →
  loader_open (o_target opt) = Ok e → Forall loadable (e_segments e) →
  wf_op dec_init → is_u32 (o_mtime opt) → is_u32 (o_mtimecmp opt) →
  get_symbol e (tohost_sym opt) = Some a →
  load_segments (e_segments e) (address_router_of ∅ (o_mtime opt) (o_mtimecmp opt)) = Ok r →
  isa_run promised (progbit_ranges e) (o_mtime opt) (o_mtimecmp opt) (u32 a) n
    (mk_arch (entry e) (λ _, 0) (byte (pages r))) = Some code →
  (n < fuel)%nat →
  ∃ out, run fuel opt input exception =
    Ok (0, out ++ [LoggedExit (Format.exit_line (o_target opt) code (s32 code))]).
Proof.
  intros Hdump Hoff Hstep Ho Hsegs Hdec Ht Htc Ha Hr Hrun Hfuel.
  destruct (build_ok opt e Ho Hsegs Hdec Ht Htc) as (m & Hl & Hb & _).
  rewrite Hl in Hr. injection Hr as <-. destruct (Hb a Ha) as [Hs Hrest].
  match type of Hs with _ = Ok ?x => set (s := x) in * end.
  destruct (program_exits (promised := promised) n s (mk_arch (entry e) (λ _, 0) (byte m)) code)
    as (k & s' & Hk & Hticks & (Hs' & Hdone & Hto) & _ & Hbefore); [done | done | | done | done |].
  { split; [symmetry; apply pc_get_of | | done]. intros i Hi. symmetry. apply RegFile.reg_init. }
  destruct (run_loop_complete opt input k (serve opt exception) s s' fuel) as [out Hout];
    [done | done | done | done | lia |].
  rewrite (run_of_loop _ _ _ _ _ _ _ _ Hdump Hs Hout Hs' Hto). eexists. by rewrite app_assoc.
Qed.

(** C17: What a run leaves behind.  With [--dump], [run] prints the file, if the loader
    accepts it, and does nothing else.  Otherwise a run that returns has simulated some
    number of whole cycles from the machine [build] makes, and its output is, in order,
    what the echo server reported, the records of each cycle, the JSON file if one was
    asked for, and the exit line.  The JSON document is the array of the decoded
    operations of the cycles, each once and in order, and null when there was no cycle. *)
Theorem run_artifacts {P : Platform} {E} {PE : PlatformOk P E} {C : CommonLib} {L : CommonLaws}
    {D : Decoder} {DO : DecoderOk} {EL : ElfIO} {ED : ElfDump} {CF : Config}
    {J : Json.JsonLib} {JD : Json.JsonDoc} {JDL : Json.JsonDocLaws} {EC : Json.EnumCodes}
    fuel opt input exception status out :
  (∀ s, build opt = Ok s → at_rest s) →
  run fuel opt input exception = Ok (status, out) →
  status = 0 ∧
  (dump_exit opt = true → ∃ prog, loader_open (o_target opt) = Ok prog ∧ out = [Dumped (dump "" prog)]) ∧
  (dump_exit opt = false → ∃ s s' n, build opt = Ok s ∧ ticks n s = Ok (tt, s') ∧
     let states := exported_states n s in
     let code := le_value (byte (pages (mem s'))) (tohost_addr s') 4 in
     out = serve opt exception ++ (states ≫= events opt)
       ++ (if String.eqb (json_output opt) "" then []
           else [WrittenJson (json_output opt) (Json.json_dump (Json.exported_json (dec <$> states)))])
       ++ [LoggedExit (Format.exit_line (o_target opt) code (s32 code))]).
Proof.
  intros Hrest. unfold run, report, id. destruct (dump_exit opt).
  { destruct (loader_open (o_target opt)) as [prog|]; [|done]. intros [= <- <-].
    split; [done|]. split; [by exists prog | done]. }
  intros Hr. destruct (build opt) as [s|] eqn:Hb; [|done]. rewrite res_bind_ok in Hr.
  pose proof (run_loop_fixed (E := E) fuel opt input (serve opt exception) s (Hrest s eq_refl)) as Hloop.
  destruct (run_loop fuel opt input (serve opt exception) s) as [[s' out']|] eqn:Hl; [|done].
  destruct Hloop as [Hs' _]. destruct (report_ok opt out' s' Hs') as (Htohost & _ & Hj).
  rewrite res_bind_ok, Hj, res_bind_ok, Htohost, res_bind_ok, Htohost, res_bind_ok in Hr.
  injection Hr as <- <-. split; [done|]. split; [done|]. intros _.
  destruct (run_loop_output _ _ _ _ _ _ _ Hl) as (n & Hn & ->). exists s, s', n.
  do 2 (split; [done|]). cbn zeta. rewrite <-app_assoc. do 3 f_equal.
  destruct (String.eqb (json_output opt) "") eqn:Hjo; [done|]. by rewrite (exported_events opt) by done.
Qed.

(** ** Witnesses *)

Section witnesses.
#[local] Existing Instances wrapping ref_common ref_decoder ref_elf.

Lemma run_loop_stops_at_done_witness :
  ∃ out', run_loop 1 sample_options [] [] (with_done true sample) = Ok (with_done true sample, out').
Proof.
  refine (proj2 (run_loop_stops_at_done sample_options [] [] (with_done true sample)
    (with_done true sample) eq_refl) 0%nat eq_refl eq_refl _ 1%nat _); [intros; lia | lia].
Defined.

Lemma log_replays_witness : ∃ w, reachable (start exiting []) w ∧ leaving w ≠ None ∧
  regf (hart w) = RegFile.replay (regf exiting) (gpr_log (written w)).
Proof.
  destruct (log_replays (E := no_fault) exiting [] exiting_at_rest) as [Hall Hrun].
  assert (∃ s' out, run_loop 4 (opts exiting) [] [] exiting = Ok (s', out)) as (s' & out & Hl)
    by (do 2 eexists; vm_compute; reflexivity).
  destruct (Hrun 4%nat s' out Hl) as (w & Hw & _ & _ & Hleft).
  exists w. split; [exact Hw|]. split; [exact Hleft|]. exact (proj1 (Hall w Hw)).
Defined.

(** The sample program with [-d]. *)
Definition traced_options : options :=
  mk_options "prog.elf" "tohost" "" "trace" 0x8000 0x8100 100 0 false false false false.
Definition traced : model := match build traced_options with Ok s => s | Fail _ => sample end.
Lemma traced_run : ∃ s' out, run_loop 10 traced_options [] [] traced = Ok (s', out).
Proof. eexists. eexists. vm_compute. reflexivity. Qed.
Lemma disas_trace_of_run_witness :
  ∃ s' out n, run_loop 10 traced_options [] [] traced = Ok (s', out) ∧ ticks n traced = Ok (tt, s') ∧
    disas_log out = line_of <$> exported_states n traced.
Proof.
  destruct traced_run as (s' & out & Hr).
  destruct (disas_trace_of_run 10 traced_options [] traced s' out) as (n & Hn & Hl & _); [done | exact Hr |].
  exists s', out, n. split; [exact Hr | split; [exact Hn | exact Hl]].
Defined.
(** The whole file. *)
Example traced_file :
  match run_loop 10 traced_options [] [] traced with Ok (_, out) => disas_file out | Fail _ => "" end
  = "    0x1000" +:+ DisasTables.tab +:+ "00500513          addi          a0,zero,5"
    +:+ "    0x1004" +:+ DisasTables.tab +:+ "05d00893          addi          a7,zero,93"
    +:+ "    0x1008" +:+ DisasTables.tab +:+ "00000073          ecall         ".
Proof. vm_compute. reflexivity. Qed.

Lemma due_sample_rest : at_rest (settled due_sample).
Proof. apply settled_rest, due_sample_wf. Qed.
(** After one increment of the timer thread. *)
Definition incremented (s : model) : system :=
  mk_system (with_mem (with_mtime [1; 0; 0; 0; 0; 0; 0; 0] (mem s)) s)
    [] [] (Some (Timer.goto at_lock mti_source_init)) 0 None.
Lemma incremented_reachable s : mti_enabled (opts s) = true → mtime (mem s) = replicate 8 0 →
  reachable (start s []) (incremented s).
Proof.
  intros Hm Ht. assert (with_mem (mem s) s = s) as Hs by by destruct s.
  unfold start. rewrite Hm.
  eapply reach_step; [eapply reach_step; [eapply reach_step; [apply reach_start|]|]|].
  - eapply (sys_runner s [] [] mti_source_init 0 None timeout silent); done.
  - rewrite Hs. eapply (sys_runner s [] [] _ 0 None timeout silent); done.
  - rewrite Hs. eapply (sys_runner s [] [] _ 0 None timeout increment); [done|]. unfold perform. by rewrite Ht.
Qed.
Lemma threads_safe_witness : sat no_fault (tick (hart (incremented (settled due_sample)))) (λ '(_, s'), at_rest s').
Proof.
  destruct (threads_safe (E := no_fault) (settled due_sample) [] (incremented (settled due_sample)) due_sample_rest
    (incremented_reachable (settled due_sample) eq_refl eq_refl))
    as (_ & _ & Ht & _).
  eapply sat_weaken; [exact Ht | by intros [_ s'] []].
Defined.

Lemma timer_counts_modulo_256_witness :
  ∃ t', Nat.iter 300 (λ r, r ≫= fetch_add) (Ok (replicate 8 0)) = Ok t' ∧ timer_value t' = 44.
Proof.
  destruct (timer_counts_modulo_256 300 (replicate 8 0)) as (t' & Hi & _ & Hv).
  - split; [done | by repeat constructor].
  - exists t'. split; [exact Hi | exact Hv].
Defined.

#[local] Existing Instances ref_dump Json.ref_json Json.ref_json_doc Json.ref_json_doc_laws Json.ref_codes.
#[local] Instance with_server : Config := {| ENABLE_TCP := true |}.

Lemma sample_opens : loader_open (o_target sample_options) = Ok ref_image.
Proof. by vm_compute. Qed.
Lemma run_from_file_witness :
  ∃ s, build sample_options = Ok s ∧ cur_pc s = entry ref_image ∧
    load_segments (e_segments ref_image) (address_router_of ∅ (o_mtime sample_options) (o_mtimecmp sample_options))
      = Ok (mem s).
Proof.
  edestruct (proj1 (run_from_file (E := no_fault) 10 sample_options [] None ref_image eq_refl sample_opens ref_loadable
    ltac:(by split) ltac:(simpl; lia) ltac:(simpl; lia)) 0x2000 eq_refl)
    as (s & Hb & _ & Hpc & _ & _ & _ & _ & Hl & _).
  exists s. split; [exact Hb | split; [exact Hpc | exact Hl]].
Defined.
(** [prog.elf] exits with code 5. *)
Example run_exits_with_5 : match run 10 sample_options [] None with
  | Ok (status, out) => status = 0 ∧ last out = Some (LoggedExit "prog.elf Exited with 0x5 (5)")
  | Fail _ => False end.
Proof. by vm_compute. Qed.

Definition loaded_router : address_router :=
  let r0 := address_router_of ∅ (o_mtime sample_options) (o_mtimecmp sample_options) in
  match load_segments (e_segments ref_image) r0 with Ok r => r | Fail _ => r0 end.
Lemma loaded_router_ok :
  load_segments (e_segments ref_image) (address_router_of ∅ (o_mtime sample_options) (o_mtimecmp sample_options))
    = Ok loaded_router.
Proof.
  destruct (build_ok sample_options ref_image sample_opens ref_loadable ltac:(by split)
    ltac:(simpl; lia) ltac:(simpl; lia)) as (m & Hl & _).
  unfold loaded_router. cbv zeta. rewrite Hl. reflexivity.
Qed.
Lemma run_exit_code_witness :
  ∃ out, run 10 sample_options [] None = Ok (0, out ++ [LoggedExit "prog.elf Exited with 0x5 (5)"]).
Proof.
  destruct (run_exit_code (promised := promise_all) 5 10 sample_options [] None ref_image loaded_router 0x2000 5)
    as [out Hout]; [done | done | done | exact sample_opens | exact ref_loadable | by split | simpl; lia
      | simpl; lia | done | exact loaded_router_ok | vm_compute; reflexivity | lia |].
  exists out. exact Hout.
Defined.

(** The same with the server, which cannot bind its port, and the JSON export. *)
Definition json_options : options :=
  mk_options "prog.elf" "tohost" "out.json" "" 0x8000 0x8100 100 80 true false false false.
Lemma json_build s : build json_options = Ok s → at_rest s.
Proof.
  intros Hb. destruct (build_ok json_options ref_image sample_opens ref_loadable ltac:(by split)
    ltac:(simpl; lia) ltac:(simpl; lia)) as (m & _ & Hok & _).
  destruct (Hok 0x2000 eq_refl) as [Hs Hrest]. rewrite Hb in Hs. injection Hs as ->. exact Hrest.
Qed.
Lemma json_run : ∃ status out, run 10 json_options [] (Some "bind: Permission denied") = Ok (status, out).
Proof. eexists. eexists. vm_compute. reflexivity. Qed.
Lemma run_artifacts_witness :
  ∃ out s n, run 10 json_options [] (Some "bind: Permission denied") = Ok (0, out) ∧ build json_options = Ok s ∧
    take 1 out = [ServerException "bind: Permission denied"] ∧
    (∃ l, WrittenJson "out.json" (Json.json_dump (Json.exported_json (dec <$> exported_states n s))) ∈ l ∧ suffix l out).
Proof.
  destruct json_run as (status & out & Hr).
  destruct (run_artifacts (E := no_fault) 10 json_options [] (Some "bind: Permission denied") status out json_build Hr)
    as (-> & _ & H). destruct (H eq_refl) as (s & s' & n & Hb & Hn & Hout). cbv zeta in Hout.
  exists out, s, n. split; [exact Hr|]. split; [exact Hb|]. rewrite Hout. split; [done|].
  eexists. split; [|rewrite app_assoc; by eexists]. apply elem_of_app. left. by apply list_elem_of_singleton.
Defined.
End witnesses.
