(* ===== verification/System.v ===== *)
(** * The program against the abstract hart ([src/main.cpp])

    The refinement of [Priv], carried from the hart to the program: to [run], from the file
    to the exit line, and to the main loop and the timer thread under every interleaving.
    No code is modelled here: the definitions of [Sim] and [Priv] meet. *)

From S2P Require Export Priv Sim.
From S2P Require RegFile Format Json.

Section system.
Context {P : Platform} {C : CommonLib} {L : CommonLaws} {D : Decoder} {DO : DecoderOk}.
Context {promised : alu → Z → Z → bool} {AR : Arithmetic P promised}.
Implicit Types (s : model) (κ : cpu).

Lemma cpu_steps_snoc ς n κ :
  cpu_steps promised ς (S n) κ = κ' ← cpu_steps promised ς n κ; cpu_step promised ς κ'.
Proof.
  revert κ. induction n as [|n IH]; intros κ.
  - simpl. by destruct (cpu_step promised ς κ).
  - change (cpu_steps promised ς (S (S n)) κ) with (κ1 ← cpu_step promised ς κ; cpu_steps promised ς (S n) κ1).
    simpl. destruct (cpu_step promised ς κ) as [κ1|]; [|done]. apply IH.
Qed.

(** The cycles a system has executed: each prints one operation. *)
Definition executed (out : list event) : nat :=
  length (omap (λ e, match e with Printed d => Some d | _ => None end) out).
Lemma executed_cycle opt state out : executed (out ++ events opt state) = S (executed out).
Proof.
  unfold executed, events. rewrite !omap_app, !omap_fmap, !length_app. unfold compose.
  rewrite !omap_none. destruct (String.eqb _ _), (String.eqb _ _); simpl; lia.
Qed.

(** The timer thread, if any, stays. *)
Lemma reachable_timer s input w : reachable (start s input) w →
  timer w ≠ None ↔ mti_enabled (opts s) = true.
Proof.
  induction 1 as [|w w' _ IH Hs]; [unfold start; by destruct (mti_enabled (opts s))|].
  rewrite <-IH. by destruct Hs.
Qed.

(** What the timer thread does is one move of the machine, or none. *)
Lemma in_window_none base a : is_u32 base → is_u32 a → in_window base base = false → in_window base a = false.
Proof.
  unfold in_window. intros Hb Ha. rewrite Z.leb_refl. simpl. intros Hlt%Z.ltb_ge.
  apply andb_false_iff. rewrite Z.leb_gt, Z.ltb_ge. destruct (Z.leb_spec base a); [right | left]; lia.
Qed.
Lemma count_byte r a : wf_router r → is_u32 a →
  let r' := with_mtime (<[0%nat := u8 (default 0 (nth_z (mtime r) 0) + 1)]> (mtime r)) r in
  router_byte r' a = if in_window (mtime_addr r) (mtime_addr r) && (a =? mtime_addr r)
    then u8 (router_byte r (mtime_addr r) + 1) else router_byte r a.
Proof.
  intros Hr Ha r'. pose proof (r_mtime_addr _ Hr) as Hb.
  destruct (in_window (mtime_addr r) (mtime_addr r)) eqn:Hw; simpl.
  - unfold router_byte at 2. rewrite Hw, Z.sub_diag. unfold router_byte, r'. simpl.
    destruct (Z.eqb_spec a (mtime_addr r)) as [->|Hne].
    + rewrite Hw, Z.sub_diag. rewrite (nth_z_timer_insert _ 0 0) by (lia || apply Hr). done.
    + rewrite (nth_z_timer_insert _ 0) by (lia || apply Hr). by rewrite (proj2 (Z.eqb_neq _ 0)) by lia.
  - unfold router_byte, r'. simpl. by rewrite (in_window_none _ a).
Qed.
Lemma off_timer_self ta tc : in_window ta ta = true → off_timer ta tc ta = false.
Proof. unfold off_timer. by intros ->. Qed.

Lemma perform_moves a s r v κ : wf_router (mem s) → perform a (mem s) = Ok r → presents s v κ →
  presents (with_mem r s) v (match a with increment => cpu_count (soc_of s) κ | _ => κ end).
Proof.
  intros Hr Hp. rewrite perform_ok in Hp by done. injection Hp as <-. intros [[Hpc Hreg Hmem] Hv Hc Hm Hd].
  pose proof (r_mtime_addr _ Hr) as Hta.
  destruct a; [by split; [split|..] | | by split; [split|..]].
  assert (∀ x, is_u32 x → off_timer (mtime_addr (mem s)) (mtimecmp_addr (mem s)) x = false →
    cpu_dev (cpu_count (soc_of s) κ) x = router_byte (with_mtime
      (<[0%nat := u8 (default 0 (nth_z (mtime (mem s)) 0) + 1)]> (mtime (mem s))) (mem s)) x) as Hdev.
  { intros x Hx Hoff. rewrite (count_byte (mem s)) by done. unfold cpu_count. cbn [mtime_at soc_of].
    destruct (in_window (mtime_addr (mem s)) (mtime_addr (mem s))) eqn:Hw; simpl; [|by apply Hv].
    unfold set_at. rewrite (Hv (mtime_addr (mem s))) by (done || by apply off_timer_self).
    destruct (x =? _); [done | by apply Hv]. }
  split; [split | exact Hdev | | |]; unfold cpu_count; by destruct (in_window _ _).
Qed.

(** The machine is shown but for the timer registers, which the thread changes. *)
Definition follows s0 s κ : Prop :=
  ∃ f, presents s (cur_pc s) (with_dev f κ) ∧ (mti_enabled (opts s0) = false → f = cpu_dev κ).
Lemma with_dev_id κ : with_dev (cpu_dev κ) κ = κ.
Proof. by destruct κ. Qed.
Lemma follows_step s0 s κ κ' : at_rest s → fixed s = fixed s0 → follows s0 s κ →
  contended (soc_of s0) κ = false → cpu_step promised (soc_of s0) κ = Some κ' →
  ∃ s', tick s = Ok (tt, s') ∧ at_rest s' ∧ fixed s' = fixed s0 ∧ follows s0 s' κ'.
Proof.
  intros Hs Hf (f & Hp & Hoff) Hcon Hk. rewrite <-(soc_of_fixed _ _ Hf) in Hk.
  destruct (mti_enabled (opts s0)) eqn:Hm.
  - assert (cpu_step promised (soc_of s) (with_dev f κ) = Some (with_dev f κ')) as Hk'.
    { rewrite cpu_step_dev, Hk; [done|]. rewrite (soc_of_fixed _ _ Hf).
      unfold contended, soc_of in Hcon. cbn [compared] in Hcon. by rewrite Hm in Hcon. }
    destruct (cpu_step_simulates s _ _ Hs Hp Hk') as (s' & ? & ? & ? & ?). exists s'.
    split; [done|]. split; [done|]. split; [congruence|]. by exists f; rewrite Hm.
  - rewrite Hoff, with_dev_id in Hp by done.
    destruct (cpu_step_simulates s _ _ Hs Hp Hk) as (s' & ? & ? & ? & ?). exists s'.
    split; [done|]. split; [done|]. split; [congruence|]. exists (cpu_dev κ'). by rewrite with_dev_id.
Qed.

Lemma alone_S ς n κ : alone promised ς (S n) κ =
  negb (contended ς κ) && match cpu_step promised ς κ with Some κ' => alone promised ς n κ' | None => true end.
Proof. done. Qed.
Lemma alone_snoc ς n κ κ' : cpu_steps promised ς n κ = Some κ' →
  alone promised ς (S n) κ = alone promised ς n κ && negb (contended ς κ').
Proof.
  revert κ. induction n as [|n IH]; intros κ Hk.
  - injection Hk as <-. rewrite alone_S. simpl. destruct (contended ς κ); [done|]. by destruct (cpu_step _ _ _).
  - rewrite (alone_S _ (S n)), (alone_S _ n). cbn [cpu_steps] in Hk.
    apply bind_Some in Hk as (κ1 & -> & Hk). by rewrite (IH κ1 Hk), andb_assoc.
Qed.
Lemma alone_prefix ς j k κ : (j ≤ k)%nat → alone promised ς k κ = true → alone promised ς j κ = true.
Proof.
  revert k κ. induction j as [|j IH]; intros k κ Hj Hk; [done|]. destruct k as [|k]; [lia|].
  rewrite alone_S in *. apply andb_true_iff in Hk as [-> Hk]. simpl.
  destruct (cpu_step _ _ _); [|done]. apply (IH k); [lia | done].
Qed.

Lemma threads_follow s input κ w κ' : at_rest s → presents s (cur_pc s) κ → reachable (start s input) w →
  cpu_steps promised (soc_of s) (executed (written w)) κ = Some κ' →
  alone promised (soc_of s) (executed (written w)) κ = true →
  at_rest (hart w) ∧ fixed (hart w) = fixed s ∧ follows s (hart w) κ' ∧
  (leaving w ≠ None → fstep (opts s) = false → is_done (hart w) = true).
Proof.
  intros Hs Hp Hr. revert κ'. induction Hr as [|w w' Hrw IH Hstep]; intros κ' Hk Hal.
  { injection Hk as <-. do 2 (split; [done|]). split; [|done]. exists (cpu_dev κ). by rewrite with_dev_id. }
  destruct Hstep as [s0 s1 s2 i i' o new t p _ Hs1 He Hs2 | s0 i i' o t p Hl | s0 i o t p l status a t' r _ Hr
    | s0 i o t p c c' t' _]; simpl in *; [| | |
    destruct (IH κ' Hk Hal) as (? & ? & ? & Hd); do 3 (split; [done|]); intros _; by apply Hd].
  - rewrite exports_ok in He. injection He as <-. rewrite executed_cycle in Hk, Hal. rewrite cpu_steps_snoc in Hk.
    apply bind_Some in Hk as (κ1 & Hk1 & Hk). rewrite (alone_snoc _ _ _ _ Hk1) in Hal.
    apply andb_true_iff in Hal as [Hal Hcon%negb_true_iff].
    destruct (IH κ1 Hk1 Hal) as (Hs0 & Hf & Hp0 & _).
    destruct (follows_step s s0 κ1 κ' Hs0 Hf Hp0 Hcon Hk) as (s' & Ht & ? & Hf' & ?).
    rewrite tick_eq, Hs1 in Ht. rewrite Hs2 in Ht. injection Ht as <-. by do 3 (split; [done|]).
  - destruct (IH κ' Hk Hal) as (Hs0 & Hf & Hp0 & _). do 3 (split; [done|]). intros _ Hstep.
    assert (opts s0 = opts s) as Ho by (unfold fixed in Hf; congruence).
    rewrite <-Ho in Hstep. rewrite loop_not_stepping in Hl by done. injection Hl as Hl _.
    by apply negb_false_iff.
  - destruct (IH κ' Hk Hal) as (Hs0 & Hf & (f & Hp0 & Hoff) & Hd). destruct (perform_keeps a s0 r Hs0 Hr) as [? ?].
    split; [done|]. split; [congruence|]. split; [|done]. unfold follows.
    change (cur_pc (with_mem r s0)) with (cur_pc s0).
    pose proof (perform_moves a s0 r (cur_pc s0) _ (wf_mem_router _ (proj1 Hs0)) Hr Hp0) as Hp1.
    exists (match a with increment => cpu_dev (cpu_count (soc_of s0) (with_dev f κ')) | _ => f end).
    split; [destruct a; try done; unfold cpu_count in *; by destruct (in_window _ _)|].
    intros Hm. destruct (reachable_timer s input _ Hrw) as [Ht _]. by rewrite Ht in Hm.
Qed.


(** Whatever the program does: some sequence of moves of the machine. *)
Lemma threads_move s input κ w : at_rest s → presents s (cur_pc s) κ → reachable (start s input) w →
  ∃ κ', rtc (cpu_move promised (soc_of s)) κ κ' ∧
    (stuck promised κ' = true ∨ at_rest (hart w) ∧ fixed (hart w) = fixed s ∧ presents (hart w) (cur_pc (hart w)) κ').
Proof.
  intros Hs Hp. induction 1 as [|w w' Hrw IH Hstep]; [exists κ; split; [done | by right]|].
  destruct IH as (κ1 & Hm & [Hst | (Hs0 & Hf & Hp0)]); [exists κ1; by split; [|left]|].
  destruct Hstep as [s0 s1 s2 i i' o new t p _ Hs1 He Hs2 | s0 i i' o t p Hl | s0 i o t p l status a t' r _ Hr
    | s0 i o t p c c' t' _]; simpl in *; [| by exists κ1; split; [|right] | |by exists κ1; split; [|right]].
  - destruct (cpu_step promised (soc_of s0) κ1) as [κ2|] eqn:Hk.
    + destruct (cpu_step_simulates s0 κ1 κ2 Hs0 Hp0 Hk) as (s' & Ht & ? & ? & Hf').
      rewrite tick_eq, Hs1 in Ht. rewrite Hs2 in Ht. injection Ht as <-. exists κ2. split.
      * eapply rtc_r; [exact Hm|]. apply move_cycle. by rewrite <-(soc_of_fixed _ _ Hf).
      * right. split; [done|]. split; [congruence | done].
    + exists κ1. split; [done|]. left. apply not_false_iff_true. rewrite (cpu_step_total s0) by (done || apply Hs0).
      rewrite Hk. by intros [].
  - destruct (perform_keeps a s0 r Hs0 Hr) as [? ?].
    pose proof (perform_moves a s0 r _ _ (wf_mem_router _ (proj1 Hs0)) Hr Hp0) as Hp1.
    rewrite (soc_of_fixed _ _ Hf) in Hp1.
    exists (match a with increment => cpu_count (soc_of s) κ1 | _ => κ1 end). split.
    + destruct a; [done | | done]. eapply rtc_r; [exact Hm|]. apply move_count. unfold soc_of. cbn [compared].
      by rewrite (proj1 (reachable_timer s input _ Hrw)).
    + right. split; [done|]. split; [congruence | done].
Qed.

(** When the loop is left: after the cycles the machine needs to be done, and no others. *)
Lemma threads_done s input κ w k κk : at_rest s → presents s (cur_pc s) κ → fstep (opts s) = false →
  cpu_steps promised (soc_of s) k κ = Some κk → cpu_done κk = true →
  (∀ j κj, (j < k)%nat → cpu_steps promised (soc_of s) j κ = Some κj → cpu_done κj = false) →
  alone promised (soc_of s) k κ = true → reachable (start s input) w →
  (executed (written w) ≤ k)%nat ∧ (leaving w ≠ None → executed (written w) = k).
Proof.
  intros Hs Hp Hstp Hk Hd Hb Hal Hr.
  assert (∀ w κj, reachable (start s input) w → (executed (written w) ≤ k)%nat →
    cpu_steps promised (soc_of s) (executed (written w)) κ = Some κj →
    opts (hart w) = opts s ∧ is_done (hart w) = cpu_done κj) as Hdone.
  { intros w1 κj Hr1 Hle Hkj. destruct (threads_follow s input κ w1 κj Hs Hp Hr1 Hkj) as (_ & Hf & (f & Hpf & _) & _);
      [by eapply alone_prefix|]. split; [unfold fixed in Hf; congruence | apply Hpf]. }
  induction Hr as [|w w' Hrw IH Hstep]; [split; [apply Nat.le_0_l | done]|].
  pose proof (Hdone w) as Hw. destruct Hstep as [s0 s1 s2 i i' o new t p Hl _ He _ | s0 i i' o t p Hl | | s0 i o t p c c' t' _]; simpl in *;
    [| |done | destruct IH as [? IH]; split; [done | intros _; by apply IH]].
  - destruct IH as [Hle _]. destruct (cpu_steps_prefix _ _ k κ κk Hle Hk) as [κj Hkj].
    destruct (Hw κj Hrw Hle Hkj) as [Ho Hdj]. rewrite exports_ok in He. injection He as <-. rewrite executed_cycle.
    rewrite loop_not_stepping in Hl by congruence. injection Hl as Hl _. apply negb_true_iff in Hl. unfold done_ in Hl.
    split; [|done]. destruct (decide (executed o = k)) as [Heq|]; [|lia].
    rewrite Heq, Hk in Hkj. injection Hkj as <-. congruence.
  - destruct IH as [Hle _]. destruct (cpu_steps_prefix _ _ k κ κk Hle Hk) as [κj Hkj].
    destruct (Hw κj Hrw Hle Hkj) as [Ho Hdj]. split; [done|]. intros _.
    rewrite loop_not_stepping in Hl by congruence. injection Hl as Hl _. apply negb_false_iff in Hl. unfold done_ in Hl.
    destruct (decide (executed o = k)) as [|Hne]; [done|]. rewrite (Hb (executed o) κj) in Hdj by (lia || done). congruence.
Qed.

(** Until it is left the loop can go on: its condition ends it, or its round succeeds. *)
Lemma threads_progress s input κ w k κk : at_rest s → presents s (cur_pc s) κ → fstep (opts s) = false →
  cpu_steps promised (soc_of s) k κ = Some κk → cpu_done κk = true →
  (∀ j κj, (j < k)%nat → cpu_steps promised (soc_of s) j κ = Some κj → cpu_done κj = false) →
  alone promised (soc_of s) k κ = true → reachable (start s input) w →
  ∃ go i, loop_condition (opts (hart w)) (stdin w) (hart w) = (go, i) ∧
    (go = true → ∃ s1 s2, step (hart w) = Ok (tt, s1) ∧ commit s1 = Ok (tt, s2)).
Proof.
  intros Hs Hp Hstp Hk Hd Hb Hal Hr.
  destruct (threads_done s input κ w k κk Hs Hp Hstp Hk Hd Hb Hal Hr) as [Hle _].
  destruct (cpu_steps_prefix _ _ k κ κk Hle Hk) as [κj Hkj].
  destruct (threads_follow s input κ w κj Hs Hp Hr Hkj) as (Hw & Hf & Hfol & _); [by eapply alone_prefix|].
  assert (opts (hart w) = opts s) as Ho by (unfold fixed in Hf; congruence).
  rewrite loop_not_stepping by congruence. do 2 eexists. split; [done|]. intros Hgo%negb_true_iff.
  assert (is_done (hart w) = cpu_done κj) as Hdj by (destruct Hfol as (f & Hpf & _); apply Hpf).
  unfold done_ in Hgo. assert (executed (written w) ≠ k) as Hne.
  { intros Heq. rewrite Heq, Hk in Hkj. injection Hkj as <-. congruence. }
  destruct (cpu_steps_prefix _ (S (executed (written w))) k κ κk ltac:(lia) Hk) as [κ' Hk'].
  rewrite cpu_steps_snoc, Hkj in Hk'. change (cpu_step promised (soc_of s) κj = Some κ') in Hk'.
  pose proof (alone_prefix _ (S (executed (written w))) k κ ltac:(lia) Hal) as Hal'.
  rewrite (alone_snoc _ _ _ _ Hkj) in Hal'. apply andb_true_iff in Hal' as [_ Hcon%negb_true_iff].
  destruct (follows_step s (hart w) κj κ' Hw Hf Hfol Hcon Hk') as (s' & Ht & _).
  rewrite tick_eq in Ht. destruct (step (hart w)) as [[[] s1]|]; [|done].
  exists s1, s'. by split.
Qed.

(** Without the timer thread nothing is contended. *)
Lemma alone_untimed ς n κ : compared ς = None → alone promised ς n κ = true.
Proof.
  intros Hc. revert κ. induction n as [|n IH]; intros κ; [done|]. rewrite alone_S. unfold contended. rewrite Hc. simpl.
  by destruct (cpu_step _ _ _).
Qed.

Lemma reachable_trans w0 w w' : reachable w0 w → reachable w w' → reachable w0 w'.
Proof. intros Hr. induction 1 as [|w1 w2 _ IH Hs]; [done | by eapply reach_step]. Qed.
Lemma leaving_stays w w' : reachable w w' → leaving w ≠ None → leaving w' ≠ None.
Proof. induction 1 as [|w1 w2 _ IH Hs]; [done|]. intros Hl%IH. by destruct Hs. Qed.

(** The exit code under every interleaving. *)
Lemma threads_exit s input κ w n code : at_rest s → presents s (cur_pc s) κ → fstep (opts s) = false →
  cpu_run promised (soc_of s) n κ = Some code → alone promised (soc_of s) n κ = true →
  reachable (start s input) w → leaving w ≠ None → tohost (hart w) = Ok (code, hart w).
Proof.
  intros Hs Hp Hstp Hrun Hal Hr Hleft.
  destruct (cpu_run_steps _ _ _ _ Hrun) as (k & κk & Hk & Hst & Hd & Hcode & Hb).
  apply (alone_prefix _ k n) in Hal; [|done].
  destruct (threads_done s input κ w k κk Hs Hp Hstp Hst Hd Hb Hal Hr) as [_ Hex]. specialize (Hex Hleft).
  destruct (threads_follow s input κ w κk Hs Hp Hr) as (Hw & Hf & (f & Hpf & _) & _); [by rewrite Hex.. |].
  rewrite (presents_tohost _ _ (proj1 Hw) Hpf). simpl. rewrite <-Hcode. do 3 f_equal.
  unfold fixed in Hf. simpl. congruence.
Qed.
End system.

(** *** [run] on a machine that shows a hart with an exit code *)

Section runs.
Context {P : Platform} {C : CommonLib} {L : CommonLaws} {D : Decoder} {DO : DecoderOk}.
Context {promised : alu → Z → Z → bool} {AR : Arithmetic P promised}.
Context {EL : ElfIO} {ED : ElfDump} {CF : Config}.
Context {J : Json.JsonLib} {JD : Json.JsonDoc} {JDL : Json.JsonDocLaws} {EC : Json.EnumCodes}.
Context (n : nat) (opt : options) (input : list Z) (exception : option string) (s : model) (κ : cpu) (code : Z).
Hypothesis (Hs : at_rest s) (Hp : presents s (cur_pc s) κ) (Hopt : opts s = opt) (Hstep : fstep opt = false).
Hypothesis Hrun : cpu_run promised (soc_of s) n κ = Some code.
Local Definition line : event := LoggedExit (Format.exit_line (o_target opt) code (s32 code)).

(** The sequential loop is one of the schedules. *)
Lemma run_loop_schedule fuel m w κw s' out' : reachable (start s input) w → leaving w = None →
  at_rest (hart w) → fixed (hart w) = fixed s → presents (hart w) (cur_pc (hart w)) κw →
  cpu_run promised (soc_of s) m κw = Some code →
  run_loop fuel opt (stdin w) (written w) (hart w) = Ok (s', out') →
  ∃ w', reachable (start s input) w' ∧ hart w' = s' ∧ written w' = out' ∧ leaving w' ≠ None.
Proof.
  revert m w κw. induction fuel as [|fuel IH]; intros m [h i o t p l] κw Hr Hl Hw Hf Hpw Hc;
    cbn [hart stdin written leaving] in *; subst l; [done|].
  assert (opts h = opt) as Ho by (unfold fixed in Hf; congruence).
  rewrite run_loop_S. destruct (loop_condition opt i h) as [go i'] eqn:Hgo. destruct go.
  - rewrite loop_not_stepping in Hgo by done. injection Hgo as Hgo%negb_true_iff <-.
    assert (cpu_done κw = false) as Hd by (rewrite <-(presents_done _ _ _ Hpw); exact Hgo).
    destruct m as [|m]; cbn [cpu_run] in Hc; rewrite Hd in Hc; [done|].
    apply bind_Some in Hc as (κ1 & Hk & Hc). rewrite <-(soc_of_fixed _ _ Hf) in Hk.
    destruct (cpu_step_simulates h κw κ1 Hw Hpw Hk) as (s2 & Ht & Hw2 & Hp2 & Hf2). rewrite tick_eq in Ht.
    destruct (step h) as [[[] s1]|] eqn:Hs1; [|done]. destruct (commit s1) as [[[] s2']|] eqn:Hs2; [|done].
    injection Ht as ->. intros Hloop.
    apply (IH m (mk_system s2 i (o ++ events (opts h) (cur_state s1)) t p None) κ1);
      [| done | done | exact (eq_trans Hf2 Hf) | done | done | by rewrite Ho].
    eapply reach_step; [exact Hr|]. apply (sys_cycle h s1 s2); [|done| apply exports_ok |done].
    rewrite loop_not_stepping by congruence. by rewrite Hgo.
  - intros [= <- <-]. eexists. split; [eapply reach_step; [exact Hr | by eapply sys_finish; rewrite Ho]|]. simpl. by destruct t.
Qed.

Lemma run_one_schedule fuel : dump_exit opt = false → build opt = Ok s → (n < fuel)%nat →
  ∃ out, run fuel opt input exception = Ok (0, out ++ [line]) ∧ run_outcome opt input exception (Ok (0, out ++ [line])).
Proof.
  intros Hdump Hb Hfuel. destruct (cpu_run_simulates n s κ code Hs Hp Hrun) as (k & s' & Hk & Hticks & (Hs' & Hdone & Hto) & _ & Hbefore).
  destruct (run_loop_complete opt input k [] s s' fuel) as [out Hout]; [done | done | done | done | lia |].
  destruct (run_loop_schedule fuel n (start s input) κ s' out (reach_start _) eq_refl Hs eq_refl Hp Hrun Hout)
    as (w & Hw & Hh & Hwr & Hlv).
  assert (run_loop fuel opt input (serve opt exception) s = Ok (s', serve opt exception ++ out)) as Hl.
  { rewrite <-(app_nil_r (serve opt exception)) at 1. by rewrite run_loop_prefix, Hout. }
  rewrite (run_of_loop _ _ _ _ _ _ _ _ Hdump Hb Hl Hs' Hto). eexists. rewrite app_assoc. split; [reflexivity|].
  pose proof (outcome_report opt input exception s w w Hdump Hb Hw Hlv (reach_start _)) as Hr.
  rewrite Hh, Hwr in Hr. rewrite (report_eq opt _ (λ _, s') s' code code s') in Hr by done.
  by rewrite app_assoc in Hr.
Qed.

Section quiet.
Hypothesis Hal : alone promised (soc_of s) n κ = true.

Lemma run_bounded w : reachable (start s input) w →
  (executed (written w) <= n)%nat ∧
  (leaving w = None → ∃ w', sys_step w w' ∧ (leaving w' ≠ None ∨ executed (written w') = S (executed (written w)))).
Proof.
  intros Hr. destruct (cpu_run_steps _ _ _ _ Hrun) as (k & κk & Hk & Hst & Hd & _ & Hb).
  pose proof (alone_prefix _ k n κ Hk Hal) as Halk. assert (fstep (opts s) = false) as Hstp by by rewrite Hopt.
  destruct (threads_done s input κ w k κk Hs Hp Hstp Hst Hd Hb Halk Hr) as [Hle _]. split; [lia|]. intros Hlv.
  destruct (threads_progress s input κ w k κk Hs Hp Hstp Hst Hd Hb Halk Hr) as (go & i & Hgo & Hround).
  destruct w as [h i0 o t p l]. simpl in *. subst l. destruct go.
  - destruct (Hround eq_refl) as (s1 & s2 & H1 & H2).
    eexists. split; [eapply sys_cycle; [exact Hgo | exact H1 | apply exports_ok | exact H2]|]. right. simpl.
    apply executed_cycle.
  - eexists. split; [by eapply sys_finish|]. left. simpl. by destruct t.
Qed.

Lemma run_every_schedule result : dump_exit opt = false → build opt = Ok s →
  run_outcome opt input exception result → ∃ out, result = Ok (0, out ++ [line]).
Proof.
  intros Hdump Hb Hres. destruct (cpu_run_steps _ _ _ _ Hrun) as (k & κk & Hk & Hst & Hd & _ & Hbe).
  pose proof (alone_prefix _ k n κ Hk Hal) as Halk. assert (fstep (opts s) = false) as Hstp by by rewrite Hopt.
  destruct Hres as [? Hd' | ? Hd' | f _ Hf | s0 w i f _ Hb0 Hr Hlv Hgo Hf | s0 w w' _ Hb0 Hr Hlv Hr']; [congruence.. | |].
  - rewrite Hb in Hb0. injection Hb0 as <-. exfalso.
    destruct (threads_progress s input κ w k κk Hs Hp Hstp Hst Hd Hbe Halk Hr) as (go & i' & Hgo' & Hround).
    rewrite Hgo in Hgo'. injection Hgo' as <- <-. destruct (Hround eq_refl) as (s1 & s2 & H1 & H2).
    unfold cycle in Hf. by rewrite H1, res_bind_ok, exports_ok, res_bind_ok, H2 in Hf.
  - rewrite Hb in Hb0. injection Hb0 as <-.
    assert (∀ w, reachable (start s input) w → leaving w ≠ None → tohost (hart w) = Ok (code, hart w)) as Hto
      by (intros w1 ??; by apply (threads_exit s input κ w1 n code)).
    destruct (threads_done s input κ w k κk Hs Hp Hstp Hst Hd Hbe Halk Hr) as [_ Hex]. specialize (Hex Hlv).
    destruct (threads_follow s input κ w κk Hs Hp Hr) as (Hw & _); [by rewrite Hex..|].
    rewrite (report_eq opt _ (λ _, hart w') (hart w) code code (hart w')); [|done | by apply Hto |
      apply Hto; [by eapply reachable_trans | by eapply leaving_stays]].
    eexists. by rewrite app_assoc.
Qed.
End quiet.
End runs.

(** ** Properties *)

(** The exit code of a run, with traps, CSRs and interrupts.  Take a file the loader
    accepts, with [--step] off and the timer on or off, and start the abstract hart out of
    reset at its entry point on the image of its segments.  If the abstract hart is done
    after at most [n] cycles, by an environment call or by a store to tohost, then the whole
    program [run], given more fuel than that, returns with status 0, and the last line of
    its log reports the tohost word of the abstract hart, in hexadecimal and as a signed
    number.  And without the timer thread, or if in these cycles no instruction touches a
    byte of a timer register, every way [run] can end, under every interleaving, is that; and
    it does end: the loop makes at most [n] rounds and is never stuck. *)
Theorem run_reports_exit_code {P : Platform} {C : CommonLib} {L : CommonLaws} {D : Decoder} {DO : DecoderOk}
    {promised} {AR : Arithmetic P promised} {EL : ElfIO} {ED : ElfDump} {CF : Config}
    {J : Json.JsonLib} {JD : Json.JsonDoc} {JDL : Json.JsonDocLaws} {EC : Json.EnumCodes}
    n fuel opt input exception (e : elf) (r : address_router) a code :
  dump_exit opt = false → fstep opt = false →
  loader_open (o_target opt) = Ok e → Forall loadable (e_segments e) →
  wf_op dec_init → is_u32 (o_mtime opt) → is_u32 (o_mtimecmp opt) →
  get_symbol e (tohost_sym opt) = Some a →
  load_segments (e_segments e) (address_router_of ∅ (o_mtime opt) (o_mtimecmp opt)) = Ok r →
  let ς := mk_soc (progbit_ranges e) (o_mtime opt) (o_mtimecmp opt) (u32 a)
    (if mti_enabled opt then Some (o_mtime opt, o_mtimecmp opt) else None) in
  let reset := cpu_reset (entry e) (byte (pages r)) in
  let line := LoggedExit (Format.exit_line (o_target opt) code (s32 code)) in
  cpu_run promised ς n reset = Some code → (n < fuel)%nat →
  (∃ out, run fuel opt input exception = Ok (0, out ++ [line]) ∧
    run_outcome opt input exception (Ok (0, out ++ [line]))) ∧
  (mti_enabled opt = false ∨ alone promised ς n reset = true →
   (∀ result, run_outcome opt input exception result → ∃ out, result = Ok (0, out ++ [line])) ∧
   ∃ s, build opt = Ok s ∧ ∀ w, reachable (start s input) w →
     (executed (written w) <= n)%nat ∧
     (leaving w = None → ∃ w', sys_step w w' ∧
        (leaving w' ≠ None ∨ executed (written w') = S (executed (written w))))).
Proof.
  intros Hdump Hstep Ho Hsegs Hdec Ht Htc Ha Hr ς reset line Hrun Hfuel.
  destruct (build_ok opt e Ho Hsegs Hdec Ht Htc) as (m & Hl & Hb & _).
  rewrite Hl in Hr. injection Hr as <-. destruct (Hb a Ha) as [Hs Hrest].
  match type of Hs with _ = Ok ?x => set (s := x) in * end.
  pose proof (presents_reset opt (entry e) (progbit_ranges e) (u32 a)
    (with_pages m (address_router_of ∅ (o_mtime opt) (o_mtimecmp opt))) eq_refl eq_refl : presents s (cur_pc s) reset) as Hp.
  split.
  - by apply (run_one_schedule n opt input exception s reset code).
  - intros Hquiet. assert (alone promised ς n reset = true) as Hal.
    { destruct Hquiet as [Hoff|]; [|done]. apply alone_untimed. unfold ς. by rewrite Hoff. }
    split; [intros result; by apply (run_every_schedule n opt input exception s reset code)|].
    exists s. split; [done|]. intros w Hr. by apply (run_bounded n opt input s reset code).
Qed.

(** C4: The registers, memory, CSRs, mode, program counter and done flag do not depend on
    the timer thread, unless the program touches a byte of a timer register.  Start the main
    loop and the timer thread from a hart at rest that shows [κ].  In every state they
    reach, however their steps interleave, the hart shows the state the abstract machine
    has after as many steps as cycles were executed, but for the contents of the timer
    registers, if the machine makes these steps and none of them is such an access.
    Without [--step] the loop is left only when that abstract machine is done. *)
Theorem threads_follow_cpu {P : Platform} {C : CommonLib} {L : CommonLaws} {D : Decoder} {DO : DecoderOk}
    {promised} {AR : Arithmetic P promised} (s : model) (input : list Z) κ κ' (w : system) :
  at_rest s → presents s (cur_pc s) κ → reachable (start s input) w →
  cpu_steps promised (soc_of s) (executed (written w)) κ = Some κ' →
  alone promised (soc_of s) (executed (written w)) κ = true →
  (∃ f, presents (hart w) (cur_pc (hart w)) (with_dev f κ') ∧ (mti_enabled (opts s) = false → f = cpu_dev κ')) ∧
  (leaving w ≠ None → fstep (opts s) = false → cpu_done κ' = true).
Proof.
  intros Hs Hp Hr Hk Hal. destruct (threads_follow s input κ w κ' Hs Hp Hr Hk Hal) as (_ & _ & Hp' & Hd).
  split; [done|]. destruct Hp' as (f & Hp' & _). intros Hl Hf.
  change (cpu_done κ') with (cpu_done (with_dev f κ')). rewrite <-(presents_done _ _ _ Hp'). by apply Hd.
Qed.

(** C5: The two threads refine the abstract machine with an asynchronous timer.  Every
    state the main loop and the timer thread reach from a hart at rest that shows [κ] shows
    a state the abstract machine reaches from [κ] by moves of two kinds: a cycle, and an
    increment modulo 256 of the lowest byte of mtime; the second kind only when the timer
    is on.  So the flag, the mutex and the condition variable of the thread, the staged
    changes, the output and the phases of a cycle are invisible: the program sees atomic
    cycles and ticks.  The only exception is a run in which the abstract machine reaches a
    state that is [stuck], where the arithmetic makes no promise. *)
Theorem threads_refine_cpu {P : Platform} {C : CommonLib} {L : CommonLaws} {D : Decoder} {DO : DecoderOk}
    {promised} {AR : Arithmetic P promised} (s : model) (input : list Z) κ (w : system) :
  at_rest s → presents s (cur_pc s) κ → reachable (start s input) w →
  ∃ κ', rtc (cpu_move promised (soc_of s)) κ κ' ∧
    (stuck promised κ' = true ∨ presents (hart w) (cur_pc (hart w)) κ').
Proof.
  intros Hs Hp Hr. destruct (threads_move s input κ w Hs Hp Hr) as (κ' & Hm & [? | (_ & _ & ?)]);
    exists κ'; (split; [done|]); [by left | by right].
Qed.

(** ** Witnesses *)

Section witnesses.
#[local] Existing Instances wrapping ref_common ref_decoder ref_elf.
#[local] Existing Instances ref_dump Json.ref_json Json.ref_json_doc Json.ref_json_doc_laws Json.ref_codes.
#[local] Instance without_server : Config := {| ENABLE_TCP := false |}.

(** The image of [Loader] with the timer on. *)
Definition timed_options : options :=
  mk_options "prog.elf" "tohost" "" "" 0x8000 0x8100 100 0 false true false false.
Lemma run_reports_exit_code_witness :
  ∃ out, run 10 timed_options [] None = Ok (0, out ++ [LoggedExit "prog.elf Exited with 0x5 (5)"]).
Proof.
  destruct (run_reports_exit_code (promised := promise_all) 5 10 timed_options [] None ref_image loaded_router 0x2000 5)
    as [(out & Hout & _) _]; [done | done | exact sample_opens | exact ref_loadable | by split | simpl; lia | simpl; lia
      | done | exact loaded_router_ok | vm_compute; reflexivity | lia |].
  exists out. exact Hout.
Defined.

(** The program sets mtvec to 0x1010 and enables the timer interrupt, which is due: the
    pages hold the count 5 at 0x8000.  The handler at 0x102C reads mcause into register 5
    and exits. *)
Definition interrupted_program : list Z :=
  [0x7F000093; 0x7F008093; 0x03008093; 0x30509073; 0x08000113; 0x30411073; 0x30045073; 0; 0; 0; 0;
   0x342022F3; 0x00700513; 0x05D00893; 0x73].
Definition ticking_router : address_router :=
  assemble interrupted_program 0x1000 (assemble [5] 0x8000 sample_router).
Definition ticking : model := model_of due_options 0x1000 [(0x1000, 0x1FFF)] 0x2000 ticking_router.
Lemma ticking_at_rest : at_rest ticking.
Proof.
  apply at_rest_model_of; [lia | lia | | by split | simpl; lia | simpl; lia].
  apply wf_assemble; [repeat constructor; lia | lia |].
  apply wf_assemble; [repeat constructor; lia | lia | apply sample_router_ok].
Qed.
Lemma ticking_presents : presents ticking (cur_pc ticking) (cpu_reset 0x1000 (byte (pages ticking_router))).
Proof.
  apply presents_reset; unfold ticking_router;
    by rewrite ?(proj1 (assemble_timers _ _ _)), ?(proj2 (assemble_timers _ _ _)).
Qed.
Lemma ok_exists {A B} (r : res (A * B)) (Q : B → Prop) :
  match r with Ok (_, b) => Q b | Fail _ => False end → ∃ a b, r = Ok (a, b) ∧ Q b.
Proof. destruct r as [[a b]|]; [by exists a, b | done]. Qed.
Lemma ticking_run : ∃ s' out, run_loop 20 (opts ticking) [] [] ticking = Ok (s', out) ∧ executed out = 11%nat.
Proof. apply (ok_exists _ (λ out, executed out = 11%nat)). vm_compute. reflexivity. Qed.
Lemma threads_follow_cpu_witness :
  ∃ w, reachable (start ticking []) w ∧ timer w ≠ None ∧ leaving w ≠ None ∧ gpr (hart w) 5 = 0x80000007.
Proof.
  destruct ticking_run as (s' & out & Hl & Hn).
  destruct (run_loop_reachable (E := no_fault) 20 (start ticking []) (start ticking []) s' out ticking_at_rest
    eq_refl (reach_start _) Hl) as (w & Hw & _ & Hout & Hleft).
  assert (option_map (λ κ, (a_reg (cpu_arch κ) 5, cpu_done κ))
    (cpu_steps promise_all (soc_of ticking) 11 (cpu_reset 0x1000 (byte (pages ticking_router)))) = Some (0x80000007, true))
    as Hval by (vm_compute; reflexivity).
  destruct (cpu_steps _ _ _ _) as [κ'|] eqn:Hk; [|done].
  destruct (threads_follow_cpu (promised := promise_all) ticking [] (cpu_reset 0x1000 (byte (pages ticking_router))) κ' w)
    as [(f & Hp & _) _]; [exact ticking_at_rest | exact ticking_presents | exact Hw | by rewrite Hout, Hn
      | rewrite Hout, Hn; vm_compute; reflexivity |].
  exists w. split; [exact Hw|]. split; [|split; [exact Hleft|]].
  - pose proof (reachable_timer ticking [] w Hw) as Ht. by apply Ht.
  - injection Hval as H5 _. destruct Hp as [[_ Hreg _] _ _ _ _]. by rewrite <-Hreg by lia.
Defined.

(** After one increment the loop's hart still shows a state of the machine. *)
Lemma threads_refine_cpu_witness :
  ∃ κ', rtc (cpu_move promise_all (soc_of ticking)) (cpu_reset 0x1000 (byte (pages ticking_router))) κ' ∧
    cpu_dev κ' 0x8000 = 1.
Proof.
  assert (mtime (mem ticking) = replicate 8 0) as Ht0.
  { change (mtime ticking_router = replicate 8 0). unfold ticking_router. by rewrite !(proj1 (assemble_timers _ _ _)). }
  destruct (threads_refine_cpu (promised := promise_all) ticking [] _ (incremented ticking) ticking_at_rest ticking_presents
    (incremented_reachable ticking eq_refl Ht0)) as (κ' & Hm & [Hst | Hp]).
  - exfalso. unfold stuck, unpromised in Hst. by repeat case_match.
  - exists κ'. split; [exact Hm|]. rewrite (presents_dev _ _ _ Hp 0x8000 ltac:(lia) eq_refl). reflexivity.
Defined.
End witnesses.
