(* ===== verification/Cli.v ===== *)
(** * The command line ([src/main.cpp], [main])

    [main] describes its options to CLI11 and runs with what the parser assigned.  The
    description is data, built by the calls of [main] in their order; the parser is a
    parameter, of which [CliLaws] states the documented checks: types, required options,
    groups that need a flag, the number of options of a group. *)

From S2P Require Export System.

(** ** The members of [options] that options are bound to *)

Inductive member : Set :=
  | opt_target | opt_tohost_sym | opt_json_output | opt_disas_output
  | opt_mtime | opt_mtimecmp | opt_interval | opt_port
  | opt_tcp_enabled | opt_mti_enabled | opt_fstep | opt_dump_exit.
#[export] Instance member_eq_dec : EqDecision member.
Proof. solve_decision. Defined.

Inductive value : Set := Text (s : string) | Number (z : Z) | Flag (b : bool).

Definition has_type (m : member) (v : value) : bool :=
  match m, v with
  | (opt_target | opt_tohost_sym | opt_json_output | opt_disas_output), Text _ => true
  | (opt_mtime | opt_mtimecmp | opt_interval), Number z => (0 <=? z) && (z <? 2 ^ 32)
  | opt_port, Number z => (0 <=? z) && (z <? 2 ^ 16)
  | (opt_tcp_enabled | opt_mti_enabled | opt_fstep | opt_dump_exit), Flag _ => true
  | _, _ => false
  end.

(** Storing a value in the bound member; a value of another type is not stored. *)
Definition assign (m : member) (v : value) (o : options) : options :=
  let '(mk_options tg th js ds mt mc iv po tc mi fs du) := o in
  match m, v with
  | opt_target, Text s => mk_options s th js ds mt mc iv po tc mi fs du
  | opt_tohost_sym, Text s => mk_options tg s js ds mt mc iv po tc mi fs du
  | opt_json_output, Text s => mk_options tg th s ds mt mc iv po tc mi fs du
  | opt_disas_output, Text s => mk_options tg th js s mt mc iv po tc mi fs du
  | opt_mtime, Number z => mk_options tg th js ds z mc iv po tc mi fs du
  | opt_mtimecmp, Number z => mk_options tg th js ds mt z iv po tc mi fs du
  | opt_interval, Number z => mk_options tg th js ds mt mc z po tc mi fs du
  | opt_port, Number z => mk_options tg th js ds mt mc iv z tc mi fs du
  | opt_tcp_enabled, Flag b => mk_options tg th js ds mt mc iv po b mi fs du
  | opt_mti_enabled, Flag b => mk_options tg th js ds mt mc iv po tc b fs du
  | opt_fstep, Flag b => mk_options tg th js ds mt mc iv po tc mi b du
  | opt_dump_exit, Flag b => mk_options tg th js ds mt mc iv po tc mi fs b
  | _, _ => o
  end.
Definition value_of (m : member) (o : options) : value :=
  match m with
  | opt_target => Text (o_target o) | opt_tohost_sym => Text (tohost_sym o)
  | opt_json_output => Text (json_output o) | opt_disas_output => Text (disas_output o)
  | opt_mtime => Number (o_mtime o) | opt_mtimecmp => Number (o_mtimecmp o)
  | opt_interval => Number (interval o) | opt_port => Number (port o)
  | opt_tcp_enabled => Flag (tcp_enabled o) | opt_mti_enabled => Flag (mti_enabled o)
  | opt_fstep => Flag (fstep o) | opt_dump_exit => Flag (dump_exit o)
  end.

(** ** The description *)

Record cli_option : Set := mk_cli_option {
  option_name : string; bound : member; description : string;
  required : bool; existing_file : bool; take_first : bool
}.
Record option_group : Set := mk_option_group {
  group_name : string; group_description : string; group_needs : option member;
  group_options : list cli_option; group_count : option nat
}.
Record app : Set := mk_app {
  app_description : string; app_options : list cli_option; app_groups : list option_group;
  required_by_default : bool
}.

Definition App (description : string) : app := mk_app description [] [] false.
(** [add_option] and [add_flag]: a new option has the defaults. *)
Definition add_option (name : string) (m : member) (description : string) (a : app) : app :=
  mk_app (app_description a)
    (app_options a ++ [mk_cli_option name m description (required_by_default a) false false]) (app_groups a)
    (required_by_default a).
Definition add_flag : string → member → string → app → app := add_option.
Definition option_defaults_required (a : app) : app :=
  mk_app (app_description a) (app_options a) (app_groups a) true.
(** What is chained to a call applies to its option. *)
Definition on_last (f : cli_option → cli_option) (l : list cli_option) : list cli_option :=
  match last l with Some o => removelast l ++ [f o] | None => l end.
Definition chain (f : cli_option → cli_option) (a : app) : app :=
  mk_app (app_description a) (on_last f (app_options a)) (app_groups a) (required_by_default a).
Definition set_required (o : cli_option) : cli_option :=
  mk_cli_option (option_name o) (bound o) (description o) true (existing_file o) (take_first o).
Definition check_existing_file (o : cli_option) : cli_option :=
  mk_cli_option (option_name o) (bound o) (description o) (required o) true (take_first o).
Definition set_take_first (o : cli_option) : cli_option :=
  mk_cli_option (option_name o) (bound o) (description o) (required o) (existing_file o) true.

(** A group, which the application holds. *)
Definition add_option_group (name description : string) : option_group :=
  mk_option_group name description None [] None.
Definition needs (flag : member) (g : option_group) : option_group :=
  mk_option_group (group_name g) (group_description g) (Some flag) (group_options g) (group_count g).
Definition group_add_option (name : string) (m : member) (description : string) (g : option_group) : option_group :=
  mk_option_group (group_name g) (group_description g) (group_needs g)
    (group_options g ++ [mk_cli_option name m description false false false]) (group_count g).
Definition group_chain (f : cli_option → cli_option) (g : option_group) : option_group :=
  mk_option_group (group_name g) (group_description g) (group_needs g) (on_last f (group_options g)) (group_count g).
Definition require_option (n : nat) (g : option_group) : option_group :=
  mk_option_group (group_name g) (group_description g) (group_needs g) (group_options g) (Some n).
Definition with_group (g : option_group) (a : app) : app :=
  mk_app (app_description a) (app_options a) (app_groups a ++ [g]) (required_by_default a).

(** The options of [main]. *)
Definition main_app `{Config} : app :=
  let app := App "An easy-to-use, still-in-development RISC-V 32-bit simulator" in
  let app := add_option "-j,--json-output" opt_json_output "JSON output filename" app in
  let app := add_option "-d,--disas-output" opt_disas_output "Disas trace output filename" app in
  let app := add_flag "--step" opt_fstep "Enable manual step" app in
  let app := add_flag "--dump" opt_dump_exit "Dump elf file then exit." app in
  let app := add_option "--tohost" opt_tohost_sym
    "Use a custom termination symbol defined in your linker script" app in
  let app := add_flag "--timer" opt_mti_enabled "Enable machine timer interrupts" app in
  let ogroup_mti := needs opt_mti_enabled (add_option_group "timer" "Machine timer interrupts") in
  let ogroup_mti := group_add_option "--mtime" opt_mtime
    "Memory-mapped 64-bit register incremented by timer" ogroup_mti in
  let ogroup_mti := group_add_option "--mtimecmp" opt_mtimecmp
    "Memory-mapped 64-bit register written by the simulator" ogroup_mti in
  let ogroup_mti := group_add_option "--interval" opt_interval "In microseconds" ogroup_mti in
  let ogroup_mti := require_option 3 ogroup_mti in
  let app := with_group ogroup_mti app in
  let app :=
    if ENABLE_TCP then
      let app := add_flag "--tcpserver" opt_tcp_enabled "Enable machine timer interrupts" app in
      let ogroup_server := needs opt_tcp_enabled (add_option_group "tcpserver" "Server") in
      let ogroup_server := group_chain set_required (group_add_option "-p,--port" opt_port "Port" ogroup_server) in
      with_group ogroup_server app
    else app in
  let app := option_defaults_required app in
  chain set_take_first (chain set_required (chain check_existing_file
    (add_option "target" opt_target "Executable target" app))).

(** ** The parser *)

Inductive parsed : Set :=
  | Parsed (l : list (member * value))     (* the options given, once each *)
  | Exits (code : Z).                      (* help, or an error: the answer of [app.exit] *)

Class CliParser := {
  parse : app → list string → parsed;
  file_exists : string → bool
}.

Section checks.
Context `{CliParser}.
Implicit Types (l : list (member * value)) (o : cli_option).

Definition given l (m : member) : bool := existsb (λ p, bool_decide (p.1 = m)) l.
Definition all_options (a : app) : list cli_option := app_options a ++ (app_groups a ≫= group_options).

(** A value belongs to an option of the application, has its type, and names a file if it
    has to. *)
Definition valid_value (a : app) (p : member * value) : bool :=
  has_type p.1 p.2 &&
  existsb (λ o, bool_decide (bound o = p.1) &&
    match p.2 with Text s => implb (existing_file o) (file_exists s) | _ => true end) (all_options a).
Definition required_given l (os : list cli_option) : bool :=
  forallb (λ o, implb (required o) (given l (bound o))) os.
(** A group is used only with the flag it needs, and then as it asks. *)
Definition valid_group l (g : option_group) : bool :=
  if match group_needs g with Some f => given l f | None => true end then
    required_given l (group_options g) &&
    match group_count g with
    | Some n => (length (filter (λ o, given l (bound o) = true) (group_options g)) =? n)%nat
    | None => true
    end
  else forallb (λ o, negb (given l (bound o))) (group_options g).
Definition valid (a : app) l : bool :=
  bool_decide (NoDup l.*1) && forallb (valid_value a) l && required_given l (app_options a)
  && forallb (valid_group l) (app_groups a).
End checks.

Class CliLaws `{CliParser} := {
  parse_valid a argv l : parse a argv = Parsed l → valid a l = true
}.

(** ** [main] *)

Section main.
Context `{Platform} `{CommonLib} `{Decoder} `{ElfIO} `{Config} `{ElfDump} `{Json.JsonDoc} `{Json.EnumCodes} `{CliParser}.

Definition assigned (l : list (member * value)) : options :=
  foldl (λ o p, assign p.1 p.2 o) options_init l.
Definition main (fuel : nat) (argv : list string) (input : list Z) (exception : option string) : res (Z * list event) :=
  match parse main_app argv with
  | Exits code => mret (code, [])
  | Parsed l => run fuel (assigned l) input exception
  end.

(** The ways [main] can end, whatever the timer thread does. *)
Definition main_outcome (argv : list string) (input : list Z) (exception : option string)
    (result : res (Z * list event)) : Prop :=
  match parse main_app argv with
  | Exits code => result = Ok (code, [])
  | Parsed l => run_outcome (assigned l) input exception result
  end.
End main.

(** ** Lemmas *)

Section lemmas.
Context `{CliParser}.
Implicit Types (l : list (member * value)).

Definition find_value l (m : member) : option value := snd <$> find (λ p, bool_decide (p.1 = m)) l.

Lemma find_value_cons p l m : find_value (p :: l) m = if bool_decide (p.1 = m) then Some p.2 else find_value l m.
Proof. unfold find_value. simpl. by case_bool_decide. Qed.
Lemma given_find l m : given l m = true ↔ is_Some (find_value l m).
Proof.
  induction l as [|p l IH]; [split; [done | by intros []]|].
  rewrite find_value_cons. unfold given in *. simpl. case_bool_decide; [split; eauto | exact IH].
Qed.
Lemma not_given l m : given l m = false ↔ find_value l m = None.
Proof.
  rewrite <-not_true_iff_false, given_find. destruct (find_value l m); [|split; [done | by intros _ []]].
  split; [intros Hn; by destruct Hn | done].
Qed.
Lemma given_elem l m : given l m = true ↔ m ∈ l.*1.
Proof.
  unfold given. rewrite existsb_exists, list_elem_of_fmap. split.
  - intros (p & Hp & Hm%bool_decide_eq_true). exists p. by rewrite list_elem_of_In.
  - intros (p & -> & Hp). exists p. rewrite <-list_elem_of_In. by rewrite bool_decide_true.
Qed.

Lemma value_assign m v o m' : has_type m v = true →
  value_of m' (assign m v o) = if bool_decide (m = m') then v else value_of m' o.
Proof. destruct o. by destruct m, v, m'. Qed.

Lemma value_fold l o m : NoDup l.*1 → Forall (λ p, has_type p.1 p.2 = true) l →
  value_of m (foldl (λ o p, assign p.1 p.2 o) o l) = default (value_of m o) (find_value l m).
Proof.
  revert o. induction l as [|p l IH]; intros o Hnd Hty; [done|].
  apply NoDup_cons in Hnd as [Hni Hnd]. apply Forall_cons in Hty as [Hp Hty].
  simpl foldl. rewrite IH, value_assign, find_value_cons by done.
  case_bool_decide as Hm; [|done]. subst m. by rewrite (proj1 (not_given l p.1)) by
    (apply not_true_iff_false; by rewrite given_elem).
Qed.

(** What [valid] says of the options given. *)
Lemma valid_spec a l : valid a l = true →
  NoDup l.*1 ∧ Forall (λ p, has_type p.1 p.2 = true) l ∧ Forall (λ p, valid_value a p = true) l ∧
  required_given l (app_options a) = true ∧ Forall (λ g, valid_group l g = true) (app_groups a).
Proof.
  unfold valid. rewrite !andb_true_iff, !forallb_forall. intros (((Hnd & Hv) & Hreq) & Hg).
  split; [by apply bool_decide_eq_true in Hnd|]. rewrite !Forall_forall.
  split; [intros p Hp; apply list_elem_of_In in Hp; specialize (Hv p Hp); by apply andb_true_iff in Hv as []|].
  split; [intros p Hp; by apply Hv, list_elem_of_In|]. split; [done|].
  intros g Hp. by apply Hg, list_elem_of_In.
Qed.
Lemma find_value_Forall (Q : member * value → Prop) l m v : Forall Q l → find_value l m = Some v → Q (m, v).
Proof.
  intros HQ. induction HQ as [|[m' v'] l Hp HQ IH]; [done|]. rewrite find_value_cons.
  case_bool_decide as Hm; [|done]. simpl in Hm. subst m'. by intros [= <-].
Qed.

(** A member is as given, or as initialised. *)
Lemma assigned_value a l m : valid a l = true → value_of m (assigned l) = default (value_of m options_init) (find_value l m).
Proof. intros (Hnd & Hty & _)%valid_spec. by apply value_fold. Qed.
(** A flag that is set was given ([--flag=false] gives one without setting it). *)
Lemma assigned_flag a l m : valid a l = true → value_of m (assigned l) = Flag true →
  value_of m options_init = Flag false → given l m = true.
Proof.
  intros Hv Hb Hi. rewrite (assigned_value a), Hi in Hb by done.
  apply given_find. destruct (find_value l m); [eauto | done].
Qed.
Lemma assigned_number a l m z : valid a l = true → value_of m (assigned l) = Number z →
  value_of m options_init = Number 0 → has_type m (Number 0) = true → has_type m (Number z) = true.
Proof.
  intros Hv Hz Hi H0. rewrite (assigned_value a), Hi in Hz by done. apply valid_spec in Hv as (_ & Hty & _).
  destruct (find_value l m) as [v|] eqn:Hf; simpl in Hz; [|by injection Hz as <-].
  subst v. exact (find_value_Forall _ _ _ _ Hty Hf).
Qed.
End lemmas.

Section main_lemmas.
Context `{CliParser} `{Config}.
Implicit Types (l : list (member * value)).

Lemma main_timer_group l : valid main_app l = true →
  if given l opt_mti_enabled
  then given l opt_mtime = true ∧ given l opt_mtimecmp = true ∧ given l opt_interval = true
  else given l opt_mtime = false ∧ given l opt_mtimecmp = false ∧ given l opt_interval = false.
Proof.
  intros (_ & _ & _ & _ & Hg)%valid_spec.
  assert (∃ g gs, app_groups main_app = g :: gs ∧ group_needs g = Some opt_mti_enabled ∧ group_count g = Some 3%nat ∧
    bound <$> group_options g = [opt_mtime; opt_mtimecmp; opt_interval]) as (g & gs & Heq & Hn & Hc & Ho).
  { unfold main_app. destruct ENABLE_TCP; do 2 eexists; done. }
  rewrite Heq in Hg. apply Forall_cons in Hg as [Hg _]. unfold valid_group in Hg. rewrite Hn, Hc in Hg.
  destruct g as [? ? ? os ?]. simpl in *. destruct os as [|o1 [|o2 [|o3 []]]]; try done. simpl in Ho.
  injection Ho as Ho1 Ho2 Ho3. destruct (given l opt_mti_enabled).
  - apply andb_true_iff in Hg as [_ Hg%Nat.eqb_eq]. rewrite !filter_cons, Ho1, Ho2, Ho3 in Hg.
    by destruct (given l opt_mtime), (given l opt_mtimecmp), (given l opt_interval).
  - simpl in Hg. rewrite Ho1, Ho2, Ho3, !andb_true_iff, !negb_true_iff in Hg. tauto.
Qed.

Lemma main_server_group l : valid main_app l = true →
  (ENABLE_TCP = false → given l opt_tcp_enabled = false) ∧
  (given l opt_tcp_enabled = true → given l opt_port = true).
Proof.
  intros Hv. apply valid_spec in Hv as (_ & _ & Hv & _ & Hg). unfold main_app in *. destruct ENABLE_TCP.
  - split; [done|]. intros Ht. apply Forall_cons in Hg as [_ [Hg _]%Forall_cons].
    unfold valid_group in Hg. simpl in Hg. rewrite Ht in Hg. simpl in Hg. by rewrite !andb_true_r in Hg.
  - assert (given l opt_tcp_enabled = false) as Hno.
    { apply not_given. destruct (find_value l opt_tcp_enabled) as [v|] eqn:Hf; [|done].
      pose proof (find_value_Forall _ _ _ _ Hv Hf) as Hx. unfold valid_value in Hx.
      apply andb_true_iff in Hx as [_ Hx]. by simpl in Hx. }
    split; [done|]. by rewrite Hno.
Qed.

Lemma main_numbers l : valid main_app l = true →
  is_u32 (o_mtime (assigned l)) ∧ is_u32 (o_mtimecmp (assigned l)) ∧ is_u32 (interval (assigned l)).
Proof.
  intros Hv.
  assert (∀ m z, value_of m (assigned l) = Number z → value_of m options_init = Number 0 →
    has_type m (Number 0) = true → has_type m (Number z) = (0 <=? z) && (z <? 2 ^ 32) → is_u32 z) as Hn.
  { intros m z Hz Hi Hty Ht. pose proof (assigned_number main_app l m z Hv Hz Hi Hty) as Hx. rewrite Ht in Hx.
    apply andb_true_iff in Hx as [?%Z.leb_le ?%Z.ltb_lt]. lia. }
  split; [by apply (Hn opt_mtime)|]. split; [by apply (Hn opt_mtimecmp) | by apply (Hn opt_interval)].
Qed.

Lemma main_target l : valid main_app l = true →
  ∃ path, find_value l opt_target = Some (Text path) ∧ file_exists path = true.
Proof.
  intros Hv. apply valid_spec in Hv as (_ & Hty & Hv & Hreq & _).
  assert (given l opt_target = true) as Hgiven.
  { unfold required_given in Hreq. rewrite forallb_forall in Hreq. unfold main_app in Hreq.
    destruct ENABLE_TCP; refine (Hreq (mk_cli_option "target" opt_target "Executable target" true true true) _);
      simpl; tauto. }
  apply given_find in Hgiven as [v Hf].
  pose proof (find_value_Forall _ _ _ _ Hty Hf) as Ht. pose proof (find_value_Forall _ _ _ _ Hv Hf) as Hx.
  destruct v as [path| |]; try done. exists path. split; [done|].
  unfold valid_value, main_app in Hx. destruct ENABLE_TCP; simpl in Hx; by destruct (file_exists path).
Qed.
End main_lemmas.

(** ** Properties *)

(** C6: What a command line means.  When the parser accepts the arguments of [main], every
    member of [options] that was not given has its initial value and every one given has
    the given value; the target is the path of an existing file; the two addresses and the
    interval are 32-bit numbers, all three given with [--timer], and without it all zero and
    the timer off; and the server is on only in a build that has it, and then the port, which
    [options] does not initialise, was given and has 16 bits.  [main] is then [run] on these
    options; when the parser does not accept the arguments, [main] returns the parser's exit
    code and does not run. *)
Theorem main_options {P : Platform} {C : CommonLib} {D : Decoder} {EL : ElfIO} {ED : ElfDump} {CF : Config}
    {J : Json.JsonLib} {JD : Json.JsonDoc} {EC : Json.EnumCodes} {CP : CliParser} {CL : CliLaws}
    fuel argv input exception :
  (∀ code, parse main_app argv = Exits code → main fuel argv input exception = Ok (code, [])) ∧
  ∀ l, parse main_app argv = Parsed l →
    let opt := assigned l in
    main fuel argv input exception = run fuel opt input exception ∧
    (∀ m, value_of m opt = default (value_of m options_init) (find_value l m)) ∧
    file_exists (o_target opt) = true ∧
    is_u32 (o_mtime opt) ∧ is_u32 (o_mtimecmp opt) ∧ is_u32 (interval opt) ∧
    (if given l opt_mti_enabled
     then given l opt_mtime = true ∧ given l opt_mtimecmp = true ∧ given l opt_interval = true
     else mti_enabled opt = false ∧ o_mtime opt = 0 ∧ o_mtimecmp opt = 0 ∧ interval opt = 0) ∧
    (tcp_enabled opt = true → ENABLE_TCP = true ∧ given l opt_port = true ∧ is_u16 (port opt)).
Proof.
  split; [intros code Hp; unfold main; by rewrite Hp|]. intros l Hp opt.
  split; [unfold main; by rewrite Hp|].
  pose proof (parse_valid main_app argv l Hp) as Hv.
  assert (∀ m, value_of m opt = default (value_of m options_init) (find_value l m)) as Hval
    by (intros m; by apply (assigned_value main_app)).
  assert (∀ m z, value_of m opt = Number z → value_of m options_init = Number 0 →
    has_type m (Number 0) = true → has_type m (Number z) = true) as Hnum
    by (intros m z; by apply (assigned_number main_app)).
  assert (∀ m, value_of m opt = Flag true → value_of m options_init = Flag false → given l m = true) as Hfl
    by (intros m; by apply (assigned_flag main_app)).
  split; [done|].
  assert (∀ m z, value_of m opt = Number z → value_of m options_init = Number 0 → given l m = false → z = 0) as Hzero.
  { intros m z Hz Hi Hno%not_given. rewrite Hval, Hi, Hno in Hz. by injection Hz. }
  split. { destruct (main_target l Hv) as (path & Hf & Hex). specialize (Hval opt_target). rewrite Hf in Hval.
    simpl in Hval. by injection Hval as ->. }
  destruct (main_numbers l Hv) as (? & ? & ?). do 3 (split; [done|]). split.
  - pose proof (main_timer_group l Hv) as Hg. destruct (given l opt_mti_enabled) eqn:Hgt; [done|].
    destruct Hg as (Ha & Hb & Hc).
    split. { destruct (mti_enabled opt) eqn:Hm; [|done]. rewrite (Hfl opt_mti_enabled) in Hgt; [done | simpl; by rewrite Hm | done]. }
    split; [by apply (Hzero opt_mtime)|]. split; [by apply (Hzero opt_mtimecmp) | by apply (Hzero opt_interval)].
  - intros Ht. assert (given l opt_tcp_enabled = true) as Hgt by (apply Hfl; [simpl; by rewrite Ht | done]).
    destruct (main_server_group l Hv) as [Hoff Hport].
    split; [destruct ENABLE_TCP; [done | by rewrite Hoff in Hgt]|]. split; [by apply Hport|].
    pose proof (Hnum opt_port _ eq_refl eq_refl eq_refl) as Hx. simpl in Hx.
    apply andb_true_iff in Hx as [?%Z.leb_le ?%Z.ltb_lt]. lia.
Qed.

(** C1: From the command line to the exit code.  Take arguments the parser accepts, without
    [--dump] and without [--step], that name a file the loader accepts, with the tohost
    symbol in it and segments that can be copied ([loadable]: the loader copies whole pages,
    so the process must have readable memory behind the bytes of a segment, to the end of
    its last page; a condition the file alone does not ensure), and start the abstract hart
    (RV32IM, CSRs, traps, interrupts) out of reset at the file's entry point on the image of
    its segments.  Let that hart be done within [n] cycles, by an environment call or by a
    store to tohost.  Then a run of [main] in which the timer thread, if there is one, makes
    no step returns 0, for any fuel above [n], and the last line of its log reports the
    hart's tohost word, in hexadecimal and as a signed number.  Without [--timer], or with it
    if in these cycles no instruction touches a byte of a timer register, every interleaving
    of the thread and the main loop ends so: whatever [main] returns or fails with is that
    status and that last line, and it does return, for the loop makes at most [n] rounds and
    can always go on. *)
Theorem main_reports_exit_code {P : Platform} {C : CommonLib} {L : CommonLaws} {D : Decoder} {DO : DecoderOk}
    {promised} {AR : Arithmetic P promised} {EL : ElfIO} {ED : ElfDump} {CF : Config}
    {J : Json.JsonLib} {JD : Json.JsonDoc} {JDL : Json.JsonDocLaws} {EC : Json.EnumCodes}
    {CP : CliParser} {CL : CliLaws}
    n fuel argv l input exception (e : elf) (r : address_router) a code :
  parse main_app argv = Parsed l →
  let opt := assigned l in
  dump_exit opt = false → fstep opt = false →
  loader_open (o_target opt) = Ok e → Forall loadable (e_segments e) → wf_op dec_init →
  get_symbol e (tohost_sym opt) = Some a →
  load_segments (e_segments e) (address_router_of ∅ (o_mtime opt) (o_mtimecmp opt)) = Ok r →
  let ς := mk_soc (progbit_ranges e) (o_mtime opt) (o_mtimecmp opt) (u32 a)
    (if mti_enabled opt then Some (o_mtime opt, o_mtimecmp opt) else None) in
  let reset := cpu_reset (entry e) (byte (pages r)) in
  let line := LoggedExit (Format.exit_line (o_target opt) code (s32 code)) in
  cpu_run promised ς n reset = Some code → (n < fuel)%nat →
  (∃ out, main fuel argv input exception = Ok (0, out ++ [line]) ∧
    main_outcome argv input exception (Ok (0, out ++ [line]))) ∧
  (mti_enabled opt = false ∨ alone promised ς n reset = true →
   (∀ result, main_outcome argv input exception result → ∃ out, result = Ok (0, out ++ [line])) ∧
   ∃ s, build opt = Ok s ∧ ∀ w, reachable (start s input) w →
     (executed (written w) <= n)%nat ∧
     (leaving w = None → ∃ w', sys_step w w' ∧
        (leaving w' ≠ None ∨ executed (written w') = S (executed (written w))))).
Proof.
  intros Hparse opt Hdump Hstep Ho Hsegs Hdec Ha Hr ς reset line Hrun Hfuel.
  destruct (main_numbers l (parse_valid _ _ _ Hparse)) as (Ht & Htc & _).
  unfold main, main_outcome. rewrite Hparse. fold opt.
  by apply (run_reports_exit_code n fuel opt input exception e r a code).
Qed.

(** ** Witnesses *)

Section witnesses.
#[local] Existing Instances wrapping ref_common ref_decoder ref_elf.
#[local] Existing Instances ref_dump Json.ref_json Json.ref_json_doc Json.ref_json_doc_laws Json.ref_codes.
#[local] Instance plain_build : Config := {| ENABLE_TCP := false |}.

(** A parser for long options without an alias: a flag, an option with its value in the
    next argument, decimal numbers; everything else is the target.  What is not valid is
    an error. *)
Fixpoint decimal (acc : Z) (s : string) : option Z :=
  match s with
  | EmptyString => Some acc
  | String c s =>
      let d := Z.of_nat (Ascii.nat_of_ascii c) - 48 in
      if (0 <=? d) && (d <? 10) then decimal (10 * acc + d) s else None
  end.
Definition option_named (a : app) (name : string) : option member :=
  bound <$> find (λ o, String.eqb (option_name o) name && negb (String.eqb name "target")) (all_options a).
Fixpoint ref_arguments (a : app) (argv : list string) : option (list (member * value)) :=
  match argv with
  | [] => Some []
  | s :: argv =>
      match option_named a s with
      | None => cons (opt_target, Text s) <$> ref_arguments a argv
      | Some m =>
          if has_type m (Flag true) then cons (m, Flag true) <$> ref_arguments a argv
          else
            match argv with
            | [] => None
            | s :: argv =>
                v ← (if has_type m (Text s) then Some (Text s) else Number <$> decimal 0 s);
                cons (m, v) <$> ref_arguments a argv
            end
      end
  end.
Definition ref_exists (path : string) : bool := String.eqb path "prog.elf".
Definition ref_parse (a : app) (argv : list string) : parsed :=
  match ref_arguments a argv with
  | Some l => if valid (H := {| parse := λ _ _, Exits 0; file_exists := ref_exists |}) a l then Parsed l else Exits 106
  | None => Exits 106
  end.
#[local] Instance ref_cli : CliParser := {| parse := ref_parse; file_exists := ref_exists |}.
#[local] Instance ref_cli_laws : CliLaws.
Proof.
  split. intros a argv l. simpl. unfold ref_parse. destruct (ref_arguments a argv) as [l'|]; [|done].
  destruct (valid _ l') eqn:Hv; [|done]. by intros [= <-].
Qed.

(** The command line of the test timer2, and two that are refused: a timer option without
    [--timer], and [--timer] without the interval. *)
Definition timer_argv : list string := ["--timer"; "--mtime"; "32768"; "--mtimecmp"; "33024"; "--interval"; "10"; "prog.elf"].
Example refused_command_lines :
  parse main_app ["--mtime"; "32768"; "prog.elf"] = Exits 106 ∧
  parse main_app ["--timer"; "--mtime"; "32768"; "--mtimecmp"; "33024"; "prog.elf"] = Exits 106 ∧
  parse main_app ["other.elf"] = Exits 106.
Proof. by vm_compute. Qed.
Definition timer_arguments : list (member * value) :=
  [(opt_mti_enabled, Flag true); (opt_mtime, Number 32768); (opt_mtimecmp, Number 33024); (opt_interval, Number 10);
   (opt_target, Text "prog.elf")].
Lemma timer_parsed : parse main_app timer_argv = Parsed timer_arguments.
Proof. by vm_compute. Qed.

Lemma main_options_witness :
  ∃ l, parse main_app timer_argv = Parsed l ∧ value_of opt_mtime (assigned l) = Number 0x8000 ∧
    file_exists (o_target (assigned l)) = true ∧ given l opt_interval = true.
Proof.
  destruct (main_options 0 timer_argv [] None) as [_ Hl].
  destruct (Hl timer_arguments timer_parsed) as (_ & Hv & Hf & _ & _ & _ & (_ & _ & Hi) & _).
  exists timer_arguments. split; [exact timer_parsed|]. split; [exact (Hv opt_mtime) | split; [exact Hf | exact Hi]].
Defined.

(** With the timer on: the sequential run, and every interleaving. *)
Lemma main_reports_exit_code_witness :
  (∃ out, main 10 timer_argv [] None = Ok (0, out ++ [LoggedExit "prog.elf Exited with 0x5 (5)"])) ∧
  ∀ result, main_outcome timer_argv [] None result → ∃ out, result = Ok (0, out ++ [LoggedExit "prog.elf Exited with 0x5 (5)"]).
Proof.
  destruct (main_reports_exit_code (promised := promise_all) 5 10 timer_argv timer_arguments [] None ref_image
    loaded_router 0x2000 5) as [(out & Hout & _) Hall]; [exact timer_parsed | done | done | exact sample_opens
      | exact ref_loadable | by split | done | exact loaded_router_ok | vm_compute; reflexivity | lia |].
  split; [exists out; exact Hout|]. apply Hall. right. vm_compute. reflexivity.
Defined.
End witnesses.
