(* ===== verification/Runtime.v ===== *)
(** * The example programs ([runtime/basic])

    C programs the simulator runs as its tests.  Their logic is modelled at the level of
    the C source: the compiler is not.  A volatile load or store is an access to a bus; the
    operations on [unsigned long], which [serdar_stdint.h] calls [uint64_t], have 32 bits,
    as under the only ABI the build selects, ilp32.  [timer.c] is proved against a 64-bit
    counter and against what the address router gives it; the small programs against the
    results the build expects. *)

From S2P Require Import Sim.
From S2P Require Format.

(** ** [serdar_stdint.h] *)

(** [typedef unsigned long int uint64_t].  [runtime/basic/CMakeLists.txt] compiles with
    [-mabi=ilp32], where [unsigned long] has 32 bits; so the type of that name has. *)
Definition ulong_bits : Z := 32.
Definition uint64_t (z : Z) : Z := z mod 2 ^ ulong_bits.
(** The count of a shift of that type. *)
Definition ulong_count `{Platform} (n : Z) : res Z :=
  if (0 <=? n) && (n <? ulong_bits) then Ok n else on_shift_count n.

(** ** [timer.c] *)

Definition MTIME : Z := 0x8000.
Definition MTIMECMP : Z := 0x8100.
Definition CLOCK_FREQ : Z := 100.

Section timer.
Context `{Platform}.

(** What a 32-bit load gives: the bus, by the number of loads so far and the address. *)
Implicit Types (bus : nat → Z → Z) (now : nat).

(** [mtime()]: the value, and the number of loads after it. *)
Fixpoint read_mtime (fuel : nat) bus now : res (Z * nat) :=
  match fuel with
  | O => Fail OutOfFuel
  | S fuel =>
      let mtimeh_val := bus now (MTIME + 4) in
      let mtimel_val := bus (now + 1)%nat MTIME in
      if negb (mtimeh_val =? bus (now + 2)%nat (MTIME + 4)) then read_mtime fuel bus (now + 3)
      else
        n ← ulong_count 32;
        mret (uint64_t (Z.lor (uint64_t (Z.shiftl (uint64_t mtimeh_val) n)) mtimel_val), (now + 3)%nat)
  end.

(** [timer()]: the stores, in order, and the new value of [timer_enabled]. *)
Definition timer_handler (fuel : nat) bus now : res (list (Z * Z) * Z) :=
  '(t, now) ← read_mtime fuel bus now;
  let new_mtimecmp := uint64_t (t + CLOCK_FREQ * 10) in
  n ← ulong_count 32;
  mret ([(MTIMECMP + 4, 0xFFFFFFFF);
         (MTIMECMP, u32 (Z.land new_mtimecmp 0x0FFFFFFFF));
         (MTIMECMP + 4, u32 (Z.shiftr new_mtimecmp n))], 1).

(** [busy1337], with [int i] and the parameter promoted to [int]. *)
Fixpoint count_up (fuel : nat) (i x : Z) : res Z :=
  match fuel with
  | O => Fail OutOfFuel
  | S fuel => i ← int_result (i + 1); if i <? x then count_up fuel i x else mret i
  end.
Fixpoint count_down (fuel : nat) (i : Z) : res Z :=
  match fuel with
  | O => Fail OutOfFuel
  | S fuel => i ← int_result (i - 1); if 0 <? i then count_down fuel i else mret i
  end.
Definition busy1337 (fuel : nat) (x : Z) : res unit :=
  i ← count_up fuel 0 (u16 x); _ ← count_down fuel i; mret tt.

(** [main] after the three CSR instructions; [timer_enabled] is what the handler has left. *)
Definition timer_main (fuel : nat) bus now (timer_enabled : Z) : res Z :=
  _ ← busy1337 fuel 100;
  _ ← busy1337 fuel 100;
  if negb (timer_enabled =? 0) then '(t, _) ← read_mtime fuel bus now; mret (s32 t) else mret 0.
End timer.

(** ** The small programs *)

Section programs.
Context `{Platform} `{CommonLib}.

(** [fib]: the arguments of the recursive calls are narrowed to [uint8_t]. *)
Fixpoint fib (fuel : nat) (v : Z) : res Z :=
  match fuel with
  | O => Fail OutOfFuel
  | S fuel =>
      if (v =? 0) || (v =? 1) then mret 1
      else a ← fib fuel (u8 (v - 1)); b ← fib fuel (u8 (v - 2)); mret (u32 (a + b))
  end.

(** The results of [main], converted to [int]; inline assembly by the ALU. *)
Definition fib_main : res Z := r ← fib 7 6; mret (s32 r).
Definition mul_main : res Z := let a := 1234 in let b := 123 in mret (s32 (u32 (a * b))).
Definition shift_main : res Z :=
  let a := 1 in let b := 2 in n ← shift_amount 3; mret (s32 (u32 (Z.shiftl (u32 (a + b)) n))).
Definition divu_main : res Z := c ← do_alu _divu 0xFEED 0xBEEF; mret (s32 c).
Definition mulhsu_main : res Z := c ← do_alu _mulhsu (u32 (-1)) 0xEFFFFFFF; mret (s32 c).

(** [_start] of [crt.c]: what [_exit] stores to [tohost]. *)
Definition crt_start (main : res Z) : res Z := ret ← main; mret (u32 ret).
End programs.

(** The results [cmake/test_config.cmake] expects, as the run reports them. *)
Definition test_config `{Platform} `{CommonLib} : list (string * res Z * string) :=
  [("shift.c", shift_main, "0x18 (24)"); ("fib.c", fib_main, "0xD (13)");
   ("mul.c", mul_main, "0x250E6 (151782)"); ("mulhsu.c", mulhsu_main, "0xFFFFFFFF (-1)");
   ("divu.c", divu_main, "0x1 (1)")].

(** ** Lemmas *)

(** A bus whose two words at MTIME are a counter that never goes back. *)
Record counts (clock : nat → Z) (bus : nat → Z → Z) : Prop := {
  clock_u64 i : is_u64 (clock i);
  clock_mono i j : (i ≤ j)%nat → clock i ≤ clock j;
  bus_low i : bus i MTIME = clock i mod 2 ^ 32;
  bus_high i : bus i (MTIME + 4) = clock i / 2 ^ 32
}.

(** What [mtime()] makes of a counter, where a shift by 32 is a shift by [n]: the halves are
    put together by OR. *)
Definition mtime_word (n t : Z) : Z := Z.lor (u32 (Z.shiftl (t / 2 ^ 32) n)) (t mod 2 ^ 32).
Lemma mtime_word_low n t : 0 ≤ t < 2 ^ 32 → mtime_word n t = t.
Proof. intros Ht. unfold mtime_word. rewrite Z.div_small, Z.mod_small, Z.shiftl_0_l by lia. done. Qed.

Lemma u32_lor a b : is_u32 a → is_u32 b → is_u32 (Z.lor a b).
Proof. intros. by apply (lor_bound 32). Qed.

Section clock.
Context {P : Platform} (clock : nat → Z) (bus : nat → Z → Z) (n : Z).
Context (Hc : counts clock bus) (Hn : on_shift_count 32 = Ok n).

Definition high (i : nat) : Z := clock i / 2 ^ 32.
Lemma high_mono i j : (i ≤ j)%nat → high i ≤ high j.
Proof. intros Hij. apply Z.div_le_mono; [lia | by apply Hc]. Qed.
Lemma high_u32 i : is_u32 (high i).
Proof.
  pose proof (clock_u64 _ _ Hc i). unfold high. split; [apply Z.div_pos; lia|].
  apply Z.div_lt_upper_bound; lia.
Qed.

Lemma read_mtime_eq fuel now : read_mtime (S fuel) bus now =
  if negb (high now =? high (now + 2)) then read_mtime fuel bus (now + 3)
  else Ok (Z.lor (u32 (Z.shiftl (high now) n)) (clock (now + 1)%nat mod 2 ^ 32), (now + 3)%nat).
Proof.
  cbn [read_mtime]. rewrite !(bus_high _ _ Hc), (bus_low _ _ Hc). fold (high now) (high (now + 2)).
  destruct (high now =? high (now + 2)); [|done]. cbn [negb].
  change (ulong_count 32) with (on_shift_count 32). rewrite Hn, res_bind_ok. unfold mret, res_ret.
  change uint64_t with u32. rewrite (u32_small (high now)) by apply high_u32. rewrite (u32_small (Z.lor _ _)); [done|].
  apply u32_lor; [apply u32_range | apply Z.mod_pos_bound; lia].
Qed.

Lemma read_mtime_sound fuel now v now' : read_mtime fuel bus now = Ok (v, now') →
  ∃ k, (now ≤ k < now')%nat ∧ v = mtime_word n (clock k).
Proof.
  revert now. induction fuel as [|fuel IH]; intros now; [done|]. rewrite read_mtime_eq.
  destruct (Z.eqb_spec (high now) (high (now + 2))) as [Heq|]; cbn [negb].
  - intros [= <- <-]. exists (now + 1)%nat. split; [lia|].
    pose proof (high_mono now (now + 1) ltac:(lia)). pose proof (high_mono (now + 1) (now + 2) ltac:(lia)).
    assert (high now = high (now + 1)) as -> by lia. done.
  - intros Hr. destruct (IH _ Hr) as (k & Hk & ->). exists k. split; [lia | done].
Qed.

Lemma read_mtime_complete fuel now : high (now + 3 * fuel) - high now < Z.of_nat fuel →
  ∃ v now', read_mtime fuel bus now = Ok (v, now') ∧ (now' ≤ now + 3 * fuel)%nat.
Proof.
  revert now. induction fuel as [|fuel IH]; intros now Hh; [rewrite Nat.mul_0_r, Nat.add_0_r in Hh; lia|].
  rewrite read_mtime_eq. destruct (Z.eqb_spec (high now) (high (now + 2))) as [Heq|Hne]; cbn [negb].
  - do 2 eexists. split; [reflexivity | lia].
  - pose proof (high_mono now (now + 2) ltac:(lia)). pose proof (high_mono (now + 2) (now + 3) ltac:(lia)).
    destruct (IH (now + 3)%nat) as (v & now' & Hr & Hle).
    { replace (now + 3 + 3 * fuel)%nat with (now + 3 * S fuel)%nat by lia. lia. }
    exists v, now'. split; [exact Hr | lia].
Qed.
End clock.

Lemma land_low32 z : Z.land z 0x0FFFFFFFF = u32 z.
Proof. change 0x0FFFFFFFF with (Z.ones 32). apply Z.land_ones. lia. Qed.

(** Where the shift takes its count modulo 32, once the high words agree. *)
Section wrapping_shift.
#[local] Existing Instance wrapping.
Context (bus : nat → Z → Z) (now : nat).
Context (Heq : bus now (MTIME + 4) = bus (now + 2)%nat (MTIME + 4)).
Context (Hh : is_u32 (bus now (MTIME + 4))) (Hl : is_u32 (bus (now + 1)%nat MTIME)).
Local Definition read_value : Z := Z.lor (bus now (MTIME + 4)) (bus (now + 1)%nat MTIME).

Lemma read_mtime_wraps fuel : read_mtime (S fuel) bus now = Ok (read_value, (now + 3)%nat).
Proof.
  cbn [read_mtime]. rewrite <-Heq, Z.eqb_refl. cbn [negb].
  change (ulong_count 32) with (Ok 0 : res Z). rewrite res_bind_ok. unfold mret, res_ret.
  change uint64_t with u32. rewrite Z.shiftl_0_r, !(u32_small (bus _ _)) by done. rewrite u32_small; [done | by apply u32_lor].
Qed.
Lemma timer_handler_wraps fuel : timer_handler (S fuel) bus now =
  Ok ([(MTIMECMP + 4, 0xFFFFFFFF); (MTIMECMP, u32 (read_value + 1000)); (MTIMECMP + 4, u32 (read_value + 1000))], 1).
Proof.
  unfold timer_handler. rewrite read_mtime_wraps, res_bind_ok.
  change (ulong_count 32) with (Ok 0 : res Z). rewrite res_bind_ok.
  rewrite land_low32, Z.shiftr_0_r. change (uint64_t (read_value + CLOCK_FREQ * 10)) with (u32 (read_value + 1000)).
  unfold mret, res_ret. by rewrite !(u32_small (u32 _)) by apply u32_range.
Qed.
End wrapping_shift.

(** The stores through the router. *)
Fixpoint store_all `{CommonLib} (stores : list (Z * Z)) (r : address_router) : res address_router :=
  match stores with [] => mret r | (a, v) :: stores => r ← router_write32 a v r; store_all stores r end.

(** Three words at the comparison register's addresses: high, low, high. *)
Lemma store_all_halves `{CommonLaws} r first lo hi : wf_router r → is_u32 first → is_u32 lo → is_u32 hi →
  ∃ m, store_all [(MTIMECMP + 4, first); (MTIMECMP, lo); (MTIMECMP + 4, hi)] r = Ok (with_pages m r) ∧
    le_value (byte m) MTIMECMP 4 = lo ∧ le_value (byte m) (MTIMECMP + 4) 4 = hi.
Proof.
  intros Hr Hf Hlo Hhi. cbn [store_all].
  destruct (router_write32_ok r (MTIMECMP + 4) first Hr) as (m1 & -> & H1 & _); [unfold MTIMECMP; lia | done |].
  rewrite res_bind_ok.
  destruct (router_write32_ok (with_pages m1 r) MTIMECMP lo H1) as (m2 & -> & H2 & Hm2); [unfold MTIMECMP; lia | done |].
  rewrite res_bind_ok.
  destruct (router_write32_ok (with_pages m2 (with_pages m1 r)) (MTIMECMP + 4) hi H2)
    as (m3 & -> & H3 & Hm3); [unfold MTIMECMP; lia | done |].
  rewrite res_bind_ok. exists m3. split; [done|]. split.
  - rewrite (le_value_ext (byte m3) (byte m2) MTIMECMP 4); [| | unfold MTIMECMP; lia].
    2: { intros i Hi. rewrite Hm3 by apply u32_range. unfold overlay, MTIMECMP in *.
         rewrite (u32_small (33024 + i)) by lia.
         replace (u32 (33024 + i - (33024 + 4))) with (2 ^ 32 + i - 4)
           by (unfold u32; apply (Z.mod_unique _ _ (-1)); lia).
         by rewrite (proj2 (Z.ltb_ge _ _)) by lia. }
    by apply (overlay_read (byte m1) (byte m2) MTIMECMP lo); [unfold MTIMECMP; lia|..].
  - by apply (overlay_read (byte m2) (byte m3) (MTIMECMP + 4) hi); [unfold MTIMECMP; lia|..].
Qed.

Section programs_lemmas.
Context {P : Platform}.

Lemma count_up_ok fuel i x : 0 ≤ i → i ≤ Z.max 1 x → x < 2 ^ 31 - 1 → i < Z.max 1 x → (Z.max 1 x - i < Z.of_nat fuel) →
  count_up fuel i x = Ok (Z.max 1 x).
Proof.
  revert i. induction fuel as [|fuel IH]; intros i Hi _ Hx Hlt Hf; [lia|]. cbn [count_up].
  rewrite int_result_exact, res_bind_ok by lia. destruct (Z.ltb_spec (i + 1) x).
  - apply IH; lia.
  - unfold mret, res_ret. f_equal. lia.
Qed.
Lemma count_down_ok fuel i : 0 < i < 2 ^ 31 → i < Z.of_nat fuel → count_down fuel i = Ok 0.
Proof.
  revert i. induction fuel as [|fuel IH]; intros i Hi Hf; [lia|]. cbn [count_down].
  rewrite int_result_exact, res_bind_ok by lia. destruct (Z.ltb_spec 0 (i - 1)).
  - apply IH; lia.
  - unfold mret, res_ret. f_equal. lia.
Qed.

(** [busy1337] ends, for every argument, without overflow. *)
Lemma busy1337_ends fuel x : Z.max 1 (u16 x) < Z.of_nat fuel → busy1337 fuel x = Ok tt.
Proof.
  intros Hf. pose proof (u16_range x). unfold busy1337.
  rewrite count_up_ok by lia. rewrite res_bind_ok. by rewrite count_down_ok by lia.
Qed.

(** The Fibonacci numbers, from 1 and 1. *)
Fixpoint fibonacci (n : nat) : Z :=
  match n with O => 1 | S n => match n with O => 1 | S m => fibonacci n + fibonacci m end end.
Lemma fibonacci_SS n : fibonacci (S (S n)) = fibonacci (S n) + fibonacci n.
Proof. done. Qed.

Lemma fib_fibonacci fuel n : (n < fuel)%nat → Z.of_nat n < 2 ^ 8 →
  fib fuel (Z.of_nat n) = Ok (u32 (fibonacci n)).
Proof.
  revert n. induction fuel as [|fuel IH]; intros n Hf Hn; [lia|]. cbn [fib].
  destruct n as [|[|n]]; [done | done |].
  rewrite (proj2 (Z.eqb_neq _ 0)), (proj2 (Z.eqb_neq _ 1)) by lia. simpl orb. cbv iota.
  replace (u8 (Z.of_nat (S (S n)) - 1)) with (Z.of_nat (S n)) by (rewrite u8_small; lia).
  replace (u8 (Z.of_nat (S (S n)) - 2)) with (Z.of_nat n) by (rewrite u8_small; lia).
  rewrite (IH (S n)), res_bind_ok, (IH n), res_bind_ok by lia. rewrite fibonacci_SS.
  unfold mret, res_ret. f_equal. unfold u32. by rewrite <-Zplus_mod.
Qed.
End programs_lemmas.

(** The build's expectations hold. *)
Lemma basic_tests_expected {C : CommonLib} :
  Forall (λ '(name, main, expected), ∃ tohost, crt_start main = Ok tohost ∧
    Format.exit_line name tohost (s32 tohost) = name +:+ " Exited with " +:+ expected) (test_config (H := wrapping)).
Proof. repeat (apply Forall_cons; split); [..|by apply Forall_nil]; eexists; (split; [reflexivity | by vm_compute]). Qed.

(** ** Properties *)

(** C30: [mtime()] never mixes two moments of the counter.  [uint64_t] has 32 bits in the
    build, and [mtime()] shifts it by 32; on a platform where that shift yields a value, as
    one by [n] places, and on a bus that shows the halves of a 64-bit counter that never goes
    back: whatever the loop returns is made of the two halves of the counter at one moment
    between its first and its last load, although they are loaded apart, by OR of the shifted
    high half and the low half; while the counter is below 2^32 it is the counter itself.
    And the loop ends: as many iterations as the high half advances in that time, and one
    more, are enough. *)
Theorem mtime_reads_clock {P : Platform} clock bus n :
  counts clock bus → on_shift_count 32 = Ok n →
  (∀ fuel now v now', read_mtime fuel bus now = Ok (v, now') →
     ∃ k, (now ≤ k < now')%nat ∧
       v = Z.lor (u32 (Z.shiftl (clock k / 2 ^ 32) n)) (clock k mod 2 ^ 32) ∧ (clock k < 2 ^ 32 → v = clock k)) ∧
  (∀ fuel now, clock (now + 3 * fuel)%nat / 2 ^ 32 - clock now / 2 ^ 32 < Z.of_nat fuel →
     ∃ v now', read_mtime fuel bus now = Ok (v, now') ∧ (now' ≤ now + 3 * fuel)%nat).
Proof.
  intros Hc Hn. split; [|intros; by eapply (read_mtime_complete clock bus n Hc Hn)].
  intros fuel now v now' Hr. destruct (read_mtime_sound clock bus n Hc Hn _ _ _ _ Hr) as (k & Hk & ->).
  exists k. do 2 (split; [done|]). intros Hlow. apply mtime_word_low. pose proof (clock_u64 _ _ Hc k). lia.
Qed.

(** C31: On the simulator the handler of the timer test misses the timer registers.  At the
    addresses the build's test passes, the handler's loads and stores, 32 bits wide, go to
    the pages whatever the timer thread does to the counter meanwhile.  Where the shift by
    32 that [mtime()] and the handler make of the 32-bit [uint64_t] takes its count modulo
    32, as the hart's shifts do, the handler ends at once; it computes the comparison value
    from the OR of the two words the pages hold at MTIME, stores it in both words at
    MTIMECMP, in the pages, and both registers of the router are as before. *)
Theorem timer_handler_misses_registers {C : CommonLib} {L : CommonLaws}
    (r : address_router) (thread : nat → list Z) bus now :
  wf_router r → mtime_addr r = MTIME → mtimecmp_addr r = MTIMECMP →
  (∀ n a, is_u32 a → router_read32 a (with_mtime (thread n) r) = Ok (bus n a)) →
  ∃ stores r', timer_handler (H := wrapping) 1 bus now = Ok (stores, 1) ∧
    store_all stores r = Ok r' ∧ mtime r' = mtime r ∧ mtimecmp r' = mtimecmp r ∧
    let new := u32 (Z.lor (le_value (byte (pages r)) (MTIME + 4) 4) (le_value (byte (pages r)) MTIME 4) + 1000) in
    le_value (byte (pages r')) MTIMECMP 4 = new ∧ le_value (byte (pages r')) (MTIMECMP + 4) 4 = new.
Proof.
  intros Hr Ha Hac Hbus.
  assert (∀ n a, is_u32 a → bus n a = le_value (byte (pages r)) a 4) as Hb.
  { intros n a Hu. specialize (Hbus n a Hu). change (router_read32 a (with_mtime (thread n) r)) with (router_read32 a r) in Hbus.
    rewrite router_read32_ok in Hbus by done. by injection Hbus. }
  assert (is_u32 MTIME ∧ is_u32 (MTIME + 4)) as [H0 H4] by (unfold MTIME; lia).
  pose proof (timer_handler_wraps bus now) as Hh. unfold read_value in Hh. rewrite !Hb in Hh by done.
  set (new := u32 _) in *.
  destruct (store_all_halves r 0xFFFFFFFF new new Hr) as (m & Hs & Hlo & Hhi); [lia | apply u32_range.. |].
  eexists _, (with_pages m r). split; [apply (Hh eq_refl); by apply le_value_u32|]. by split_and!.
Qed.

(** C37: Under the ABI of the build [mtime()] has no value.  There [uint64_t] is a 32-bit
    type, and shifting it by 32 is undefined: [mtime()] never returns, and once the two
    readings of the high word agree it runs into the undefined shift.  Where the compiled
    shift takes its count modulo 32, as the hart's does, the two words are combined by OR,
    and the handler's comparison value has its low half stored twice. *)
Theorem timer_undefined_under_ilp32 bus now :
  (∀ fuel v, read_mtime (H := strict) fuel bus now ≠ Ok v) ∧
  (∀ fuel, bus now (MTIME + 4) = bus (now + 2)%nat (MTIME + 4) →
     read_mtime (H := strict) (S fuel) bus now = Fail (Undefined ub_shift_count)) ∧
  (∀ fuel, bus now (MTIME + 4) = bus (now + 2)%nat (MTIME + 4) →
     is_u32 (bus now (MTIME + 4)) → is_u32 (bus (now + 1)%nat MTIME) →
     let v := Z.lor (bus now (MTIME + 4)) (bus (now + 1)%nat MTIME) in
     read_mtime (H := wrapping) (S fuel) bus now = Ok (v, (now + 3)%nat) ∧
     timer_handler (H := wrapping) (S fuel) bus now =
       Ok ([(MTIMECMP + 4, 0xFFFFFFFF); (MTIMECMP, u32 (v + 1000)); (MTIMECMP + 4, u32 (v + 1000))], 1)).
Proof.
  split; [|split].
  - intros fuel v. revert now. induction fuel as [|fuel IH]; intros now; [done|]. cbn [read_mtime].
    destruct (negb _); [apply IH | done].
  - intros fuel Heq. cbn [read_mtime]. by rewrite Heq, Z.eqb_refl.
  - intros fuel Heq Hh Hl v. split; [by apply read_mtime_wraps | by apply timer_handler_wraps].
Qed.

(** ** Witnesses *)

Section witnesses.
#[local] Existing Instances wrapping ref_common ref_decoder.

(** A counter that is about to carry into its high half. *)
Definition carrying (i : nat) : Z := Z.min (2 ^ 32 - 2 + Z.of_nat i) (2 ^ 33).
Definition carrying_bus (i : nat) (a : Z) : Z :=
  if a =? MTIME then carrying i mod 2 ^ 32 else carrying i / 2 ^ 32.
Lemma carrying_counts : counts carrying carrying_bus.
Proof. split; unfold carrying, carrying_bus; [intros; lia | intros; lia | done | done]. Qed.

(** The first reading is torn, 0 above a low word that has already wrapped, and is
    repeated; the second has the high half 1, and the low half 3 at that moment. *)
Lemma mtime_reads_clock_witness :
  read_mtime 2 carrying_bus 1 = Ok (3, 7%nat) ∧
  ∃ k, 3 = Z.lor (u32 (Z.shiftl (carrying k / 2 ^ 32) 0)) (carrying k mod 2 ^ 32).
Proof.
  destruct (mtime_reads_clock (P := wrapping) carrying carrying_bus 0 carrying_counts eq_refl) as [Hs Hc].
  destruct (Hc 2%nat 1%nat) as (v & now' & Hr & _); [by vm_compute|].
  assert (read_mtime 2 carrying_bus 1 = Ok (3, 7%nat)) as Hv by by vm_compute.
  split; [exact Hv|]. destruct (Hs _ _ _ _ Hv) as (k & _ & Hk & _). exists k. exact Hk.
Defined.

Definition counting_thread (n : nat) : list Z := [u8 (Z.of_nat n); 0; 0; 0; 0; 0; 0; 0].
Lemma timer_handler_misses_registers_witness :
  ∃ stores r', timer_handler 1 (λ _ _, 0) 0 = Ok (stores, 1) ∧ store_all stores sample_router = Ok r' ∧
    mtimecmp r' = replicate 8 0 ∧ le_value (byte (pages r')) MTIMECMP 4 = 1000.
Proof.
  destruct (timer_handler_misses_registers sample_router counting_thread (λ _ _, 0) 0 sample_router_ok eq_refl eq_refl)
    as (stores & r' & Hh & Hs & _ & Hc & Hv & _).
  - intros n a Ha. change (router_read32 a _) with (router_read32 a sample_router).
    rewrite (router_read32_ok _ _ sample_router_ok Ha). reflexivity.
  - exists stores, r'. split; [exact Hh|]. split; [exact Hs|]. split; [exact Hc | exact Hv].
Defined.
End witnesses.
