(* ===== verification/Handlers.v ===== *)
(** * Assembly of the test programs ([runtime/arch-test], [runtime/basic])

    The assembly of [trap_handler.S] (and [trap_handler.c], its C version), of the exit
    macros of [model_test.h] and of the handler of [csr_exception.c], as listings; what the
    hart does with them, from the instruction that traps to the exit code or back.  The
    architecture tests are built with [-march=rv32imc_zicsr]: the assembler is free to
    compress an instruction of a listing, so instructions have two or four bytes, as the
    decoder finds them in memory, and branches lead to instructions and not to offsets.  A
    listing is run by [listing_step] on an index and registers; the abstract hart of [Priv]
    follows it, and the simulator the abstract hart. *)

From S2P Require Import System Runtime.

(** ** Listings *)

(** The assembler's [li rd, imm] for a constant that fits one instruction, [csrr rd, csr],
    [csrw csr, rs1], [bne rs1, rs2, label], [jal label] (which links in [rd]), [mret] and
    [ecall].  A label is the index of an instruction of the listing. *)
Inductive asm : Set :=
  | li (r v : Z) | csrr (r : Z) (c : csr) | csrw (c : csr) (r : Z) | bne (r1 r2 : Z) (l : nat) | jal (r : Z) (l : nat)
  | mret_ | ecall.

(** [trap_handler.S]. *)
Definition start_trap_handler : list asm := [csrr 10 mcause; li 5 2; bne 10 5 4; jal 1 8].
Definition handle_ebreak : list asm := [csrr 10 mcause; li 5 3; bne 10 5 12; jal 1 8].
Definition illegal_trap_handler : list asm := [li 10 1; li 17 93; ecall].
Definition breakpoint_handler : list asm := [mret_].
Definition exit_trap_handler : list asm := [mret_].
(** The text section: the labels 4, 8 and 12 above are [handle_ebreak],
    [illegal_trap_handler] and [exit_trap_handler]. *)
Definition trap_handler : list asm :=
  start_trap_handler ++ handle_ebreak ++ illegal_trap_handler ++ breakpoint_handler ++ exit_trap_handler.

(** [model_test.h] *)
Definition RVMODEL_PASS : list asm := [li 10 0; li 17 93; ecall].
Definition RVMODEL_FAIL : list asm := [li 10 1; li 17 93; ecall].

(** [csr_exception.c]: the instruction that traps, and [handle_trap], which is empty. *)
Definition trigger : asm := csrw mhartid 5.
Definition handle_trap : list asm := [mret_].

(** ** Listings in memory *)

(** Where the [k]-th instruction of the code at [h] lies: behind the one before it. *)
Fixpoint place `{Decoder} (f : Z → Z) (h : Z) (k : nat) : Z :=
  match k with
  | O => h
  | S k => let a := place f h k in u32 (a + (if is_compressed (isa_decode f a) then 2 else 4))
  end.

(** An operation the decoder may give for an instruction at [a], compressed or not;
    [target] is the address of a label. *)
Definition decodes_to (target_of : nat → Z) (a : Z) (i : asm) (d : op) : Prop :=
  match i with
  | li r v => tgt d = target.alu ∧ opt d = op_alu _add ∧ rd d = r ∧ rs1 d = 0 ∧ imm d = v ∧
      has_imm d = true ∧ use_pc d = false
  | csrr r c => tgt d = target.csr ∧ opt d = op_sys masks.csrrs ∧ rd d = r ∧ rs1 d = 0 ∧ imm d = csr_val c
  | csrw c r => tgt d = target.csr ∧ opt d = op_sys masks.csrrw ∧ rd d = 0 ∧ rs1 d = r ∧ imm d = csr_val c
  | bne r1 r2 l => tgt d = target.branch ∧ opt d = op_branch masks.bne ∧ rs1 d = r1 ∧ rs2 d = r2 ∧
      u32 (a + imm d) = target_of l
  | jal r l => tgt d = target.alu ∧ opt d = op_alu _jal ∧ rd d = r ∧ u32 (a + imm d) = target_of l ∧
      has_imm d = true ∧ use_pc d = true
  | mret_ => tgt d = target.mret
  | ecall => tgt d = target.ecall
  end.
(** The memory at [h] decodes to the listing. *)
Definition code_at `{Decoder} (f : Z → Z) (h : Z) (code : list asm) : Prop :=
  ∀ k i, code !! k = Some i → decodes_to (place f h) (place f h k) i (isa_decode f (place f h k)).

(** ** Running a listing *)

(** One instruction of a listing that stays in it: the index and the registers.  [pcs] tells
    the address of an instruction, for the link; CSRs are read in machine mode. *)
Definition listing_step (code : list asm) (pcs : nat → Z) (csrs : Z → Z) (k : nat) (R : Z → Z) : option (nat * (Z → Z)) :=
  match code !! k with
  | Some (li r v) => Some (S k, set_reg R r v)
  | Some (csrr r c) => Some (S k, set_reg R r (csrs (csr_val c)))
  | Some (bne r1 r2 l) => Some (if R r1 =? R r2 then S k else l, R)
  | Some (jal r l) => Some (l, set_reg R r (pcs (S k)))
  | _ => None
  end.
Fixpoint listing_steps (code : list asm) (pcs : nat → Z) (csrs : Z → Z) (n k : nat) (R : Z → Z) : option (nat * (Z → Z)) :=
  match n with
  | O => Some (k, R)
  | S n => '(k, R) ← listing_step code pcs csrs k R; listing_steps code pcs csrs n k R
  end.

Section listing.
Context {D : Decoder} (promised : alu → Z → Z → bool) (ς : soc) (code : list asm) (f : Z → Z) (h : Z).
Context (Hadd : ∀ x y, promised _add x y = true) (Hjal : ∀ x y, promised _jal x y = true).
Context (Hoff : compared ς = None) (Hh : is_u32 h).
Context (Hx : ∀ k, (k < length code)%nat → is_address_initialized (executable ς) (place f h k) = true).
Context (Hcode : code_at f h code).
(** Constants are words. *)
Definition asm_ok (i : asm) : Prop := match i with li _ v => is_u32 v | _ => True end.
Context (Hok : Forall asm_ok code).
Implicit Types (κ : cpu) (R : Z → Z).

(** The hart at an instruction of the listing with the registers [R]. *)
Definition at_index (k : nat) R κ : cpu := with_arch (mk_arch (place f h k) R f) κ.

Lemma set_reg_zero R r v : R 0 = 0 → set_reg R r v 0 = 0.
Proof. unfold set_reg. by destruct (Z.eqb_spec r 0) as [->|]. Qed.

Lemma step_at κ k R i : code !! k = Some i →
  let d := isa_decode f (place f h k) in
  decodes_to (place f h) (place f h k) i d ∧ link_of d (cpu_arch (at_index k R κ)) = place f h (S k) ∧
  cpu_step promised ς (at_index k R κ) = cpu_exec promised ς d (place f h (S k)) (at_index k R κ).
Proof.
  intros Hk d. split; [by apply Hcode|]. split; [done|].
  unfold cpu_step. simpl a_pc. rewrite (Hx k) by by eapply lookup_lt_Some.
  change (decoded_at (cpu_arch (at_index k R κ))) with d. change (link_of d (cpu_arch (at_index k R κ))) with (place f h (S k)).
  destruct (cpu_exec _ _ _ _ _) as [κ'|]; [|done]. simpl. unfold cpu_commit. by rewrite Hoff.
Qed.

Lemma listing_step_cpu κ k R k' R' : cpu_priv κ = machine → R 0 = 0 →
  listing_step code (place f h) (cpu_csr κ) k R = Some (k', R') →
  cpu_step promised ς (at_index k R κ) = Some (at_index k' R' κ) ∧ R' 0 = 0.
Proof.
  intros Hm H0 Hl. unfold listing_step in Hl. destruct (code !! k) as [i|] eqn:Hi; [|done].
  destruct (step_at κ k R i Hi) as (Hd & _ & ->). pose proof (Forall_lookup_1 _ _ _ _ Hok Hi) as Hwf.
  set (next := place f h (S k)) in *.
  unfold cpu_exec, timer_byte, isa_exec_to, isa_alu, done_after.
  destruct i as [r v|r c|c r|r1 r2 l|r l| |]; try done; simpl in Hd, Hwf.
  - destruct Hd as (-> & -> & -> & -> & -> & -> & ->). rewrite Hadd. simpl. injection Hl as <- <-.
    rewrite H0, (u32_small (0 + v)) by done. split; [done | by apply set_reg_zero].
  - destruct Hd as (-> & -> & Hrd & Hrs & Himm). injection Hl as <- <-.
    unfold cpu_csr_op, csr_reads, csr_writes, may_read. rewrite Hrd, Hrs, Himm. simpl. rewrite Hm.
    rewrite (proj2 (Z.leb_le _ _)) by (pose proof (Z.mod_pos_bound (csr_val c / 2 ^ 8) 4 ltac:(lia)); simpl privilege_val; lia).
    cbn [andb]. split; [done | by apply set_reg_zero].
  - destruct Hd as (-> & -> & -> & -> & Hto). simpl. injection Hl as <- <-. rewrite Hto.
    by destruct (Z.eqb_spec (R r1) (R r2)); case_decide.
  - destruct Hd as (-> & -> & -> & Hto & -> & ->). rewrite Hjal. simpl. injection Hl as <- <-.
    rewrite Hto. split; [done | by apply set_reg_zero].
Qed.

Lemma listing_steps_cpu n κ k R k' R' : cpu_priv κ = machine → R 0 = 0 →
  listing_steps code (place f h) (cpu_csr κ) n k R = Some (k', R') →
  cpu_steps promised ς n (at_index k R κ) = Some (at_index k' R' κ) ∧
  (∀ m, cpu_done κ = false →
     cpu_run promised ς (n + m) (at_index k R κ) = cpu_run promised ς m (at_index k' R' κ)).
Proof.
  intros Hm. revert k R. induction n as [|n IH]; intros k R H0; cbn [listing_steps].
  { intros [= <- <-]. done. }
  destruct (listing_step code (place f h) (cpu_csr κ) k R) as [[k1 R1]|] eqn:Hl; [|done]. intros Hn.
  destruct (listing_step_cpu κ k R k1 R1 Hm H0 Hl) as [Hs H1]. destruct (IH k1 R1 H1 Hn) as [Hk Hr].
  cbn [cpu_steps Nat.add cpu_run]. rewrite Hs. split; [exact Hk|]. intros m Hd. simpl cpu_done. rewrite Hd. by apply Hr.
Qed.

(** The environment call that exits, and [mret]. *)
Lemma listing_exit κ k R : code !! k = Some ecall → R 17 = 93 → is_u32 (R 10) → is_u32 (tohost_at ς) → cpu_done κ = false →
  cpu_run promised ς 1 (at_index k R κ) = Some (R 10).
Proof.
  intros Hk H17 H10 Ht Hd. destruct (step_at κ k R _ Hk) as (He & _ & Hs). simpl in He.
  cbn [cpu_run]. simpl cpu_done. rewrite Hd, Hs. unfold cpu_exec. rewrite He.
  unfold cpu_exit. simpl a_reg. rewrite H17. simpl. f_equal. by apply (overlay_read f _ (tohost_at ς)).
Qed.
Lemma listing_mret κ k R : code !! k = Some mret_ →
  cpu_step promised ς (at_index k R κ) = Some (cpu_return (at_index k R κ)).
Proof.
  intros Hk. destruct (step_at κ k R _ Hk) as (He & _ & Hs). simpl in He. rewrite Hs. unfold cpu_exec. by rewrite He.
Qed.

(** A trap into the listing. *)
Lemma trap_enters c κ : trap_vector κ = h → a_mem (cpu_arch κ) = f →
  cpu_trap c κ = at_index 0 (a_reg (cpu_arch κ)) (cpu_trap c κ).
Proof.
  intros Hv Hf. unfold cpu_trap, cpu_save, at_index, with_target, with_arch, with_csrs. simpl. by rewrite Hv, Hf.
Qed.
Lemma trap_cause_saved c κ : cpu_priv κ = machine → cpu_csr (cpu_trap c κ) (csr_val mcause) = trap_cause_val c.
Proof.
  intros Hm. unfold cpu_trap, cpu_save, trap_register. simpl. rewrite Hm. reflexivity.
Qed.
End listing.

(** ** What the handler of the architecture tests does *)

Section arch_test.
Implicit Types (csrs R : Z → Z) (pcs : nat → Z).

Lemma listing_next code pcs csrs n k R k1 R1 o :
  listing_step code pcs csrs k R = Some (k1, R1) → listing_steps code pcs csrs n k1 R1 = o →
  listing_steps code pcs csrs (S n) k R = o.
Proof. intros Hl Hn. cbn [listing_steps]. by rewrite Hl. Qed.

(** One instruction; at a branch, with the cause known. *)
Ltac listing_go := eapply listing_next; [reflexivity|].
Ltac listing_to k :=
  eapply listing_next; [reflexivity|];
  match goal with |- context [if ?b then _ else _] => replace (if b then _ else _) with k end.

(** For the causes 2 and 3 to the environment call that exits, for any other to [mret]. *)
Lemma handler_illegal pcs csrs R : csrs (csr_val mcause) = 2 →
  ∃ R', listing_steps trap_handler pcs csrs 6 0 R = Some (10%nat, R') ∧ R' 17 = 93 ∧ R' 10 = 1.
Proof.
  simpl csr_val. intros Hc. eexists. split.
  - do 2 listing_go. listing_to 3%nat; [|unfold set_reg; simpl; by rewrite Hc]. do 3 listing_go. reflexivity.
  - done.
Qed.
Lemma handler_breakpoint pcs csrs R : csrs (csr_val mcause) = 3 →
  ∃ R', listing_steps trap_handler pcs csrs 9 0 R = Some (10%nat, R') ∧ R' 17 = 93 ∧ R' 10 = 1.
Proof.
  simpl csr_val. intros Hc. eexists. split.
  - do 2 listing_go. listing_to 4%nat; [|unfold set_reg; simpl; by rewrite Hc].
    do 2 listing_go. listing_to 7%nat; [|unfold set_reg; simpl; by rewrite Hc]. do 3 listing_go. reflexivity.
  - done.
Qed.
Lemma handler_other pcs csrs R : csrs (csr_val mcause) ≠ 2 → csrs (csr_val mcause) ≠ 3 →
  ∃ R', listing_steps trap_handler pcs csrs 6 0 R = Some (12%nat, R') ∧
    ∀ i, R' i = if i =? 10 then csrs (csr_val mcause) else if i =? 5 then 3 else R i.
Proof.
  simpl csr_val. intros H2 H3. eexists. split.
  - do 2 listing_go. listing_to 4%nat; [|unfold set_reg; simpl; by rewrite (proj2 (Z.eqb_neq _ _))].
    do 2 listing_go. listing_to 12%nat; [|unfold set_reg; simpl; by rewrite (proj2 (Z.eqb_neq _ _))]. reflexivity.
  - intros i. unfold set_reg. rewrite !(Z.eqb_sym _ i). simpl. rewrite !andb_true_r.
    destruct (Z.eqb_spec i 5), (Z.eqb_spec i 10); (done || lia).
Qed.
(** The exit macros. *)
Lemma exit_listing pcs csrs R v : ∃ R', listing_steps [li 10 v; li 17 93; ecall] pcs csrs 2 0 R = Some (2%nat, R') ∧
  R' 17 = 93 ∧ R' 10 = v.
Proof. eexists. split; [do 2 listing_go; reflexivity | done]. Qed.
End arch_test.

(** ** The hart *)

Section hart.
Context {P : Platform} {C : CommonLib} {L : CommonLaws} {D : Decoder} {DO : DecoderOk}.
Implicit Types (s : model) (κ : cpu).

(** The abstract state a hart in machine mode shows. *)
Definition shown s : cpu :=
  mk_cpu (mk_arch (cur_pc s) (gpr s) (byte (pages (mem s)))) (router_byte (mem s)) (csrv s) machine (is_done s).
Lemma presents_shown s : mode s = set_mode machine → presents s (cur_pc s) (shown s).
Proof. by split. Qed.

(** The first cycle: the trap. *)
Lemma trap_cycle s c : mti_enabled (opts s) = false → is_address_initialized (allowed_pcs s) (cur_pc s) = true →
  let d := isa_decode (byte (pages (mem s))) (cur_pc s) in
  (tgt d = target.illegal ∧ c = exp_inst_illegal ∨ tgt d = target.ebreak ∧ c = exp_breakpoint ∨
   tgt d = target.ecall ∧ c = exp_ecall_from_m_mode ∧ gpr s 17 ≠ 93 ∨
   (∃ pcs a, decodes_to pcs a trigger d) ∧ c = exp_inst_illegal) →
  cpu_step promise_defined (soc_of s) (shown s) = Some (cpu_trap c (shown s)).
Proof.
  intros Hoff Hin d Hd. unfold cpu_step. simpl a_pc. change (executable (soc_of s)) with (allowed_pcs s). rewrite Hin.
  change (decoded_at (cpu_arch (shown s))) with d. clearbody d.
  assert (∀ κ, cpu_commit (soc_of s) κ = κ) as Hcommit by (intros κ; unfold cpu_commit, soc_of; simpl; by rewrite Hoff).
  unfold cpu_exec. destruct Hd as [[-> ->] | [[-> ->] | [(-> & -> & H17) | [(pcs & a & Hd) ->]]]]; simpl; rewrite ?Hcommit; try done.
  - unfold cpu_exit. simpl a_reg. by rewrite (proj2 (Z.eqb_neq _ _)).
  - destruct Hd as (-> & -> & Hrd & Hrs & Himm). unfold cpu_csr_op, csr_reads, csr_writes, may_read, may_write.
    rewrite Himm. simpl. by rewrite Hcommit.
Qed.

Lemma vector_shown s : wf_model s → trap_vector (shown s) = 4 * (csrv s (csr_val mtvec) / 4) ∧
  is_u32 (4 * (csrv s (csr_val mtvec) / 4)).
Proof.
  intros Hs. split; [done|]. pose proof (csrv_u32 s (csr_val mtvec) Hs). word.
Qed.
Lemma trap_handler_ok : Forall asm_ok trap_handler.
Proof. repeat (apply Forall_cons; split); by try apply Forall_nil. Qed.

Lemma defined_jumps x y : promise_defined _add x y = true ∧ promise_defined _jal x y = true.
Proof. by split. Qed.

(** A hart ready to trap into the handler of the architecture tests. *)
Record ready_to_trap s : Prop := {
  trap_rest : at_rest s;
  trap_no_timer : mti_enabled (opts s) = false;
  trap_running : is_done s = false;
  trap_machine : mode s = set_mode machine;
  trap_fetched : is_address_initialized (allowed_pcs s) (cur_pc s) = true
}.
(** A listing in memory, in executable ranges; and one at the trap vector. *)
Record runs s (h : Z) (code : list asm) : Prop := {
  listing_runs k : (k < length code)%nat →
    is_address_initialized (allowed_pcs s) (place (byte (pages (mem s))) h k) = true;
  listing_code : code_at (byte (pages (mem s))) h code
}.
Definition vector s : Z := 4 * (csrv s (csr_val mtvec) / 4).
Definition handles s (code : list asm) : Prop := runs s (vector s) code.

(** A trap with a handler that exits with [v]. *)
Lemma trap_exits s c n k R v : ready_to_trap s → handles s trap_handler →
  cpu_step promise_defined (soc_of s) (shown s) = Some (cpu_trap c (shown s)) →
  listing_steps trap_handler (place (byte (pages (mem s))) (vector s)) (cpu_csr (cpu_trap c (shown s))) n 0 (gpr s) = Some (k, R) →
  trap_handler !! k = Some ecall → R 17 = 93 → R 10 = v → is_u32 v →
  ∃ j s', (j ≤ S (n + 1))%nat ∧ ticks j s = Ok (tt, s') ∧ exited v s'.
Proof.
  intros [Hrest Hoff Hd Hm Hin] [Hx Hcode] Htrap Hl Hk H17 H10 Hv. pose proof Hrest as (Hs & _).
  destruct (vector_shown s Hs) as [Hvec _].
  destruct (cpu_run_simulates (promised := promise_defined) (S (n + 1)) s (shown s) v Hrest (presents_shown s Hm))
    as (j & s' & Hj & Ht & Hex & _); [|by exists j, s'].
  assert (compared (soc_of s) = None) as Hno by (simpl; by rewrite Hoff).
  cbn [cpu_run]. simpl cpu_done. rewrite Hd, Htrap. cbn [mbind option_bind].
  rewrite (trap_enters (byte (pages (mem s))) (vector s) c (shown s) Hvec eq_refl).
  destruct (listing_steps_cpu promise_defined (soc_of s) trap_handler (byte (pages (mem s))) (vector s)
    (λ x y, proj1 (defined_jumps x y)) (λ x y, proj2 (defined_jumps x y)) Hno Hx Hcode trap_handler_ok n
    (cpu_trap c (shown s)) 0 (gpr s) k R) as [_ Hr]; [done | by apply RegFile.reg_zero, Hs | done |].
  simpl a_reg. rewrite Hr by done. subst v.
  by apply (listing_exit promise_defined (soc_of s) trap_handler); try done; apply Hs.
Qed.

(** An exit sequence where the hart stands. *)
Lemma code_exits s code v : ready_to_trap s → runs s (cur_pc s) code → code = [li 10 v; li 17 93; ecall] → is_u32 v →
  ∃ j s', (j ≤ 3)%nat ∧ ticks j s = Ok (tt, s') ∧ exited v s'.
Proof.
  intros [Hrest Hoff Hd Hm Hin] [Hx Hcode] -> Hv. pose proof Hrest as (Hs & _).
  destruct (cpu_run_simulates (promised := promise_defined) 3 s (shown s) v Hrest (presents_shown s Hm))
    as (j & s' & Hj & Ht & Hex & _); [|by exists j, s'].
  assert (compared (soc_of s) = None) as Hno by (simpl; by rewrite Hoff).
  change (shown s) with (at_index (byte (pages (mem s))) (cur_pc s) 0 (gpr s) (shown s)).
  destruct (exit_listing (place (byte (pages (mem s))) (cur_pc s)) (cpu_csr (shown s)) (gpr s) v) as (R & Hl & H17 & H10).
  destruct (listing_steps_cpu promise_defined (soc_of s) _ (byte (pages (mem s))) (cur_pc s)
    (λ x y, proj1 (defined_jumps x y)) (λ x y, proj2 (defined_jumps x y)) Hno Hx Hcode
    ltac:(by repeat (apply Forall_cons; split)) 2 (shown s) 0 (gpr s) 2%nat R) as [_ Hr];
    [done | by apply RegFile.reg_zero, Hs | done |].
  change 3%nat with (2 + 1)%nat. rewrite (Hr 1%nat) by done. subst v.
  by apply (listing_exit promise_defined (soc_of s) [li 10 (R 10); li 17 93; ecall]); try done; apply Hs.
Qed.

(** A trap with a handler that returns. *)
Lemma trap_returns s c code n k R : ready_to_trap s → handles s code → Forall asm_ok code →
  cpu_step promise_defined (soc_of s) (shown s) = Some (cpu_trap c (shown s)) →
  listing_steps code (place (byte (pages (mem s))) (vector s)) (cpu_csr (cpu_trap c (shown s))) n 0 (gpr s) = Some (k, R) →
  code !! k = Some mret_ →
  ∃ s', ticks (S (S n)) s = Ok (tt, s') ∧ at_rest s' ∧ cur_pc s' = saved_pc c (cur_pc s) ∧
    (∀ i, 0 ≤ i < 32 → gpr s' i = R i) ∧
    mode s' = set_mode (privilege_of (csrv s (csr_val mstatus) / 2 ^ status.mpp mod 4)) ∧
    (∀ a, is_u32 a → byte (pages (mem s')) a = byte (pages (mem s)) a) ∧ is_done s' = false.
Proof.
  intros [Hrest Hoff Hd Hm Hin] [Hx Hcode] Hok Htrap Hl Hk. pose proof Hrest as (Hs & _).
  destruct (vector_shown s Hs) as [Hvec _].
  assert (compared (soc_of s) = None) as Hno by (simpl; by rewrite Hoff).
  destruct (listing_steps_cpu promise_defined (soc_of s) code (byte (pages (mem s))) (vector s)
    (λ x y, proj1 (defined_jumps x y)) (λ x y, proj2 (defined_jumps x y)) Hno Hx Hcode Hok n
    (cpu_trap c (shown s)) 0 (gpr s) k R) as [Hr _]; [done | by apply RegFile.reg_zero, Hs | done |].
  set (κ' := cpu_return (at_index (byte (pages (mem s))) (vector s) k R (cpu_trap c (shown s)))).
  assert (cpu_steps promise_defined (soc_of s) (S (S n)) (shown s) = Some κ') as Hsteps.
  { rewrite cpu_steps_snoc. cbn [cpu_steps]. rewrite Htrap. cbn [mbind option_bind].
    rewrite (trap_enters (byte (pages (mem s))) (vector s) c (shown s) Hvec eq_refl). simpl a_reg. rewrite Hr.
    cbn [mbind option_bind]. by apply (listing_mret promise_defined (soc_of s) code). }
  destruct (cpu_steps_simulate (promised := promise_defined) _ s (shown s) κ' Hrest (presents_shown s Hm) Hsteps)
    as (s' & Ht & Hs' & Hp & _).
  exists s'. do 2 (split; [done|]). destruct Hp as [[Hpc Hreg Hmem] _ _ Hmode Hdone].
  split; [exact (eq_sym Hpc)|]. split; [intros i Hi; symmetry; by apply Hreg|].
  split; [exact Hmode|]. split; [intros a Ha; symmetry; by apply Hmem|]. by rewrite Hdone.
Qed.
End hart.

(** ** Properties *)

(** C21: The trap handler of the architecture tests ends a test that traps.  Take a hart at
    rest in machine mode with the timer off and the handler of [trap_handler.S] at its trap
    vector, in executable memory, each of its instructions compressed or not as the assembler
    chose; let its next instruction be illegal or a breakpoint: within eleven cycles the hart
    is done and its exit code is 1.  An environment call that does not ask to exit is not
    handled: eight cycles later the hart is at the word the call begins in again (at the call
    itself unless that is compressed code's odd half-word), with a0 and t0 overwritten by the
    cause and 3, in the mode mstatus.MPP held. *)
Theorem arch_test_traps {P : Platform} {C : CommonLib} {L : CommonLaws} {D : Decoder} {DO : DecoderOk} (s : model) :
  ready_to_trap s → handles s trap_handler →
  let d := isa_decode (byte (pages (mem s))) (cur_pc s) in
  (tgt d = target.illegal ∨ tgt d = target.ebreak →
     ∃ k s', (k ≤ 11)%nat ∧ ticks k s = Ok (tt, s') ∧ exited 1 s') ∧
  (tgt d = target.ecall → gpr s 17 ≠ 93 →
     ∃ s', ticks 8 s = Ok (tt, s') ∧ at_rest s' ∧ is_done s' = false ∧ cur_pc s' = 4 * (cur_pc s / 4) ∧
       (∀ i, 0 ≤ i < 32 → gpr s' i = if i =? 10 then 17 else if i =? 5 then 3 else gpr s i) ∧
       mode s' = set_mode (privilege_of (csrv s (csr_val mstatus) / 2 ^ status.mpp mod 4))).
Proof.
  intros Hready Hh d. pose proof Hready as [_ Hoff _ _ Hin].
  pose proof (λ c, trap_cause_saved c (shown s) eq_refl) as Hcause. split.
  - intros Hd.
    assert (tgt d = target.illegal ∨ tgt d = target.ebreak) as [Ht | Ht] by done.
    + destruct (handler_illegal (place (byte (pages (mem s))) (vector s)) _ (gpr s) (Hcause exp_inst_illegal)) as (R & Hl & H17 & H10).
      destruct (trap_exits s exp_inst_illegal 6 10%nat R 1) as (j & s' & Hj & Hr);
        [done | done | by apply trap_cycle; [done..|]; left | done | done | done | done | lia |].
      exists j, s'. split; [lia | done].
    + destruct (handler_breakpoint (place (byte (pages (mem s))) (vector s)) _ (gpr s) (Hcause exp_breakpoint)) as (R & Hl & H17 & H10).
      destruct (trap_exits s exp_breakpoint 9 10 R 1) as (j & s' & Hj & Hr);
        [done | done | by apply trap_cycle; [done..|]; right; left | done | done | done | done | lia |].
      exists j, s'. split; [lia | done].
  - intros Ht H17.
    destruct (handler_other (place (byte (pages (mem s))) (vector s)) (cpu_csr (cpu_trap exp_ecall_from_m_mode (shown s))) (gpr s))
      as (R & Hl & HR); [by rewrite Hcause.. |].
    destruct (trap_returns s exp_ecall_from_m_mode trap_handler 6 12 R) as (s' & Hr & Hs' & Hpc & Hreg & Hm & _ & Hd);
      [done | done | apply trap_handler_ok | by apply trap_cycle; [done..|]; right; right; left | done | done |].
    exists s'. do 4 (split; [done|]). split; [|done]. intros i Hi. by rewrite Hreg, HR, Hcause.
Qed.

(** The test csr_exception ends in user mode.  When the hart, at rest in machine mode
    with the timer off, executes the write to mhartid and the empty handler is at the trap
    vector, two cycles later it is past that instruction with all registers and the memory
    as they were, but in the mode mstatus.MPP held, which is user mode out of reset, not in
    the mode the test was in. *)
Theorem csr_exception_changes_mode {P : Platform} {C : CommonLib} {L : CommonLaws} {D : Decoder} {DO : DecoderOk}
    (s : model) :
  ready_to_trap s → handles s handle_trap → runs s (cur_pc s) [trigger] →
  ∃ s', ticks 2 s = Ok (tt, s') ∧ at_rest s' ∧ is_done s' = false ∧ cur_pc s' = u32 (4 * (cur_pc s / 4) + 4) ∧
    (∀ i, 0 ≤ i < 32 → gpr s' i = gpr s i) ∧
    (∀ a, is_u32 a → byte (pages (mem s')) a = byte (pages (mem s)) a) ∧
    mode s' = set_mode (privilege_of (csrv s (csr_val mstatus) / 2 ^ status.mpp mod 4)).
Proof.
  intros Hready Hh [_ Hd]. pose proof Hready as [_ Hoff _ _ Hin]. specialize (Hd 0%nat trigger eq_refl).
  destruct (trap_returns s exp_inst_illegal handle_trap 0 0 (gpr s)) as (s' & Hr & Hs' & Hpc & Hreg & Hm & Hmem & Hdone);
    [done | done | by apply Forall_cons | apply trap_cycle; [done..|]; right; right; right; split; [eauto | done] | done | done |].
  by exists s'.
Qed.

(** The exit sequences of the architecture tests.  A hart at rest in machine mode, running
    and with the timer off, whose program counter stands at the code of [RVMODEL_PASS], in
    executable memory, is done after at most three cycles with exit code 0; at
    [RVMODEL_FAIL], and at [illegal_trap_handler], the code is 1. *)
Theorem rvmodel_exits {P : Platform} {C : CommonLib} {L : CommonLaws} {D : Decoder} {DO : DecoderOk}
    (s : model) (code : list asm) :
  ready_to_trap s → runs s (cur_pc s) code →
  let ends v := ∃ k s', (k ≤ 3)%nat ∧ ticks k s = Ok (tt, s') ∧ exited v s' in
  (code = RVMODEL_PASS → ends 0) ∧ (code = RVMODEL_FAIL ∨ code = illegal_trap_handler → ends 1).
Proof. intros Hr Hc ends. split; [|intros [?|?]]; intros; subst; by eapply code_exits. Qed.

(** ** Witnesses *)

Section witnesses.
#[local] Existing Instances wrapping ref_common.

(** The decoder of [Common] with the instructions of the handler that it leaves out: [bne]
    and [jal], and the compressed [c.li] and [c.jal]. *)
Definition handler_decode (w : Z) : op :=
  let rd := field w 7 5 in let r1 := field w 15 5 in let r2 := field w 20 5 in
  if (field w 0 7 =? 0x63) && (field w 12 3 =? 1) then
    mk_op (field w 8 4 * 2 + field w 25 6 * 2 ^ 5 + field w 7 1 * 2 ^ 11 + field w 31 1 * (2 ^ 32 - 2 ^ 12))
      (op_branch masks.bne) target.branch 0 r1 r2 true false false
  else if field w 0 7 =? 0x6F then
    mk_op (field w 21 10 * 2 + field w 20 1 * 2 ^ 11 + field w 12 8 * 2 ^ 12 + field w 31 1 * (2 ^ 32 - 2 ^ 20))
      (op_alu _jal) target.alu rd 0 0 true true false
  else ref_decode false w.
Definition handler_decode16 (w : Z) : op :=
  if (field w 0 2 =? 1) && (field w 13 3 =? 2) then
    mk_op (field w 2 5 + field w 12 1 * (2 ^ 32 - 2 ^ 5)) (op_alu _add) target.alu (field w 7 5) 0 0 true false true
  else if (field w 0 2 =? 1) && (field w 13 3 =? 1) then
    mk_op (field w 3 3 * 2 + field w 11 1 * 2 ^ 4 + field w 2 1 * 2 ^ 5 + field w 7 1 * 2 ^ 6 + field w 6 1 * 2 ^ 7
        + field w 9 2 * 2 ^ 8 + field w 8 1 * 2 ^ 10 + field w 12 1 * (2 ^ 32 - 2 ^ 11))
      (op_alu _jal) target.alu 1 0 0 true true true
  else ref_decode true w.
#[local] Instance handler_decoder : Decoder := {| decode := handler_decode; decode16 := handler_decode16 |}.
Local Ltac field_ranges w :=
  repeat match goal with |- context [field w ?lo ?n] =>
    lazymatch goal with _ : 0 <= field w lo n < _ |- _ => fail | _ => pose proof (field_range w lo n ltac:(lia)) end end.
#[local] Instance handler_decoder_ok : @DecoderOk handler_decoder.
Proof.
  split; intros w; try intros _; change (decode w) with (handler_decode w); change (decode16 w) with (handler_decode16 w);
    unfold handler_decode, handler_decode16.
  - field_ranges w. destruct (_ && _); [split; simpl; (done || lia)|]. destruct (_ =? _); [split; simpl; (done || lia)|].
    apply ref_decode_wf.
  - field_ranges w. do 2 (destruct (_ && _); [split; simpl; (done || lia)|]). apply ref_decode_wf.
  - destruct (_ && _); [done|]. destruct (_ =? _); [done|]. exact (decode_size (DecoderOk := ref_decoder_ok) w).
  - do 2 (destruct (_ && _); [done|]). exact (decode16_size (DecoderOk := ref_decoder_ok) w).
Qed.

(** The handler at address 0, where mtvec points out of reset, as the assembler emits it for
    rv32imc: the jumps and all constants but 93 are compressed; and behind it, at 42, the
    instruction that traps. *)
Definition handled (ws : list Z) (pc : Z) : model :=
  model_of sample_options pc [(0, 0xFFF)] 0x2000 (assemble ws 0 sample_router).
Definition handler_words : list Z :=
  [0x34202573; 0x13634289; 0x20390055; 0x34202573; 0x1A63428D; 0x20090055; 0x08934505; 0x007305D0; 0x00730000;
   0x00733020; 0x00003020].

Lemma handled_at_rest ws pc : is_u32 pc → Forall (λ w, is_u32 w) ws → at_rest (handled ws pc).
Proof.
  intros. apply at_rest_model_of; simpl; try lia; [|by split].
  apply wf_assemble; [done | lia | apply sample_router_ok].
Qed.

(** A listing checked instruction by instruction, its places and operations evaluated once. *)
Fixpoint places_at (f : Z → Z) (a : Z) (n : nat) : list (Z * op) :=
  match n with
  | O => []
  | S n => let d := isa_decode f a in (a, d) :: places_at f (u32 (a + (if is_compressed d then 2 else 4))) n
  end.
Lemma place_shift f h k : place f h (S k) = place f (place f h 1) k.
Proof. induction k as [|k IH]; [done|]. change (place f h (S (S k))) with
  (u32 (place f h (S k) + (if is_compressed (isa_decode f (place f h (S k))) then 2 else 4))). by rewrite IH. Qed.
Lemma places_lookup f h n k : (k < n)%nat → places_at f h n !! k = Some (place f h k, isa_decode f (place f h k)).
Proof.
  revert h k. induction n as [|n IH]; intros h [|k] Hk; [lia | lia | done |]. simpl lookup.
  rewrite place_shift. apply IH. lia.
Qed.
Lemma runs_checked s h code ps : places_at (byte (pages (mem s))) h (length code) = ps →
  Forall (λ p, is_address_initialized (allowed_pcs s) p.1 = true) ps →
  Forall2 (λ i p, decodes_to (λ l, default 0 (fst <$> ps !! l)) p.1 i p.2) code ps →
  Forall (λ i, match i with bne _ _ l | jal _ l => (l < length code)%nat | _ => True end) code →
  runs s h code.
Proof.
  intros <- Hx Hd Hl. split.
  - intros k Hk. by apply (Forall_lookup_1 _ _ k _ Hx (places_lookup _ _ _ _ Hk)).
  - intros k i Hi. pose proof (lookup_lt_Some _ _ _ Hi) as Hk.
    pose proof (Forall2_lookup_lr _ _ _ _ _ _ Hd Hi (places_lookup _ _ _ _ Hk)) as Hi'.
    pose proof (Forall_lookup_1 _ _ _ _ Hl Hi) as Ht. destruct i; simpl in *; try done;
      by rewrite (places_lookup _ _ _ _ Ht) in Hi'.
Qed.

Lemma handler_assembled : handles (handled handler_words 42) trap_handler.
Proof.
  refine (runs_checked _ _ _ _ eq_refl _ _ _).
  1,2: match goal with |- context [places_at ?f ?h ?n] => let l := eval vm_compute in (places_at f h n) in
      replace (places_at f h n) with l by (vm_compute; reflexivity) end.
  - repeat (apply Forall_cons; split); [by vm_compute..|by apply Forall_nil].
  - repeat (apply Forall2_cons; split); [by repeat split; vm_compute..|by apply Forall2_nil].
  - repeat (apply Forall_cons; split); [simpl; (done || lia)..|by apply Forall_nil].
Qed.

Lemma trapping_ready ws pc : is_u32 pc → is_address_initialized [(0, 0xFFF)] pc = true →
  Forall (λ w, is_u32 w) ws → ready_to_trap (handled ws pc).
Proof. intros Hpc Hin Hws. split; [by apply handled_at_rest | done | done | done |]. simpl. unfold cur_pc. simpl. by rewrite ?pc_get_of. Qed.

Lemma arch_test_traps_witness :
  ∃ k s', (k ≤ 11)%nat ∧ ticks k (handled handler_words 42) = Ok (tt, s') ∧ exited 1 s'.
Proof.
  refine (proj1 (arch_test_traps (handled handler_words 42) _ _) _).
  - apply trapping_ready; [lia | done | repeat constructor; lia].
  - exact handler_assembled.
  - left. by vm_compute.
Defined.
Lemma csr_exception_changes_mode_witness :
  ∃ s', ticks 2 (handled [0x30200073; 0xF1429073] 4) = Ok (tt, s') ∧ cur_pc s' = 8 ∧ mode s' = set_mode user.
Proof.
  destruct (csr_exception_changes_mode (handled [0x30200073; 0xF1429073] 4)) as (s' & Ht & _ & _ & Hpc & _ & _ & Hm).
  - apply trapping_ready; [lia | done | repeat constructor; lia].
  - split; [intros [|k] Hk; [by vm_compute | simpl in Hk; lia]|]. intros [|k] i Hi; [|done]. injection Hi as <-. by vm_compute.
  - split; [intros [|k] Hk; [by vm_compute | simpl in Hk; lia]|]. intros [|k] i Hi; [|done]. injection Hi as <-.
    by repeat split; vm_compute.
  - exists s'. split; [exact Ht|]. split; [exact Hpc | exact Hm].
Defined.

(** [RVMODEL_PASS] with its first constant compressed. *)
Lemma rvmodel_exits_witness :
  ∃ k s', (k ≤ 3)%nat ∧ ticks k (handled [0x08934501; 0x007305D0; 0] 0) = Ok (tt, s') ∧ exited 0 s'.
Proof.
  refine (proj1 (rvmodel_exits (handled [0x08934501; 0x007305D0; 0] 0) RVMODEL_PASS _ _) eq_refl).
  - apply trapping_ready; [lia | done | repeat constructor; lia].
  - split; [intros k Hk; simpl in Hk | intros k i Hi; pose proof (lookup_lt_Some _ _ _ Hi) as Hk; simpl in Hk];
      (destruct k as [|[|[|k]]]; [..|lia]); try (injection Hi as <-); by repeat split; vm_compute.
Defined.
End witnesses.
